(* ===== verification/_CoqProject ===== *)
-Q . S2P
Prelude.v
GoStrings.v
GoTime.v
Json.v
GoSort.v
Base64.v
Regex.v
Pii.v
GoUrl.v
GoFS.v
GoTree.v
A2A.v
GoExec.v
GoPath.v
GoMux.v
Iter.v
Nudger.v
UserHooks.v
Jsonc.v
IdeConfig.v
Settings.v
GoFlag.v
GoFmt.v
BuildInfo.v
Console.v
Assets.v
Writers.v
Metrics.v
Store.v
Executor.v
Responder.v
TaskStore.v
Registry.v
Peers.v
Mcp.v
EndToEnd.v
Update.v
Federation.v
Mdns.v
Bridge.v
Guard.v
Server.v
Tck.v
Push.v
Install.v
Cert.v
Service.v
Uninstall.v
Doctor.v
Worker.v
Cli.v
