(* ===== verification/Prelude.v ===== *)
(** * A verification library for a2abridge

    a2abridge connects coding agents: each runs a bridge process that speaks the
    A2A protocol over HTTP to its peers and MCP over standard input and output to
    its host. A message from a peer becomes a task and an entry of the durable
    inbox; the host reads the inbox and answers with [a2a_complete_task]; messages
    the host sends create tasks at peers, whose replies come back into the inbox.
    A directory process lists the agents of a machine. Besides, the program
    configures the IDEs of the user, wakes a live agent or runs a headless one when
    a message arrives, and installs, checks, updates and removes itself from the
    command line.

    The library translates the Go sources under src/ into executable definitions
    and proves what makes each part correct. Every definition that models code is
    preceded by a comment naming the file and the function or lines it models.

    ** Files, in dependency order

    Language and libraries.
    - Prelude: results, a state monad for methods, reachability, in-place
      compaction of slices, counting.
    - GoStrings, GoTime, Json, GoSort, Base64, GoUrl, GoFS, GoExec, GoFlag, GoFmt,
      GoPath, GoTree, GoMux: what the program uses of Go's standard library. Strings
      are lists of bytes with their UTF-8 decoding; integers are [Z] with 64-bit
      wrap-around where it matters ([wrap64], [atoi]); times carry wall clock,
      monotonic clock and zone; files are a map with injected read, write and
      rename failures, and a tree adds the directories; commands are an oracle
      that sees everything done before; GoMux matches requests with patterns as
      [ServeMux] does; GoUrl parses URLs with the host rules of Go 1.26.
    - Iter: push iterators as functions of their consumer, and [obeys], the
      protocol an iterator keeps with every consumer.
    - Regex: repeated character classes with leftmost-first matching, proved
      sound and complete against their meaning as sets of words.
    - A2A: what the program sees of the SDK, as the class [A2A] of operations, the
      class [A2ALaws] of documented behaviour, and one instance, [reference_sdk], on
      which the witnesses run.

    The bridge.
    - Metrics: internal/metrics/metrics.go.
    - Store: internal/agent/store.go. The inbox, the registered outgoing tasks, the
      snapshot file, the janitor, and the interleaving of polls and
      subscriptions as a step relation over the methods' critical sections.
    - Executor: internal/agent/executor.go and utc.go. An execution is a state
      machine driven by the SDK's consumer and by [CompleteTask]; [bridge_step]
      interleaves executions.
    - TaskStore: internal/agent/taskstore.go, over optimistic versions.
    - Guard: internal/agent/guard.go and cardcache.go, the HTTP middleware.
    - Server: internal/agent/server.go. The limit on bodies, the routes, the guard
      in front of the SDK's two bindings, and the executor the SDK drives.
    - Push: internal/agent/push.go. Single posts, retries ([transient] and
      [accepted] say which answers end them), and the queues and workers as a step
      relation.
    - Peers, Mcp: internal/agent/peers.go and mcp.go. The tools of the host, the
      peer listing, the heartbeat with the requests it sends or the panic it ends
      in, the subscription to a reply. Mcp builds on Store, Executor, Pii and Peers.
    - Pii: internal/security/pii.go.
    - Responder, Nudger, UserHooks: the three reactions to an arrival, of
      internal/agent/responder.go, nudger.go and userhooks.go. Responder reaches
      the executor through the class [TaskCompleter].
    - EndToEnd: two bridges in conversation, through the tools, the executor and the
      poll; the SDK between them is what its server keeps of an execution's events.
    - Federation, Mdns: internal/security/tls.go and internal/mdns/mdns.go.
    - Bridge: internal/cli/bridge.go, the process that starts and stops the above.

    Around it.
    - Registry: internal/directory/registry.go, its routes over GoMux.
    - Jsonc, IdeConfig: internal/ideconfig, commented JSON, with a grammar of
      literals and comments as its specification, and what the writers do to a
      configuration; Settings: which objects these are; Writers: the table of
      the IDEs, their paths and the files each may touch.
    - BuildInfo, Update: internal/buildinfo/version.go and internal/cli/update.go.
    - Tck: cmd/a2abridge-tck/main.go, the conformance server and its scenarios.

    The command line.
    - Console: the world of a command: the tree of files, the two output streams,
      the external commands run and the operations asked of the service manager,
      with the class [System] of what the operating system answers. The class
      [Keeps] collects what a command leaves alone.
    - Assets: internal/assets/assets.go, the embedded files as the class [Embedded].
    - Install, Uninstall, Cert, Service, Doctor, Worker: the files of internal/cli
      of these names, each command whole; Service holds directory.go, Cert also
      GenerateEd25519Cert of internal/security/tls.go.
    - Cli: internal/cli/cli.go, completion.go, version.go, the registration done
      by the other files and the dispatch over all of them.

    ** What the theorems show

    Delivery. Reachable states of the store are well formed ([store_reachable_ok]);
    a message identifier is queued, announced and persisted once
    ([deliverIncoming_spec]); the reply to an outgoing task is announced at most once
    per registration under every interleaving ([reply_delivered_once]), and polling
    is a sequence of such critical sections ([PollOutgoing_refines]). A snapshot
    survives a restart ([persist_load]) and a failing disk ([persist_atomic]). An
    execution answers with the first reply handed over, and the tasks with a waiter
    are those of the running executions ([executor_replies], [conversation]); a tool call registers what it sent ([send_message_tracks]); a
    question sent from one bridge reaches the other's inbox and its answer comes
    back, once ([question_and_answer]).

    What reaches the SDK. Every path has one route ([routing]), and through none of
    them goes a request that is incomplete, too long or of another version
    ([only_checked_requests], [version_gate]).

    Concurrency of the task store and of the webhooks: [no_lost_update],
    [List_pages_complete], [EvictTerminal_spec]; [push_in_order], [close_drains]
    (from every closed state the workers can run to their end), [deliver_spec] (which
    answers are posted again, how often and when).

    What leaves the agent. No detector matches a screened text ([screen_clean]) and
    whatever tool is called, only screened text is handed to a peer
    ([outbound_screened]). Peers are authenticated ([federation_gate]); requests are
    version-checked and pinned ([version_gate]); webhooks keep to allowed addresses
    ([isBlockedIP_v4]) and the token to the hops described ([redirect_token]).

    Presence. A heartbeat that arrives in time keeps an agent listed, and one whose
    directory URL does not parse panics ([heartbeat_listed]); the directory lists only valid addresses ([registry_invariant]), a sweep of the
    local network each address once ([Browse_spec]).

    The user's files. Registration changes one entry, keeps a backup, is atomic and
    idempotent ([setMCPServerEntry_spec], [install_once], [hook_merge_spec]), removal
    takes out nothing else ([strip_entries_spec]), and what is registered and
    removed again gives back exactly the user's object, up to the order of members,
    unless it held something empty that the removal also drops
    ([uninstall_restores]); exactly the comments and the trailing commas are
    stripped ([strip_comments_spec]), a written
    configuration reads back ([config_roundtrip]), and whatever is read stays well
    formed under every change ([configuration_typed]). The self-update installs only a verified
    binary, can be rolled back, never goes back and changes nothing with --check
    ([downloadAndReplace_spec], [compareVersions_order], [RunUpdate_spec]).

    Reactions and process: [nudges_coalesce], [responder_handles],
    [extract_first_block], [runHook_spec], [RunBridge_lifecycle], [resolve_spec].

    The commands. Dispatch, help and the completion scripts know the same names
    ([Run_spec]).
    Without --apply nothing is installed and with --dry-run nothing removed, and
    either command touches the program's files only ([install_safe],
    [uninstall_safe]); the orders in which the service manager is called
    ([svcInstall_spec]); a worker's prompt is typed once, as one argument
    ([workerStart_spec]); a health check changes nothing and fails for a
    configuration it cannot read ([RunDoctor_spec]); a certificate and its key belong
    together, and a failure leaves one of the cases listed
    ([GenerateEd25519Cert_spec]). The conformance server yields what the scenario of
    the message yields, keeps the iterator protocol and ends a task's turn with its
    last event ([execution_protocol]).

    Lemmas beside these state where the code departs from its own documentation
    ([federation_same_unit], [directory_error_fails], [check_lookup_failed],
    [completion_help], [overlapping_comment] and others); no property relies on
    them.

    ** Bounds and fuel

    Fuel is chosen from the input and proved enough where a result depends on it:
    UTF-8 decoding takes the length of the string ([segs_fuel_enough]), the JSON
    reader one unit per byte ([unmarshal_print] covers every text the program
    prints, up to the decoder's nesting limit of 10000), the scan of an expression
    one per character ([scan] advances by a character or a non-empty match), the
    port loop its eleven attempts, the wait for a worker's pane its twenty polls
    ([poll_fuel]: two seconds in steps of 100 ms). Delivery of a webhook recurses on the attempts of
    its policy, draining on a measure of the queues.

    ** What is not modelled

    - The texts of the errors of [net/url] and the tables of [unicode] beyond ASCII
      (parameters).
    - The SDK, the MCP library, zeroconf, TOML, the HTTP transport, TLS handshakes,
      certificates, SHA-256, gzip, tar and zip are parameters: classes or arguments.
      So are the service manager, tmux, the embedded files, and [strconv.ParseFloat].
    - Logging, and the usage texts package [flag] prints.
    - Of a directory its mode, and that it stays when the write it was made for
      fails. The output of external commands is kept as one text; how the two
      streams of one command interleave is not.
    - Construction of HTTP clients and transports (NewPeers, Release), the start of
      the goroutine a user hook runs in (FireHook), and the channels that stop the
      janitors of the task store and the directory.
    - Requests whose path is sent with escapes are routed by the model, but the
      theorem about the routes speaks of paths without them.
    - Memory exhaustion, and data races below the granularity of the mutexes: a
      critical section is one step. *)
From stdpp Require Import base gmap strings list fin_maps pretty sorting.
From Stdlib Require Export ZArith Lia.

Set Default Proof Using "Type".

(** * Results: a value or an error, as Go's [(T, error)] pairs *)

Inductive result (E A : Type) : Type :=
| Ok (a : A)
| Err (e : E).
Arguments Ok {E A} a.
Arguments Err {E A} e.

Definition is_ok {E A} (r : result E A) : bool :=
  match r with Ok _ => true | Err _ => false end.

#[export] Instance result_ret {E} : MRet (result E) := fun A a => Ok a.
#[export] Instance result_bind {E} : MBind (result E) := fun A B f r =>
  match r with Ok a => f a | Err e => Err e end.

Lemma result_bind_ok {E A B} (f : A → result E B) (r : result E A) b :
  r ≫= f = Ok b ↔ ∃ a, r = Ok a ∧ f a = Ok b.
Proof. destruct r; cbn; naive_solver. Qed.

(** * A state monad: Go methods that read and write one shared record *)

Definition ST (S A : Type) : Type := S → A * S.

#[export] Instance ST_ret {S} : MRet (ST S) := fun A a s => (a, s).
#[export] Instance ST_bind {S} : MBind (ST S) := fun A B f m s =>
  let '(a, s') := m s in f a s'.

Definition get {S} : ST S S := fun s => (s, s).
Definition put {S} (s : S) : ST S unit := fun _ => (tt, s).
Definition modify {S} (f : S → S) : ST S unit := fun s => (tt, f s).
Definition skip {S} : ST S unit := mret tt.
(** [when b m]: Go's [if b { m }] for a statement [m]. *)
Definition when {S} (b : bool) (m : ST S unit) : ST S unit := if b then m else skip.

Definition exec {S A} (m : ST S A) (s : S) : S := (m s).2.
Definition eval {S A} (m : ST S A) (s : S) : A := (m s).1.

Lemma ST_bind_run {S A B} (m : ST S A) (f : A → ST S B) s :
  (m ≫= f) s = f (eval m s) (exec m s).
Proof. unfold mbind, ST_bind, eval, exec. by destruct (m s). Qed.

Lemma exec_bind {S A B} (m : ST S A) (f : A → ST S B) s :
  exec (m ≫= f) s = exec (f (eval m s)) (exec m s).
Proof. unfold exec at 1. by rewrite ST_bind_run. Qed.

Lemma eval_bind {S A B} (m : ST S A) (f : A → ST S B) s :
  eval (m ≫= f) s = eval (f (eval m s)) (exec m s).
Proof. unfold eval at 1. by rewrite ST_bind_run. Qed.

(** * Reachability in a step relation *)

Section star.
Context {St : Type} (R : St → St → Prop).
Inductive star : St → St → Prop :=
| star_refl s : star s s
| star_step s1 s2 s3 : R s1 s2 → star s2 s3 → star s1 s3.

Lemma star_invariant (P : St → Prop) :
  (∀ s s', P s → R s s' → P s') → ∀ s s', star s s' → P s → P s'.
Proof. intros HR s s' Hs. induction Hs; eauto. Qed.

Lemma star_trans s1 s2 s3 : star s1 s2 → star s2 s3 → star s1 s3.
Proof. induction 1; eauto using star. Qed.
End star.

Create HintDb bridge discriminated.
#[export] Hint Constructors star : bridge.

(** * In-place compaction of a Go slice

    [kept := s\[:0\]; for i := range s { if keep { kept = append(kept, s\[i\]) } }]
    overwrites the backing array of [s] from the left. [compact] performs the
    writes one by one on the array and returns it with the length of [kept]. *)

Section compact.
Context {A : Type} (keep : A → bool).

Fixpoint compact_loop (fuel i k : nat) (arr : list A) : list A * nat :=
  match fuel with
  | O => (arr, k)
  | S fuel' =>
      match arr !! i with
      | None => (arr, k)
      | Some e =>
          if keep e then compact_loop fuel' (S i) (S k) (<[k:=e]> arr)
          else compact_loop fuel' (S i) k arr
      end
  end.

Definition compact (arr : list A) : list A :=
  let '(arr', k) := compact_loop (length arr) 0 0 arr in take k arr'.
End compact.

(** boolean filter, the reference for [compact] *)
Fixpoint filterb {A} (p : A → bool) (l : list A) : list A :=
  match l with
  | [] => []
  | x :: l' => if p x then x :: filterb p l' else filterb p l'
  end.

Lemma filterb_app {A} (p : A → bool) l1 l2 :
  filterb p (l1 ++ l2) = filterb p l1 ++ filterb p l2.
Proof. induction l1 as [|x l1 IH]; simpl; [done|]. rewrite IH. by destruct (p x). Qed.

Lemma filterb_length {A} (p : A → bool) l : length (filterb p l) ≤ length l.
Proof. induction l as [|x l IH]; simpl; [lia|]. destruct (p x); simpl; lia. Qed.

Lemma elem_of_filterb {A} (p : A → bool) l x :
  x ∈ filterb p l ↔ p x = true ∧ x ∈ l.
Proof.
  induction l as [|y l IH]; simpl; [split; [intros []%not_elem_of_nil|intros [_ []%not_elem_of_nil]]|].
  destruct (p y) eqn:E; rewrite !elem_of_cons; naive_solver congruence.
Qed.

Lemma filterb_full {A} (p : A → bool) l :
  length (filterb p l) = length l → filterb p l = l.
Proof.
  induction l as [|x l IH]; simpl; [done|].
  pose proof (filterb_length p l).
  destruct (p x); simpl; intros; [f_equal; auto|lia].
Qed.

Lemma filterb_all {A} (p : A → bool) l :
  Forall (λ x, p x = true) l → filterb p l = l.
Proof. induction 1 as [|x l Hx _ IH]; simpl; [done|]. by rewrite Hx, IH. Qed.

Lemma filterb_none {A} (p : A → bool) l :
  Forall (λ x, p x = false) l → filterb p l = [].
Proof. induction 1 as [|x l Hx _ IH]; simpl; [done|]. by rewrite Hx. Qed.

Lemma filterb_idem {A} (p : A → bool) l : filterb p (filterb p l) = filterb p l.
Proof. apply filterb_all, Forall_forall. intros x Hx. by apply elem_of_filterb in Hx as [? _]. Qed.

Lemma filterb_ext {A} (p q : A → bool) l :
  (∀ x, x ∈ l → p x = q x) → filterb p l = filterb q l.
Proof.
  induction l as [|x l IH]; simpl; intros H; [done|].
  rewrite (H x) by set_solver. rewrite IH by set_solver. done.
Qed.

Lemma filterb_sublist {A} (p : A → bool) l : filterb p l `sublist_of` l.
Proof.
  induction l as [|x l IH]; simpl; [done|].
  destruct (p x); by constructor.
Qed.

Lemma compact_loop_spec {A} (keep : A → bool) rest : ∀ i k arr,
  drop i arr = rest → k ≤ i →
  let '(arr', k') := compact_loop keep (length rest) i k arr in
  take k' arr' = take k arr ++ filterb keep rest.
Proof.
  induction rest as [|e rest IH]; intros i k arr Hd Hk; simpl.
  { by rewrite app_nil_r. }
  assert (Hi : arr !! i = Some e) by (rewrite <-(Nat.add_0_r i), <-lookup_drop, Hd; done).
  assert (Hd' : drop (S i) arr = rest) by (rewrite <-Nat.add_1_r, <-drop_drop, Hd; done).
  rewrite Hi. destruct (keep e); [|apply IH; auto with lia].
  pose proof (lookup_lt_Some _ _ _ Hi).
  specialize (IH (S i) (S k) (<[k:=e]> arr)).
  rewrite drop_insert_lt in IH by lia. specialize (IH Hd' ltac:(lia)).
  destruct (compact_loop _ _ _ _ _) as [arr' k'].
  rewrite IH, (take_S_r _ _ e) by (apply list_lookup_insert_eq; lia).
  rewrite take_insert_ge by lia. by rewrite <-(assoc_L app).
Qed.

(** Two slices share the array the loop writes: the compacted one is as long as
    the filter, and an array nothing is dropped from is unchanged. *)
Lemma compact_loop_len {A} (keep : A → bool) rest : ∀ i k arr,
  drop i arr = rest → k ≤ i →
  (compact_loop keep (length rest) i k arr).2 = k + length (filterb keep rest).
Proof.
  induction rest as [|e rest IH]; intros i k arr Hd Hki; simpl; [lia|].
  assert (Hi : arr !! i = Some e) by (rewrite <-(Nat.add_0_r i), <-lookup_drop, Hd; done).
  assert (Hd' : drop (S i) arr = rest) by (rewrite <-Nat.add_1_r, <-drop_drop, Hd; done).
  rewrite Hi. destruct (keep e) eqn:Hk; simpl; [|apply IH; [done|lia]].
  rewrite IH; [lia| |lia]. by rewrite drop_insert_lt by lia.
Qed.

Lemma compact_loop_all {A} (keep : A → bool) rest : ∀ i arr,
  drop i arr = rest → Forall (λ x, keep x = true) rest →
  (compact_loop keep (length rest) i i arr).1 = arr.
Proof.
  induction rest as [|e rest IH]; intros i arr Hd Hall; simpl; [done|].
  apply Forall_cons in Hall as [He Hall].
  assert (Hi : arr !! i = Some e) by (rewrite <-(Nat.add_0_r i), <-lookup_drop, Hd; done).
  assert (Hd' : drop (S i) arr = rest) by (rewrite <-Nat.add_1_r, <-drop_drop, Hd; done).
  rewrite Hi, He, list_insert_id by done. by apply IH.
Qed.

(** [compact_slice keep arr]: the array after the loop and the compacted slice. *)
Definition compact_slice {A} (keep : A → bool) (arr : list A) : list A * list A :=
  let '(arr', k) := compact_loop keep (length arr) 0 0 arr in (arr', take k arr').

(** The in-place loop computes the filter. *)
Lemma compact_filterb {A} (keep : A → bool) (l : list A) : compact keep l = filterb keep l.
Proof.
  unfold compact. pose proof (compact_loop_spec keep l 0 0 l (drop_0 l) (le_n 0)) as H.
  by destruct (compact_loop _ _ _ _ _).
Qed.

Lemma compact_slice_kept {A} (keep : A → bool) (l : list A) :
  (compact_slice keep l).2 = filterb keep l.
Proof.
  rewrite <-compact_filterb. unfold compact_slice, compact. by destruct (compact_loop _ _ _ _ _).
Qed.

Lemma compact_slice_arr {A} (keep : A → bool) (l : list A) :
  filterb keep l = l → (compact_slice keep l).1 = l.
Proof.
  intros Hf. unfold compact_slice. pose proof (compact_loop_all keep l 0 l (drop_0 l)) as H.
  destruct (compact_loop _ _ _ _ _) as [arr' k]. cbn in *. apply H. apply Forall_forall. intros x Hx.
  rewrite <-Hf in Hx. by apply elem_of_filterb in Hx as [? _].
Qed.

Lemma filterb_filterb {A} (p q : A → bool) l :
  (∀ x, p x = true → q x = true) → filterb p (filterb q l) = filterb p l.
Proof.
  intros Hpq. induction l as [|x l IH]; simpl; [done|].
  destruct (q x) eqn:Hq; simpl; rewrite IH; [done|].
  destruct (p x) eqn:Hp; [|done]. rewrite Hpq in Hq; done.
Qed.
