(* ===== verification/GoStrings.v ===== *)
(** Go strings: byte strings ([string] is a list of 8-bit [ascii]), their UTF-8
    decoding, the functions of the packages [strings], [unicode/utf8] and
    [strconv] the program calls, and the lemmas the other files use. *)
From Stdlib Require Import Ascii.
From stdpp Require Import base list strings pretty.
From S2P Require Import Prelude.

Open Scope string_scope.
Open Scope Z_scope.
Open Scope list_scope.

#[global] Arguments String.append : simpl nomatch.

(** * Bytes *)

Notation char := ascii.
Definition bz (a : char) : Z := Z.of_N (N_of_ascii a).
Definition zb (z : Z) : char := ascii_of_N (Z.to_N z).

Lemma bz_range a : 0 ≤ bz a < 256.
Proof. unfold bz. pose proof (N_ascii_bounded a). lia. Qed.
Lemma zb_bz a : zb (bz a) = a.
Proof. unfold zb, bz. rewrite N2Z.id. apply ascii_N_embedding. Qed.
Lemma bz_zb z : 0 ≤ z < 256 → bz (zb z) = z.
Proof. intros. unfold zb, bz. rewrite N_ascii_embedding; lia. Qed.
Lemma bz_inj a b : bz a = bz b → a = b.
Proof. intros H. by rewrite <-(zb_bz a), <-(zb_bz b), H. Qed.

(** * Basic string operations *)

Fixpoint sdrop (n : nat) (s : string) : string :=
  match n, s with O, _ => s | S n', String _ s' => sdrop n' s' | S _, "" => "" end.
Fixpoint stake (n : nat) (s : string) : string :=
  match n, s with O, _ => "" | S n', String a s' => String a (stake n' s') | S _, "" => "" end.

Definition slen (s : string) : nat := String.length s.

Lemma sapp_nil_r (s : string) : s +:+ "" = s.
Proof. induction s; simpl; congruence. Qed.
Lemma sapp_assoc (s t u : string) : s +:+ (t +:+ u) = (s +:+ t) +:+ u.
Proof. induction s; simpl; congruence. Qed.
Lemma slen_app (s t : string) : slen (s +:+ t) = (slen s + slen t)%nat.
Proof. unfold slen. induction s; simpl; congruence. Qed.
Lemma sdrop_app (s t : string) : sdrop (slen s) (s +:+ t) = t.
Proof. unfold slen. induction s; simpl; auto. Qed.
Lemma stake_app (s t : string) : stake (slen s) (s +:+ t) = s.
Proof. unfold slen. induction s; simpl; congruence. Qed.
Lemma stake_drop n (s : string) : stake n s +:+ sdrop n s = s.
Proof. revert n. induction s; intros [|n]; simpl; congruence. Qed.
Lemma sdrop_all (s : string) : sdrop (slen s) s = "".
Proof. unfold slen. induction s; simpl; auto. Qed.
Lemma stake_all (s : string) : stake (slen s) s = s.
Proof. unfold slen. induction s; simpl; congruence. Qed.
Lemma sapp_inj_l (s t u : string) : s +:+ t = s +:+ u → t = u.
Proof. induction s; simpl; intros; [done|]. simplify_eq. auto. Qed.
Lemma slen_nil_inv s : slen s = 0%nat → s = "".
Proof. by destruct s. Qed.
Lemma slen_stake n s : (n ≤ slen s)%nat → slen (stake n s) = n.
Proof.
  unfold slen. revert n. induction s; intros [|n] H; simpl in *; try lia.
  rewrite IHs; lia.
Qed.
Lemma slen_sdrop n s : slen (sdrop n s) = (slen s - n)%nat.
Proof. unfold slen. revert n. induction s; intros [|n]; simpl; auto. Qed.

Definition contains_char (c : char) (s : string) : bool :=
  existsb (λ a, Ascii.eqb a c) (String.list_ascii_of_string s).

(** [strings.HasPrefix] *)
Fixpoint has_prefix (p s : string) : bool :=
  match p, s with
  | "", _ => true
  | String a p', String b s' => Ascii.eqb a b && has_prefix p' s'
  | String _ _, "" => false
  end.

Lemma has_prefix_spec p s : has_prefix p s = true ↔ ∃ t, s = p +:+ t.
Proof.
  revert s. induction p as [|a p IH]; intros [|b s]; simpl; (split; [|try (intros [t [=]])]); try done.
  - by exists "".
  - by exists (String b s).
  - intros [Hab Hp]%andb_true_iff. apply Ascii.eqb_eq in Hab as ->.
    apply IH in Hp as [t ->]. by exists t.
  - subst. rewrite Ascii.eqb_refl. apply IH. by exists t.
Qed.
Lemma has_prefix_app p t : has_prefix p (p +:+ t) = true.
Proof. apply has_prefix_spec. by exists t. Qed.

(** [strings.CutPrefix] and [strings.TrimPrefix] *)
Definition cut_prefix (p s : string) : option string :=
  if has_prefix p s then Some (sdrop (slen p) s) else None.
Definition trim_prefix (p s : string) : string := default s (cut_prefix p s).

Lemma cut_prefix_spec p s t : cut_prefix p s = Some t ↔ s = p +:+ t.
Proof.
  unfold cut_prefix. destruct (has_prefix p s) eqn:E.
  - apply has_prefix_spec in E as [u ->]. rewrite sdrop_app.
    split; [naive_solver|]. by intros ->%sapp_inj_l.
  - split; [done|]. intros ->. by rewrite has_prefix_app in E.
Qed.

(** [strings.HasSuffix], [strings.CutSuffix] and [strings.TrimSuffix] *)
Definition has_suffix (p s : string) : bool :=
  (slen p <=? slen s)%nat && String.eqb (sdrop (slen s - slen p) s) p.
Definition cut_suffix (p s : string) : option string :=
  if has_suffix p s then Some (stake (slen s - slen p) s) else None.
Definition trim_suffix (p s : string) : string := default s (cut_suffix p s).

Lemma cut_suffix_spec p s t : cut_suffix p s = Some t ↔ s = t +:+ p.
Proof.
  unfold cut_suffix, has_suffix. split.
  - destruct (_ <=? _)%nat eqn:E; [|done]. simpl.
    destruct (String.eqb_spec (sdrop (slen s - slen p) s) p) as [Hp|]; [|done].
    intros [= <-]. rewrite <-Hp at 2. by rewrite stake_drop.
  - intros ->. rewrite slen_app, Nat.add_sub.
    rewrite (proj2 (Nat.leb_le _ _)) by lia. simpl.
    rewrite sdrop_app, String.eqb_refl, stake_app. done.
Qed.

(** [strings.Cut] for a one-byte separator, and [strings.Contains] of one byte *)
Fixpoint cut_char (c : char) (s : string) : option (string * string) :=
  match s with
  | "" => None
  | String a s' =>
      if Ascii.eqb a c then Some ("", s')
      else match cut_char c s' with
           | Some (x, y) => Some (String a x, y)
           | None => None
           end
  end.

Lemma cut_char_app c s t : contains_char c s = false →
  cut_char c (s +:+ String c t) = Some (s, t).
Proof.
  induction s as [|a s IH]; simpl; [by rewrite Ascii.eqb_refl|].
  unfold contains_char in *. simpl. intros [-> H]%orb_false_iff. by rewrite IH.
Qed.
Lemma cut_char_spec c s x y : cut_char c s = Some (x, y) →
  s = x +:+ String c y ∧ contains_char c x = false.
Proof.
  revert x y. induction s as [|a s IH]; simpl; intros x y H; [done|].
  unfold contains_char in *. destruct (Ascii.eqb a c) eqn:E.
  - apply Ascii.eqb_eq in E as ->. by simplify_eq.
  - destruct (cut_char c s) as [[x' y']|]; simplify_eq.
    destruct (IH x' y eq_refl) as [-> ?]. simpl. by rewrite E.
Qed.

(** [strings.Split] and [strings.SplitN] for a one-byte separator; [strings.Join] *)
Fixpoint split_char (c : char) (s : string) : list string :=
  match s with
  | "" => [""]
  | String a s' =>
      if Ascii.eqb a c then "" :: split_char c s'
      else match split_char c s' with
           | [] => [String a ""]
           | w :: ws => String a w :: ws
           end
  end.
(** at most [S n] pieces, the last one unsplit *)
Fixpoint splitn_char (c : char) (n : nat) (s : string) : list string :=
  match n with
  | O => [s]
  | S n' => match cut_char c s with
            | Some (x, y) => x :: splitn_char c n' y
            | None => [s]
            end
  end.
Fixpoint join (sep : string) (l : list string) : string :=
  match l with
  | [] => ""
  | [x] => x
  | x :: l' => x +:+ sep +:+ join sep l'
  end.

Lemma split_char_nonempty c s : split_char c s ≠ [].
Proof. destruct s; simpl; [done|]. destruct (Ascii.eqb _ _); [done|]. by destruct (split_char c s). Qed.

Lemma join_cons sep x l : l ≠ [] → join sep (x :: l) = x +:+ sep +:+ join sep l.
Proof. by destruct l. Qed.

Lemma join_split_char c s : join (String c "") (split_char c s) = s.
Proof.
  induction s as [|a s IH]; [done|]. simpl. pose proof (split_char_nonempty c s).
  destruct (Ascii.eqb a c) eqn:E.
  - apply Ascii.eqb_eq in E as ->. rewrite join_cons by done. simpl. by rewrite IH.
  - destruct (split_char c s) as [|w [|w' ws]]; simplify_eq/=; by rewrite ?IH.
Qed.

Lemma split_char_no_sep c s : Forall (λ w, contains_char c w = false) (split_char c s).
Proof.
  unfold contains_char. induction s as [|a s IH]; simpl; [by repeat constructor|].
  destruct (Ascii.eqb a c) eqn:E; [by constructor|].
  destruct (split_char c s) as [|w ws]; inversion IH; subst;
    repeat constructor; simpl; rewrite ?E; auto.
Qed.

Lemma split_char_single c s : contains_char c s = false → split_char c s = [s].
Proof.
  unfold contains_char. induction s as [|a s IH]; simpl; [done|].
  intros [-> H]%orb_false_iff. by rewrite IH.
Qed.

Lemma split_char_cons c s t : contains_char c s = false →
  split_char c (s +:+ String c t) = s :: split_char c t.
Proof.
  unfold contains_char. induction s as [|a s IH]; simpl; [by rewrite Ascii.eqb_refl|].
  intros [-> H]%orb_false_iff. by rewrite IH.
Qed.

(** [strings.ReplaceAll] of a one-byte pattern *)
Fixpoint replace_char (c : char) (new s : string) : string :=
  match s with
  | "" => ""
  | String a s' => if Ascii.eqb a c then new +:+ replace_char c new s' else String a (replace_char c new s')
  end.

Lemma contains_char_app c s t : contains_char c (s +:+ t) = contains_char c s || contains_char c t.
Proof. unfold contains_char. induction s as [|a s IH]; simpl; [done|]. by rewrite IH, orb_assoc. Qed.

Lemma contains_char_cons c a s : contains_char c (String a s) = Ascii.eqb a c || contains_char c s.
Proof. done. Qed.

Lemma replace_char_removes c new s : contains_char c new = false →
  contains_char c (replace_char c new s) = false.
Proof.
  intros Hn. induction s as [|a s IH]; simpl; [done|].
  destruct (Ascii.eqb a c) eqn:E.
  - by rewrite contains_char_app, Hn, IH.
  - by rewrite contains_char_cons, E, IH.
Qed.

(** * UTF-8 *)

Definition RuneError : Z := 0xFFFD.

Definition is_cont (a : char) : bool := (0x80 <=? bz a) && (bz a <=? 0xBF).

(** size of the sequence a lead byte announces and the range of its second byte *)
Definition lead_info (z : Z) : option (nat * Z * Z) :=
  if (0xC2 <=? z) && (z <=? 0xDF) then Some (2%nat, 0x80, 0xBF)
  else if z =? 0xE0 then Some (3%nat, 0xA0, 0xBF)
  else if z =? 0xED then Some (3%nat, 0x80, 0x9F)
  else if (0xE1 <=? z) && (z <=? 0xEF) then Some (3%nat, 0x80, 0xBF)
  else if z =? 0xF0 then Some (4%nat, 0x90, 0xBF)
  else if (0xF1 <=? z) && (z <=? 0xF3) then Some (4%nat, 0x80, 0xBF)
  else if z =? 0xF4 then Some (4%nat, 0x80, 0x8F)
  else None.

(** [utf8.DecodeRuneInString]: the rune, the bytes it was read from and the rest.
    An invalid byte is read as [RuneError] of width one. *)
Definition decode1 (s : string) : option (Z * string * string) :=
  match s with
  | "" => None
  | String a t =>
      let bad := Some (RuneError, String a "", t) in
      let z := bz a in
      if z <? 0x80 then Some (z, String a "", t) else
      match lead_info z with
      | None => bad
      | Some (n, lo, hi) =>
          match t with
          | "" => bad
          | String b t2 =>
              if negb ((lo <=? bz b) && (bz b <=? hi)) then bad else
              if (n =? 2)%nat then Some ((z - 0xC0) * 64 + (bz b - 0x80), String a (String b ""), t2) else
              match t2 with
              | "" => bad
              | String c t3 =>
                  if negb (is_cont c) then bad else
                  if (n =? 3)%nat then
                    Some ((z - 0xE0) * 4096 + (bz b - 0x80) * 64 + (bz c - 0x80),
                          String a (String b (String c "")), t3) else
                  match t3 with
                  | "" => bad
                  | String d t4 =>
                      if negb (is_cont d) then bad else
                      Some ((z - 0xF0) * 262144 + (bz b - 0x80) * 4096 + (bz c - 0x80) * 64 + (bz d - 0x80),
                            String a (String b (String c (String d ""))), t4)
                  end
              end
          end
      end
  end.

Definition seg : Type := Z * string.

Fixpoint segs_fuel (n : nat) (s : string) : list seg :=
  match n with
  | O => []
  | S n' => match decode1 s with
            | None => []
            | Some (r, b, t) => (r, b) :: segs_fuel n' t
            end
  end.
(** the runes of a string with the bytes each one came from *)
Definition segs (s : string) : list seg := segs_fuel (slen s) s.
(** [[]rune(s)] *)
Definition runes (s : string) : list Z := (segs s).*1.

Definition unsegs (l : list seg) : string := fold_right (λ x acc, x.2 +:+ acc) "" l.

Ltac decode_cases H :=
  unfold decode1 in H; simpl in H;
  repeat (case_match; simplify_eq/=; try (injection H as <- <- <-)).

Lemma decode1_app s r b t : decode1 s = Some (r, b, t) → s = b +:+ t ∧ b ≠ "".
Proof. unfold decode1. intros H. repeat case_match; by simplify_eq/=. Qed.

Lemma decode1_None s : decode1 s = None ↔ s = "".
Proof. split; [|by intros ->]. unfold decode1. intros H. repeat case_match; by simplify_eq/=. Qed.

Lemma decode1_len s r b t : decode1 s = Some (r, b, t) → (slen t < slen s)%nat.
Proof.
  intros [-> Hb]%decode1_app. rewrite slen_app. destruct b; [done|]. unfold slen. simpl. lia.
Qed.

Lemma segs_fuel_enough n m s : (slen s ≤ n)%nat → (slen s ≤ m)%nat → segs_fuel n s = segs_fuel m s.
Proof.
  revert m s. induction n as [|n IH]; intros [|m] s Hn Hm; simpl; try done.
  - assert (slen s = 0)%nat as ->%slen_nil_inv by lia. done.
  - assert (slen s = 0)%nat as ->%slen_nil_inv by lia. done.
  - destruct (decode1 s) as [[[r b] t]|] eqn:E; [|done].
    apply decode1_len in E. rewrite (IH m t) by lia. done.
Qed.

Lemma segs_eq s : segs s = match decode1 s with None => [] | Some (r, b, t) => (r, b) :: segs t end.
Proof.
  unfold segs. destruct (decode1 s) as [[[r b] t]|] eqn:E.
  - pose proof (decode1_len _ _ _ _ E). destruct (slen s) as [|n] eqn:Hs; [lia|].
    simpl. rewrite E. f_equal. apply segs_fuel_enough; lia.
  - by apply decode1_None in E as ->.
Qed.

Lemma string_len_ind (P : string → Prop) :
  (∀ s, (∀ t, (slen t < slen s)%nat → P t) → P s) → ∀ s, P s.
Proof.
  intros H s. remember (slen s) as n eqn:Hn. revert s Hn.
  induction (lt_wf n) as [n _ IH]. intros s ->. apply H. intros t Ht. by apply (IH _ Ht).
Qed.

(** Induction over the runes of a string. *)
Lemma segs_ind (P : string → Prop) :
  P "" → (∀ s r b t, decode1 s = Some (r, b, t) → P t → P s) → ∀ s, P s.
Proof.
  intros H0 HS. apply string_len_ind. intros s IH.
  destruct (decode1 s) as [[[r b] t]|] eqn:E.
  - eapply HS; [done|]. apply IH. by eapply decode1_len.
  - by apply decode1_None in E as ->.
Qed.

Lemma unsegs_segs s : unsegs (segs s) = s.
Proof.
  induction s as [|s r b t E IH] using segs_ind; [done|].
  rewrite segs_eq, E. simpl. rewrite IH. symmetry. by eapply decode1_app.
Qed.

Lemma unsegs_app l1 l2 : unsegs (l1 ++ l2) = unsegs l1 +:+ unsegs l2.
Proof. induction l1 as [|x l1 IH]; simpl; [done|]. by rewrite IH, sapp_assoc. Qed.

(** [string(rune)]: invalid runes become U+FFFD. *)
Definition encode_rune (r : Z) : string :=
  let cont x := zb (0x80 + x mod 64) in
  if (r <? 0) || (0x10FFFF <? r) || ((0xD800 <=? r) && (r <=? 0xDFFF)) then
    String (zb 0xEF) (String (zb 0xBF) (String (zb 0xBD) ""))
  else if r <? 0x80 then String (zb r) ""
  else if r <? 0x800 then String (zb (0xC0 + r / 64)) (String (cont r) "")
  else if r <? 0x10000 then
    String (zb (0xE0 + r / 4096)) (String (cont (r / 64)) (String (cont r) ""))
  else String (zb (0xF0 + r / 262144)) (String (cont (r / 4096)) (String (cont (r / 64)) (String (cont r) ""))).

(** [string([]rune)] *)
Definition string_of_runes (l : list Z) : string := fold_right (λ r acc, encode_rune r +:+ acc) "" l.

(** A segment that is a decoding error: one byte read as [RuneError]. *)
Definition seg_bad (x : seg) : bool := (x.1 =? RuneError) && (slen x.2 =? 1)%nat.
Definition valid_utf8 (s : string) : bool := forallb (λ x, negb (seg_bad x)) (segs s).
(** [strings.ToValidUTF8(s, "\uFFFD")] byte by byte, as [string([]rune(s))] does *)
Definition to_valid_utf8 (s : string) : string := string_of_runes (runes s).

(** ** Decoding and encoding *)

Ltac divlia := repeat match goal with r := _ |- _ => subst r end; Z.to_euclidean_division_equations; lia.

Lemma lead_info_spec z n lo hi : lead_info z = Some (n, lo, hi) →
  (n = 2%nat ∧ 0xC2 ≤ z ≤ 0xDF ∧ lo = 0x80 ∧ hi = 0xBF) ∨
  (n = 3%nat ∧ 0xE0 ≤ z ≤ 0xEF ∧ (z = 0xE0 → lo = 0xA0) ∧ (z = 0xED → hi = 0x9F) ∧ 0x80 ≤ lo ∧ hi ≤ 0xBF) ∨
  (n = 4%nat ∧ 0xF0 ≤ z ≤ 0xF4 ∧ (z = 0xF0 → lo = 0x90) ∧ (z = 0xF4 → hi = 0x8F) ∧ 0x80 ≤ lo ∧ hi ≤ 0xBF).
Proof. unfold lead_info. intros H. repeat case_match; simplify_eq; lia. Qed.

Lemma lead_info_3 z : 0xE0 ≤ z ≤ 0xEF →
  lead_info z = Some (3%nat, if z =? 0xE0 then 0xA0 else 0x80, if z =? 0xED then 0x9F else 0xBF).
Proof. intros. unfold lead_info. repeat case_match; simplify_eq/=; try done; lia. Qed.
Lemma lead_info_4 z : 0xF0 ≤ z ≤ 0xF4 →
  lead_info z = Some (4%nat, if z =? 0xF0 then 0x90 else 0x80, if z =? 0xF4 then 0x8F else 0xBF).
Proof. intros. unfold lead_info. repeat case_match; simplify_eq/=; try done; lia. Qed.

Lemma is_cont_spec a : is_cont a = true ↔ 0x80 ≤ bz a ≤ 0xBF.
Proof. unfold is_cont. lia. Qed.

(** One decoded character: the four well-formed shapes or the error. *)
Variant decoded : string → Z → string → string → Prop :=
| dec1 a t : bz a < 0x80 → decoded (String a t) (bz a) (String a "") t
| dec2 a b t : 0xC2 ≤ bz a ≤ 0xDF → 0x80 ≤ bz b ≤ 0xBF →
    decoded (String a (String b t)) ((bz a - 0xC0) * 64 + (bz b - 0x80)) (String a (String b "")) t
| dec3 a b c t lo hi : lead_info (bz a) = Some (3%nat, lo, hi) → lo ≤ bz b ≤ hi → 0x80 ≤ bz c ≤ 0xBF →
    decoded (String a (String b (String c t)))
      ((bz a - 0xE0) * 4096 + (bz b - 0x80) * 64 + (bz c - 0x80)) (String a (String b (String c ""))) t
| dec4 a b c d t lo hi : lead_info (bz a) = Some (4%nat, lo, hi) → lo ≤ bz b ≤ hi →
    0x80 ≤ bz c ≤ 0xBF → 0x80 ≤ bz d ≤ 0xBF →
    decoded (String a (String b (String c (String d t))))
      ((bz a - 0xF0) * 262144 + (bz b - 0x80) * 4096 + (bz c - 0x80) * 64 + (bz d - 0x80))
      (String a (String b (String c (String d "")))) t
| decbad a t : decoded (String a t) RuneError (String a "") t.

Lemma decode1_decoded s r b t : decode1 s = Some (r, b, t) → decoded s r b t.
Proof.
  unfold decode1. intros H. destruct s as [|a s1]; [done|].
  destruct (bz a <? 0x80) eqn:Ha; [simplify_eq; apply dec1; lia|].
  destruct (lead_info (bz a)) as [[[n lo] hi]|] eqn:Hl; [|simplify_eq; constructor].
  pose proof (lead_info_spec _ _ _ _ Hl) as Hs.
  destruct s1 as [|a2 s2]; [simplify_eq; constructor|].
  destruct (negb _) eqn:Hb in H; [simplify_eq; constructor|].
  apply negb_false_iff, andb_true_iff in Hb as [Hb1%Z.leb_le Hb2%Z.leb_le].
  destruct (n =? 2)%nat eqn:Hn2 in H; [apply Nat.eqb_eq in Hn2; simplify_eq; apply dec2; lia|].
  destruct s2 as [|a3 s3]; [simplify_eq; constructor|].
  destruct (is_cont a3) eqn:Hc in H; simpl in H; [|simplify_eq; constructor]. apply is_cont_spec in Hc.
  destruct (n =? 3)%nat eqn:Hn3 in H.
  { apply Nat.eqb_eq in Hn3 as ->. simplify_eq. eapply dec3; [done|lia|done]. }
  destruct s3 as [|a4 s4]; [simplify_eq; constructor|].
  destruct (is_cont a4) eqn:Hd in H; simpl in H; [|simplify_eq; constructor]. apply is_cont_spec in Hd.
  apply Nat.eqb_neq in Hn2, Hn3. assert (n = 4%nat) as -> by lia. simplify_eq.
  eapply dec4; [done|lia|done|done].
Qed.

Definition seg_good (r : Z) (b : string) : Prop := seg_bad (r, b) = false.

Lemma decode1_ext s r b t u : decode1 s = Some (r, b, t) → seg_good r b →
  decode1 (b +:+ u) = Some (r, b, u).
Proof.
  intros H Hg. apply decode1_decoded in H. unfold seg_good, seg_bad in Hg.
  destruct H as [a t Ha|a a2 t Ha Hb|a a2 c t lo hi Hl Hb Hc|a a2 c d t lo hi Hl Hb Hc Hd|a t];
    simpl in *; unfold decode1.
  - by rewrite (proj2 (Z.ltb_lt _ _)) by lia.
  - rewrite (proj2 (Z.ltb_ge _ _)) by lia. unfold lead_info.
    rewrite (proj2 (andb_true_iff _ _)) by (split; lia). simpl.
    rewrite (proj2 (andb_true_iff _ _)) by (split; lia). done.
  - pose proof (lead_info_spec _ _ _ _ Hl). rewrite (proj2 (Z.ltb_ge _ _)) by lia. rewrite Hl.
    rewrite (proj2 (andb_true_iff _ _)) by (split; lia). simpl.
    by rewrite (proj2 (is_cont_spec c)) by lia.
  - pose proof (lead_info_spec _ _ _ _ Hl). rewrite (proj2 (Z.ltb_ge _ _)) by lia. rewrite Hl.
    rewrite (proj2 (andb_true_iff _ _)) by (split; lia). simpl.
    rewrite (proj2 (is_cont_spec c)) by lia. simpl.
    by rewrite (proj2 (is_cont_spec d)) by lia.
  - done.
Qed.

Lemma encode_decoded s r b t : decode1 s = Some (r, b, t) → seg_good r b → encode_rune r = b.
Proof.
  intros H Hg. apply decode1_decoded in H. unfold seg_good, seg_bad in Hg. unfold encode_rune.
  destruct H as [a t Ha|a a2 t Ha Hb|a a2 c t lo hi Hl Hb Hc|a a2 c d t lo hi Hl Hb Hc Hd|a t];
    simpl in *; try (pose proof (lead_info_spec _ _ _ _ Hl) as Hs); pose proof (bz_range a).
  - rewrite !(proj2 (Z.ltb_ge _ _)) by lia. rewrite (proj2 (Z.ltb_lt _ _)) by lia.
    rewrite andb_false_intro1 by lia. simpl. by rewrite zb_bz.
  - set (r := (bz a - 0xC0) * 64 + (bz a2 - 0x80)).
    rewrite !(proj2 (Z.ltb_ge _ _)) by lia. rewrite (proj2 (Z.ltb_lt _ _)) by lia.
    rewrite andb_false_intro1 by lia. simpl.
    replace (0xC0 + r / 64) with (bz a) by divlia. replace (0x80 + r mod 64) with (bz a2) by divlia.
    by rewrite !zb_bz.
  - set (r := (bz a - 0xE0) * 4096 + (bz a2 - 0x80) * 64 + (bz c - 0x80)).
    rewrite (proj2 (Z.ltb_ge r 0)), (proj2 (Z.ltb_ge 0x10FFFF r)), (proj2 (Z.ltb_ge r 0x80)),
      (proj2 (Z.ltb_ge r 0x800)), (proj2 (Z.ltb_lt r 0x10000)) by lia.
    replace ((0xD800 <=? r) && (r <=? 0xDFFF)) with false by lia. simpl.
    replace (0xE0 + r / 4096) with (bz a) by divlia. replace (0x80 + (r / 64) mod 64) with (bz a2) by divlia.
    replace (0x80 + r mod 64) with (bz c) by divlia. by rewrite !zb_bz.
  - set (r := (bz a - 0xF0) * 262144 + (bz a2 - 0x80) * 4096 + (bz c - 0x80) * 64 + (bz d - 0x80)).
    rewrite (proj2 (Z.ltb_ge r 0)), (proj2 (Z.ltb_ge 0x10FFFF r)), (proj2 (Z.ltb_ge r 0x80)),
      (proj2 (Z.ltb_ge r 0x800)), (proj2 (Z.ltb_ge r 0x10000)) by lia.
    replace ((0xD800 <=? r) && (r <=? 0xDFFF)) with false by lia. simpl.
    replace (0xF0 + r / 262144) with (bz a) by divlia. replace (0x80 + (r / 4096) mod 64) with (bz a2) by divlia.
    replace (0x80 + (r / 64) mod 64) with (bz c) by divlia.
    replace (0x80 + r mod 64) with (bz d) by divlia. by rewrite !zb_bz.
  - done.
Qed.

Lemma encode_rune_nonempty r : encode_rune r ≠ "".
Proof. unfold encode_rune. by repeat case_match. Qed.

(** Decoding what [string(rune)] produced gives back that text. *)
Lemma decode1_encode r u : ∃ r', decode1 (encode_rune r +:+ u) = Some (r', encode_rune r, u) ∧
  seg_good r' (encode_rune r) ∧ encode_rune r' = encode_rune r.
Proof.
  assert (Hr : ∀ r', decode1 (encode_rune r) = Some (r', encode_rune r, "") →
    seg_good r' (encode_rune r) → ∃ r', decode1 (encode_rune r +:+ u) = Some (r', encode_rune r, u) ∧
      seg_good r' (encode_rune r) ∧ encode_rune r' = encode_rune r).
  { intros r' H Hg. exists r'. split_and!; [by eapply decode1_ext|done|by eapply encode_decoded]. }
  unfold encode_rune in Hr |- *.
  destruct ((r <? 0) || (0x10FFFF <? r) || ((0xD800 <=? r) && (r <=? 0xDFFF))) eqn:Hbad.
  { by apply (Hr RuneError). }
  destruct (r <? 0x80) eqn:H1.
  { apply (Hr r); [|unfold seg_good, seg_bad, RuneError; simpl; lia].
    unfold decode1. rewrite bz_zb by lia. by rewrite H1. }
  assert (Hc : ∀ x, is_cont (zb (0x80 + x mod 64)) = true).
  { intros x. apply is_cont_spec. rewrite bz_zb; divlia. }
  assert (Hbc : ∀ x, bz (zb (0x80 + x mod 64)) = 0x80 + x mod 64) by (intros; apply bz_zb; divlia).
  destruct (r <? 0x800) eqn:H2.
  { apply (Hr r); [|unfold seg_good, seg_bad; simpl; lia].
    unfold decode1, lead_info. rewrite !Hbc, !bz_zb by divlia.
    rewrite (proj2 (Z.ltb_ge _ _)) by divlia.
    rewrite (proj2 (andb_true_iff _ _)) by (split; divlia). simpl.
    rewrite (proj2 (andb_true_iff _ _)) by (split; divlia). simpl. repeat f_equal. divlia. }
  destruct (r <? 0x10000) eqn:H3.
  { apply (Hr r); [|unfold seg_good, seg_bad; simpl; lia].
    unfold decode1. rewrite Hc, !Hbc, !bz_zb by divlia.
    rewrite (proj2 (Z.ltb_ge _ _)) by divlia. rewrite lead_info_3 by divlia.
    rewrite (proj2 (andb_true_iff _ _)) by (repeat case_match; split; divlia).
    simpl. repeat f_equal. divlia. }
  apply (Hr r); [|unfold seg_good, seg_bad; simpl; lia].
  unfold decode1. rewrite !Hc, !Hbc, !bz_zb by divlia.
  rewrite (proj2 (Z.ltb_ge _ _)) by divlia. rewrite lead_info_4 by divlia.
  rewrite (proj2 (andb_true_iff _ _)) by (repeat case_match; split; divlia).
  simpl. repeat f_equal. divlia.
Qed.

Lemma valid_utf8_eq s r b t : decode1 s = Some (r, b, t) →
  valid_utf8 s = negb (seg_bad (r, b)) && valid_utf8 t.
Proof. intros E. unfold valid_utf8. by rewrite (segs_eq s), E. Qed.

Lemma segs_app s t : valid_utf8 s = true → segs (s +:+ t) = segs s ++ segs t.
Proof.
  induction s as [|s r b u E IH] using segs_ind; [done|].
  rewrite (valid_utf8_eq _ _ _ _ E). intros [Hg Hv]%andb_true_iff.
  apply negb_true_iff in Hg. rewrite (segs_eq s), E.
  pose proof (decode1_app _ _ _ _ E) as [-> _].
  rewrite <-sapp_assoc, segs_eq, (decode1_ext _ _ _ _ _ E Hg). simpl. by rewrite IH.
Qed.

Lemma valid_utf8_app s t : valid_utf8 s = true → valid_utf8 (s +:+ t) = valid_utf8 t.
Proof.
  intros Hs. unfold valid_utf8 at 1. rewrite segs_app, forallb_app by done.
  unfold valid_utf8 in Hs. by rewrite Hs.
Qed.

Lemma segs_string_of_runes l : valid_utf8 (string_of_runes l) = true ∧
  (segs (string_of_runes l)).*2 = encode_rune <$> l.
Proof.
  induction l as [|r l [IH1 IH2]]; [done|]. simpl.
  destruct (decode1_encode r (string_of_runes l)) as (r' & E & Hg & _).
  rewrite (valid_utf8_eq _ _ _ _ E), segs_eq, E. unfold seg_good in Hg. rewrite Hg.
  split; [by simpl; rewrite IH1|]. by rewrite !fmap_cons, IH2.
Qed.

Lemma to_valid_utf8_valid s : valid_utf8 (to_valid_utf8 s) = true.
Proof. apply segs_string_of_runes. Qed.

Lemma to_valid_utf8_id s : valid_utf8 s = true → to_valid_utf8 s = s.
Proof.
  induction s as [|s r b t E IH] using segs_ind; [done|].
  rewrite (valid_utf8_eq _ _ _ _ E). intros [Hg Hv]%andb_true_iff.
  apply negb_true_iff in Hg. unfold to_valid_utf8, runes. rewrite segs_eq, E. simpl.
  rewrite (encode_decoded _ _ _ _ E Hg). change (b +:+ to_valid_utf8 t = s).
  rewrite IH by done. symmetry. by eapply decode1_app.
Qed.

(** number of runes: [len([]rune(s))] *)
Definition rune_count (s : string) : nat := length (runes s).

Lemma rune_count_runes l : rune_count (string_of_runes l) = length l.
Proof.
  unfold rune_count, runes. rewrite length_fmap.
  rewrite <-(length_fmap encode_rune l), <-(proj2 (segs_string_of_runes l)). by rewrite length_fmap.
Qed.

Lemma rune_count_app s t : valid_utf8 s = true → rune_count (s +:+ t) = (rune_count s + rune_count t)%nat.
Proof. intros H. unfold rune_count, runes. by rewrite segs_app, fmap_app, length_app. Qed.

(** A byte below 0x80 is a character of its own wherever it stands. *)
Lemma decode1_ascii a t : bz a < 0x80 → decode1 (String a t) = Some (bz a, String a "", t).
Proof. intros H. unfold decode1. by rewrite (proj2 (Z.ltb_lt _ _) H). Qed.

(** An ASCII character occurs in a string when it is one of its runes. *)
Lemma eqb_bz a c : Ascii.eqb a c = (bz a =? bz c).
Proof.
  destruct (Ascii.eqb_spec a c) as [->|Hn]; [symmetry; apply Z.eqb_refl|].
  symmetry. apply Z.eqb_neq. intros Hb. by apply bz_inj in Hb.
Qed.

Lemma contains_char_decode1 c s r b t : bz c < 0x80 → decode1 s = Some (r, b, t) →
  contains_char c b = (r =? bz c).
Proof.
  intros Hc E. pose proof (decode1_decoded _ _ _ _ E) as H.
  destruct H as [a t Ha|a a2 t Ha Hb|a a2 d t lo hi Hl Hb Hd|a a2 d e t lo hi Hl Hb Hd He|a t];
    try (pose proof (lead_info_spec _ _ _ _ Hl) as Hs); rewrite ?contains_char_cons, ?eqb_bz; change (contains_char c EmptyString) with false;
    rewrite ?orb_false_r; try (pose proof (bz_range c)); try done; try lia.
  destruct (Z.ltb_spec (bz a) 0x80); [rewrite decode1_ascii in E by done; injection E as E; unfold RuneError in *; lia|].
  unfold RuneError. lia.
Qed.

Lemma contains_char_encode c r : bz c < 0x80 → contains_char c (encode_rune r) = (r =? bz c).
Proof.
  intros Hc. pose proof (bz_range c). unfold encode_rune. repeat case_match;
    rewrite ?contains_char_cons, ?eqb_bz; change (contains_char c EmptyString) with false; rewrite ?orb_false_r; rewrite ?bz_zb; divlia.
Qed.

Lemma contains_char_string_of_runes c l : bz c < 0x80 →
  contains_char c (string_of_runes l) = existsb (λ r, r =? bz c) l.
Proof.
  intros Hc. induction l as [|r l IH]; [done|]. cbn [string_of_runes fold_right existsb].
  by rewrite contains_char_app, contains_char_encode, <-IH.
Qed.

Lemma contains_char_runes c s : bz c < 0x80 → contains_char c s = existsb (λ r, r =? bz c) (runes s).
Proof.
  intros Hc. unfold runes. induction s as [|s r b t E IH] using segs_ind; [done|].
  rewrite (segs_eq s), E. pose proof (decode1_app _ _ _ _ E) as [Hs _]. rewrite Hs at 1.
  cbn [map fst fmap list_fmap existsb]. by rewrite contains_char_app, (contains_char_decode1 _ _ _ _ _ Hc E), IH.
Qed.

Lemma segs_ascii a t : bz a < 0x80 → segs (String a t) = (bz a, String a "") :: segs t.
Proof. intros H. by rewrite segs_eq, decode1_ascii. Qed.

Lemma valid_utf8_ascii a t : bz a < 0x80 → valid_utf8 (String a t) = valid_utf8 t.
Proof.
  intros H. rewrite (valid_utf8_eq _ _ _ _ (decode1_ascii a t H)).
  unfold seg_bad, RuneError. simpl. pose proof (bz_range a). replace (bz a =? _) with false by lia. done.
Qed.

(** * [unicode.IsSpace], [strings.TrimSpace] and [strings.Fields] *)

Definition is_space (r : Z) : bool :=
  ((9 <=? r) && (r <=? 13)) || (r =? 0x20) || (r =? 0x85) || (r =? 0xA0) || (r =? 0x1680) ||
  ((0x2000 <=? r) && (r <=? 0x200A)) || (r =? 0x2028) || (r =? 0x2029) || (r =? 0x202F) ||
  (r =? 0x205F) || (r =? 0x3000).

Fixpoint drop_while {A} (p : A → bool) (l : list A) : list A :=
  match l with [] => [] | x :: l' => if p x then drop_while p l' else l end.

Definition seg_space (x : seg) : bool := is_space x.1.
(** White space is dropped rune by rune at both ends; UTF-8 is
    self-synchronising, so decoding from the right finds the same runes. *)
Definition trim_space (s : string) : string :=
  unsegs (reverse (drop_while seg_space (reverse (drop_while seg_space (segs s))))).

(** [strings.Fields] *)
Fixpoint fields_aux (l : list seg) (cur : string) : list string :=
  match l with
  | [] => if String.eqb cur "" then [] else [cur]
  | x :: l' =>
      if seg_space x then
        if String.eqb cur "" then fields_aux l' "" else cur :: fields_aux l' ""
      else fields_aux l' (cur +:+ x.2)
  end.
Definition fields (s : string) : list string := fields_aux (segs s) "".

Lemma drop_while_suffix {A} (p : A → bool) l : ∃ k, l = k ++ drop_while p l ∧ Forall (λ x, p x = true) k.
Proof.
  induction l as [|x l [k [Hk Hp]]]; simpl; [by exists []|].
  destruct (p x) eqn:E; [|by exists []].
  exists (x :: k). simpl. rewrite <-Hk. auto.
Qed.

(** The text is the trimmed text between two runs of white space. *)
Lemma trim_space_spec s : ∃ l r m,
  segs s = l ++ m ++ r ∧ trim_space s = unsegs m ∧
  Forall (λ x, seg_space x = true) l ∧ Forall (λ x, seg_space x = true) r ∧
  (∀ x, head m = Some x → seg_space x = false) ∧ (∀ x, last m = Some x → seg_space x = false).
Proof.
  unfold trim_space. destruct (drop_while_suffix seg_space (segs s)) as (l & Hl & Hfl).
  set (u := drop_while seg_space (segs s)) in *.
  destruct (drop_while_suffix seg_space (reverse u)) as (r & Hr & Hfr).
  set (v := drop_while seg_space (reverse u)) in *.
  exists l, (reverse r), (reverse v).
  assert (Hu : u = reverse v ++ reverse r) by (rewrite <-reverse_app, <-Hr; symmetry; apply reverse_involutive).
  split_and!; [by rewrite <-Hu|done|done|by apply Forall_reverse| |].
  - intros x Hx. assert (Hux : head u = Some x) by (rewrite Hu; by destruct (reverse v)).
    clear -Hux. unfold u in Hux. induction (segs s) as [|y z IH]; simpl in *; [done|].
    destruct (seg_space y) eqn:E; [auto|]. by simplify_eq/=.
  - intros x. rewrite last_reverse. intros Hx. clear -Hx. unfold v in Hx.
    induction (reverse u) as [|y z IH]; simpl in *; [done|].
    destruct (seg_space y) eqn:E; [auto|]. by simplify_eq/=.
Qed.

(** * Numbers in decimal *)

(** [fmt.Sprintf("%d", z)], [strconv.Itoa] *)
Definition itoa (z : Z) : string := pretty z.

Definition digit_val (a : char) : option Z :=
  if (48 <=? bz a) && (bz a <=? 57) then Some (bz a - 48) else None.
Fixpoint digits_val (acc : Z) (s : string) : option Z :=
  match s with
  | "" => Some acc
  | String a s' => match digit_val a with Some d => digits_val (acc * 10 + d) s' | None => None end
  end.
Definition parse_udec (s : string) : option Z :=
  match s with "" => None | _ => digits_val 0 s end.

Definition int64_min : Z := - 2 ^ 63.
Definition int64_max : Z := 2 ^ 63 - 1.

(** [strconv.Atoi] on a 64-bit platform: an optional sign, at least one digit,
    and the range of [int]. *)
Definition atoi (s : string) : option Z :=
  let v := match s with
           | String "-" s' => option_map Z.opp (parse_udec s')
           | String "+" s' => parse_udec s'
           | _ => parse_udec s
           end in
  match v with
  | Some z => if (int64_min <=? z) && (z <=? int64_max) then Some z else None
  | None => None
  end.

Lemma digits_val_nonneg acc s z : 0 ≤ acc → digits_val acc s = Some z → 0 ≤ z.
Proof.
  revert acc. induction s as [|a s IH]; simpl; intros acc Ha H; [by simplify_eq|].
  unfold digit_val in H. destruct (_ && _) eqn:E; [|done]. eapply IH; [|done]. lia.
Qed.

(** Sixty-four bit two's complement wrap-around. *)
Definition wrap64 (z : Z) : Z := (z + 2 ^ 63) mod 2 ^ 64 - 2 ^ 63.
Lemma wrap64_id z : int64_min ≤ z ≤ int64_max → wrap64 z = z.
Proof. unfold wrap64, int64_min, int64_max. intros. rewrite Z.mod_small; lia. Qed.
Lemma wrap64_range z : int64_min ≤ wrap64 z ≤ int64_max.
Proof. unfold wrap64, int64_min, int64_max. pose proof (Z.mod_pos_bound (z + 2^63) (2^64)). lia. Qed.

(** * Byte-wise comparison: Go's [<] on strings and [strings.Compare] *)

Fixpoint str_compare (s t : string) : comparison :=
  match s, t with
  | "", "" => Eq
  | "", _ => Lt
  | _, "" => Gt
  | String a s', String b t' =>
      match bz a ?= bz b with Eq => str_compare s' t' | c => c end
  end.
Definition str_lt (s t : string) : bool := match str_compare s t with Lt => true | _ => false end.

Lemma str_compare_refl s : str_compare s s = Eq.
Proof. induction s; simpl; [done|]. by rewrite Z.compare_refl. Qed.
Lemma str_compare_eq s t : str_compare s t = Eq ↔ s = t.
Proof.
  split; [|intros ->; apply str_compare_refl].
  revert t. induction s as [|a s IH]; intros [|b t]; simpl; try done.
  destruct (bz a ?= bz b) eqn:E; [|done..]. apply Z.compare_eq, bz_inj in E as ->.
  intros ?%IH. congruence.
Qed.
Lemma str_compare_antisym s t : str_compare t s = CompOpp (str_compare s t).
Proof.
  revert t. induction s as [|a s IH]; intros [|b t]; simpl; try done.
  rewrite (Z.compare_antisym (bz a) (bz b)). destruct (bz a ?= bz b); simpl; auto.
Qed.
Lemma str_compare_trans s t u : str_compare s t = Lt → str_compare t u = Lt → str_compare s u = Lt.
Proof.
  revert t u. induction s as [|a s IH]; intros [|b t] [|c u]; simpl; try done.
  destruct (Z.compare_spec (bz a) (bz b)), (Z.compare_spec (bz b) (bz c)),
    (Z.compare_spec (bz a) (bz c)); try done; try lia; eauto.
Qed.

(** ** Printing and reading back an integer *)

Lemma digit_val_pretty n : (n < 10)%N → digit_val (pretty_N_char n) = Some (Z.of_N n).
Proof.
  intros. assert (n = 0 ∨ n = 1 ∨ n = 2 ∨ n = 3 ∨ n = 4 ∨ n = 5 ∨ n = 6 ∨ n = 7 ∨ n = 8 ∨ n = 9)%N
    as [->|[->|[->|[->|[->|[->|[->|[->|[->| ->]]]]]]]]] by lia; done.
Qed.

Lemma digits_val_pretty x : ∀ s, digits_val 0 (pretty_N_go x s) = digits_val (Z.of_N x) s.
Proof.
  induction (N.lt_wf_0 x) as [x _ IH]; intros s.
  assert (x = 0 ∨ 0 < x)%N as [->|Hx] by lia; [by rewrite pretty_N_go_0|].
  rewrite pretty_N_go_step, IH by (done || by apply N.div_lt). cbn [digits_val].
  rewrite digit_val_pretty by (by apply N.mod_lt). f_equal.
  rewrite N2Z.inj_div, N2Z.inj_mod. rewrite (Z.div_mod (Z.of_N x) 10) at 3 by done. lia.
Qed.

Lemma pretty_N_go_nonempty x s : s ≠ "" → pretty_N_go x s ≠ "".
Proof.
  revert s. induction (N.lt_wf_0 x) as [x _ IH]; intros s Hs.
  assert (x = 0 ∨ 0 < x)%N as [->|Hx] by lia; [by rewrite pretty_N_go_0|].
  rewrite pretty_N_go_step by done. apply IH; [by apply N.div_lt|done].
Qed.

Lemma parse_udec_itoa z : 0 ≤ z → parse_udec (itoa z) = Some z.
Proof.
  intros Hz. unfold itoa, pretty at 1, pretty_Z. destruct z as [|p|p]; [done| |lia].
  change (pretty p) with (pretty_N_go (N.pos p) ""). unfold parse_udec.
  pose proof (digits_val_pretty (N.pos p) "") as Hd. cbn [digits_val] in Hd.
  destruct (pretty_N_go (N.pos p) "") eqn:E; [|exact Hd].
  rewrite pretty_N_go_step in E by done. by apply pretty_N_go_nonempty in E.
Qed.

Lemma parse_udec_head s z : parse_udec s = Some z → ∃ a t, s = String a t ∧ (bz a = 43 → False) ∧ (bz a = 45 → False).
Proof.
  destruct s as [|a t]; [done|]. intros Hp. exists a, t. split; [done|]. unfold parse_udec in Hp. cbn [digits_val] in Hp.
  unfold digit_val in Hp. destruct ((48 <=? bz a) && (bz a <=? 57)) eqn:E; [|done]. lia.
Qed.

Lemma atoi_itoa z : 0 ≤ z ≤ int64_max → atoi (itoa z) = Some z.
Proof.
  intros Hz. pose proof (parse_udec_itoa z ltac:(lia)) as Hp. unfold atoi.
  destruct (parse_udec_head _ _ Hp) as (a & t & E & H1 & H2). rewrite E in *.
  assert (Ha : match String a t with
    | String "-" s' => option_map Z.opp (parse_udec s') | String "+" s' => parse_udec s' | _ => parse_udec (String a t) end
    = parse_udec (String a t)).
  { destruct a as [[] [] [] [] [] [] [] []]; try done; exfalso; by (apply H1 || apply H2). }
  rewrite Ha, Hp. replace (_ && _) with true; [done|]. symmetry. unfold int64_min. lia.
Qed.

Lemma itoa_no_sep c z : 0 ≤ z → digit_val c = None → contains_char c (itoa z) = false.
Proof.
  intros Hz Hc. pose proof (parse_udec_itoa z Hz) as Hp. unfold parse_udec in Hp.
  assert (Hd : ∀ s acc v, digits_val acc s = Some v → contains_char c s = false).
  { induction s as [|a s IH]; intros acc v Hv; [done|]. cbn [digits_val] in Hv.
    destruct (digit_val a) eqn:Ea; [|done]. rewrite contains_char_cons, (IH _ _ Hv), orb_false_r.
    apply Ascii.eqb_neq. intros ->. congruence. }
  destruct (itoa z); [done|]. by eapply Hd.
Qed.
