(* ===== verification/GoTime.v ===== *)
(** Go's [time.Time] as the program uses it: instants with a wall clock, an
    optional monotonic reading and a zone offset; comparison, arithmetic, the
    RFC 3339 layouts and their round trip. *)
From Stdlib Require Import Ascii.
From stdpp Require Import base list strings.
From S2P Require Import Prelude GoStrings.

Open Scope string_scope.
Open Scope Z_scope.
Open Scope list_scope.

(** * Instants *)

(** [wall]: nanoseconds since the Unix epoch; [mono]: the monotonic reading
    [time.Now] attaches; [off]: offset of the location, seconds east of UTC. *)
Record gotime := GoTime { wall : Z; mono : option Z; off : Z }.

#[export] Instance gotime_eq_dec : EqDecision gotime.
Proof. solve_decision. Defined.

Definition nanosecond : Z := 1.
Definition millisecond : Z := 1000000.
Definition second : Z := 1000000000.
Definition minute : Z := 60 * second.

(** [time.Time{}]: January 1, year 1, 00:00 UTC. *)
Definition zero_time : gotime := GoTime (-62135596800 * second) None 0.

(** [Time.Compare]: monotonic readings when both have one, else the wall clocks. *)
Definition tcompare (a b : gotime) : comparison :=
  match mono a, mono b with
  | Some x, Some y => x ?= y
  | _, _ => wall a ?= wall b
  end.
Definition before (a b : gotime) : bool := match tcompare a b with Lt => true | _ => false end.

(** [Time.Add] *)
Definition tadd (t : gotime) (d : Z) : gotime := GoTime (wall t + d) (option_map (Z.add d) (mono t)) (off t).

Definition sat64 (z : Z) : Z := Z.max int64_min (Z.min int64_max z).
(** [Time.Sub], saturating at the range of [time.Duration] *)
Definition tsub (a b : gotime) : Z :=
  match mono a, mono b with
  | Some x, Some y => sat64 (x - y)
  | _, _ => sat64 (wall a - wall b)
  end.

(** [Time.UTC] *)
Definition to_utc (t : gotime) : gotime := GoTime (wall t) (mono t) 0.

Lemma before_wall a b : mono a = None ∨ mono b = None → before a b = (wall a <? wall b).
Proof.
  unfold before, tcompare, Z.ltb. intros [-> | ->]; [|destruct (mono a)]; by destruct (_ ?= _).
Qed.

(** * The proleptic Gregorian calendar *)

Definition is_leap (y : Z) : bool := (y mod 4 =? 0) && (negb (y mod 100 =? 0) || (y mod 400 =? 0)).
Definition days_in_month (m y : Z) : Z :=
  if m =? 2 then (if is_leap y then 29 else 28)
  else if (m =? 4) || (m =? 6) || (m =? 9) || (m =? 11) then 30 else 31.

(** day number of a date, counted from 1970-01-01 *)
Definition days_from_civil (y m d : Z) : Z :=
  let y' := if m <=? 2 then y - 1 else y in
  let era := y' / 400 in
  let yoe := y' - era * 400 in
  let mp := if m <=? 2 then m + 9 else m - 3 in
  let doy := (153 * mp + 2) / 5 + d - 1 in
  let doe := yoe * 365 + yoe / 4 - yoe / 100 + doy in
  era * 146097 + doe - 719468.

Definition civil_from_days (n : Z) : Z * Z * Z :=
  let z := n + 719468 in
  let era := z / 146097 in
  let doe := z - era * 146097 in
  let yoe := (doe - doe / 1460 + doe / 36524 - doe / 146096) / 365 in
  let doy := doe - (365 * yoe + yoe / 4 - yoe / 100) in
  let mp := (5 * doy + 2) / 153 in
  let d := doy - (153 * mp + 2) / 5 + 1 in
  let m := if mp <? 10 then mp + 3 else mp - 9 in
  (if m <=? 2 then yoe + era * 400 + 1 else yoe + era * 400, m, d).

Lemma civil_yoe doe yoe : 0 ≤ doe ≤ 146096 → yoe = (doe - doe/1460 + doe/36524 - doe/146096)/365 →
  0 ≤ yoe ≤ 399 ∧ 0 ≤ doe - (365 * yoe + yoe / 4 - yoe / 100) ≤ 365.
Proof. intros. Z.to_euclidean_division_equations. lia. Qed.

Lemma civil_leap doe yoe : 0 ≤ doe ≤ 146096 → yoe = (doe - doe/1460 + doe/36524 - doe/146096)/365 →
  doe - (365 * yoe + yoe / 4 - yoe / 100) = 365 → is_leap (yoe + 1) = true.
Proof.
  intros. unfold is_leap. Z.to_euclidean_division_equations. lia.
Qed.

Lemma is_leap_period y k : is_leap (y + k * 400) = is_leap y.
Proof.
  unfold is_leap.
  replace ((y + k * 400) mod 4) with (y mod 4) by (rewrite <-(Z.mod_add y (k * 100) 4) by lia; f_equal; lia).
  replace ((y + k * 400) mod 100) with (y mod 100) by (rewrite <-(Z.mod_add y (k * 4) 100) by lia; f_equal; lia).
  by rewrite Z.mod_add by lia.
Qed.

(** The calendar date of a day number is a real date and has that day number. *)
Lemma civil_from_days_spec n y m d : civil_from_days n = (y, m, d) →
  days_from_civil y m d = n ∧ 1 ≤ m ≤ 12 ∧ 1 ≤ d ≤ days_in_month m y.
Proof.
  unfold civil_from_days. intros H. simplify_eq.
  set (z := n + 719468). set (era := z / 146097). set (doe := z - era * 146097).
  set (yoe := (doe - doe / 1460 + doe / 36524 - doe / 146096) / 365).
  assert (Hdoe : 0 ≤ doe ≤ 146096) by (subst doe era; Z.to_euclidean_division_equations; lia).
  destruct (civil_yoe doe yoe Hdoe eq_refl) as [Hyoe Hdoy].
  pose proof (civil_leap doe yoe Hdoe eq_refl) as Hleap.
  set (doy := doe - (365 * yoe + yoe / 4 - yoe / 100)) in *.
  set (mp := (5 * doy + 2) / 153).
  assert (Hmp : 0 ≤ mp ≤ 11) by (subst mp; Z.to_euclidean_division_equations; lia).
  assert (Hera : ∀ k, (yoe + k * 400) / 400 = k) by (intros k; rewrite Z.div_add, Z.div_small; lia).
  clearbody yoe. unfold days_from_civil, days_in_month.
  destruct (Z.ltb_spec mp 10) as [Hm|Hm]; [set (m := mp + 3)|set (m := mp - 9)].
  - replace (m <=? 2) with false by lia.
    rewrite Hera. replace (m - 3) with mp by lia.
    replace (yoe + era * 400 - era * 400) with yoe by lia. split; [subst doy doe; lia|]. split; [lia|].
    replace (m =? 2) with false by lia.
    subst mp m. clear Hleap Hera. repeat case_match; Z.to_euclidean_division_equations; lia.
  - replace (m <=? 2) with true by lia.
    replace (yoe + era * 400 + 1 - 1) with (yoe + era * 400) by lia. rewrite Hera.
    replace (m + 9) with mp by lia.
    replace (yoe + era * 400 - era * 400) with yoe by lia. split; [subst doy doe; lia|]. split; [lia|].
    replace (yoe + era * 400 + 1) with (yoe + 1 + era * 400) by lia. rewrite is_leap_period.
    assert (doy = 365 ∨ doy < 365) as [Hd|Hd] by lia.
    + rewrite Hleap by done. subst mp m. clear Hleap Hera.
      repeat case_match; Z.to_euclidean_division_equations; lia.
    + subst mp m. clear Hleap Hera. repeat case_match; Z.to_euclidean_division_equations; lia.
Qed.

(** * RFC 3339 text *)

Definition digit (z : Z) : char := zb (48 + z).
(** the [w] low decimal digits of [z] *)
Fixpoint digits (w : nat) (z : Z) : string :=
  match w with
  | O => ""
  | S w' => String (digit (z / 10 ^ Z.of_nat w' mod 10)) (digits w' z)
  end.
(** [appendInt(b, z, w)]: zero-padded to [w] digits, longer when needed *)
Definition fmt_int (w : nat) (z : Z) : string :=
  if z <? 0 then
    "-" +:+ (if - z <? 10 ^ Z.of_nat w then digits w (- z) else itoa (- z))
  else if z <? 10 ^ Z.of_nat w then digits w z else itoa z.

(** the fraction [.999999999] of [k] digits without trailing zeros *)
Fixpoint frac_digits (k : nat) (n : Z) : string :=
  match k with
  | O => ""
  | S k' => if n =? 0 then "" else
      String (digit (n / 10 ^ Z.of_nat k')) (frac_digits k' (n mod 10 ^ Z.of_nat k'))
  end.

Definition fmt_zone (o : Z) : string :=
  if o =? 0 then "Z" else
  let z := Z.abs (Z.quot o 60) in
  (if Z.quot o 60 <? 0 then "-" else "+") +:+ fmt_int 2 (z / 60) +:+ ":" +:+ fmt_int 2 (z mod 60).

Definition fmt_date_time (t : gotime) (frac : string) : string :=
  let loc := wall t / second + off t in
  let '(y, m, d) := civil_from_days (loc / 86400) in
  let s := loc mod 86400 in
  fmt_int 4 y +:+ "-" +:+ fmt_int 2 m +:+ "-" +:+ fmt_int 2 d +:+ "T" +:+
  fmt_int 2 (s / 3600) +:+ ":" +:+ fmt_int 2 (s / 60 mod 60) +:+ ":" +:+ fmt_int 2 (s mod 60) +:+
  frac +:+ fmt_zone (off t).

(** [t.Format(time.RFC3339)] and [t.Format(time.RFC3339Nano)] *)
Definition format_rfc3339 (t : gotime) : string := fmt_date_time t "".
Definition format_rfc3339_nano (t : gotime) : string :=
  let n := wall t mod second in
  fmt_date_time t (if n =? 0 then "" else "." +:+ frac_digits 9 n).

Fixpoint p_digits (w : nat) (acc : Z) (s : string) : option (Z * string) :=
  match w with
  | O => Some (acc, s)
  | S w' => match s with
            | String a s' => match digit_val a with Some d => p_digits w' (acc * 10 + d) s' | None => None end
            | "" => None
            end
  end.
Definition p_char (c : char) (s : string) : option string :=
  match s with String a s' => if Ascii.eqb a c then Some s' else None | "" => None end.
(** [getnum(value, false)]: one or two digits *)
Definition p_hour (s : string) : option (Z * string) :=
  match p_digits 2 0 s with Some r => Some r | None => p_digits 1 0 s end.
(** digits of a fraction: nine count, the rest are read and dropped *)
Fixpoint p_frac (k : nat) (acc : Z) (s : string) : Z * string :=
  match s with
  | "" => (acc * 10 ^ Z.of_nat k, "")
  | String a s' =>
      match digit_val a with
      | None => (acc * 10 ^ Z.of_nat k, s)
      | Some d => match k with
                  | O => p_frac O acc s'
                  | S k' => p_frac k' (acc * 10 + d) s'
                  end
      end
  end.
Definition p_opt_frac (s : string) : Z * string :=
  match s with
  | String a (String b s') =>
      if (Ascii.eqb a "." || Ascii.eqb a ",") && match digit_val b with Some _ => true | None => false end
      then p_frac 9 0 (String b s') else (0, s)
  | _ => (0, s)
  end.
Definition p_zone (s : string) : option (Z * string) :=
  match s with
  | String "Z" s' => Some (0, s')
  | String sg s1 =>
      '(h, s2) ← p_digits 2 0 s1; s3 ← p_char ":" s2; '(m, s4) ← p_digits 2 0 s3;
      if (h <=? 24) && (m <=? 60) then
        if Ascii.eqb sg "+" then Some ((h * 60 + m) * 60, s4)
        else if Ascii.eqb sg "-" then Some (- ((h * 60 + m) * 60), s4)
        else None
      else None
  | "" => None
  end.

(** [time.Parse(time.RFC3339, s)]; the layout with nanoseconds accepts the same
    texts, since a fraction may follow the seconds in either. *)
Definition parse_rfc3339 (s : string) : option gotime :=
  '(y, s) ← p_digits 4 0 s; s ← p_char "-" s;
  '(mo, s) ← p_digits 2 0 s; s ← p_char "-" s;
  '(d, s) ← p_digits 2 0 s; s ← p_char "T" s;
  '(h, s) ← p_hour s; s ← p_char ":" s;
  '(mi, s) ← p_digits 2 0 s; s ← p_char ":" s;
  '(sec, s) ← p_digits 2 0 s;
  let '(ns, s) := p_opt_frac s in
  '(o, s) ← p_zone s;
  if String.eqb s "" && (1 <=? mo) && (mo <=? 12) && (1 <=? d) && (d <=? days_in_month mo y) &&
     (h <? 24) && (mi <? 60) && (sec <? 60) then
    Some (GoTime ((days_from_civil y mo d * 86400 + h * 3600 + mi * 60 + sec - o) * second + ns) None o)
  else None.

(** ** Round trip *)

Lemma digit_val_digit z : 0 ≤ z < 10 → digit_val (digit z) = Some z.
Proof.
  intros. unfold digit_val, digit. rewrite bz_zb by lia.
  replace (_ && _) with true by lia. f_equal. lia.
Qed.

Lemma p_digits_digits w acc z t :
  p_digits w acc (digits w z +:+ t) = Some (acc * 10 ^ Z.of_nat w + z mod 10 ^ Z.of_nat w, t).
Proof.
  revert acc. induction w as [|w IH]; intros acc; simpl.
  { rewrite Z.mod_1_r. do 2 f_equal. lia. }
  rewrite digit_val_digit by (apply Z.mod_pos_bound; lia). rewrite IH.
  rewrite Nat2Z.inj_succ, Z.pow_succ_r by lia. rewrite (Z.mul_comm 10 (10 ^ _)).
  rewrite Z.rem_mul_r by lia. generalize (10 ^ Z.of_nat w). intros p. do 2 f_equal. lia.
Qed.

Lemma p_digits_fmt w z t : 0 ≤ z < 10 ^ Z.of_nat w →
  p_digits w 0 (fmt_int w z +:+ t) = Some (z, t).
Proof.
  intros. unfold fmt_int. replace (z <? 0) with false by lia. replace (z <? _) with true by lia.
  rewrite p_digits_digits, Z.mod_small by lia. done.
Qed.

Lemma p_frac_digits k acc n t : 0 ≤ n < 10 ^ Z.of_nat k →
  (∀ a u, t = String a u → digit_val a = None) →
  p_frac k acc (frac_digits k n +:+ t) = (acc * 10 ^ Z.of_nat k + n, t).
Proof.
  intros Hn Ht. revert acc n Hn. induction k as [|k IH]; intros acc n Hn.
  { simpl in *. assert (n = 0) as -> by lia. destruct t as [|a u]; simpl.
    - f_equal; lia. - rewrite (Ht a u eq_refl). f_equal; lia. }
  simpl frac_digits. destruct (Z.eqb_spec n 0) as [->|Hne].
  { simpl (_ +:+ _). unfold p_frac. destruct t as [|a u]; [f_equal; lia|].
    rewrite (Ht a u eq_refl). f_equal; lia. }
  rewrite Nat2Z.inj_succ, Z.pow_succ_r in * by lia.
  assert (0 < 10 ^ Z.of_nat k) by (apply Z.pow_pos_nonneg; lia).
  simpl. rewrite digit_val_digit by (split; [apply Z.div_pos; lia|apply Z.div_lt_upper_bound; lia]).
  rewrite IH by (apply Z.mod_pos_bound; lia). f_equal.
  generalize (Z.div_mod n (10 ^ Z.of_nat k) ltac:(lia)). lia.
Qed.

Lemma p_zone_fmt o : o mod 60 = 0 → Z.abs o < 86400 → p_zone (fmt_zone o) = Some (o, "").
Proof.
  intros Hm Ho. unfold fmt_zone. destruct (Z.eqb_spec o 0) as [->|Hne]; [done|].
  set (z := Z.abs (Z.quot o 60)).
  assert (Hz : 0 ≤ z < 1440 ∧ z * 60 = Z.abs o) by (subst z; Z.to_euclidean_division_equations; lia).
  clearbody z.
  assert (Hsg : (Z.quot o 60 <? 0) = (o <? 0)) by (Z.to_euclidean_division_equations; lia).
  rewrite Hsg.
  assert (Hp : ∀ sg, (sg = "+"%char ∨ sg = "-"%char) →
    p_zone (String sg (fmt_int 2 (z / 60) +:+ ":" +:+ fmt_int 2 (z mod 60))) =
    Some ((if Ascii.eqb sg "+" then 1 else -1) * (z * 60), "")).
  { intros sg Hs.
    assert (0 ≤ z / 60 < 24 ∧ 0 ≤ z mod 60 < 60 ∧ z = 60 * (z / 60) + z mod 60) as (Hh & Hmm & Hzz)
      by (Z.to_euclidean_division_equations; lia).
    assert (Hd := p_digits_fmt 2 (z / 60) (":" +:+ fmt_int 2 (z mod 60)) ltac:(lia)).
    assert (Hd' := p_digits_fmt 2 (z mod 60) "" ltac:(lia)). rewrite sapp_nil_r in Hd'.
    unfold p_zone. destruct Hs as [-> | ->]; rewrite Hd; cbn -[p_digits fmt_int Z.mul Z.add Z.opp];
      rewrite Hd'; cbn -[Z.mul Z.add Z.opp]; replace (_ && _) with true by lia; do 2 f_equal; lia. }
  destruct (Z.ltb_spec o 0); cbn [String.append]; rewrite Hp by auto; simpl; do 2 f_equal; lia.
Qed.

(** What a formatted instant is parsed to: the same zone, the wall clock up to
    the precision that was printed. *)
Definition year_of (t : gotime) : Z := (civil_from_days ((wall t / second + off t) / 86400)).1.1.
Definition printable (t : gotime) : Prop :=
  0 ≤ year_of t ≤ 9999 ∧ off t mod 60 = 0 ∧ Z.abs (off t) < 86400.

Local Ltac one := cbn -[p_digits fmt_int p_opt_frac p_zone fmt_zone Z.mul Z.add p_hour second days_from_civil].

Lemma parse_fmt_date_time t frac ns : printable t →
  p_opt_frac (frac +:+ fmt_zone (off t)) = (ns, fmt_zone (off t)) →
  parse_rfc3339 (fmt_date_time t frac) = Some (GoTime (wall t / second * second + ns) None (off t)).
Proof.
  intros (Hy & Ho & Ho') Hfrac. unfold parse_rfc3339, fmt_date_time.
  unfold year_of in Hy. destruct (civil_from_days _) as [[y m] d] eqn:Hciv. simpl in Hy.
  destruct (civil_from_days_spec _ _ _ _ Hciv) as (Hday & Hm & Hd).
  set (loc := wall t / second + off t) in *. set (s := loc mod 86400).
  assert (0 ≤ s < 86400) by (apply Z.mod_pos_bound; lia).
  assert (d ≤ 31) by (revert Hd; unfold days_in_month; repeat case_match; lia).
  assert (0 ≤ s / 3600 < 24 ∧ 0 ≤ s / 60 mod 60 < 60 ∧ 0 ≤ s mod 60 < 60 ∧
    s = s / 3600 * 3600 + s / 60 mod 60 * 60 + s mod 60) as (Hh & Hmi & Hs & Hsum)
    by (Z.to_euclidean_division_equations; lia).
  assert (Hloc : loc = loc / 86400 * 86400 + s) by (subst s; Z.to_euclidean_division_equations; lia).
  cbv zeta. clearbody s.
  rewrite p_digits_fmt by lia. one. rewrite p_digits_fmt by lia. one. rewrite p_digits_fmt by lia. one.
  unfold p_hour. rewrite p_digits_fmt by lia. one. rewrite p_digits_fmt by lia. one.
  rewrite p_digits_fmt by lia. one. rewrite Hfrac, p_zone_fmt by done. one.
  replace (_ && _) with true by lia. do 2 f_equal. rewrite Hday. lia.
Qed.

Lemma fmt_zone_head o a u : fmt_zone o = String a u → digit_val a = None ∧ a ≠ "."%char ∧ a ≠ ","%char.
Proof. unfold fmt_zone. repeat case_match; simpl; intros [= <- _]; done. Qed.

(** [time.RFC3339] keeps whole seconds. *)
Lemma parse_format_rfc3339 t : printable t →
  parse_rfc3339 (format_rfc3339 t) = Some (GoTime (wall t / second * second) None (off t)).
Proof.
  intros Hp. unfold format_rfc3339. rewrite (parse_fmt_date_time t "" 0); [by rewrite Z.add_0_r|done|].
  simpl. unfold p_opt_frac. destruct (fmt_zone (off t)) as [|a [|b u]] eqn:E; try done.
  destruct (fmt_zone_head _ _ _ E) as (_ & H1 & H2).
  apply Ascii.eqb_neq in H1 as ->. by apply Ascii.eqb_neq in H2 as ->.
Qed.

(** [time.RFC3339Nano] keeps the instant. *)
Lemma parse_format_rfc3339_nano t : printable t →
  parse_rfc3339 (format_rfc3339_nano t) = Some (GoTime (wall t) None (off t)).
Proof.
  intros Hp. unfold format_rfc3339_nano.
  assert (Hn : 0 ≤ wall t mod second < second) by (apply Z.mod_pos_bound; done).
  rewrite (parse_fmt_date_time t _ (wall t mod second)); [|done|].
  { do 2 f_equal. rewrite (Z.div_mod (wall t) second) at 3 by done. lia. }
  destruct (Z.eqb_spec (wall t mod second) 0) as [->|Hne].
  - simpl. unfold p_opt_frac. destruct (fmt_zone (off t)) as [|a [|b u]] eqn:E; try done.
    destruct (fmt_zone_head _ _ _ E) as (_ & H1 & H2).
    apply Ascii.eqb_neq in H1 as ->. by apply Ascii.eqb_neq in H2 as ->.
  - set (n := wall t mod second) in *. unfold p_opt_frac.
    assert (Hd := p_frac_digits 9 0 n (fmt_zone (off t)) Hn).
    rewrite Z.add_0_l in Hd. specialize (Hd (λ a u E, proj1 (fmt_zone_head _ _ _ E))).
    simpl frac_digits in *. replace (n =? 0) with false in * by lia.
    cbn [String.append] in *. rewrite digit_val_digit; [exact Hd|].
    unfold second in Hn. simpl (10 ^ _). split; [apply Z.div_pos; lia|apply Z.div_lt_upper_bound; lia].
Qed.

(** The text of a printable instant has only digits, signs and its separators. *)
Lemma digit_no c z : digit_val c = None → 0 ≤ z < 10 → Ascii.eqb (digit z) c = false.
Proof.
  intros Hc Hz. apply Ascii.eqb_neq. intros He. pose proof (digit_val_digit z Hz) as Hd.
  rewrite He, Hc in Hd. done.
Qed.
Lemma digits_no c w z : digit_val c = None → contains_char c (digits w z) = false.
Proof.
  intros Hc. induction w as [|w IH]; [done|]. cbn [digits]. rewrite contains_char_cons, IH, orb_false_r.
  apply digit_no; [done|]. by apply Z.mod_pos_bound.
Qed.
Lemma frac_digits_no c k n : digit_val c = None → 0 ≤ n < 10 ^ Z.of_nat k → contains_char c (frac_digits k n) = false.
Proof.
  intros Hc. revert n. induction k as [|k IH]; intros n Hn; [done|]. cbn [frac_digits].
  destruct (n =? 0); [done|]. rewrite Nat2Z.inj_succ, Z.pow_succ_r in Hn by lia.
  rewrite contains_char_cons, IH, orb_false_r; [|by apply Z.mod_pos_bound, Z.pow_pos_nonneg; lia].
  apply digit_no; [done|]. split; [apply Z.div_pos; [lia|apply Z.pow_pos_nonneg; lia]|].
  apply Z.div_lt_upper_bound; [apply Z.pow_pos_nonneg; lia|lia].
Qed.
Lemma fmt_int_no c w z : digit_val c = None → 0 ≤ z < 10 ^ Z.of_nat w → contains_char c (fmt_int w z) = false.
Proof.
  intros Hc Hz. unfold fmt_int. replace (z <? 0) with false by lia.
  replace (z <? 10 ^ Z.of_nat w) with true by lia. by apply digits_no.
Qed.

Lemma fmt_zone_no c o : digit_val c = None → contains_char c "Z+-:" = false → Z.abs o < 86400 →
  contains_char c (fmt_zone o) = false.
Proof.
  intros Hc Hs Ho. unfold fmt_zone. rewrite !contains_char_cons, !orb_false_iff in Hs.
  destruct Hs as (HZ & Hp & Hm & Hcol & _). destruct (o =? 0); [by rewrite contains_char_cons, HZ|].
  assert (Hz : 0 ≤ Z.abs (Z.quot o 60) < 1440).
  { Z.to_euclidean_division_equations; lia. }
  rewrite !contains_char_app, !fmt_int_no; try done.
  - destruct (_ <? 0); rewrite !contains_char_cons, ?Hp, ?Hm, ?Hcol; done.
  - change (10 ^ Z.of_nat 2) with 100. Z.to_euclidean_division_equations; lia.
  - change (10 ^ Z.of_nat 2) with 100. Z.to_euclidean_division_equations; lia.
Qed.

Lemma format_rfc3339_nano_no c t : digit_val c = None → contains_char c "-T:.Z+" = false → printable t →
  contains_char c (format_rfc3339_nano t) = false.
Proof.
  intros Hc Hs (Hy & Ho & Ho'). rewrite !contains_char_cons, !orb_false_iff in Hs.
  destruct Hs as (Hm & HT & Hcol & Hdot & HZ & Hp & _).
  unfold format_rfc3339_nano, fmt_date_time. unfold year_of in Hy.
  destruct (civil_from_days _) as [[y mo] d] eqn:Hciv. simpl in Hy.
  destruct (civil_from_days_spec _ _ _ _ Hciv) as (_ & Hmo & Hd).
  assert (d ≤ 31) by (revert Hd; unfold days_in_month; repeat case_match; lia).
  set (s := _ mod 86400). assert (0 ≤ s < 86400) by (apply Z.mod_pos_bound; lia). clearbody s.
  rewrite !contains_char_app, !contains_char_cons, Hm, HT, Hcol. change (contains_char c "") with false.
  rewrite !orb_false_r, !orb_false_l.
  rewrite !fmt_int_no; try done; try (change (10 ^ Z.of_nat 4) with 10000); try (change (10 ^ Z.of_nat 2) with 100);
    try lia; try (Z.to_euclidean_division_equations; lia).
  rewrite fmt_zone_no; [|done| |done].
  2:{ rewrite !contains_char_cons, HZ, Hp, Hm, Hcol. done. }
  destruct (_ =? 0); [done|]. rewrite contains_char_app, contains_char_cons, Hdot, frac_digits_no; [done..|].
  apply Z.mod_pos_bound. done.
Qed.
