(* ===== verification/Json.v ===== *)
(** The JSON texts the program reads and writes with [encoding/json]: values,
    the encoder (compact as [json.Marshal], indented as [json.MarshalIndent]),
    the decoder, and their round trip. *)
From Stdlib Require Import Ascii.
From stdpp Require Import base list sets strings.
From S2P Require Import Prelude GoStrings.

Open Scope string_scope.
Open Scope Z_scope.
Open Scope list_scope.

(** * Values *)

(** A number keeps its literal text, as [json.Number] does; the members of an
    object keep their order. *)
Inductive json : Type :=
| JNull
| JBool (b : bool)
| JNum (lit : string)
| JStr (s : string)
| JArr (l : list json)
| JObj (m : list (string * json)).

Section json_ind.
Context (P : json → Prop).
Context (Hnull : P JNull) (Hbool : ∀ b, P (JBool b)) (Hnum : ∀ s, P (JNum s)) (Hstr : ∀ s, P (JStr s)).
Context (Harr : ∀ l, Forall P l → P (JArr l)) (Hobj : ∀ m, Forall P (m.*2) → P (JObj m)).

Fixpoint json_ind' (v : json) : P v :=
  match v with
  | JNull => Hnull
  | JBool b => Hbool b
  | JNum s => Hnum s
  | JStr s => Hstr s
  | JArr l => Harr l ((fix go l := match l return Forall P l with
                       | [] => Forall_nil_2 P
                       | x :: l' => Forall_cons_2 P x l' (json_ind' x) (go l')
                       end) l)
  | JObj m => Hobj m ((fix go m := match m return Forall P (m.*2) with
                       | [] => Forall_nil_2 P
                       | (k, x) :: m' => Forall_cons_2 P x (m'.*2) (json_ind' x) (go m')
                       end) m)
  end.
End json_ind.

(** ** Objects as Go maps: association lists with distinct keys *)

Fixpoint assoc_get {A} (k : string) (m : list (string * A)) : option A :=
  match m with [] => None | (k', v) :: m' => if String.eqb k' k then Some v else assoc_get k m' end.
Fixpoint assoc_set {A} (k : string) (v : A) (m : list (string * A)) : list (string * A) :=
  match m with
  | [] => [(k, v)]
  | (k', v') :: m' => if String.eqb k' k then (k, v) :: m' else (k', v') :: assoc_set k v m'
  end.
Fixpoint assoc_del {A} (k : string) (m : list (string * A)) : list (string * A) :=
  match m with
  | [] => []
  | (k', v') :: m' => if String.eqb k' k then assoc_del k m' else (k', v') :: assoc_del k m'
  end.

Section assoc.
Context {A : Type}.
Implicit Types (m : list (string * A)).

Lemma assoc_get_set k k' v m :
  assoc_get k' (assoc_set k v m) = if String.eqb k k' then Some v else assoc_get k' m.
Proof.
  induction m as [|[k1 v1] m IH]; simpl; [done|].
  destruct (String.eqb_spec k1 k) as [->|Hne]; simpl; [by destruct (String.eqb_spec k k')|].
  rewrite IH. destruct (String.eqb_spec k1 k') as [->|]; [|done].
  by destruct (String.eqb_spec k k') as [->|].
Qed.
Lemma assoc_get_del k k' m :
  assoc_get k' (assoc_del k m) = if String.eqb k k' then None else assoc_get k' m.
Proof.
  induction m as [|[k1 v1] m IH]; simpl; [by destruct (String.eqb _ _)|].
  destruct (String.eqb_spec k1 k) as [->|Hne]; simpl; rewrite IH.
  - by destruct (String.eqb_spec k k').
  - destruct (String.eqb_spec k1 k') as [->|]; [|done].
    by destruct (String.eqb_spec k k') as [->|].
Qed.
Lemma assoc_set_id k v m : assoc_get k m = Some v → assoc_set k v m = m.
Proof.
  induction m as [|[k1 v1] m IH]; simpl; [done|].
  destruct (String.eqb_spec k1 k) as [->|]; intros; simplify_eq/=; [done|]. f_equal. auto.
Qed.
Lemma assoc_del_notin k m : assoc_get k m = None → assoc_del k m = m.
Proof.
  induction m as [|[k1 v1] m IH]; simpl; [done|].
  destruct (String.eqb k1 k); [done|]. intros. f_equal. auto.
Qed.
Lemma assoc_set_keys k v m : ∀ x, x ∈ (assoc_set k v m).*1 ↔ x = k ∨ x ∈ m.*1.
Proof.
  intros x. induction m as [|[k1 v1] m IH]; simpl; [set_solver|].
  destruct (String.eqb_spec k1 k) as [->|]; csimpl; set_solver.
Qed.
Lemma assoc_set_NoDup k v m : NoDup m.*1 → NoDup (assoc_set k v m).*1.
Proof.
  induction m as [|[k1 v1] m IH]; csimpl; [intros; apply NoDup_singleton|].
  intros [Hn Hd]%NoDup_cons. destruct (String.eqb_spec k1 k) as [->|Hne]; csimpl; [by constructor|].
  constructor; [|auto]. intros [?|?]%assoc_set_keys; done.
Qed.
Lemma assoc_get_None k m : assoc_get k m = None ↔ k ∉ m.*1.
Proof.
  induction m as [|[k1 v1] m IH]; csimpl; [set_solver|].
  destruct (String.eqb_spec k1 k) as [->|]; set_solver.
Qed.
Lemma assoc_set_app k v m : k ∉ m.*1 → assoc_set k v m = m ++ [(k, v)].
Proof.
  induction m as [|[k1 v1] m IH]; csimpl; [done|].
  intros [? ?]%not_elem_of_cons. destruct (String.eqb_spec k1 k) as [->|]; [done|].
  by rewrite IH.
Qed.
End assoc.

Lemma assoc_get_elem {A} k (v : A) m : NoDup m.*1 → (assoc_get k m = Some v ↔ (k, v) ∈ m).
Proof.
  induction m as [|[k' v'] m IH]; cbn; intros Hn; [split; [done|by intros ?%elem_of_nil]|].
  apply NoDup_cons in Hn as [Hk Hn]. rewrite elem_of_cons. destruct (String.eqb_spec k' k) as [->|Hne].
  - split; [intros [= ->]; by left|]. intros [[= ->]|Hin]; [done|]. exfalso. apply Hk. apply list_elem_of_fmap. by exists (k, v).
  - rewrite (IH Hn). naive_solver.
Qed.

(** * Encoding *)

Definition dq : char := "034".
Definition bs : char := "092".
Definition nlc : char := "010".
Definition quoted (s : string) : string := String dq (s +:+ String dq "").

Definition hexdig (z : Z) : char := if z <? 10 then zb (48 + z) else zb (87 + z).
Definition u4 (z : Z) : string :=
  String bs (String "u" (String (hexdig (z / 4096 mod 16)) (String (hexdig (z / 256 mod 16))
    (String (hexdig (z / 16 mod 16)) (String (hexdig (z mod 16)) ""))))).

(** one character of a string literal, with the HTML-safe escapes of [json.Marshal] *)
Definition esc_seg (x : seg) : string :=
  let '(r, b) := x in
  if seg_bad x then u4 RuneError
  else if r =? 0x22 then String bs (String dq "")
  else if r =? 0x5C then String bs (String bs "")
  else if r =? 8 then String bs "b"
  else if r =? 12 then String bs "f"
  else if r =? 10 then String bs "n"
  else if r =? 13 then String bs "r"
  else if r =? 9 then String bs "t"
  else if (r <? 0x20) || (r =? 0x3C) || (r =? 0x3E) || (r =? 0x26) || (r =? 0x2028) || (r =? 0x2029) then u4 r
  else b.
Definition esc_segs (l : list seg) : string := fold_right (λ x acc, esc_seg x +:+ acc) "" l.
Definition json_string (s : string) : string := quoted (esc_segs (segs s)).

Fixpoint rep_string (n : nat) (s : string) : string := match n with O => "" | S n' => s +:+ rep_string n' s end.

Section print.
(** [ind]: two-space indentation, as [json.MarshalIndent(v, _, two spaces)] *)
Context (ind : bool).
Definition nl (lvl : nat) : string := if ind then String nlc (rep_string lvl "  ") else "".
Definition colon : string := if ind then ": " else ":".

Fixpoint print (lvl : nat) (v : json) : string :=
  match v with
  | JNull => "null"
  | JBool true => "true"
  | JBool false => "false"
  | JNum lit => lit
  | JStr s => json_string s
  | JArr [] => "[]"
  | JArr l => "[" +:+ nl (S lvl) +:+ join ("," +:+ nl (S lvl)) (map (print (S lvl)) l) +:+ nl lvl +:+ "]"
  | JObj [] => "{}"
  | JObj m => "{" +:+ nl (S lvl) +:+
      join ("," +:+ nl (S lvl)) (map (λ '(k, x), json_string k +:+ colon +:+ print (S lvl) x) m) +:+
      nl lvl +:+ "}"
  end.
End print.

Definition marshal (v : json) : string := print false 0 v.
Definition marshal_indent (v : json) : string := print true 0 v.

(** * Decoding *)

Definition is_ws (a : char) : bool := (bz a =? 32) || (bz a =? 9) || (bz a =? 10) || (bz a =? 13).
Fixpoint skip_ws (s : string) : string :=
  match s with String a s' => if is_ws a then skip_ws s' else s | "" => "" end.

Definition hexval (a : char) : option Z :=
  let z := bz a in
  if (48 <=? z) && (z <=? 57) then Some (z - 48)
  else if (97 <=? z) && (z <=? 102) then Some (z - 87)
  else if (65 <=? z) && (z <=? 70) then Some (z - 55)
  else None.
Definition p_hex4 (s : string) : option (Z * string) :=
  match s with
  | String a (String b (String c (String d t))) =>
      x ← hexval a; y ← hexval b; z ← hexval c; w ← hexval d;
      Some (x * 4096 + y * 256 + z * 16 + w, t)
  | _ => None
  end.

Definition is_surrogate (r : Z) : bool := (0xD800 <=? r) && (r <=? 0xDFFF).
(** the code point after [\uXXXX] with value [r]: a surrogate pair, a lone
    surrogate (read as U+FFFD) or the value itself *)
Definition p_utf16 (r : Z) (s : string) : Z * string :=
  if is_surrogate r then
    match s with
    | String "\" (String "u" t) =>
        match p_hex4 t with
        | Some (r2, t2) =>
            if (r <=? 0xDBFF) && (0xDC00 <=? r2) && (r2 <=? 0xDFFF)
            then ((r - 0xD800) * 1024 + (r2 - 0xDC00) + 0x10000, t2) else (RuneError, s)
        | None => (RuneError, s)
        end
    | _ => (RuneError, s)
    end
  else (r, s).

Definition p_escape (s : string) : option (string * string) :=
  match s with
  | String "u" t => '(r, t) ← p_hex4 t; let '(c, t) := p_utf16 r t in Some (encode_rune c, t)
  | String a t =>
      if Ascii.eqb a dq || Ascii.eqb a bs || Ascii.eqb a "/" then Some (String a "", t)
      else if Ascii.eqb a "b" then Some (String "008" "", t)
      else if Ascii.eqb a "f" then Some (String "012" "", t)
      else if Ascii.eqb a "n" then Some (String "010" "", t)
      else if Ascii.eqb a "r" then Some (String "013" "", t)
      else if Ascii.eqb a "t" then Some (String "009" "", t)
      else None
  | "" => None
  end.

(** the rest of a string literal, after its opening quote *)
Fixpoint p_string (n : nat) (s : string) : option (string * string) :=
  match n with
  | O => None
  | S n' =>
      match s with
      | "" => None
      | String a t =>
          if Ascii.eqb a dq then Some ("", t)
          else if Ascii.eqb a bs then
            '(x, t) ← p_escape t; '(y, t) ← p_string n' t; Some (x +:+ y, t)
          else if bz a <? 0x20 then None
          else '(r, b, t) ← decode1 s; '(y, t) ← p_string n' t; Some (encode_rune r +:+ y, t)
      end
  end.

Definition is_digit (a : char) : bool := (48 <=? bz a) && (bz a <=? 57).
Definition number_char (a : char) : bool :=
  is_digit a || Ascii.eqb a "-" || Ascii.eqb a "+" || Ascii.eqb a "." || Ascii.eqb a "e" || Ascii.eqb a "E".
Fixpoint span (p : char → bool) (s : string) : string * string :=
  match s with
  | String a s' => if p a then let '(x, y) := span p s' in (String a x, y) else ("", s)
  | "" => ("", "")
  end.
Definition valid_exp (s : string) : bool :=
  match s with
  | "" => true
  | String a t =>
      (Ascii.eqb a "e" || Ascii.eqb a "E") &&
      let t' := match t with String b u => if Ascii.eqb b "+" || Ascii.eqb b "-" then u else t | "" => "" end in
      let '(ds, r) := span is_digit t' in negb (String.eqb ds "") && String.eqb r ""
  end.
(** the grammar of number literals *)
Definition valid_number (s : string) : bool :=
  let s := match s with String "-" t => t | _ => s end in
  let '(ds, r) := span is_digit s in
  match ds with
  | "" => false
  | String a ds' => (negb (Ascii.eqb a "0") || String.eqb ds' "") &&
      match r with
      | String "." t => let '(fs, r') := span is_digit t in negb (String.eqb fs "") && valid_exp r'
      | _ => valid_exp r
      end
  end.

Definition lit_prefix (lit : string) (v : json) (s : string) : option (json * string) :=
  match cut_prefix lit s with Some t => Some (v, t) | None => None end.

(** the scanner's limit on nested arrays and objects *)
Definition max_depth : N := 10000.

Definition eat (c : char) (s : string) : option string :=
  match s with String a s' => if Ascii.eqb a c then Some s' else None | "" => None end.

Fixpoint p_value (n : nat) (d : N) (s : string) {struct n} : option (json * string) :=
  match n with
  | O => None
  | S n' =>
      match skip_ws s with
      | "" => None
      | String a t as s' =>
          if Ascii.eqb a "{" then
            if (max_depth <=? d)%N then None else
            match eat "}" (skip_ws t) with
            | Some u => Some (JObj [], u)
            | None => '(m, u) ← p_members n' (N.succ d) t; Some (JObj m, u)
            end
          else if Ascii.eqb a "[" then
            if (max_depth <=? d)%N then None else
            match eat "]" (skip_ws t) with
            | Some u => Some (JArr [], u)
            | None => '(l, u) ← p_elems n' (N.succ d) t; Some (JArr l, u)
            end
          else if Ascii.eqb a dq then '(x, u) ← p_string (S (slen t)) t; Some (JStr x, u)
          else if Ascii.eqb a "t" then lit_prefix "true" (JBool true) s'
          else if Ascii.eqb a "f" then lit_prefix "false" (JBool false) s'
          else if Ascii.eqb a "n" then lit_prefix "null" JNull s'
          else let '(lit, u) := span number_char s' in
               if valid_number lit then Some (JNum lit, u) else None
      end
  end
with p_elems (n : nat) (d : N) (s : string) {struct n} : option (list json * string) :=
  match n with
  | O => None
  | S n' =>
      '(v, t) ← p_value n' d s;
      match eat "," (skip_ws t) with
      | Some u => '(l, u) ← p_elems n' d u; Some (v :: l, u)
      | None => u ← eat "]" (skip_ws t); Some ([v], u)
      end
  end
with p_members (n : nat) (d : N) (s : string) {struct n} : option (list (string * json) * string) :=
  match n with
  | O => None
  | S n' =>
      t ← eat dq (skip_ws s);
      '(k, t) ← p_string (S (slen t)) t;
      t ← eat ":" (skip_ws t);
      '(v, t) ← p_value n' d t;
      match eat "," (skip_ws t) with
      | Some u => '(m, u) ← p_members n' d u; Some ((k, v) :: m, u)
      | None => u ← eat "}" (skip_ws t); Some ([(k, v)], u)
      end
  end.

(** one value and what follows it: [json.Decoder.Decode] *)
Definition decode_prefix (s : string) : option (json * string) := p_value (slen s) 0 s.
(** [json.Unmarshal]: one value and white space *)
Definition unmarshal (s : string) : option json :=
  '(v, t) ← decode_prefix s; if String.eqb (skip_ws t) "" then Some v else None.

(** * The round trip *)

Fixpoint jsize (v : json) : nat :=
  match v with
  | JArr l => S (list_sum (map (λ x, S (jsize x)) l))
  | JObj m => S (list_sum (map (λ x, S (jsize x.2)) m))
  | _ => 1
  end.
Fixpoint jdepth (v : json) : N :=
  match v with
  | JArr l => N.succ (fold_right N.max 0%N (map jdepth l))
  | JObj m => N.succ (fold_right N.max 0%N (map (λ x, jdepth x.2) m))
  | _ => 0%N
  end.
(** number literals follow the grammar *)
Fixpoint jwf (v : json) : bool :=
  match v with
  | JNum lit => valid_number lit && String.eqb (span number_char lit).2 ""
  | JArr l => forallb jwf l
  | JObj m => forallb (λ x, jwf x.2) m
  | _ => true
  end.
(** the value read back: every string made valid UTF-8 *)
Fixpoint jnorm (v : json) : json :=
  match v with
  | JStr s => JStr (to_valid_utf8 s)
  | JArr l => JArr (map jnorm l)
  | JObj m => JObj (map (λ x, (to_valid_utf8 x.1, jnorm x.2)) m)
  | _ => v
  end.

Lemma decode1_first s r b t : decode1 s = Some (r, b, t) → seg_good r b →
  ∃ a b', b = String a b' ∧ 0 ≤ r ∧ (bz a < 0x80 → r = bz a).
Proof.
  intros H Hg. apply decode1_decoded in H.
  destruct H as [a t Ha|a a2 t Ha Hb|a a2 c t lo hi Hl Hb Hc|a a2 c d t lo hi Hl Hb Hc Hd|a t];
    try (pose proof (lead_info_spec _ _ _ _ Hl) as Hs); pose proof (bz_range a);
    eexists _, _; split_and!; try done; try lia.
Qed.

Lemma hexval_hexdig z : 0 ≤ z < 16 → hexval (hexdig z) = Some z.
Proof.
  intros. unfold hexdig, hexval. destruct (z <? 10) eqn:E; rewrite bz_zb by lia.
  - replace (_ && _) with true by lia. f_equal. lia.
  - replace ((48 <=? 87 + z) && _) with false by lia. replace (_ && _) with true by lia. f_equal. lia.
Qed.

Lemma p_hex4_u4 z t : 0 ≤ z < 65536 →
  p_hex4 (String (hexdig (z / 4096 mod 16)) (String (hexdig (z / 256 mod 16))
    (String (hexdig (z / 16 mod 16)) (String (hexdig (z mod 16)) t)))) = Some (z, t).
Proof.
  intros. unfold p_hex4. rewrite !hexval_hexdig by (Z.to_euclidean_division_equations; lia).
  cbn -[Z.mul Z.add Z.modulo Z.div]. do 2 f_equal. Z.to_euclidean_division_equations; lia.
Qed.

Lemma p_string_u4 n z t : 0 ≤ z < 65536 → is_surrogate z = false →
  p_string (S n) (u4 z +:+ t) = '(y, t') ← p_string n t; Some (encode_rune z +:+ y, t').
Proof.
  intros Hz Hs. unfold u4.
  change (p_string (S n) _) with ('(x, t) ← p_escape (String "u" (String (hexdig (z / 4096 mod 16))
    (String (hexdig (z / 256 mod 16)) (String (hexdig (z / 16 mod 16)) (String (hexdig (z mod 16)) t)))));
    '(y, t) ← p_string n t; Some (x +:+ y, t)).
  unfold p_escape. rewrite p_hex4_u4 by done. unfold p_utf16. cbn. by rewrite Hs.
Qed.

Lemma p_string_lit n s r b t u : decode1 s = Some (r, b, t) → seg_good r b →
  r ≠ 0x22 → r ≠ 0x5C → 0x20 ≤ r →
  p_string (S n) (b +:+ u) = '(y, t') ← p_string n u; Some (encode_rune r +:+ y, t').
Proof.
  intros E Hg H1 H2 H3. pose proof (decode1_ext _ _ _ _ u E Hg) as Hx.
  destruct (decode1_first _ _ _ _ E Hg) as (a & b' & -> & _ & Ha). cbn [String.append] in *.
  cbn [p_string].
  destruct (Ascii.eqb_spec a dq) as [->|]; [exfalso; apply H1, Ha; done|].
  destruct (Ascii.eqb_spec a bs) as [->|]; [exfalso; apply H2, Ha; done|].
  destruct (Z.ltb_spec (bz a) 0x20); [exfalso; rewrite Ha in H3 by lia; lia|].
  by rewrite Hx.
Qed.

Local Ltac esc_case IH := match goal with |- context [?x =? ?y] =>
    let H := fresh in destruct (Z.eqb_spec x y) as [H|H]; [subst; simpl; by rewrite IH|] end.

Lemma p_string_esc s : ∀ n t, (length (segs s) < n)%nat →
  p_string n (esc_segs (segs s) +:+ String dq t) = Some (to_valid_utf8 s, t).
Proof.
  induction s as [|s r b u E IH] using segs_ind; intros [|n] t Hn; try (cbn in Hn; lia); [done|].
  rewrite (segs_eq s), E in Hn |- *. cbn [length] in Hn.
  change (esc_segs ((r, b) :: segs u)) with (esc_seg (r, b) +:+ esc_segs (segs u)).
  rewrite <-sapp_assoc.
  assert (Hv : to_valid_utf8 s = encode_rune r +:+ to_valid_utf8 u).
  { unfold to_valid_utf8, runes. by rewrite (segs_eq s), E. }
  rewrite Hv. specialize (IH n t ltac:(lia)).
  assert (Hu4 : 0 ≤ r < 65536 → is_surrogate r = false → p_string (S n) (u4 r +:+ esc_segs (segs u) +:+ String dq t) =
    Some (encode_rune r +:+ to_valid_utf8 u, t)) by (intros; rewrite p_string_u4, IH; done).
  unfold esc_seg. destruct (seg_bad (r, b)) eqn:Hbad.
  { unfold seg_bad in Hbad. simpl in Hbad. apply andb_true_iff in Hbad as [->%Z.eqb_eq _]. by apply Hu4. }
  destruct (decode1_first _ _ _ _ E Hbad) as (_ & _ & _ & Hr0 & _).
  do 7 esc_case IH.
  destruct (_ || _ || _ || _ || _ || _) eqn:Hsp.
  { apply Hu4; unfold is_surrogate; lia. }
  erewrite p_string_lit; [|done..|lia]. by rewrite IH.
Qed.

Lemma length_segs_esc s : (length (segs s) ≤ slen (esc_segs (segs s)))%nat.
Proof.
  induction s as [|s r b u E IH] using segs_ind; [done|]. rewrite (segs_eq s), E.
  change (esc_segs ((r, b) :: segs u)) with (esc_seg (r, b) +:+ esc_segs (segs u)).
  rewrite slen_app. cbn [length].
  assert (0 < slen (esc_seg (r, b)))%nat; [|lia].
  unfold esc_seg. repeat case_match; simpl; try (unfold slen; simpl; lia).
  apply decode1_app in E as [_ Hb]. destruct b; [done|]. unfold slen. simpl. lia.
Qed.

Lemma p_string_json s t : p_string (S (slen (esc_segs (segs s) +:+ String dq "" +:+ t)))
  (esc_segs (segs s) +:+ String dq "" +:+ t) = Some (to_valid_utf8 s, t).
Proof. apply p_string_esc. rewrite slen_app. pose proof (length_segs_esc s). lia. Qed.

Definition tail_ok (t : string) : Prop :=
  match t with String a _ => number_char a = false | "" => True end.

Lemma span_app p s t : (span p s).2 = "" → (match t with String a _ => p a = false | "" => True end) →
  span p (s +:+ t) = (s, t).
Proof.
  induction s as [|a s IH]; simpl; intros Hs Ht.
  { destruct t as [|a t]; simpl; [done|]. by rewrite Ht. }
  destruct (p a) eqn:E; [|done]. destruct (span p s) as [x y] eqn:E'. simpl in Hs. subst.
  by rewrite IH.
Qed.

Lemma number_head s : valid_number s = true → ∃ a s', s = String a s' ∧ (is_digit a = true ∨ a = "-"%char).
Proof.
  destruct s as [|a s]; [done|]. intros H. exists a, s. split; [done|].
  destruct (Ascii.eqb_spec a "-") as [->|Hne]; [by right|]. left.
  assert (Hs : match String a s with String "-" t => t | _ => String a s end = String a s).
  { destruct a as [[] [] [] [] [] [] [] []]; try done. }
  unfold valid_number in H. rewrite Hs in H. simpl in H.
  destruct (is_digit a); [done|]. done.
Qed.

Lemma skip_ws_nws a t : is_ws a = false → skip_ws (String a t) = String a t.
Proof. intros H. simpl. by rewrite H. Qed.

Ltac eat_head := match goal with |- context [eat ?c (skip_ws (?p +:+ ?x))] =>
  change (eat c (skip_ws (p +:+ x))) with (Some x) end; cbn [mbind option_bind].
Ltac eat_miss := match goal with |- context [eat ?c (skip_ws (String ?a ?x))] =>
  change (eat c (skip_ws (String a x))) with (@None string) end; cbn match.
Ltac eat_last := match goal with |- context [eat ?c (skip_ws (String ?a ?x))] =>
  change (eat c (skip_ws (String a x))) with (Some x) end; cbn [mbind option_bind].

Section roundtrip.
Context (ind : bool).

Lemma skip_ws_nl lvl s : skip_ws (nl ind lvl +:+ s) = skip_ws s.
Proof.
  unfold nl. destruct ind; [|done]. simpl. induction lvl as [|lvl IH]; [done|]. simpl. exact IH.
Qed.

(** A printed value starts with a character that is neither white space nor a
    closing bracket. *)
Lemma print_head lvl v : jwf v = true → ∃ a s, print ind lvl v = String a s ∧
  is_ws a = false ∧ a ≠ "]"%char ∧ a ≠ "}"%char.
Proof.
  destruct v as [|[]|lit|s|[|x l]|[|[k x] m]]; intros Hwf; simpl;
    try (eexists _, _; split; [done|]; done).
  simpl in Hwf. apply andb_true_iff in Hwf as [Hwf _].
  destruct (number_head _ Hwf) as (a & s' & -> & Hd). exists a, s'. split; [done|].
  destruct Hd as [Hd| ->]; [|done]. unfold is_digit, is_ws in *. split; [lia|].
  split; intros ->; done.
Qed.

Lemma skip_ws_print lvl v t : jwf v = true → skip_ws (print ind lvl v +:+ t) = print ind lvl v +:+ t.
Proof.
  intros Hwf. destruct (print_head lvl v Hwf) as (a & s & -> & Ha & _). simpl. by rewrite Ha.
Qed.

Definition reads (v : json) : Prop := ∀ n d lvl t s,
  (jsize v ≤ n)%nat → (d + jdepth v ≤ max_depth)%N → tail_ok t →
  skip_ws s = print ind lvl v +:+ t → p_value n d s = Some (jnorm v, t).

Lemma tail_ok_nl lvl c t : number_char c = false → tail_ok (nl ind lvl +:+ String c t).
Proof. intros H. unfold nl. by destruct ind. Qed.

Lemma join_map_cons {A} sep (f : A → string) x l t : l ≠ [] →
  join sep (map f (x :: l)) +:+ t = f x +:+ sep +:+ join sep (map f l) +:+ t.
Proof.
  intros. destruct l as [|y l]; [done|].
  change (join sep (map f (x :: y :: l))) with (f x +:+ sep +:+ join sep (map f (y :: l))).
  by rewrite <-!sapp_assoc.
Qed.

Lemma p_elems_print l : l ≠ [] → Forall (λ v, jwf v = true → reads v) l → forallb jwf l = true →
  ∀ n d lvl lvl' t s, (list_sum (map (λ x, S (jsize x)) l) ≤ n)%nat →
  (d + fold_right N.max 0 (map jdepth l) ≤ max_depth)%N →
  skip_ws s = join ("," +:+ nl ind lvl) (map (print ind lvl) l) +:+ nl ind lvl' +:+ String "]" t →
  p_elems n d s = Some (map jnorm l, t).
Proof.
  induction l as [|x l IH]; [done|]. intros _ HF Hwf n d lvl lvl' t s Hn Hd Hs.
  inversion_clear HF as [|? ? Hx HF']. cbn [forallb] in Hwf. apply andb_true_iff in Hwf as [Hwx Hwl].
  unfold list_sum in *. cbn [map fold_right] in Hn, Hd. destruct n as [|n]; [lia|].
  destruct (decide (l = [])) as [->|Hne].
  - cbn [p_elems]. simpl in Hs.
    rewrite (Hx Hwx n d lvl (nl ind lvl' +:+ String "]" t) s) by first [lia|by apply tail_ok_nl|done].
    cbn [mbind option_bind]. rewrite skip_ws_nl. eat_miss. by eat_last.
  - rewrite join_map_cons in Hs by done. rewrite <-!sapp_assoc in Hs.
    cbn [p_elems]. erewrite Hx; [|done|lia|lia| |exact Hs]; [|done].
    cbn [mbind option_bind]. eat_head.
    destruct l as [|y l]; [done|]. pose proof Hwl as Hwl'. cbn [forallb] in Hwl'.
    apply andb_true_iff in Hwl' as [Hwy _].
    erewrite IH; [done|done|done|done|lia|lia|].
    rewrite skip_ws_nl. destruct l as [|z l]; [by apply skip_ws_print|].
    rewrite join_map_cons by done. by apply skip_ws_print.
Qed.

Definition print_member (lvl : nat) (x : string * json) : string :=
  json_string x.1 +:+ colon ind +:+ print ind lvl x.2.

Lemma skip_ws_quoted s t : skip_ws (json_string s +:+ t) = json_string s +:+ t.
Proof. done. Qed.

(** a quoted key, the colon and the text of the value *)
Lemma p_members_step n d k t s :
  skip_ws s = json_string k +:+ colon ind +:+ t →
  p_members (S n) d s =
  '(v, t) ← p_value n d t;
  match eat "," (skip_ws t) with
  | Some u => '(m, u) ← p_members n d u; Some ((to_valid_utf8 k, v) :: m, u)
  | None => u ← eat "}" (skip_ws t); Some ([(to_valid_utf8 k, v)], u)
  end.
Proof.
  intros Hs. cbn [p_members]. rewrite Hs. unfold json_string, quoted. cbn [String.append eat].
  rewrite Ascii.eqb_refl. cbn [mbind option_bind].
  rewrite <-sapp_assoc, p_string_json. cbn [mbind option_bind].
  assert (Hc : eat ":" (skip_ws (colon ind +:+ t)) = Some (if ind then String " " t else t))
    by (unfold colon; by destruct ind).
  rewrite Hc. cbn [mbind option_bind].
  replace (p_value n d (if ind then String " " t else t)) with (p_value n d t); [done|].
  destruct ind; [|done]. by destruct n.
Qed.

Lemma p_members_print m : m ≠ [] → Forall (λ x, jwf x.2 = true → reads x.2) m →
  forallb (λ x, jwf x.2) m = true →
  ∀ n d lvl lvl' t s, (list_sum (map (λ x, S (jsize x.2)) m) ≤ n)%nat →
  (d + fold_right N.max 0 (map (λ x, jdepth x.2) m) ≤ max_depth)%N →
  skip_ws s = join ("," +:+ nl ind lvl) (map (print_member lvl) m) +:+ nl ind lvl' +:+ String "}" t →
  p_members n d s = Some (map (λ x, (to_valid_utf8 x.1, jnorm x.2)) m, t).
Proof.
  induction m as [|[k x] m IH]; [done|]. intros _ HF Hwf n d lvl lvl' t s Hn Hd Hs.
  inversion_clear HF as [|? ? Hx HF']. cbn [forallb snd] in *. apply andb_true_iff in Hwf as [Hwx Hwl].
  unfold list_sum in *. cbn [map fold_right fst snd] in Hn, Hd |- *. destruct n as [|n]; [lia|].
  destruct (decide (m = [])) as [->|Hne].
  - cbn [map join] in Hs. unfold print_member in Hs. cbn [fst snd] in Hs. rewrite <-!sapp_assoc in Hs.
    erewrite p_members_step by exact Hs.
    erewrite Hx; [|done|lia|lia| |by apply skip_ws_print]; [|by apply tail_ok_nl].
    cbn [mbind option_bind]. rewrite skip_ws_nl. eat_miss. by eat_last.
  - rewrite join_map_cons in Hs by done. unfold print_member at 1 in Hs. cbn [fst snd] in Hs.
    rewrite <-!sapp_assoc in Hs. erewrite p_members_step by exact Hs.
    erewrite Hx; [|done|lia|lia| |by apply skip_ws_print]; [|done].
    cbn [mbind option_bind]. eat_head.
    erewrite IH; [done|done|done|done|lia|lia|].
    rewrite skip_ws_nl. destruct m as [|[k' y] m]; [done|].
    destruct m as [|z m]; [done|]. by rewrite join_map_cons by done.
Qed.

Lemma join_head {A} sep (f : A → string) x l t : ∃ u, join sep (map f (x :: l)) +:+ t = f x +:+ u.
Proof. destruct l; [by exists t|]. rewrite join_map_cons by done. by eexists. Qed.

Lemma skip_ws_join sep lvl x l t : jwf x = true →
  skip_ws (join sep (map (print ind lvl) (x :: l)) +:+ t) = join sep (map (print ind lvl) (x :: l)) +:+ t.
Proof. intros H. destruct (join_head sep (print ind lvl) x l t) as [u ->]. by apply skip_ws_print. Qed.
Lemma eat_join sep lvl x l t : jwf x = true →
  eat "]" (skip_ws (join sep (map (print ind lvl) (x :: l)) +:+ t)) = None.
Proof.
  intros H. rewrite skip_ws_join by done. destruct (join_head sep (print ind lvl) x l t) as [u ->].
  destruct (print_head lvl x H) as (a & w & -> & _ & Ha & _). simpl. by apply Ascii.eqb_neq in Ha as ->.
Qed.
Lemma skip_ws_join_member sep lvl x l t :
  skip_ws (join sep (map (print_member lvl) (x :: l)) +:+ t) = join sep (map (print_member lvl) (x :: l)) +:+ t.
Proof. by destruct (join_head sep (print_member lvl) x l t) as [u ->]. Qed.
Lemma eat_join_member sep lvl x l t :
  eat "}" (skip_ws (join sep (map (print_member lvl) (x :: l)) +:+ t)) = None.
Proof. by destruct (join_head sep (print_member lvl) x l t) as [u ->]. Qed.

Lemma p_value_print v : jwf v = true → reads v.
Proof.
  induction v as [|b|lit|s|l IH|m IH] using json_ind'; intros Hwf n d lvl t s' Hn Hd Ht Hs;
    (destruct n as [|n]; [cbn in Hn; lia|]); cbn [p_value]; rewrite Hs.
  - done.
  - by destruct b.
  - simpl in Hwf. apply andb_true_iff in Hwf as [Hwf Hsp%String.eqb_eq].
    destruct (number_head _ Hwf) as (a & u & -> & Ha). cbn [print String.append].
    assert (Hne : Ascii.eqb a "{" = false ∧ Ascii.eqb a "[" = false ∧ Ascii.eqb a dq = false ∧
      Ascii.eqb a "t" = false ∧ Ascii.eqb a "f" = false ∧ Ascii.eqb a "n" = false).
    { destruct Ha as [Ha| ->]; [|done]. split_and!; apply Ascii.eqb_neq; by intros ->. }
    destruct Hne as (-> & -> & -> & -> & -> & ->).
    change (String a (u +:+ t)) with (String a u +:+ t). rewrite span_app; [|done|by destruct t].
    by rewrite Hwf.
  - cbn [print]. unfold json_string, quoted. cbn [String.append].
    change (Ascii.eqb dq "{") with false. change (Ascii.eqb dq "[") with false. rewrite Ascii.eqb_refl.
    by rewrite <-sapp_assoc, p_string_json.
  - cbn [jdepth] in Hd. replace (max_depth <=? d)%N with false by (symmetry; apply N.leb_gt; lia).
    destruct l as [|x l]; [done|].
    cbn [jwf] in Hwf. pose proof Hwf as Hwx. cbn [forallb] in Hwx. apply andb_true_iff in Hwx as [Hwx _].
    cbn [jsize] in Hn.
    change (print ind lvl (JArr (x :: l))) with ("[" +:+ nl ind (S lvl) +:+
      join ("," +:+ nl ind (S lvl)) (map (print ind (S lvl)) (x :: l)) +:+ nl ind lvl +:+ "]").
    rewrite <-!sapp_assoc. change ("[" +:+ ?x) with (String "[" x). cbn match.
    change (Ascii.eqb "[" "{") with false. change (Ascii.eqb "[" "[") with true. cbn match.
    rewrite (p_elems_print (x :: l) ltac:(done) IH Hwf n (N.succ d) (S lvl) lvl t);
      [|lia|lia|by rewrite skip_ws_nl, skip_ws_join].
    by rewrite skip_ws_nl, eat_join.
  - cbn [jdepth] in Hd. replace (max_depth <=? d)%N with false by (symmetry; apply N.leb_gt; lia).
    destruct m as [|[k x] m]; [done|].
    cbn [jwf] in Hwf. cbn [jsize] in Hn.
    change (print ind lvl (JObj ((k, x) :: m))) with ("{" +:+ nl ind (S lvl) +:+
      join ("," +:+ nl ind (S lvl)) (map (λ '(k, x), json_string k +:+ colon ind +:+ print ind (S lvl) x) ((k, x) :: m)) +:+ nl ind lvl +:+ "}").
    rewrite (map_ext _ (print_member (S lvl))) by (by intros []).
    rewrite <-!sapp_assoc. change ("{" +:+ ?x) with (String "{" x). cbn match.
    change (Ascii.eqb "{" "{") with true. cbn match.
    apply Forall_fmap in IH.
    rewrite (p_members_print ((k, x) :: m) ltac:(done) IH Hwf n (N.succ d) (S lvl) lvl t);
      [|lia|lia|by rewrite skip_ws_nl, skip_ws_join_member].
    by rewrite skip_ws_nl, eat_join_member.
Qed.
End roundtrip.

Lemma slen_join_ge sep (l : list string) : (list_sum (map slen l) ≤ slen (join sep l))%nat.
Proof.
  unfold list_sum. induction l as [|x l IH]; [done|]. destruct l as [|y l]; [simpl in *; lia|].
  change (join sep (x :: y :: l)) with (x +:+ sep +:+ join sep (y :: l)).
  rewrite !slen_app. cbn [map fold_right] in *. lia.
Qed.

Lemma slen_join_sep a sep (l : list string) :
  (length l + list_sum (map slen l) ≤ 1 + slen (join (String a sep) l))%nat.
Proof.
  unfold list_sum. induction l as [|x l IH]; [simpl; lia|]. destruct l as [|y l]; [simpl in *; lia|].
  change (join (String a sep) (x :: y :: l)) with (x +:+ String a sep +:+ join (String a sep) (y :: l)).
  rewrite !slen_app. cbn [map fold_right length] in *. change (slen (String a sep)) with (S (slen sep)). lia.
Qed.

Lemma list_sum_S {A} (f : A → nat) (l : list A) :
  list_sum (map (λ x, S (f x)) l) = (length l + list_sum (map f l))%nat.
Proof. unfold list_sum. induction l as [|x l IH]; simpl; lia. Qed.

Lemma list_sum_le {A} (f g : A → nat) (l : list A) :
  Forall (λ x, f x ≤ g x)%nat l → (list_sum (map f l) ≤ list_sum (map g l))%nat.
Proof. unfold list_sum. induction 1; simpl; lia. Qed.

Lemma jsize_print ind v : jwf v = true → ∀ lvl, (jsize v ≤ slen (print ind lvl v))%nat.
Proof.
  induction v as [|b|lit|s|l IH|m IH] using json_ind'; intros Hwf lvl.
  - simpl. unfold slen. simpl. lia.
  - destruct b; simpl; unfold slen; simpl; lia.
  - simpl in Hwf. apply andb_true_iff in Hwf as [Hwf _].
    destruct (number_head _ Hwf) as (a & u & -> & _). simpl. unfold slen. simpl. lia.
  - simpl. unfold json_string, quoted, slen. simpl. lia.
  - destruct l as [|x l]; [simpl; unfold slen; simpl; lia|]. cbn [jsize jwf] in *.
    change (print ind lvl (JArr (x :: l))) with ("[" +:+ nl ind (S lvl) +:+
      join (String "," (nl ind (S lvl))) (map (print ind (S lvl)) (x :: l)) +:+ nl ind lvl +:+ "]").
    rewrite list_sum_S, !slen_app. pose proof (slen_join_sep "," (nl ind (S lvl)) (map (print ind (S lvl)) (x :: l))) as Hj.
    rewrite length_map, map_map in Hj.
    assert (Hs : (list_sum (map jsize (x :: l)) ≤ list_sum (map (λ v, slen (print ind (S lvl) v)) (x :: l)))%nat).
    { apply list_sum_le, Forall_forall. intros y Hy. rewrite Forall_forall in IH. apply IH; [done|].
      rewrite forallb_forall in Hwf. apply Hwf. by apply list_elem_of_In. }
    change (slen "[") with 1%nat. change (slen "]") with 1%nat. lia.
  - destruct m as [|x m]; [simpl; unfold slen; simpl; lia|]. cbn [jsize jwf] in *.
    change (print ind lvl (JObj (x :: m))) with ("{" +:+ nl ind (S lvl) +:+
      join (String "," (nl ind (S lvl))) (map (λ '(k, x), json_string k +:+ colon ind +:+ print ind (S lvl) x) (x :: m)) +:+ nl ind lvl +:+ "}").
    rewrite (map_ext _ (print_member ind (S lvl))) by (by intros []).
    rewrite list_sum_S, !slen_app. pose proof (slen_join_sep "," (nl ind (S lvl)) (map (print_member ind (S lvl)) (x :: m))) as Hj.
    rewrite length_map, map_map in Hj.
    assert (Hs : (list_sum (map (λ x, jsize x.2) (x :: m)) ≤ list_sum (map (λ x, slen (print_member ind (S lvl) x)) (x :: m)))%nat).
    { apply list_sum_le, Forall_forall. intros y Hy. apply Forall_fmap in IH. rewrite Forall_forall in IH.
      unfold print_member. rewrite !slen_app. rewrite forallb_forall in Hwf.
      pose proof (IH y Hy (Hwf y (proj1 (list_elem_of_In _ _) Hy)) (S lvl)). simpl in *. lia. }
    change (slen "{") with 1%nat. change (slen "}") with 1%nat. lia.
Qed.

(** Reading back what was printed, whatever follows it. *)
Lemma decode_prefix_print ind v t : jwf v = true → (jdepth v ≤ max_depth)%N → tail_ok t →
  decode_prefix (print ind 0 v +:+ t) = Some (jnorm v, t).
Proof.
  intros Hwf Hd Ht. unfold decode_prefix. eapply (p_value_print ind v Hwf _ _ 0%nat); [|lia|done|].
  - rewrite slen_app. pose proof (jsize_print ind v Hwf 0). lia.
  - by apply skip_ws_print.
Qed.

Lemma unmarshal_print ind v : jwf v = true → (jdepth v ≤ max_depth)%N →
  unmarshal (print ind 0 v) = Some (jnorm v).
Proof.
  intros Hwf Hd. unfold unmarshal. rewrite <-(sapp_nil_r (print ind 0 v)).
  by rewrite decode_prefix_print.
Qed.

(** every string of the value is valid UTF-8 *)
Fixpoint jutf8 (v : json) : bool :=
  match v with
  | JStr s => valid_utf8 s
  | JArr l => forallb jutf8 l
  | JObj m => forallb (λ x, valid_utf8 x.1 && jutf8 x.2) m
  | _ => true
  end.

Lemma jnorm_id v : jutf8 v = true → jnorm v = v.
Proof.
  induction v as [|b|lit|s|l IH|m IH] using json_ind'; intros H; try done.
  - simpl. by rewrite to_valid_utf8_id.
  - cbn [jnorm jutf8] in *. f_equal. rewrite <-(map_id l) at 2. apply map_ext_in. intros x Hx.
    rewrite Forall_forall in IH. rewrite forallb_forall in H.
    apply IH; [by apply list_elem_of_In|by apply H].
  - cbn [jnorm jutf8] in *. f_equal. rewrite <-(map_id m) at 2. apply map_ext_in. intros [k x] Hx.
    apply Forall_fmap in IH. rewrite Forall_forall in IH. rewrite forallb_forall in H.
    specialize (H _ Hx). cbn [fst snd] in H. apply andb_true_iff in H as [H1 H2].
    rewrite to_valid_utf8_id by done. do 2 f_equal.
    apply (IH (k, x)); [by apply list_elem_of_In|done].
Qed.
