(* ===== verification/GoSort.v ===== *)
(** Sorting and searching as packages [slices] and [sort] do it: a sort by a
    three-way comparison and the binary search of [sort.Search]. *)
From Stdlib Require Import Sorted.
From stdpp Require Import base list sets.
From S2P Require Import Prelude.

Open Scope nat_scope.

(** * Sorting *)

Section isort.
Context {A : Type} (cmp : A → A → comparison).

Fixpoint insert_by (x : A) (l : list A) : list A :=
  match l with
  | [] => [x]
  | y :: l' => match cmp x y with Gt => y :: insert_by x l' | _ => x :: l end
  end.
Definition isort (l : list A) : list A := foldr insert_by [] l.

Definition cmp_le (a b : A) : Prop := cmp a b ≠ Gt.

Lemma insert_by_perm x l : insert_by x l ≡ₚ x :: l.
Proof.
  induction l as [|y l IH]; simpl; [done|]. destruct (cmp x y); [done..|].
  rewrite IH. constructor.
Qed.
Lemma isort_perm l : isort l ≡ₚ l.
Proof. induction l as [|x l IH]; simpl; [done|]. by rewrite insert_by_perm, IH. Qed.

Context (Hanti : ∀ a b, cmp b a = CompOpp (cmp a b)).
Context (Htrans : ∀ a b c, cmp_le a b → cmp_le b c → cmp_le a c).

Lemma cmp_le_total a b : cmp a b = Gt → cmp_le b a.
Proof. unfold cmp_le. rewrite (Hanti a b). by intros ->. Qed.

Lemma insert_by_sorted x l : StronglySorted cmp_le l → StronglySorted cmp_le (insert_by x l).
Proof using Hanti Htrans.
  induction 1 as [|y l Hl IH Hy]; simpl; [by repeat constructor|].
  destruct (cmp x y) eqn:E.
  1,2: constructor; [by constructor|]; assert (cmp_le x y) by (unfold cmp_le; congruence);
    constructor; [done|]; eapply Forall_impl; [exact Hy|]; eauto.
  constructor; [done|]. rewrite insert_by_perm. constructor; [by apply cmp_le_total|done].
Qed.
Lemma isort_sorted l : StronglySorted cmp_le (isort l).
Proof using Hanti Htrans. induction l; simpl; [constructor|by apply insert_by_sorted]. Qed.
End isort.

Lemma insert_by_ext {A} (c1 c2 : A → A → comparison) x l :
  (∀ y, y ∈ l → c1 x y = c2 x y) → insert_by c1 x l = insert_by c2 x l.
Proof.
  induction l as [|y l IH]; simpl; intros He; [done|]. rewrite He by set_solver.
  destruct (c2 x y); [done..|]. f_equal. apply IH. set_solver.
Qed.
Lemma isort_ext {A} (c1 c2 : A → A → comparison) l :
  (∀ x y, x ∈ l → y ∈ l → c1 x y = c2 x y) → isort c1 l = isort c2 l.
Proof.
  induction l as [|x l IH]; simpl; intros He; [done|]. rewrite IH by set_solver.
  apply insert_by_ext. intros y Hy. rewrite isort_perm in Hy. apply He; set_solver.
Qed.

(** Whatever the algorithm, the sorted permutation is unique when no two elements
    compare equal. *)
Lemma sorted_unique {A} (cmp : A → A → comparison) l k :
  (∀ a b, cmp b a = CompOpp (cmp a b)) → (∀ a b, a ∈ l → b ∈ l → cmp a b = Eq → a = b) →
  l ≡ₚ k → StronglySorted (cmp_le cmp) l → StronglySorted (cmp_le cmp) k → l = k.
Proof.
  intros Ha He Hp Hl. revert k Hp. induction Hl as [|x l Hl IH Hx]; intros k Hp Hk.
  { by apply Permutation_nil_l in Hp as ->. }
  destruct Hk as [|y k Hk Hy]; [by apply Permutation_nil_r in Hp|].
  assert (x = y) as ->.
  { assert (Hyx : y ∈ x :: l) by (rewrite Hp; set_solver). assert (Hxy : x ∈ y :: k) by (rewrite <-Hp; set_solver).
    apply elem_of_cons in Hyx as [->|Hyl]; [done|]. apply elem_of_cons in Hxy as [->|Hxk]; [done|].
    rewrite Forall_forall in Hx, Hy. specialize (Hx _ Hyl). specialize (Hy _ Hxk). unfold cmp_le in *.
    apply He; [set_solver..|]. rewrite Ha in Hy. by destruct (cmp x y). }
  f_equal. apply IH; [|by apply Permutation_cons_inv in Hp|done].
  intros a b Hain Hbin. apply He; set_solver.
Qed.

(** * Binary search *)

(** [sort.Search(n, f)] *)
Fixpoint search_loop (fuel : nat) (f : nat → bool) (i j : nat) : nat :=
  match fuel with
  | O => i
  | S fuel =>
      if i <? j then
        let h := (i + j) / 2 in
        if f h then search_loop fuel f i h else search_loop fuel f (S h) j
      else i
  end.
Definition search (n : nat) (f : nat → bool) : nat := search_loop n f 0 n.

Lemma search_loop_spec fuel f k : ∀ i j, j - i ≤ fuel → i ≤ k ≤ j →
  (∀ h, i ≤ h < k → f h = false) → (∀ h, k ≤ h < j → f h = true) → search_loop fuel f i j = k.
Proof.
  induction fuel as [|fuel IH]; intros i j Hf Hk H1 H2; cbn [search_loop]; [lia|].
  destruct (Nat.ltb_spec i j) as [Hlt|]; [|lia]. cbv zeta.
  assert (i ≤ (i + j) / 2 < j) as [Hh1 Hh2].
  { split; [apply Nat.div_le_lower_bound; lia|apply Nat.div_lt_upper_bound; lia]. }
  set (h := (i + j) / 2) in *. clearbody h. destruct (decide (h < k)).
  - rewrite H1 by lia. apply IH; [lia|lia|intros; apply H1; lia|intros; apply H2; lia].
  - rewrite H2 by lia. apply IH; [lia|lia|intros; apply H1; lia|intros; apply H2; lia].
Qed.

Lemma search_spec n f k : k ≤ n → (∀ h, h < k → f h = false) → (∀ h, k ≤ h < n → f h = true) → search n f = k.
Proof. intros. apply search_loop_spec; [lia|lia|intros; auto with lia|done]. Qed.
