(* ===== verification/Base64.v ===== *)
(** [base64.URLEncoding]: the encoder, the decoder and their round trip. *)
From Stdlib Require Import Ascii.
From stdpp Require Import base list strings.
From S2P Require Import Prelude GoStrings.

Open Scope string_scope.
Open Scope Z_scope.
Open Scope list_scope.

Definition b64_char (z : Z) : char :=
  if z <? 26 then zb (65 + z) else if z <? 52 then zb (71 + z) else if z <? 62 then zb (z - 4)
  else if z =? 62 then "-" else "_".
Definition b64_val (a : char) : option Z :=
  let z := bz a in
  if (65 <=? z) && (z <=? 90) then Some (z - 65)
  else if (97 <=? z) && (z <=? 122) then Some (z - 71)
  else if (48 <=? z) && (z <=? 57) then Some (z + 4)
  else if z =? 45 then Some 62 else if z =? 95 then Some 63 else None.

Fixpoint b64_encode (s : string) : string :=
  match s with
  | "" => ""
  | String a "" =>
      let v := bz a * 65536 in
      String (b64_char (v / 262144)) (String (b64_char (v / 4096 mod 64)) "==")
  | String a (String b "") =>
      let v := bz a * 65536 + bz b * 256 in
      String (b64_char (v / 262144)) (String (b64_char (v / 4096 mod 64)) (String (b64_char (v / 64 mod 64)) "="))
  | String a (String b (String c t)) =>
      let v := bz a * 65536 + bz b * 256 + bz c in
      String (b64_char (v / 262144)) (String (b64_char (v / 4096 mod 64))
        (String (b64_char (v / 64 mod 64)) (String (b64_char (v mod 64)) (b64_encode t))))
  end.

(** line breaks are skipped wherever they stand *)
Fixpoint drop_newlines (s : string) : string :=
  match s with
  | "" => ""
  | String a t => if (bz a =? 10) || (bz a =? 13) then drop_newlines t else String a (drop_newlines t)
  end.

Fixpoint b64_quads (s : string) : option string :=
  match s with
  | "" => Some ""
  | String a (String b (String c (String d t))) =>
      x ← b64_val a; y ← b64_val b;
      if Ascii.eqb c "=" then
        if Ascii.eqb d "=" && String.eqb t "" then Some (String (zb ((x * 64 + y) / 16)) "") else None
      else
        z ← b64_val c;
        if Ascii.eqb d "=" then
          if String.eqb t "" then
            let v := (x * 64 + y) * 64 + z in Some (String (zb (v / 1024)) (String (zb (v / 4 mod 256)) ""))
          else None
        else
          w ← b64_val d; u ← b64_quads t;
          let v := ((x * 64 + y) * 64 + z) * 64 + w in
          Some (String (zb (v / 65536)) (String (zb (v / 256 mod 256)) (String (zb (v mod 256)) u)))
  | _ => None
  end.
Definition b64_decode (s : string) : option string := b64_quads (drop_newlines s).

Lemma b64_val_char z : 0 ≤ z < 64 → b64_val (b64_char z) = Some z ∧ Ascii.eqb (b64_char z) "=" = false ∧
  (bz (b64_char z) =? 10) || (bz (b64_char z) =? 13) = false.
Proof.
  intros Hz. assert (Hall : Forall (λ z, b64_val (b64_char z) = Some z ∧ Ascii.eqb (b64_char z) "=" = false ∧
    (bz (b64_char z) =? 10) || (bz (b64_char z) =? 13) = false) (seqZ 0 64)).
  { repeat (constructor; [done|]). constructor. }
  rewrite Forall_forall in Hall. apply Hall, elem_of_seqZ. lia.
Qed.

Lemma string_ind3 (P : string → Prop) :
  P "" → (∀ a, P (String a "")) → (∀ a b, P (String a (String b ""))) →
  (∀ a b c t, P t → P (String a (String b (String c t)))) → ∀ s, P s.
Proof.
  intros H0 H1 H2 H3 s. induction s as [s IH] using string_len_ind.
  destruct s as [|a [|b [|c t]]]; [done|apply H1|apply H2|]. apply H3, IH. unfold slen. cbn. lia.
Qed.

Lemma b64_decode_encode s : b64_decode (b64_encode s) = Some s.
Proof.
  unfold b64_decode. induction s as [|a|a b|a b c t IH] using string_ind3; [done| | |].
  - pose proof (bz_range a). cbn [b64_encode]. cbv zeta. set (v := bz a * 65536).
    destruct (b64_val_char (v / 262144)) as (V1 & E1 & N1); [divlia|].
    destruct (b64_val_char (v / 4096 mod 64)) as (V2 & E2 & N2); [divlia|].
    cbn [drop_newlines]. rewrite N1, N2. cbn [b64_quads]. rewrite V1. cbn [mbind option_bind]. rewrite V2.
    change (Some (String (zb ((v / 262144 * 64 + v / 4096 mod 64) / 16)) "") = Some (String a "")).
    replace ((v / 262144 * 64 + v / 4096 mod 64) / 16) with (bz a) by divlia. by rewrite zb_bz.
  - pose proof (bz_range a). pose proof (bz_range b). cbn [b64_encode]. cbv zeta. set (v := bz a * 65536 + bz b * 256).
    destruct (b64_val_char (v / 262144)) as (V1 & E1 & N1); [divlia|].
    destruct (b64_val_char (v / 4096 mod 64)) as (V2 & E2 & N2); [divlia|].
    destruct (b64_val_char (v / 64 mod 64)) as (V3 & E3 & N3); [divlia|].
    cbn [drop_newlines]. rewrite N1, N2, N3. cbn [b64_quads]. rewrite V1. cbn [mbind option_bind]. rewrite V2.
    cbn [mbind option_bind]. rewrite E3, V3. cbn [mbind option_bind].
    set (w := (v / 262144 * 64 + v / 4096 mod 64) * 64 + v / 64 mod 64).
    change (Some (String (zb (w / 1024)) (String (zb (w / 4 mod 256)) "")) = Some (String a (String b ""))).
    replace (w / 1024) with (bz a) by divlia. replace (w / 4 mod 256) with (bz b) by divlia. by rewrite !zb_bz.
  - pose proof (bz_range a). pose proof (bz_range b). pose proof (bz_range c).
    cbn [b64_encode]. cbv zeta. set (v := bz a * 65536 + bz b * 256 + bz c).
    destruct (b64_val_char (v / 262144)) as (V1 & E1 & N1); [divlia|].
    destruct (b64_val_char (v / 4096 mod 64)) as (V2 & E2 & N2); [divlia|].
    destruct (b64_val_char (v / 64 mod 64)) as (V3 & E3 & N3); [divlia|].
    destruct (b64_val_char (v mod 64)) as (V4 & E4 & N4); [divlia|].
    cbn [drop_newlines]. rewrite N1, N2, N3, N4. cbn [b64_quads]. rewrite V1. cbn [mbind option_bind]. rewrite V2.
    cbn [mbind option_bind]. rewrite E3, V3. cbn [mbind option_bind]. rewrite E4, V4. cbn [mbind option_bind].
    rewrite IH. cbn [mbind option_bind]. cbv zeta.
    set (w := ((v / 262144 * 64 + v / 4096 mod 64) * 64 + v / 64 mod 64) * 64 + v mod 64).
    replace w with v by divlia.
    replace (v / 65536) with (bz a) by divlia. replace (v / 256 mod 256) with (bz b) by divlia.
    replace (v mod 256) with (bz c) by divlia. by rewrite !zb_bz.
Qed.
