(* ===== verification/Regex.v ===== *)
(** The regular expressions of the program's detectors, with the leftmost-first
    matching of package [regexp] on the characters of a string, and
    [ReplaceAllStringFunc]. An expression is a sequence of repeated character
    classes. *)
From Stdlib Require Import Ascii.
From stdpp Require Import base list sets strings.
From S2P Require Import Prelude GoStrings.

Open Scope string_scope.
Open Scope Z_scope.
Open Scope list_scope.

(** * Expressions *)

(** A class is a list of ranges of runes. *)
Definition class : Type := list (Z * Z).
Definition in_class (c : class) (r : Z) : bool := existsb (λ x, (x.1 <=? r) && (r <=? x.2)) c.

(** [lo] to [hi] characters of a class, as many as possible when [greedy] *)
Record item := Item { it_class : class; it_lo : nat; it_hi : option nat; it_greedy : bool }.
Definition regex : Type := list item.

Definition lit (s : string) : regex := map (λ a, Item [(bz a, bz a)] 1 (Some 1%nat) true) (String.list_ascii_of_string s).
Definition times (c : class) (n : nat) : item := Item c n (Some n) true.
Definition at_least (c : class) (n : nat) : item := Item c n None true.
Definition optional (c : class) : item := Item c 0 (Some 1%nat) true.
Definition any : class := [(0, 0x10FFFF)].

(** * Meaning *)

Definition fits (it : item) (n : nat) : Prop :=
  (it_lo it ≤ n)%nat ∧ match it_hi it with Some h => (n ≤ h)%nat | None => True end.

(** the character sequences an expression describes *)
Fixpoint den (re : regex) (w : list seg) : Prop :=
  match re with
  | [] => w = []
  | it :: re => ∃ u v, w = u ++ v ∧ Forall (λ x, in_class (it_class it) x.1 = true) u ∧ fits it (length u) ∧ den re v
  end.

Definition occurs (re : regex) (l : list seg) : Prop := ∃ a w b, l = a ++ w ++ b ∧ den re w.

(** * Matching *)

Section matcher.
Context {R : Type}.

(** Repetition with a continuation, in the order of preference of a backtracking
    matcher; the continuation makes the result of what follows the match. *)
Fixpoint rep (c : class) (lo : nat) (hi : option nat) (greedy : bool) (k : list seg → option R) (l : list seg) : option R :=
  let stop := match lo with O => k l | S _ => None end in
  match l with
  | [] => stop
  | x :: l' =>
      let more :=
        match hi with
        | Some O => None
        | _ => if in_class c x.1 then rep c (pred lo) (option_map pred hi) greedy k l' else None
        end in
      if greedy then match more with Some r => Some r | None => stop end
      else match stop with Some r => Some r | None => more end
  end.

Fixpoint match_then (re : regex) (k : list seg → option R) (l : list seg) : option R :=
  match re with
  | [] => k l
  | it :: re => rep (it_class it) (it_lo it) (it_hi it) (it_greedy it) (match_then re k) l
  end.
End matcher.

(** the text after the preferred match *)
Definition match_here (re : regex) (l : list seg) : option (list seg) := match_then re Some l.

(** * Replacement *)

Inductive piece := Gap (g : list seg) | Hit (h : list seg).

(** the non-overlapping matches from the left, with the text between them *)
Fixpoint scan (fuel : nat) (re : regex) (gap l : list seg) : list piece :=
  match fuel, l with
  | S fuel, x :: l' =>
      match match_here re l with
      | Some rest =>
          if (length rest <? length l)%nat then
            Gap (reverse gap) :: Hit (take (length l - length rest) l) :: scan fuel re [] rest
          else scan fuel re (x :: gap) l'
      | None => scan fuel re (x :: gap) l'
      end
  | _, _ => [Gap (reverse gap ++ l)]
  end.
Definition pieces (re : regex) (s : string) : list piece := scan (length (segs s)) re [] (segs s).

Definition hits (l : list piece) : list string := omap (λ p, match p with Hit h => Some (unsegs h) | Gap _ => None end) l.
Definition render (marker : string) (l : list piece) : string :=
  fold_right (λ p acc, match p with Gap g => unsegs g +:+ acc | Hit _ => marker +:+ acc end) "" l.

(** * Correctness of the matcher *)

Lemma rep_sound {R} c lo hi g (k : list seg → option R) l r : rep c lo hi g k l = Some r →
  ∃ u v, l = u ++ v ∧ Forall (λ x, in_class c x.1 = true) u ∧ fits (Item c lo hi g) (length u) ∧ k v = Some r.
Proof.
  revert lo hi. induction l as [|x l IH]; intros lo hi; cbn [rep].
  { destruct lo; [|done]. intros Hk. exists [], []. split_and!; try done. split; cbn; [lia|]. destruct hi; [lia|done]. }
  assert (Hstop : match lo with O => k (x :: l) | S _ => None end = Some r →
    ∃ u v, x :: l = u ++ v ∧ Forall (λ x, in_class c x.1 = true) u ∧ fits (Item c lo hi g) (length u) ∧ k v = Some r).
  { destruct lo; [|done]. intros Hk. exists [], (x :: l). split_and!; try done. split; cbn; [lia|]. destruct hi; [lia|done]. }
  assert (Hmore : match hi with Some O => None | _ => if in_class c x.1 then rep c (pred lo) (option_map pred hi) g k l else None end = Some r →
    ∃ u v, x :: l = u ++ v ∧ Forall (λ x, in_class c x.1 = true) u ∧ fits (Item c lo hi g) (length u) ∧ k v = Some r).
  { intros Hm. assert (Hc : in_class c x.1 = true) by (destruct hi as [[|]|]; [done|by destruct (in_class c x.1)..]).
    rewrite Hc in Hm. assert (Hr : hi ≠ Some 0%nat ∧ rep c (pred lo) (option_map pred hi) g k l = Some r)
      by (destruct hi as [[|]|]; done). destruct Hr as [Hh Hr].
    destruct (IH _ _ Hr) as (u & v & -> & Hu & [Hf1 Hf2] & Hk). exists (x :: u), v. split_and!; try done; [by constructor|].
    split; cbn in *; [lia|]. destruct hi as [[|n]|]; cbn in *; [done|lia|done]. }
  set (more := match hi with Some O => None | _ => _ end) in *.
  set (stop := match lo with O => _ | S _ => _ end) in *. destruct g.
  - destruct more eqn:E; [|apply Hstop]. rewrite <-E. intros He. apply Hmore. congruence.
  - destruct stop eqn:E; [|apply Hmore]. rewrite <-E. intros He. apply Hstop. congruence.
Qed.

Lemma rep_complete {R} c lo hi g (k : list seg → option R) l : rep c lo hi g k l = None → ∀ u v, l = u ++ v →
  Forall (λ x, in_class c x.1 = true) u → fits (Item c lo hi g) (length u) → k v = None.
Proof.
  revert lo hi. induction l as [|x l IH]; intros lo hi; cbn [rep]; intros Hn u v Hl Hu [Hf1 Hf2]; cbn in Hf1, Hf2.
  { symmetry in Hl. apply app_nil in Hl as [-> ->]. destruct lo; [done|]. cbn in Hf1. lia. }
  set (more := match hi with Some O => None | _ => _ end) in Hn.
  assert (Hboth : more = None ∧ match lo with O => k (x :: l) | S _ => None end = None).
  { destruct g; [by destruct more|]. by destruct (match lo with O => k (x :: l) | S _ => None end). }
  destruct Hboth as [Hm Hs]. destruct u as [|y u]; cbn in Hl, Hf1, Hf2.
  - subst v. destruct lo; [done|lia].
  - injection Hl as -> ->. apply Forall_cons in Hu as [Hy Hu].
    apply (IH (pred lo) (option_map pred hi)) with (u := u); try done.
    + subst more. rewrite Hy in Hm. destruct hi as [[|n]|]; [lia|done..].
    + split; cbn; [lia|]. destruct hi as [n|]; cbn; [lia|done].
Qed.

Lemma match_then_sound {R} re (k : list seg → option R) l r :
  match_then re k l = Some r → ∃ w rest, l = w ++ rest ∧ den re w ∧ k rest = Some r.
Proof.
  revert l. induction re as [|it re IH]; intros l; cbn [match_then den]; [intros Hk; by exists [], l|].
  intros (u & v & -> & Hu & Hf & Hk)%rep_sound. destruct (IH _ Hk) as (w & rest & -> & Hw & Hr).
  exists (u ++ w), rest. split_and!; [by rewrite <-(assoc_L app)| |done]. exists u, w. done.
Qed.

Lemma match_then_complete {R} re (k : list seg → option R) l w rest :
  match_then re k l = None → l = w ++ rest → den re w → k rest = None.
Proof.
  revert l w. induction re as [|it re IH]; intros l w; cbn [match_then den]; [by intros Hk -> ->|].
  intros Hn Hl (u & v & -> & Hu & Hf & Hd). pose proof (rep_complete _ _ _ _ _ _ Hn u (v ++ rest)) as Hk.
  rewrite <-(assoc_L app) in Hl. destruct it as [c lo hi g]. specialize (Hk Hl Hu Hf). by apply (IH _ _ Hk eq_refl).
Qed.

Lemma match_here_sound re l rest : match_here re l = Some rest → ∃ w, l = w ++ rest ∧ den re w.
Proof. intros (w & rest' & -> & Hw & [= ->])%match_then_sound. by exists w. Qed.
Lemma match_here_complete re l w rest : match_here re l = None → l = w ++ rest → ¬ den re w.
Proof. intros Hm Hl Hd. by pose proof (match_then_complete _ _ _ _ _ Hm Hl Hd). Qed.

(** an expression all of whose matches are longer than [n] characters *)
Definition min_len (re : regex) : nat := list_sum (map it_lo re).
Lemma den_len re w : den re w → (min_len re ≤ length w)%nat.
Proof.
  revert w. unfold min_len, list_sum. induction re as [|it re IH]; intros w; cbn; [lia|].
  intros (u & v & -> & _ & [Hf _] & Hd). rewrite length_app. specialize (IH _ Hd). lia.
Qed.

Lemma den_app re1 re2 w1 w2 : den re1 w1 → den re2 w2 → den (re1 ++ re2) (w1 ++ w2).
Proof.
  revert w1. induction re1 as [|it re1 IH]; intros w1; cbn; [by intros ->|].
  intros (u & v & -> & Hu & Hf & Hd) H2. exists u, (v ++ w2). split_and!; try done; [by rewrite <-(assoc_L app)|auto].
Qed.
Lemma den_app_inv re1 re2 w : den (re1 ++ re2) w → ∃ w1 w2, w = w1 ++ w2 ∧ den re1 w1 ∧ den re2 w2.
Proof.
  revert w. induction re1 as [|it re1 IH]; intros w; cbn; [by exists [], w|].
  intros (u & v & -> & Hu & Hf & (w1 & w2 & -> & H1 & H2)%IH).
  exists (u ++ w1), w2. split_and!; [by rewrite <-(assoc_L app)| |done]. exists u, w1. done.
Qed.

(** characters outside every class of an expression do not occur in its matches *)
Definition avoids (re : regex) (r : Z) : bool := forallb (λ it, negb (in_class (it_class it) r)) re.
Lemma den_avoids re r w : avoids re r = true → den re w → Forall (λ x, x.1 ≠ r) w.
Proof.
  revert w. induction re as [|it re IH]; intros w; cbn; [by intros _ ->|].
  intros [Ha Hr]%andb_true_iff (u & v & -> & Hu & _ & Hd). apply Forall_app. split; [|by apply IH].
  eapply Forall_impl; [exact Hu|]. cbn. intros x Hx Hr2. rewrite Hr2 in Hx. by rewrite Hx in Ha.
Qed.

(** ** The pieces *)

Definition piece_segs (p : piece) : list seg := match p with Gap g => g | Hit h => h end.

Lemma occurs_app_l re a b : occurs re a → occurs re (a ++ b).
Proof. intros (x & w & y & -> & Hd). exists x, w, (y ++ b). by rewrite <-!(assoc_L app). Qed.
Lemma occurs_app_r re a b : occurs re b → occurs re (a ++ b).
Proof. intros (x & w & y & -> & Hd). exists (a ++ x), w, y. by rewrite <-!(assoc_L app). Qed.

(** In the text before a match nothing matches: no match starts in [gap] and ends
    within [gap ++ rest] while the scan has passed it. *)
Definition unmatched (re : regex) (gap l : list seg) : Prop :=
  ∀ a w b, gap ++ l = a ++ w ++ b → (length a < length gap)%nat → ¬ den re w.

Lemma unmatched_snoc re gap x l : unmatched re gap (x :: l) → (∀ w b, x :: l = w ++ b → ¬ den re w) →
  unmatched re (gap ++ [x]) l.
Proof.
  intros Hu Hx a w b Heq Hlen. rewrite length_app in Hlen. cbn in Hlen. rewrite <-(assoc_L app) in Heq. cbn in Heq.
  destruct (decide (length a < length gap)%nat) as [Hlt|]; [by apply (Hu a w b)|].
  assert (Ha : length a = length gap) by lia. apply app_inj_1 in Heq as [<- Heq]; [|by symmetry]. by apply (Hx w b).
Qed.

Lemma scan_spec re : (0 < min_len re)%nat → ∀ fuel gap l, (length l ≤ fuel)%nat → unmatched re (reverse gap) l →
  let ps := scan fuel re gap l in
  flat_map piece_segs ps = reverse gap ++ l ∧
  Forall (λ p, match p with Gap g => ¬ occurs re g | Hit h => den re h end) ps.
Proof.
  intros Hmin. induction fuel as [|fuel IH]; intros gap l Hf Hu; cbv zeta.
  { destruct l; [|cbn in Hf; lia]. cbn. rewrite !app_nil_r. split; [done|]. constructor; [|constructor].
    intros (a & w & b & Heq & Hd). apply (Hu a w b); [by rewrite app_nil_r| |done].
    rewrite Heq, !length_app. pose proof (den_len _ _ Hd). lia. }
  destruct l as [|x l].
  { cbn. rewrite !app_nil_r. split; [done|]. constructor; [|constructor].
    intros (a & w & b & Heq & Hd). apply (Hu a w b); [by rewrite app_nil_r| |done].
    rewrite Heq, !length_app. pose proof (den_len _ _ Hd). lia. }
  cbn [scan]. destruct (match_here re (x :: l)) as [rest|] eqn:Em.
  - apply match_here_sound in Em as (w & Hw & Hd). pose proof (den_len _ _ Hd) as Hl.
    assert (Hlen : length (x :: l) = (length w + length rest)%nat) by (by rewrite Hw, length_app).
    destruct (Nat.ltb_spec (length rest) (length (x :: l))); [|lia].
    destruct (IH [] rest) as [H1 H2]; [cbn in *; lia|intros a w' b _ Hlt; cbn in Hlt; lia|].
    replace (take (length (x :: l) - length rest) (x :: l)) with w
      by (rewrite Hlen, Hw; replace (length w + length rest - length rest)%nat with (length w) by lia; by rewrite take_app_length).
    cbn [flat_map piece_segs]. rewrite H1. cbn [reverse app]. rewrite Hw. split; [done|].
    constructor; [|by constructor]. intros (a & w' & b & Heq & Hd'). apply (Hu a w' (b ++ x :: l)); [|rewrite Heq, !length_app; pose proof (den_len _ _ Hd'); lia|done].
    by rewrite Heq, <-!(assoc_L app).
  - assert (Hx : ∀ w b, x :: l = w ++ b → ¬ den re w) by (intros w b Heq; by apply (match_here_complete re _ w b Em)).
    specialize (IH (x :: gap) l). rewrite reverse_cons in IH.
    destruct IH as [H1 H2]; [cbn in Hf; lia|by apply unmatched_snoc|]. rewrite <-(assoc_L app) in H1. done.
Qed.

Lemma pieces_spec re s : (0 < min_len re)%nat →
  flat_map piece_segs (pieces re s) = segs s ∧
  Forall (λ p, match p with Gap g => ¬ occurs re g | Hit h => den re h end) (pieces re s).
Proof.
  intros Hm. apply (scan_spec re Hm); [lia|]. intros a w b _ Hlt. cbn in Hlt. lia.
Qed.

(** * Absence, decided *)

Fixpoint absent (re : regex) (l : list seg) : bool :=
  match match_here re l with
  | Some _ => false
  | None => match l with [] => true | _ :: l' => absent re l' end
  end.

Lemma absent_spec re l : absent re l = true → ¬ occurs re l.
Proof.
  induction l as [|x l IH]; cbn [absent]; destruct (match_here re _) eqn:Em; try done;
    intros Ha (a & w & b & Heq & Hd).
  - symmetry in Heq. apply app_nil in Heq as [-> [-> ->]%app_nil]. by apply (match_here_complete re [] [] [] Em).
  - destruct a as [|y a]; [by apply (match_here_complete re _ w b Em)|].
    injection Heq as -> ->. apply IH; [done|]. by exists a, w, b.
Qed.

Lemma occurs_prefix re1 re2 l : occurs (re1 ++ re2) l → occurs re1 l.
Proof.
  intros (a & w & b & -> & (w1 & w2 & -> & H1 & H2)%den_app_inv).
  exists a, w1, (w2 ++ b). by rewrite <-(assoc_L app).
Qed.

(** An occurrence avoids a character its expression does not contain. *)
Lemma occurs_split re l1 c l2 : avoids re c.1 = true → occurs re (l1 ++ c :: l2) → occurs re l1 ∨ occurs re l2.
Proof.
  intros Ha (a & w & b & Heq & Hd). pose proof (den_avoids _ _ _ Ha Hd) as Hw.
  apply app_eq_inv in Heq as [(k & -> & Hk)|(k & -> & Hk)].
  - symmetry in Hk. apply app_eq_inv in Hk as [(k2 & -> & Hk)|(k2 & -> & Hk)].
    + left. by exists a, w, k2.
    + destruct k2 as [|y k2]; cbn in Hk; [subst b|injection Hk as <- ->].
      * left. exists a, k, []. rewrite (right_id_L [] (++)) in *. done.
      * apply Forall_app in Hw as [_ Hw]. apply Forall_cons in Hw as [Hy _]. done.
  - right. destruct k as [|y k]; cbn in Hk.
    + destruct w as [|y w]; cbn in Hk.
      * exists [], [], l2. done.
      * injection Hk as <- ->. apply Forall_cons in Hw as [Hy _]. done.
    + injection Hk as <- ->. by exists k, w, b.
Qed.

(** * Literals and lazy repetition *)

Lemma match_then_app {R} re1 re2 (k : list seg → option R) l :
  match_then (re1 ++ re2) k l = match_then re1 (match_then re2 k) l.
Proof.
  revert l. induction re1 as [|it re1 IH]; intros l; [done|]. cbn [match_then app].
  assert (Hext : ∀ k1 k2 : list seg → option R, (∀ l, k1 l = k2 l) → ∀ c lo hi g l, rep c lo hi g k1 l = rep c lo hi g k2 l).
  { clear. intros k1 k2 He c lo hi g l. revert lo hi. induction l as [|x l IH]; intros lo hi; cbn [rep].
    - destruct lo; [apply He|done].
    - rewrite IH, !He. done. }
  by apply Hext.
Qed.

Definition ascii_only (s : string) : bool := forallb (λ a, bz a <? 0x80) (String.list_ascii_of_string s).

Lemma segs_ascii_app s t : ascii_only s = true → segs (s +:+ t) = segs s ++ segs t.
Proof.
  unfold ascii_only. induction s as [|a s IH]; [done|]. cbn [String.list_ascii_of_string forallb String.append].
  intros [Ha Hs]%andb_true_iff. apply Z.ltb_lt in Ha. by rewrite !segs_ascii, (IH Hs).
Qed.

Lemma in_single a r : in_class [(bz a, bz a)] r = true ↔ r = bz a.
Proof. cbn. rewrite orb_false_r. lia. Qed.

Lemma match_lit {R} s (k : list seg → option R) l : ascii_only s = true → match_then (lit s) k (segs s ++ l) = k l.
Proof.
  unfold ascii_only. induction s as [|a s IH]; [done|]. cbn [String.list_ascii_of_string forallb].
  intros [Ha Hs]%andb_true_iff. apply Z.ltb_lt in Ha. rewrite segs_ascii by done.
  change (lit (String a s)) with (Item [(bz a, bz a)] 1 (Some 1%nat) true :: lit s).
  cbn [match_then app it_class it_lo it_hi it_greedy rep fst pred option_map].
  rewrite (proj2 (in_single a (bz a)) eq_refl). specialize (IH Hs).
  destruct (segs s ++ l) eqn:E; cbn [rep]; rewrite IH; by destruct (k l).
Qed.

Lemma den_lit s w : ascii_only s = true → den (lit s) w → w.*1 = map bz (String.list_ascii_of_string s).
Proof.
  unfold ascii_only. revert w. induction s as [|a s IH]; intros w; [by intros _ ->|].
  cbn [String.list_ascii_of_string forallb]. intros [_ Hs]%andb_true_iff (u & v & -> & Hu & [H1 H2] & Hd).
  cbn in H1, H2. destruct u as [|x [|? ?]]; cbn in H1, H2; [lia| |lia].
  apply Forall_cons in Hu as [Hx _]. apply in_single in Hx. cbn. by rewrite Hx, (IH v Hs Hd).
Qed.

Definition valid_rune (x : seg) : Prop := in_class any x.1 = true.
Lemma segs_valid s : Forall valid_rune (segs s).
Proof.
  induction s as [|s r b t E IH] using segs_ind; [constructor|]. rewrite segs_eq, E. constructor; [|done].
  unfold valid_rune. cbn. rewrite orb_false_r. apply decode1_decoded in E.
  destruct E as [a t Ha|a a2 t Ha Hb|a a2 c t lo hi Hl Hb Hc|a a2 c d t lo hi Hl Hb Hc Hd|a t];
    try (pose proof (lead_info_spec _ _ _ _ Hl) as Hs); try (pose proof (bz_range a)); unfold RuneError; try lia.
Qed.

(** A lazy [.*?] stops where the rest matches first. *)
Lemma lazy_any {R} (k : list seg → option R) u v r : Forall valid_rune u → k v = Some r →
  (∀ u1 u2, u = u1 ++ u2 → u2 ≠ [] → k (u2 ++ v) = None) → match_then [Item any 0 None false] k (u ++ v) = Some r.
Proof.
  intros Hu Hk. cbn [match_then it_class it_lo it_hi it_greedy]. induction Hu as [|x u Hx Hu IH]; intros Hno.
  - destruct v; cbn [app rep]; by rewrite Hk.
  - change ((x :: u) ++ v) with (x :: (u ++ v)). cbn [rep].
    change (x :: u ++ v) with ((x :: u) ++ v). rewrite (Hno [] (x :: u)) by done. unfold valid_rune in Hx.
    rewrite Hx. apply IH. intros u1 u2 ->. by apply (Hno (x :: u1)).
Qed.

(** * Decoding the text with the matches replaced *)

(** A byte that starts no character there starts none when an ASCII character
    follows earlier. *)
Lemma decode1_bad_cut c p q a t : bz a < 0x80 → decode1 (String c (p +:+ q)) = Some (RuneError, String c "", p +:+ q) →
  decode1 (String c (p +:+ String a t)) = Some (RuneError, String c "", p +:+ String a t).
Proof.
  intros Ha. unfold decode1. destruct (Z.ltb_spec (bz c) 0x80); [intros [= Hr]; unfold RuneError in Hr; lia|].
  destruct (lead_info (bz c)) as [[[n lo] hi]|] eqn:El; [|done]. pose proof (lead_info_spec _ _ _ _ El) as Hs.
  assert (Hlo : (lo <=? bz a) = false) by lia.
  assert (Hca : is_cont a = false) by (unfold is_cont; lia).
  destruct p as [|p1 [|p2 [|p3 p]]]; cbn [String.append]; rewrite ?Hlo, ?Hca; cbn [negb andb]; intros Hd;
    repeat (case_match; simplify_eq; try done).
Qed.

(** Characters of a text followed by an ASCII character are read as before. *)
Lemma segs_cut s : ∀ l1 l2 a t, segs s = l1 ++ l2 → bz a < 0x80 →
  segs (unsegs l1 +:+ String a t) = l1 ++ segs (String a t).
Proof.
  induction s as [|s r b s' E IH] using segs_ind; intros l1 l2 a t Hs Ha.
  { symmetry in Hs. apply app_nil in Hs as [-> ->]. done. }
  rewrite segs_eq, E in Hs. destruct l1 as [|x l1]; [done|]. cbn in Hs. injection Hs as <- Hs.
  specialize (IH l1 l2 a t Hs Ha). cbn [unsegs fold_right snd]. fold (unsegs l1). rewrite <-sapp_assoc, segs_eq.
  assert (Hd : decode1 (b +:+ (unsegs l1 +:+ String a t)) = Some (r, b, unsegs l1 +:+ String a t)).
  { destruct (seg_bad (r, b)) eqn:Hb; [|by eapply decode1_ext].
    unfold seg_bad in Hb. cbn [fst snd] in Hb. apply andb_true_iff in Hb as [->%Z.eqb_eq Hb].
    destruct b as [|c [|? ?]]; [done| |done]. pose proof (decode1_app _ _ _ _ E) as [-> _].
    assert (Hs' : s' = unsegs l1 +:+ unsegs l2) by (by rewrite <-unsegs_app, <-Hs, unsegs_segs).
    rewrite Hs' in E. by apply (decode1_bad_cut _ _ (unsegs l2)). }
  by rewrite Hd, IH.
Qed.

Lemma segs_suffix s : ∀ l1 l2, segs s = l1 ++ l2 → segs (unsegs l2) = l2.
Proof.
  induction s as [|s r b s' E IH] using segs_ind; intros l1 l2 Hs.
  { symmetry in Hs. by apply app_nil in Hs as [-> ->]. }
  destruct l1 as [|x l1]; cbn in Hs; [by rewrite <-Hs, unsegs_segs|].
  rewrite segs_eq, E in Hs. injection Hs as <- Hs. by apply (IH l1).
Qed.

Definition out_segs (m : list seg) (ps : list piece) : list seg :=
  flat_map (λ p, match p with Gap g => g | Hit _ => m end) ps.

Lemma scan_render re a m0 : bz a < 0x80 → valid_utf8 (String a m0) = true → (0 < min_len re)%nat →
  ∀ fuel gap l, segs (unsegs (reverse gap ++ l)) = reverse gap ++ l →
  segs (render (String a m0) (scan fuel re gap l)) = out_segs (segs (String a m0)) (scan fuel re gap l).
Proof.
  intros Ha Hv Hm. induction fuel as [|fuel IH]; intros gap l Hs; [cbn; by rewrite sapp_nil_r, app_nil_r|].
  destruct l as [|x l]; [cbn in *; by rewrite sapp_nil_r, !app_nil_r in *|]. cbn [scan].
  assert (Hskip : segs (render (String a m0) (scan fuel re (x :: gap) l)) =
    out_segs (segs (String a m0)) (scan fuel re (x :: gap) l)).
  { apply IH. rewrite reverse_cons, <-(assoc_L app). exact Hs. }
  destruct (match_here re (x :: l)) as [rest|] eqn:Em; [|done].
  destruct (Nat.ltb_spec (length rest) (length (x :: l))); [|done].
  apply match_here_sound in Em as (w & Hw & _).
  cbn [render out_segs fold_right flat_map]. fold (render (String a m0) (scan fuel re [] rest)).
  fold (out_segs (segs (String a m0)) (scan fuel re [] rest)).
  cbn [String.append]. rewrite (segs_cut (unsegs (reverse gap ++ x :: l)) (reverse gap) (x :: l) a _ Hs Ha). f_equal.
  set (r := render _ _). change (String a (m0 +:+ r)) with (String a m0 +:+ r). rewrite segs_app by done. f_equal.
  subst r. apply IH. cbn. apply (segs_suffix (unsegs (reverse gap ++ x :: l)) (reverse gap ++ w) rest). by rewrite Hs, Hw, (assoc_L app).
Qed.

Lemma segs_render re a m0 s : bz a < 0x80 → valid_utf8 (String a m0) = true → (0 < min_len re)%nat →
  segs (render (String a m0) (pieces re s)) = out_segs (segs (String a m0)) (pieces re s).
Proof. intros Ha Hv Hm. apply (scan_render re a m0 Ha Hv Hm). cbn. by rewrite unsegs_segs. Qed.

(** What occurs in the text with the matches replaced occurs between two matches
    or inside the replacement. *)
Lemma occurs_scan re' re o i c : avoids re' o.1 = true → avoids re' c.1 = true → ∀ fuel gap l,
  occurs re' (out_segs (o :: i ++ [c]) (scan fuel re gap l)) →
  occurs re' i ∨ ∃ g, Gap g ∈ scan fuel re gap l ∧ occurs re' g.
Proof.
  intros Ho Hc. induction fuel as [|fuel IH]; intros gap l.
  { cbn. rewrite app_nil_r. intros H. right. eexists. split; [apply list_elem_of_singleton; reflexivity|done]. }
  destruct l as [|x l].
  { cbn. rewrite !app_nil_r. intros H. right. eexists. split; [apply list_elem_of_singleton; reflexivity|done]. }
  cbn [scan]. destruct (match_here re (x :: l)) as [rest|]; [|apply IH].
  destruct (_ <? _)%nat; [|apply IH].
  cbn [out_segs flat_map]. fold (out_segs (o :: i ++ [c]) (scan fuel re [] rest)).
  cbn [app]. rewrite <-(assoc_L app). cbn [app]. intros [H|[H|H]%occurs_split]%occurs_split; try done.
  - right. eexists. split; [apply elem_of_cons; by left|done].
  - by left.
  - apply IH in H as [H|(g & Hg & H)]; [by left|]. right. exists g. split; [|done].
    apply elem_of_cons. right. apply elem_of_cons. by right.
Qed.

Lemma occurs_piece re g ps : Gap g ∈ ps → occurs re g → occurs re (flat_map piece_segs ps).
Proof.
  intros (ps1 & ps2 & ->)%list_elem_of_split H. rewrite flat_map_app. apply occurs_app_r. cbn.
  by apply occurs_app_l.
Qed.

(** A text without a match is its own single piece. *)
Lemma scan_none re fuel gap l : (0 < min_len re)%nat → ¬ occurs re l → scan fuel re gap l = [Gap (reverse gap ++ l)].
Proof.
  intros Hm. revert gap l. induction fuel as [|fuel IH]; intros gap l Ho; [done|]. destruct l as [|x l]; [done|].
  cbn [scan]. destruct (match_here re (x :: l)) as [rest|] eqn:Em.
  - apply match_here_sound in Em as (w & Hw & Hd). exfalso. apply Ho. by exists [], w, rest.
  - rewrite IH; [by rewrite reverse_cons, <-(assoc_L app)|]. intros H. apply Ho. by apply (occurs_app_r re [x]).
Qed.

Lemma pieces_none re s : (0 < min_len re)%nat → ¬ occurs re (segs s) → pieces re s = [Gap (segs s)].
Proof. intros Hm Ho. unfold pieces. by rewrite scan_none. Qed.
Lemma hits_nil re fuel gap l : hits (scan fuel re gap l) = [] → ∃ g, scan fuel re gap l = [Gap g].
Proof.
  revert gap l. induction fuel as [|fuel IH]; intros gap l; [by eauto|]. destruct l as [|x l]; [by eauto|].
  cbn [scan]. destruct (match_here re (x :: l)) as [rest|]; [|apply IH]. destruct (_ <? _)%nat; [done|apply IH].
Qed.
Lemma pieces_hit re s : (0 < min_len re)%nat → occurs re (segs s) → hits (pieces re s) ≠ [].
Proof.
  intros Hm Ho Hh. destruct (pieces_spec re s Hm) as [H1 H2].
  apply hits_nil in Hh as [g Hg]. fold (pieces re s) in Hg. rewrite Hg in *. cbn in H1. rewrite app_nil_r in H1.
  subst g. by apply Forall_cons in H2 as [H2 _].
Qed.
