(* ===== verification/GoUrl.v ===== *)
(** [url.Parse] as far as the program uses it: whether a text parses, its scheme
    and its host (the rules of Go 1.26, which go.mod asks for). *)
From Stdlib Require Import Ascii.
From stdpp Require Import base list strings.
From S2P Require Import Prelude GoStrings Json.

Open Scope string_scope.
Open Scope Z_scope.
Open Scope list_scope.

Record url := Url { u_scheme : string; u_host : string }.

Definition in_range (lo hi : Z) (a : char) : bool := (lo <=? bz a) && (bz a <=? hi).
Definition is_letter (a : char) : bool := in_range 97 122 a || in_range 65 90 a.
Definition is_hex (a : char) : bool := match hexval a with Some _ => true | None => false end.
Fixpoint str_forall (p : char → bool) (s : string) : bool :=
  match s with "" => true | String a s => p a && str_forall p s end.
Definition str_exists (p : char → bool) (s : string) : bool := negb (str_forall (λ a, negb (p a)) s).

(** [strings.ToLower] of an ASCII text, such as a scheme *)
Fixpoint lower (s : string) : string :=
  match s with
  | "" => ""
  | String a s => String (if in_range 65 90 a then zb (bz a + 32) else a) (lower s)
  end.

(** the text before the scheme's colon and the rest; [None] for a leading colon *)
Fixpoint get_scheme (first : bool) (s : string) : option (option (string * string)) :=
  match s with
  | "" => Some None
  | String a t =>
      if is_letter a || (negb first && (is_digit a || contains_char a "+-.")) then
        match get_scheme false t with
        | Some (Some (x, y)) => Some (Some (String a x, y))
        | r => r
        end
      else if Ascii.eqb a ":" then if first then None else Some (Some ("", t))
      else Some None
  end.

(** split at the last occurrence of a character *)
Fixpoint cut_last (c : char) (s : string) : option (string * string) :=
  match s with
  | "" => None
  | String a t =>
      match cut_last c t with
      | Some (x, y) => Some (String a x, y)
      | None => if Ascii.eqb a c then Some ("", t) else None
      end
  end.

(** every percent sign starts an escape of two hexadecimal digits *)
Fixpoint escapes_ok (s : string) : bool :=
  match s with
  | "" => true
  | String "%" t => match t with String a (String b t') => is_hex a && is_hex b && escapes_ok t' | _ => false end
  | String _ t => escapes_ok t
  end.

(** the characters a host may hold unescaped *)
Definition host_char (a : char) : bool :=
  (128 <=? bz a) || is_letter a || is_digit a || contains_char a "-_.~!$&'()*+,;=:[]<>" || Ascii.eqb a dq.

(** the texts [unescape] accepts in a host: an escape stands for a byte beyond
    ASCII or for the percent sign itself *)
Fixpoint host_ok (s : string) : bool :=
  match s with
  | "" => true
  | String "%" t =>
      match t with
      | String a (String b t') =>
          is_hex a && is_hex b &&
          (match hexval a with Some v => 8 <=? v | None => false end || (Ascii.eqb a "2" && Ascii.eqb b "5")) && host_ok t'
      | _ => false
      end
  | String a t => host_char a && host_ok t
  end.

(** in a zone: an escape stands for the percent sign, a blank or a character of a host *)
Fixpoint zone_ok (s : string) : bool :=
  match s with
  | "" => true
  | String "%" t =>
      match t with
      | String a (String b t') =>
          match hexval a, hexval b with
          | Some x, Some y =>
              let v := zb (x * 16 + y) in
              (Ascii.eqb v "%" || Ascii.eqb v " " || (bz v <? 128) && host_char v) && zone_ok t'
          | _, _ => false
          end
      | _ => false
      end
  | String a t => host_char a && zone_ok t
  end.
Fixpoint unescape (s : string) : string :=
  match s with
  | "" => ""
  | String a t =>
      match a, t with
      | "%"%char, String b (String c t') =>
          match hexval b, hexval c with
          | Some x, Some y => String (zb (x * 16 + y)) (unescape t')
          | _, _ => String a (unescape t)
          end
      | _, _ => String a (unescape t)
      end
  end.

(** [:] and digits, or nothing *)
Definition valid_port (s : string) : bool :=
  match s with "" => true | String a t => Ascii.eqb a ":" && str_forall is_digit t end.

(** the text before a zone and the zone with its [%25] *)
Fixpoint cut_zone (s : string) : string * string :=
  match s with
  | "" => ("", "")
  | String a t => if has_prefix "%25" s then ("", s) else let '(h, z) := cut_zone t in (String a h, z)
  end.

(** ** The IPv6 literals of [netip.ParseAddr] *)

(** a decimal field: no leading zero, at most 255 *)
Definition octet_ok (s : string) : bool :=
  str_forall is_digit s && (String.eqb s "0" || negb (has_prefix "0" s)) &&
  match parse_udec s with Some v => v <=? 255 | None => false end.
Definition ipv4_ok (s : string) : bool :=
  let l := split_char "." s in (length l =? 4)%nat && forallb octet_ok l.

(** The groups from the one filling byte [i] on; [e] says whether the ellipsis has
    been seen. Answers the number of bytes filled and whether there was one. *)
Fixpoint ipv6_groups (fuel : nat) (i : Z) (e : bool) (s : string) : option (Z * bool) :=
  match fuel with
  | O => None
  | S fuel =>
      let '(digits, t) := span is_hex s in
      if (slen digits =? 0)%nat || (4 <? slen digits)%nat then None else
      match t with
      | "" => Some (i + 2, e)
      | String "." _ =>
          if negb e && negb (i =? 12) || (16 <? i + 4) then None
          else if ipv4_ok s then Some (i + 4, e) else None
      | String ":" (String ":" u) =>
          if e then None else if String.eqb u "" then Some (i + 2, true) else ipv6_groups fuel (i + 2) true u
      | String ":" u => if String.eqb u "" then None else ipv6_groups fuel (i + 2) e u
      | _ => None
      end
  end.

(** eight groups, or fewer with the ellipsis; a zone is not empty *)
Definition ipv6_ok (s : string) : bool :=
  match cut_char "%" s with
  | Some (_, "") => false
  | c =>
      let a := match c with Some (a, _) => a | None => s end in
      if String.eqb a "::" then true else
      match (if has_prefix "::" a then ipv6_groups 8 0 true (sdrop 2 a) else ipv6_groups 8 0 false a) with
      | Some (i, e) => if e then i <? 16 else i =? 16
      | None => false
      end
  end.

Definition last_index (c : char) (h : string) : option nat :=
  match cut_last c h with Some (x, _) => Some (slen x) | None => None end.

(** The host of an authority: an IPv6 literal in brackets at its start, or a name;
    [http] and [https] URLs have at most one colon in it. *)
Definition parse_host (scheme h : string) : option string :=
  match last_index "[" h with
  | Some (S _) => None
  | Some O =>
      match cut_last "]" (sdrop 1 h) with
      | Some (name, port) =>
          if negb (valid_port port) then None else
          let '(addr, zone) := cut_zone name in
          if host_ok addr && zone_ok zone && ipv6_ok (unescape addr +:+ unescape zone)
          then Some ("[" +:+ unescape addr +:+ unescape zone +:+ "]" +:+ port) else None
      | None => None
      end
  | None =>
      let port :=
        if String.eqb scheme "http" || String.eqb scheme "https" then cut_char ":" h else cut_last ":" h in
      match port with
      | Some (_, port) => if valid_port (String ":" port) && host_ok h then Some (unescape h) else None
      | None => if host_ok h then Some (unescape h) else None
      end
  end.

Definition userinfo_char (a : char) : bool :=
  is_letter a || is_digit a || contains_char a "-._:~!$&'()*+,;=%@".

Definition parse_authority (scheme s : string) : option string :=
  match cut_last "@" s with
  | None => parse_host scheme s
  | Some (user, h) => if str_forall userinfo_char user && escapes_ok user then parse_host scheme h else None
  end.

Definition parse_url (raw : string) : option url :=
  let '(u, frag) := default (raw, "") (cut_char "#" raw) in
  if str_exists (λ a, (bz a <? 32) || (bz a =? 127)) u || negb (escapes_ok frag) then None else
  if String.eqb u "*" then Some (Url "" "") else
  match get_scheme true u with
  | None => None
  | Some sr =>
      let '(scheme, rest) := match sr with Some (x, y) => (lower x, y) | None => ("", u) end in
      let '(rest, _) := default (rest, "") (cut_char "?" rest) in
      if negb (has_prefix "/" rest) then
        if negb (String.eqb scheme "") then Some (Url scheme "") else
        let '(seg, _) := default (rest, "") (cut_char "/" rest) in
        if contains_char ":" seg then None else if escapes_ok rest then Some (Url "" "") else None
      else if (negb (String.eqb scheme "") || negb (has_prefix "///" rest)) && has_prefix "//" rest then
        let a := sdrop 2 rest in
        let '(auth, path) := match cut_char "/" a with Some (x, y) => (x, String "/" y) | None => (a, "") end in
        h ← parse_authority scheme auth;
        if escapes_ok path then Some (Url scheme h) else None
      else if escapes_ok rest then Some (Url scheme "") else None
  end.

(** the text of [url.Parse]'s error on a text it does not parse *)
Class UrlErrors := parse_error : string → string.

Example parse_url_hosts :
  map (λ s, u_host <$> parse_url s)
    ["http://[::1]:80/"; "http://[fe80::1%25en0]:8/"; "http://[::ffff:1.2.3.4]"; "http://[1:2:3:4:5:6:7:8]"; "http://a%25b/";
     "http://b%C3%BC/"; "pg://a:1,b:2/"] =
    [Some "[::1]:80"; Some "[fe80::1%en0]:8"; Some "[::ffff:1.2.3.4]"; Some "[1:2:3:4:5:6:7:8]"; Some "a%b";
     Some (String.append "b" (String "195" (String "188" ""))); Some "a:1,b:2"] ∧
  Forall (λ s, parse_url s = None)
    ["http://::1/"; "http://a:1:2"; "http://[1.2.3.4]/"; "http://[g::1]"; "http://a[::1]"; "http://[::1]a"; "http://[1:2::3::4]";
     "http://[1:2:3:4:5:6:7:8:9]"; "http://[::1%25]"; "http://a%41/"; "http://[1::2:3:4:5:6:7:8]"; "%zz"; "http://[::1"].
Proof. split; [vm_compute; reflexivity|repeat constructor]. Qed.
