(* ===== verification/GoFS.v ===== *)
(** The files a component reads and writes through package [os], with the
    failures the code handles: an operation may fail, and a failed write may
    leave a partial file behind. *)
From stdpp Require Import base list strings gmap.
From S2P Require Import Prelude GoStrings.

Open Scope string_scope.
Open Scope Z_scope.
Open Scope list_scope.

Record file := File { f_mode : Z; f_data : string }.

(** [write_fault p = Some part]: a write to [p] fails after [part] was written. *)
Record fs := FS {
  files : gmap string file;
  read_fault : string → bool;
  write_fault : string → option string;
  rename_fault : string → bool }.

Definition set_files (f : gmap string file → gmap string file) (w : fs) : fs :=
  FS (f (files w)) (read_fault w) (write_fault w) (rename_fault w).

Inductive io_error : Set := NotExist | IOError.

(** [os.ReadFile] *)
Definition ReadFile (p : string) (w : fs) : result io_error string :=
  if read_fault w p then Err IOError
  else match files w !! p with Some f => Ok (f_data f) | None => Err NotExist end.

(** [os.WriteFile]: an existing file keeps its mode and is truncated first. *)
Definition WriteFile (p data : string) (mode : Z) (w : fs) : result io_error unit * fs :=
  let mode' := match files w !! p with Some f => f_mode f | None => mode end in
  match write_fault w p with
  | Some part => (Err IOError, set_files <[p := File mode' part]> w)
  | None => (Ok tt, set_files <[p := File mode' data]> w)
  end.

(** [os.Rename] *)
Definition Rename (p q : string) (w : fs) : result io_error unit * fs :=
  if rename_fault w p then (Err IOError, w)
  else match files w !! p with
  | Some f => (Ok tt, set_files (λ m, <[q := f]> (delete p m)) w)
  | None => (Err NotExist, w)
  end.

(** [os.Remove] *)
Definition Remove (p : string) (w : fs) : result io_error unit * fs :=
  match files w !! p with
  | Some _ => (Ok tt, set_files (delete p) w)
  | None => (Err NotExist, w)
  end.

(** Everything outside [p] and [q] is as it was. *)
Definition same_except (ps : list string) (w w' : fs) : Prop :=
  ∀ r, r ∉ ps → files w' !! r = files w !! r.
