(* ===== verification/GoTree.v ===== *)
(** Directories beside the files of [GoFS]: what package [os] does with a path that
    may be a file or a directory. Paths are absolute and clean. *)
From Stdlib Require Import Ascii.
From stdpp Require Import base list strings gmap sets.
From S2P Require Import Prelude GoStrings GoFS.

Open Scope string_scope.
Open Scope Z_scope.
Open Scope list_scope.

(** The files, and the directories made by hand; a directory above a file or
    above one of these exists too. [stat_fault]: the system refuses to look at a
    path; [partial p = Some keep]: removing the tree at [p] stops at an error and
    leaves the entries [keep] selects. *)
Record tree := Tree {
  t_fs : fs;
  t_dirs : gset string;
  stat_fault : string → bool;
  partial : string → option (string → bool) }.

Definition set_fs (w : fs) (t : tree) : tree := Tree w (t_dirs t) (stat_fault t) (partial t).
Definition set_dirs (f : gset string → gset string) (t : tree) : tree := Tree (t_fs t) (f (t_dirs t)) (stat_fault t) (partial t).

(** [q] lies below the directory [p]. *)
Definition below (p q : string) : bool := has_prefix (p +:+ "/") q.
Definition within (p q : string) : bool := String.eqb q p || below p q.

Definition file_names (t : tree) : list string := (map_to_list (files (t_fs t))).*1.
Definition is_file (t : tree) (p : string) : bool := bool_decide (is_Some (files (t_fs t) !! p)).
Definition is_dir (t : tree) (p : string) : bool :=
  existsb (below p) (file_names t) || existsb (within p) (elements (t_dirs t)).

(** [os.Stat]: whether the path is a directory *)
Definition Stat (p : string) (t : tree) : result io_error bool :=
  if stat_fault t p then Err IOError
  else if is_file t p then Ok false
  else if is_dir t p then Ok true
  else Err NotExist.

Definition slash : char := "/".
(** [filepath.Dir] of a clean absolute path *)
Definition Dir (p : string) : string :=
  let d := join "/" (removelast (split_char slash p)) in if String.eqb d "" then "/" else d.

(** [os.MkdirAll]; [fault] is the system's own refusal. A file on the way is an
    error, a directory that is there already is not. *)
Definition MkdirAll (fault : bool) (p : string) (t : tree) : result io_error unit * tree :=
  if fault || existsb (λ q, within q p) (file_names t) then (Err IOError, t)
  else (Ok tt, set_dirs ({[ p ]} ∪.) t).

(** [os.WriteFile]: not over a directory *)
Definition WriteAt (p data : string) (mode : Z) (t : tree) : result io_error unit * tree :=
  if is_dir t p then (Err IOError, t) else
  let '(r, w) := WriteFile p data mode (t_fs t) in (r, set_fs w t).

(** the path of an entry after [p] was renamed to [q] *)
Definition moved (p q x : string) : string := q +:+ sdrop (slen p) x.

Definition move_files (p q : string) (m : gmap string file) : gmap string file :=
  let inside := filter (λ x, within p x.1 = true) (map_to_list m) in
  list_to_map (map (λ x, (moved p q x.1, x.2)) inside) ∪ filter (λ x, within p x.1 = false) m.
Definition move_dirs (p q : string) (s : gset string) : gset string :=
  list_to_set (map (λ x, if within p x then moved p q x else x) (elements s)).

(** [os.Rename]: a file replaces a file, a directory moves to a place that is free
    or an empty directory. *)
Definition RenameAt (p q : string) (t : tree) : result io_error unit * tree :=
  if rename_fault (t_fs t) p then (Err IOError, t) else
  if is_file t p then
    if is_dir t q then (Err IOError, t) else
    let '(r, w) := Rename p q (t_fs t) in (r, set_fs w t)
  else if is_dir t p then
    if is_file t q || existsb (below q) (file_names t) || existsb (below q) (elements (t_dirs t)) || within p q
    then (Err IOError, t)
    else (Ok tt, set_dirs (λ s, {[ q ]} ∪ move_dirs p q s) (set_fs (set_files (move_files p q) (t_fs t)) t))
  else (Err NotExist, t).

(** [os.Remove] of a file *)
Definition RemoveAt (p : string) (t : tree) : result io_error unit * tree :=
  let '(r, w) := Remove p (t_fs t) in (r, set_fs w t).

(** [os.RemoveAll] *)
Definition RemoveAll (p : string) (t : tree) : result io_error unit * tree :=
  let drop keep := set_dirs (filter (λ x, (negb (within p x) || keep x) = true))
    (set_fs (set_files (filter (λ x, (negb (within p x.1) || keep x.1) = true)) (t_fs t)) t) in
  match partial t p with
  | Some keep => (Err IOError, drop keep)
  | None => (Ok tt, drop (λ _, false))
  end.

(** * Facts *)

Lemma within_spec p x : within p x = true ↔ ∃ r, x = p +:+ r ∧ (r = "" ∨ has_prefix "/" r = true).
Proof.
  unfold within, below. rewrite orb_true_iff, String.eqb_eq, has_prefix_spec. split.
  - intros [->|[t ->]]; [exists ""; by rewrite sapp_nil_r; auto|].
    exists ("/" +:+ t). rewrite sapp_assoc. split; [done|right; by apply has_prefix_app].
  - intros (r & -> & [->|[t ->]%has_prefix_spec]); [left; by rewrite sapp_nil_r|right].
    exists t. by rewrite sapp_assoc.
Qed.

Lemma moved_within p q x : within p x = true → within q (moved p q x) = true ∧ moved q p (moved p q x) = x.
Proof.
  intros (r & -> & Hr)%within_spec. unfold moved. rewrite sdrop_app. split; [apply within_spec; by exists r|].
  by rewrite sdrop_app.
Qed.

Lemma moved_inj p q x y : within p x = true → within p y = true → moved p q x = moved p q y → x = y.
Proof. intros Hx Hy He. rewrite <-(proj2 (moved_within p q x Hx)), <-(proj2 (moved_within p q y Hy)). by rewrite He. Qed.

(** After a directory moved to a free place its entries are found there, under
    their names, and everything elsewhere is as it was. *)
Lemma move_files_lookup p q m x : (∀ y, within q y = true → m !! y = None) → (∀ y, within p y = true → within q y = false) →
  move_files p q m !! x =
    if within q x then m !! moved q p x else if within p x then None else m !! x.
Proof.
  intros Hfree Hdis. unfold move_files. set (inside := filter _ (map_to_list m)).
  assert (Hin : ∀ y f, (y, f) ∈ inside ↔ within p y = true ∧ m !! y = Some f).
  { intros y f. unfold inside. by rewrite list_elem_of_filter, elem_of_map_to_list. }
  assert (Hnd : NoDup (map (λ y, (moved p q y.1, y.2)) inside).*1).
  { assert (He : (map (λ y, (moved p q y.1, y.2)) inside).*1 = map (moved p q) inside.*1)
      by (change (map ?f ?l) with (f <$> l); by rewrite <-!list_fmap_compose).
    rewrite He. clear He.
    assert (H1 : NoDup inside.*1) by (apply NoDup_fmap_fst; [intros a b c Ha%Hin Hb%Hin; naive_solver|apply NoDup_filter, NoDup_map_to_list]).
    assert (H2 : ∀ y, y ∈ inside.*1 → within p y = true) by (intros y ([y' f] & -> & Hy%Hin)%list_elem_of_fmap; by destruct Hy).
    clear -H1 H2. induction H1 as [|y l Hy _ IH]; [constructor|]. cbn. constructor.
    - intros (z & He & Hz)%list_elem_of_fmap. apply Hy. enough (y = z) as -> by done.
      apply (moved_inj p q); [apply H2; by left|apply H2; by right|done].
    - apply IH. intros z Hz. apply H2. by right. }
  assert (Hrest : ∀ y, filter (λ x, within p x.1 = false) m !! y = if within p y then None else m !! y).
  { intros y. destruct (within p y) eqn:E.
    - apply map_lookup_filter_None. right. intros f _ Hf. cbn in Hf. congruence.
    - destruct (m !! y) eqn:Ey; [by apply map_lookup_filter_Some|apply map_lookup_filter_None; by left]. }
  destruct (within q x) eqn:Ex.
  - pose proof (moved_within q p x Ex) as [Hw Hb]. destruct (m !! moved q p x) as [f|] eqn:Em.
    + apply lookup_union_Some_l, elem_of_list_to_map; [done|]. apply list_elem_of_fmap. exists (moved q p x, f). cbn [fst snd].
      by rewrite Hb, Hin.
    + apply lookup_union_None. split.
      * apply not_elem_of_list_to_map. intros ([y f] & -> & Hy)%list_elem_of_fmap. apply list_elem_of_fmap in Hy as ([z g] & [= -> ->] & Hz%Hin).
        destruct Hz as [Hz Hg]. cbn [fst] in Em. rewrite (proj2 (moved_within p q z Hz)) in Em. congruence.
      * rewrite Hrest. destruct (within p x); [done|by apply Hfree].
  - rewrite lookup_union_r, Hrest; [done|]. apply not_elem_of_list_to_map.
    intros ([y f] & -> & Hy)%list_elem_of_fmap. apply list_elem_of_fmap in Hy as ([z g] & [= -> ->] & Hz%Hin). destruct Hz as [Hz _].
    cbn [fst] in Ex. by rewrite (proj1 (moved_within p q z Hz)) in Ex.
Qed.

(** ** What an operation leaves alone *)

Lemma file_names_elem t x : x ∈ file_names t ↔ is_Some (files (t_fs t) !! x).
Proof.
  unfold file_names. rewrite list_elem_of_fmap. split.
  - intros ([y f] & -> & Hy%elem_of_map_to_list). by exists f.
  - intros [f Hf]. exists (x, f). split; [done|]. by apply elem_of_map_to_list.
Qed.

Lemma no_names p (f : string → bool) t : existsb f (file_names t) = false → f p = true → files (t_fs t) !! p = None.
Proof.
  intros He Hf. destruct (files (t_fs t) !! p) eqn:E; [|done]. apply not_true_iff_false in He. exfalso. apply He.
  apply existsb_exists. exists p. split; [|done]. apply list_elem_of_In, file_names_elem. by exists f0.
Qed.

Definition apart (p q : string) : Prop := ∀ y, within p y = true → within q y = false.

Lemma rename_other p q t x : apart p q → within p x = false → within q x = false →
  files (t_fs (RenameAt p q t).2) !! x = files (t_fs t) !! x.
Proof.
  intros Hdis Hp Hq. assert (Hne : x ≠ p ∧ x ≠ q).
  { split; intros ->; [unfold within in Hp|unfold within in Hq]; by rewrite String.eqb_refl in *. }
  destruct Hne as [Hnp Hnq]. unfold RenameAt. destruct (rename_fault (t_fs t) p) eqn:Er; [done|]. destruct (is_file t p) eqn:Ef.
  - destruct (is_dir t q); [done|]. unfold Rename. rewrite Er. destruct (files (t_fs t) !! p); [|done]. cbn.
    by rewrite lookup_insert_ne, lookup_delete_ne.
  - destruct (is_dir t p); [|done]. destruct (is_file t q || _ || _ || _) eqn:Eb; [done|]. rewrite !orb_false_iff in Eb.
    destruct Eb as (((E1 & E2) & _) & _). cbn. rewrite move_files_lookup; [by rewrite Hp, Hq| |done].
    intros y Hy. unfold within in Hy. apply orb_true_iff in Hy as [->%String.eqb_eq|Hy]; [|by apply (no_names y _ t E2)].
    unfold is_file in E1. apply bool_decide_eq_false in E1. by apply eq_None_not_Some.
Qed.

(** a name beside a path is no part of it *)
Lemma apart_suffix p a s : a ≠ "/"%char → apart p (p +:+ String a s).
Proof.
  intros Ha y (r & -> & Hr)%within_spec. apply not_true_iff_false. intros (r' & He & _)%within_spec.
  rewrite <-sapp_assoc in He. apply sapp_inj_l in He. subst r. destruct Hr as [?|[t Ht]%has_prefix_spec]; [done|].
  cbn in Ht. by injection Ht as ->.
Qed.

Lemma within_self p : within p p = true.
Proof. unfold within. by rewrite String.eqb_refl. Qed.

Lemma RemoveAll_other p t x : within p x = false → files (t_fs (RemoveAll p t).2) !! x = files (t_fs t) !! x.
Proof.
  intros Hx. unfold RemoveAll. assert (Hd : ∀ keep : string → bool, filter (λ y, (negb (within p y.1) || keep y.1) = true) (files (t_fs t)) !! x = files (t_fs t) !! x).
  { intros keep. destruct (files (t_fs t) !! x) eqn:E.
    - apply map_lookup_filter_Some. split; [done|]. cbn. by rewrite Hx.
    - apply map_lookup_filter_None. by left. }
  destruct (partial t p) as [keep|]; cbn; [apply (Hd keep)|apply (Hd (λ _, false))].
Qed.

Lemma RemoveAt_other p t x : x ≠ p → files (t_fs (RemoveAt p t).2) !! x = files (t_fs t) !! x.
Proof. intros Hx. unfold RemoveAt, Remove. destruct (files (t_fs t) !! p); [|done]. cbn. by rewrite lookup_delete_ne. Qed.
