(* ===== verification/A2A.v ===== *)
(** What the program sees of the [a2a-go] SDK. The SDK is not part of the
    repository: its data types are the records whose fields the repository
    reads, its functions are the fields of the class [A2A], and the documented
    behaviour the program relies on is the class [A2ALaws]. [reference_sdk] is one
    instance of both, on which the witnesses run. The file also holds Go error
    values as the program builds and compares them. *)
From stdpp Require Import base list sets strings.
From S2P Require Import Prelude GoStrings GoTime Json.

Open Scope string_scope.
Open Scope Z_scope.
Open Scope list_scope.

(** * Errors *)

(** The error values the program tells apart with [errors.Is]: those of the
    SDK, those of the standard library and its own. *)
Inductive sentinel : Set :=
| ErrInvalidParams | ErrInvalidRequest | ErrTaskNotFound | ErrUnsupportedOperation
| ErrVersionNotSupported | ErrInternalError | ErrTaskAlreadyExists | ErrConcurrentModification
| CtxCanceled | CtxDeadlineExceeded | MaxBytesError
| ErrReplyPending | errWaiterExists | errNilTask | errBlockedPushTarget | errSkipPid | ErrIDENotInstalled.

#[export] Instance sentinel_eq_dec : EqDecision sentinel.
Proof. solve_decision. Defined.

(** An error: its text and the sentinels of its [%w] chain. *)
Record goerror := GoError { e_text : string; e_is : list sentinel }.

Definition errors_is (e : goerror) (x : sentinel) : bool := bool_decide (x ∈ e_is e).
(** [errors.New(s)] for an error nobody compares with *)
Definition errors_new (s : string) : goerror := GoError s [].
(** [fmt.Errorf("pre%w", err)] *)
Definition wrapf (pre : string) (e : goerror) : goerror := GoError (pre +:+ e_text e) (e_is e).

Lemma errors_is_wrapf pre e x : errors_is (wrapf pre e) x = errors_is e x.
Proof. done. Qed.

(** * Data *)

Section types.
(** [a2a.Part] is only built by [NewTextPart] and read by [Text]. *)
Context {Part : Type}.

Record Message := { m_ID : string; m_ContextID : string; m_TaskID : string; m_Role : string;
  m_Parts : list (option Part); m_Metadata : list (string * json) }.
Record TaskStatus := { s_State : string; s_Message : option Message; s_Timestamp : option gotime }.
Record Artifact := { a_ID : string; a_Name : string; a_Parts : list (option Part) }.
Record Task := { t_ID : string; t_ContextID : string; t_Status : TaskStatus;
  t_Artifacts : list (option Artifact); t_History : list (option Message);
  t_Metadata : list (string * json) }.
Record TaskStatusUpdateEvent := { su_TaskID : string; su_ContextID : string; su_Status : TaskStatus }.
Record TaskArtifactUpdateEvent := { au_TaskID : string; au_ContextID : string; au_Artifact : Artifact;
  au_LastChunk : bool }.

(** [a2a.Event]: the dynamic types of the interface *)
Inductive Event :=
| EvTask (t : Task)
| EvMessage (m : Message)
| EvStatus (u : TaskStatusUpdateEvent)
| EvArtifact (u : TaskArtifactUpdateEvent).

(** [a2a.AgentCard]: the name, the identifiers of the skills, and its JSON form *)
Record AgentCard := { ac_Name : string; ac_Skills : list string; ac_JSON : json }.

(** [a2asrv.ExecutorContext] *)
Record ExecutorContext := { ec_TaskID : string; ec_ContextID : string;
  ec_Message : option Message; ec_StoredTask : option Task }.
End types.
Arguments Message : clear implicits.
Arguments TaskStatus : clear implicits.
Arguments Artifact : clear implicits.
Arguments Task : clear implicits.
Arguments TaskStatusUpdateEvent : clear implicits.
Arguments TaskArtifactUpdateEvent : clear implicits.
Arguments Event : clear implicits.
Arguments ExecutorContext : clear implicits.

Definition set_status_time {P} (s : TaskStatus P) (t : option gotime) : TaskStatus P :=
  {| s_State := s_State s; s_Message := s_Message s; s_Timestamp := t |}.
Definition set_task_status {P} (t : Task P) (s : TaskStatus P) : Task P :=
  {| t_ID := t_ID t; t_ContextID := t_ContextID t; t_Status := s; t_Artifacts := t_Artifacts t;
     t_History := t_History t; t_Metadata := t_Metadata t |}.
Definition set_update_status {P} (u : TaskStatusUpdateEvent P) (s : TaskStatus P) : TaskStatusUpdateEvent P :=
  {| su_TaskID := su_TaskID u; su_ContextID := su_ContextID u; su_Status := s |}.

(** * The SDK's functions *)

(** Constructors that stamp the current time or draw a fresh identifier take
    them as the arguments [now] and [uuid]. *)
Class A2A := {
  Part : Type;
  part_Text : Part → string;
  NewTextPart : string → Part;
  TaskStateUnspecified : string;
  TaskStateWorking : string;
  TaskStateCompleted : string;
  TaskStateRejected : string;
  TaskStateCanceled : string;
  (** [TaskState.Terminal] *)
  Terminal : string → bool;
  MessageRoleUser : string;
  MessageRoleAgent : string;
  NewMessage : string → string → list (option Part) → Message Part;
  NewMessageForTask : string → string → ExecutorContext Part → list (option Part) → Message Part;
  NewSubmittedTask : gotime → ExecutorContext Part → Message Part → Task Part;
  NewStatusUpdateEvent : gotime → ExecutorContext Part → string → option (Message Part) → TaskStatusUpdateEvent Part;
  NewArtifactEvent : string → ExecutorContext Part → list (option Part) → TaskArtifactUpdateEvent Part;
  (** the wire form of a task and of a stream event under [encoding/json] *)
  marshal_task : Task Part → option string;
  unmarshal_task : string → option (Task Part);
  marshal_event : Event Part → option string;
  (** the version number that stands for no version ([taskstore.TaskVersionMissing]) *)
  TaskVersionMissing : Z;
  (** [Error()] of the SDK's error values, and their [ErrorReason] *)
  sentinel_text : sentinel → string;
  ErrorReason : sentinel → string;
  (** the protocol version and the name of its header *)
  Version : string;
  SvcParamVersion : string;
}.

Section sdk.
Context `{A2A}.

Definition sentinel_err (x : sentinel) : goerror := GoError (sentinel_text x) [x].

Lemma errors_is_sentinel x y : errors_is (sentinel_err x) y = bool_decide (y = x).
Proof. unfold errors_is; cbn. apply bool_decide_ext. rewrite elem_of_cons. set_solver. Qed.
End sdk.

(** * Documented behaviour *)

Class A2ALaws `(A2A) : Prop := {
  part_Text_new s : part_Text (NewTextPart s) = s;
  Terminal_Unspecified : Terminal TaskStateUnspecified = false;
  Terminal_Working : Terminal TaskStateWorking = false;
  Terminal_Completed : Terminal TaskStateCompleted = true;
  Terminal_Rejected : Terminal TaskStateRejected = true;
  Terminal_Canceled : Terminal TaskStateCanceled = true;
  NewMessage_Parts u role ps : m_Parts (NewMessage u role ps) = ps;
  NewMessageForTask_Parts u role ec ps : m_Parts (NewMessageForTask u role ec ps) = ps;
  NewSubmittedTask_ID now ec m : t_ID (NewSubmittedTask now ec m) = ec_TaskID ec;
  NewSubmittedTask_State now ec m : Terminal (s_State (t_Status (NewSubmittedTask now ec m))) = false;
  NewSubmittedTask_Artifacts now ec m : t_Artifacts (NewSubmittedTask now ec m) = [];
  NewStatusUpdateEvent_Status now ec st m :
    su_TaskID (NewStatusUpdateEvent now ec st m) = ec_TaskID ec ∧
    su_Status (NewStatusUpdateEvent now ec st m) = {| s_State := st; s_Message := m; s_Timestamp := Some now |};
  NewArtifactEvent_Parts u ec ps :
    au_TaskID (NewArtifactEvent u ec ps) = ec_TaskID ec ∧
    a_Parts (au_Artifact (NewArtifactEvent u ec ps)) = ps;
  TaskVersionMissing_zero : TaskVersionMissing = 0;
  (** the wire form keeps a task's identity and its state *)
  wire_task t b cp : marshal_task t = Some b → unmarshal_task b = Some cp →
    t_ID cp = t_ID t ∧ t_ContextID cp = t_ContextID t ∧ s_State (t_Status cp) = s_State (t_Status t);
}.

(** * One instance *)

(** The values of the enumerations and the version are those of A2A 1.0; a text
    part is its text; the wire form kept here is the one string field the
    instance needs, the task's identity and state. *)
Definition ref_task (i c s : string) : Task string :=
  {| t_ID := i; t_ContextID := c; t_Status := {| s_State := s; s_Message := None; s_Timestamp := None |};
     t_Artifacts := []; t_History := []; t_Metadata := [] |}.

Definition ref_unmarshal_task (b : string) : option (Task string) :=
  match unmarshal b with
  | Some (JArr [JStr i; JStr c; JStr s]) => Some (ref_task i c s)
  | _ => None
  end.

(** a task has a wire form when the instance's codec restores it *)
Definition ref_marshal_task (t : Task string) : option string :=
  let b := marshal (JArr [JStr (t_ID t); JStr (t_ContextID t); JStr (s_State (t_Status t))]) in
  match ref_unmarshal_task b with
  | Some cp => if String.eqb (t_ID cp) (t_ID t) && String.eqb (t_ContextID cp) (t_ContextID t)
                  && String.eqb (s_State (t_Status cp)) (s_State (t_Status t)) then Some b else None
  | None => None
  end.

Definition ref_status (now : gotime) (st : string) (m : option (Message string)) : TaskStatus string :=
  {| s_State := st; s_Message := m; s_Timestamp := Some now |}.
Definition ref_message (u role i c : string) (ps : list (option string)) : Message string :=
  {| m_ID := u; m_ContextID := c; m_TaskID := i; m_Role := role; m_Parts := ps; m_Metadata := [] |}.

#[export] Instance reference_sdk : A2A := {|
  Part := string;
  part_Text s := s;
  NewTextPart s := s;
  TaskStateUnspecified := "";
  TaskStateWorking := "TASK_STATE_WORKING";
  TaskStateCompleted := "TASK_STATE_COMPLETED";
  TaskStateRejected := "TASK_STATE_REJECTED";
  TaskStateCanceled := "TASK_STATE_CANCELED";
  Terminal s := existsb (String.eqb s)
    ["TASK_STATE_COMPLETED"; "TASK_STATE_FAILED"; "TASK_STATE_CANCELED"; "TASK_STATE_REJECTED"];
  MessageRoleUser := "ROLE_USER";
  MessageRoleAgent := "ROLE_AGENT";
  NewMessage u role ps := ref_message u role "" "" ps;
  NewMessageForTask u role ec ps := ref_message u role (ec_TaskID ec) (ec_ContextID ec) ps;
  NewSubmittedTask now ec m := {| t_ID := ec_TaskID ec; t_ContextID := ec_ContextID ec;
    t_Status := ref_status now "TASK_STATE_SUBMITTED" None; t_Artifacts := []; t_History := [Some m]; t_Metadata := [] |};
  NewStatusUpdateEvent now ec st m := {| su_TaskID := ec_TaskID ec; su_ContextID := ec_ContextID ec;
    su_Status := ref_status now st m |};
  NewArtifactEvent u ec ps := {| au_TaskID := ec_TaskID ec; au_ContextID := ec_ContextID ec;
    au_Artifact := {| a_ID := u; a_Name := ""; a_Parts := ps |}; au_LastChunk := false |};
  marshal_task := ref_marshal_task;
  unmarshal_task := ref_unmarshal_task;
  marshal_event ev := Some match ev with EvTask _ => "task" | EvMessage _ => "message" | EvStatus _ => "statusUpdate" | EvArtifact _ => "artifactUpdate" end;
  TaskVersionMissing := 0;
  sentinel_text x := match x with
    | ErrInvalidParams => "invalid params" | ErrInvalidRequest => "invalid request"
    | ErrTaskNotFound => "task not found" | ErrUnsupportedOperation => "this operation is not supported"
    | ErrVersionNotSupported => "this version is not supported" | _ => "internal error" end;
  ErrorReason x := match x with
    | ErrTaskNotFound => "TASK_NOT_FOUND" | ErrUnsupportedOperation => "UNSUPPORTED_OPERATION"
    | ErrVersionNotSupported => "VERSION_NOT_SUPPORTED" | ErrInvalidRequest => "INVALID_REQUEST"
    | _ => "INTERNAL_ERROR" end;
  Version := "1.0";
  SvcParamVersion := "A2A-Version";
|}.

#[export] Instance reference_laws : A2ALaws reference_sdk.
Proof.
  split; try done. intros t b cp. cbn. unfold ref_marshal_task.
  destruct (ref_unmarshal_task _) as [t'|] eqn:E; [|done].
  destruct (_ && _) eqn:Hb; [|done]. intros [= <-]. rewrite E. intros [= <-].
  apply andb_true_iff in Hb as [[H1 H2]%andb_true_iff H3].
  by rewrite <-!String.eqb_eq.
Qed.
