(* ===== verification/GoExec.v ===== *)
(** Commands a component runs through package [os/exec], paths of package
    [path/filepath] on Unix, and text with quotation marks written as backquotes. *)
From Stdlib Require Import Ascii.
From stdpp Require Import base list strings.
From S2P Require Import Prelude GoStrings Json A2A.

Open Scope string_scope.
Open Scope Z_scope.
Open Scope list_scope.

(** * Commands *)

(** [c_env = None]: the environment of the process *)
Record command := Command { c_name : string; c_args : list string; c_stdin : string; c_env : option (list string) }.
Record outcome := Outcome { o_stdout : string; o_stderr : string; o_err : option goerror }.

(** What a component does to the world outside, in order. *)
Inductive action := Exec (c : command) | Sleep (d : Z).
Definition IO : Type → Type := ST (list action).

Section run.
(** The system's answer to a command may depend on all that was done before. *)
Variable answer : list action → command → outcome.

(** [cmd.Run] with the output captured *)
Definition run (c : command) : IO outcome := λ h, (answer h c, h ++ [Exec c]).
End run.
Definition sleep (d : Z) : IO unit := λ h, (tt, h ++ [Sleep d]).

(** * Quotation marks *)

(** A text of the program in which every quotation mark is written as a
    backquote. *)
Definition bq (s : string) : string := replace_char "`" (String dq "") s.

Lemma replace_char_app c new s t : replace_char c new (s +:+ t) = replace_char c new s +:+ replace_char c new t.
Proof.
  induction s as [|a s IH]; [done|]. cbn. destruct (Ascii.eqb a c); [by rewrite IH, sapp_assoc|]. cbn. by rewrite IH.
Qed.

(** * Paths *)

Definition slash : char := "/".
Definition is_abs (p : string) : bool := has_prefix "/" p.

(** one component added to the reversed components of a cleaned path *)
Definition clean_step (rooted : bool) (acc : list string) (c : string) : list string :=
  if String.eqb c "" || String.eqb c "." then acc
  else if String.eqb c ".." then
    match acc with
    | [] => if rooted then [] else [".."]
    | x :: acc' => if String.eqb x ".." then ".." :: acc else acc'
    end
  else c :: acc.

(** [filepath.Clean] *)
Definition Clean (p : string) : string :=
  let rooted := is_abs p in
  let out := (if rooted then "/" else "") +:+ join "/" (reverse (fold_left (clean_step rooted) (split_char slash p) [])) in
  if String.eqb out "" then "." else out.

(** [filepath.Join] *)
Definition Join (l : list string) : string :=
  match List.filter (λ x, negb (String.eqb x "")) l with
  | [] => ""
  | l => Clean (join "/" l)
  end.

Definition last_elem (c : char) (s : string) : string := default "" (last (split_char c s)).

(** [filepath.Base], [filepath.Ext] *)
Definition Base (p : string) : string :=
  if String.eqb p "" then "." else
  match List.filter (λ x, negb (String.eqb x "")) (split_char slash p) with
  | [] => "/"
  | l => default "" (last l)
  end.
Definition Ext (p : string) : string :=
  let b := last_elem slash p in
  if contains_char "." b then "." +:+ last_elem "." b else "".

Example join_example : Join ["/home/u/"; ".a2abridge"; "hooks"] = "/home/u/.a2abridge/hooks".
Proof. vm_compute. reflexivity. Qed.
Example clean_example : Clean "a//b/../c/./.." = "a" /\ Clean "/../x" = "/x" /\ Clean "" = ".".
Proof. vm_compute. done. Qed.
Example ext_example : Ext "/a.d/hook.sh" = ".sh" /\ Ext "/a.d/hook" = "" /\ Base "/a/b/" = "b".
Proof. vm_compute. done. Qed.

(** the value of the first entry of a name *)
Definition first_entry (name : string) (env : list string) : string :=
  match List.filter (has_prefix (name +:+ "=")) env with
  | e :: _ => sdrop (slen name + 1) e
  | [] => ""
  end.
(** [os.Getenv] of a process started with these entries: the first one counts. *)
Definition getenv (name : string) (env : list string) : string := first_entry name env.
(** What a command run with [cmd.Env] finds: package [exec] leaves it the last entry
    of a name. *)
Definition child_getenv (name : string) (env : list string) : string := first_entry name (reverse env).

Example getenv_duplicates :
  getenv "A" ["A=1"; "B=2"; "A=3"] = "1" ∧ child_getenv "A" ["A=1"; "B=2"; "A=3"] = "3".
Proof. by vm_compute. Qed.
