(* ===== verification/GoPath.v ===== *)
(** Facts about paths joined from a directory and a plain name. *)
From Stdlib Require Import Ascii.
From stdpp Require Import base list strings.
From S2P Require Import Prelude GoStrings GoExec.

Open Scope string_scope.
Open Scope list_scope.

(** a component [Clean] keeps *)
Definition plain (a : string) : bool :=
  negb (String.eqb a "" || String.eqb a "." || String.eqb a ".." || contains_char slash a).

Lemma split_char_app c s t : split_char c (s +:+ String c t) = split_char c s ++ split_char c t.
Proof.
  induction s as [|a s IH]; cbn [String.append split_char]; [by rewrite Ascii.eqb_refl|]. rewrite IH.
  destruct (Ascii.eqb a c); [done|]. pose proof (split_char_nonempty c s). by destruct (split_char c s).
Qed.

Lemma last_elem_app s a : contains_char slash a = false → last_elem slash (s +:+ String slash a) = a.
Proof. intros Ha. unfold last_elem. rewrite split_char_app, (split_char_single slash a Ha). by rewrite last_snoc. Qed.
Lemma last_elem_single a : contains_char slash a = false → last_elem slash a = a.
Proof. intros Ha. unfold last_elem. by rewrite (split_char_single slash a Ha). Qed.

Lemma join_snoc l a : l ≠ [] → join "/" (l ++ [a]) = join "/" l +:+ String slash a.
Proof.
  induction l as [|x l IH]; [done|]. intros _. destruct l as [|y l]; [done|].
  change ((x :: y :: l) ++ [a]) with (x :: ((y :: l) ++ [a])).
  rewrite (join_cons "/" x ((y :: l) ++ [a])), (join_cons "/" x (y :: l)), IH by done. by rewrite !sapp_assoc.
Qed.

Lemma Clean_plain d a : plain a = true → last_elem slash (Clean (d +:+ String slash a)) = a ∧ Clean (d +:+ String slash a) ≠ "".
Proof.
  intros Hp. assert (Hc : contains_char slash a = false) by (unfold plain in Hp; by destruct (contains_char slash a); rewrite ?orb_true_r in Hp).
  unfold Clean. set (rooted := is_abs _). set (acc0 := fold_left _ _ _).
  assert (Hacc : ∃ acc, acc0 = a :: acc).
  { unfold acc0. rewrite split_char_app, fold_left_app, (split_char_single slash a Hc). cbn [fold_left]. eexists. unfold clean_step.
    unfold plain in Hp. apply negb_true_iff in Hp. rewrite !orb_false_iff in Hp. destruct Hp as [[[-> ->] ->] _]. done. }
  destruct Hacc as [acc ->]. rewrite reverse_cons.
  assert (Hne : a ≠ "") by (intros ->; done).
  set (out := (if rooted then "/" else "") +:+ join "/" (reverse acc ++ [a])).
  assert (Hout : last_elem slash out = a ∧ out ≠ "").
  { unfold out. destruct (reverse acc) as [|x l] eqn:El; cbn [app].
    - destruct rooted; [change ("/" +:+ join "/" [a]) with ("" +:+ String slash a); split; [by apply last_elem_app|done]|].
      cbn. split; [by apply last_elem_single|done].
    - change (x :: l ++ [a]) with ((x :: l) ++ [a]). rewrite join_snoc by done. rewrite sapp_assoc. split; [by apply last_elem_app|].
      intros Hx. apply (f_equal slen) in Hx. rewrite slen_app in Hx. unfold slen in Hx. cbn in Hx. lia. }
  destruct Hout as [H1 H2]. by rewrite (proj2 (String.eqb_neq _ _) H2).
Qed.

(** The last component of a joined path is the name that was joined. *)
Lemma Join_last d a : plain a = true → last_elem slash (Join [d; a]) = a.
Proof.
  intros Hp. assert (Hne : String.eqb a "" = false) by (unfold plain in Hp; destruct (String.eqb a ""); done).
  unfold Join. cbn [List.filter]. rewrite Hne. cbn [negb]. destruct (String.eqb d ""); cbn [negb].
  - pose proof (Clean_plain "" a Hp) as [H1 _]. cbn [join].
    unfold plain in Hp. apply negb_true_iff in Hp. rewrite !orb_false_iff in Hp. destruct Hp as [[[_ Hd] Hdd] Hc].
    unfold Clean. rewrite (split_char_single slash a Hc). cbn [fold_left]. unfold clean_step. rewrite Hne, Hd, Hdd. cbn [orb].
    assert (Ha : is_abs a = false).
    { unfold is_abs. apply not_true_iff_false. intros [t ->]%has_prefix_spec. by rewrite contains_char_app in Hc. }
    rewrite Ha. cbn. rewrite Hne. by apply last_elem_single.
  - change (join "/" [d; a]) with (d +:+ String slash a). by apply Clean_plain.
Qed.

Lemma Join_ne d a b : plain a = true → plain b = true → a ≠ b → Join [d; a] ≠ Join [d; b].
Proof. intros Ha Hb Hab He. apply Hab. by rewrite <-(Join_last d a Ha), He, Join_last. Qed.
