(* ===== verification/GoMux.v ===== *)
(** [net/http]'s [ServeMux] as the program uses it: patterns with an optional
    method, literal segments, a trailing slash for a subtree and [{$}] for the
    end of the path; no hosts and no named wildcards. *)
From Stdlib Require Import Ascii.
From stdpp Require Import base list strings.
From S2P Require Import Prelude GoStrings GoSort GoUrl GoExec.

Open Scope string_scope.
Open Scope list_scope.

(** * Patterns *)

(** [{$}] is the literal segment [/], as in [net/http]. *)
Inductive segment : Set := Lit (s : string) | Multi.

Record pattern := MkPattern { pt_method : string; pt_segments : list segment }.

Fixpoint parse_segments (l : list string) : list segment :=
  match l with
  | [] => []
  | [s] => [if String.eqb s "" then Multi else if String.eqb s "{$}" then Lit "/" else Lit s]
  | s :: l => Lit s :: parse_segments l
  end.

Definition parse_path (p : string) : list segment :=
  match split_char slash p with _ :: l => parse_segments l | [] => [] end.

Definition parse_pattern (s : string) : pattern :=
  match cut_char " " s with
  | Some (m, p) => MkPattern m (parse_path p)
  | None => MkPattern "" (parse_path s)
  end.

(** * Paths *)

Definition path_unescape (s : string) : string := if escapes_ok s then unescape s else s.

(** the first segment of an escaped path, unescaped, and what follows it *)
Definition firstSegment (path : string) : string * string :=
  match path with
  | "" => ("", "")
  | String _ t =>
      if String.eqb path "/" then ("/", "") else
      match cut_char slash t with
      | Some (a, b) => (path_unescape a, String slash b)
      | None => (path_unescape t, "")
      end
  end.

Fixpoint match_segments (l : list segment) (path : string) : bool :=
  match l with
  | [] => String.eqb path ""
  | Multi :: _ => negb (String.eqb path "")
  | Lit s :: l =>
      negb (String.eqb path "") &&
      let '(seg, rest) := firstSegment path in String.eqb seg s && match_segments l rest
  end.

Definition ends_with_slash (p : string) : bool := has_suffix "/" p.

Definition cleanPath (p : string) : string :=
  if String.eqb p "" then "/" else
  let p := if has_prefix "/" p then p else "/" +:+ p in
  let np := Clean p in
  if ends_with_slash p && negb (String.eqb np "/") then np +:+ "/" else np.

Fixpoint count_char (c : char) (s : string) : nat :=
  match s with "" => O | String a t => (if Ascii.eqb a c then 1 else 0) + count_char c t end.

(** * Requests and answers *)

(** What routing reads of a request: its method, its request URI, its path as
    sent and decoded, its query as sent. *)
Record route := MkRoute { ro_method : string; ro_uri : string; ro_escaped : string; ro_path : string; ro_raw_query : string }.

Inductive routed (H : Type) :=
| Matched (h : H)
| MovedTo (path raw_query : string)
| MethodNotAllowed (allow : list string)
| NoSuchPage
| BadURI.
Arguments Matched {H} _.
Arguments MovedTo {H} _ _.
Arguments MethodNotAllowed {H} _.
Arguments NoSuchPage {H}.
Arguments BadURI {H}.

Section mux.
Context {H : Type}.

(** what [Handle] has registered *)
Definition mux := list (string * H).

Definition node : Type := pattern * H.
Definition nodes (m : mux) : list node := map (λ x, (parse_pattern x.1, x.2)) m.

(** the first pattern with this method that matches; no two of one method may
    match the same path unless one is more specific ([net/http] panics at
    registration otherwise), and the program's do not overlap at all *)
Definition find_method (method path : string) (l : list node) : option node :=
  head (filterb (λ n, String.eqb (pt_method n.1) method && match_segments (pt_segments n.1) path) l).

(** a pattern for the method, else for GET when it is HEAD, else for any *)
Definition tree_match (method path : string) (m : mux) : option node :=
  match find_method method path (nodes m) with
  | Some n => Some n
  | None =>
      match (if String.eqb method "HEAD" then find_method "GET" path (nodes m) else None) with
      | Some n => Some n
      | None => find_method "" path (nodes m)
      end
  end.

Definition exact_match (n : option node) (path : string) : bool :=
  match n with
  | None => false
  | Some (p, _) =>
      match last (pt_segments p) with
      | Some Multi => ends_with_slash path && Nat.eqb (length (pt_segments p)) (count_char slash path)
      | _ => true
      end
  end.

(** [matchOrRedirect]: the node, or the path with a slash at its end *)
Definition match_or_redirect (method path url_path : string) (m : mux) : string + option node :=
  let n := tree_match method path m in
  if negb (exact_match n path) && negb (ends_with_slash path) && exact_match (tree_match method (path +:+ "/") m) (path +:+ "/")
  then inl (cleanPath url_path +:+ "/") else inr n.

Definition methods_of (path : string) (m : mux) : list string :=
  omap (λ n, if negb (String.eqb (pt_method n.1) "") && match_segments (pt_segments n.1) path
             then Some (pt_method n.1) else None) (nodes m).

(** the methods another request for the path could use, sorted *)
Definition matchingMethods (path : string) (m : mux) : list string :=
  let l := methods_of path m ++ if ends_with_slash path then [] else methods_of (path +:+ "/") m in
  let l := if existsb (String.eqb "GET") l then "HEAD" :: l else l in
  isort String.compare (remove_dups l).

Definition no_match (path : string) (m : mux) : routed H :=
  match matchingMethods path m with [] => NoSuchPage | l => MethodNotAllowed l end.

Definition mux_route (m : mux) (r : route) : routed H :=
  if String.eqb (ro_uri r) "*" then BadURI else
  let connect := String.eqb (ro_method r) "CONNECT" in
  let path := if connect then ro_escaped r else cleanPath (ro_escaped r) in
  match match_or_redirect (ro_method r) path (ro_path r) m with
  | inl p => MovedTo p (ro_raw_query r)
  | inr n =>
      if negb connect && negb (String.eqb path (ro_escaped r)) then MovedTo path (ro_raw_query r) else
      match n with
      | Some (_, h) => Matched h
      | None => no_match path m
      end
  end.
End mux.
Arguments mux : clear implicits.

(** * Facts *)

Lemma filterb_and {A} (p q : A → bool) l : filterb (λ x, p x && q x) l = filterb p (filterb q l).
Proof.
  induction l as [|x l IH]; [done|]. cbn [filterb]. destruct (q x); cbn [filterb]; rewrite IH.
  - by rewrite andb_true_r.
  - by rewrite andb_false_r.
Qed.

Lemma unescape_plain s : contains_char "%" s = false → path_unescape s = s.
Proof.
  intros Hs. unfold path_unescape. destruct (escapes_ok s); [|done].
  induction s as [|a s IH]; [done|]. rewrite contains_char_cons in Hs. apply orb_false_iff in Hs as [Ha Hs].
  cbn [unescape]. destruct a as [[] [] [] [] [] [] [] []]; cbn in Ha; try done; f_equal; by apply IH.
Qed.

Lemma cleanPath_rooted p : has_prefix "/" (cleanPath p) = true.
Proof.
  unfold cleanPath. destruct (String.eqb p "") eqn:E; [done|]. cbv zeta.
  set (q := if has_prefix "/" p then p else "/" +:+ p).
  assert (Hq : has_prefix "/" q = true) by (subst q; destruct (has_prefix "/" p) eqn:Ep; done).
  assert (Hc : has_prefix "/" (Clean q) = true).
  { unfold Clean, is_abs. rewrite Hq. cbv zeta. by destruct (join _ _). }
  clearbody q. destruct (_ && _); [|done]. destruct (Clean q) as [|a t]; [done|]. exact Hc.
Qed.

Lemma cut_char_None c s : cut_char c s = None → contains_char c s = false.
Proof.
  induction s as [|a s IH]; [done|]. rewrite contains_char_cons. cbn [cut_char]. destruct (Ascii.eqb a c); [done|].
  destruct (cut_char c s) as [[]|]; [done|]. apply IH.
Qed.

(** one literal segment against a path without escapes *)
Lemma match_literal s l t : s ≠ "" → contains_char slash s = false → contains_char "%" t = false →
  match_segments (Lit s :: l) (String slash t) =
  match cut_prefix s t with
  | Some u => (String.eqb u "" || has_prefix "/" u) && match_segments l u
  | None => false
  end.
Proof.
  intros Hne Hs Hp. change (match_segments (Lit s :: l) (String slash t)) with
    (let '(seg, rest) := firstSegment (String slash t) in String.eqb seg s && match_segments l rest).
  unfold firstSegment. destruct (String.eqb_spec (String slash t) "/") as [[= ->]|Hn].
  { assert (Hc : cut_prefix s "" = None) by by destruct s. rewrite Hc. destruct (String.eqb_spec "/" s) as [<-|]; done. }
  destruct (cut_char slash t) as [[a b]|] eqn:Ec.
  - pose proof (cut_char_spec _ _ _ _ Ec) as [-> Ha].
    rewrite contains_char_app in Hp. apply orb_false_iff in Hp as [Hpa _]. rewrite unescape_plain by done.
    destruct (String.eqb_spec a s) as [->|Has].
    + rewrite (proj2 (cut_prefix_spec s _ (String slash b))) by done. done.
    + destruct (cut_prefix s (a +:+ String slash b)) as [u|] eqn:Ecp; [|done].
      apply cut_prefix_spec in Ecp. destruct (String.eqb_spec u "") as [->|Hu].
      * exfalso. rewrite sapp_nil_r in Ecp. rewrite <-Ecp, contains_char_app in Hs. cbn in Hs. by rewrite orb_true_r in Hs.
      * destruct (has_prefix "/" u) eqn:Eu; [|done]. exfalso. apply Has.
        apply has_prefix_spec in Eu as [u' ->]. change ("/" +:+ u') with (String slash u') in Ecp.
        pose proof (cut_char_app slash a b Ha) as H1. pose proof (cut_char_app slash s u' Hs) as H2. rewrite Ecp in H1. congruence.
  - rewrite unescape_plain by done. destruct (String.eqb_spec t s) as [->|Hts].
    + rewrite (proj2 (cut_prefix_spec s _ "")) by (by rewrite sapp_nil_r). done.
    + destruct (cut_prefix s t) as [u|] eqn:Ecp; [|done]. apply cut_prefix_spec in Ecp as ->.
      destruct (String.eqb_spec u "") as [->|Hu]; [by rewrite sapp_nil_r in Hts|].
      destruct (has_prefix "/" u) eqn:Eu; [|done]. apply has_prefix_spec in Eu as [u' ->].
      change ("/" +:+ u') with (String slash u') in Ec. by rewrite (cut_char_app slash s u' Hs) in Ec.
Qed.

Lemma match_root path : has_prefix "/" path = true → contains_char "%" path = false →
  match_segments [Lit "/"] path = String.eqb path "/".
Proof.
  intros Hr Hp. apply has_prefix_spec in Hr as [t ->]. change ("/" +:+ t) with (String slash t) in *.
  rewrite contains_char_cons in Hp. apply orb_false_iff in Hp as [_ Hp].
  change (match_segments [Lit "/"] (String slash t)) with
    (let '(seg, rest) := firstSegment (String slash t) in String.eqb seg "/" && String.eqb rest "").
  unfold firstSegment. destruct (String.eqb_spec (String slash t) "/"); [done|].
  destruct (cut_char slash t) as [[a b]|] eqn:Ec.
  - by rewrite andb_false_r.
  - assert (Ht : contains_char slash t = false) by by apply cut_char_None.
    rewrite unescape_plain by done. destruct (String.eqb_spec t "/") as [->|]; done.
Qed.

(** a pattern of one literal segment, and the subtree under one *)
Lemma match_one s path : s ≠ "" → contains_char slash s = false → has_prefix "/" path = true → contains_char "%" path = false →
  match_segments [Lit s] path = String.eqb path ("/" +:+ s).
Proof.
  intros Hne Hs Hr Hp. apply has_prefix_spec in Hr as [t ->]. change ("/" +:+ t) with (String slash t) in *.
  rewrite contains_char_cons in Hp. apply orb_false_iff in Hp as [_ Hp]. rewrite match_literal by done.
  change (String.eqb (String slash t) ("/" +:+ s)) with (String.eqb t s).
  destruct (String.eqb_spec t s) as [->|Hts].
  - rewrite (proj2 (cut_prefix_spec s _ "")) by (by rewrite sapp_nil_r). done.
  - destruct (cut_prefix s t) as [u|] eqn:E; [|done]. apply cut_prefix_spec in E as ->.
    cbn [match_segments]. destruct (String.eqb_spec u "") as [->|]; [by rewrite sapp_nil_r in Hts|]. by rewrite andb_false_r.
Qed.

Lemma match_subtree s path : s ≠ "" → contains_char slash s = false → has_prefix "/" path = true → contains_char "%" path = false →
  match_segments [Lit s; Multi] path = has_prefix ("/" +:+ s +:+ "/") path.
Proof.
  intros Hne Hs Hr Hp. apply has_prefix_spec in Hr as [t ->]. change ("/" +:+ t) with (String slash t) in *.
  rewrite contains_char_cons in Hp. apply orb_false_iff in Hp as [_ Hp]. rewrite match_literal by done.
  change (has_prefix ("/" +:+ s +:+ "/") (String slash t)) with (has_prefix (s +:+ "/") t).
  destruct (has_prefix (s +:+ "/") t) eqn:E.
  - apply has_prefix_spec in E as [u ->]. rewrite <-sapp_assoc.
    by rewrite (proj2 (cut_prefix_spec s _ ("/" +:+ u))).
  - destruct (cut_prefix s t) as [u|] eqn:Ec; [|done]. apply cut_prefix_spec in Ec as ->.
    cbn [match_segments]. destruct (String.eqb_spec u "") as [->|Hu]; [done|]. cbn [orb negb].
    destruct (has_prefix "/" u) eqn:Eu; [|done]. apply has_prefix_spec in Eu as [u' ->].
    by rewrite sapp_assoc, has_prefix_app in E.
Qed.

(** two literal segments *)
Lemma match_two s s' path : s ≠ "" → s' ≠ "" → contains_char slash s = false → contains_char slash s' = false →
  has_prefix "/" path = true → contains_char "%" path = false →
  match_segments [Lit s; Lit s'] path = String.eqb path ("/" +:+ s +:+ "/" +:+ s').
Proof.
  intros Hne Hne' Hs Hs' Hr Hp. apply has_prefix_spec in Hr as [t ->]. change ("/" +:+ t) with (String slash t) in *.
  rewrite contains_char_cons in Hp. apply orb_false_iff in Hp as [_ Hp]. rewrite match_literal by done.
  change (String.eqb (String slash t) ("/" +:+ s +:+ "/" +:+ s')) with (String.eqb t (s +:+ "/" +:+ s')).
  destruct (cut_prefix s t) as [u|] eqn:Ec.
  - apply cut_prefix_spec in Ec as ->. rewrite contains_char_app in Hp. apply orb_false_iff in Hp as [_ Hp].
    destruct (has_prefix "/" u) eqn:Eu.
    + rewrite match_one by done. rewrite orb_true_r. cbn [andb].
      destruct (String.eqb_spec u ("/" +:+ s')) as [->|Hn]; [by rewrite String.eqb_refl|].
      destruct (String.eqb_spec (s +:+ u) (s +:+ "/" +:+ s')) as [He|]; [|done]. by apply sapp_inj_l in He.
    + destruct (String.eqb_spec (s +:+ u) (s +:+ "/" +:+ s')) as [He|_].
      * apply sapp_inj_l in He as ->. done.
      * destruct (String.eqb_spec u "") as [->|]; done.
  - destruct (String.eqb_spec t (s +:+ "/" +:+ s')) as [->|]; [|done].
    by rewrite (proj2 (cut_prefix_spec s _ ("/" +:+ s'))) in Ec.
Qed.
