(* ===== verification/Iter.v ===== *)
(** Go's push iterators ([iter.Seq2] of an event and an error). An iterator is a
    function of its consumer, which it calls back with every value: the consumer
    says whether it wants more, and both share a state. [obeys] is the protocol
    the language demands of an iterator, that it stops once the consumer
    declined, with the values it produces. *)
From stdpp Require Import base list.
From S2P Require Import Prelude.

Open Scope Z_scope.
Open Scope list_scope.

(** What an iterator can do: call [yield], look whether its context is over, and
    wait until a duration has passed or its context is over. *)
Record consumer (Y S : Type) := Consumer {
  yield : Y → S → bool * S;
  ctx_over : S → bool;
  wait : Z → S → S }.
Arguments Consumer {Y S} _ _ _.
Arguments yield {Y S} _ _ _.
Arguments ctx_over {Y S} _ _.
Arguments wait {Y S} _ _ _.

Definition Seq (Y : Type) : Type := ∀ S : Type, consumer Y S → S → S.

Section iter.
Context {Y : Type} (is_err : Y → bool).

(** One call of [yield] and whether the iteration may go on after it: the
    consumer wants more and it was not told of an error. *)
Definition call : Type := Y * bool.
Definition may_go_on (y : Y) (wanted : bool) : bool := wanted && negb (is_err y).
Definition stopped (h : list call) : bool := existsb (λ x, negb x.2) h.

(** [R h s]: the calls [h] were made and left the consumer in state [s]. *)
Record tracks {S} (c : consumer Y S) (R : list call → S → Prop) : Prop := {
  tracks_yield h y s : R h s → R (h ++ [(y, may_go_on y (yield c y s).1)]) (yield c y s).2;
  tracks_wait h d s : R h s → R h (wait c d s) }.

(** only the last call may have stopped the iteration *)
Fixpoint live (h : list call) : bool :=
  match h with
  | [] => true
  | [_] => true
  | x :: h => x.2 && live h
  end.

(** [q] produces the values [l] in order, makes no call after one that stopped
    it, and leaves values out only when stopped or when its context is over in
    the end. *)
Definition obeys (q : Seq Y) (l : list Y) : Prop :=
  ∀ S (c : consumer Y S) R s, tracks c R → R [] s → ∃ k,
    R k (q S c s) ∧ map fst k `prefix_of` l ∧ live k = true ∧
    (stopped k = true ∨ map fst k = l ∨ ctx_over c (q S c s) = true).

Lemma stopped_app h k : stopped (h ++ k) = stopped h || stopped k.
Proof. unfold stopped. apply existsb_app. Qed.

Lemma live_stopped h : stopped h = false → live h = true.
Proof.
  induction h as [|x [|y h] IH]; try done. intros [Hx Hh]%orb_false_iff.
  change (x.2 && live (y :: h) = true). rewrite (IH Hh). by destruct x.2.
Qed.

Lemma live_app h k : stopped h = false → live k = true → live (h ++ k) = true.
Proof.
  induction h as [|x h IH]; intros Hs Hk; [done|]. cbn in Hs. apply orb_false_iff in Hs as [Hx Hh].
  specialize (IH Hh Hk). cbn [app]. destruct (h ++ k) eqn:E; [done|].
  change (x.2 && live (c :: l) = true). rewrite IH. by destruct x.2.
Qed.

(** what was called before goes before *)
Lemma tracks_after {S} (c : consumer Y S) R h0 : tracks c R → tracks c (λ h s, R (h0 ++ h) s).
Proof.
  intros [Hy Hw]. split.
  - intros h y s. rewrite app_assoc. apply Hy.
  - intros h d s. apply Hw.
Qed.

(** ** Ways to build iterators *)

Lemma obeys_nothing : obeys (λ S c s, s) [].
Proof. intros S c R s _ H0. exists []. split_and!; try done. by right; left. Qed.

Lemma obeys_one y : obeys (λ S c s, (yield c y s).2) [y].
Proof.
  intros S c R s [Hy _] H0. exists [(y, may_go_on y (yield c y s).1)].
  split_and!; [by apply (Hy [])|done|done|by right; left].
Qed.

(** waiting for [d] or the end of the context is silent *)
Lemma obeys_wait d : obeys (λ S c s, wait c d s) [].
Proof. intros S c R s [_ Hw] H0. exists []. split_and!; [by apply Hw|done|done|by right; left]. Qed.

(** [if !yield(y) { return }] and the rest; [y] is no error *)
Lemma obeys_then y q l : is_err y = false → obeys q l →
  obeys (λ S c s, let '(ok, s) := yield c y s in if (ok : bool) then q S c s else s) (y :: l).
Proof.
  intros He Hq S c R s Ht H0. pose proof (tracks_yield _ _ Ht [] y s H0) as H1. unfold may_go_on in H1. rewrite He in H1.
  destruct (yield c y s) as [ok s1]. cbn in H1. destruct ok.
  - destruct (Hq S c (λ h s, R ([(y, true)] ++ h) s) s1 (tracks_after c R _ Ht)) as (k & Hk & Hp & Hl & Hc); [done|].
    exists ((y, true) :: k). split_and!; [done|by apply prefix_cons| |].
    + by apply (live_app [_]).
    + destruct Hc as [Hs|[<-|Hs]]; [by left|by right; left|by right; right].
  - exists [(y, false)]. split_and!; [done|by apply prefix_cons, prefix_nil|done|by left].
Qed.

(** the calls made with [f y] where [y] was produced *)
Definition relabel (f : Y → Y) (k : list call) : list call := map (λ x, (f x.1, x.2)) k.

Lemma relabel_fst f k : map fst (relabel f k) = map f (map fst k).
Proof. unfold relabel. by rewrite !map_map. Qed.
Lemma relabel_stopped f k : stopped (relabel f k) = stopped k.
Proof. unfold stopped, relabel. induction k as [|x k IH]; [done|]. cbn [map existsb]. by rewrite IH. Qed.
Lemma relabel_live f k : live k = true → live (relabel f k) = true.
Proof.
  induction k as [|x [|y k] IH]; try done. intros Hl. change (x.2 && live (y :: k) = true) in Hl.
  apply andb_true_iff in Hl as [Hx Hl]. change (x.2 && live (relabel f (y :: k)) = true). by rewrite Hx, IH.
Qed.

(** a loop over an iterator that hands on what [f] makes of each value *)
Lemma obeys_map (f : Y → Y) q l : (∀ y, is_err (f y) = is_err y) → obeys q l →
  obeys (λ S c s, q S (Consumer (λ y, yield c (f y)) (ctx_over c) (wait c)) s) (map f l).
Proof.
  intros Hf Hq S c R s [Hy Hw] H0.
  destruct (Hq S (Consumer (λ y, yield c (f y)) (ctx_over c) (wait c)) (λ h s, R (relabel f h) s) s)
    as (k & Hk & Hp & Hl & Hc); [|done|].
  { split; cbn; [|intros; by apply Hw]. intros h y s1 Hh. unfold relabel. rewrite map_app. cbn.
    unfold may_go_on. rewrite <-Hf. by apply Hy. }
  exists (relabel f k). rewrite relabel_fst, relabel_stopped. split_and!; [done| |by apply relabel_live|].
  - destruct Hp as [l2 ->]. rewrite map_app. by eexists.
  - destruct Hc as [Hs|[<-|Hs]]; [by left|by right; left|by right; right].
Qed.

(** [for _, y := range l { if !yield(y) { return } }] *)
Fixpoint of_list (l : list Y) : Seq Y :=
  match l with
  | [] => λ S c s, s
  | y :: l => λ S c s, let '(ok, s) := yield c y s in if (ok : bool) then of_list l S c s else s
  end.

(** a consumer that keeps what it is given and decides by the value *)
Definition keeping (p : Y → bool) : consumer Y (list Y) := Consumer (λ y s, (p y, s ++ [y])) (λ _, false) (λ _ s, s).

(** an iterator run for its own values only, by a consumer that always wants more *)
Definition collect (q : Seq Y) : list Y := q (list Y) (keeping (λ _, true)) [].
End iter.
