(* ===== verification/Nudger.v ===== *)
(** The nudger of [internal/agent/nudger.go]: it types a directive into the
    terminal of the live agent when a message arrives, at most once per
    [coalesceFor]. *)
From Stdlib Require Import Ascii Sorted.
From stdpp Require Import base list strings.
From S2P Require Import Prelude GoStrings GoTime Json A2A GoExec.

Open Scope string_scope.
Open Scope Z_scope.
Open Scope list_scope.

(** * Data *)

(* src/internal/agent/nudger.go (Nudger) *)
Record Nudger := MkNudger { n_Mode : string; n_TTY : string; n_Socket : string; lastNudgeAt : gotime; coalesceFor : Z }.

(* src/internal/agent/nudger.go (DetectNudgeMode) *)
Definition DetectNudgeMode (env : list string) (goos : string) : string :=
  if negb (String.eqb (getenv "TMUX" env) "") then "tmux"
  else if String.eqb goos "darwin" then "terminal"
  else "".

(* src/internal/agent/nudger.go (NewNudger) *)
Definition NewNudger (mode tty : string) : Nudger :=
  let tty := if has_prefix "/dev/" tty then tty else "/dev/" +:+ tty in
  MkNudger mode tty "" zero_time (3 * second).

(* src/internal/agent/nudger.go (NewDtachNudger) *)
Definition NewDtachNudger (socket : string) : Nudger := MkNudger "dtach" "" socket zero_time (3 * second).

(** * Backends *)

Definition cr : char := "013".
Definition lf : char := "010".

(* src/internal/agent/nudger.go:109-112 (nudgeTerminal) *)
Definition escape (text : string) : string :=
  let esc := replace_char bs (String bs (String bs "")) text in
  let esc := replace_char dq (String bs (String dq "")) esc in
  let esc := replace_char cr " " esc in
  replace_char lf " " esc.

(* src/internal/agent/nudger.go:114-117 (nudgeTerminal) *)
Definition script_head : string := bq "set targetWin to missing value
set targetTab to missing value
tell application `Terminal`
  repeat with w in every window
    repeat with t in every tab of w
      try
        if tty of t is `".

(* src/internal/agent/nudger.go:117-148 (nudgeTerminal) *)
Definition script_mid : string := bq "` then
          set targetWin to w
          set targetTab to t
          exit repeat
        end if
      end try
    end repeat
    if targetTab is not missing value then exit repeat
  end repeat
  if targetTab is missing value then return `no-tab`
end tell

-- remember the user's current frontmost app so we can restore
tell application `System Events`
  set prevFront to name of first process whose frontmost is true
end tell

-- bring exactly the target window+tab to front
tell application `Terminal`
  activate
  set frontmost of targetWin to true
  set index of targetWin to 1
  set selected tab of targetWin to targetTab
end tell
delay 0.15

-- type text + Return as real keystrokes
tell application `System Events`
  keystroke ".

(* src/internal/agent/nudger.go:148-160 (nudgeTerminal) *)
Definition script_tail : string := bq "
  delay 0.05
  key code 36
end tell

-- restore previous frontmost
delay 0.05
try
  tell application `System Events`
    set frontmost of (first process whose name is prevFront) to true
  end tell
end try
return `ok`".

Definition script (tty esc : string) : string :=
  script_head +:+ tty +:+ script_mid +:+ String dq (esc +:+ String dq script_tail).

Section backends.
(** [quote]: the [%q] of package [fmt] *)
Variable quote : string → string.
Variable answer : list action → command → outcome.

Definition failed (what : string) (e : goerror) (stderr : string) : goerror :=
  GoError (what +:+ ": " +:+ e_text e +:+ ": " +:+ stderr) (e_is e).

(* src/internal/agent/nudger.go (nudgeTerminal) *)
Definition nudgeTerminal (n : Nudger) (text : string) : IO (option goerror) :=
  o ← run answer (Command "osascript" ["-e"; script (n_TTY n) (escape text)] "" None);
  match o_err o with
  | Some e => mret (Some (failed "osascript" e (o_stderr o)))
  | None =>
      if negb (String.eqb (trim_space (o_stdout o)) "ok") then
        mret (Some (errors_new ("target tab not found for tty=" +:+ n_TTY n +:+
          " (output=" +:+ quote (o_stdout o) +:+ ")")))
      else mret None
  end.

(** the pane of the first line of [tmux list-panes] whose terminal is [tty] *)
(* src/internal/agent/nudger.go:180-190 (nudgeTmux) *)
Fixpoint tmux_target (tty : string) (lines : list string) : string :=
  match lines with
  | [] => ""
  | line :: lines =>
      match fields line with
      | p :: target :: _ => if String.eqb p tty then target else tmux_target tty lines
      | _ => tmux_target tty lines
      end
  end.

(* src/internal/agent/nudger.go (nudgeTmux) *)
Definition nudgeTmux (n : Nudger) (text : string) : IO (option goerror) :=
  o ← run answer (Command "tmux" ["list-panes"; "-a"; "-F"; "#{pane_tty} #{session_name}:#{window_index}.#{pane_index}"] "" None);
  match o_err o with
  | Some e => mret (Some (wrapf "tmux list-panes: " e))
  | None =>
      let target := tmux_target (n_TTY n) (split_char lf (o_stdout o)) in
      if String.eqb target "" then mret (Some (errors_new ("no tmux pane with tty=" +:+ n_TTY n))) else
      o ← run answer (Command "tmux" ["send-keys"; "-t"; target; text; "Enter"] "" None);
      mret (match o_err o with Some e => Some (failed "tmux send-keys" e (o_stderr o)) | None => None end)
  end.

(* src/internal/agent/nudger.go (dtachPush) *)
Definition dtachPush (socket s : string) : IO (option goerror) :=
  o ← run answer (Command "dtach" ["-p"; socket] s None);
  mret (match o_err o with Some e => Some (failed ("dtach -p " +:+ socket) e (o_stderr o)) | None => None end).

(* src/internal/agent/nudger.go (nudgeDtach) *)
Definition nudgeDtach (n : Nudger) (text : string) : IO (option goerror) :=
  if String.eqb (n_Socket n) "" then mret (Some (errors_new "dtach nudge: no socket configured")) else
  e ← dtachPush (n_Socket n) text;
  match e with
  | Some e => mret (Some e)
  | None => _ ← sleep (250 * millisecond); dtachPush (n_Socket n) (String cr "")
  end.

(* src/internal/agent/nudger.go (nudge) *)
Definition nudge (n : Nudger) (text : string) : IO (option goerror) :=
  if String.eqb (n_Mode n) "terminal" then nudgeTerminal n text
  else if String.eqb (n_Mode n) "tmux" then nudgeTmux n text
  else if String.eqb (n_Mode n) "dtach" then nudgeDtach n text
  else mret (Some (errors_new ("unknown nudge mode: " +:+ n_Mode n))).

Definition directive : string :=
  "проверь a2a_inbox и обработай входящие сообщения — ответь через a2a_complete_task тем кому адресовано".

(** [now] is read by [time.Since], [stamp] by [time.Now], both under the lock. *)
(* src/internal/agent/nudger.go:72-81 (Handle) *)
Definition admit_nudge (now stamp : gotime) (n : Nudger) : bool * Nudger :=
  if String.eqb (n_Mode n) "" then (false, n)
  else if tsub now (lastNudgeAt n) <? coalesceFor n then (false, n)
  else (true, MkNudger (n_Mode n) (n_TTY n) (n_Socket n) stamp (coalesceFor n)).

(* src/internal/agent/nudger.go (Handle) *)
Definition Handle (now stamp : gotime) (n : Nudger) : IO Nudger :=
  let '(go, n) := admit_nudge now stamp n in
  if go then _ ← nudge n directive; mret n else mret n.
End backends.

(** * Keystrokes *)

(** The reading of an AppleScript string literal after its opening quotation
    mark: its text and what follows the closing mark. *)
Fixpoint read_literal (s : string) : option (string * string) :=
  match s with
  | "" => None
  | String a t =>
      if Ascii.eqb a dq then Some ("", t)
      else if Ascii.eqb a bs then
        match t with
        | "" => None
        | String b u => match read_literal u with Some (x, r) => Some (String b x, r) | None => None end
        end
      else match read_literal t with Some (x, r) => Some (String a x, r) | None => None end
  end.

(** the text on one line *)
Definition flatten (s : string) : string := replace_char lf " " (replace_char cr " " s).

Lemma escape_cons a s : escape (String a s) =
  (if Ascii.eqb a bs then String bs (String bs "") else if Ascii.eqb a dq then String bs (String dq "")
   else if Ascii.eqb a cr then " " else if Ascii.eqb a lf then " " else String a "") +:+ escape s.
Proof.
  unfold escape. cbn [replace_char]. destruct (Ascii.eqb a bs) eqn:E1.
  { by rewrite !replace_char_app. }
  cbn [replace_char]. destruct (Ascii.eqb a dq) eqn:E2; [by rewrite !replace_char_app|].
  cbn [replace_char]. destruct (Ascii.eqb a cr) eqn:E3; [by rewrite !replace_char_app|].
  cbn [replace_char]. by destruct (Ascii.eqb a lf).
Qed.
Lemma flatten_cons a s : flatten (String a s) =
  String (if Ascii.eqb a cr then " " else if Ascii.eqb a lf then " " else a)%char (flatten s).
Proof.
  unfold flatten. cbn [replace_char]. destruct (Ascii.eqb a cr) eqn:E3; [by rewrite !replace_char_app|].
  cbn [replace_char]. by destruct (Ascii.eqb a lf).
Qed.

Lemma read_escape s rest : read_literal (escape s +:+ String dq rest) = Some (flatten s, rest).
Proof.
  induction s as [|a s IH]; [done|]. rewrite escape_cons, flatten_cons.
  destruct (Ascii.eqb a bs) eqn:E1.
  { apply Ascii.eqb_eq in E1 as ->. cbn. by rewrite IH. }
  destruct (Ascii.eqb a dq) eqn:E2.
  { apply Ascii.eqb_eq in E2 as ->. cbn. by rewrite IH. }
  destruct (Ascii.eqb a cr) eqn:E3; [cbn; by rewrite IH|].
  destruct (Ascii.eqb a lf) eqn:E4; [cbn; by rewrite IH|].
  cbn. by rewrite E2, E1, IH.
Qed.

Lemma escape_one_line s : contains_char lf (escape s) = false ∧ contains_char cr (escape s) = false.
Proof.
  induction s as [|a s [IH1 IH2]]; [done|]. rewrite escape_cons, !contains_char_app, IH1, IH2, !orb_false_r.
  destruct (Ascii.eqb a bs) eqn:E1; [done|]. destruct (Ascii.eqb a dq) eqn:E2; [done|].
  destruct (Ascii.eqb a cr) eqn:E3; [done|]. destruct (Ascii.eqb a lf) eqn:E4; [done|].
  unfold contains_char. cbn. by rewrite E3, E4.
Qed.

(** * Coalescing *)

(** the nudges admitted for a sequence of arrivals, each with its two clock
    readings, and the nudger after them *)
Fixpoint admitted (l : list (gotime * gotime)) (n : Nudger) : list gotime :=
  match l with
  | [] => []
  | (now, stamp) :: l =>
      let '(go, n) := admit_nudge now stamp n in
      if go then stamp :: admitted l n else admitted l n
  end.

(** A reading of the clock of a running process; [mono] is the monotonic part. *)
Definition reading (t : gotime) (m : Z) : Prop := mono t = Some m ∧ 0 ≤ m ≤ int64_max ∧ 0 ≤ wall t.

(** the readings of the arrivals, in the order in which the lock is taken *)
Inductive clocked : Z → list (gotime * gotime) → Prop :=
| clocked_nil m : clocked m []
| clocked_cons m now m1 stamp m2 l : reading now m1 → reading stamp m2 → m ≤ m1 → m1 ≤ m2 → clocked m2 l →
    clocked m ((now, stamp) :: l).

Definition window : Z := 3 * second.
Definition apart (w w' : gotime) : Prop := window ≤ tsub w' w.
Definition covered (now stamp w : gotime) : Prop := (w = stamp ∨ 0 ≤ tsub now w) ∧ tsub now w < window.

Lemma tsub_reading t u m1 m2 : reading t m1 → reading u m2 → tsub t u = m1 - m2.
Proof.
  intros (H1 & B1 & _) (H2 & B2 & _). unfold tsub. rewrite H1, H2. unfold sat64, int64_min, int64_max in *. lia.
Qed.
Lemma tsub_zero t m : reading t m → window ≤ tsub t zero_time.
Proof.
  intros (H1 & _ & B). unfold tsub. rewrite H1. cbn [mono wall zero_time]. unfold window, second, sat64, int64_min, int64_max. lia.
Qed.

Record live (n : Nudger) (m : Z) : Prop := {
  live_mode : String.eqb (n_Mode n) "" = false;
  live_window : coalesceFor n = window;
  live_last : lastNudgeAt n = zero_time ∨ ∃ m0, reading (lastNudgeAt n) m0 ∧ m0 ≤ m }.

Lemma admitted_spec l : ∀ m n, clocked m l → live n m →
  Sorted apart (admitted l n) ∧ (lastNudgeAt n = zero_time ∨ HdRel apart (lastNudgeAt n) (admitted l n)) ∧
  ∀ now stamp, (now, stamp) ∈ l → covered now stamp (lastNudgeAt n) ∨ ∃ w, w ∈ admitted l n ∧ covered now stamp w.
Proof.
  induction l as [|[now stamp] l IH]; intros m n Hc [Hm Hw Hl].
  { cbn. split_and!; [constructor|by right; constructor|]. intros ? ? []%elem_of_nil. }
  inversion Hc as [|? ? m1 ? m2 ? R1 R2 L1 L2 Hc']; subst. cbn [admitted]. unfold admit_nudge. rewrite Hm, Hw.
  destruct (Z.ltb_spec (tsub now (lastNudgeAt n)) window) as [Hlt|Hge].
  - assert (Hlast : ∃ m0, reading (lastNudgeAt n) m0 ∧ m0 ≤ m).
    { destruct Hl as [Hz|]; [|done]. rewrite Hz in Hlt. pose proof (tsub_zero _ _ R1). lia. }
    destruct Hlast as (m0 & R0 & L0).
    destruct (IH m2 n Hc') as (HS & HH & HC); [constructor; try done; right; exists m0; split; [done|lia]|].
    split_and!; [done|done|]. intros now' stamp' [Heq|Hin]%elem_of_cons; [|by apply HC].
    injection Heq as -> ->. left. split; [|done]. right. rewrite (tsub_reading _ _ _ _ R1 R0). lia.
  - set (n' := MkNudger _ _ _ _ _).
    destruct (IH m2 n' Hc') as (HS & HH & HC); [constructor; try done; right; exists m2; done|].
    cbn [lastNudgeAt n'] in HH, HC. split_and!.
    + constructor; [done|]. destruct HH as [Hz|HH]; [|done]. destruct R2 as [R2 _]. by rewrite Hz in R2.
    + destruct Hl as [Hz|(m0 & R0 & L0)]; [by left|]. right. constructor. unfold apart.
      rewrite (tsub_reading _ _ _ _ R1 R0) in Hge. rewrite (tsub_reading _ _ _ _ R2 R0). lia.
    + intros now' stamp' [Heq|Hin]%elem_of_cons.
      * injection Heq as -> ->. right. exists stamp. split; [apply elem_of_cons; by left|]. split; [by left|].
        rewrite (tsub_reading _ _ _ _ R1 R2). unfold window, second. lia.
      * destruct (HC _ _ Hin) as [H|(w & Hin' & H)]; right; [exists stamp|exists w]; (split; [|done]);
          apply elem_of_cons; [by left|by right].
Qed.

(** C35: whatever the arrivals, two nudges are at least three seconds apart and
    every message that arrives is nudged for or comes less than three seconds
    after a nudge. *)
Theorem nudges_coalesce (mode tty : string) (l : list (gotime * gotime)) (Hmode : mode ≠ "") (Hl : clocked 0 l) :
  let nudges := admitted l (NewNudger mode tty) in
  Sorted (λ w w', 3 * second ≤ tsub w' w) nudges ∧
  ∀ now stamp, (now, stamp) ∈ l → ∃ w, w ∈ nudges ∧ (w = stamp ∨ 0 ≤ tsub now w) ∧ tsub now w < 3 * second.
Proof.
  destruct (admitted_spec l 0 (NewNudger mode tty) Hl) as (HS & _ & HC).
  { constructor; [|done|by left]. by apply String.eqb_neq. }
  split; [done|]. intros now stamp Hin. destruct (HC now stamp Hin) as [[_ H]|H]; [|done]. exfalso.
  assert (Hr : ∃ m, reading now m).
  { clear -Hl Hin. induction Hl as [|m now' m1 stamp' m2 l R1 R2 L1 L2 Hc IH]; [by apply elem_of_nil in Hin|].
    apply elem_of_cons in Hin as [Heq|Hin]; [injection Heq as -> ->; eauto|auto]. }
  destruct Hr as [m Hr]. pose proof (tsub_zero _ _ Hr). cbn [lastNudgeAt NewNudger] in H. lia.
Qed.

Lemma terminal_run quote answer n text h : (nudgeTerminal quote answer n text h).2 =
  h ++ [Exec (Command "osascript" ["-e"; script (n_TTY n) (escape text)] "" None)].
Proof. unfold nudgeTerminal, mbind, ST_bind, run. by repeat case_match. Qed.

(** A nudge types the directive as one line of text followed by Return: the
    terminal script carries it as a string literal that reads back as the text with
    its line breaks flattened, whatever quotes and backslashes it contains; the
    dtach backend writes the text and, 250 ms later and only if that succeeded, the
    carriage return alone. *)
Theorem nudge_types_text (quote : string → string) (answer : list action → command → outcome) :
  (∀ n text h, String.eqb (n_Mode n) "terminal" = true →
     ∃ body rest, (nudge quote answer n text h).2 =
         h ++ [Exec (Command "osascript" ["-e"; script_head +:+ n_TTY n +:+ script_mid +:+ String dq body] "" None)] ∧
       contains_char lf (stake (slen body - slen rest) body) = false ∧
       read_literal body = Some (flatten text, rest) ∧ rest = script_tail) ∧
  (∀ socket text h, socket ≠ "" →
     let write s := Command "dtach" ["-p"; socket] s None in
     let first := answer h (write text) in
     let sent := h ++ [Exec (write text)] in
     nudge quote answer (NewDtachNudger socket) text h =
       match o_err first with
       | Some e => (Some (failed ("dtach -p " +:+ socket) e (o_stderr first)), sent)
       | None =>
           let sent := sent ++ [Sleep (250 * millisecond)] in
           let second := answer sent (write (String cr "")) in
           (match o_err second with Some e => Some (failed ("dtach -p " +:+ socket) e (o_stderr second)) | None => None end,
            sent ++ [Exec (write (String cr ""))])
       end).
Proof.
  split.
  - intros n text h Hm. unfold nudge. rewrite Hm, terminal_run.
    exists (escape text +:+ String dq script_tail), script_tail. split; [unfold script; reflexivity|]. split; [|split; [apply read_escape|reflexivity]].
    generalize script_tail as tail. intros tail. rewrite slen_app. change (slen (String dq tail)) with (S (slen tail)).
    replace (slen (escape text) + S (slen tail) - slen tail)%nat with (slen (escape text +:+ String dq ""))
      by (rewrite slen_app; change (slen (String dq "")) with 1%nat; lia).
    replace (escape text +:+ String dq tail) with ((escape text +:+ String dq "") +:+ tail) by (by rewrite <-sapp_assoc).
    rewrite stake_app, contains_char_app. by rewrite (proj1 (escape_one_line text)).
  - intros socket text h Hs. unfold nudge. change (String.eqb (n_Mode (NewDtachNudger socket)) "terminal") with false. change (String.eqb (n_Mode (NewDtachNudger socket)) "tmux") with false.
    change (String.eqb (n_Mode (NewDtachNudger socket)) "dtach") with true. unfold nudgeDtach.
    cbn [n_Socket NewDtachNudger]. rewrite (proj2 (String.eqb_neq _ _) Hs). unfold dtachPush, mbind, ST_bind, mret, ST_ret, run, sleep. by destruct (o_err (answer h _)).
Qed.

Definition at_second (m : Z) : gotime := GoTime ((1700000000 + m) * second) (Some (m * second)) 0.

Lemma nudges_coalesce_witness :
  clocked 0 [(at_second 5, at_second 5); (at_second 6, at_second 6); (at_second 9, at_second 9)] ∧
  admitted [(at_second 5, at_second 5); (at_second 6, at_second 6); (at_second 9, at_second 9)] (NewNudger "tmux" "ttys003")
    = [at_second 5; at_second 9] ∧
  Sorted (λ w w', 3 * second ≤ tsub w' w)
    (admitted [(at_second 5, at_second 5); (at_second 6, at_second 6); (at_second 9, at_second 9)] (NewNudger "tmux" "ttys003")).
Proof.
  assert (Hc : clocked 0 [(at_second 5, at_second 5); (at_second 6, at_second 6); (at_second 9, at_second 9)]).
  { apply (clocked_cons _ _ (5 * second) _ (5 * second)); [by vm_compute..|].
    apply (clocked_cons _ _ (6 * second) _ (6 * second)); [by vm_compute..|].
    apply (clocked_cons _ _ (9 * second) _ (9 * second)); [by vm_compute..|constructor]. }
  split; [exact Hc|]. split; [by vm_compute|]. apply (nudges_coalesce "tmux" "ttys003" _ ltac:(done) Hc).
Defined.
