(* ===== verification/UserHooks.v ===== *)
(** The user's hook scripts of [internal/agent/userhooks.go]: which script an
    event runs, with what input and environment. *)
From Stdlib Require Import Ascii.
From stdpp Require Import base list strings.
From S2P Require Import Prelude GoStrings Json GoSort A2A GoExec.

Open Scope string_scope.
Open Scope Z_scope.
Open Scope list_scope.

(* src/internal/agent/userhooks.go (hookExtensions) *)
Definition hookExtensions (goos : string) : list string :=
  if String.eqb goos "windows" then [".ps1"; ".cmd"; ".bat"] else [".sh"].

(** [stat p = Some dir]: the path exists, and whether it is a directory. *)
(* src/internal/agent/userhooks.go:56-63 (runHook) *)
Fixpoint find_script (stat : string → option bool) (hooksDir eventName : string) (exts : list string) : string :=
  match exts with
  | [] => ""
  | ext :: exts =>
      let candidate := Join [hooksDir; eventName +:+ ext] in
      match stat candidate with
      | Some false => candidate
      | _ => find_script stat hooksDir eventName exts
      end
  end.

(** the interpreter and its arguments *)
(* src/internal/agent/userhooks.go:77-86 (runHook) *)
Definition interpreter (script : string) : option (string * list string) :=
  let ext := Ext script in
  if String.eqb ext ".sh" then Some ("/bin/sh", [script])
  else if String.eqb ext ".ps1" then
    Some ("powershell.exe", ["-NoProfile"; "-ExecutionPolicy"; "Bypass"; "-File"; script])
  else if String.eqb ext ".cmd" || String.eqb ext ".bat" then Some ("cmd.exe", ["/c"; script])
  else None.

(** [x.(string)] of a member of the decoded payload; a later member of the same
    name replaces an earlier one in the map *)
Definition string_field (k : string) (m : list (string * json)) : option string :=
  match assoc_get k (reverse m) with Some (JStr s) => Some s | _ => None end.

(* src/internal/agent/userhooks.go:89-103 (runHook) *)
Definition hook_env (environ : list string) (eventName body : string) : list string :=
  environ ++ ["A2A_EVENT_NAME=" +:+ eventName; "A2A_EVENT=" +:+ body] ++
  match unmarshal body with
  | Some (JObj fields) =>
      match string_field "from" fields with Some from => ["A2A_EVENT_FROM=" +:+ from] | None => [] end ++
      match string_field "taskId" fields with Some task => ["A2A_EVENT_TASK=" +:+ task] | None => [] end
  | _ => []
  end.

(** A Go map as [json.Marshal] writes it: its members sorted by key. *)
Definition key_cmp (x y : string * json) : comparison := str_compare x.1 y.1.
Definition map_json (m : list (string * json)) : json := JObj (isort key_cmp m).

Section hook.
Variable answer : list action → command → outcome.

(** [home = None]: [os.UserHomeDir] fails. What the script does and how it ends
    is ignored. *)
(* src/internal/agent/userhooks.go (runHook) *)
Definition runHook (home : option string) (goos : string) (stat : string → option bool) (environ : list string)
    (eventName : string) (payload : list (string * json)) : IO unit :=
  match home with
  | None => mret tt
  | Some home =>
      let script := find_script stat (Join [home; ".a2abridge"; "hooks"]) eventName (hookExtensions goos) in
      if String.eqb script "" then mret tt else
      let body := marshal (map_json payload) in
      match interpreter script with
      | None => mret tt
      | Some (name, args) => _ ← run answer (Command name args body (Some (hook_env environ eventName body))); mret tt
      end
  end.
End hook.

(** * Theorems *)

Lemma getenv_other name env l : Forall (λ e, has_prefix (name +:+ "=") e = false) l → child_getenv name (env ++ l) = child_getenv name env.
Proof.
  intros Hl. unfold child_getenv, first_entry. rewrite reverse_app, List.filter_app.
  assert (Hr : List.filter (has_prefix (name +:+ "=")) (reverse l) = []); [|by rewrite Hr].
  apply Forall_reverse in Hl. induction Hl as [|x k Hx Hk IH]; [done|]. cbn. by rewrite Hx.
Qed.
Lemma getenv_set name env v l : Forall (λ e, has_prefix (name +:+ "=") e = false) l →
  child_getenv name (env ++ ((name +:+ "=") +:+ v) :: l) = v.
Proof.
  intros Hl. rewrite cons_middle, (assoc_L app), getenv_other by done. unfold child_getenv, first_entry. rewrite reverse_snoc. cbn.
  rewrite has_prefix_app. replace (slen name + 1)%nat with (slen (name +:+ "=")) by (by rewrite slen_app). apply sdrop_app.
Qed.

Lemma assoc_get_perm {A} k (m m' : list (string * A)) : NoDup m.*1 → m ≡ₚ m' → assoc_get k m = assoc_get k m'.
Proof.
  intros Hn Hp. assert (Hn' : NoDup m'.*1) by (by rewrite <-Hp). apply option_eq. intros v.
  rewrite !assoc_get_elem by done. by rewrite Hp.
Qed.

Definition norm_member (x : string * json) : string * json := (to_valid_utf8 x.1, jnorm x.2).

Lemma string_field_norm k m : NoDup m.*1 → Forall (λ x, valid_utf8 x.1 = true) m →
  string_field k (map norm_member m) =
    match assoc_get k m with Some (JStr s) => Some (to_valid_utf8 s) | _ => None end.
Proof.
  intros Hn Hv. unfold string_field.
  assert (Hk : (map norm_member m).*1 = m.*1).
  { clear Hn. induction Hv as [|x m Hx Hv IH]; [done|]. cbn. f_equal; [by apply to_valid_utf8_id|exact IH]. }
  rewrite (assoc_get_perm k (reverse (map norm_member m)) (map norm_member m)); cycle 1.
  { rewrite reverse_Permutation. by rewrite Hk. }
  { apply reverse_Permutation. }
  clear Hn Hk. induction Hv as [|[k' v] m Hx Hv IH]; [done|]. unfold norm_member at 1. cbn [map assoc_get fst snd] in *.
  rewrite to_valid_utf8_id by done.
  destruct (String.eqb k' k); [by destruct v|done].
Qed.

Lemma jwf_map_json m : Forall (λ x, jwf x.2 = true) m → jwf (map_json m) = true.
Proof.
  intros H. unfold map_json. cbn [jwf]. apply forallb_forall. intros x Hx%list_elem_of_In.
  rewrite isort_perm in Hx. rewrite Forall_forall in H. auto.
Qed.

(** a hook script that exists is run once, by the interpreter of its extension,
    with the event's payload as JSON on standard input and in [A2A_EVENT], the
    event's name, the sender and the task of the payload in the variables of the
    documentation, and every other variable as in the bridge's own environment;
    without a script nothing runs. *)
Theorem runHook_spec (answer : list action → command → outcome) (home goos : string) (stat : string → option bool)
    (environ : list string) (eventName : string) (payload : list (string * json)) (h : list action)
    (Hkeys : NoDup payload.*1) (Hutf : Forall (λ x, valid_utf8 x.1 = true) payload)
    (Hwf : Forall (λ x, jwf x.2 = true) payload) (Hdepth : (jdepth (map_json payload) ≤ max_depth)%N) :
  let script := find_script stat (Join [home; ".a2abridge"; "hooks"]) eventName (hookExtensions goos) in
  let body := marshal (map_json payload) in
  let text k := match assoc_get k payload with Some (JStr s) => Some (to_valid_utf8 s) | _ => None end in
  let env := hook_env environ eventName body in
  (runHook answer (Some home) goos stat environ eventName payload h).2 =
    match (if String.eqb script "" then None else interpreter script) with
    | Some (name, args) => h ++ [Exec (Command name args body (Some env))]
    | None => h
    end ∧
  child_getenv "A2A_EVENT_NAME" env = eventName ∧ child_getenv "A2A_EVENT" env = body ∧
  child_getenv "A2A_EVENT_FROM" env = default (child_getenv "A2A_EVENT_FROM" environ) (text "from") ∧
  child_getenv "A2A_EVENT_TASK" env = default (child_getenv "A2A_EVENT_TASK" environ) (text "taskId") ∧
  (∀ name, Forall (λ v, has_prefix (name +:+ "=") v = false)
      (["A2A_EVENT_NAME=" +:+ eventName; "A2A_EVENT=" +:+ body] ++
       match text "from" with Some s => ["A2A_EVENT_FROM=" +:+ s] | None => [] end ++
       match text "taskId" with Some s => ["A2A_EVENT_TASK=" +:+ s] | None => [] end) →
    child_getenv name env = child_getenv name environ).
Proof.
  cbv zeta. set (body := marshal (map_json payload)).
  set (text k := match assoc_get k payload with Some (JStr s) => Some (to_valid_utf8 s) | _ => None end).
  assert (He : hook_env environ eventName body = environ ++ ["A2A_EVENT_NAME=" +:+ eventName; "A2A_EVENT=" +:+ body] ++
    match text "from" with Some s => ["A2A_EVENT_FROM=" +:+ s] | None => [] end ++
    match text "taskId" with Some s => ["A2A_EVENT_TASK=" +:+ s] | None => [] end).
  { unfold hook_env, body, marshal. rewrite unmarshal_print by (done || by apply jwf_map_json).
    unfold map_json. cbn [jnorm]. change (map _ (isort key_cmp payload)) with (map norm_member (isort key_cmp payload)).
    assert (Hs : ∀ k, string_field k (map norm_member (isort key_cmp payload)) = text k).
    { intros k. rewrite string_field_norm; [|by rewrite isort_perm|by rewrite isort_perm].
      unfold text. by rewrite (assoc_get_perm k _ _ Hkeys (symmetry (isort_perm key_cmp payload))). }
    by rewrite !Hs. }
  split_and!.
  - unfold runHook. destruct (String.eqb _ ""); [done|]. fold body. by destruct (interpreter _) as [[name args]|].
  - rewrite He. apply (getenv_set "A2A_EVENT_NAME"). destruct (text "from"), (text "taskId"); by repeat constructor.
  - rewrite He. change (environ ++ [?a; ?b] ++ ?l) with (environ ++ a :: b :: l). rewrite cons_middle, (assoc_L app).
    apply (getenv_set "A2A_EVENT"). destruct (text "from"), (text "taskId"); by repeat constructor.
  - rewrite He, (assoc_L app environ). destruct (text "from") as [f|].
    + cbn [default from_option]. apply (getenv_set "A2A_EVENT_FROM"). destruct (text "taskId"); by repeat constructor.
    + cbn. rewrite <-(assoc_L app). apply getenv_other. destruct (text "taskId"); by repeat constructor.
  - rewrite He, !(assoc_L app). destruct (text "taskId") as [t|].
    + apply (getenv_set "A2A_EVENT_TASK"). constructor.
    + cbn. rewrite app_nil_r, <-(assoc_L app). apply getenv_other. destruct (text "from"); by repeat constructor.
  - intros name Hf. rewrite He. by apply getenv_other.
Qed.

Lemma runHook_spec_witness :
  let payload := [("taskId", JStr "t1"); ("from", JStr "bob")] in
  (runHook (λ _ _, Outcome "" "" None) (Some "/home/u") "linux" (λ p, if String.eqb p "/home/u/.a2abridge/hooks/on-error.sh" then Some false else None)
    ["HOME=/home/u"] "on-error" payload []).2 ≠ [] ∧
  child_getenv "A2A_EVENT_FROM" (hook_env ["HOME=/home/u"] "on-error" (marshal (map_json payload))) = "bob".
Proof.
  cbv zeta.
  destruct (runHook_spec (λ _ _, Outcome "" "" None) "/home/u" "linux"
    (λ p, if String.eqb p "/home/u/.a2abridge/hooks/on-error.sh" then Some false else None)
    ["HOME=/home/u"] "on-error" [("taskId", JStr "t1"); ("from", JStr "bob")] []) as (H1 & _ & _ & H2 & _).
  - apply (bool_decide_unpack _). vm_compute. exact I.
  - repeat constructor.
  - repeat constructor.
  - by vm_compute.
  - split; [rewrite H1; by vm_compute|rewrite H2; by vm_compute].
Defined.
