(* ===== verification/Jsonc.v ===== *)
(** JSON with comments and trailing commas: the two filters of
    [internal/ideconfig/jsonmerge.go] and the reading of a configuration text. *)
From Stdlib Require Import Ascii Sorted.
From stdpp Require Import base list strings.
From S2P Require Import Prelude GoStrings Json GoSort.

Open Scope string_scope.
Open Scope Z_scope.
Open Scope list_scope.

(** * The filters *)

(** where the scan of [stripJSONComments] is *)
Inductive lexmode : Set := Code | Str | Line | Block.

#[export] Instance lexmode_eq_dec : EqDecision lexmode.
Proof. solve_decision. Defined.

Definition space : char := " ".

(** a character of a comment: a line break stays, everything else is blanked *)
Definition blank (a : char) : char := if Ascii.eqb a nlc then nlc else space.

(** [out\[i:\]] after the scan of [in\[i:\]] *)
(* src/internal/ideconfig/jsonmerge.go (stripJSONComments) *)
Fixpoint strip (m : lexmode) (s : string) : string :=
  match s with
  | "" => ""
  | String a t =>
      match m with
      | Str =>
          if Ascii.eqb a bs then
            match t with "" => String a "" | String b u => String a (String b (strip Str u)) end
          else String a (strip (if Ascii.eqb a dq then Code else Str) t)
      | Code =>
          if Ascii.eqb a dq then String a (strip Str t)
          else if Ascii.eqb a "/" then
            match t with
            | String b _ =>
                if Ascii.eqb b "/" then String space (strip Line t)
                else if Ascii.eqb b "*" then String space (strip Block t)
                else String a (strip Code t)
            | "" => String a ""
            end
          else String a (strip Code t)
      | Line => if Ascii.eqb a nlc then String a (strip Code t) else String space (strip Line t)
      | Block =>
          if Ascii.eqb a nlc then String a (strip Block t)
          else match t with
               | String b u =>
                   if Ascii.eqb a "*" && Ascii.eqb b "/" then String space (String space (strip Code u))
                   else String space (strip Block t)
               | "" => String space ""
               end
      end
  end.
Definition stripJSONComments (s : string) : string := strip Code s.

Definition closing (s : string) : bool :=
  match skip_ws s with String a _ => Ascii.eqb a "}" || Ascii.eqb a "]" | "" => false end.

(* src/internal/ideconfig/jsonmerge.go (stripTrailingCommas) *)
Fixpoint commas (inString : bool) (s : string) : string :=
  match s with
  | "" => ""
  | String a t =>
      if inString then
        if Ascii.eqb a bs then
          match t with "" => String a "" | String b u => String a (String b (commas true u)) end
        else String a (commas (negb (Ascii.eqb a dq)) t)
      else if Ascii.eqb a dq then String a (commas true t)
      else if Ascii.eqb a "," && closing t then commas false t
      else String a (commas false t)
  end.
Definition stripTrailingCommas (s : string) : string := commas false s.

(** * Go values *)

(** The decoded value: an object is a map, in which the last member of a name
    stays. *)
Fixpoint to_any (v : json) : json :=
  match v with
  | JArr l => JArr (map to_any l)
  | JObj m => JObj (foldl (λ acc kv, assoc_set kv.1 kv.2 acc) [] (map (λ x, (x.1, to_any x.2)) m))
  | _ => v
  end.

(** A value as [json.Marshal] writes it: the members of every map sorted by key. *)
Definition member_cmp (x y : string * json) : comparison := str_compare x.1 y.1.
Fixpoint canon (v : json) : json :=
  match v with
  | JArr l => JArr (map canon l)
  | JObj m => JObj (isort member_cmp (map (λ x, (x.1, canon x.2)) m))
  | _ => v
  end.

(** the text of a configuration file as a map; [None] is a parse error *)
(* src/internal/ideconfig/jsonmerge.go:30-47 (readJSONObject) *)
Definition parse_object (b : string) : option (list (string * json)) :=
  if String.eqb (trim_space b) "" then Some [] else
  let cleaned := stripTrailingCommas (stripJSONComments b) in
  match decode_prefix cleaned with
  | Some (JObj m, _) => match to_any (JObj m) with JObj m => Some m | _ => None end
  | Some (JNull, _) => Some []
  | _ => None
  end.

(* src/internal/ideconfig/jsonmerge.go:162-166 (writeJSONObject) *)
Definition render_object (m : list (string * json)) : string := marshal_indent (canon (JObj m)) +:+ String nlc "".

(* src/internal/ideconfig/jsonmerge.go (equalJSON) *)
Definition equalJSON (a b : json) : bool := String.eqb (marshal (canon a)) (marshal (canon b)).

Example jsonc_example :
  parse_object "{ // c
  /* x */ }" = Some [].
Proof. vm_compute. reflexivity. Qed.

(** * Printed JSON passes the filters unchanged *)

Section fixed.
Variable f : string → string.
Hypothesis f_plain : ∀ a t, Ascii.eqb a dq = false → Ascii.eqb a "/" = false → Ascii.eqb a "," = false →
  f (String a t) = String a (f t).
Hypothesis f_comma : ∀ t, closing t = false → f (String "," t) = String "," (f t).
Hypothesis f_string : ∀ s t, f (json_string s +:+ t) = json_string s +:+ f t.

Definition fixed (s : string) : Prop := ∀ t, f (s +:+ t) = s +:+ f t.

Lemma fixed_app s u : fixed s → fixed u → fixed (s +:+ u).
Proof. intros Hs Hu t. by rewrite <-!sapp_assoc, Hs, Hu. Qed.
Lemma fixed_nil : fixed "".
Proof. by intros t. Qed.

Definition plain_char (a : char) : bool := negb (Ascii.eqb a dq || Ascii.eqb a "/" || Ascii.eqb a ",").
Lemma fixed_plain s : forallb plain_char (String.list_ascii_of_string s) = true → fixed s.
Proof.
  induction s as [|a s IH]; [intros _; apply fixed_nil|]. cbn. intros [Ha Hs]%andb_true_iff t. cbn.
  unfold plain_char in Ha. apply negb_true_iff in Ha. rewrite !orb_false_iff in Ha. destruct Ha as [[H1 H2] H3].
  rewrite f_plain by done. by rewrite (IH Hs).
Qed.

Variable ind : bool.

Lemma fixed_nl lvl : fixed (nl ind lvl).
Proof.
  unfold nl. destruct ind; [|apply fixed_nil]. change (String nlc ?x) with (String nlc "" +:+ x).
  apply fixed_app; [by apply fixed_plain|]. induction lvl as [|lvl IH]; [apply fixed_nil|].
  change (rep_string (S lvl) "  ") with ("  " +:+ rep_string lvl "  "). apply fixed_app; [by apply fixed_plain|done].
Qed.

Lemma skip_ws_open lvl a t : is_ws a = false → skip_ws (nl ind lvl +:+ String a t) = String a t.
Proof. intros Ha. rewrite skip_ws_nl. cbn. by rewrite Ha. Qed.

Lemma fixed_join {A} (g : A → string) lvl l :
  (∀ x, x ∈ l → fixed (g x) ∧ ∃ a s, g x = String a s ∧ is_ws a = false ∧ a ≠ "]"%char ∧ a ≠ "}"%char) →
  fixed (join ("," +:+ nl ind lvl) (map g l)).
Proof.
  induction l as [|x l IH]; intros Hg; [apply fixed_nil|].
  destruct (Hg x) as [Hx _]; [apply elem_of_cons; by left|].
  destruct l as [|y l]; [exact Hx|].
  change (join ("," +:+ nl ind lvl) (map g (x :: y :: l))) with
    (g x +:+ ("," +:+ nl ind lvl) +:+ join ("," +:+ nl ind lvl) (map g (y :: l))).
  apply fixed_app; [done|]. intros t. specialize (IH (λ z Hz, Hg z (proj2 (elem_of_cons _ _ _) (or_intror Hz)))).
  destruct (Hg y) as [_ (a & s & Hy & Hws & H1 & H2)]; [apply elem_of_cons; right; apply elem_of_cons; by left|].
  rewrite <-!sapp_assoc. change ("," +:+ ?x) with (String "," x). rewrite f_comma.
  { cbn. by rewrite fixed_nl, IH. }
  unfold closing. destruct (join_head ("," +:+ nl ind lvl) g y l t) as [u ->]. rewrite Hy. cbn [String.append].
  rewrite skip_ws_open by done. by rewrite (proj2 (Ascii.eqb_neq _ _) H2), (proj2 (Ascii.eqb_neq _ _) H1).
Qed.

Lemma fixed_number lit : valid_number lit && String.eqb (span number_char lit).2 "" = true → fixed lit.
Proof.
  intros [_ Hs%String.eqb_eq]%andb_true_iff. apply fixed_plain. revert Hs. induction lit as [|a s IH]; [done|]. cbn.
  destruct (number_char a) eqn:Ea; [|done]. destruct (span number_char s) as [x y]. cbn in *. intros Hy. rewrite IH by done.
  rewrite andb_true_r. unfold plain_char. apply negb_true_iff. rewrite !orb_false_iff.
  unfold number_char, is_digit in Ea. rewrite !eqb_bz. rewrite !eqb_bz in Ea. change (bz dq) with 34. change (bz "/") with 47. change (bz ",") with 44.
  change (bz "-") with 45 in Ea. change (bz "+") with 43 in Ea. change (bz ".") with 46 in Ea. change (bz "e") with 101 in Ea.
  change (bz "E") with 69 in Ea. lia.
Qed.

Lemma fixed_string s : fixed (json_string s).
Proof. intros t. apply f_string. Qed.

Lemma fixed_print v : jwf v = true → ∀ lvl, fixed (print ind lvl v).
Proof.
  induction v as [|b|lit|s|l IH|m IH] using json_ind'; intros Hwf lvl.
  - by apply fixed_plain.
  - destruct b; by apply fixed_plain.
  - by apply fixed_number.
  - apply fixed_string.
  - destruct l as [|x l]; [by apply fixed_plain|].
    change (print ind lvl (JArr (x :: l))) with ("[" +:+ nl ind (S lvl) +:+
      join ("," +:+ nl ind (S lvl)) (map (print ind (S lvl)) (x :: l)) +:+ nl ind lvl +:+ "]").
    repeat apply fixed_app; try apply fixed_nl; try by apply fixed_plain.
    apply fixed_join. intros y Hy. cbn [jwf] in Hwf. rewrite forallb_forall in Hwf.
    assert (Hwy : jwf y = true) by (apply Hwf; by apply list_elem_of_In).
    rewrite Forall_forall in IH. split; [by apply IH|by apply print_head].
  - destruct m as [|x m]; [by apply fixed_plain|].
    change (print ind lvl (JObj (x :: m))) with ("{" +:+ nl ind (S lvl) +:+
      join ("," +:+ nl ind (S lvl)) (map (λ '(k, x), json_string k +:+ colon ind +:+ print ind (S lvl) x) (x :: m)) +:+ nl ind lvl +:+ "}").
    rewrite (map_ext _ (print_member ind (S lvl))) by (by intros []).
    repeat apply fixed_app; try apply fixed_nl; try by apply fixed_plain.
    apply fixed_join. intros y Hy. cbn [jwf] in Hwf. rewrite forallb_forall in Hwf.
    specialize (Hwf y (proj1 (list_elem_of_In _ _) Hy)). apply Forall_fmap in IH. rewrite Forall_forall in IH.
    unfold print_member. split; [|by eexists _, _].
    apply fixed_app; [apply fixed_string|]. apply fixed_app; [|by apply IH].
    unfold colon. destruct ind; by apply fixed_plain.
Qed.
End fixed.

(** ** String literals *)

Section strings.
(** [f] outside, [g] inside a string literal *)
Variables f g : string → string.
Hypothesis g_escape : ∀ b t, g (String bs (String b t)) = String bs (String b (g t)).
Hypothesis g_char : ∀ a t, Ascii.eqb a bs = false → Ascii.eqb a dq = false → g (String a t) = String a (g t).
Hypothesis f_open : ∀ t, f (String dq t) = String dq (g t).
Hypothesis g_close : ∀ t, g (String dq t) = String dq (f t).

Lemma g_plain s : contains_char bs s = false → contains_char dq s = false → ∀ t, g (s +:+ t) = s +:+ g t.
Proof.
  induction s as [|a s IH]; [done|]. rewrite !contains_char_cons. intros [H1 H2]%orb_false_iff [H3 H4]%orb_false_iff t.
  cbn. rewrite g_char by done. by rewrite IH.
Qed.

Lemma hexdig_plain z : 0 ≤ z < 16 → Ascii.eqb (hexdig z) bs = false ∧ Ascii.eqb (hexdig z) dq = false.
Proof.
  intros Hz. rewrite !eqb_bz. change (bz bs) with 92. change (bz dq) with 34.
  unfold hexdig. destruct (z <? 10) eqn:E; rewrite bz_zb by lia; lia.
Qed.

Lemma g_u4 r t : g (u4 r +:+ t) = u4 r +:+ g t.
Proof.
  unfold u4. cbn [String.append]. rewrite g_escape.
  assert (Hh : ∀ x t, g (String (hexdig (x mod 16)) t) = String (hexdig (x mod 16)) (g t)).
  { intros x u. destruct (hexdig_plain (x mod 16)) as [H1 H2]; [apply Z.mod_pos_bound; lia|]. by apply g_char. }
  by rewrite !Hh.
Qed.

Lemma g_seg s r b u t : decode1 s = Some (r, b, u) → g (esc_seg (r, b) +:+ t) = esc_seg (r, b) +:+ g t.
Proof.
  intros E. unfold esc_seg. destruct (seg_bad (r, b)); [apply g_u4|].
  destruct (Z.eqb_spec r 0x22); [apply g_escape|]. destruct (Z.eqb_spec r 0x5C); [apply g_escape|].
  destruct (r =? 8); [apply g_escape|]. destruct (r =? 12); [apply g_escape|].
  destruct (r =? 10); [apply g_escape|]. destruct (r =? 13); [apply g_escape|]. destruct (r =? 9); [apply g_escape|].
  destruct (_ || _); [apply g_u4|]. apply g_plain; rewrite (contains_char_decode1 _ s r b u) by done; by apply Z.eqb_neq.
Qed.

Lemma f_json_string s t : f (json_string s +:+ t) = json_string s +:+ f t.
Proof.
  unfold json_string, quoted. cbn [String.append]. rewrite f_open, <-!sapp_assoc. f_equal. cbn [String.append].
  transitivity (esc_segs (segs s) +:+ g (String dq t)); [|by rewrite g_close].
  generalize (String dq t) as u. intros u. induction s as [|s r b w E IH] using segs_ind; [done|].
  rewrite segs_eq, E. cbn [esc_segs fold_right]. fold (esc_segs (segs w)). rewrite <-!sapp_assoc, (g_seg _ _ _ _ _ E). by rewrite IH.
Qed.
End strings.

Lemma strip_string s t : strip Code (json_string s +:+ t) = json_string s +:+ strip Code t.
Proof.
  apply (f_json_string (strip Code) (strip Str)); try done.
  intros a u H1 H2. cbn [strip]. by rewrite H1, H2.
Qed.
Lemma commas_string s t : commas false (json_string s +:+ t) = json_string s +:+ commas false t.
Proof.
  apply (f_json_string (commas false) (commas true)); try done.
  intros a u H1 H2. cbn [commas]. by rewrite H1, H2.
Qed.

Lemma strip_print ind lvl v t : jwf v = true → strip Code (print ind lvl v +:+ t) = print ind lvl v +:+ strip Code t.
Proof.
  intros Hv. apply (fixed_print (strip Code)); try done.
  - intros a u H1 H2 _. cbn [strip]. by rewrite H1, H2.
  - apply strip_string.
Qed.
Lemma commas_print ind lvl v t : jwf v = true → commas false (print ind lvl v +:+ t) = print ind lvl v +:+ commas false t.
Proof.
  intros Hv. apply (fixed_print (commas false)); try done.
  - intros a u H1 _ H3. cbn [commas]. by rewrite H1, H3.
  - intros u Hu. cbn [commas]. by rewrite Hu.
  - apply commas_string.
Qed.

(** * Comments *)

(** A character stays or, unless it is a line break, becomes a space. *)
Definition kept (a b : char) : Prop := b = a ∨ b = space ∧ a ≠ nlc.
Definition chars : string → list char := String.list_ascii_of_string.

Lemma string_ind2 (P : string → Prop) : P "" → (∀ a, P (String a "")) →
  (∀ a b t, P t → P (String b t) → P (String a (String b t))) → ∀ s, P s.
Proof.
  intros H0 H1 H2. assert (H : ∀ s, P s ∧ ∀ a, P (String a s)); [|intros s; apply H].
  induction s as [|b s [IH1 IH2]]; [by split|]. split; [apply IH2|]. intros a. by apply H2.
Qed.

(** one step with a character of lookahead *)
Lemma strip_eq m a b t : strip m (String a (String b t)) =
  match m with
  | Str => if Ascii.eqb a bs then String a (String b (strip Str t))
           else String a (strip (if Ascii.eqb a dq then Code else Str) (String b t))
  | Code =>
      if Ascii.eqb a dq then String a (strip Str (String b t))
      else if Ascii.eqb a "/" then
        if Ascii.eqb b "/" then String space (strip Line (String b t))
        else if Ascii.eqb b "*" then String space (strip Block (String b t))
        else String a (strip Code (String b t))
      else String a (strip Code (String b t))
  | Line => if Ascii.eqb a nlc then String a (strip Code (String b t)) else String space (strip Line (String b t))
  | Block =>
      if Ascii.eqb a nlc then String a (strip Block (String b t))
      else if Ascii.eqb a "*" && Ascii.eqb b "/" then String space (String space (strip Code t))
      else String space (strip Block (String b t))
  end.
Proof. by destruct m. Qed.

Lemma strip_kept s : ∀ m, Forall2 kept (chars s) (chars (strip m s)).
Proof.
  assert (Hk : ∀ a, kept a a) by (by left).
  assert (Hb : ∀ a, Ascii.eqb a nlc = false → kept a space) by (intros a Ha; right; split; [done|by apply Ascii.eqb_neq]).
  assert (Hs : ∀ a b, Ascii.eqb a b = true → a = b) by (intros a b; apply Ascii.eqb_eq).
  induction s as [|a|a b t IH1 IH2] using string_ind2; intros m; [by constructor| |].
  - destruct m; cbn [strip]; repeat case_match; cbn; (constructor; [|by constructor]); auto.
  - assert (Hnl : ∀ c, Ascii.eqb a c = true → Ascii.eqb c nlc = false → kept a space)
      by (intros c ->%Hs Hc; by apply Hb).
    rewrite strip_eq. destruct m.
    + destruct (Ascii.eqb a dq); [constructor; [done|apply (IH2 Str)]|].
      destruct (Ascii.eqb a "/") eqn:Ea; [|constructor; [done|apply (IH2 Code)]].
      destruct (Ascii.eqb b "/"); [constructor; [by eapply Hnl|apply (IH2 Line)]|].
      destruct (Ascii.eqb b "*"); [constructor; [by eapply Hnl|apply (IH2 Block)]|].
      constructor; [done|apply (IH2 Code)].
    + destruct (Ascii.eqb a bs); [repeat (constructor; [done|]); apply IH1|].
      constructor; [done|]. destruct (Ascii.eqb a dq); [apply (IH2 Code)|apply (IH2 Str)].
    + destruct (Ascii.eqb a nlc) eqn:Ea; [constructor; [done|apply (IH2 Code)]|constructor; [by apply Hb|apply (IH2 Line)]].
    + destruct (Ascii.eqb a nlc) eqn:Ea; [constructor; [done|apply (IH2 Block)]|].
      destruct (Ascii.eqb a "*" && Ascii.eqb b "/") eqn:Eb; [|constructor; [by apply Hb|apply (IH2 Block)]].
      apply andb_true_iff in Eb as [_ ->%Hs]. constructor; [by apply Hb|]. constructor; [by apply Hb|apply IH1].
Qed.

Lemma strip_one m a x : m = Str ∧ Ascii.eqb a bs = false ∨ m = Code ∧ Ascii.eqb a "/" = false →
  strip m (String a x) = String a (strip (if Ascii.eqb a dq then (if decide (m = Str) then Code else Str) else m) x).
Proof. intros [[-> H]|[-> H]]; cbn [strip]; rewrite H; by destruct (Ascii.eqb a dq). Qed.

Lemma strip_blank x : strip Code (String space x) = String space (strip Code x).
Proof. done. Qed.
Lemma strip_break x : strip Code (String nlc x) = String nlc (strip Code x).
Proof. done. Qed.

Lemma strip_idem s :
  strip Code (strip Code s) = strip Code s ∧ strip Str (strip Str s) = strip Str s ∧
  strip Code (strip Line s) = strip Line s ∧ strip Code (strip Block s) = strip Block s.
Proof.
  assert (Hs : ∀ a b, Ascii.eqb a b = true → a = b) by (intros a b; apply Ascii.eqb_eq).
  induction s as [|a|a b t IH1 IH2] using string_ind2; [done| |].
  { split_and!; cbn [strip]; repeat (case_match; cbn [strip] in *; simplify_eq); try done; cbn [strip]; repeat case_match; congruence. }
  destruct IH1 as (C1 & S1 & L1 & B1), IH2 as (C2 & S2 & L2 & B2). rewrite !strip_eq. split_and!.
  - destruct (Ascii.eqb a dq) eqn:Eq.
    { apply Hs in Eq as ->. set (x := strip Str (String b t)) in *. change (strip Code (String dq x)) with (String dq (strip Str x)). by rewrite S2. }
    destruct (Ascii.eqb a "/") eqn:Ea; [|rewrite (strip_one Code) by (by right); by rewrite Eq, C2].
    destruct (Ascii.eqb b "/") eqn:Eb; [by rewrite strip_blank, L2|].
    destruct (Ascii.eqb b "*") eqn:Ec; [by rewrite strip_blank, B2|].
    assert (Hh : ∃ u, strip Code (String b t) = String b u) by (rewrite strip_one by (by right); by eexists).
    destruct Hh as [u Hu]. rewrite Hu in C2 |- *. by rewrite strip_eq, Eq, Ea, Eb, Ec, C2.
  - destruct (Ascii.eqb a bs) eqn:Ea; [by rewrite strip_eq, Ea, S1|].
    rewrite (strip_one Str) by (by left). rewrite decide_True by done.
    destruct (Ascii.eqb a dq); [by rewrite C2|by rewrite S2].
  - destruct (Ascii.eqb a nlc) eqn:Ea; [apply Hs in Ea as ->; by rewrite strip_break, C2|by rewrite strip_blank, L2].
  - destruct (Ascii.eqb a nlc) eqn:Ea; [apply Hs in Ea as ->; by rewrite strip_break, B2|].
    destruct (_ && _); [by rewrite !strip_blank, C1|by rewrite strip_blank, B2].
Qed.

(** * Writing and reading back *)

Lemma assoc_set_fresh {A} (m acc : list (string * A)) : NoDup (acc.*1 ++ m.*1) →
  foldl (λ acc kv, assoc_set kv.1 kv.2 acc) acc m = acc ++ m.
Proof.
  revert acc. induction m as [|[k v] m IH]; intros acc Hn; [by rewrite app_nil_r|]. cbn [foldl fst snd].
  rewrite assoc_set_app; cycle 1.
  { cbn in Hn. apply NoDup_app in Hn as (_ & Hn & _). intros Hk. apply (Hn k Hk). apply elem_of_cons. by left. }
  rewrite IH; [by rewrite <-(assoc_L app)|]. rewrite fmap_app, <-(assoc_L app). exact Hn.
Qed.

(** Every map of the value has distinct keys. *)
Fixpoint distinct (v : json) : Prop :=
  match v with
  | JArr l => fold_right (λ x P, distinct x ∧ P) True l
  | JObj m => NoDup m.*1 ∧ fold_right (λ x P, distinct x.2 ∧ P) True m
  | _ => True
  end.
Lemma conj_forall {A} (P : A → Prop) l : fold_right (λ x Q, P x ∧ Q) True l ↔ Forall P l.
Proof. induction l as [|x l IH]; cbn; [by split|]. by rewrite Forall_cons, IH. Qed.

Lemma canon_keys m : (isort member_cmp (map (λ x, (x.1, canon x.2)) m)).*1 ≡ₚ m.*1.
Proof.
  rewrite isort_perm. change (map ?f m) with (f <$> m). rewrite <-list_fmap_compose. done.
Qed.

Lemma to_any_canon v : distinct v → to_any (canon v) = canon v.
Proof.
  induction v as [|b|lit|s|l IH|m IH] using json_ind'; cbn [distinct canon]; intros Hd; try done.
  - cbn [to_any]. f_equal. rewrite map_map. apply map_ext_in. intros x Hx%list_elem_of_In.
    apply conj_forall in Hd. rewrite Forall_forall in IH, Hd. by apply IH; [|apply Hd].
  - destruct Hd as [Hn Hd]. apply conj_forall in Hd. cbn [to_any]. f_equal.
    set (l := isort _ _). assert (Hl : map (λ x, (x.1, to_any x.2)) l = l).
    { rewrite <-(map_id l) at 2. apply map_ext_in. intros [k x] Hx%list_elem_of_In. unfold l in Hx.
      rewrite isort_perm in Hx. apply list_elem_of_In, in_map_iff in Hx as ([k' y] & [= <- <-] & Hy). cbn.
      apply Forall_fmap in IH. rewrite Forall_forall in IH, Hd. apply list_elem_of_In in Hy.
      rewrite (IH (k', y) Hy); [done|]. by apply (Hd (k', y)). }
    rewrite Hl, assoc_set_fresh; [done|]. cbn. unfold l. by rewrite canon_keys.
Qed.

Lemma perm_forallb {A} (p : A → bool) l k : l ≡ₚ k → forallb p l = forallb p k.
Proof.
  intros H. destruct (forallb p k) eqn:E.
  - apply forallb_forall. intros x Hx. apply (proj1 (forallb_forall _ _) E). apply list_elem_of_In. rewrite <-H. by apply list_elem_of_In.
  - apply not_true_iff_false. intros Hf. apply not_true_iff_false in E. apply E. apply forallb_forall. intros x Hx.
    apply (proj1 (forallb_forall _ _) Hf). apply list_elem_of_In. rewrite H. by apply list_elem_of_In.
Qed.

Lemma canon_wf v : jwf (canon v) = jwf v ∧ jutf8 (canon v) = jutf8 v ∧ jdepth (canon v) = jdepth v.
Proof.
  induction v as [|b|lit|s|l IH|m IH] using json_ind'; try done.
  - cbn [canon jwf jutf8 jdepth]. rewrite !map_map. induction IH as [|x l (H1 & H2 & H3) _ IHl]; [done|].
    cbn [map forallb fold_right]. rewrite H1, H2, H3. destruct IHl as (E1 & E2 & E3). rewrite E1, E2. split_and!; [done|done|].
    f_equal. f_equal. by apply N.succ_inj.
  - cbn [canon jwf jutf8 jdepth]. apply Forall_fmap in IH.
    rewrite (perm_forallb _ _ _ (isort_perm member_cmp _)), (perm_forallb (λ x, valid_utf8 x.1 && jutf8 x.2) _ _ (isort_perm member_cmp _)).
    assert (Hmax : ∀ l k : list (string * json), l ≡ₚ k → fold_right N.max 0%N (map (λ x, jdepth x.2) l) = fold_right N.max 0%N (map (λ x, jdepth x.2) k))
      by (induction 1; cbn; lia).
    rewrite (Hmax _ _ (isort_perm member_cmp _)). clear Hmax.
    induction IH as [|[k x] m (H1 & H2 & H3) _ IHm]; [done|]. cbn [map forallb fold_right fst snd] in *. rewrite H1, H2, H3.
    destruct IHm as (E1 & E2 & E3). rewrite E1, E2. split_and!; [done|done|]. f_equal. f_equal. by apply N.succ_inj.
Qed.

Lemma trim_space_head a s : bz a < 0x80 → is_space (bz a) = false → trim_space (String a s) ≠ "".
Proof.
  intros Ha Hs He. destruct (trim_space_spec (String a s)) as (l & r & m & Hseg & Ht & Hl & Hr & _).
  rewrite He in Ht. rewrite segs_ascii in Hseg by done.
  assert (Hm : ∀ x, x ∈ m → x.2 = "").
  { intros x Hx. apply list_elem_of_split in Hx as (m1 & m2 & ->). rewrite unsegs_app in Ht. cbn in Ht.
    destruct (unsegs m1); [|done]. cbn in Ht. by destruct x.2. }
  destruct l as [|x l]; [destruct m as [|x m]|]; cbn in Hseg.
  - destruct r as [|x r]; [done|]. injection Hseg as <- _. apply Forall_cons in Hr as [Hr _]. unfold seg_space in Hr. cbn in Hr. congruence.
  - injection Hseg as <- _. by specialize (Hm _ (proj2 (elem_of_cons _ _ _) (or_introl eq_refl))).
  - injection Hseg as <- _. apply Forall_cons in Hl as [Hl _]. unfold seg_space in Hl. cbn in Hl. congruence.
Qed.

(** values a configuration can hold: valid numbers and text, maps with distinct
    keys, and no deeper than the decoder reads *)
Record storable (v : json) : Prop := {
  st_wf : jwf v = true;
  st_utf8 : jutf8 v = true;
  st_distinct : distinct v;
  st_depth : (jdepth v ≤ max_depth)%N }.

(** ** What is read is storable *)

Lemma encode_rune_valid r : valid_utf8 (encode_rune r) = true.
Proof. destruct (segs_string_of_runes [r]) as [H _]. cbn [string_of_runes fold_right] in H. by rewrite sapp_nil_r in H. Qed.
Lemma valid_encode_app r y : valid_utf8 y = true → valid_utf8 (encode_rune r +:+ y) = true.
Proof. intros Hy. rewrite valid_utf8_app; [done|apply encode_rune_valid]. Qed.

Lemma p_escape_valid s x t : p_escape s = Some (x, t) → valid_utf8 x = true.
Proof.
  destruct s as [|a s]; [done|]. destruct (Ascii.eqb_spec a "u") as [->|Hu].
  - cbn [p_escape]. destruct (p_hex4 s) as [[r u]|]; [|done]. cbn [mbind option_bind].
    destruct (p_utf16 r u) as [c w]. intros [= <- _]. apply encode_rune_valid.
  - intros H. assert (Hs : ∃ b, x = String b "" ∧ bz b < 0x80).
    { unfold p_escape in H. destruct a as [[] [] [] [] [] [] [] []]; try done; cbn in H; injection H as <- _; by eexists. }
    destruct Hs as (b & -> & Hb). by rewrite valid_utf8_ascii.
Qed.

Lemma p_string_valid n s x t : p_string n s = Some (x, t) → valid_utf8 x = true.
Proof.
  revert s x t. induction n as [|n IH]; intros s x t; [done|]. destruct s as [|a s]; [done|]. cbn [p_string].
  destruct (Ascii.eqb a dq); [by intros [= <- _]|]. destruct (Ascii.eqb a bs).
  - destruct (p_escape s) as [[y u]|] eqn:Ee; [|done]. cbn [mbind option_bind]. destruct (p_string n u) as [[z w]|] eqn:Ep; [|done].
    intros [= <- _]. rewrite valid_utf8_app; [by eapply IH|by eapply p_escape_valid].
  - destruct (bz a <? 0x20); [done|]. destruct (decode1 (String a s)) as [[[r b] u]|]; [|done]. cbn [mbind option_bind].
    destruct (p_string n u) as [[z w]|] eqn:Ep; [|done]. intros [= <- _]. apply valid_encode_app. by eapply IH.
Qed.

Lemma span_span p s : (span p (span p s).1).2 = "".
Proof.
  induction s as [|a s IH]; [done|]. cbn. destruct (p a) eqn:Ea; [|done]. destruct (span p s) as [x y]. cbn in *. rewrite Ea.
  by destruct (span p x).
Qed.

(** a value whose numbers and texts are valid, and that fits below depth [d] *)
Definition readable (d : N) (v : json) : Prop := jwf v = true ∧ jutf8 v = true ∧ (d + jdepth v ≤ max_depth)%N.

Lemma p_value_readable n :
  (∀ d s v t, (d ≤ max_depth)%N → p_value n d s = Some (v, t) → readable d v) ∧
  (∀ d s l t, (d ≤ max_depth)%N → p_elems n d s = Some (l, t) → Forall (readable d) l) ∧
  (∀ d s m t, (d ≤ max_depth)%N → p_members n d s = Some (m, t) → Forall (λ x, valid_utf8 x.1 = true ∧ readable d x.2) m).
Proof.
  induction n as [|n (IHv & IHl & IHm)]; [done|]. split_and!; intros d s.
  - intros v t Hd. cbn [p_value]. destruct (skip_ws s) as [|a u]; [done|].
    assert (Hsc : ∀ w, (jdepth w = 0)%N → jwf w = true → jutf8 w = true → readable d w).
    { intros w H0 H1 H2. split_and!; [done|done|]. rewrite H0. lia. }
    assert (Hlit : ∀ lit w, lit_prefix lit w (String a u) = Some (v, t) → v = w).
    { intros lit w. unfold lit_prefix. destruct (cut_prefix _ _); [by intros [= <- _]|done]. }
    destruct (Ascii.eqb a "{").
    { destruct (max_depth <=? d)%N eqn:Ed; [done|]. apply N.leb_gt in Ed.
      destruct (eat "}" (skip_ws u)); [intros [= <- _]; split_and!; [done|done|cbn; lia]|].
      destruct (p_members n (N.succ d) u) as [[m w]|] eqn:Em; [|done]. intros [= <- _].
      assert (Hm : Forall (λ x, valid_utf8 x.1 = true ∧ readable (N.succ d) x.2) m) by (eapply IHm; [|exact Em]; lia).
      split_and!; cbn [jwf jutf8 jdepth].
      - apply forallb_forall. intros x Hx%list_elem_of_In. rewrite Forall_forall in Hm. by apply Hm.
      - apply forallb_forall. intros x Hx%list_elem_of_In. rewrite Forall_forall in Hm. destruct (Hm x Hx) as (H1 & _ & H2 & _). by rewrite H1, H2.
      - clear -Hm Ed. induction Hm as [|x m (_ & _ & _ & Hx) _ IH]; cbn [map fold_right]; lia. }
    destruct (Ascii.eqb a "[").
    { destruct (max_depth <=? d)%N eqn:Ed; [done|]. apply N.leb_gt in Ed.
      destruct (eat "]" (skip_ws u)); [intros [= <- _]; split_and!; [done|done|cbn; lia]|].
      destruct (p_elems n (N.succ d) u) as [[l w]|] eqn:El; [|done]. intros [= <- _].
      assert (Hl : Forall (readable (N.succ d)) l) by (eapply IHl; [|exact El]; lia).
      split_and!; cbn [jwf jutf8 jdepth].
      - apply forallb_forall. intros x Hx%list_elem_of_In. rewrite Forall_forall in Hl. by apply Hl.
      - apply forallb_forall. intros x Hx%list_elem_of_In. rewrite Forall_forall in Hl. by apply Hl.
      - clear -Hl Ed. induction Hl as [|x l (_ & _ & Hx) _ IH]; cbn [map fold_right]; lia. }
    destruct (Ascii.eqb a dq).
    { destruct (p_string (S (slen u)) u) as [[x w]|] eqn:Es; [|done]. intros [= <- _]. apply Hsc; [done|done|].
      by eapply p_string_valid. }
    destruct (Ascii.eqb a "t"); [intros ->%Hlit; by apply Hsc|].
    destruct (Ascii.eqb a "f"); [intros ->%Hlit; by apply Hsc|].
    destruct (Ascii.eqb a "n"); [intros ->%Hlit; by apply Hsc|].
    pose proof (span_span number_char (String a u)) as Hs. destruct (span number_char (String a u)) as [lit w]. cbn [fst] in Hs.
    destruct (valid_number lit) eqn:En; [|done]. intros [= <- _]. apply Hsc; [done| |done]. cbn [jwf]. by rewrite En, Hs.
  - intros l t Hd. cbn [p_elems]. destruct (p_value n d s) as [[v u]|] eqn:Ev; [|done]. cbn [mbind option_bind].
    pose proof (IHv d s v u Hd Ev) as Hv. destruct (eat "," (skip_ws u)) as [u'|].
    + destruct (p_elems n d u') as [[l' w]|] eqn:El; [|done]. intros [= <- _]. constructor; [done|by eapply IHl].
    + destruct (eat "]" (skip_ws u)); [|done]. intros [= <- _]. constructor; [done|apply Forall_nil_2].
  - intros m t Hd. cbn [p_members]. destruct (eat dq (skip_ws s)) as [u|]; [|done]. cbn [mbind option_bind].
    destruct (p_string (S (slen u)) u) as [[k w]|] eqn:Ek; [|done]. apply p_string_valid in Ek. cbn [mbind option_bind].
    destruct (eat ":" (skip_ws w)) as [w'|]; [|done]. cbn [mbind option_bind].
    destruct (p_value n d w') as [[v u2]|] eqn:Ev; [|done]. cbn [mbind option_bind].
    pose proof (IHv d w' v u2 Hd Ev) as Hv. destruct (eat "," (skip_ws u2)) as [u3|].
    + destruct (p_members n d u3) as [[m' w2]|] eqn:Em; [|done]. intros [= <- _]. constructor; [done|by eapply IHm].
    + destruct (eat "}" (skip_ws u2)); [|done]. intros [= <- _]. constructor; [done|apply Forall_nil_2].
Qed.

(** Decoding into Go maps keeps all that and makes the keys distinct. *)
Lemma to_any_readable v d : readable d v → readable d (to_any v) ∧ distinct (to_any v).
Proof.
  revert d. induction v as [|b|lit|s|l IH|m IH] using json_ind'; intros d Hr; try done.
  - destruct Hr as (Hw & Hu & Hd). cbn [jwf jutf8 jdepth to_any distinct] in *.
    assert (Hl : Forall (λ x, readable (N.succ d) (to_any x) ∧ distinct (to_any x)) l).
    { rewrite Forall_forall in IH |- *. intros x Hx. apply IH; [done|]. rewrite forallb_forall in Hw, Hu.
      pose proof (proj1 (list_elem_of_In _ _) Hx) as HIn. split_and!; [by apply Hw|by apply Hu|].
      assert (jdepth x ≤ fold_right N.max 0 (map jdepth l))%N; [|lia]. clear -HIn. induction l as [|y l IH]; [done|]. cbn.
      destruct HIn as [->|HIn]; [lia|]. specialize (IH HIn). lia. }
    split; [split_and!|].
    + apply forallb_forall. intros y (x & <- & Hx%list_elem_of_In)%in_map_iff. rewrite Forall_forall in Hl. by apply Hl.
    + apply forallb_forall. intros y (x & <- & Hx%list_elem_of_In)%in_map_iff. rewrite Forall_forall in Hl. by apply Hl.
    + cbn [jdepth]. clear -Hl Hd. induction Hl as [|x l ((_ & _ & Hx) & _) _ IHl]; cbn [map fold_right] in *; lia.
    + apply conj_forall, Forall_forall. intros y (x & -> & Hx)%list_elem_of_fmap. rewrite Forall_forall in Hl. by apply Hl.
  - destruct Hr as (Hw & Hu & Hd). cbn [jwf jutf8 jdepth to_any distinct] in *.
    assert (Hm : Forall (λ x, valid_utf8 x.1 = true ∧ readable (N.succ d) x.2 ∧ distinct x.2) (map (λ x, (x.1, to_any x.2)) m)).
    { apply Forall_fmap, Forall_forall. intros x Hx. apply Forall_fmap in IH. rewrite Forall_forall in IH. cbn [fst snd compose].
      pose proof (proj1 (list_elem_of_In _ _) Hx) as HIn. rewrite forallb_forall in Hw, Hu.
      destruct (proj1 (andb_true_iff _ _) (Hu x HIn)) as [Hk Hux]. split; [done|]. apply (IH x Hx). split_and!; [by apply Hw|done|].
      assert (jdepth x.2 ≤ fold_right N.max 0 (map (λ x, jdepth x.2) m))%N; [|lia]. clear -HIn. induction m as [|y m IH]; [done|]. cbn.
      destruct HIn as [->|HIn]; [lia|]. specialize (IH HIn). lia. }
    assert (Hf : ∀ l acc, Forall (λ x, valid_utf8 x.1 = true ∧ readable (N.succ d) x.2 ∧ distinct x.2) l →
      Forall (λ x, valid_utf8 x.1 = true ∧ readable (N.succ d) x.2 ∧ distinct x.2) acc → NoDup acc.*1 →
      let o := foldl (λ acc kv, assoc_set kv.1 kv.2 acc) acc l in
      Forall (λ x, valid_utf8 x.1 = true ∧ readable (N.succ d) x.2 ∧ distinct x.2) o ∧ NoDup o.*1).
    { clear. induction l as [|[k x] l IH]; intros acc Hl Ha Hn; [done|]. cbn [foldl]. apply Forall_cons in Hl as [Hx Hl].
      apply IH; [done| |by apply assoc_set_NoDup]. clear -Ha Hx. induction Ha as [|[k' v'] acc H1 H2 IH]; cbn [assoc_set fst snd] in *; [by apply Forall_singleton|].
      destruct (String.eqb k' k); by constructor. }
    destruct (Hf _ [] Hm ltac:(constructor) ltac:(constructor)) as [Ho Hn]. cbv zeta in Ho, Hn.
    set (o := foldl _ _ _) in *. clearbody o. clear -Ho Hn Hd.
    split; [split_and!|].
    + cbn [jwf]. apply forallb_forall. intros x Hx%list_elem_of_In. rewrite Forall_forall in Ho. by apply Ho.
    + cbn [jutf8]. apply forallb_forall. intros x Hx%list_elem_of_In. rewrite Forall_forall in Ho. destruct (Ho x Hx) as (H1 & (_ & H2 & _) & _).
      by rewrite H1, H2.
    + cbn [jdepth]. clear Hn. induction Ho as [|x o (_ & (_ & _ & Hx) & _) _ IHo]; cbn [map fold_right] in *; lia.
    + cbn [distinct]. split; [done|]. apply conj_forall. eapply Forall_impl; [exact Ho|]. by intros x (_ & _ & Hx).
Qed.

(** Whatever text a configuration file holds, the object read from it is one that
    can be written. *)
Lemma parse_storable b m : parse_object b = Some m → storable (JObj m).
Proof.
  unfold parse_object. destruct (String.eqb (trim_space b) ""); [intros [= <-]; by repeat constructor|].
  unfold decode_prefix. destruct (p_value _ 0 _) as [[v t]|] eqn:Ep; [|done].
  apply p_value_readable in Ep; [|by vm_compute]. destruct v as [| | | | |m']; try done; [intros [= <-]; by repeat constructor|].
  pose proof (to_any_readable (JObj m') 0 Ep) as Ht. cbn [to_any] in Ht |- *. intros [= <-].
  destruct Ht as [(H1 & H2 & H3) H4]. by split.
Qed.

Lemma parse_render m : storable (JObj m) → ∃ m', parse_object (render_object m) = Some m' ∧ JObj m' = canon (JObj m).
Proof.
  intros [Hwf Hutf Hdis Hdep]. set (v := canon (JObj m)). destruct (canon_wf (JObj m)) as (W1 & W2 & W3). fold v in W1, W2, W3.
  assert (Hv : ∃ k, v = JObj k) by (eexists; reflexivity). destruct Hv as [k Hk].
  assert (Hhead : ∃ a s, print true 0 v = String a s ∧ bz a < 0x80 ∧ is_space (bz a) = false).
  { rewrite Hk. destruct k as [|x k]; eexists _, _; (split; [reflexivity|done]). }
  destruct Hhead as (a & s & Hp & Ha & Hs).
  unfold parse_object, render_object. fold v. unfold marshal_indent.
  assert (Hne : String.eqb (trim_space (print true 0 v +:+ String nlc "")) "" = false).
  { apply String.eqb_neq. rewrite Hp. by apply trim_space_head. }
  rewrite Hne. unfold stripJSONComments, stripTrailingCommas. rewrite strip_print by congruence.
  change (strip Code (String nlc "")) with (String nlc ""). rewrite commas_print by congruence.
  change (commas false (String nlc "")) with (String nlc "").
  rewrite decode_prefix_print by (done || congruence || (by rewrite W3)). rewrite jnorm_id by congruence.
  assert (He : to_any (JObj k) = JObj k) by (rewrite <-Hk; unfold v; by apply to_any_canon).
  rewrite Hk. cbv iota beta. rewrite He. by exists k.
Qed.

(** * The canonical form *)

Lemma member_cmp_anti x y : member_cmp y x = CompOpp (member_cmp x y).
Proof. apply str_compare_antisym. Qed.
Lemma member_cmp_trans x y z : cmp_le member_cmp x y → cmp_le member_cmp y z → cmp_le member_cmp x z.
Proof.
  unfold cmp_le, member_cmp. intros H1 H2. destruct (str_compare x.1 y.1) eqn:E1; [|clear H1|done].
  - apply str_compare_eq in E1. by rewrite E1.
  - destruct (str_compare y.1 z.1) eqn:E2; [| |done].
    + apply str_compare_eq in E2. by rewrite <-E2, E1.
    + by rewrite (str_compare_trans _ _ _ E1 E2).
Qed.

Lemma isort_sorted_id {A} (cmp : A → A → comparison) l : StronglySorted (cmp_le cmp) l → isort cmp l = l.
Proof.
  induction 1 as [|x l Hl IH Hx]; [done|]. change (isort cmp (x :: l)) with (insert_by cmp x (isort cmp l)). rewrite IH. destruct l as [|y l]; [done|]. cbn.
  apply Forall_cons in Hx as [Hx _]. unfold cmp_le in Hx. by destruct (cmp x y).
Qed.

Lemma canon_idem v : canon (canon v) = canon v.
Proof.
  induction v as [|b|lit|s|l IH|m IH] using json_ind'; try done.
  - cbn [canon]. f_equal. rewrite map_map. apply map_ext_in. intros x Hx%list_elem_of_In. rewrite Forall_forall in IH. auto.
  - cbn [canon]. f_equal. set (l := isort member_cmp (map _ m)).
    assert (Hl : map (λ x, (x.1, canon x.2)) l = l).
    { rewrite <-(map_id l) at 2. apply map_ext_in. intros [k x] Hx%list_elem_of_In. unfold l in Hx.
      rewrite isort_perm in Hx. apply list_elem_of_In, in_map_iff in Hx as ([k' y] & [= <- <-] & Hy). cbn.
      apply Forall_fmap in IH. rewrite Forall_forall in IH. apply list_elem_of_In in Hy. by rewrite (IH (k', y) Hy). }
    rewrite Hl. apply isort_sorted_id. unfold l. apply isort_sorted; [apply member_cmp_anti|apply member_cmp_trans].
Qed.

Lemma assoc_get_canon k m m' : NoDup m.*1 → JObj m' = canon (JObj m) → assoc_get k m' = canon <$> assoc_get k m.
Proof.
  intros Hn. cbn [canon]. intros [= ->]. apply option_eq. intros v. rewrite assoc_get_elem by (by rewrite canon_keys).
  rewrite isort_perm. rewrite list_elem_of_In, in_map_iff, fmap_Some. split.
  - intros ([k' x] & [= <- <-] & Hx). exists x. split; [|done]. apply assoc_get_elem; [done|by apply list_elem_of_In].
  - intros (x & Hx & ->). exists (k, x). split; [done|]. apply assoc_get_elem in Hx; [|done]. by apply list_elem_of_In.
Qed.

Lemma equalJSON_canon v : equalJSON (canon v) v = true.
Proof. unfold equalJSON. rewrite canon_idem. apply String.eqb_refl. Qed.

(** ** What the filters are for *)

(** a string literal after its opening quote, with the closing one; the rest of a
    text in which it is not closed *)
Inductive literal : string → Prop :=
| lit_close : literal (String dq "")
| lit_escape a u : literal u → literal (String bs (String a u))
| lit_char a u : a ≠ bs → a ≠ dq → literal u → literal (String a u).
Inductive open_literal : string → Prop :=
| open_end : open_literal ""
| open_backslash : open_literal (String bs "")
| open_escape a u : open_literal u → open_literal (String bs (String a u))
| open_char a u : a ≠ bs → a ≠ dq → open_literal u → open_literal (String a u).

Definition starts (c : char) (s : string) : Prop := ∃ u, s = String c u.
(** up to the first [*/], the end included; a text without one. The star that opens a
    comment may be the one that closes it. *)
Inductive block : string → Prop :=
| block_close : block "*/"
| block_char a u : ¬ (a = "*"%char ∧ starts "/" u) → block u → block (String a u).
Inductive open_block : string → Prop :=
| open_block_end : open_block ""
| open_block_char a u : ¬ (a = "*"%char ∧ starts "/" u) → open_block u → open_block (String a u).

Fixpoint blanked (s : string) : string := match s with "" => "" | String a t => String (blank a) (blanked t) end.

(** [t] is [s] with its comments blanked: everything outside them is the same, and a
    comment does not start inside a literal. *)
Inductive without_comments : string → string → Prop :=
| wc_end : without_comments "" ""
| wc_char a s t : a ≠ dq → (a = "/"%char → ¬ starts "/" s ∧ ¬ starts "*" s) →
    without_comments s t → without_comments (String a s) (String a t)
| wc_literal l s t : literal l → without_comments s t →
    without_comments (String dq (l +:+ s)) (String dq (l +:+ t))
| wc_open_literal l : open_literal l → without_comments (String dq l) (String dq l)
| wc_line c s t : starts "/" c → contains_char nlc c = false → s = "" ∨ starts nlc s → without_comments s t →
    without_comments (String "/" (c +:+ s)) (blanked (String "/" c) +:+ t)
| wc_block c s t : starts "*" c → block c → without_comments s t →
    without_comments (String "/" (c +:+ s)) (blanked (String "/" c) +:+ t)
| wc_open_block c : starts "*" c → open_block c → without_comments (String "/" c) (blanked (String "/" c)).

(** a closing bracket follows, after white space *)
Definition before_bracket (s : string) : Prop :=
  ∃ ws c u, s = ws +:+ String c u ∧ Forall (λ a, is_ws a = true) (chars ws) ∧ (c = "}"%char ∨ c = "]"%char).

(** [t] is [s] without the commas outside literals that a closing bracket follows. *)
Inductive without_commas : string → string → Prop :=
| wk_end : without_commas "" ""
| wk_char a s t : a ≠ dq → (a = ","%char → ¬ before_bracket s) → without_commas s t → without_commas (String a s) (String a t)
| wk_comma s t : before_bracket s → without_commas s t → without_commas (String "," s) t
| wk_literal l s t : literal l → without_commas s t → without_commas (String dq (l +:+ s)) (String dq (l +:+ t))
| wk_open_literal l : open_literal l → without_commas (String dq l) (String dq l).

Lemma starts_dec c s : {starts c s} + {¬ starts c s}.
Proof.
  destruct s as [|a s]; [right; by intros [? ?]|]. destruct (Ascii.eqb_spec a c) as [->|Hne]; [left; by exists s|].
  right. intros [u [= -> _]]. done.
Qed.

(** *** How a text splits *)

Lemma literal_split u : (∃ l v, literal l ∧ u = l +:+ v) ∨ open_literal u.
Proof.
  induction u as [|a|a b u IHu IHb] using string_ind2; [right; constructor| |].
  - destruct (Ascii.eqb_spec a bs) as [->|Hb]; [right; constructor|].
    destruct (Ascii.eqb_spec a dq) as [->|Hq]; [left; exists (String dq ""), ""; split; [constructor|done]|]. right. apply open_char; [done|done|constructor].
  - destruct (Ascii.eqb_spec a bs) as [->|Hb].
    + destruct IHu as [(l & v & Hl & ->)|Ho]; [|right; by constructor]. left. exists (String bs (String b l)), v. split; [by constructor|done].
    + destruct (Ascii.eqb_spec a dq) as [->|Hq]; [left; exists (String dq ""), (String b u); split; [constructor|done]|].
      destruct IHb as [(l & v & Hl & Hv)|Ho]; [|right; by constructor]. left. exists (String a l), v. split; [by constructor|by rewrite Hv].
Qed.

Lemma block_split u : (∃ c v, block c ∧ u = c +:+ v) ∨ open_block u.
Proof.
  induction u as [|a u IH]; [right; constructor|]. destruct (decide (a = "*"%char)) as [->|Ha].
  - destruct (starts_dec "/" u) as [[v ->]|Hn]; [left; exists "*/", v; split; [constructor|done]|].
    destruct IH as [(c & v & Hc & ->)|Ho]; [|right; constructor; [by intros [_ ?]|done]].
    left. exists (String "*" c), v. split; [|done]. constructor; [|done]. intros [_ [w ->]]. apply Hn. by exists (w +:+ v).
  - destruct IH as [(c & v & Hc & ->)|Ho]; [|right; constructor; [by intros [? _]|done]].
    left. exists (String a c), v. split; [|done]. constructor; [by intros [? _]|done].
Qed.

Lemma line_split u : ∃ c v, u = c +:+ v ∧ contains_char nlc c = false ∧ (v = "" ∨ starts nlc v).
Proof.
  induction u as [|a u (c & v & -> & Hc & Hv)]; [exists "", ""; split_and!; [done|done|by left]|].
  destruct (Ascii.eqb a nlc) eqn:Ea.
  - apply Ascii.eqb_eq in Ea as ->. exists "", (String nlc (c +:+ v)). split_and!; [done|done|right; by eexists].
  - exists (String a c), v. split_and!; [done| |done]. by rewrite contains_char_cons, Ea, Hc.
Qed.

(** *** What the scan does with each part *)

Lemma strip_literal l s : literal l → strip Str (l +:+ s) = l +:+ strip Code s.
Proof.
  induction 1 as [|a u _ IH|a u Hb Hq _ IH]; cbn [String.append].
  - by destruct s.
  - cbn [strip]. by rewrite Ascii.eqb_refl, IH.
  - cbn [strip]. apply Ascii.eqb_neq in Hb, Hq. by rewrite Hb, Hq, IH.
Qed.
Lemma strip_open_literal l : open_literal l → strip Str l = l.
Proof.
  induction 1 as [| |a u _ IH|a u Hb Hq _ IH]; [done|done| |]; cbn [strip].
  - by rewrite Ascii.eqb_refl, IH.
  - apply Ascii.eqb_neq in Hb, Hq. by rewrite Hb, Hq, IH.
Qed.

Lemma strip_line c s : contains_char nlc c = false → s = "" ∨ starts nlc s → strip Line (c +:+ s) = blanked c +:+ strip Code s.
Proof.
  induction c as [|a c IH]; intros Hc Hs.
  - destruct Hs as [->|[u ->]]; [done|]. by cbn [String.append blanked]; rewrite strip_break.
  - rewrite contains_char_cons in Hc. apply orb_false_iff in Hc as [Ha Hc]. cbn [String.append strip blanked]. unfold blank.
    by rewrite Ha, IH.
Qed.

Lemma strip_in_block a u : ¬ (a = "*"%char ∧ starts "/" u) → strip Block (String a u) = String (blank a) (strip Block u).
Proof.
  intros Hn. cbn [strip]. unfold blank. destruct (Ascii.eqb_spec a nlc) as [->|]; [done|]. destruct u as [|b v]; [done|].
  destruct (Ascii.eqb_spec a "*") as [->|]; [|done]. destruct (Ascii.eqb_spec b "/") as [->|]; [|done].
  exfalso. apply Hn. split; [done|by exists v].
Qed.
Lemma strip_block c s : block c → strip Block (c +:+ s) = blanked c +:+ strip Code s.
Proof.
  induction 1 as [|a u Hn Hu IH]; [done|]. cbn [String.append blanked]. rewrite strip_in_block, IH; [done|].
  intros [-> [w Hw]]. apply Hn. split; [done|]. destruct Hu as [|b u Hn2 _]; [discriminate|]. injection Hw as -> _. by exists u.
Qed.
Lemma strip_open_block c : open_block c → strip Block c = blanked c.
Proof. induction 1 as [|a u Hn _ IH]; [done|]. by rewrite strip_in_block, IH. Qed.

Lemma strip_code_char a s : a ≠ dq → (a = "/"%char → ¬ starts "/" s ∧ ¬ starts "*" s) → strip Code (String a s) = String a (strip Code s).
Proof.
  intros Hq Hs. cbn [strip]. apply Ascii.eqb_neq in Hq. rewrite Hq. destruct (Ascii.eqb_spec a "/") as [Ha|]; [|done].
  destruct (Hs Ha) as [H1 H2]. destruct s as [|b u]; [by subst|].
  destruct (Ascii.eqb_spec b "/") as [->|]; [by destruct H1; exists u|]. destruct (Ascii.eqb_spec b "*") as [->|]; [by destruct H2; exists u|done].
Qed.

Lemma strip_correct s t : without_comments s t → t = stripJSONComments s.
Proof.
  unfold stripJSONComments. induction 1 as [|a s t Hq Hs _ IH|l s t Hl _ IH|l Hl|c s t [u ->] Hc Hs _ IH|c s t [u ->] Hc _ IH|c [u ->] Hc].
  - done.
  - by rewrite strip_code_char, IH.
  - change (strip Code (String dq (l +:+ s))) with (String dq (strip Str (l +:+ s))). by rewrite strip_literal, IH.
  - change (strip Code (String dq l)) with (String dq (strip Str l)). by rewrite strip_open_literal.
  - change (strip Code (String "/" (String "/" u +:+ s))) with (String space (strip Line (String "/" u +:+ s))). by rewrite strip_line, IH.
  - change (strip Code (String "/" (String "*" u +:+ s))) with (String space (strip Block (String "*" u +:+ s))). by rewrite strip_block, IH.
  - change (strip Code (String "/" (String "*" u))) with (String space (strip Block (String "*" u))). by rewrite strip_open_block.
Qed.

Lemma without_comments_total n : ∀ s, (slen s < n)%nat → ∃ t, without_comments s t.
Proof.
  induction n as [|n IH]; [lia|]. intros [|a s] Hn; [eexists; constructor|].
  assert (Hrest : ∀ c v, s = c +:+ v → ∃ t, without_comments v t).
  { intros c v ->. apply IH. unfold slen in *. cbn in Hn. pose proof (slen_app c v). unfold slen in *. lia. }
  destruct (decide (a = dq)) as [->|Hq].
  { destruct (literal_split s) as [(l & v & Hl & Hs)|Ho]; [|eexists; by apply wc_open_literal].
    destruct (Hrest l v Hs) as [t Ht]. subst s. eexists. by apply wc_literal. }
  assert (Hchar : (a = "/"%char → ¬ starts "/" s ∧ ¬ starts "*" s) → ∃ t, without_comments (String a s) t).
  { intros Hs. destruct (Hrest "" s eq_refl) as [t Ht]. eexists. by apply wc_char. }
  destruct (decide (a = "/"%char)) as [->|Ha]; [|apply Hchar; by intros ?].
  destruct (starts_dec "/" s) as [H1|H1].
  { destruct (line_split s) as (c & v & Hs & Hc & Hv). destruct (Hrest c v Hs) as [t Ht]. subst s. eexists. apply wc_line; try done.
    destruct c as [|b c]; [|destruct H1 as [u [= -> _]]; by exists c]. cbn in H1. destruct Hv as [->|[w ->]]; by destruct H1 as [u [=]]. }
  destruct (starts_dec "*" s) as [H2|H2]; [|by apply Hchar].
  destruct (block_split s) as [(c & v & Hc & Hs)|Ho]; [|eexists; by apply wc_open_block].
  destruct (Hrest c v Hs) as [t Ht]. subst s. eexists. apply wc_block; [|done..].
  destruct Hc as [|b c _ _]; [by eexists|]. destruct H2 as [u [= -> _]]. by exists c.
Qed.

Lemma strip_complete s : without_comments s (stripJSONComments s).
Proof. destruct (without_comments_total (S (slen s)) s) as [t Ht]; [lia|]. by rewrite <-(strip_correct s t Ht). Qed.

(** *** Commas *)

Lemma commas_literal l s : literal l → commas true (l +:+ s) = l +:+ commas false s.
Proof.
  induction 1 as [|a u _ IH|a u Hb Hq _ IH]; cbn [String.append].
  - by destruct s.
  - cbn [commas]. by rewrite Ascii.eqb_refl, IH.
  - cbn [commas]. apply Ascii.eqb_neq in Hb, Hq. rewrite Hb, Hq. cbn [negb]. by rewrite IH.
Qed.
Lemma commas_open_literal l : open_literal l → commas true l = l.
Proof.
  induction 1 as [| |a u _ IH|a u Hb Hq _ IH]; [done|done| |]; cbn [commas].
  - by rewrite Ascii.eqb_refl, IH.
  - apply Ascii.eqb_neq in Hb, Hq. rewrite Hb, Hq. cbn [negb]. by rewrite IH.
Qed.

Lemma closing_spec s : closing s = true ↔ before_bracket s.
Proof.
  unfold closing, before_bracket. split.
  - induction s as [|a s IH]; [done|]. cbn [skip_ws]. destruct (is_ws a) eqn:Ea.
    + intros Hs. destruct (IH Hs) as (ws & c & u & -> & Hws & Hc). exists (String a ws), c, u. split_and!; [done|by constructor|done].
    + intros [H|H]%orb_true_iff; apply Ascii.eqb_eq in H as ->; eexists "", _, s; (split_and!; [done|constructor|by auto]).
  - intros (ws & c & u & -> & Hws & Hc). induction ws as [|a ws IH]; [by destruct Hc as [-> | ->]|].
    apply Forall_cons in Hws as [Ha Hws]. cbn [String.append skip_ws]. rewrite Ha. by apply IH.
Qed.

Lemma commas_correct s t : without_commas s t → t = stripTrailingCommas s.
Proof.
  unfold stripTrailingCommas. induction 1 as [|a s t Hq Hs _ IH|s t Hs _ IH|l s t Hl _ IH|l Hl]; [done| | | |].
  - cbn [commas]. apply Ascii.eqb_neq in Hq. rewrite Hq. destruct (Ascii.eqb_spec a ",") as [Ha|]; cbn [andb]; [|by rewrite IH].
    destruct (closing s) eqn:Ec; [by apply closing_spec, Hs in Ec|by rewrite IH].
  - apply closing_spec in Hs. cbn [commas]. by rewrite Hs.
  - change (commas false (String dq (l +:+ s))) with (String dq (commas true (l +:+ s))). by rewrite commas_literal, IH.
  - change (commas false (String dq l)) with (String dq (commas true l)). by rewrite commas_open_literal.
Qed.

Lemma without_commas_total n : ∀ s, (slen s < n)%nat → ∃ t, without_commas s t.
Proof.
  induction n as [|n IH]; [lia|]. intros [|a s] Hn; [eexists; constructor|].
  assert (Hrest : ∀ c v, s = c +:+ v → ∃ t, without_commas v t).
  { intros c v ->. apply IH. pose proof (slen_app c v). unfold slen in *. cbn in Hn. lia. }
  destruct (Hrest "" s eq_refl) as [t Ht]. destruct (decide (a = dq)) as [->|Hq].
  { destruct (literal_split s) as [(l & v & Hl & Hs)|Ho]; [|eexists; by apply wk_open_literal].
    destruct (Hrest l v Hs) as [t' Ht']. subst s. eexists. by apply wk_literal. }
  destruct (closing s) eqn:Ec.
  - destruct (decide (a = ","%char)) as [->|Ha]; [exists t; apply wk_comma; [by apply closing_spec|done]|].
    exists (String a t). apply wk_char; [done|by intros ?|done].
  - exists (String a t). apply wk_char; [done| |done]. intros _ Hb%closing_spec. congruence.
Qed.

Lemma commas_complete s : without_commas s (stripTrailingCommas s).
Proof. destruct (without_commas_total (S (slen s)) s) as [t Ht]; [lia|]. by rewrite <-(commas_correct s t Ht). Qed.

(** C34: The filters implement their specifications. A text is divided into string
    literals, line comments, block comments and other characters; stripping the
    comments blanks exactly the characters of comments, line breaks excepted, and
    stripping trailing commas leaves out exactly the commas outside literals after
    which, white space aside, a closing bracket follows. So the length and every
    line break stay, nothing is left to strip, and the text of a JSON value, whatever
    its strings contain, is not touched by either. *)
Theorem strip_comments_spec :
  (∀ s t, t = stripJSONComments s ↔ without_comments s t) ∧
  (∀ s t, t = stripTrailingCommas s ↔ without_commas s t) ∧
  (∀ s, Forall2 (λ a b, b = a ∨ b = " "%char ∧ a ≠ "010"%char) (chars s) (chars (stripJSONComments s))) ∧
  (∀ s, stripJSONComments (stripJSONComments s) = stripJSONComments s) ∧
  (∀ v, jwf v = true → stripTrailingCommas (stripJSONComments (marshal_indent v)) = marshal_indent v).
Proof.
  split_and!.
  - intros s t. split; [intros ->; apply strip_complete|apply strip_correct].
  - intros s t. split; [intros ->; apply commas_complete|apply commas_correct].
  - intros s. apply strip_kept.
  - intros s. apply strip_idem.
  - intros v Hv. unfold stripTrailingCommas, stripJSONComments, marshal_indent. rewrite <-(sapp_nil_r (print true 0 v)).
    rewrite strip_print by done. change (strip Code "") with "". by rewrite commas_print.
Qed.

(** The three characters [/*/] are a comment; elsewhere they only open one. *)
Lemma overlapping_comment : stripJSONComments "{/*/}" = "{   }".
Proof. reflexivity. Qed.

(** a configuration that was written is read back as the same object, keys in
    sorted order: numbers keep their digits, strings their characters. *)
Theorem config_roundtrip (m : list (string * json)) (Hm : storable (JObj m)) :
  ∃ m', parse_object (render_object m) = Some m' ∧ JObj m' = canon (JObj m) ∧ m'.*1 ≡ₚ m.*1.
Proof.
  destruct (parse_render m Hm) as (m' & H1 & H2). exists m'. split_and!; [done|done|].
  cbn [canon] in H2. injection H2 as ->. apply canon_keys.
Qed.

Definition sample_config : list (string * json) :=
  [("z", JNum "12345678901234567890"); ("mcpServers", JObj [("b", JStr "http://x // y"); ("a", JArr [JBool true; JNull])])].

Lemma config_roundtrip_witness :
  ∃ m', parse_object (render_object sample_config) = Some m' ∧ JObj m' = canon (JObj sample_config) ∧ m'.*1 ≡ₚ sample_config.*1.
Proof.
  apply (config_roundtrip sample_config). constructor; [by vm_compute|by vm_compute| |by vm_compute].
  cbn. split_and!; try done; apply (bool_decide_unpack _); by vm_compute.
Defined.
