(* ===== verification/IdeConfig.v ===== *)
(** The configuration writers of [internal/ideconfig]: atomic writes, backups, the
    MCP server entry, Claude Code's prompt hook, and their removal. *)
From Stdlib Require Import Ascii.
From stdpp Require Import base list strings gmap.
From S2P Require Import Prelude GoStrings Json GoSort GoFS A2A GoExec Jsonc.

Open Scope string_scope.
Open Scope Z_scope.
Open Scope list_scope.

Notation gomap := (list (string * json)).

(** * Data *)

(* src/internal/ideconfig/ideconfig.go (Spec) *)
Record Spec := MkSpec { sp_Key : string; sp_BinaryPath : string; sp_Env : list (string * string); sp_HookCommand : string }.

(* src/internal/ideconfig/ideconfig.go (DefaultSpec) *)
Definition DefaultSpec (binaryPath : string) : Spec :=
  MkSpec "a2a" binaryPath
    [("A2A_DIRECTORY", "http://127.0.0.1:7777"); ("A2A_BIND", "127.0.0.1:0"); ("A2A_ADVERTISE_HOST", "127.0.0.1")] "".

(* src/internal/ideconfig/ideconfig.go (Result) *)
Record Result := MkResult { rs_IDE : string; rs_Path : string; rs_Found : bool; rs_Updated : bool; rs_Skipped : bool;
  rs_Backup : string; rs_DryRun : bool; rs_Error : option goerror }.

(** What the host answers beyond the files: the home directory, which paths are
    directories, the time stamp of a backup, the names and the failures of temporary
    files, and the texts of the errors. *)
Record host := Host {
  h_goos : string;
  h_home : option string;
  h_appdata : string;
  h_dir : string → bool;
  h_stamp : string;
  h_mkdir_fault : string → bool;
  h_temp : string → option string;
  h_chmod_fault : bool;
  h_close_fault : bool;
  h_error : string → goerror;
  h_parse_error : string → goerror }.

(* src/internal/ideconfig/ideconfig.go (fileExists) *)
Definition fileExists (h : host) (p : string) (w : fs) : bool :=
  negb (String.eqb p "") && negb (h_dir h p) && match files w !! p with Some _ => true | None => false end.

(* src/internal/ideconfig/ideconfig.go (dirExists) *)
Definition dirExists (h : host) (p : string) : bool := negb (String.eqb p "") && h_dir h p.

(** * Backup and atomic write *)

(** the path of the copy, empty when there was nothing to copy *)
(* src/internal/ideconfig/ideconfig.go (backupFile) *)
Definition backupFile (h : host) (src : string) (w : fs) : result goerror string * fs :=
  if h_dir h src then (Err (errors_new ("backup target is a directory: " +:+ src)), w) else
  match files w !! src with
  | None => (Ok "", w)
  | Some f =>
      let dst := src +:+ ".bak." +:+ h_stamp h in
      match ReadFile src w with
      | Err _ => (Err (h_error h src), w)
      | Ok data =>
          match WriteFile dst data (f_mode f) w with
          | (Err _, w) => (Err (h_error h dst), w)
          | (Ok _, w) => (Ok dst, w)
          end
      end
  end.

(* src/internal/ideconfig/jsonmerge.go (newConfigMode) *)
Definition newConfigMode : Z := 384.

(* src/internal/ideconfig/jsonmerge.go (writeFileAtomic) *)
Definition writeFileAtomic (h : host) (path data : string) (defaultMode : Z) (w : fs) : result goerror unit * fs :=
  if h_mkdir_fault h path then (Err (h_error h path), w) else
  let mode := match files w !! path with Some f => f_mode f | None => defaultMode end in
  match h_temp h path with
  | None => (Err (h_error h path), w)
  | Some tmpName =>
      let w := set_files <[tmpName := File 384 ""]> w in
      match WriteFile tmpName data 384 w with
      | (Err _, w) => (Err (h_error h tmpName), (Remove tmpName w).2)
      | (Ok _, w) =>
          if h_chmod_fault h then (Err (h_error h tmpName), (Remove tmpName w).2) else
          let w := set_files <[tmpName := File mode data]> w in
          if h_close_fault h then (Err (h_error h tmpName), (Remove tmpName w).2) else
          match Rename tmpName path w with
          | (Err _, w) => (Err (h_error h tmpName), (Remove tmpName w).2)
          | (Ok _, w) => (Ok tt, w)
          end
      end
  end.

(* src/internal/ideconfig/jsonmerge.go (readJSONObject) *)
Definition readJSONObject (h : host) (path : string) (w : fs) : result goerror gomap :=
  match ReadFile path w with
  | Err NotExist => Ok []
  | Err IOError => Err (h_error h path)
  | Ok b =>
      match parse_object b with
      | Some m => Ok m
      | None => Err (wrapf ("parse " +:+ path +:+ ": ") (h_parse_error h b))
      end
  end.

(* src/internal/ideconfig/jsonmerge.go (writeJSONObject) *)
Definition writeJSONObject (h : host) (path : string) (obj : gomap) (w : fs) : result goerror unit * fs :=
  writeFileAtomic h path (render_object obj) newConfigMode w.

Definition result0 (name : string) (dryRun : bool) : Result := MkResult name "" false false false "" dryRun None.
Definition with_path (p : string) (found : bool) (r : Result) : Result :=
  MkResult (rs_IDE r) p found (rs_Updated r) (rs_Skipped r) (rs_Backup r) (rs_DryRun r) (rs_Error r).
Definition fail (e : goerror) (r : Result) : Result :=
  MkResult (rs_IDE r) (rs_Path r) (rs_Found r) (rs_Updated r) (rs_Skipped r) (rs_Backup r) (rs_DryRun r) (Some e).
Definition skipped (r : Result) : Result :=
  MkResult (rs_IDE r) (rs_Path r) (rs_Found r) (rs_Updated r) true (rs_Backup r) (rs_DryRun r) (rs_Error r).
Definition updated (r : Result) : Result :=
  MkResult (rs_IDE r) (rs_Path r) (rs_Found r) true (rs_Skipped r) (rs_Backup r) (rs_DryRun r) (rs_Error r).
Definition backed_up (b : string) (r : Result) : Result :=
  MkResult (rs_IDE r) (rs_Path r) (rs_Found r) (rs_Updated r) (rs_Skipped r) b (rs_DryRun r) (rs_Error r).

(* src/internal/ideconfig/jsonmerge.go:244-249 (writeJSONConfig) *)
Definition finish_write (h : host) (path data : string) (res : Result) (w : fs) : Result * fs :=
  match writeFileAtomic h path data newConfigMode w with
  | (Err e, w) => (fail e res, w)
  | (Ok _, w) => (updated res, w)
  end.

(** the steps all writers end with: nothing in a dry run, else backup of a file
    that was found and the atomic write *)
(* src/internal/ideconfig/jsonmerge.go:232-249 (writeJSONConfig) *)
Definition commit (h : host) (path data : string) (dryRun : bool) (res : Result) (w : fs) : Result * fs :=
  if dryRun then (updated res, w) else
  if rs_Found res then
    match backupFile h path w with
    | (Err e, w) => (fail (wrapf "backup: " e) res, w)
    | (Ok bak, w) => finish_write h path data (backed_up bak res) w
    end
  else finish_write h path data res w.

(** [mutate] reports whether anything changed, with the changed root. *)
(* src/internal/ideconfig/jsonmerge.go (writeJSONConfig) *)
Definition writeJSONConfig (h : host) (name path : string) (dryRun : bool) (mutate : gomap → bool * gomap) (w : fs) :
    Result * fs :=
  let res := result0 name dryRun in
  if String.eqb path "" then (fail (errors_new ("could not resolve " +:+ name +:+ " config path")) res, w) else
  let res := with_path path (fileExists h path w) res in
  match readJSONObject h path w with
  | Err e => (fail e res, w)
  | Ok root =>
      let '(changed, root) := mutate root in
      if negb changed then (skipped res, w) else commit h path (render_object root) dryRun res w
  end.

(** * The MCP server entry *)

(** the leaf [ensureNestedMap] returns, and the root after [f] changed the leaf *)
(* src/internal/ideconfig/jsonmerge.go (ensureNestedMap) *)
Fixpoint read_nested (keys : list string) (root : gomap) : gomap :=
  match keys with
  | [] => root
  | k :: ks => read_nested ks (match assoc_get k root with Some (JObj m) => m | _ => [] end)
  end.
(* src/internal/ideconfig/jsonmerge.go (ensureNestedMap) *)
Fixpoint update_nested (keys : list string) (f : gomap → gomap) (root : gomap) : gomap :=
  match keys with
  | [] => f root
  | k :: ks =>
      assoc_set k (JObj (update_nested ks f (match assoc_get k root with Some (JObj m) => m | _ => [] end))) root
  end.

(* src/internal/ideconfig/claude.go (mcpEntryJSON) *)
Definition mcpEntryJSON (spec : Spec) : json :=
  let envObj := map (λ x, (x.1, JStr x.2)) (sp_Env spec) in
  JObj ([("command", JStr (sp_BinaryPath spec)); ("args", JArr [JStr "bridge"])] ++
        match envObj with [] => [] | _ => [("env", JObj envObj)] end).

(* src/internal/ideconfig/jsonmerge.go (setMCPServerEntry) *)
Definition setMCPServerEntry (spec : Spec) (root : gomap) : bool * gomap :=
  let servers := read_nested ["mcpServers"] root in
  let desired := mcpEntryJSON spec in
  if equalJSON (default JNull (assoc_get (sp_Key spec) servers)) desired then
    (false, update_nested ["mcpServers"] (λ s, s) root)
  else (true, update_nested ["mcpServers"] (assoc_set (sp_Key spec) desired) root).

(** * Claude Code's prompt hook *)

(** [x.(\[\]any)], [x.(map\[string\]any)] and [x.(string)] with the zero value *)
Definition as_list (v : option json) : list json := match v with Some (JArr l) => l | _ => [] end.
Definition as_map (v : json) : option gomap := match v with JObj m => Some m | _ => None end.
Definition as_string (v : option json) : string := match v with Some (JStr s) => s | _ => "" end.

Definition hook_command (h : json) : string :=
  match as_map h with Some m => as_string (assoc_get "command" m) | None => "" end.
Definition entry_hooks (m : json) : list json :=
  match as_map m with Some e => as_list (assoc_get "hooks" e) | None => [] end.

(* src/internal/ideconfig/claude.go (needsHookUpdate) *)
Definition needsHookUpdate (root : gomap) (command : string) : bool :=
  if String.eqb command "" then false else
  match assoc_get "hooks" root with
  | Some (JObj hooksRoot) =>
      let matchers := as_list (assoc_get "UserPromptSubmit" hooksRoot) in
      negb (existsb (λ m, existsb (λ h, String.eqb (hook_command h) command) (entry_hooks m)) matchers)
  | _ => true
  end.

Definition our_hook (command : string) : json := JObj [("type", JStr "command"); ("command", JStr command)].

(** the hook list of the first group for [*] extended; [None]: there is none *)
(* src/internal/ideconfig/claude.go:149-169 (mergeUserPromptSubmitHook) *)
Fixpoint extend_group (command : string) (matchers : list json) : option (list json) :=
  match matchers with
  | [] => None
  | m :: rest =>
      match as_map m with
      | Some entry =>
          if negb (String.eqb (as_string (assoc_get "matcher" entry)) "*") then cons m <$> extend_group command rest
          else
            let hooks := as_list (assoc_get "hooks" entry) in
            if existsb (λ h, match as_map h with Some e => String.eqb (as_string (assoc_get "command" e)) command | None => false end) hooks
            then Some (m :: rest)
            else Some (JObj (assoc_set "hooks" (JArr (hooks ++ [our_hook command])) entry) :: rest)
      | None => cons m <$> extend_group command rest
      end
  end.

(* src/internal/ideconfig/claude.go (mergeUserPromptSubmitHook) *)
Definition mergeUserPromptSubmitHook (command : string) (root : gomap) : gomap :=
  update_nested ["hooks"] (λ hooksRoot,
    let matchers := as_list (assoc_get "UserPromptSubmit" hooksRoot) in
    let matchers := match extend_group command matchers with
      | Some ms => ms
      | None => matchers ++ [JObj [("matcher", JStr "*"); ("hooks", JArr [our_hook command])]]
      end in
    assoc_set "UserPromptSubmit" (JArr matchers) hooksRoot) root.

(** * Writers *)

(* src/internal/ideconfig/claude.go (claudeMCPConfigPath) *)
Definition claudeMCPConfigPath (h : host) : string := match h_home h with Some d => Join [d; ".claude.json"] | None => "" end.
(* src/internal/ideconfig/claude.go (claudeSettingsPath) *)
Definition claudeSettingsPath (h : host) : string := match h_home h with Some d => Join [d; ".claude"; "settings.json"] | None => "" end.

(* src/internal/ideconfig/claude.go (claudeCodeWriter.Detect) *)
Definition claude_Detect (h : host) (w : fs) : string :=
  if fileExists h (claudeMCPConfigPath h) w then claudeMCPConfigPath h
  else if fileExists h (claudeSettingsPath h) w then claudeSettingsPath h
  else match h_home h with
       | Some d => if dirExists h (Join [d; ".claude"]) then Join [d; ".claude"] else claudeMCPConfigPath h
       | None => claudeMCPConfigPath h
       end.

(* src/internal/ideconfig/claude.go (claudeCodeWriter.Write) *)
Definition claude_Write (h : host) (spec : Spec) (dryRun : bool) (w : fs) : Result * fs :=
  let '(res, w) := writeJSONConfig h "Claude Code" (claudeMCPConfigPath h) dryRun (setMCPServerEntry spec) w in
  match rs_Error res with
  | Some _ => (res, w)
  | None =>
      if String.eqb (sp_HookCommand spec) "" then (res, w) else
      let '(hookRes, w) := writeJSONConfig h "Claude Code" (claudeSettingsPath h) dryRun
        (λ root, if negb (needsHookUpdate root (sp_HookCommand spec)) then (false, root)
                 else (true, mergeUserPromptSubmitHook (sp_HookCommand spec) root)) w in
      match rs_Error hookRes with
      | Some e => (fail (wrapf ("hook merge in " +:+ rs_Path hookRes +:+ ": ") e) res, w)
      | None =>
          if rs_Updated hookRes then
            (MkResult (rs_IDE res) (rs_Path res) (rs_Found res) true false (rs_Backup res) (rs_DryRun res) (rs_Error res), w)
          else (res, w)
      end
  end.

(* src/internal/ideconfig/cursor.go (cursorWriter.writeTarget) *)
Definition cursor_target (h : host) : string := match h_home h with Some d => Join [d; ".cursor"; "mcp.json"] | None => "" end.
(* src/internal/ideconfig/cursor.go (cursorWriter.Detect) *)
Definition cursor_Detect (h : host) (w : fs) : string :=
  if fileExists h (cursor_target h) w then cursor_target h
  else match h_home h with
       | Some d => if dirExists h (Join [d; ".cursor"]) then Join [d; ".cursor"] else ""
       | None => ""
       end.
(* src/internal/ideconfig/cursor.go (cursorWriter.Write) *)
Definition cursor_Write (h : host) (spec : Spec) (dryRun : bool) (w : fs) : Result * fs :=
  writeJSONConfig h "Cursor" (cursor_target h) dryRun (setMCPServerEntry spec) w.

(* src/internal/ideconfig/gemini.go (geminiWriter.Detect) *)
Definition gemini_Detect (h : host) : string := match h_home h with Some d => Join [d; ".gemini"; "settings.json"] | None => "" end.
(* src/internal/ideconfig/gemini.go (geminiWriter.Write) *)
Definition gemini_Write (h : host) (spec : Spec) (dryRun : bool) (w : fs) : Result * fs :=
  writeJSONConfig h "Gemini CLI" (gemini_Detect h) dryRun (setMCPServerEntry spec) w.

(* src/internal/ideconfig/antigravity.go (antigravityWriter.writeTarget) *)
Definition antigravity_target (h : host) : string :=
  match h_home h with Some d => Join [d; ".gemini"; "config"; "mcp_config.json"] | None => "" end.
(* src/internal/ideconfig/antigravity.go (antigravityWriter.Detect) *)
Definition antigravity_Detect (h : host) (w : fs) : string :=
  if fileExists h (antigravity_target h) w then antigravity_target h
  else match h_home h with
       | Some d => let marker := Join [d; ".gemini"; "antigravity-cli"] in if h_dir h marker then marker else ""
       | None => ""
       end.
(* src/internal/ideconfig/antigravity.go (antigravityWriter.Write) *)
Definition antigravity_Write (h : host) (spec : Spec) (dryRun : bool) (w : fs) : Result * fs :=
  writeJSONConfig h "Antigravity CLI" (antigravity_target h) dryRun (setMCPServerEntry spec) w.

(* src/internal/ideconfig/cline.go (vsCodeGlobalStorage) *)
Definition vsCodeGlobalStorage (h : host) : string :=
  if String.eqb (h_goos h) "darwin" then
    match h_home h with Some d => Join [d; "Library"; "Application Support"; "Code"; "User"; "globalStorage"] | None => "" end
  else if String.eqb (h_goos h) "linux" then
    match h_home h with Some d => Join [d; ".config"; "Code"; "User"; "globalStorage"] | None => "" end
  else if String.eqb (h_goos h) "windows" then
    if String.eqb (h_appdata h) "" then "" else Join [h_appdata h; "Code"; "User"; "globalStorage"]
  else "".

(* src/internal/ideconfig/ideconfig.go (ErrIDENotInstalled) *)
Definition IDENotInstalled : goerror := GoError "IDE not installed" [ErrIDENotInstalled].

(* src/internal/ideconfig/cline.go (vsCodeInstalled) *)
Definition vsCodeInstalled (h : host) : bool := dirExists h (vsCodeGlobalStorage h).

(* src/internal/ideconfig/cline.go (clineWriter.Detect) *)
Definition cline_Detect (h : host) : string :=
  if String.eqb (vsCodeGlobalStorage h) "" then ""
  else Join [vsCodeGlobalStorage h; "saoudrizwan.claude-dev"; "settings"; "cline_mcp_settings.json"].
(* src/internal/ideconfig/cline.go (clineWriter.Write) *)
Definition cline_Write (h : host) (spec : Spec) (dryRun : bool) (w : fs) : Result * fs :=
  let path := cline_Detect h in
  let name := "Cline (VS Code)" in
  if String.eqb path "" then
    (fail (wrapf "VS Code globalStorage not found: " IDENotInstalled) (result0 name dryRun), w)
  else if negb (fileExists h path w) && negb (vsCodeInstalled h) then
    (fail (wrapf "VS Code not detected — skipping: " IDENotInstalled) (with_path path false (result0 name dryRun)), w)
  else writeJSONConfig h name path dryRun (setMCPServerEntry spec) w.

(** ** Codex, over the TOML library *)

(** [BurntSushi/toml]: decoding a text to a map or an error, encoding a value *)
Class TOML := {
  toml_decode : string → result goerror gomap;
  toml_encode : json → result goerror string }.

Section codex.
Context `{TOML}.

(* src/internal/ideconfig/codex.go (codexWriter.writeTarget) *)
Definition codex_target (h : host) : string := match h_home h with Some d => Join [d; ".codex"; "config.toml"] | None => "" end.
(* src/internal/ideconfig/codex.go (codexWriter.Detect) *)
Definition codex_Detect (h : host) (w : fs) : string :=
  if fileExists h (codex_target h) w then codex_target h
  else match h_home h with
       | Some d => if dirExists h (Join [d; ".codex"]) then Join [d; ".codex"] else ""
       | None => ""
       end.

(* src/internal/ideconfig/codex.go (codexEntry) *)
Definition codexEntry (spec : Spec) : json := mcpEntryJSON spec.

(* src/internal/ideconfig/codex.go (equalTOMLEntry) *)
Definition equalTOMLEntry (a b : option json) : bool :=
  match a, b with
  | Some a, Some b =>
      match toml_encode a, toml_encode b with Ok x, Ok y => String.eqb x y | _, _ => false end
  | None, None => true
  | _, _ => false
  end.

(* src/internal/ideconfig/codex.go:62-75 (codexWriter.Write) *)
Definition read_toml (h : host) (path : string) (found : bool) (w : fs) : result goerror gomap :=
  if negb found then Ok [] else
  match ReadFile path w with
  | Err _ => Err (h_error h path)
  | Ok b =>
      if String.eqb b "" then Ok [] else
      match toml_decode b with
      | Ok m => Ok m
      | Err e => Err (wrapf ("parse " +:+ path +:+ ": ") e)
      end
  end.

(** the encoded text of the root, then the common steps; the encoding comes after
    the backup *)
(* src/internal/ideconfig/codex.go (codexWriter.Write) *)
Definition codex_Write (h : host) (spec : Spec) (dryRun : bool) (w : fs) : Result * fs :=
  let res := result0 "Codex CLI" dryRun in
  let path := codex_target h in
  if String.eqb path "" then (fail (errors_new "could not resolve Codex config path") res, w) else
  let res := with_path path (fileExists h path w) res in
  match read_toml h path (rs_Found res) w with
  | Err e => (fail e res, w)
  | Ok root =>
      let servers := read_nested ["mcp_servers"] root in
      let desired := codexEntry spec in
      if equalTOMLEntry (assoc_get (sp_Key spec) servers) (Some desired) then (skipped res, w) else
      let root := update_nested ["mcp_servers"] (assoc_set (sp_Key spec) desired) root in
      match toml_encode (JObj root) with
      | Ok text => commit h path text dryRun res w
      | Err e =>
          if dryRun then (updated res, w)
          else if rs_Found res then
            match backupFile h path w with
            | (Err e, w) => (fail (wrapf "backup: " e) res, w)
            | (Ok bak, w) => (fail e (backed_up bak res), w)
            end
          else (fail e res, w)
      end
  end.

(** * Removal *)

(* src/internal/ideconfig/remove.go (removeCodexEntry) *)
Definition removeCodexEntry (h : host) (path : string) (w : fs) : option goerror * fs :=
  if negb (fileExists h path w) then (None, w) else
  match read_toml h path true w with
  | Err e => (Some e, w)
  | Ok root =>
      match assoc_get "mcp_servers" root with
      | Some (JObj servers) =>
          match assoc_get "a2a" servers with
          | None => (None, w)
          | Some _ =>
              let servers := assoc_del "a2a" servers in
              let root := match servers with
                | [] => assoc_del "mcp_servers" root
                | _ => assoc_set "mcp_servers" (JObj servers) root
                end in
              match backupFile h path w with
              | (Err e, w) => (Some (wrapf "backup: " e), w)
              | (Ok _, w) =>
                  match toml_encode (JObj root) with
                  | Err e => (Some e, w)
                  | Ok text =>
                      match writeFileAtomic h path text newConfigMode w with
                      | (Err e, w) => (Some e, w)
                      | (Ok _, w) => (None, w)
                      end
                  end
              end
          end
      | _ => (None, w)
      end
  end.
End codex.

Definition hook_script : string := "a2a-inbox-hook.sh".
(** an entry of a hook list that is the program's own *)
Definition is_ours (h : json) : bool := String.eqb (Base (hook_command h)) hook_script.

(** the groups that stay, and whether anything changed *)
(* src/internal/ideconfig/remove.go:59-85 (pruneUserPromptSubmitHook) *)
Fixpoint prune_groups (matchers : list json) : bool * list json :=
  match matchers with
  | [] => (false, [])
  | m :: rest =>
      let '(changed, out) := prune_groups rest in
      match as_map m with
      | None => (changed, m :: out)
      | Some entry =>
          let hookList := as_list (assoc_get "hooks" entry) in
          let filtered := filterb (λ h, negb (is_ours h)) hookList in
          match filtered with
          | [] => (true, out)
          | _ => (changed || existsb is_ours hookList, JObj (assoc_set "hooks" (JArr filtered) entry) :: out)
          end
      end
  end.

(* src/internal/ideconfig/remove.go (pruneUserPromptSubmitHook) *)
Definition pruneUserPromptSubmitHook (hooks : gomap) : bool * gomap :=
  match assoc_get "UserPromptSubmit" hooks with
  | Some (JArr matchers) =>
      let '(changed, out) := prune_groups matchers in
      if negb changed then (false, hooks) else
      match out with
      | [] => (true, assoc_del "UserPromptSubmit" hooks)
      | _ => (true, assoc_set "UserPromptSubmit" (JArr out) hooks)
      end
  | _ => (false, hooks)
  end.

(** the root without the program's server *)
(* src/internal/ideconfig/remove.go:26-34 (removeJSONMCPEntry) *)
Definition strip_server (root : gomap) : bool * gomap :=
  match assoc_get "mcpServers" root with
  | Some (JObj servers) =>
      let present := match assoc_get "a2a" servers with Some _ => true | None => false end in
      let servers := if present then assoc_del "a2a" servers else servers in
      (present, match servers with
                | [] => assoc_del "mcpServers" root
                | _ => assoc_set "mcpServers" (JObj servers) root
                end)
  | _ => (false, root)
  end.

(** the root without the program's entries, and whether anything changed *)
(* src/internal/ideconfig/remove.go:25-42 (removeJSONMCPEntry) *)
Definition strip_entries (root : gomap) : bool * gomap :=
  let '(changed, root) := strip_server root in
  match assoc_get "hooks" root with
  | Some (JObj hooks) =>
      let '(pruned, hooks) := pruneUserPromptSubmitHook hooks in
      (changed || pruned, match hooks with
                          | [] => assoc_del "hooks" root
                          | _ => assoc_set "hooks" (JObj hooks) root
                          end)
  | _ => (changed, root)
  end.

(* src/internal/ideconfig/remove.go (removeJSONMCPEntry) *)
Definition removeJSONMCPEntry (h : host) (path : string) (w : fs) : option goerror * fs :=
  if negb (fileExists h path w) then (None, w) else
  match readJSONObject h path w with
  | Err e => (Some e, w)
  | Ok root =>
      let '(changed, root) := strip_entries root in
      if negb changed then (None, w) else
      match backupFile h path w with
      | (Err e, w) => (Some (wrapf "backup: " e), w)
      | (Ok _, w) =>
          match writeJSONObject h path root w with
          | (Err e, w) => (Some e, w)
          | (Ok _, w) => (None, w)
          end
      end
  end.

(** [errors.Join] of the failures *)
(* src/internal/ideconfig/remove.go (removeClaudeEntries) *)
Definition removeClaudeEntries (h : host) (w : fs) : list goerror * fs :=
  let remove p w :=
    if String.eqb p "" then ([], w) else
    match removeJSONMCPEntry h p w with
    | (Some e, w) => ([wrapf (p +:+ ": ") e], w)
    | (None, w) => ([], w)
    end in
  let '(e1, w) := remove (claudeMCPConfigPath h) w in
  let '(e2, w) := remove (claudeSettingsPath h) w in
  (e1 ++ e2, w).

(** * Continue *)

(* src/internal/ideconfig/continue.go (sortedKeys) *)
Definition sortedKeys (m : list (string * string)) : list string := isort str_compare m.*1.

Definition newline_escape (s : string) : string := replace_char nlc (String bs (String "n" "")) s.
(* src/internal/ideconfig/continue.go (yamlScalar) *)
Definition yamlScalar (s : string) : string :=
  if String.eqb s "" then String dq (String dq "")
  else if existsb (λ c, (c =? 58) || (c =? 35) || (c =? 34) || (c =? 39) || (c =? 10)) (runes s) then
    newline_escape (String dq (s +:+ String dq ""))
  else s.

(** A path of Windows is put between quotation marks with its backslashes as they
    are, where a YAML reader takes them for escapes. *)
Example yamlScalar_drive : yamlScalar "C:\Users\u\a2abridge.exe" = String dq ("C:\Users\u\a2abridge.exe" +:+ String dq "").
Proof. vm_compute. reflexivity. Qed.

(* src/internal/ideconfig/continue.go (continueYAML) *)
Definition continueYAML (spec : Spec) : string :=
  let line s := s +:+ String nlc "" in
  line "name: a2a" +:+ line "version: 0.0.1" +:+ line "schema: v1" +:+ line "mcpServers:" +:+ line "  - name: a2a" +:+
  line ("    command: " +:+ yamlScalar (sp_BinaryPath spec)) +:+ line "    args:" +:+ line "      - bridge" +:+
  match sp_Env spec with
  | [] => ""
  | env => line "    env:" +:+
      join "" (map (λ k, line ("      " +:+ k +:+ ": " +:+ yamlScalar (default "" (assoc_get k env)))) (sortedKeys env))
  end.

(* src/internal/ideconfig/continue.go (continueWriter.writeTarget) *)
Definition continue_target (h : host) : string :=
  match h_home h with Some d => Join [d; ".continue"; "mcpServers"; "a2a.yaml"] | None => "" end.
(* src/internal/ideconfig/continue.go (continueWriter.Detect) *)
Definition continue_Detect (h : host) : string :=
  match h_home h with
  | Some d => let root := Join [d; ".continue"] in if h_dir h root then root else ""
  | None => ""
  end.

(* src/internal/ideconfig/continue.go (continueWriter.Write) *)
Definition continue_Write (h : host) (spec : Spec) (dryRun : bool) (w : fs) : Result * fs :=
  let res := result0 "Continue" dryRun in
  let path := continue_target h in
  if String.eqb path "" then (fail (errors_new "could not resolve Continue config path") res, w) else
  let res := with_path path (fileExists h path w) res in
  let desired := continueYAML spec in
  let same := match ReadFile path w with Ok existing => String.eqb (trim_space existing) (trim_space desired) | Err _ => false end in
  if rs_Found res && same then (skipped res, w) else commit h path desired dryRun res w.

(* src/internal/ideconfig/remove.go (removeContinueFile) *)
Definition removeContinueFile (h : host) (w : fs) : option goerror * fs :=
  let target := continue_target h in
  if negb (fileExists h target w) then (None, w) else
  match backupFile h target w with
  | (Err e, w) => (Some (wrapf "backup: " e), w)
  | (Ok _, w) =>
      match Remove target w with
      | (Err _, w) => (Some (h_error h target), w)
      | (Ok _, w) => (None, w)
      end
  end.

(** * Files *)

(** A temporary file is new and is not the target. *)
Definition fresh_temp (h : host) (path : string) (w : fs) : Prop :=
  ∀ t, h_temp h path = Some t → files w !! t = None ∧ t ≠ path.

Definition mode_of (path : string) (w : fs) (dflt : Z) : Z := match files w !! path with Some f => f_mode f | None => dflt end.

Lemma remove_created name f (m : gmap string file) : m !! name = None → delete name (<[name := f]> m) = m.
Proof. intros. by rewrite delete_insert_eq, delete_id. Qed.

Lemma remove_temp t f w w' : files w !! t = None → files w' = <[t := f]> (files w) → files (Remove t w').2 = files w.
Proof. intros Ht Hw. unfold Remove. rewrite Hw, lookup_insert_eq. cbn. rewrite Hw. by apply remove_created. Qed.

(** The atomic write puts the complete text in place or changes nothing. *)
Lemma writeFileAtomic_cases h path data dflt w : fresh_temp h path w →
  match writeFileAtomic h path data dflt w with
  | (Ok _, w') => files w' = <[path := File (mode_of path w dflt) data]> (files w)
  | (Err _, w') => files w' = files w
  end ∧ read_fault (writeFileAtomic h path data dflt w).2 = read_fault w.
Proof.
  intros Hfresh. unfold writeFileAtomic. destruct (h_mkdir_fault h path); [done|].
  destruct (h_temp h path) as [t|] eqn:Et; [|done]. destruct (Hfresh t Et) as [Hn Hne].
  fold (mode_of path w dflt). unfold WriteFile. cbn [write_fault set_files files]. rewrite lookup_insert_eq. cbn [f_mode].
  assert (Hrm : ∀ w' f, files w' = <[t := f]> (files w) → read_fault w' = read_fault w →
    files (Remove t w').2 = files w ∧ read_fault (Remove t w').2 = read_fault w).
  { intros w' f Hf Hr. split; [by apply (remove_temp t f)|]. unfold Remove. by destruct (files w' !! t). }
  destruct (write_fault w t) as [part|]; [eapply Hrm; [cbn; by rewrite insert_insert_eq|done]|].
  destruct (h_chmod_fault h); [eapply Hrm; [cbn; by rewrite insert_insert_eq|done]|].
  destruct (h_close_fault h); [eapply Hrm; [cbn; by rewrite !insert_insert_eq|done]|].
  unfold Rename. cbn [rename_fault set_files files]. rewrite lookup_insert_eq.
  destruct (rename_fault w t); [eapply Hrm; [cbn; by rewrite !insert_insert_eq|done]|].
  cbn. rewrite !insert_insert_eq, delete_insert_eq, delete_id by done. done.
Qed.

(** The backup is a copy beside the file; the file itself stays. *)
Definition backup_path (h : host) (src : string) : string := src +:+ ".bak." +:+ h_stamp h.

Lemma backup_path_ne h src : backup_path h src ≠ src.
Proof.
  unfold backup_path. intros H. apply (f_equal slen) in H. rewrite slen_app in H.
  change (slen (".bak." +:+ h_stamp h)) with (5 + slen (h_stamp h))%nat in H. lia.
Qed.

Lemma backupFile_cases h src w :
  (∀ q, q ≠ backup_path h src → files (backupFile h src w).2 !! q = files w !! q) ∧
  read_fault (backupFile h src w).2 = read_fault w ∧
  match (backupFile h src w).1 with
  | Ok bak => match files w !! src with
              | Some f => bak = backup_path h src ∧ f_data <$> (files (backupFile h src w).2 !! bak) = Some (f_data f)
              | None => bak = ""
              end
  | Err _ => True
  end.
Proof.
  unfold backupFile. fold (backup_path h src). destruct (h_dir h src); [done|]. destruct (files w !! src) as [f|] eqn:Ef; [|done].
  unfold ReadFile. rewrite Ef. destruct (read_fault w src); [done|]. unfold WriteFile.
  destruct (write_fault w (backup_path h src)); cbn; split_and!; try done; intros.
  - by rewrite lookup_insert_ne.
  - by rewrite lookup_insert_ne.
  - by rewrite lookup_insert_eq.
Qed.

Lemma commit_cases h path data dryRun res w : rs_Error res = None → rs_Updated res = false → rs_Path res = path →
  fresh_temp h path w → fresh_temp h path (backupFile h path w).2 →
  let '(r, w') := commit h path data dryRun res w in
  rs_Skipped r = rs_Skipped res ∧ rs_Path r = path ∧ read_fault w' = read_fault w ∧
  (∀ q, q ≠ path → q ≠ backup_path h path → files w' !! q = files w !! q) ∧
  match rs_Error r with
  | Some _ => rs_Updated r = false ∧ files w' !! path = files w !! path
  | None =>
      rs_Updated r = true ∧
      if dryRun then w' = w
      else files w' !! path = Some (File (mode_of path w newConfigMode) data) ∧
           (rs_Found res = true → ∀ f, files w !! path = Some f →
              rs_Backup r = backup_path h path ∧ f_data <$> (files w' !! backup_path h path) = Some (f_data f))
  end.
Proof.
  intros He Hu Hp Hf1 Hf2. unfold commit. destruct dryRun; [cbn; by rewrite He|].
  assert (Hwrite : ∀ res w, rs_Error res = None → rs_Updated res = false → rs_Path res = path → fresh_temp h path w →
    let '(r, w') := finish_write h path data res w in
    rs_Skipped r = rs_Skipped res ∧ rs_Path r = path ∧ rs_Backup r = rs_Backup res ∧ read_fault w' = read_fault w ∧
    (∀ q, q ≠ path → files w' !! q = files w !! q) ∧
    match rs_Error r with
    | Some _ => rs_Updated r = false ∧ files w' !! path = files w !! path
    | None => rs_Updated r = true ∧ files w' !! path = Some (File (mode_of path w newConfigMode) data)
    end).
  { clear. intros res w He Hu Hp Hf. unfold finish_write. destruct (writeFileAtomic_cases h path data newConfigMode w Hf) as [Hc Hr].
    destruct (writeFileAtomic h path data newConfigMode w) as [[[]|e] w']; cbn in *.
    - rewrite He, Hc. split_and!; try done; [|by rewrite lookup_insert_eq]. intros q Hq. by rewrite lookup_insert_ne.
    - rewrite Hc. done. }
  destruct (rs_Found res) eqn:Efound.
  - destruct (backupFile_cases h path w) as (B1 & B2 & B3). destruct (backupFile h path w) as [[bak|e] w1]; cbn in B1, B2, B3, Hf2 |- *.
    + specialize (Hwrite (backed_up bak res) w1 He Hu Hp Hf2).
      assert (Hpath : files w1 !! path = files w !! path) by (apply B1; intros Hx; by apply (backup_path_ne h path)).
      destruct (finish_write _ _ _ _ _) as [r w2]. destruct Hwrite as (W1 & W2 & W3 & W4 & W5 & W6).
      split_and!; [done|done|congruence|intros q Hq1 Hq2; by rewrite W5, B1|]. destruct (rs_Error r).
      * by rewrite <-Hpath.
      * destruct W6 as [W6 W7]. split; [done|]. split; [unfold mode_of in *; by rewrite W7, Hpath|].
        intros _ f Hf. rewrite Hf in B3. destruct B3 as [-> B3]. split; [by rewrite W3|].
        rewrite W5; [done|apply backup_path_ne].
    + split_and!; try done; [intros q _ Hq; by apply B1|]. apply B1. intros Hx. by apply (backup_path_ne h path).
  - specialize (Hwrite res w He Hu Hp Hf1). destruct (finish_write _ _ _ _ _) as [r w2].
    destruct Hwrite as (W1 & W2 & W3 & W4 & W5 & W6). split_and!; try done; [by auto|]. destruct (rs_Error r); [done|].
    by destruct W6.
Qed.

(** * The MCP entry *)

Lemma set_entry_root spec root k : k ≠ "mcpServers" → assoc_get k (setMCPServerEntry spec root).2 = assoc_get k root.
Proof.
  intros Hk. unfold setMCPServerEntry. destruct (equalJSON _ _); cbn [snd update_nested]; rewrite assoc_get_set;
    by rewrite (proj2 (String.eqb_neq _ _) (not_eq_sym Hk)).
Qed.

Lemma set_entry_servers spec root k :
  assoc_get k (read_nested ["mcpServers"] (setMCPServerEntry spec root).2) =
    if (setMCPServerEntry spec root).1 && String.eqb (sp_Key spec) k then Some (mcpEntryJSON spec)
    else assoc_get k (read_nested ["mcpServers"] root).
Proof.
  unfold setMCPServerEntry. destruct (equalJSON _ _); cbn [snd fst read_nested update_nested]; rewrite assoc_get_set, String.eqb_refl; [done|].
  rewrite assoc_get_set. by destruct (String.eqb _ _).
Qed.

Lemma set_entry_present spec root :
  equalJSON (default JNull (assoc_get (sp_Key spec) (read_nested ["mcpServers"] (setMCPServerEntry spec root).2))) (mcpEntryJSON spec) = true.
Proof.
  rewrite set_entry_servers, String.eqb_refl, andb_true_r. destruct (setMCPServerEntry spec root).1 eqn:E; cbn [default from_option].
  - apply String.eqb_refl.
  - unfold setMCPServerEntry in E. by destruct (equalJSON _ _).
Qed.

Lemma set_entry_changed spec root : (setMCPServerEntry spec root).1 = false ↔
  equalJSON (default JNull (assoc_get (sp_Key spec) (read_nested ["mcpServers"] root))) (mcpEntryJSON spec) = true.
Proof. unfold setMCPServerEntry. cbv zeta. generalize (equalJSON (default JNull (assoc_get (sp_Key spec) (read_nested ["mcpServers"] root))) (mcpEntryJSON spec)). by intros []. Qed.

(** Registering the server keeps every other setting and every other server,
    leaves an entry equal to the wanted one, changes nothing when that is there
    already, and a second registration finds nothing to do. *)
Theorem setMCPServerEntry_spec (spec : Spec) (root : list (string * json)) :
  let '(changed, root') := setMCPServerEntry spec root in
  let servers := read_nested ["mcpServers"] root in
  let servers' := read_nested ["mcpServers"] root' in
  (changed = false ↔ equalJSON (default JNull (assoc_get (sp_Key spec) servers)) (mcpEntryJSON spec) = true) ∧
  (∀ k, k ≠ "mcpServers" → assoc_get k root' = assoc_get k root) ∧
  (∀ k, k ≠ sp_Key spec → assoc_get k servers' = assoc_get k servers) ∧
  equalJSON (default JNull (assoc_get (sp_Key spec) servers')) (mcpEntryJSON spec) = true ∧
  (changed = true → assoc_get (sp_Key spec) servers' = Some (mcpEntryJSON spec)) ∧
  (setMCPServerEntry spec root').1 = false.
Proof.
  pose proof (set_entry_changed spec root) as H0.
  pose proof (set_entry_root spec root) as H1. pose proof (set_entry_servers spec root) as H2. pose proof (set_entry_present spec root) as H3.
  destruct (setMCPServerEntry spec root) as [changed root']. cbn [fst snd] in *. split_and!; try done.
  - intros k Hk. rewrite H2, (proj2 (String.eqb_neq _ _) (not_eq_sym Hk)). by rewrite andb_false_r.
  - intros ->. by rewrite H2, String.eqb_refl.
  - unfold setMCPServerEntry. by rewrite H3.
Qed.

(** ** Storable results *)

Lemma storable_member m k v : storable (JObj m) → assoc_get k m = Some v → storable v ∧ (N.succ (jdepth v) ≤ max_depth)%N.
Proof.
  intros [Hw Hu [Hn Hd] Hdep] Hk. cbn in *. assert (Hin : (k, v) ∈ m) by (by apply assoc_get_elem).
  pose proof (proj1 (list_elem_of_In _ _) Hin) as HIn. rewrite forallb_forall in Hw, Hu. specialize (Hw _ HIn). specialize (Hu _ HIn).
  apply andb_true_iff in Hu as [_ Hu]. apply conj_forall in Hd. rewrite Forall_forall in Hd. specialize (Hd _ Hin).
  assert (Hle : (jdepth v ≤ fold_right N.max 0%N (map (λ x, jdepth x.2) m))%N).
  { clear -Hin. induction m as [|[k' v'] m IH]; [by apply elem_of_nil in Hin|]. cbn.
    apply elem_of_cons in Hin as [[= <- <-]|Hin]; [lia|]. specialize (IH Hin). lia. }
  split; [constructor; try done; lia|lia].
Qed.

Definition members_depth (m : list (string * json)) : N := fold_right N.max 0%N (map (λ x, jdepth x.2) m).
Lemma members_depth_set k v m : (members_depth (assoc_set k v m) ≤ N.max (jdepth v) (members_depth m))%N.
Proof.
  unfold members_depth. induction m as [|[k' v'] m IH]; cbn [assoc_set map fold_right snd]; [lia|].
  destruct (String.eqb k' k); cbn [map fold_right snd] in *; lia.
Qed.

Lemma storable_set m k v : storable (JObj m) → valid_utf8 k = true → storable v → (N.succ (jdepth v) ≤ max_depth)%N →
  storable (JObj (assoc_set k v m)).
Proof.
  intros [Hw Hu [Hn Hd] Hdep] Hk [Vw Vu Vd _] Vdep. cbn [jwf jutf8 distinct jdepth] in *. apply conj_forall in Hd. constructor; cbn [jwf jutf8 distinct jdepth].
  - clear -Hw Vw. induction m as [|[k' v'] m IH]; cbn in *; [by rewrite Vw|]. apply andb_true_iff in Hw as [H1 H2].
    destruct (String.eqb k' k); cbn; [by rewrite Vw|by rewrite H1, IH].
  - clear -Hu Vu Hk. induction m as [|[k' v'] m IH]; cbn [assoc_set forallb fst snd] in *; [by rewrite Vu, Hk|].
    apply andb_true_iff in Hu as [H1 H2].
    destruct (String.eqb k' k); cbn [assoc_set forallb fst snd]; [by rewrite Vu, Hk, H2|by rewrite H1, IH].
  - split; [by apply assoc_set_NoDup|]. apply conj_forall. clear -Hd Vd. induction Hd as [|[k' v'] m H1 H2 IH]; cbn; [by repeat constructor|].
    destruct (String.eqb k' k); by constructor.
  - pose proof (members_depth_set k v m) as Hmax. unfold members_depth in Hmax. lia.
Qed.

(** texts of a spec that JSON can hold *)
Definition spec_ok (spec : Spec) : Prop :=
  valid_utf8 (sp_Key spec) = true ∧ valid_utf8 (sp_BinaryPath spec) = true ∧ NoDup (sp_Env spec).*1 ∧
  Forall (λ x, valid_utf8 x.1 = true ∧ valid_utf8 x.2 = true) (sp_Env spec).

Lemma storable_entry spec : spec_ok spec → storable (mcpEntryJSON spec) ∧ (jdepth (mcpEntryJSON spec) ≤ 2)%N.
Proof.
  intros (_ & Hb & Hn & He). unfold mcpEntryJSON. set (env := map _ (sp_Env spec)).
  assert (Henv : jwf (JObj env) = true ∧ jutf8 (JObj env) = true ∧ distinct (JObj env) ∧ (jdepth (JObj env) ≤ 1)%N).
  { unfold env. clear env. split_and!.
    - cbn. rewrite forallb_forall. intros x (y & <- & _)%in_map_iff. done.
    - cbn [jutf8]. rewrite forallb_forall. intros x (y & <- & Hy%list_elem_of_In)%in_map_iff. rewrite Forall_forall in He.
      destruct (He y Hy) as [H1 H2]. cbn [fst snd jutf8]. by rewrite H1, H2.
    - cbn [distinct]. split; [change (map ?f ?l) with (f <$> l); by rewrite <-list_fmap_compose|].
      apply conj_forall, Forall_forall. intros x Hx%list_elem_of_In. apply in_map_iff in Hx as (y & <- & _). done.
    - cbn [jdepth]. clear. induction (sp_Env spec) as [|x l IH]; cbn in *; lia. }
  destruct Henv as (E1 & E2 & E3 & E4). destruct env as [|x env]; cbn [app].
  - split; [|by vm_compute]. constructor; [done|cbn [jutf8 forallb fst snd]; by rewrite Hb| |by vm_compute]. cbn. split_and!; try done. repeat constructor; set_solver.
  - set (o := JObj (x :: env)) in *. clearbody o. assert (Hd : (jdepth (JObj [("command", JStr (sp_BinaryPath spec)); ("args", JArr [JStr "bridge"]); ("env", o)]) ≤ 2)%N).
    { cbn [jdepth map fold_right snd]. lia. }
    split; [|done]. constructor.
    + cbn [jwf forallb fst snd]. by rewrite E1.
    + cbn [jutf8 forallb fst snd]. by rewrite Hb, E2.
    + cbn. split_and!; try done. repeat constructor; set_solver.
    + unfold max_depth. lia.
Qed.

Lemma storable_set_entry spec root : spec_ok spec → storable (JObj root) → storable (JObj (setMCPServerEntry spec root).2).
Proof.
  intros Hs Hr. destruct (storable_entry spec Hs) as [He Hed]. unfold setMCPServerEntry. cbn [read_nested update_nested].
  set (servers := match assoc_get "mcpServers" root with Some (JObj m) => m | _ => [] end).
  assert (Hserv : storable (JObj servers) ∧ (N.succ (jdepth (JObj servers)) ≤ max_depth)%N).
  { unfold servers. destruct (assoc_get "mcpServers" root) as [v|] eqn:E.
    - destruct v as [| | | | |m]; try (split; [by repeat constructor|by vm_compute]). by apply (storable_member root "mcpServers").
    - split; [by repeat constructor|by vm_compute]. }
  destruct Hserv as [Hserv Hsd]. destruct Hs as (Hk & _).
  destruct (equalJSON _ _); cbn [snd]; apply storable_set; try done.
  - apply storable_set; [done|done|done|unfold max_depth; lia].
  - pose proof (members_depth_set (sp_Key spec) (mcpEntryJSON spec) servers) as Hmax. unfold members_depth in Hmax.
    set (d := jdepth (mcpEntryJSON spec)) in *. clearbody d. cbn [jdepth] in Hsd |- *. unfold max_depth in *. lia.
Qed.

Lemma read_storable h path w root : readJSONObject h path w = Ok root → storable (JObj root).
Proof.
  unfold readJSONObject. destruct (ReadFile path w) as [b|[]]; [|intros [= <-]; by repeat constructor|done].
  destruct (parse_object b) as [m|] eqn:Ep; [|done]. intros [= <-]. by eapply parse_storable.
Qed.

Lemma read_written h path m w mode : storable (JObj m) → read_fault w path = false →
  files w !! path = Some (File mode (render_object m)) →
  ∃ m', readJSONObject h path w = Ok m' ∧ JObj m' = canon (JObj m).
Proof.
  intros Hm Hr Hf. unfold readJSONObject, ReadFile. rewrite Hr, Hf. cbn [f_data].
  destruct (parse_render m Hm) as (m' & -> & Hc). by exists m'.
Qed.

(** On a canonical copy of its own result the registration has nothing to do. *)
Lemma set_entry_canon spec root m' : storable (JObj root) → spec_ok spec →
  JObj m' = canon (JObj (setMCPServerEntry spec root).2) → (setMCPServerEntry spec m').1 = false.
Proof.
  intros Hroot Hspec Hc. pose proof (storable_set_entry spec root Hspec Hroot) as Hst.
  pose proof (set_entry_present spec root) as Hp. set (r := (setMCPServerEntry spec root).2) in *.
  apply set_entry_changed. cbn [read_nested] in *. rewrite (assoc_get_canon _ r m') by (done || apply Hst).
  destruct (assoc_get "mcpServers" r) as [v|] eqn:Ev; [|done]. cbn [fmap option_fmap option_map].
  destruct v as [| | | | |servers]; try done. destruct (storable_member _ _ _ Hst Ev) as [Hsv _].
  cbn [canon]. set (c := isort member_cmp _).
  rewrite (assoc_get_canon (sp_Key spec) servers c) by (done || apply Hsv).
  unfold equalJSON in *. apply String.eqb_eq in Hp. apply String.eqb_eq. rewrite <-Hp.
  destruct (assoc_get (sp_Key spec) servers) as [v|]; [|done]. cbn [fmap option_fmap option_map default from_option id].
  by rewrite canon_idem.
Qed.

(** C9: registering the server in a readable configuration file either fails and
    leaves the file as it was, or the file afterwards holds, with its former
    permissions, the object with the entry added, and a copy of the former text
    stands beside it; files elsewhere are untouched, a dry run writes nothing, and
    running the registration again, at any later time, writes nothing. *)
Theorem install_once (h : host) (name path : string) (spec : Spec) (dryRun : bool) (w : fs) (root : list (string * json))
    (Hpath : path ≠ "") (Hread : readJSONObject h path w = Ok root) (Hspec : spec_ok spec)
    (Hfault : read_fault w path = false) (Hdir : h_dir h path = false)
    (Htemp : fresh_temp h path w ∧ fresh_temp h path (backupFile h path w).2) :
  let '(r, w') := writeJSONConfig h name path dryRun (setMCPServerEntry spec) w in
  (∀ q, q ≠ path → q ≠ backup_path h path → files w' !! q = files w !! q) ∧
  match rs_Error r with
  | Some _ => files w' !! path = files w !! path ∧ rs_Updated r = false
  | None =>
      (dryRun = true ∨ rs_Skipped r = true → w' = w) ∧
      rs_Skipped r = negb (setMCPServerEntry spec root).1 ∧ rs_Updated r = negb (rs_Skipped r) ∧
      (dryRun = false → rs_Updated r = true →
         files w' !! path = Some (File (mode_of path w 384) (render_object (setMCPServerEntry spec root).2)) ∧
         (∀ f, files w !! path = Some f → rs_Backup r = backup_path h path ∧
            f_data <$> (files w' !! backup_path h path) = Some (f_data f))) ∧
      (dryRun = false → ∀ h2, let again := writeJSONConfig h2 name path false (setMCPServerEntry spec) w' in
         again.2 = w' ∧ rs_Skipped again.1 = true ∧ rs_Error again.1 = None)
  end.
Proof.
  pose proof (read_storable h path w root Hread) as Hroot.
  destruct Htemp as [Ht1 Ht2]. unfold writeJSONConfig at 1. rewrite (proj2 (String.eqb_neq _ _) Hpath), Hread.
  destruct (setMCPServerEntry spec root) as [changed root'] eqn:Eset. cbn [fst snd].
  assert (Hagain : ∀ w' m', readJSONObject h path w' = Ok m' → (setMCPServerEntry spec m').1 = false →
    ∀ h2, let again := writeJSONConfig h2 name path false (setMCPServerEntry spec) w' in
      again.2 = w' ∧ rs_Skipped again.1 = true ∧ rs_Error again.1 = None).
  { intros w' m' Hm Hset h2. cbv zeta. unfold writeJSONConfig. rewrite (proj2 (String.eqb_neq _ _) Hpath).
    assert (Hm2 : readJSONObject h2 path w' = Ok m').
    { unfold readJSONObject in *. destruct (ReadFile path w') as [b|[]]; [|done..]. by destruct (parse_object b). }
    rewrite Hm2. destruct (setMCPServerEntry spec m') as [c m2]. cbn in Hset. by subst c. }
  destruct changed; cbn [negb].
  - set (res := with_path path (fileExists h path w) (result0 name dryRun)).
    pose proof (commit_cases h path (render_object root') dryRun res w eq_refl eq_refl eq_refl Ht1 Ht2) as Hc.
    destruct (commit h path _ dryRun res w) as [r w']. destruct Hc as (C1 & C2 & C3 & C4 & C5). split; [done|].
    destruct (rs_Error r); [by destruct C5|]. destruct C5 as [C5 C6]. rewrite C1, C5. cbn [rs_Skipped res with_path result0 negb].
    destruct dryRun; [split_and!; try done; by intros _|]. destruct C6 as [C6 C7]. split_and!; try done; [by intros [?|?]| |].
    + intros _ _. split; [done|]. intros f Hf. apply C7; [|done]. unfold res, fileExists. cbn [rs_Found with_path result0].
      by rewrite (proj2 (String.eqb_neq _ _) Hpath), Hdir, Hf.
    + intros _. assert (Hst : storable (JObj root')) by (change root' with (true, root').2; rewrite <-Eset; by apply storable_set_entry).
      destruct (read_written h path root' w' (mode_of path w newConfigMode) Hst) as (m' & Hm & Hcan); [by rewrite C3|exact C6|].
      apply (Hagain w' m' Hm). apply (set_entry_canon spec root m'); [done|done|]. by rewrite Eset.
  - cbn [rs_Error skipped with_path result0 rs_Skipped rs_Updated negb]. split_and!; try done.
    intros _. apply (Hagain w root Hread). by rewrite Eset.
Qed.

Definition sample_host : host :=
  Host "linux" (Some "/h") "" (λ _, false) "20260101-000000" (λ _, false) (λ p, Some (p +:+ ".tmp-1")) false false
    (λ _, errors_new "io") (λ _, errors_new "json").
Definition config_fs : fs :=
  FS {[ "/h/.cursor/mcp.json" := File 420 (bq "{ // mine
 `theme`: `dark`, }") ]} (λ _, false) (λ _, None) (λ _, false).

Lemma install_once_witness :
  let out := writeJSONConfig sample_host "Cursor" "/h/.cursor/mcp.json" false (setMCPServerEntry (DefaultSpec "/bin/a2abridge")) config_fs in
  rs_Updated out.1 = true ∧
  files out.2 !! "/h/.cursor/mcp.json" =
    Some (File 420 (render_object (setMCPServerEntry (DefaultSpec "/bin/a2abridge") [("theme", JStr "dark")]).2)).
Proof.
  cbv zeta.
  assert (Hread : readJSONObject sample_host "/h/.cursor/mcp.json" config_fs = Ok [("theme", JStr "dark")]) by (vm_compute; reflexivity).
  pose proof (install_once sample_host "Cursor" "/h/.cursor/mcp.json" (DefaultSpec "/bin/a2abridge") false config_fs
    [("theme", JStr "dark")] ltac:(done) Hread) as Hi.
  assert (Hspec : spec_ok (DefaultSpec "/bin/a2abridge")).
  { split_and!; [by vm_compute|by vm_compute|apply (bool_decide_unpack _); vm_compute; exact I|repeat constructor; by vm_compute]. }
  specialize (Hi Hspec ltac:(done) ltac:(done)).
  assert (Ht : fresh_temp sample_host "/h/.cursor/mcp.json" config_fs ∧
    fresh_temp sample_host "/h/.cursor/mcp.json" (backupFile sample_host "/h/.cursor/mcp.json" config_fs).2).
  { split; intros t [= <-]; (split; [by vm_compute|done]). }
  specialize (Hi Ht).
  assert (Hok : rs_Error (writeJSONConfig sample_host "Cursor" "/h/.cursor/mcp.json" false
    (setMCPServerEntry (DefaultSpec "/bin/a2abridge")) config_fs).1 = None ∧
    rs_Updated (writeJSONConfig sample_host "Cursor" "/h/.cursor/mcp.json" false
    (setMCPServerEntry (DefaultSpec "/bin/a2abridge")) config_fs).1 = true) by (split; vm_compute; reflexivity).
  destruct (writeJSONConfig _ _ _ _ _ _) as [r w']. cbn [fst snd] in *. destruct Hok as [He Hu]. destruct Hi as [_ Hi].
  rewrite He in Hi. destruct Hi as (_ & _ & _ & Hw & _). split; [done|]. apply (Hw eq_refl Hu).
Defined.

(** * The prompt hook *)

(** every hook of every group under [UserPromptSubmit] *)
Definition prompt_groups (root : list (string * json)) : list json :=
  match assoc_get "hooks" root with Some (JObj r) => as_list (assoc_get "UserPromptSubmit" r) | _ => [] end.
Definition prompt_hooks (root : list (string * json)) : list json := flat_map entry_hooks (prompt_groups root).

Lemma needs_hook root command : command ≠ "" →
  needsHookUpdate root command = negb (existsb (λ h, String.eqb (hook_command h) command) (prompt_hooks root)).
Proof.
  intros Hc. unfold needsHookUpdate, prompt_hooks, prompt_groups. rewrite (proj2 (String.eqb_neq _ _) Hc).
  destruct (assoc_get "hooks" root) as [[| | | | |r]|]; try done. f_equal.
  induction (as_list (assoc_get "UserPromptSubmit" r)) as [|m l IH]; [done|]. cbn [existsb flat_map]. by rewrite existsb_app, IH.
Qed.

Lemma entry_hooks_set l entry : entry_hooks (JObj (assoc_set "hooks" (JArr l) entry)) = l.
Proof. unfold entry_hooks. cbn [as_map]. by rewrite assoc_get_set, String.eqb_refl. Qed.

Lemma extend_group_hooks command ms ms' :
  existsb (λ h, String.eqb (hook_command h) command) (flat_map entry_hooks ms) = false → command ≠ "" →
  extend_group command ms = Some ms' →
  ∃ l1 l2, flat_map entry_hooks ms = l1 ++ l2 ∧ flat_map entry_hooks ms' = l1 ++ [our_hook command] ++ l2.
Proof.
  intros Hno Hc. revert ms'. induction ms as [|m ms IH]; intros ms'; [done|]. cbn [extend_group flat_map existsb] in *.
  rewrite existsb_app in Hno. apply orb_false_iff in Hno as [Hm Hno]. specialize (IH Hno).
  assert (Hskip : (cons m <$> extend_group command ms) = Some ms' →
    ∃ l1 l2, entry_hooks m ++ flat_map entry_hooks ms = l1 ++ l2 ∧ flat_map entry_hooks ms' = l1 ++ [our_hook command] ++ l2).
  { intros (ms2 & He & ->)%fmap_Some. destruct (IH _ He) as (l1 & l2 & H1 & H2).
    exists (entry_hooks m ++ l1), l2. cbn [flat_map]. rewrite H1, H2, <-!(assoc_L app). done. }
  destruct m as [| | | | |entry]; try exact Hskip. cbn [as_map]. destruct (negb _); [exact Hskip|].
  change (as_list (assoc_get "hooks" entry)) with (entry_hooks (JObj entry)).
  destruct (existsb (λ h, match as_map h with Some e => String.eqb (as_string (assoc_get "command" e)) command | None => false end)
    (entry_hooks (JObj entry))) eqn:Ex.
  - exfalso. apply existsb_exists in Ex as (x & Hx & He). apply not_true_iff_false in Hm. apply Hm. apply existsb_exists.
    exists x. split; [done|]. unfold hook_command. by destruct (as_map x).
  - intros [= <-]. exists (entry_hooks (JObj entry)), (flat_map entry_hooks ms). split; [done|]. cbn [flat_map].
    by rewrite entry_hooks_set, <-(assoc_L app).
Qed.

(** Registering the prompt hook adds exactly one hook, and only when none of the
    groups runs the command yet; every hook of the user stays, in order, as does
    every other setting, and afterwards there is nothing to register. *)
Theorem hook_merge_spec (command : string) (root : list (string * json)) (Hc : command ≠ "")
    (Hneed : needsHookUpdate root command = true) :
  let root' := mergeUserPromptSubmitHook command root in
  needsHookUpdate root' command = false ∧
  (∃ l1 l2, prompt_hooks root = l1 ++ l2 ∧ prompt_hooks root' = l1 ++ [our_hook command] ++ l2) ∧
  (∀ k, k ≠ "hooks" → assoc_get k root' = assoc_get k root) ∧
  (∀ k, k ≠ "UserPromptSubmit" → assoc_get k (read_nested ["hooks"] root') = assoc_get k (read_nested ["hooks"] root)).
Proof.
  cbv zeta. rewrite needs_hook in Hneed by done. apply negb_true_iff in Hneed.
  set (hr := read_nested ["hooks"] root).
  assert (Hgroups : prompt_groups root = as_list (assoc_get "UserPromptSubmit" hr)).
  { unfold hr, prompt_groups. cbn [read_nested]. by destruct (assoc_get "hooks" root) as [[]|]. }
  set (ms := as_list (assoc_get "UserPromptSubmit" hr)) in *.
  set (ms' := match extend_group command ms with Some ms => ms
    | None => ms ++ [JObj [("matcher", JStr "*"); ("hooks", JArr [our_hook command])]] end).
  assert (Hroot : mergeUserPromptSubmitHook command root = assoc_set "hooks" (JObj (assoc_set "UserPromptSubmit" (JArr ms') hr)) root) by done.
  assert (Hh : ∃ l1 l2, prompt_hooks root = l1 ++ l2 ∧ flat_map entry_hooks ms' = l1 ++ [our_hook command] ++ l2).
  { unfold prompt_hooks in *. rewrite Hgroups in *. unfold ms'. destruct (extend_group command ms) as [ms2|] eqn:E.
    - by apply (extend_group_hooks command ms ms2).
    - exists (flat_map entry_hooks ms), []. by rewrite app_nil_r, flat_map_app. }
  assert (Hnew : prompt_hooks (mergeUserPromptSubmitHook command root) = flat_map entry_hooks ms').
  { unfold prompt_hooks, prompt_groups. by rewrite Hroot, !assoc_get_set, String.eqb_refl, assoc_get_set, String.eqb_refl. }
  split_and!.
  - rewrite needs_hook, Hnew by done. destruct Hh as (l1 & l2 & _ & ->). rewrite !existsb_app. cbn [existsb].
    change (hook_command (our_hook command)) with command. by rewrite String.eqb_refl, orb_true_r.
  - by rewrite Hnew.
  - intros k Hk. rewrite Hroot, assoc_get_set. by rewrite (proj2 (String.eqb_neq _ _) (not_eq_sym Hk)).
  - intros k Hk. rewrite Hroot. cbn [read_nested]. rewrite assoc_get_set, String.eqb_refl, assoc_get_set.
    by rewrite (proj2 (String.eqb_neq _ _) (not_eq_sym Hk)).
Qed.

Lemma hook_merge_example :
  let root := [("hooks", JObj [("UserPromptSubmit", JArr [JObj [("matcher", JStr "*"); ("hooks", JArr [JStr "mine"])]])])] in
  needsHookUpdate (mergeUserPromptSubmitHook "/h/a2a-inbox-hook.sh" root) "/h/a2a-inbox-hook.sh" = false.
Proof. cbv zeta. apply hook_merge_spec; [done|by vm_compute]. Defined.

(** * Removal *)

Lemma prune_groups_hooks ms : flat_map entry_hooks (prune_groups ms).2 = filterb (λ h, negb (is_ours h)) (flat_map entry_hooks ms) ∧
  ((prune_groups ms).1 = false → existsb is_ours (flat_map entry_hooks ms) = false).
Proof.
  induction ms as [|m ms [IH1 IH2]]; [done|]. cbn [prune_groups]. destruct (prune_groups ms) as [changed out]. cbn [fst snd] in IH1, IH2.
  cbn [flat_map]. rewrite filterb_app, existsb_app.
  destruct m as [| | | | |entry]; cbn [as_map]; try (cbn [fst snd flat_map]; split; [by rewrite IH1|]; intros; by rewrite IH2).
  change (as_list (assoc_get "hooks" entry)) with (entry_hooks (JObj entry)).
  destruct (filterb _ (entry_hooks (JObj entry))) as [|x l] eqn:Ef; cbn [fst snd flat_map].
  - by rewrite IH1.
  - rewrite entry_hooks_set, IH1. split; [done|]. intros [H1 H2]%orb_false_iff. by rewrite H2, IH2.
Qed.

Lemma existsb_filterb {A} (p : A → bool) l : existsb p l = false → filterb (λ x, negb (p x)) l = l.
Proof. induction l as [|x l IH]; cbn; [done|]. intros [H1 H2]%orb_false_iff. by rewrite H1, IH. Qed.

Lemma prune_hooks_spec hooks :
  flat_map entry_hooks (as_list (assoc_get "UserPromptSubmit" (pruneUserPromptSubmitHook hooks).2)) =
    filterb (λ h, negb (is_ours h)) (flat_map entry_hooks (as_list (assoc_get "UserPromptSubmit" hooks))) ∧
  ∀ k, k ≠ "UserPromptSubmit" → assoc_get k (pruneUserPromptSubmitHook hooks).2 = assoc_get k hooks.
Proof.
  unfold pruneUserPromptSubmitHook. destruct (assoc_get "UserPromptSubmit" hooks) as [[| | | |ms|]|] eqn:E; cbn [snd]; rewrite ?E; try done.
  destruct (prune_groups_hooks ms) as [H1 H2]. destruct (prune_groups ms) as [changed out]. cbn [fst snd as_list] in *.
  destruct changed; cbn [negb].
  - destruct out as [|x out]; cbn [snd].
    + rewrite assoc_get_del, String.eqb_refl. split; [exact H1|]. intros k Hk. rewrite assoc_get_del.
      by rewrite (proj2 (String.eqb_neq _ _) (not_eq_sym Hk)).
    + rewrite assoc_get_set, String.eqb_refl. split; [exact H1|]. intros k Hk. rewrite assoc_get_set.
      by rewrite (proj2 (String.eqb_neq _ _) (not_eq_sym Hk)).
  - cbn [snd]. rewrite E. cbn [as_list]. rewrite existsb_filterb by auto. done.
Qed.

(** the leaf after it was written back, or deleted when it became empty *)
Lemma read_back k m root : read_nested [k] (match m with [] => assoc_del k root | _ => assoc_set k (JObj m) root end) = m.
Proof. destruct m as [|x m]; cbn [read_nested]; [rewrite assoc_get_del|rewrite assoc_get_set]; by rewrite String.eqb_refl. Qed.
Lemma get_back k k' m root : k' ≠ k →
  assoc_get k' (match m with [] => assoc_del k root | _ => assoc_set k (JObj m) root end) = assoc_get k' root.
Proof.
  intros Hk. destruct m as [|x m]; [rewrite assoc_get_del|rewrite assoc_get_set]; by rewrite (proj2 (String.eqb_neq _ _) (not_eq_sym Hk)).
Qed.

Lemma prompt_hooks_nested root : prompt_hooks root = flat_map entry_hooks (as_list (assoc_get "UserPromptSubmit" (read_nested ["hooks"] root))).
Proof. unfold prompt_hooks, prompt_groups. cbn [read_nested]. by destruct (assoc_get "hooks" root) as [[]|]. Qed.

Lemma strip_servers root : let step := strip_server root in
  (∀ k, k ≠ "mcpServers" → assoc_get k step.2 = assoc_get k root) ∧
  ∀ k, assoc_get k (read_nested ["mcpServers"] step.2) =
    if String.eqb "a2a" k then None else assoc_get k (read_nested ["mcpServers"] root).
Proof.
  cbv zeta. unfold strip_server. destruct (assoc_get "mcpServers" root) as [v|] eqn:Es; [destruct v as [| | | | |servers]|];
    try (split; [done|]; intros k; cbn [snd read_nested]; rewrite Es; by destruct (String.eqb "a2a" k)).
  cbn [snd]. split; [intros k Hk; by apply get_back|]. intros k. rewrite read_back. cbn [read_nested]. rewrite Es.
  destruct (assoc_get "a2a" servers) eqn:Ea; [apply assoc_get_del|]. destruct (String.eqb_spec "a2a" k) as [<-|]; [done|done].
Qed.

(** Removal takes out the program's server and its hooks and nothing else: the
    other servers, the user's hooks in their order, the other hook events and every
    other setting stay. *)
Theorem strip_entries_spec (root : list (string * json)) :
  let root' := (strip_entries root).2 in
  (∀ k, assoc_get k (read_nested ["mcpServers"] root') =
     if String.eqb "a2a" k then None else assoc_get k (read_nested ["mcpServers"] root)) ∧
  prompt_hooks root' = filterb (λ h, negb (is_ours h)) (prompt_hooks root) ∧
  (∀ k, k ≠ "UserPromptSubmit" → assoc_get k (read_nested ["hooks"] root') = assoc_get k (read_nested ["hooks"] root)) ∧
  (∀ k, k ≠ "mcpServers" → k ≠ "hooks" → assoc_get k root' = assoc_get k root).
Proof.
  cbv zeta. unfold strip_entries. destruct (strip_servers root) as [S1 S2].
  destruct (strip_server root) as [changed root1]. cbn [snd] in S1, S2.
  pose proof (S1 "hooks" ltac:(done)) as Hh. rewrite !prompt_hooks_nested.
  assert (Hn : read_nested ["hooks"] root1 = read_nested ["hooks"] root) by (cbn [read_nested]; by rewrite Hh).
  destruct (assoc_get "hooks" root1) as [[| | | | |hooks]|] eqn:E;
    try (cbn [snd]; rewrite Hn; split_and!; [done| |done|by auto];
         (assert (Hr : read_nested ["hooks"] root = []) by (cbn [read_nested]; by rewrite <-Hh)); by rewrite Hr).
  destruct (prune_hooks_spec hooks) as [P1 P2]. destruct (pruneUserPromptSubmitHook hooks) as [pruned hooks']. cbn [snd] in *.
  assert (Hr : read_nested ["hooks"] root = hooks) by (cbn [read_nested]; by rewrite <-Hh).
  split_and!.
  - intros k. cbn [read_nested]. rewrite get_back by done. apply S2.
  - by rewrite read_back, Hr.
  - intros k Hk. rewrite read_back, Hr. by apply P2.
  - intros k H1 H2. rewrite get_back by done. by apply S1.
Qed.

(** A group of the user's that has no hooks is dropped although it is not the
    program's, and the file is rewritten for it. *)
Lemma strip_drops_empty_group :
  strip_entries [("hooks", JObj [("UserPromptSubmit", JArr [JObj [("matcher", JStr "mine"); ("hooks", JArr [])]])])] = (true, []).
Proof. reflexivity. Qed.
