(* ===== verification/Settings.v ===== *)
(** Configurations are well typed: every object the program reads is one it can
    write, and its operations keep that. *)
From stdpp Require Import base list strings.
From S2P Require Import Prelude GoStrings Json GoSort A2A GoFS GoExec Jsonc IdeConfig.

Open Scope string_scope.
Open Scope Z_scope.
Open Scope list_scope.

Lemma Forall_sublist {A} (P : A → Prop) (l k : list A) : Forall P k → l `sublist_of` k → Forall P l.
Proof. intros Hk Hs. induction Hs as [|x l k Hs IH|x l k Hs IH]; [done|..]; apply Forall_cons in Hk as [Hx Hk]; auto. Qed.

(** a value that fits below depth [d] of a configuration *)
Definition fits (d : N) (v : json) : Prop := readable d v ∧ distinct v.

Lemma storable_fits v : storable v ↔ fits 0 v.
Proof. split; [intros [H1 H2 H3 H4]|intros [(H1 & H2 & H3) H4]]; by split; try done; split_and!. Qed.

Lemma depth_max {A} (f : A → N) l d : (d + fold_right N.max 0 (map f l) ≤ max_depth)%N ↔
  (d ≤ max_depth)%N ∧ Forall (λ x, d + f x ≤ max_depth)%N l.
Proof.
  induction l as [|x l IH]; cbn [map fold_right]; [split; [split; [lia|constructor]|lia]|]. rewrite Forall_cons. split.
  - intros Hd. assert (H : (d + fold_right N.max 0 (map f l) ≤ max_depth)%N) by lia. apply IH in H as [H1 H2]. split_and!; [lia|lia|done].
  - intros (H1 & H2 & H3). assert (H : (d + fold_right N.max 0 (map f l) ≤ max_depth)%N) by (by apply IH). lia.
Qed.

Lemma fits_arr d l : fits d (JArr l) ↔ (d < max_depth)%N ∧ Forall (fits (N.succ d)) l.
Proof.
  unfold fits, readable. cbn [jwf jutf8 jdepth distinct]. rewrite conj_forall, !forallb_forall.
  assert (Hs : (d + N.succ (fold_right N.max 0 (map jdepth l)) = N.succ d + fold_right N.max 0 (map jdepth l))%N) by lia.
  rewrite Hs, depth_max, !Forall_forall. setoid_rewrite <-list_elem_of_In. split.
  - intros ((H1 & H2 & H3 & H4) & H5). split; [lia|]. intros x Hx. split_and!; auto.
  - intros [H1 H2]. split_and!; try (intros x Hx; by apply (H2 x Hx)). lia.
Qed.

Lemma fits_obj d m : fits d (JObj m) ↔
  (d < max_depth)%N ∧ NoDup m.*1 ∧ Forall (λ x, valid_utf8 x.1 = true ∧ fits (N.succ d) x.2) m.
Proof.
  unfold fits, readable. cbn [jwf jutf8 jdepth distinct]. rewrite conj_forall, !forallb_forall.
  assert (Hs : (d + N.succ (fold_right N.max 0 (map (λ x, jdepth x.2) m)) = N.succ d + fold_right N.max 0 (map (λ x, jdepth x.2) m))%N) by lia.
  rewrite Hs, (depth_max (λ x, jdepth x.2)), !Forall_forall. setoid_rewrite <-list_elem_of_In. split.
  - intros ((H1 & H2 & H3 & H4) & H5 & H6). split_and!; [lia|done|]. intros x Hx.
    destruct (proj1 (andb_true_iff _ _) (H2 x Hx)) as [Hk Hu]. split_and!; auto.
  - intros (H1 & H2 & H3). split_and!; [| | |..|done|]; try (intros x Hx; by apply (H3 x Hx)); [|lia].
    intros x Hx. destruct (H3 x Hx) as (Hk & (_ & Hu & _) & _). by rewrite Hk, Hu.
Qed.

Lemma fits_str d s : (d ≤ max_depth)%N → valid_utf8 s = true → fits d (JStr s).
Proof. intros Hd Hs. split; [|done]. split_and!; [done|done|cbn; lia]. Qed.

Lemma fits_empty d : (d < max_depth)%N → fits d (JObj []).
Proof. intros Hd. apply fits_obj. split_and!; [done|constructor|constructor]. Qed.

Lemma fits_get d k m v : fits d (JObj m) → assoc_get k m = Some v → fits (N.succ d) v.
Proof.
  intros (_ & Hn & Hm)%fits_obj Hk. assert (Hv : (k, v) ∈ m) by (by apply assoc_get_elem). rewrite Forall_forall in Hm. by apply (Hm _ Hv).
Qed.

Lemma fits_set d k v m : fits d (JObj m) → valid_utf8 k = true → fits (N.succ d) v → fits d (JObj (assoc_set k v m)).
Proof.
  intros (Hd & Hn & Hm)%fits_obj Hk Hv. apply fits_obj. split_and!; [done|by apply assoc_set_NoDup|]. clear Hn.
  induction Hm as [|[k' v'] m H1 H2 IH]; cbn [assoc_set fst snd] in *; [by apply Forall_singleton|].
  destruct (String.eqb k' k); by constructor.
Qed.

Lemma fits_del d k m : fits d (JObj m) → fits d (JObj (assoc_del k m)).
Proof.
  intros (Hd & Hn & Hm)%fits_obj. apply fits_obj.
  assert (Hs : assoc_del k m `sublist_of` m) by (clear; induction m as [|[k' v'] m IH]; cbn; [done|]; destruct (String.eqb k' k); by constructor).
  split_and!; [done| |by eapply Forall_sublist]. eapply sublist_NoDup; [exact Hn|by apply fmap_sublist].
Qed.

(** the object under a key, or the empty one *)
Lemma fits_read d k root : fits d (JObj root) → (N.succ d < max_depth)%N →
  fits (N.succ d) (JObj (match assoc_get k root with Some (JObj m) => m | _ => [] end)).
Proof.
  intros Hr Hd. destruct (assoc_get k root) as [[]|] eqn:E; try by apply fits_empty. by apply (fits_get d k root).
Qed.

Lemma fits_as_list d k m : fits d (JObj m) → Forall (fits (N.succ (N.succ d))) (as_list (assoc_get k m)).
Proof.
  intros Hm. destruct (assoc_get k m) as [[| | | |l|]|] eqn:E; try constructor. apply (fits_get d k m) in E as [_ Hl]%fits_arr; [|done]. done.
Qed.

(** * The operations *)

Lemma fits_hook d command : (N.succ d ≤ max_depth)%N → valid_utf8 command = true → fits d (our_hook command).
Proof.
  intros Hd Hc. apply fits_obj. split_and!; [lia|by apply (bool_decide_unpack _)|].
  repeat constructor; try done; by apply fits_str.
Qed.

Lemma fits_extend d command ms ms' : (d + 4 ≤ max_depth)%N → valid_utf8 command = true → Forall (fits d) ms →
  extend_group command ms = Some ms' → Forall (fits d) ms'.
Proof.
  intros Hd Hc Hms. revert ms'. induction Hms as [|x ms Hx Hms IH]; intros ms'; [done|]. cbn [extend_group].
  assert (Hskip : (cons x <$> extend_group command ms) = Some ms' → Forall (fits d) ms').
  { intros (ms2 & He & ->)%fmap_Some. constructor; auto. }
  destruct x as [| | | | |entry]; try exact Hskip. cbn [as_map]. destruct (negb _); [exact Hskip|].
  destruct (existsb _ _); intros [= <-]; [by constructor|]. constructor; [|done]. apply fits_set; [done|done|].
  apply fits_arr. split; [lia|]. apply Forall_app. split; [by apply fits_as_list|].
  constructor; [apply fits_hook; [lia|done]|constructor].
Qed.

Lemma fits_merge d command root : (d + 7 ≤ max_depth)%N → valid_utf8 command = true → fits d (JObj root) →
  fits d (JObj (mergeUserPromptSubmitHook command root)).
Proof.
  intros Hd Hc Hr. unfold mergeUserPromptSubmitHook. cbn [update_nested]. set (hr := match assoc_get "hooks" root with Some (JObj m) => m | _ => [] end).
  assert (Hhr : fits (N.succ d) (JObj hr)) by (apply fits_read; [done|lia]). clearbody hr.
  apply fits_set; [done|done|]. apply fits_set; [done|done|]. apply fits_arr. split; [lia|].
  pose proof (fits_as_list _ "UserPromptSubmit" hr Hhr) as Hms. destruct (extend_group command _) as [ms|] eqn:E.
  - by apply (fits_extend _ command (as_list (assoc_get "UserPromptSubmit" hr))); [lia|..].
  - apply Forall_app. split; [done|]. apply Forall_singleton. apply fits_obj.
    split_and!; [lia|by apply (bool_decide_unpack _)|]. constructor; [split; [done|apply fits_str; [lia|done]]|].
    constructor; [|constructor]. split; [done|]. cbn [snd]. apply fits_arr. split; [lia|]. constructor; [apply fits_hook; [lia|done]|constructor].
Qed.

Lemma fits_filter d p l : Forall (fits d) l → Forall (fits d) (filterb p l).
Proof. intros Hl. eapply Forall_sublist; [exact Hl|apply filterb_sublist]. Qed.

Lemma fits_groups d ms : Forall (fits d) ms → Forall (fits d) (prune_groups ms).2.
Proof.
  induction 1 as [|x ms Hx Hms IH]; [constructor|]. cbn [prune_groups]. destruct (prune_groups ms) as [c out]. cbn [snd] in IH.
  destruct x as [| | | | |entry]; try by constructor. cbn [as_map].
  pose proof (fits_filter _ (λ h, negb (is_ours h)) _ (fits_as_list _ "hooks" entry Hx)) as Hf.
  destruct (filterb _ _) as [|y l]; [done|]. constructor; [|done]. apply fits_set; [done|done|]. apply fits_arr. split; [|done].
  apply Forall_cons in Hf as [[(_ & _ & Hy) _] _]. lia.
Qed.

Lemma fits_prune d hooks : fits d (JObj hooks) → fits d (JObj (pruneUserPromptSubmitHook hooks).2).
Proof.
  intros Hh. unfold pruneUserPromptSubmitHook. destruct (assoc_get "UserPromptSubmit" hooks) as [[| | | |ms|]|] eqn:E; try done.
  pose proof (fits_get _ _ _ _ Hh E) as Hms. apply fits_arr in Hms as [Hd Hms]. apply fits_groups in Hms.
  destruct (prune_groups ms) as [c out]. destruct c; cbn [negb snd] in *; [|done].
  destruct out; [by apply fits_del|]. apply fits_set; [done|done|]. by apply fits_arr.
Qed.

(** the object under a key after it was changed, dropped when it became empty *)
Lemma fits_put_back d k (m root : list (string * json)) : fits d (JObj root) → valid_utf8 k = true → fits (N.succ d) (JObj m) →
  fits d (JObj (match m with [] => assoc_del k root | _ => assoc_set k (JObj m) root end)).
Proof. intros Hr Hk Hm. destruct m; [by apply fits_del|by apply fits_set]. Qed.

Lemma fits_strip root : fits 0 (JObj root) → fits 0 (JObj (strip_entries root).2).
Proof.
  intros Hr. unfold strip_entries.
  assert (Hs : fits 0 (JObj (strip_server root).2)).
  { unfold strip_server. destruct (assoc_get "mcpServers" root) as [[| | | | |servers]|] eqn:E; try done. cbn [snd].
    pose proof (fits_get _ _ _ _ Hr E) as Hsv. apply fits_put_back; [done|done|]. destruct (assoc_get "a2a" servers); [by apply fits_del|done]. }
  destruct (strip_server root) as [changed root1]. cbn [snd] in Hs. destruct (assoc_get "hooks" root1) as [[| | | | |hooks]|] eqn:E; try done.
  pose proof (fits_prune _ _ (fits_get _ _ _ _ Hs E)) as Hp. destruct (pruneUserPromptSubmitHook hooks) as [pruned hooks']. cbn [snd] in *.
  by apply fits_put_back.
Qed.

(** ** Nothing written is lost *)

(** an object the program can write: it is [storable], and its text reads back as
    the object with its members sorted *)
Definition well_formed (o : list (string * json)) : Prop :=
  storable (JObj o) ∧ ∃ o', parse_object (render_object o) = Some o' ∧ JObj o' = canon (JObj o).

(** C25: Whatever a configuration file holds, the object read from it is well formed:
    valid numbers and text, distinct keys, no deeper than the decoder reads; so is
    it after the server or the prompt hook was registered or the program's entries
    were removed, and the text written for any of them reads back as the same
    object with its members sorted. *)
Theorem configuration_typed (b : string) (m : list (string * json)) (spec : Spec) (command : string)
    (Hread : parse_object b = Some m) (Hspec : spec_ok spec) (Hcmd : valid_utf8 command = true) :
  Forall well_formed [m; (setMCPServerEntry spec m).2; mergeUserPromptSubmitHook command m; (strip_entries m).2].
Proof.
  pose proof (parse_storable b m Hread) as Hm. pose proof (proj1 (storable_fits _) Hm) as Hf.
  assert (Hok : ∀ o, storable (JObj o) → well_formed o)
    by (intros o Ho; split; [done|by apply parse_render]).
  repeat apply Forall_cons_2; [| | | |apply Forall_nil_2]; apply Hok; [done|by apply storable_set_entry|..]; apply storable_fits;
    [apply fits_merge; [by vm_compute|done..]|by apply fits_strip].
Qed.

Lemma configuration_typed_witness :
  ∃ o', parse_object (render_object (mergeUserPromptSubmitHook "/h/hook.sh" [("theme", JStr "dark")])) = Some o' ∧
    JObj o' = canon (JObj (mergeUserPromptSubmitHook "/h/hook.sh" [("theme", JStr "dark")])).
Proof.
  assert (Hspec : spec_ok (DefaultSpec "/bin/a2abridge")).
  { split_and!; [by vm_compute|by vm_compute|apply (bool_decide_unpack _); vm_compute; exact I|repeat constructor; by vm_compute]. }
  pose proof (configuration_typed (bq "{ // mine
 `theme`: `dark`, }") [("theme", JStr "dark")] (DefaultSpec "/bin/a2abridge") "/h/hook.sh" ltac:(vm_compute; reflexivity)
    Hspec ltac:(vm_compute; reflexivity)) as Ht.
  apply Forall_cons_1 in Ht as [_ Ht]. apply Forall_cons_1 in Ht as [_ Ht]. apply Forall_cons_1 in Ht as [Ht _]. apply Ht.
Defined.
