(* ===== verification/GoFlag.v ===== *)
(** Command lines as package [flag] parses them, for flags that take a string or
    are switches. *)
From Stdlib Require Import Ascii.
From stdpp Require Import base list strings.
From S2P Require Import Prelude GoStrings Json.

Open Scope string_scope.
Open Scope list_scope.

(** [true] for a switch *)
Definition flag_decls : Type := list (string * bool).

Inductive parsed :=
| Flags (values : list (string * string)) (rest : list string)
| ErrHelp
| BadFlag.

(** [strconv.ParseBool] *)
Definition ParseBool (s : string) : option bool :=
  if bool_decide (s ∈ ["1"; "t"; "T"; "TRUE"; "true"; "True"]) then Some true
  else if bool_decide (s ∈ ["0"; "f"; "F"; "FALSE"; "false"; "False"]) then Some false
  else None.
Definition bool_text (b : bool) : string := if b then "true" else "false".

(** the name of a flag and its value when written with an equals sign; [None]
    when the argument is not a flag *)
Inductive arg := NotFlag | EndOfFlags | BadSyntax | Named (name : string) (value : option string).
Definition classify (s : string) : arg :=
  match s with
  | String "-" s =>
      if String.eqb s "" then NotFlag else if String.eqb s "-" then EndOfFlags else
      let name := trim_prefix "-" s in
      match name with
      | "" | String "-" _ | String "=" _ => BadSyntax
      | _ => match cut_char "=" name with Some (n, v) => Named n (Some v) | None => Named name None end
      end
  | _ => NotFlag
  end.

(** [FlagSet.Parse]; a later value of a flag replaces an earlier one. *)
Fixpoint Parse (decls : flag_decls) (acc : list (string * string)) (args : list string) : parsed :=
  match args with
  | [] => Flags acc []
  | s :: args' =>
      match classify s with
      | NotFlag => Flags acc args
      | EndOfFlags => Flags acc args'
      | BadSyntax => BadFlag
      | Named name value =>
          match assoc_get name decls with
          | None => if String.eqb name "help" || String.eqb name "h" then ErrHelp else BadFlag
          | Some true =>
              match value with
              | None => Parse decls (assoc_set name "true" acc) args'
              | Some v =>
                  match ParseBool v with
                  | Some b => Parse decls (assoc_set name (bool_text b) acc) args'
                  | None => BadFlag
                  end
              end
          | Some false =>
              match value, args' with
              | Some v, _ => Parse decls (assoc_set name v acc) args'
              | None, v :: args'' => Parse decls (assoc_set name v acc) args''
              | None, [] => BadFlag
              end
          end
      end
  end.

Example parse_example :
  Parse [("repo", false); ("check", true)] [] ["--repo=a=b"; "-check"; "--"; "-x"] = Flags [("repo", "a=b"); ("check", "true")] ["-x"] ∧
  Parse [("repo", false)] [] ["-repo"; "--x"; "y"; "-z"] = Flags [("repo", "--x")] ["y"; "-z"] ∧
  Parse [("check", true)] [] ["-check=maybe"] = BadFlag ∧ Parse [] [] ["-h"] = ErrHelp.
Proof. vm_compute. done. Qed.
