(* ===== verification/GoFmt.v ===== *)
(** Formatting of package [fmt] and letter case of package [strings], as far as
    the commands use them. *)
From Stdlib Require Import Ascii.
From stdpp Require Import base list strings.
From S2P Require Import Prelude GoStrings Json A2A GoExec.

Open Scope string_scope.
Open Scope Z_scope.
Open Scope list_scope.

(** The tables of package [unicode] beyond ASCII. *)
Class Unicode := {
  unicode_ToLower : Z → Z;
  unicode_IsPrint : Z → bool }.

Section unicode.
Context `{Unicode}.

Definition rune_lower (r : Z) : Z :=
  if r <? 0x80 then (if (65 <=? r) && (r <=? 90) then r + 32 else r) else unicode_ToLower r.

(** [strings.ToLower] *)
Definition ToLower (s : string) : string := string_of_runes (map rune_lower (runes s)).

Definition rune_print (r : Z) : bool := if r <? 0x80 then (0x20 <=? r) && (r <? 0x7F) else unicode_IsPrint r.

Definition hex2 (z : Z) : string := String bs (String "x" (String (hexdig (z / 16 mod 16)) (String (hexdig (z mod 16)) ""))).
Definition hex8 (z : Z) : string :=
  String bs (String "U" (String.string_of_list_ascii (map (λ k, hexdig (z / 16 ^ k mod 16)) [7; 6; 5; 4; 3; 2; 1; 0]))).

(** one character of a text in [%q] *)
Definition quote_seg (x : seg) : string :=
  let '(r, b) := x in
  if seg_bad x then match b with String a _ => hex2 (bz a) | "" => "" end
  else if r =? 0x22 then String bs (String dq "")
  else if r =? 0x5C then String bs (String bs "")
  else if rune_print r then b
  else if r =? 7 then String bs "a"
  else if r =? 8 then String bs "b"
  else if r =? 12 then String bs "f"
  else if r =? 10 then String bs "n"
  else if r =? 13 then String bs "r"
  else if r =? 9 then String bs "t"
  else if r =? 11 then String bs "v"
  else if (r <? 0x20) || (r =? 0x7F) then hex2 r
  else if r <? 0x10000 then u4 r
  else hex8 r.

(** [strconv.Quote], the verb [%q] *)
Definition Quote (s : string) : string := quoted (unsegs (map (λ x, (x.1, quote_seg x)) (segs s))).

(** the verb [%-Ns]: blanks up to [n] characters *)
Definition pad (n : nat) (s : string) : string := s +:+ rep_string (n - rune_count s) " ".
End unicode.

(** tables for the examples *)
Definition ascii_tables : Unicode := {| unicode_ToLower r := r; unicode_IsPrint _ := true |}.

Example quote_example :
  @Quote ascii_tables (bq "a`b" +:+ String "007" (String nlc (String "200" ""))) = bq "`a\`b\a\n\xc8`".
Proof. vm_compute. reflexivity. Qed.
Example pad_example : pad 6 "skill" = "skill " ∧ pad 3 "skill" = "skill" ∧ @ToLower ascii_tables "Claude Code" = "claude code".
Proof. vm_compute. done. Qed.
