(* ===== verification/BuildInfo.v ===== *)
(** The identification of the running build ([internal/buildinfo/version.go]):
    link-time values, then what the Go toolchain recorded, then defaults. *)
From Stdlib Require Import Ascii.
From stdpp Require Import base list strings gmap.
From S2P Require Import Prelude GoStrings Json Regex.

Open Scope string_scope.
Open Scope Z_scope.
Open Scope list_scope.

(* src/internal/buildinfo/version.go (DevVersion) *)
Definition DevVersion : string := "dev".
(* src/internal/buildinfo/version.go (Unknown) *)
Definition Unknown : string := "unknown".
(* src/internal/buildinfo/version.go (develModuleVersion) *)
Definition develModuleVersion : string := "(devel)".
(* src/internal/buildinfo/version.go (shortRevisionLen) *)
Definition shortRevisionLen : nat := 7.
(* src/internal/buildinfo/version.go (dirtySuffix) *)
Definition dirtySuffix : string := "-dirty".

(* src/internal/buildinfo/version.go (Info) *)
Record Info := MkInfo { Version : string; Commit : string; BuildDate : string }.

(** [debug.Module] and [debug.BuildInfo], as far as the program reads them *)
Record GoModule := MkModule { mod_Path : string; mod_Version : string }.
Record BuildInfo := MkBuildInfo { Main : GoModule; Deps : list GoModule; Settings : list (string * string) }.

(** * The version pattern *)

Definition digit_class : class := [(48, 57)].
Definition tail_class : class := [(48, 57); (65, 90); (97, 122); (46, 46); (45, 45)].

(** an optional group, taken when the rest of the pattern allows *)
Definition opt_group {R} (g : regex) (k : list seg → option R) (l : list seg) : option R :=
  match match_then g k l with Some r => Some r | None => k l end.
(** [$] *)
Definition at_end (l : list seg) : option unit := match l with [] => Some tt | _ => None end.

Definition core : regex :=
  lit "v" ++ [at_least digit_class 1] ++ lit "." ++ [at_least digit_class 1] ++ lit "." ++ [at_least digit_class 1].
Definition pre_group : regex := lit "-" ++ [at_least tail_class 1].
Definition build_group : regex := lit "+" ++ [at_least tail_class 1].

(* src/internal/buildinfo/version.go (semverPattern) *)
Definition semverPattern (s : string) : bool :=
  bool_decide (is_Some (match_then core (opt_group pre_group (opt_group build_group at_end)) (segs s))).

Example semver_example : map semverPattern
  ["v1.2.3"; "v4.0.0-rc.1+dirty"; "v1.2.3+incompatible"; "v1.2"; "1.2.3"; "v1.2.3-"; "v1.2.3x"] =
  [true; true; true; false; false; false; false].
Proof. vm_compute. reflexivity. Qed.

(** * The effective values *)

Section build.
(** The module path comes from the package path at run time. *)
Context (modulePath : string).

(* src/internal/buildinfo/version.go:84-94 (moduleVersion) *)
Definition this_module (bi : BuildInfo) : option GoModule :=
  if String.eqb (mod_Path (Main bi)) modulePath then Some (Main bi)
  else List.find (λ d, String.eqb (mod_Path d) modulePath) (Deps bi).

(* src/internal/buildinfo/version.go (moduleVersion) *)
Definition moduleVersion (bi : option BuildInfo) : string :=
  match bi with
  | None => DevVersion
  | Some bi =>
      match this_module bi with
      | None => DevVersion
      | Some m =>
          if String.eqb (mod_Version m) develModuleVersion || negb (semverPattern (mod_Version m)) then DevVersion
          else trim_prefix "v" (mod_Version m)
      end
  end.

(** [m\[k\]] of a map of strings: empty when absent *)
Definition setting (k : string) (m : gmap string string) : string := default "" (m !! k).

(* src/internal/buildinfo/version.go (vcsCommit) *)
Definition vcsCommit (settings : gmap string string) : string :=
  let rev := setting "vcs.revision" settings in
  if String.eqb rev "" then Unknown else
  let rev := if (shortRevisionLen <? slen rev)%nat then stake shortRevisionLen rev else rev in
  if String.eqb (setting "vcs.modified" settings) "true" then rev +:+ dirtySuffix else rev.

(* src/internal/buildinfo/version.go (buildSettings) *)
Definition buildSettings (bi : option BuildInfo) : gmap string string :=
  match bi with
  | None => ∅
  | Some bi => foldl (λ m s, <[s.1 := s.2]> m) ∅ (Settings bi)
  end.

(* src/internal/buildinfo/version.go (resolve) *)
Definition resolve (linked : Info) (bi : option BuildInfo) : Info :=
  let v := if String.eqb (Version linked) "" then moduleVersion bi else Version linked in
  let settings := buildSettings bi in
  let c := if String.eqb (Commit linked) "" then vcsCommit settings else Commit linked in
  let d := if String.eqb (BuildDate linked) "" then
             (let t := setting "vcs.time" settings in if String.eqb t "" then Unknown else t)
           else BuildDate linked in
  MkInfo v c d.
End build.

(* src/internal/buildinfo/version.go:53-64 (Get) *)
Definition Get (modulePath : string) (linked : Info) (read : option BuildInfo) : Info := resolve modulePath linked read.

(** * Theorems *)

Lemma opt_group_sound {R} g (k : list seg → option R) l r : opt_group g k l = Some r →
  ∃ u v, l = u ++ v ∧ (u = [] ∨ den g u) ∧ k v = Some r.
Proof.
  unfold opt_group. destruct (match_then g k l) as [r'|] eqn:E.
  - intros [= <-]. apply match_then_sound in E as (u & v & -> & Hu & Hk). exists u, v. auto.
  - intros Hk. exists [], l. auto.
Qed.

(** What the pattern accepts: a [v], three numbers, and the two optional tails. *)
Lemma semver_shape s : semverPattern s = true → ∃ c p b,
  segs s = c ++ p ++ b ∧ den core c ∧ (p = [] ∨ den pre_group p) ∧ (b = [] ∨ den build_group b).
Proof.
  unfold semverPattern. intros [r Hr]%bool_decide_eq_true.
  apply match_then_sound in Hr as (c & v & Hs & Hc & Hv).
  apply opt_group_sound in Hv as (p & w & -> & Hp & Hw).
  apply opt_group_sound in Hw as (b & e & -> & Hb & He).
  destruct e; [|done]. exists c, p, b. rewrite Hs, app_nil_r. done.
Qed.

(** ** The pattern on bytes: only ASCII characters match it *)

Definition seg_ok (x : seg) : Prop := x.1 < 0x80 → x.2 = String (zb x.1) "".
Lemma segs_ok s : Forall seg_ok (segs s).
Proof.
  induction s as [|s r b t E IH] using segs_ind; [constructor|]. rewrite segs_eq, E. constructor; [|done].
  intros Hr. cbn in *. pose proof (encode_decoded _ _ _ _ E) as He.
  assert (Hb : seg_bad (r, b) = false) by (unfold seg_bad; cbn; apply andb_false_iff; left; apply Z.eqb_neq; unfold RuneError; lia).
  rewrite <-(He Hb). unfold encode_rune. rewrite (proj2 (Z.ltb_lt r 0x80) Hr). 
  pose proof (segs_valid s) as Hv. rewrite segs_eq, E in Hv. apply Forall_cons in Hv as [Hv _].
  unfold valid_rune in Hv. cbn in Hv. rewrite orb_false_r in Hv.
  replace ((r <? 0) || (0x10FFFF <? r) || _) with false by lia. done.
Qed.

Definition ascii_class (c : class) : bool := forallb (λ x, (0 <=? x.1) && (x.2 <? 0x80)) c.
Lemma in_ascii_class c r : ascii_class c = true → in_class c r = true → 0 ≤ r < 0x80.
Proof.
  unfold ascii_class, in_class. rewrite forallb_forall, existsb_exists. intros Hc ([lo hi] & Hin & Hr).
  specialize (Hc _ Hin). cbn in *. lia.
Qed.

Definition all_in (c : class) (s : string) : Prop := Forall (λ a, in_class c (bz a) = true) (String.list_ascii_of_string s).

Lemma class_run c u : ascii_class c = true → Forall seg_ok u → Forall (λ x, in_class c x.1 = true) u →
  all_in c (unsegs u) ∧ slen (unsegs u) = length u.
Proof.
  intros Hc Hok Hu. induction Hu as [|[r b] u Hr Hu IH]; [by split; [constructor|]|].
  apply Forall_cons in Hok as [Hb Hok]. destruct (IH Hok) as [H1 H2]. cbn in Hr.
  pose proof (in_ascii_class _ _ Hc Hr) as Ha. unfold seg_ok in Hb. cbn in Hb. rewrite Hb in * by lia. clear Hb.
  cbn [unsegs fold_right snd]. split.
  - constructor; [|exact H1]. by rewrite bz_zb by lia.
  - change (S (slen (unsegs u)) = S (length u)). by rewrite H2.
Qed.

(** one character, then a run of at least one character of a class *)
Lemma den_char a re w : bz a < 0x80 → Forall seg_ok w → den (lit (String a "") ++ re) w →
  ∃ v, unsegs w = String a (unsegs v) ∧ Forall seg_ok v ∧ den re v.
Proof.
  intros Ha Hok (u & v & -> & Hu & [H1 H2] & Hd). cbn in H1, H2. destruct u as [|[r b] [|? ?]]; cbn in H1, H2; [lia| |lia].
  apply Forall_cons in Hu as [Hx _]. apply in_single in Hx. cbn in Hx. subst r.
  apply Forall_cons in Hok as [Hb Hok]. exists v. split_and!; [|done..].
  unfold seg_ok in Hb. cbn in Hb |- *. rewrite Hb by done. by rewrite zb_bz.
Qed.
Lemma den_run c re w : ascii_class c = true → Forall seg_ok w → den (at_least c 1 :: re) w →
  ∃ s v, unsegs w = s +:+ unsegs v ∧ s ≠ "" ∧ all_in c s ∧ Forall seg_ok v ∧ den re v.
Proof.
  intros Hc Hok (u & v & -> & Hu & [H1 _] & Hd). cbn in H1. apply Forall_app in Hok as [Hok1 Hok2].
  destruct (class_run _ _ Hc Hok1 Hu) as [Ha Hl]. exists (unsegs u), v. rewrite unsegs_app. split_and!; try done.
  intros E. rewrite E in Hl. destruct u; [cbn in H1; lia|done].
Qed.

(** a tail of the pattern: empty, or the mark and a run of tail characters *)
Definition tail_of (mark : char) (s : string) : Prop :=
  s = "" ∨ ∃ t, s = String mark t ∧ t ≠ "" ∧ all_in tail_class t.

Lemma tail_group mark w : bz mark < 0x80 → Forall seg_ok w →
  (w = [] ∨ den (lit (String mark "") ++ [at_least tail_class 1]) w) → tail_of mark (unsegs w).
Proof.
  intros Hm Hok [->|Hd]; [by left|]. right. destruct (den_char _ _ _ Hm Hok Hd) as (v & -> & Hv & Hr).
  destruct (den_run tail_class _ _ eq_refl Hv Hr) as (s & v' & E & Hs & Ha & _ & ->).
  exists s. rewrite E. change (unsegs []) with "". by rewrite sapp_nil_r.
Qed.

Lemma semver_spec s : semverPattern s = true → ∃ a b c p m,
  s = String "v" (a +:+ String "." (b +:+ String "." (c +:+ p +:+ m))) ∧
  (a ≠ "" ∧ all_in digit_class a) ∧ (b ≠ "" ∧ all_in digit_class b) ∧ (c ≠ "" ∧ all_in digit_class c) ∧
  tail_of "-" p ∧ tail_of "+" m.
Proof.
  intros (w & wp & wm & Hs & Hw & Hp & Hm)%semver_shape. pose proof (segs_ok s) as Hok. rewrite Hs in Hok.
  apply Forall_app in Hok as [Hok Hok']. apply Forall_app in Hok' as [Hokp Hokm].
  apply tail_group in Hp; [|done..]. apply tail_group in Hm; [|done..].
  assert (Hs' : s = unsegs w +:+ unsegs wp +:+ unsegs wm) by (by rewrite <-!unsegs_app, <-Hs, unsegs_segs).
  destruct (den_char "v" _ _ eq_refl Hok Hw) as (v1 & E1 & Hv1 & D1).
  destruct (den_run digit_class _ _ eq_refl Hv1 D1) as (a & v2 & E2 & Ha & Ha' & Hv2 & D2).
  destruct (den_char "." _ _ eq_refl Hv2 D2) as (v3 & E3 & Hv3 & D3).
  destruct (den_run digit_class _ _ eq_refl Hv3 D3) as (b & v4 & E4 & Hb & Hb' & Hv4 & D4).
  destruct (den_char "." _ _ eq_refl Hv4 D4) as (v5 & E5 & Hv5 & D5).
  destruct (den_run digit_class _ _ eq_refl Hv5 D5) as (c & v6 & E6 & Hc & Hc' & Hv6 & ->).
  exists a, b, c, (unsegs wp), (unsegs wm). split_and!; try done.
  rewrite Hs', E1, E2, E3, E4, E5, E6. change (unsegs []) with "". rewrite sapp_nil_r. cbn.
  repeat (rewrite <-sapp_assoc; cbn). done.
Qed.

Lemma stake_ge n s : (slen s ≤ n)%nat → stake n s = s.
Proof. revert n. induction s as [|a s IH]; intros [|n] Hl; try done; unfold slen in *; cbn in *; [lia|]. rewrite IH by lia. done. Qed.

Lemma this_module_spec modulePath bi m : this_module modulePath bi = Some m →
  m ∈ Main bi :: Deps bi ∧ mod_Path m = modulePath.
Proof.
  unfold this_module. destruct (String.eqb_spec (mod_Path (Main bi)) modulePath) as [Hp|_].
  - intros [= <-]. split; [left|done].
  - intros [Hin Hp%String.eqb_eq]%List.find_some. split; [right; by apply list_elem_of_In|done].
Qed.

Lemma moduleVersion_spec modulePath bi : moduleVersion modulePath bi = DevVersion ∨
  ∃ b m, bi = Some b ∧ m ∈ Main b :: Deps b ∧ mod_Path m = modulePath ∧
    mod_Version m = "v" +:+ moduleVersion modulePath bi ∧ semverPattern (mod_Version m) = true.
Proof.
  unfold moduleVersion. destruct bi as [bi|]; [|by left]. destruct (this_module modulePath bi) as [m|] eqn:Hm; [|by left].
  destruct (_ || negb _) eqn:E; [by left|right]. apply orb_false_iff in E as [_ Hs%negb_false_iff].
  apply this_module_spec in Hm as [Hm Hp]. exists bi, m. split_and!; try done.
  destruct (semver_spec _ Hs) as (a & b & c & p & q & -> & _). done.
Qed.

Lemma buildSettings_lookup k l m : foldl (λ (m : gmap string string) s, <[s.1 := s.2]> m) m l !! k =
  match List.find (λ s, String.eqb s.1 k) (reverse l) with Some s => Some s.2 | None => m !! k end.
Proof.
  revert m. induction l as [|[k' v] l IH] using rev_ind; intros m; [done|].
  rewrite foldl_snoc, reverse_snoc. cbn [List.find fst snd]. destruct (String.eqb_spec k' k) as [->|Hk].
  - by rewrite lookup_insert_eq.
  - by rewrite lookup_insert_ne.
Qed.

(** every field of the identification is filled: a link-time value wins; a
    version that was not linked is [dev] or the version of this program's own
    module, a semantic version without its [v]; a commit is the first seven
    characters of the revision, marked when the tree was modified; the last
    setting of a name counts, and what was not recorded is [unknown]. *)
Theorem resolve_spec modulePath linked bi : let i := resolve modulePath linked bi in
  let recorded k := match bi with
    | Some b => match List.find (λ s, String.eqb s.1 k) (reverse (Settings b)) with Some s => s.2 | None => "" end
    | None => "" end in
  Version i = (if String.eqb (Version linked) "" then moduleVersion modulePath bi else Version linked) ∧
  (moduleVersion modulePath bi = DevVersion ∨
    ∃ b m, bi = Some b ∧ m ∈ Main b :: Deps b ∧ mod_Path m = modulePath ∧
      mod_Version m = "v" +:+ moduleVersion modulePath bi ∧ semverPattern (mod_Version m) = true) ∧
  Commit i = (if String.eqb (Commit linked) "" then
      if String.eqb (recorded "vcs.revision") "" then Unknown
      else stake 7 (recorded "vcs.revision") +:+ (if String.eqb (recorded "vcs.modified") "true" then "-dirty" else "")
    else Commit linked) ∧
  BuildDate i = (if String.eqb (BuildDate linked) "" then
      if String.eqb (recorded "vcs.time") "" then Unknown else recorded "vcs.time"
    else BuildDate linked) ∧
  Version i ≠ "" ∧ Commit i ≠ "" ∧ BuildDate i ≠ "".
Proof.
  intros i recorded.
  assert (Hset : ∀ k, setting k (buildSettings bi) = recorded k).
  { intros k. unfold setting, buildSettings, recorded. destruct bi as [b|]; [|done]. rewrite buildSettings_lookup.
    by destruct (List.find _ _). }
  assert (Hstake : ∀ n s, (if (n <? slen s)%nat then stake n s else s) = stake n s).
  { intros n s. destruct (Nat.ltb_spec n (slen s)); [done|]. symmetry. by apply stake_ge. }
  assert (Hne : ∀ n s, s ≠ "" → stake (S n) s ≠ "") by (intros n [|a s]; done).
  pose proof (moduleVersion_spec modulePath bi) as Hmod.
  assert (Hmne : moduleVersion modulePath bi ≠ "").
  { destruct Hmod as [->|(b & m & _ & _ & _ & Hv & Hs)]; [done|]. intros E. rewrite E in Hv. rewrite Hv in Hs.
    vm_compute in Hs. discriminate. }
  assert (Hc : Commit i = if String.eqb (Commit linked) "" then
      if String.eqb (recorded "vcs.revision") "" then Unknown
      else stake 7 (recorded "vcs.revision") +:+ (if String.eqb (recorded "vcs.modified") "true" then "-dirty" else "")
    else Commit linked).
  { unfold i, resolve, vcsCommit. cbn [Commit]. rewrite !Hset, Hstake.
    destruct (String.eqb (Commit linked) ""); [|done]. destruct (String.eqb (recorded "vcs.revision") ""); [done|].
    destruct (String.eqb (recorded "vcs.modified") "true"); [done|]. by rewrite sapp_nil_r. }
  split_and!; try done.
  - unfold i, resolve. cbn [BuildDate]. by rewrite Hset.
  - unfold i, resolve. cbn [Version]. destruct (String.eqb_spec (Version linked) ""); done.
  - rewrite Hc. destruct (String.eqb_spec (Commit linked) ""); [|done].
    destruct (String.eqb_spec (recorded "vcs.revision") ""); [done|].
    pose proof (Hne 6%nat (recorded "vcs.revision") ltac:(done)) as H7. by destruct (stake 7 _).
  - unfold i, resolve. cbn [BuildDate]. rewrite Hset. destruct (String.eqb_spec (BuildDate linked) ""); [|done].
    by destruct (String.eqb_spec (recorded "vcs.time") "").
Qed.
