(* ===== verification/Console.v ===== *)
(** What a command of the binary sees and does: the machine, the two output
    streams, the files, the commands it runs and the calls it makes of the service
    manager; the handling of its flags. *)
From Stdlib Require Import Ascii.
From stdpp Require Import base list strings gmap sets.
From S2P Require Import BuildInfo.
From S2P Require Import Prelude GoStrings Json A2A GoFS GoTree GoExec GoFlag GoFmt Jsonc IdeConfig.

Open Scope string_scope.
Open Scope Z_scope.
Open Scope list_scope.

Inductive stream := Stdout | Stderr.

(** * The service manager (package [kardianos/service]) *)

(** what the unit is built from; an option is a switch or a text *)
Record service_config := ServiceConfig {
  sc_Name : string; sc_DisplayName : string; sc_Description : string; sc_Executable : string;
  sc_Arguments : list string; sc_Option : list (string * (bool + string)) }.

Inductive service_status := StatusUnknown | StatusRunning | StatusStopped.
Inductive service_op := SvcNew | SvcLogger | SvcInstall | SvcUninstall | SvcStart | SvcStop | SvcStatus | SvcRun
  | SvcControl (action : string).
Definition service_call : Type := service_config * service_op.

(** * The machine *)

(** What the machine answers. The faults, the time stamp and the names of
    temporary files may differ at every state of the files; the answers of commands
    and of the service manager depend on everything done before. *)
Class System := {
  goos : string;
  goarch : string;
  go_version : string;
  module_path : string;
  linked_info : Info;
  read_build_info : option BuildInfo;
  UserHomeDir : result goerror string;
  appdata : string;
  Getenv : string → string;
  Executable : result goerror string;
  EvalSymlinks : string → result goerror string;
  Abs : string → result goerror string;
  Hostname : result goerror string;
  LookPath : string → bool;
  now_stamp : tree → string;
  mkdir_fault : tree → string → bool;
  temp_name : tree → string → option string;
  chmod_fault : tree → bool;
  close_fault : tree → bool;
  path_error : string → goerror;
  json_error : string → goerror;
  run_answer : list action → command → outcome;
  service_answer : list service_call → service_call → option goerror;
  service_state : list service_call → service_config → service_status;
  (** what package [flag] prints: the flags of a set, and an error *)
  PrintDefaults : string → list string;
  flag_error : string → list string → string;
  system_tables :: Unicode }.

(** * The state of a command *)

Record world := World {
  w_tree : tree;
  w_log : list (stream * string);
  w_acts : list action;
  w_svc : list service_call }.
Notation IOW := (ST world).

Section console.
Context `{System}.

(** [buildinfo.Get()] *)
Definition build_info : Info := Get module_path linked_info read_build_info.

(** The host of the configuration writers, at a state of the files. *)
Definition host_at (t : tree) : host :=
  Host goos (match UserHomeDir with Ok d => Some d | Err _ => None end) appdata (is_dir t) (now_stamp t)
    (mkdir_fault t) (temp_name t) (chmod_fault t) (close_fault t) path_error json_error.

(** one line on a stream *)
Definition fprintln (s : stream) (line : string) : IOW unit :=
  modify (λ w, World (w_tree w) (w_log w ++ [(s, line)]) (w_acts w) (w_svc w)).
Definition out : string → IOW unit := fprintln Stdout.
Definition err : string → IOW unit := fprintln Stderr.
Fixpoint print_lines (s : stream) (l : list string) : IOW unit :=
  match l with [] => skip | x :: l => _ ← fprintln s x; print_lines s l end.

Definition on_tree {A} (m : tree → A * tree) : IOW A := λ w,
  let '(a, t) := m (w_tree w) in (a, World t (w_log w) (w_acts w) (w_svc w)).
Definition on_files {A} (m : host → fs → A * fs) : IOW A :=
  on_tree (λ t, let '(a, f) := m (host_at t) (t_fs t) in (a, set_fs f t)).
Definition look {A} (f : tree → A) : IOW A := λ w, (f (w_tree w), w).

(** a command run to its end; [c.Run], [c.Output], [c.CombinedOutput] read its
    outcome *)
Definition run_command (c : command) : IOW outcome := λ w,
  (run_answer (w_acts w) c, World (w_tree w) (w_log w) (w_acts w ++ [Exec c]) (w_svc w)).
Definition pause (d : Z) : IOW unit := modify (λ w, World (w_tree w) (w_log w) (w_acts w ++ [Sleep d]) (w_svc w)).

Definition service (cfg : service_config) (op : service_op) : IOW (option goerror) := λ w,
  (service_answer (w_svc w) (cfg, op), World (w_tree w) (w_log w) (w_acts w) (w_svc w ++ [(cfg, op)])).
Definition service_Status (cfg : service_config) : IOW (service_status * option goerror) := λ w,
  ((service_state (w_svc w) cfg, service_answer (w_svc w) (cfg, SvcStatus)),
   World (w_tree w) (w_log w) (w_acts w) (w_svc w ++ [(cfg, SvcStatus)])).

(** * Flags *)

(** [usage]: the set's own text, or that of package [flag] *)
Definition default_usage (set : string) : list string := ("Usage of " +:+ set +:+ ":") :: PrintDefaults set.

(** Parsing, with the exit codes every command gives for a request for help and
    for an error; both print the usage. *)
Definition with_flags (set : string) (usage : list string) (decls : flag_decls) (args : list string)
    (body : list (string * string) → list string → IOW Z) : IOW Z :=
  match Parse decls [] args with
  | ErrHelp => _ ← print_lines Stderr usage; mret 0
  | BadFlag => _ ← err (flag_error set args); _ ← print_lines Stderr usage; mret 2
  | Flags values rest => body values rest
  end.
Definition flag (values : list (string * string)) (name dflt : string) : string := default dflt (assoc_get name values).
Definition switch (values : list (string * string)) (name : string) : bool := bool_decide (assoc_get name values = Some "true").
End console.

(** * Facts *)

(** Commands that leave a part of the world as it was. *)
Class Keeps {A B} (view : world → B) (m : ST world A) : Prop := keeps : ∀ w, view (exec m w) = view w.

Section keeps.
Context {C} (view : world → C).

#[export] Instance keeps_ret {A} (a : A) : Keeps view (mret a).
Proof. done. Qed.
#[export] Instance keeps_bind {A B} (m : ST world A) (f : A → ST world B) :
  Keeps view m → (∀ a, Keeps view (f a)) → Keeps view (m ≫= f).
Proof. intros Hm Hf w. rewrite exec_bind. rewrite Hf. apply Hm. Qed.
#[export] Instance keeps_when b (m : ST world unit) : Keeps view m → Keeps view (when b m).
Proof. intros Hm. destruct b; [exact Hm|done]. Qed.
#[export] Instance keeps_if {A} (b : bool) (m n : ST world A) : Keeps view m → Keeps view n → Keeps view (if b then m else n).
Proof. by destruct b. Qed.
#[export] Instance keeps_print s l : (∀ x, Keeps view (fprintln s x)) → Keeps view (print_lines s l).
Proof. intros Hp. induction l as [|x l IH]; [done|]. apply keeps_bind; [apply Hp|by intros []]. Qed.
#[export] Instance keeps_look {A} (f : tree → A) : Keeps view (look f).
Proof. done. Qed.
End keeps.

#[export] Instance tree_fprintln s x : Keeps w_tree (fprintln s x).
Proof. done. Qed.
#[export] Instance acts_fprintln s x : Keeps w_acts (fprintln s x).
Proof. done. Qed.
#[export] Instance svc_fprintln s x : Keeps w_svc (fprintln s x).
Proof. done. Qed.
#[export] Instance acts_on_tree {A} (m : tree → A * tree) : Keeps w_acts (on_tree m).
Proof. intros w. unfold exec, on_tree. by destruct (m (w_tree w)). Qed.
#[export] Instance svc_on_tree {A} (m : tree → A * tree) : Keeps w_svc (on_tree m).
Proof. intros w. unfold exec, on_tree. by destruct (m (w_tree w)). Qed.

Section with_flags.
Context `{System}.
#[export] Instance tree_service cfg op : Keeps w_tree (service cfg op).
Proof. done. Qed.
#[export] Instance tree_status cfg : Keeps w_tree (service_Status cfg).
Proof. done. Qed.
#[export] Instance tree_run c : Keeps w_tree (run_command c).
Proof. done. Qed.
#[export] Instance svc_run c : Keeps w_svc (run_command c).
Proof. done. Qed.
#[export] Instance tree_pause d : Keeps w_tree (pause d).
Proof. done. Qed.
#[export] Instance keeps_flags {C} (view : world → C) set usage decls args body :
  (∀ s x, Keeps view (fprintln s x)) → (∀ v r, Keeps view (body v r)) → Keeps view (with_flags set usage decls args body).
Proof. intros Hp Hb. unfold with_flags. destruct (Parse decls [] args); [apply Hb|apply _|apply _]. Qed.
End with_flags.

(** A command that leaves the files alone leaves every view of them alone; one
    that changes them is looked at through its change. *)
Lemma keeps_view {A B} (f : tree → B) (m : ST world A) : Keeps w_tree m → Keeps (λ w, f (w_tree w)) m.
Proof. intros Hm w. by rewrite (Hm w). Qed.
Lemma keeps_on_tree {A B} (f : tree → B) (m : tree → A * tree) : (∀ t, f (m t).2 = f t) → Keeps (λ w, f (w_tree w)) (on_tree m).
Proof. intros Hm w. unfold exec, on_tree. specialize (Hm (w_tree w)). by destruct (m (w_tree w)). Qed.

(** ** Reported failures *)

(** a line that reports one: marked as such, or an error *)
Definition fail_line (x : stream * string) : bool :=
  match x.1 with Stderr => true | Stdout => has_prefix "  [FAIL]" x.2 end.
(** What [m] returns and whether it reports a failure are related by [R]. *)
Definition Tells {A} (m : ST world A) (R : A → bool → Prop) : Prop :=
  ∀ w, ∃ l, w_log (exec m w) = w_log w ++ l ∧ R (eval m w) (existsb fail_line l).

Lemma tells_quiet {A} (m : ST world A) (R : A → bool → Prop) :
  (∀ w, w_log (exec m w) = w_log w) → (∀ a, R a false) → Tells m R.
Proof. intros Hm HR w. exists []. by rewrite app_nil_r. Qed.
Lemma tells_ret {A} (a : A) (R : A → bool → Prop) : R a false → Tells (mret a) R.
Proof. intros HR w. exists []. by rewrite app_nil_r. Qed.
Lemma tells_print s x (R : unit → bool → Prop) : R tt (fail_line (s, x)) → Tells (fprintln s x) R.
Proof. intros HR w. exists [(s, x)]. split; [done|]. cbn [existsb]. by rewrite orb_false_r. Qed.
Lemma tells_bind {A B} (m : ST world A) (k : A → ST world B) R1 (R : B → bool → Prop) :
  Tells m R1 → (∀ a b1, R1 a b1 → Tells (k a) (λ c b2, R c (b1 || b2))) → Tells (m ≫= k) R.
Proof.
  intros Hm Hk w. destruct (Hm w) as (l1 & H1 & E1). destruct (Hk _ _ E1 (exec m w)) as (l2 & H2 & E2).
  exists (l1 ++ l2). rewrite exec_bind, eval_bind, existsb_app, H2, H1, (assoc_L app). done.
Qed.
(** a line that reports none, then the rest *)
Lemma tells_out {B} line (k : unit → ST world B) R : fail_line (Stdout, line) = false → Tells (k tt) R → Tells (out line ≫= k) R.
Proof.
  intros Hl Hk. apply (tells_bind _ _ (λ _ b, b = false)); [by apply tells_print|]. by intros [] b ->.
Qed.
Lemma quiet_on_tree {A} (m : tree → A * tree) w : w_log (exec (on_tree m) w) = w_log w.
Proof. unfold exec, on_tree. by destruct (m (w_tree w)). Qed.
Lemma tells_on_tree {A} (m : tree → A * tree) (R : A → bool → Prop) : (∀ a, R a false) → Tells (on_tree m) R.
Proof. apply tells_quiet. intros w. apply quiet_on_tree. Qed.
Lemma tells_look {A} (f : tree → A) (R : A → bool → Prop) : (∀ a, R a false) → Tells (look f) R.
Proof. by apply tells_quiet. Qed.
Lemma eval_on_tree {A} (m : tree → A * tree) w : eval (on_tree m) w = (m (w_tree w)).1.
Proof. unfold eval, on_tree. by destruct (m (w_tree w)). Qed.

(** ** A machine for the examples *)

(** a Linux user [/h]; temporary files get a name that is free *)
Definition sample_targets : list string :=
  ["/h/.claude.json"; "/h/.claude/settings.json"; "/h/.codex/config.toml"; "/h/.cursor/mcp.json";
   "/h/.config/Code/User/globalStorage/saoudrizwan.claude-dev/settings/cline_mcp_settings.json";
   "/h/.continue/mcpServers/a2a.yaml"; "/h/.gemini/settings.json"; "/h/.gemini/config/mcp_config.json"].
Definition sample_stamp : string := "20260101-000000".
Definition taken (t : tree) : list string :=
  file_names t ++ flat_map (λ p, [p; p +:+ ".bak." +:+ sample_stamp]) sample_targets.
Definition quiet_outcome : outcome := Outcome "" "" None.

Definition sample_system : System := {|
  goos := "linux"; goarch := "amd64"; go_version := "go1.24"; module_path := "a2abridge"; linked_info := MkInfo "4.0.0" "" ""; read_build_info := None;
  UserHomeDir := Ok "/h"; appdata := ""; Getenv _ := "";
  Executable := Ok "/bin/a2abridge"; EvalSymlinks p := Ok p; Abs p := Ok p; Hostname := Ok "host";
  LookPath _ := true; now_stamp _ := sample_stamp; mkdir_fault _ _ := false; temp_name t _ := Some (fresh (taken t));
  chmod_fault _ := false; close_fault _ := false; path_error p := errors_new p; json_error _ := errors_new "json";
  run_answer _ _ := quiet_outcome; service_answer _ _ := None; service_state _ _ := StatusRunning;
  PrintDefaults _ := []; flag_error _ _ := "bad flag"; system_tables := ascii_tables |}.
