(* ===== verification/Assets.v ===== *)
(** The files embedded in the binary ([internal/assets]) and their extraction. *)
From Stdlib Require Import Ascii.
From stdpp Require Import base list strings gmap sets.
From S2P Require Import Prelude GoStrings A2A GoFS GoTree GoExec Console.

Open Scope string_scope.
Open Scope Z_scope.
Open Scope list_scope.

(** The texts the compiler embeds. *)
Class Embedded := {
  skill_md : string;
  protocol_md : string;
  inbox_hook_sh : string }.

(** a file system in the order [fs.WalkDir] visits it; [None]: a directory *)
Definition embed_fs := list (string * option string).

Section assets.
Context `{Embedded} `{System}.

(** [fs.Sub] fails only for a malformed name. *)
(* src/internal/assets/assets.go (SkillFS) *)
Definition SkillFS : result goerror embed_fs :=
  Ok [(".", None); ("SKILL.md", Some skill_md); ("references", None); ("references/protocol.md", Some protocol_md)].

(* src/internal/assets/assets.go (HookScript) *)
Definition HookScript : string := inbox_hook_sh.

(** [os.MkdirAll] and [os.WriteFile] with the error as the program sees it *)
Definition make_dirs (p : string) : ST tree (option goerror) := λ t,
  match MkdirAll (mkdir_fault t p) p t with
  | (Ok _, t) => (None, t)
  | (Err _, t) => (Some (path_error p), t)
  end.
Definition write_file (p data : string) (mode : Z) : ST tree (option goerror) := λ t,
  match WriteAt p data mode t with
  | (Ok _, t) => (None, t)
  | (Err _, t) => (Some (path_error p), t)
  end.

(** the first error ends the walk *)
Definition orelse (m n : ST tree (option goerror)) : ST tree (option goerror) := λ t,
  match m t with (Some e, t) => (Some e, t) | (None, t) => n t end.

(* src/internal/assets/assets.go:52-55 (CopyTree) *)
Definition extracted_mode (p : string) : Z := if has_suffix ".sh" p then 493 else 420.

(* src/internal/assets/assets.go:34-57 (CopyTree) *)
Definition copy_entry (dst : string) (x : string * option string) : ST tree (option goerror) :=
  let '(p, d) := x in
  match d with
  | None => make_dirs (if String.eqb p "." then dst else Join [dst; p])
  | Some data =>
      let to := Join [dst; p] in
      orelse (make_dirs (Dir to)) (write_file to data (extracted_mode p))
  end.

(* src/internal/assets/assets.go (CopyTree) *)
Fixpoint CopyTree (src : embed_fs) (dst : string) : ST tree (option goerror) :=
  match src with
  | [] => mret None
  | x :: src => orelse (copy_entry dst x) (CopyTree src dst)
  end.

(** * Facts *)

(** the places of the files *)
Definition places (src : embed_fs) (dst : string) : list string :=
  omap (λ x, match x.2 with Some _ => Some (Join [dst; x.1]) | None => None end) src.

Lemma make_dirs_files p t : t_fs (make_dirs p t).2 = t_fs t.
Proof. unfold make_dirs, MkdirAll. by destruct (_ || _). Qed.

Lemma write_file_other p data mode t q : q ≠ p → files (t_fs (write_file p data mode t).2) !! q = files (t_fs t) !! q.
Proof.
  intros Hq. unfold write_file, WriteAt. destruct (is_dir t p); [done|]. unfold WriteFile.
  destruct (write_fault (t_fs t) p); cbn; by rewrite lookup_insert_ne.
Qed.

Lemma write_file_done p data mode t : (write_file p data mode t).1 = None →
  files (t_fs (write_file p data mode t).2) !! p =
    Some (File (match files (t_fs t) !! p with Some f => f_mode f | None => mode end) data).
Proof.
  unfold write_file, WriteAt. destruct (is_dir t p); [done|]. unfold WriteFile.
  destruct (write_fault (t_fs t) p); cbn; [done|]. intros _. by rewrite lookup_insert_eq.
Qed.

(** a write that failed was one to a directory, or left the part that was written *)
Lemma write_file_failed p data mode t e : (write_file p data mode t).1 = Some e →
  is_dir t p = true ∧ t_fs (write_file p data mode t).2 = t_fs t ∨
  ∃ part, write_fault (t_fs t) p = Some part ∧
    files (t_fs (write_file p data mode t).2) !! p =
      Some (File (match files (t_fs t) !! p with Some f => f_mode f | None => mode end) part).
Proof.
  unfold write_file, WriteAt. destruct (is_dir t p); [by intros; left|]. unfold WriteFile.
  destruct (write_fault (t_fs t) p) as [part|]; cbn; [|done]. intros _. right. exists part. by rewrite lookup_insert_eq.
Qed.
Lemma write_file_fault p data mode t : write_fault (t_fs (write_file p data mode t).2) = write_fault (t_fs t).
Proof. unfold write_file, WriteAt. destruct (is_dir t p); [done|]. unfold WriteFile. by destruct (write_fault (t_fs t) p). Qed.

Lemma copy_entry_other dst x t q : q ∉ places [x] dst → files (t_fs (copy_entry dst x t).2) !! q = files (t_fs t) !! q.
Proof.
  destruct x as [p [data|]]; cbn; intros Hq; [|by rewrite make_dirs_files]. unfold orelse.
  pose proof (make_dirs_files (Dir (Join [dst; p])) t) as Hd. destruct (make_dirs _ t) as [[e|] t1]; cbn [snd] in *; [by rewrite Hd|].
  rewrite write_file_other, Hd; [done|]. intros ->. apply Hq. by left.
Qed.

Lemma copy_entry_done dst p data t : (copy_entry dst (p, Some data) t).1 = None →
  files (t_fs (copy_entry dst (p, Some data) t).2) !! Join [dst; p] =
    Some (File (match files (t_fs t) !! Join [dst; p] with Some f => f_mode f | None => extracted_mode p end) data).
Proof.
  cbn [copy_entry]. unfold orelse. pose proof (make_dirs_files (Dir (Join [dst; p])) t) as Hd.
  destruct (make_dirs _ t) as [[e|] t1]; cbn [snd fst] in *; [done|]. intros Hw. by rewrite (write_file_done _ _ _ _ Hw), Hd.
Qed.

(** Extraction writes the places of the files and no other file; when it succeeds
    every file is there complete, executable when it is a script, or with the mode
    of the file it replaced. *)
Lemma CopyTree_spec src dst t : NoDup (places src dst) →
  let '(e, t') := CopyTree src dst t in
  (∀ q, q ∉ places src dst → files (t_fs t') !! q = files (t_fs t) !! q) ∧
  (e = None → ∀ p data, (p, Some data) ∈ src →
     files (t_fs t') !! Join [dst; p] =
       Some (File (match files (t_fs t) !! Join [dst; p] with Some f => f_mode f | None => extracted_mode p end) data)).
Proof.
  revert t. induction src as [|x src IH]; intros t Hn; [split; [done|]; by intros _ p d ?%elem_of_nil|].
  cbn [CopyTree]. unfold orelse. pose proof (copy_entry_other dst x t) as Ho.
  assert (Hpl : places (x :: src) dst = places [x] dst ++ places src dst) by (unfold places; cbn; by destruct x as [p [d|]]).
  rewrite Hpl in *. apply NoDup_app in Hn as (_ & Hdis & Hn).
  pose proof (λ p d, copy_entry_done dst p d t) as Hdone. destruct (copy_entry dst x t) as [[e|] t1] eqn:Ex; cbn [fst snd] in *.
  - split; [|done]. intros q Hq. apply Ho. set_solver.
  - specialize (IH t1 Hn). destruct (CopyTree src dst t1) as [e t2]. destruct IH as [I1 I2]. split.
    + intros q Hq. rewrite I1, Ho; [done| |]; set_solver.
    + intros He p data [Hp|Hp]%elem_of_cons.
      * subst x. specialize (Hdone p data). rewrite Ex in Hdone. rewrite I1; [by apply Hdone|]. apply Hdis. by left.
      * rewrite (I2 He p data Hp), Ho; [done|]. intros Hin. eapply Hdis; [exact Hin|].
        apply list_elem_of_omap. by exists (p, Some data).
Qed.
End assets.
