(* ===== verification/Writers.v ===== *)
(** The writers of [internal/ideconfig] behind their common interface: what every
    one of them promises to the commands that install, check and remove. *)
From stdpp Require Import base list strings gmap sets.
From S2P Require Import Prelude GoStrings Json GoSort GoFS GoTree A2A GoExec Jsonc IdeConfig GoFlag GoFmt Console.

Open Scope string_scope.
Open Scope Z_scope.
Open Scope list_scope.

Inductive Writer :=
| claudeCodeWriter | codexWriter | cursorWriter | clineWriter | continueWriter | geminiWriter | antigravityWriter.

#[export] Instance Writer_eq_dec : EqDecision Writer.
Proof. solve_decision. Defined.

(* src/internal/ideconfig/ideconfig.go (AllWriters) *)
Definition AllWriters : list Writer :=
  [claudeCodeWriter; codexWriter; cursorWriter; clineWriter; continueWriter; geminiWriter; antigravityWriter].

(* src/internal/ideconfig/claude.go:21-21 (claudeCodeWriter.Name) *)
Definition claude_Name : string := "Claude Code".
(* src/internal/ideconfig/codex.go:22-22 (codexWriter.Name) *)
Definition codex_Name : string := "Codex CLI".
(* src/internal/ideconfig/cursor.go:12-12 (cursorWriter.Name) *)
Definition cursor_Name : string := "Cursor".
(* src/internal/ideconfig/cline.go:22-22 (clineWriter.Name) *)
Definition cline_Name : string := "Cline (VS Code)".
(* src/internal/ideconfig/continue.go:32-32 (continueWriter.Name) *)
Definition continue_Name : string := "Continue".
(* src/internal/ideconfig/gemini.go:12-12 (geminiWriter.Name) *)
Definition gemini_Name : string := "Gemini CLI".
(* src/internal/ideconfig/antigravity.go:13-13 (antigravityWriter.Name) *)
Definition antigravity_Name : string := "Antigravity CLI".

(** The methods of the interface call those of the writer. *)
Definition Name (x : Writer) : string :=
  match x with
  | claudeCodeWriter => claude_Name
  | codexWriter => codex_Name
  | cursorWriter => cursor_Name
  | clineWriter => cline_Name
  | continueWriter => continue_Name
  | geminiWriter => gemini_Name
  | antigravityWriter => antigravity_Name
  end.

(* src/internal/ideconfig/ideconfig.go (VSCodeUserSettingsPath) *)
Definition VSCodeUserSettingsPath (h : host) : string :=
  if String.eqb (h_goos h) "darwin" then
    match h_home h with Some d => Join [d; "Library"; "Application Support"; "Code"; "User"; "settings.json"] | None => "" end
  else if String.eqb (h_goos h) "linux" then
    match h_home h with Some d => Join [d; ".config"; "Code"; "User"; "settings.json"] | None => "" end
  else if String.eqb (h_goos h) "windows" then
    if String.eqb (h_appdata h) "" then "" else Join [h_appdata h; "Code"; "User"; "settings.json"]
  else "".

Section writers.
Context `{TOML}.

Definition Detect (x : Writer) (h : host) (w : fs) : string :=
  match x with
  | claudeCodeWriter => claude_Detect h w
  | codexWriter => codex_Detect h w
  | cursorWriter => cursor_Detect h w
  | clineWriter => cline_Detect h
  | continueWriter => continue_Detect h
  | geminiWriter => gemini_Detect h
  | antigravityWriter => antigravity_Detect h w
  end.

Definition Write (x : Writer) (spec : Spec) (dryRun : bool) (h : host) (w : fs) : Result * fs :=
  match x with
  | claudeCodeWriter => claude_Write h spec dryRun w
  | codexWriter => codex_Write h spec dryRun w
  | cursorWriter => cursor_Write h spec dryRun w
  | clineWriter => cline_Write h spec dryRun w
  | continueWriter => continue_Write h spec dryRun w
  | geminiWriter => gemini_Write h spec dryRun w
  | antigravityWriter => antigravity_Write h spec dryRun w
  end.

(** [errors.Join] *)
Definition errors_Join (l : list goerror) : option goerror :=
  match l with
  | [] => None
  | _ => Some (GoError (join (String nlc "") (map e_text l)) (flat_map e_is l))
  end.

(* src/internal/ideconfig/ideconfig.go (RemoveMCPEntry) *)
Definition RemoveMCPEntry (x : Writer) (path : string) (h : host) (w : fs) : option goerror * fs :=
  if String.eqb path "" then (None, w) else
  match x with
  | codexWriter => removeCodexEntry h (codex_target h) w
  | cursorWriter => removeJSONMCPEntry h (cursor_target h) w
  | continueWriter => removeContinueFile h w
  | antigravityWriter => removeJSONMCPEntry h (antigravity_target h) w
  | claudeCodeWriter => let '(es, w) := removeClaudeEntries h w in (errors_Join es, w)
  | clineWriter | geminiWriter => removeJSONMCPEntry h path w
  end.

Context `{System}.

(* src/internal/ideconfig/ideconfig.go (WriterFound) *)
Definition WriterFound (x : Writer) (t : tree) : bool :=
  let p := Detect x (host_at t) (t_fs t) in
  if String.eqb p "" then false else is_ok (Stat p t).

(** * What a writer touches *)

(** the files a writer may put in place *)
Definition targets (x : Writer) (h : host) : list string :=
  match x with
  | claudeCodeWriter => [claudeMCPConfigPath h; claudeSettingsPath h]
  | codexWriter => [codex_target h]
  | cursorWriter => [cursor_target h]
  | clineWriter => [cline_Detect h]
  | continueWriter => [continue_target h]
  | geminiWriter => [gemini_Detect h]
  | antigravityWriter => [antigravity_target h]
  end.
(** with the copies of their former contents *)
Definition footprint (x : Writer) (h : host) : list string := flat_map (λ p, [p; backup_path h p]) (targets x h).
End writers.

(** A new temporary file is not there yet, and is no target of a writer or copy
    of one. *)
Definition fresh_names (h : host) (w : fs) (ps : list string) : Prop :=
  ∀ p t, p ∈ ps → h_temp h p = Some t → files w !! t = None ∧ ∀ q, q ∈ ps → t ≠ q ∧ t ≠ backup_path h q.

Lemma fresh_names_temp h w ps p : fresh_names h w ps → p ∈ ps → fresh_temp h p w ∧ fresh_temp h p (backupFile h p w).2.
Proof.
  intros Hf Hp. split; intros t Ht; destruct (Hf p t Hp Ht) as [Hn Hq]; (split; [|by apply Hq]); [done|].
  destruct (backupFile_cases h p w) as (B1 & _). rewrite B1; [done|by apply Hq].
Qed.

(** The result of a writer: exactly one of error, up to date and updated, and
    nothing touched in a dry run or beyond its footprint. *)
Record wrote (name : string) (dryRun : bool) (ps : list string) (w : fs) (r : Result) (w' : fs) : Prop := {
  wr_ide : rs_IDE r = name;
  wr_dry : rs_DryRun r = dryRun;
  wr_one : rs_Error r = None → rs_Updated r = negb (rs_Skipped r);
  wr_pure : dryRun = true ∨ (rs_Error r = None ∧ rs_Skipped r = true) → w' = w;
  wr_same : ∀ q, q ∉ ps → files w' !! q = files w !! q }.

Lemma finish_fields h path data res w : let r := (finish_write h path data res w).1 in
  rs_IDE r = rs_IDE res ∧ rs_DryRun r = rs_DryRun res.
Proof. unfold finish_write. by destruct (writeFileAtomic h path data newConfigMode w) as [[|] ?]. Qed.

Lemma commit_fields h path data dryRun res w : let r := (commit h path data dryRun res w).1 in
  rs_IDE r = rs_IDE res ∧ rs_DryRun r = rs_DryRun res.
Proof.
  unfold commit. destruct dryRun; [done|]. destruct (rs_Found res); [|apply finish_fields].
  destruct (backupFile h path w) as [[bak|e] w1]; [|done]. apply (finish_fields h path data (backed_up bak res) w1).
Qed.

Lemma commit_wrote h path data dryRun res w : rs_Error res = None → rs_Updated res = false → rs_Skipped res = false →
  rs_Path res = path → rs_DryRun res = dryRun → fresh_temp h path w → fresh_temp h path (backupFile h path w).2 →
  wrote (rs_IDE res) dryRun [path; backup_path h path] w (commit h path data dryRun res w).1 (commit h path data dryRun res w).2.
Proof.
  intros He Hu Hs Hp Hd Hf1 Hf2. pose proof (commit_cases h path data dryRun res w He Hu Hp Hf1 Hf2) as Hc.
  destruct (commit_fields h path data dryRun res w) as [Hi Hd'].
  assert (Hdry : dryRun = true → (commit h path data dryRun res w).2 = w) by (by intros ->).
  destruct (commit h path data dryRun res w) as [r w'] eqn:E. cbn [fst snd] in *. destruct Hc as (C1 & C2 & C3 & C4 & C5). split; try done.
  - congruence.
  - intros Hn. rewrite Hn in C5. destruct C5 as [C5 _]. by rewrite C5, C1, Hs.
  - intros [?|[_ Hsk]]; [by apply Hdry|congruence].
  - intros q Hq. apply C4; intros ->; apply Hq; [by left|right; by left].
Qed.

Lemma writeJSON_wrote h name path dryRun mutate w ps : path ∈ ps → fresh_names h w ps →
  let '(r, w') := writeJSONConfig h name path dryRun mutate w in
  wrote name dryRun [path; backup_path h path] w r w'.
Proof.
  intros Hp Hf. destruct (fresh_names_temp h w ps path Hf Hp) as [Hf1 Hf2]. unfold writeJSONConfig.
  destruct (String.eqb path ""); [by split|]. destruct (readJSONObject h path w) as [root|e]; [|by split].
  destruct (mutate root) as [changed root']. destruct changed; [|by split]. cbn [negb].
  pose proof (commit_wrote h path (render_object root') dryRun (with_path path (fileExists h path w) (result0 name dryRun)) w
    eq_refl eq_refl eq_refl eq_refl eq_refl Hf1 Hf2) as Hc. by destruct (commit _ _ _ _ _ _).
Qed.

Lemma fresh_names_after h w w' p ps : p ∈ ps → (∀ q, q ∉ [p; backup_path h p] → files w' !! q = files w !! q) →
  fresh_names h w ps → fresh_names h w' ps.
Proof.
  intros Hp Hs Hf p' t Hp' Ht. destruct (Hf p' t Hp' Ht) as [Hn Hq]. split; [|done]. rewrite Hs; [done|].
  destruct (Hq p Hp). set_solver.
Qed.

Lemma wrote_weaken name dryRun ps ps' w r w' : (∀ q, q ∈ ps → q ∈ ps') → wrote name dryRun ps w r w' → wrote name dryRun ps' w r w'.
Proof. intros Hs [W1 W2 W3 W4 W5]. split; try done. intros q Hq. apply W5. auto. Qed.

Section writes.
Context `{TOML}.

Lemma claude_wrote spec dryRun h w : fresh_names h w (targets claudeCodeWriter h) →
  let '(r, w') := claude_Write h spec dryRun w in wrote "Claude Code" dryRun (footprint claudeCodeWriter h) w r w'.
Proof.
  intros Hf. unfold claude_Write. set (ps := targets claudeCodeWriter h) in *.
  assert (H1 : claudeMCPConfigPath h ∈ ps) by (by left). assert (H2 : claudeSettingsPath h ∈ ps) by (right; by left).
  pose proof (writeJSON_wrote h "Claude Code" (claudeMCPConfigPath h) dryRun (setMCPServerEntry spec) w ps H1 Hf) as W1.
  destruct (writeJSONConfig _ _ _ _ _ _) as [res w1].
  assert (Hw1 : wrote "Claude Code" dryRun (footprint claudeCodeWriter h) w res w1) by (eapply wrote_weaken; [|done]; set_solver).
  destruct (rs_Error res) as [e|] eqn:Ee; [done|]. destruct (String.eqb (sp_HookCommand spec) ""); [done|].
  pose proof (fresh_names_after h w w1 _ ps H1 (wr_same _ _ _ _ _ _ W1) Hf) as Hf2.
  match goal with |- context [writeJSONConfig h _ _ _ ?f w1] => set (mutate := f) end.
  pose proof (writeJSON_wrote h "Claude Code" (claudeSettingsPath h) dryRun mutate w1 ps H2 Hf2) as W2.
  destruct (writeJSONConfig _ _ _ _ _ _) as [hres w2]. destruct Hw1 as [A1 A2 A3 A4 A5], W2 as [B1 B2 B3 B4 B5].
  assert (Hsame : ∀ q, q ∉ footprint claudeCodeWriter h → files w2 !! q = files w !! q).
  { intros q Hq. rewrite B5, A5; [done|done|]. set_solver. }
  assert (Hdry : dryRun = true → w2 = w) by (intros Hd; rewrite B4 by auto; auto).
  destruct (rs_Error hres) as [e|] eqn:Eh.
  - split; try done. intros [?|[? _]]; [by apply Hdry|done].
  - specialize (B3 eq_refl). destruct (rs_Updated hres) eqn:Eu.
    + split; try done. intros [?|[_ ?]]; [by apply Hdry|done].
    + split; try done. intros [?|[_ Hs]]; [by apply Hdry|]. rewrite B4; [auto|right]. split; [done|]. by destruct (rs_Skipped hres).
Qed.

Lemma codex_wrote spec dryRun h w : fresh_names h w (targets codexWriter h) →
  let '(r, w') := codex_Write h spec dryRun w in wrote "Codex CLI" dryRun (footprint codexWriter h) w r w'.
Proof.
  intros Hf. destruct (fresh_names_temp h w _ (codex_target h) Hf (list_elem_of_here _ _)) as [Hf1 Hf2]. unfold codex_Write.
  destruct (String.eqb (codex_target h) ""); [by split|]. cbv zeta.
  destruct (read_toml _ _ _ _) as [root|e]; [|by split]. destruct (equalTOMLEntry _ _); [by split|].
  destruct (toml_encode _) as [text|e].
  - pose proof (commit_wrote h (codex_target h) text dryRun
      (with_path (codex_target h) (fileExists h (codex_target h) w) (result0 "Codex CLI" dryRun)) w
      eq_refl eq_refl eq_refl eq_refl eq_refl Hf1 Hf2) as Hc. by destruct (commit _ _ _ _ _ _).
  - destruct dryRun; [by split|]. destruct (rs_Found _); [|by split].
    destruct (backupFile_cases h (codex_target h) w) as (B1 & _). destruct (backupFile h (codex_target h) w) as [[bak|e'] w1].
    all: split; try done; [by intros [?|[? _]]|]; intros q Hq; apply B1; set_solver.
Qed.

Lemma continue_wrote spec dryRun h w : fresh_names h w (targets continueWriter h) →
  let '(r, w') := continue_Write h spec dryRun w in wrote "Continue" dryRun (footprint continueWriter h) w r w'.
Proof.
  intros Hf. destruct (fresh_names_temp h w _ (continue_target h) Hf (list_elem_of_here _ _)) as [Hf1 Hf2]. unfold continue_Write.
  destruct (String.eqb (continue_target h) ""); [by split|]. destruct (_ && _); [by split|].
  pose proof (commit_wrote h (continue_target h) (continueYAML spec) dryRun
    (with_path (continue_target h) (fileExists h (continue_target h) w) (result0 "Continue" dryRun)) w
    eq_refl eq_refl eq_refl eq_refl eq_refl Hf1 Hf2) as Hc. by destruct (commit _ _ _ _ _ _).
Qed.

(** Every writer keeps the promises of the interface. *)
Lemma Write_wrote x spec dryRun h w : fresh_names h w (targets x h) →
  wrote (Name x) dryRun (footprint x h) w (Write x spec dryRun h w).1 (Write x spec dryRun h w).2.
Proof.
  intros Hf. assert (Hj : ∀ path name, path ∈ targets x h → footprint x h = [path; backup_path h path] →
    let '(r, w') := writeJSONConfig h name path dryRun (setMCPServerEntry spec) w in wrote name dryRun (footprint x h) w r w').
  { intros path name Hp ->. by apply (writeJSON_wrote h name path dryRun _ w (targets x h)). }
  destruct x; cbn [Write Name].
  - pose proof (claude_wrote spec dryRun h w Hf). by destruct (claude_Write _ _ _ _).
  - pose proof (codex_wrote spec dryRun h w Hf). by destruct (codex_Write _ _ _ _).
  - specialize (Hj (cursor_target h) "Cursor" (list_elem_of_here _ _) eq_refl). unfold cursor_Write. by destruct (writeJSONConfig _ _ _ _ _ _).
  - specialize (Hj (cline_Detect h) "Cline (VS Code)" (list_elem_of_here _ _) eq_refl). unfold cline_Write.
    destruct (String.eqb _ ""); [by split|]. destruct (_ && _); [by split|]. by destruct (writeJSONConfig _ _ _ _ _ _).
  - pose proof (continue_wrote spec dryRun h w Hf). by destruct (continue_Write _ _ _ _).
  - specialize (Hj (gemini_Detect h) "Gemini CLI" (list_elem_of_here _ _) eq_refl). unfold gemini_Write. by destruct (writeJSONConfig _ _ _ _ _ _).
  - specialize (Hj (antigravity_target h) "Antigravity CLI" (list_elem_of_here _ _) eq_refl). unfold antigravity_Write.
    by destruct (writeJSONConfig _ _ _ _ _ _).
Qed.
End writes.

(** A dry run needs no assumption about temporary files: it never creates one. *)
Lemma Write_dry `{TOML} x spec h w : (Write x spec true h w).2 = w.
Proof.
  assert (Hc : ∀ path data res, (commit h path data true res w).2 = w) by done.
  assert (Hj : ∀ name path mutate w, (writeJSONConfig h name path true mutate w).2 = w).
  { intros name path mutate w0. unfold writeJSONConfig. destruct (String.eqb path ""); [done|].
    destruct (readJSONObject h path w0); [|done]. destruct (mutate a) as [[] ?]; done. }
  destruct x; cbn [Write]; try apply Hj.
  - unfold claude_Write. pose proof (Hj "Claude Code" (claudeMCPConfigPath h) (setMCPServerEntry spec) w) as H1.
    destruct (writeJSONConfig _ _ _ _ _ _) as [res w1]. cbn in H1. subst w1. destruct (rs_Error res); [done|].
    destruct (String.eqb _ ""); [done|].
    match goal with |- context [writeJSONConfig h ?n ?p true ?f w] => pose proof (Hj n p f w) as H2 end.
    destruct (writeJSONConfig _ _ _ _ _ _) as [hres w2]. cbn in H2. subst w2. destruct (rs_Error hres); [done|].
    by destruct (rs_Updated hres).
  - unfold codex_Write. destruct (String.eqb _ ""); [done|]. cbv zeta. destruct (read_toml _ _ _ _); [|done].
    destruct (equalTOMLEntry _ _); [done|]. by destruct (toml_encode _).
  - unfold cline_Write. destruct (String.eqb _ ""); [done|]. destruct (_ && _); [done|]. apply Hj.
  - unfold continue_Write. destruct (String.eqb _ ""); [done|]. by destruct (_ && _).
Qed.

(** A format for the examples: the text of a value is its JSON. *)
Definition json_toml : TOML := {|
  toml_decode s := match parse_object s with Some m => Ok m | None => Err (errors_new "toml") end;
  toml_encode v := Ok (marshal v) |}.

(** ** What a removal touches *)

Lemma remove_write_other h path data w ps q : path ∈ ps → fresh_names h w ps → q ∉ [path; backup_path h path] →
  match backupFile h path w with
  | (Err _, w1) => files w1 !! q = files w !! q
  | (Ok _, w1) => files w1 !! q = files w !! q ∧ files (writeFileAtomic h path data newConfigMode w1).2 !! q = files w !! q
  end.
Proof.
  intros Hp Hf Hq. destruct (fresh_names_temp h w ps path Hf Hp) as [_ Hf2].
  destruct (backupFile_cases h path w) as (B1 & _). destruct (backupFile h path w) as [[b|e] w1]; cbn [snd] in *.
  - assert (Hb : files w1 !! q = files w !! q) by (apply B1; set_solver). split; [done|].
    destruct (writeFileAtomic_cases h path data newConfigMode w1 Hf2) as [Hc _].
    destruct (writeFileAtomic h path data newConfigMode w1) as [[[]|e] w2]; cbn [snd]; rewrite Hc; [|done].
    rewrite lookup_insert_ne; [done|]. set_solver.
  - apply B1. set_solver.
Qed.

Lemma remove_json_other h path w ps q : path ∈ ps → fresh_names h w ps → q ∉ [path; backup_path h path] →
  files (removeJSONMCPEntry h path w).2 !! q = files w !! q.
Proof.
  intros Hp Hf Hq. unfold removeJSONMCPEntry, writeJSONObject. destruct (negb (fileExists h path w)); [done|].
  destruct (readJSONObject h path w) as [root|e]; [|done]. destruct (strip_entries root) as [changed root']. destruct changed; [|done]. cbn [negb].
  pose proof (remove_write_other h path (render_object root') w ps q Hp Hf Hq) as Hr.
  destruct (backupFile h path w) as [[b|e] w1]; [|done]. destruct Hr as [_ Hr].
  by destruct (writeFileAtomic h path _ newConfigMode w1) as [[[]|e] w2].
Qed.

Section remove.
Context `{TOML}.

Lemma RemoveMCPEntry_other x path h w q : fresh_names h w (targets x h) → (path = "" ∨ path = Detect x h w) → q ∉ footprint x h →
  files (RemoveMCPEntry x path h w).2 !! q = files w !! q.
Proof.
  intros Hf Hpath Hq. unfold RemoveMCPEntry. destruct (String.eqb_spec path "") as [|Hne]; [done|].
  destruct Hpath as [?|Hpath]; [done|].
  assert (Hj : ∀ p, p ∈ targets x h → footprint x h = [p; backup_path h p] → files (removeJSONMCPEntry h p w).2 !! q = files w !! q).
  { intros p Hp He. rewrite He in Hq. by apply (remove_json_other h p w (targets x h)). }
  destruct x; cbn [Detect] in Hpath; subst path; try by apply Hj; [left|].
  - unfold removeClaudeEntries. set (ps := targets claudeCodeWriter h) in *.
    assert (H1 : claudeMCPConfigPath h ∈ ps) by (by left). assert (H2 : claudeSettingsPath h ∈ ps) by (right; by left).
    set (p1 := claudeMCPConfigPath h) in *. set (p2 := claudeSettingsPath h) in *.
    assert (Hfp : footprint claudeCodeWriter h = [p1; backup_path h p1; p2; backup_path h p2]) by done. rewrite Hfp in Hq.
    assert (Hstep : ∀ p w, p ∈ ps → fresh_names h w ps →
      ∀ q, q ∉ [p; backup_path h p] → files ((if String.eqb p "" then ([], w) else
        match removeJSONMCPEntry h p w with (Some e, w0) => ([wrapf (p +:+ ": ") e], w0) | (None, w0) => ([], w0) end).2) !! q = files w !! q).
    { intros p w0 Hp Hf0 q0 Hq0. destruct (String.eqb p ""); [done|]. pose proof (remove_json_other h p w0 ps q0 Hp Hf0 Hq0) as Hr.
      by destruct (removeJSONMCPEntry h p w0) as [[e|] w1]. }
    pose proof (Hstep p1 w H1 Hf) as S1. cbv zeta. destruct (if String.eqb p1 "" then _ else _) as [e1 w1]. cbn [snd] in S1.
    pose proof (fresh_names_after h w w1 p1 ps H1 S1 Hf) as Hf1.
    pose proof (Hstep p2 w1 H2 Hf1) as S2. destruct (if String.eqb p2 "" then _ else _) as [e2 w2]. cbn [snd] in S2 |- *.
    rewrite S2, S1; [done| |]; set_solver.
  - unfold removeCodexEntry. destruct (negb _); [done|]. destruct (read_toml _ _ _ _) as [root|e]; [|done].
    destruct (assoc_get "mcp_servers" root) as [[| | | | |servers]|]; try done. destruct (assoc_get "a2a" servers); [|done]. cbv zeta.
    assert (Hr : ∀ data, match backupFile h (codex_target h) w with
      | (Err _, w1) => files w1 !! q = files w !! q
      | (Ok _, w1) => files w1 !! q = files w !! q ∧ files (writeFileAtomic h (codex_target h) data newConfigMode w1).2 !! q = files w !! q end).
    { intros data. by apply (remove_write_other h _ data w (targets codexWriter h)); [left|..]. }
    destruct (backupFile h (codex_target h) w) as [[b|e] w1]; [|by specialize (Hr "")].
    destruct (toml_encode _) as [text|e]; [|by specialize (Hr "") as [Hr _]]. specialize (Hr text) as [_ Hr].
    by destruct (writeFileAtomic h _ text newConfigMode w1) as [[[]|e] w2].
  - unfold removeContinueFile. destruct (negb _); [done|]. destruct (backupFile_cases h (continue_target h) w) as (B1 & _).
    assert (Hfp : footprint continueWriter h = [continue_target h; backup_path h (continue_target h)]) by done. rewrite Hfp in Hq.
    destruct (backupFile h (continue_target h) w) as [[b|e] w1]; cbn [snd] in B1; [|apply B1; set_solver].
    unfold Remove. destruct (files w1 !! continue_target h); cbn; [|apply B1; set_solver].
    rewrite lookup_delete_ne; [apply B1|]; set_solver.
Qed.
End remove.
