(* ===== verification/Metrics.v ===== *)
(** The metrics endpoint (src/internal/metrics/metrics.go): six counters and two
    gauges, each an [atomic.Int64], and the exposition text. *)
From Stdlib Require Import Ascii.
From stdpp Require Import base list strings.
From S2P Require Import Prelude GoStrings.

Open Scope string_scope.
Open Scope Z_scope.
Open Scope list_scope.

(** The package-level variables. *)
(* src/internal/metrics/metrics.go:22-34 (messagesSent) *)
Record metrics := Metrics {
  messagesSent : Z; messagesReceived : Z; tasksCompleted : Z; tasksFailed : Z;
  pushDelivered : Z; pushFailed : Z; currentInboxSize : Z; currentPeers : Z }.

Definition metrics0 : metrics := Metrics 0 0 0 0 0 0 0 0.

(** [Add(1)] on an [atomic.Int64] wraps around. *)
Definition add1 (z : Z) : Z := wrap64 (z + 1).

(* src/internal/metrics/metrics.go:37-37 (IncMessagesSent) *)
Definition IncMessagesSent (m : metrics) : metrics :=
  Metrics (add1 (messagesSent m)) (messagesReceived m) (tasksCompleted m) (tasksFailed m)
    (pushDelivered m) (pushFailed m) (currentInboxSize m) (currentPeers m).
(* src/internal/metrics/metrics.go:38-38 (IncMessagesReceived) *)
Definition IncMessagesReceived (m : metrics) : metrics :=
  Metrics (messagesSent m) (add1 (messagesReceived m)) (tasksCompleted m) (tasksFailed m)
    (pushDelivered m) (pushFailed m) (currentInboxSize m) (currentPeers m).
(* src/internal/metrics/metrics.go:39-39 (IncTaskCompleted) *)
Definition IncTaskCompleted (m : metrics) : metrics :=
  Metrics (messagesSent m) (messagesReceived m) (add1 (tasksCompleted m)) (tasksFailed m)
    (pushDelivered m) (pushFailed m) (currentInboxSize m) (currentPeers m).
(* src/internal/metrics/metrics.go:40-40 (IncTaskFailed) *)
Definition IncTaskFailed (m : metrics) : metrics :=
  Metrics (messagesSent m) (messagesReceived m) (tasksCompleted m) (add1 (tasksFailed m))
    (pushDelivered m) (pushFailed m) (currentInboxSize m) (currentPeers m).
(* src/internal/metrics/metrics.go:41-41 (IncPushDelivered) *)
Definition IncPushDelivered (m : metrics) : metrics :=
  Metrics (messagesSent m) (messagesReceived m) (tasksCompleted m) (tasksFailed m)
    (add1 (pushDelivered m)) (pushFailed m) (currentInboxSize m) (currentPeers m).
(* src/internal/metrics/metrics.go:42-42 (IncPushFailed) *)
Definition IncPushFailed (m : metrics) : metrics :=
  Metrics (messagesSent m) (messagesReceived m) (tasksCompleted m) (tasksFailed m)
    (pushDelivered m) (add1 (pushFailed m)) (currentInboxSize m) (currentPeers m).
(* src/internal/metrics/metrics.go:45-45 (SetInboxSize) *)
Definition SetInboxSize (n : Z) (m : metrics) : metrics :=
  Metrics (messagesSent m) (messagesReceived m) (tasksCompleted m) (tasksFailed m)
    (pushDelivered m) (pushFailed m) n (currentPeers m).
(* src/internal/metrics/metrics.go:46-46 (SetPeers) *)
Definition SetPeers (n : Z) (m : metrics) : metrics :=
  Metrics (messagesSent m) (messagesReceived m) (tasksCompleted m) (tasksFailed m)
    (pushDelivered m) (pushFailed m) (currentInboxSize m) n.

(** * Exposition *)

Definition newline : string := String "010" "".

(* src/internal/metrics/metrics.go:84-86 (counter) *)
Definition counter (name help : string) (v : Z) : string :=
  "# HELP " +:+ name +:+ " " +:+ help +:+ newline +:+
  "# TYPE " +:+ name +:+ " counter" +:+ newline +:+ name +:+ " " +:+ itoa v +:+ newline.
(* src/internal/metrics/metrics.go:88-90 (gauge) *)
Definition gauge (name help : string) (v : Z) : string :=
  "# HELP " +:+ name +:+ " " +:+ help +:+ newline +:+
  "# TYPE " +:+ name +:+ " gauge" +:+ newline +:+ name +:+ " " +:+ itoa v +:+ newline.

(** [uptime] is the text of the uptime in seconds under the [%g] verb. *)
(* src/internal/metrics/metrics.go:57-82 (emit) *)
Definition emit (uptime : string) (m : metrics) : string :=
  "# HELP a2abridge_uptime_seconds Seconds since this bridge started." +:+ newline +:+
  "# TYPE a2abridge_uptime_seconds gauge" +:+ newline +:+
  "a2abridge_uptime_seconds " +:+ uptime +:+ newline +:+
  counter "a2abridge_messages_sent_total" "Outbound message/send calls." (messagesSent m) +:+
  counter "a2abridge_messages_received_total" "Inbound message/send calls." (messagesReceived m) +:+
  counter "a2abridge_tasks_completed_total" "Tasks that reached completed state." (tasksCompleted m) +:+
  counter "a2abridge_tasks_failed_total" "Tasks that reached failed / canceled / rejected." (tasksFailed m) +:+
  counter "a2abridge_push_delivered_total" "Push-notification webhooks that returned 2xx." (pushDelivered m) +:+
  counter "a2abridge_push_failed_total" "Push-notification webhooks that exhausted the retry budget." (pushFailed m) +:+
  gauge "a2abridge_inbox_size" "Current pending messages in this bridge's inbox." (currentInboxSize m) +:+
  gauge "a2abridge_peers" "Current peers registered with the directory." (currentPeers m).
