(* ===== verification/Store.v ===== *)
(** The durable inbox (src/internal/agent/store.go): messages waiting for the
    host, the tasks this agent waits on at its peers, the snapshot file. *)
From Stdlib Require Import Ascii.
From stdpp Require Import base list sets strings gmap.
From S2P Require Import Prelude GoStrings GoTime Json A2A Metrics GoFS.

Open Scope string_scope.
Open Scope Z_scope.
Open Scope list_scope.

(** * Data *)

(* src/internal/agent/store.go (inboxSoftCap) *)
Definition inboxSoftCap : nat := 500.
(* src/internal/agent/store.go (replyEntryTTL) *)
Definition replyEntryTTL : Z := 2 * minute.
(* src/internal/agent/store.go (replyMessageIDPrefix) *)
Definition replyMessageIDPrefix : string := "reply-".
(* src/internal/agent/store.go (KindOutgoingReply) *)
Definition KindOutgoingReply : string := "outgoing-reply".
(* src/internal/agent/store.go (inboxFileMode) *)
Definition inboxFileMode : Z := 384.

(* src/internal/agent/store.go (InboxEntry) *)
Record InboxEntry := { ie_MessageID : string; ie_TaskID : string; ie_ContextID : string; ie_From : string;
  ie_Text : string; ie_Kind : string; ie_State : string; ie_TS : string }.

(* src/internal/agent/store.go (pendingOutgoingTask) *)
Record pendingOutgoingTask := { po_TaskID : string; po_PeerURL : string; po_Question : string;
  po_PeerName : string; po_SentAt : gotime }.

(** What the store starts in goroutines: [go cb(entry)] and [FireHook]. *)
Inductive spawn :=
| Incoming (e : InboxEntry)
| Hook (event : string) (payload : json).

(** The Store with the process state its methods touch: files, metrics and the
    goroutines started so far. [OnIncoming] says whether a callback is set. *)
(* src/internal/agent/store.go (Store) *)
Record Store := MkStore {
  inbox : list InboxEntry;
  InboxPath : string;
  OnIncoming : bool;
  pendingOutgoing : gmap string pendingOutgoingTask;
  closed : bool;
  disk : fs;
  meter : metrics;
  spawned : list spawn }.

(* src/internal/agent/store.go (NewStore) *)
Definition NewStore (w : fs) (m : metrics) : Store := MkStore [] "" false ∅ false w m [].

Definition set_inbox (l : list InboxEntry) (s : Store) : Store :=
  MkStore l (InboxPath s) (OnIncoming s) (pendingOutgoing s) (closed s) (disk s) (meter s) (spawned s).
Definition set_pending (p : gmap string pendingOutgoingTask) (s : Store) : Store :=
  MkStore (inbox s) (InboxPath s) (OnIncoming s) p (closed s) (disk s) (meter s) (spawned s).
Definition set_disk (w : fs) (s : Store) : Store :=
  MkStore (inbox s) (InboxPath s) (OnIncoming s) (pendingOutgoing s) (closed s) w (meter s) (spawned s).
Definition set_meter (f : metrics → metrics) (s : Store) : Store :=
  MkStore (inbox s) (InboxPath s) (OnIncoming s) (pendingOutgoing s) (closed s) (disk s) (f (meter s)) (spawned s).
Definition start (x : spawn) (s : Store) : Store :=
  MkStore (inbox s) (InboxPath s) (OnIncoming s) (pendingOutgoing s) (closed s) (disk s) (meter s) (spawned s ++ [x]).

(** closing twice is harmless: [closeOnce] *)
(* src/internal/agent/store.go (Close) *)
Definition Close (s : Store) : Store :=
  MkStore (inbox s) (InboxPath s) (OnIncoming s) (pendingOutgoing s) true (disk s) (meter s) (spawned s).

(* src/internal/agent/store.go (isSyntheticReply) *)
Definition isSyntheticReply (e : InboxEntry) : bool :=
  String.eqb (ie_Kind e) KindOutgoingReply || has_prefix replyMessageIDPrefix (ie_MessageID e).

(** * The snapshot *)

(* src/internal/agent/store.go (snapshotEntry) *)
Record snapshotEntry := { sn_MessageID : string; sn_TaskID : string; sn_ContextID : string;
  sn_From : string; sn_Text : string; sn_TS : string }.

(** its JSON object, [ts] under [omitempty] *)
(* src/internal/agent/store.go (snapshotEntry) *)
Definition snapshot_json (x : snapshotEntry) : json :=
  JObj ([("messageId", JStr (sn_MessageID x)); ("taskId", JStr (sn_TaskID x));
         ("contextId", JStr (sn_ContextID x)); ("from", JStr (sn_From x)); ("text", JStr (sn_Text x))]
        ++ (if String.eqb (sn_TS x) "" then [] else [("ts", JStr (sn_TS x))])).

(* src/internal/agent/store.go:495-502 (persistInboxLocked) *)
Definition snapshot_of (e : InboxEntry) : snapshotEntry :=
  {| sn_MessageID := ie_MessageID e; sn_TaskID := ie_TaskID e; sn_ContextID := ie_ContextID e;
     sn_From := ie_From e; sn_Text := ie_Text e; sn_TS := ie_TS e |}.
(* src/internal/agent/store.go:467-474 (LoadInbox) *)
Definition restored (x : snapshotEntry) : InboxEntry :=
  {| ie_MessageID := sn_MessageID x; ie_TaskID := sn_TaskID x; ie_ContextID := sn_ContextID x;
     ie_From := sn_From x; ie_Text := sn_Text x; ie_Kind := ""; ie_State := ""; ie_TS := sn_TS x |}.

(** [encoding/json] matches an object key with a field name of ASCII letters up
    to case, U+017F being a form of [s] and U+212A one of [k]. *)
Definition fold_rune (r : Z) : Z :=
  if (97 <=? r) && (r <=? 122) then r - 32
  else if r =? 0x17F then 83 else if r =? 0x212A then 75 else r.
Definition key_matches (field key : string) : bool :=
  bool_decide (fold_rune <$> runes key = fold_rune <$> runes field).

(** a JSON value stored into a string field: [null] leaves the field alone, any
    other type is an error *)
Definition set_string (v : json) (old : string) : option string :=
  match v with JStr s => Some s | JNull => Some old | _ => None end.

Definition zero_snapshot : snapshotEntry :=
  {| sn_MessageID := ""; sn_TaskID := ""; sn_ContextID := ""; sn_From := ""; sn_Text := ""; sn_TS := "" |}.

Definition set_field (x : snapshotEntry) (kv : string * json) : option snapshotEntry :=
  let '(k, v) := kv in
  let '{| sn_MessageID := i; sn_TaskID := t; sn_ContextID := c; sn_From := f; sn_Text := b; sn_TS := d |} := x in
  if key_matches "messageId" k then i ← set_string v i; Some (Build_snapshotEntry i t c f b d)
  else if key_matches "taskId" k then t ← set_string v t; Some (Build_snapshotEntry i t c f b d)
  else if key_matches "contextId" k then c ← set_string v c; Some (Build_snapshotEntry i t c f b d)
  else if key_matches "from" k then f ← set_string v f; Some (Build_snapshotEntry i t c f b d)
  else if key_matches "text" k then b ← set_string v b; Some (Build_snapshotEntry i t c f b d)
  else if key_matches "ts" k then d ← set_string v d; Some (Build_snapshotEntry i t c f b d)
  else Some x.

Fixpoint set_fields (x : snapshotEntry) (m : list (string * json)) : option snapshotEntry :=
  match m with [] => Some x | kv :: m' => x ← set_field x kv; set_fields x m' end.

Definition decode_entry (v : json) : option snapshotEntry :=
  match v with JObj m => set_fields zero_snapshot m | JNull => Some zero_snapshot | _ => None end.

(** [json.Unmarshal] into a [[]snapshotEntry] *)
Definition decode_snapshot (b : string) : option (list snapshotEntry) :=
  v ← unmarshal b;
  match v with JArr l => mapM decode_entry l | JNull => Some [] | _ => None end.

(* src/internal/agent/store.go (persistInboxLocked) *)
Definition persistInboxLocked (s : Store) : Store :=
  let s := set_meter (SetInboxSize (Z.of_nat (length (inbox s)))) s in
  if String.eqb (InboxPath s) "" then s else
  let b := marshal (JArr (map (λ e, snapshot_json (snapshot_of e)) (inbox s))) in
  let tmp := InboxPath s +:+ ".tmp" in
  let '(r, w) := WriteFile tmp b inboxFileMode (disk s) in
  let s := set_disk w s in
  match r with
  | Err _ => s
  | Ok _ => set_disk (Rename tmp (InboxPath s) (disk s)).2 s
  end.

(** * The inbox *)

(* src/internal/agent/store.go (inboxContainsLocked) *)
Definition inboxContainsLocked (id : string) (s : Store) : bool :=
  if String.eqb id "" then false
  else existsb (λ e, String.eqb (ie_MessageID e) id) (inbox s).

(* src/internal/agent/store.go (appendInboxLocked) *)
Definition appendInboxLocked (e : InboxEntry) (s : Store) : bool * Store :=
  if inboxContainsLocked (ie_MessageID e) s then (false, s)
  else
    let l := inbox s ++ [e] in
    let over := (Z.of_nat (length l) - Z.of_nat inboxSoftCap)%Z in
    (true, set_inbox (if 0 <? over then drop (Z.to_nat over) l else l) s).

(* src/internal/agent/store.go (LoadInbox) *)
Definition LoadInbox (s : Store) : Store :=
  if String.eqb (InboxPath s) "" then s else
  match ReadFile (InboxPath s) (disk s) with
  | Err _ => s
  | Ok b =>
      if String.eqb b "" then s else
      match decode_snapshot b with
      | None => s
      | Some snap =>
          let s := foldl (λ s x, (appendInboxLocked (restored x) s).2) s snap in
          set_meter (SetInboxSize (Z.of_nat (length (inbox s)))) s
      end
  end.

(* src/internal/agent/store.go (deliverIncoming) *)
Definition deliverIncoming (e : InboxEntry) (s : Store) : bool * Store :=
  let '(isNew, s) := appendInboxLocked e s in
  if isNew then
    let s := persistInboxLocked s in
    let s := set_meter IncMessagesReceived s in
    let s := if OnIncoming s then start (Incoming e) s else s in
    (true, start (Hook "on-inbound"
      (JObj [("taskId", JStr (ie_TaskID e)); ("from", JStr (ie_From e)); ("text", JStr (ie_Text e))])) s)
  else (false, s).

(** the entries a reaping pass keeps *)
(* src/internal/agent/store.go:170-175 (evictExpiredReplies) *)
Definition reply_unexpired (cutoff : gotime) (e : InboxEntry) : bool :=
  if has_prefix replyMessageIDPrefix (ie_MessageID e) && negb (String.eqb (ie_TS e) "") then
    match parse_rfc3339 (ie_TS e) with
    | Some w => negb (before w cutoff)
    | None => true
    end
  else true.

(** [s.inbox] keeps its array, which the loop has overwritten, unless it is
    assigned the compacted slice. *)
(* src/internal/agent/store.go (evictExpiredReplies) *)
Definition evictExpiredReplies (now : gotime) (s : Store) : Z * Store :=
  if (length (inbox s) =? 0)%nat then (0, s) else
  let cutoff := tadd now (- replyEntryTTL) in
  let '(arr, kept) := compact_slice (reply_unexpired cutoff) (inbox s) in
  let dropped := Z.of_nat (length (inbox s)) - Z.of_nat (length kept) in
  let s := set_inbox arr s in
  if 0 <? dropped then (dropped, persistInboxLocked (set_inbox kept s)) else (dropped, s).

(** one round of the loop, when the ticker fires before the stop channel is read *)
(* src/internal/agent/store.go (janitor) *)
Definition janitor_tick (now : gotime) (s : Store) : Store := (evictExpiredReplies now s).2.

(* src/internal/agent/store.go (DrainInbox) *)
Definition DrainInbox (s : Store) : list InboxEntry * Store :=
  (inbox s, persistInboxLocked (set_inbox [] s)).

(* src/internal/agent/store.go:550-553 (PeekInbox) *)
Definition not_reply (e : InboxEntry) : bool := negb (has_prefix replyMessageIDPrefix (ie_MessageID e)).

(* src/internal/agent/store.go (PeekInbox) *)
Definition PeekInbox (s : Store) : list InboxEntry * Store :=
  let out := inbox s in
  let dropped := existsb (λ e, has_prefix replyMessageIDPrefix (ie_MessageID e)) (inbox s) in
  let '(arr, kept) := compact_slice not_reply (inbox s) in
  let s := set_inbox arr s in
  (out, if dropped then persistInboxLocked (set_inbox kept s) else s).

(* src/internal/agent/store.go (dropTaskEntries) *)
Definition dropTaskEntries (taskID : string) (s : Store) : bool * Store :=
  let hit := λ e, String.eqb (ie_TaskID e) taskID in
  let dropped := existsb hit (inbox s) in
  let droppedReply := existsb (λ e, hit e && isSyntheticReply e) (inbox s) in
  let '(arr, kept) := compact_slice (λ e, negb (hit e)) (inbox s) in
  let s := set_inbox arr s in
  (droppedReply, if dropped then persistInboxLocked (set_inbox kept s) else s).

(** * Outgoing tasks and their replies *)

(* src/internal/agent/store.go (TrackOutgoing) *)
Definition TrackOutgoing (now : gotime) (taskID peerURL peerName question : string) (s : Store) : Store :=
  set_pending (<[taskID := {| po_TaskID := taskID; po_PeerURL := peerURL; po_PeerName := peerName;
    po_Question := question; po_SentAt := now |}]> (pendingOutgoing s)) s.

(* src/internal/agent/store.go (trimTo) *)
Definition trimTo (s : string) (n : nat) : string :=
  let s := replace_char "010" " " s in
  let r := runes s in
  if (length r <=? n)%nat then s else string_of_runes (take n r) +:+ "...".

(** [[ОТВЕТ от %s на твой вопрос «%s»]\n%s] *)
(* src/internal/agent/store.go:289-289 (appendSyntheticReply) *)
Definition reply_text (from question reply : string) : string :=
  "[ОТВЕТ от " +:+ from +:+ " на твой вопрос «" +:+ question +:+ "»]" +:+ newline +:+ reply.

(* src/internal/agent/store.go (appendSyntheticReply) *)
Definition appendSyntheticReply (now : gotime) (p : pendingOutgoingTask) (reply state : string) (s : Store) : Store :=
  if String.eqb (trim_space reply) "" then s else
  let synthetic := {|
    ie_MessageID := replyMessageIDPrefix +:+ po_TaskID p;
    ie_TaskID := po_TaskID p;
    ie_ContextID := "";
    ie_From := po_PeerName p;
    ie_Text := reply_text (po_PeerName p) (trimTo (po_Question p) 80) reply;
    ie_Kind := KindOutgoingReply;
    ie_State := state;
    ie_TS := format_rfc3339 (to_utc now) |} in
  let '(isNew, s) := appendInboxLocked synthetic s in
  if isNew then
    let s := persistInboxLocked s in
    let s := if OnIncoming s then start (Incoming synthetic) s else s in
    start (Hook "on-outgoing-reply" (JObj [("taskId", JStr (po_TaskID p)); ("from", JStr (po_PeerName p));
      ("text", JStr reply); ("state", JStr state)])) s
  else s.

Section tasks.
Context `{A2A}.

(* src/internal/agent/store.go (partText) *)
Definition partText (p : option Part) : string :=
  match p with None => "" | Some p => part_Text p end.

(** one part appended to the builder [b] *)
(* src/internal/agent/store.go:261-270 (messageText) *)
Definition write_part (b : string) (pt : option Part) : string :=
  let text := partText pt in
  if String.eqb text "" then b
  else (if (0 <? slen b)%nat then b +:+ newline else b) +:+ text.

(* src/internal/agent/store.go (messageText) *)
Definition messageText (m : Message Part) : string := foldl write_part "" (m_Parts m).

(** the first non-empty text among parts *)
Fixpoint first_text (l : list (option Part)) : string :=
  match l with
  | [] => ""
  | pt :: l => if String.eqb (partText pt) "" then first_text l else partText pt
  end.

(* src/internal/agent/store.go (extractReplyText) *)
Definition extractReplyText (t : Task Part) : string :=
  let b := foldl (λ b a, match a with None => b | Some a => foldl write_part b (a_Parts a) end)
             "" (t_Artifacts t) in
  if (slen b =? 0)%nat then
    match s_Message (t_Status t) with Some m => first_text (m_Parts m) | None => "" end
  else b.

(** The critical section that takes a pending task: whoever finds it still
    registered removes it and delivers the reply. *)
(* src/internal/agent/store.go:207-214 (IngestOutgoingTerminal) *)
Definition claim (id : string) (s : Store) : option pendingOutgoingTask * Store :=
  match pendingOutgoing s !! id with
  | None => (None, s)
  | Some p => (Some p, set_pending (delete id (pendingOutgoing s)) s)
  end.

(* src/internal/agent/store.go (IngestOutgoingTerminal) *)
Definition IngestOutgoingTerminal (now : gotime) (t : option (Task Part)) (s : Store) : bool * Store :=
  match t with
  | None => (false, s)
  | Some t =>
      if negb (Terminal (s_State (t_Status t))) then (false, s) else
      match claim (t_ID t) s with
      | (None, s) => (false, s)
      | (Some p, s) => (true, appendSyntheticReply now p (extractReplyText t) (s_State (t_Status t)) s)
      end
  end.

(** What the environment answers for one pending task of a poll: the time of
    the age check, the fetched task or the fetch error, the time of the delivery. *)
Record poll_env := { pe_now : gotime; pe_fetch : result goerror (option (Task Part)); pe_deliver : gotime }.

(* src/internal/agent/store.go:331-359 (PollOutgoing) *)
Definition poll_one (maxAge : Z) (env : poll_env) (p : pendingOutgoingTask) (s : Store) : bool * Store :=
  if maxAge <? tsub (pe_now env) (po_SentAt p) then
    (false, set_pending (delete (po_TaskID p) (pendingOutgoing s)) s)
  else
    match pe_fetch env with
    | Err _ => (false, s)
    | Ok None => (false, s)
    | Ok (Some t) =>
        if negb (Terminal (s_State (t_Status t))) then (false, s) else
        match claim (po_TaskID p) s with
        | (None, s) => (false, s)
        | (Some _, s) =>
            (true, appendSyntheticReply (pe_deliver env) p (extractReplyText t) (s_State (t_Status t)) s)
        end
    end.

(** [pending] is the snapshot of the map taken at the start, in the order the
    iteration over the map happened to produce. *)
(* src/internal/agent/store.go (PollOutgoing) *)
Fixpoint PollOutgoing (maxAge : Z) (env : string → poll_env) (pending : list pendingOutgoingTask)
  (s : Store) : Z * Store :=
  match pending with
  | [] => (0, s)
  | p :: pending =>
      let '(b, s) := poll_one maxAge (env (po_TaskID p)) p s in
      let '(n, s) := PollOutgoing maxAge env pending s in
      ((if b then 1 else 0) + n, s)
  end.
End tasks.

(** * Lemmas *)

#[export] Hint Rewrite @compact_slice_kept : store.

(** Persisting changes the disk and the gauge only. *)
Lemma persist_fields s :
  inbox (persistInboxLocked s) = inbox s ∧ InboxPath (persistInboxLocked s) = InboxPath s ∧
  OnIncoming (persistInboxLocked s) = OnIncoming s ∧
  pendingOutgoing (persistInboxLocked s) = pendingOutgoing s ∧
  closed (persistInboxLocked s) = closed s ∧ spawned (persistInboxLocked s) = spawned s ∧
  meter (persistInboxLocked s) = SetInboxSize (Z.of_nat (length (inbox s))) (meter s).
Proof. unfold persistInboxLocked. repeat case_match; done. Qed.

Ltac persist_simpl :=
  repeat match goal with
  | |- context [persistInboxLocked ?x] =>
      let H := fresh "Hp" in pose proof (persist_fields x) as H;
      let y := fresh "y" in set (y := persistInboxLocked x) in *; clearbody y;
      destruct H as (?Hpi & ?Hpp & ?Hpo & ?Hpe & ?Hpc & ?Hps & ?Hpm)
  end; cbn in *.

Definition snapshot_bytes (l : list InboxEntry) : string :=
  marshal (JArr (map (λ e, snapshot_json (snapshot_of e)) l)).

Arguments snapshot_bytes : simpl never.

Lemma snapshot_bytes_ne l : String.eqb (snapshot_bytes l) "" = false.
Proof. unfold snapshot_bytes. by destruct l. Qed.

Lemma persist_files s (r : string) : r ≠ InboxPath s → r ≠ InboxPath s +:+ ".tmp" →
  files (disk (persistInboxLocked s)) !! r = files (disk s) !! r.
Proof.
  intros H1 H2. unfold persistInboxLocked. cbn. destruct (String.eqb _ _); [done|].
  unfold WriteFile. destruct (write_fault _ _); cbn; [by rewrite lookup_insert_ne|].
  unfold Rename. cbn. destruct (rename_fault _ _); cbn; [by rewrite lookup_insert_ne|].
  rewrite lookup_insert_eq. cbn. by rewrite lookup_insert_ne, lookup_delete_ne, lookup_insert_ne.
Qed.

Lemma tmp_ne (p : string) : p +:+ ".tmp" ≠ p.
Proof. intros H. apply (f_equal slen) in H. rewrite slen_app in H. unfold slen in H. simpl in H. lia. Qed.

Lemma persist_path s :
  let f := disk s in let f' := disk (persistInboxLocked s) in
  InboxPath s ≠ "" →
  if decide (write_fault f (InboxPath s +:+ ".tmp") = None ∧ rename_fault f (InboxPath s +:+ ".tmp") = false)
  then f_data <$> files f' !! InboxPath s = Some (snapshot_bytes (inbox s))
  else files f' !! InboxPath s = files f !! InboxPath s.
Proof.
  intros f f' Hne. subst f f'. unfold persistInboxLocked. cbn.
  destruct (String.eqb_spec (InboxPath s) ""); [done|]. unfold WriteFile.
  destruct (write_fault _ _) eqn:Ew; cbn.
  { destruct (decide _) as [[? ?]|]; [done|]. apply lookup_insert_ne, tmp_ne. }
  unfold Rename; cbn. destruct (rename_fault _ _) eqn:Er; cbn.
  { destruct (decide _) as [[? ?]|]; [done|]. apply lookup_insert_ne, tmp_ne. }
  rewrite lookup_insert_eq; cbn. rewrite lookup_insert_eq. cbn. destruct (decide _) as [|H]; [done|]. exfalso; auto.
Qed.

(** ** The inbox list *)

(** the last [n] elements *)
Definition lastn {A} (n : nat) (l : list A) : list A := drop (length l - n) l.

Lemma lastn_length {A} n (l : list A) : length (lastn n l) = Nat.min n (length l).
Proof. unfold lastn. rewrite length_drop. lia. Qed.
Lemma lastn_all {A} n (l : list A) : (length l ≤ n)%nat → lastn n l = l.
Proof. intros. unfold lastn. by replace (length l - n)%nat with 0%nat by lia. Qed.
Lemma lastn_app_lastn {A} n (l k : list A) : lastn n (lastn n l ++ k) = lastn n (l ++ k).
Proof.
  unfold lastn. rewrite !length_app, length_drop.
  destruct (decide (length l ≤ n)%nat).
  { by replace (length l - n)%nat with 0%nat by lia; cbn [drop]; rewrite Nat.sub_0_r. }
  replace (length l - (length l - n))%nat with n by lia.
  rewrite <-(drop_app_le l k (length l - n)) by lia. rewrite drop_drop. f_equal. lia.
Qed.
Lemma lastn_sublist {A} n (l : list A) : lastn n l `sublist_of` l.
Proof. unfold lastn. apply sublist_drop. Qed.

(** the identifiers that deduplicate *)
Definition message_ids (l : list InboxEntry) : list string :=
  filterb (λ i, negb (String.eqb i "")) (ie_MessageID <$> l).

Lemma message_ids_sublist l k : l `sublist_of` k → message_ids l `sublist_of` message_ids k.
Proof.
  unfold message_ids. induction 1; csimpl; [done| |]; destruct (negb _); try done; by constructor.
Qed.
Lemma message_ids_app l k : message_ids (l ++ k) = message_ids l ++ message_ids k.
Proof. unfold message_ids. by rewrite fmap_app, filterb_app. Qed.

Lemma inboxContains_spec id s : inboxContainsLocked id s = true ↔ id ∈ message_ids (inbox s).
Proof.
  unfold inboxContainsLocked, message_ids. rewrite elem_of_filterb, negb_true_iff, String.eqb_neq.
  destruct (String.eqb_spec id "") as [->|Hne]; [naive_solver|].
  rewrite existsb_exists, list_elem_of_fmap. split.
  - intros (e & Hin & He%String.eqb_eq). split; [done|]. exists e. split; [done|]. by apply list_elem_of_In.
  - intros (_ & e & -> & He). exists e. split; [by apply list_elem_of_In|]. by apply String.eqb_eq.
Qed.

(** Appending is the queue "keep the newest 500, no duplicate identifier". *)
Lemma append_spec e s :
  appendInboxLocked e s =
    if decide (ie_MessageID e ∈ message_ids (inbox s)) then (false, s)
    else (true, set_inbox (lastn inboxSoftCap (inbox s ++ [e])) s).
Proof.
  unfold appendInboxLocked. destruct (inboxContainsLocked _ s) eqn:E.
  { apply inboxContains_spec in E. by rewrite decide_True. }
  rewrite decide_False by (rewrite <-inboxContains_spec; congruence).
  do 2 f_equal. unfold lastn. destruct (Z.ltb_spec 0 (Z.of_nat (length (inbox s ++ [e])) - Z.of_nat inboxSoftCap)).
  - f_equal. lia.
  - by replace (length (inbox s ++ [e]) - inboxSoftCap)%nat with 0%nat by lia.
Qed.

(** Bounded, without duplicate identifiers, and the pending tasks filed under
    their own identifier. *)
Record store_ok (s : Store) : Prop := {
  ok_len : (length (inbox s) ≤ inboxSoftCap)%nat;
  ok_nodup : NoDup (message_ids (inbox s));
  ok_pending : ∀ i p, pendingOutgoing s !! i = Some p → po_TaskID p = i }.

Lemma ok_sublist s s' : store_ok s → inbox s' `sublist_of` inbox s → pendingOutgoing s' = pendingOutgoing s →
  store_ok s'.
Proof.
  intros [H1 H2 H3] Hs Hp. split.
  - pose proof (sublist_length _ _ Hs). lia.
  - eapply sublist_NoDup; [|apply message_ids_sublist, Hs]. done.
  - by rewrite Hp.
Qed.

Lemma ok_same s s' : store_ok s → inbox s' = inbox s → pendingOutgoing s' = pendingOutgoing s → store_ok s'.
Proof. intros H Hi. apply ok_sublist; [done|]. by rewrite Hi. Qed.

Lemma append_ok e s : store_ok s → store_ok (appendInboxLocked e s).2.
Proof.
  intros [H1 H2 H3]. rewrite append_spec. destruct (decide _) as [|Hn]; [done|].
  split; cbn; [rewrite lastn_length; lia| |done].
  eapply sublist_NoDup; [|apply message_ids_sublist, lastn_sublist].
  rewrite message_ids_app. apply NoDup_app. split; [done|]. unfold message_ids at 2 3. csimpl.
  destruct (negb _); [|split; [set_solver|constructor]]. split; [set_solver|apply NoDup_singleton].
Qed.

Lemma append_fields e s : let s' := (appendInboxLocked e s).2 in
  pendingOutgoing s' = pendingOutgoing s ∧ InboxPath s' = InboxPath s ∧ OnIncoming s' = OnIncoming s ∧
  disk s' = disk s ∧ meter s' = meter s ∧ spawned s' = spawned s.
Proof. rewrite append_spec. by destruct (decide _). Qed.

Lemma deliver_ok e s : store_ok s → store_ok (deliverIncoming e s).2.
Proof.
  intros H. pose proof (append_ok e s H) as Ha. unfold deliverIncoming.
  destruct (appendInboxLocked e s) as [isNew s1]. cbn in Ha. destruct isNew; [|done].
  eapply ok_same; [exact Ha| |]; cbn; persist_simpl; destruct (OnIncoming s1), (OnIncoming y); done.
Qed.

Lemma evict_inbox now s : inbox (evictExpiredReplies now s).2 =
    filterb (reply_unexpired (tadd now (- replyEntryTTL))) (inbox s) ∧
  (evictExpiredReplies now s).1 = Z.of_nat (length (inbox s)) -
    Z.of_nat (length (filterb (reply_unexpired (tadd now (- replyEntryTTL))) (inbox s))) ∧
  pendingOutgoing (evictExpiredReplies now s).2 = pendingOutgoing s ∧
  spawned (evictExpiredReplies now s).2 = spawned s.
Proof.
  unfold evictExpiredReplies. destruct (Nat.eqb_spec (length (inbox s)) 0) as [H0|H0].
  { apply nil_length_inv in H0. rewrite H0. cbn. done. }
  pose proof (compact_slice_kept (reply_unexpired (tadd now (- replyEntryTTL))) (inbox s)) as Hk.
  pose proof (compact_slice_arr (reply_unexpired (tadd now (- replyEntryTTL))) (inbox s)) as Ha.
  destruct (compact_slice _ _) as [arr kept]. cbn in Hk, Ha. subst kept.
  destruct (0 <? _) eqn:E; cbn; [persist_simpl; done|].
  split_and!; try done. rewrite Ha; [symmetry|]; apply filterb_full;
  pose proof (filterb_length (reply_unexpired (tadd now (- replyEntryTTL))) (inbox s)); lia.
Qed.

Lemma existsb_false_filterb {A} (f : A → bool) l : existsb f l = false → filterb (λ x, negb (f x)) l = l.
Proof.
  intros H. apply filterb_all, Forall_forall. intros x Hx. apply negb_true_iff.
  destruct (f x) eqn:E; [|done]. rewrite <-H. symmetry. apply existsb_exists. exists x.
  split; [by apply list_elem_of_In|done].
Qed.

Lemma peek_inbox s : (PeekInbox s).1 = inbox s ∧ inbox (PeekInbox s).2 = filterb not_reply (inbox s) ∧
  pendingOutgoing (PeekInbox s).2 = pendingOutgoing s ∧ spawned (PeekInbox s).2 = spawned s.
Proof.
  unfold PeekInbox. pose proof (compact_slice_kept not_reply (inbox s)) as Hk.
  pose proof (compact_slice_arr not_reply (inbox s)) as Ha.
  destruct (compact_slice _ _) as [arr kept]. cbn in Hk, Ha. subst kept.
  destruct (existsb _ _) eqn:E; cbn; [persist_simpl; done|].
  apply existsb_false_filterb in E. change (filterb not_reply (inbox s) = inbox s) in E.
  rewrite E in Ha |- *. by rewrite Ha.
Qed.

Lemma drop_inbox id s : inbox (dropTaskEntries id s).2 = filterb (λ e, negb (String.eqb (ie_TaskID e) id)) (inbox s) ∧
  pendingOutgoing (dropTaskEntries id s).2 = pendingOutgoing s ∧ spawned (dropTaskEntries id s).2 = spawned s ∧
  OnIncoming (dropTaskEntries id s).2 = OnIncoming s.
Proof.
  unfold dropTaskEntries.
  pose proof (compact_slice_kept (λ e, negb (String.eqb (ie_TaskID e) id)) (inbox s)) as Hk.
  pose proof (compact_slice_arr (λ e, negb (String.eqb (ie_TaskID e) id)) (inbox s)) as Ha.
  destruct (compact_slice _ _) as [arr kept]. cbn in Hk, Ha. subst kept.
  cbn. destruct (existsb (λ e, String.eqb (ie_TaskID e) id) _) eqn:E; cbn; [persist_simpl; done|].
  apply existsb_false_filterb in E. rewrite E in Ha |- *. by rewrite Ha.
Qed.

Lemma synthetic_ok now p r st s : store_ok s → store_ok (appendSyntheticReply now p r st s).
Proof.
  intros H. unfold appendSyntheticReply. destruct (String.eqb _ _); [done|]. cbv zeta.
  match goal with |- context [appendInboxLocked ?e s] => pose proof (append_ok e s H) as Ha;
    destruct (appendInboxLocked e s) as [isNew s1] end.
  cbn in Ha. destruct isNew; [|done].
  eapply ok_same; [exact Ha| |]; cbn; persist_simpl; destruct (OnIncoming y); done.
Qed.

Lemma load_fold_ok l s : store_ok s → store_ok (foldl (λ s x, (appendInboxLocked (restored x) s).2) s l).
Proof.
  revert s. induction l as [|x l IH]; intros s H; cbn; [done|]. apply IH. by apply append_ok.
Qed.

Lemma load_ok s : store_ok s → store_ok (LoadInbox s).
Proof.
  intros H. unfold LoadInbox. repeat (case_match; try done).
  eapply ok_same; [by apply load_fold_ok|done|done].
Qed.

Section steps.
Context `{A2A}.

(** A store shared by the goroutines of a bridge: besides the store, the
    replies taken out of [pendingOutgoing] and not delivered yet (between the
    two critical sections of a poll or of an ingest), and the history of the
    tasks tracked. *)
Record system := Sys { sy_store : Store; sy_flight : list (pendingOutgoingTask * string * string);
  sy_tracked : list string }.

(** One critical section of one goroutine. A poll acts on pending tasks it
    read earlier, so its task [p] is arbitrary here. *)
Inductive sys_step : system → system → Prop :=
| step_deliver e s f t : sys_step (Sys s f t) (Sys (deliverIncoming e s).2 f t)
| step_drain s f t : sys_step (Sys s f t) (Sys (DrainInbox s).2 f t)
| step_peek s f t : sys_step (Sys s f t) (Sys (PeekInbox s).2 f t)
| step_drop id s f t : sys_step (Sys s f t) (Sys (dropTaskEntries id s).2 f t)
| step_janitor now s f t : sys_step (Sys s f t) (Sys (janitor_tick now s) f t)
| step_load s f t : sys_step (Sys s f t) (Sys (LoadInbox s) f t)
| step_close s f t : sys_step (Sys s f t) (Sys (Close s) f t)
| step_track now id url name q s f t :
    sys_step (Sys s f t) (Sys (TrackOutgoing now id url name q s) f (id :: t))
| step_ingest (tk : Task Part) p s s' f t : Terminal (s_State (t_Status tk)) = true →
    claim (t_ID tk) s = (Some p, s') →
    sys_step (Sys s f t) (Sys s' ((p, extractReplyText tk, s_State (t_Status tk)) :: f) t)
| step_poll p p' (tk : Task Part) s s' f t : Terminal (s_State (t_Status tk)) = true →
    claim (po_TaskID p) s = (Some p', s') →
    sys_step (Sys s f t) (Sys s' ((p, extractReplyText tk, s_State (t_Status tk)) :: f) t)
| step_expire p s f t :
    sys_step (Sys s f t) (Sys (set_pending (delete (po_TaskID p) (pendingOutgoing s)) s) f t)
| step_reply now p r st s f1 f2 t :
    sys_step (Sys s (f1 ++ (p, r, st) :: f2) t) (Sys (appendSyntheticReply now p r st s) (f1 ++ f2) t).

Lemma claim_ok id s p s' : store_ok s → claim id s = (Some p, s') →
  store_ok s' ∧ pendingOutgoing s !! id = Some p ∧ pendingOutgoing s' = delete id (pendingOutgoing s) ∧
  spawned s' = spawned s ∧ po_TaskID p = id.
Proof.
  intros [H1 H2 H3]. unfold claim. destruct (_ !! id) eqn:E; [|done]. intros [= -> <-].
  split_and!; try done; [|by apply H3]. split; cbn; [done..|].
  intros i q [_ Hq]%lookup_delete_Some. by apply H3.
Qed.

Lemma sys_step_ok y y' : store_ok (sy_store y) → sys_step y y' → store_ok (sy_store y').
Proof.
  intros Hok Hst. destruct Hst as [e s f t|s f t|s f t|id s f t|now s f t|s f t|s f t|now id url name q s f t
    |tk p s s' f t Ht Hc|p p' tk s s' f t Ht Hc|p s f t|now p r st s f1 f2 t]; cbn in *.
  - by apply deliver_ok.
  - unfold DrainInbox. cbn. eapply ok_sublist; [exact Hok| |]; persist_simpl; rewrite ?Hpi; [apply sublist_nil_l|done].
  - destruct (peek_inbox s) as (_ & Hi & Hp & _). eapply ok_sublist; [exact Hok| |done].
    rewrite Hi. apply filterb_sublist.
  - destruct (drop_inbox id s) as (Hi & Hp & _). eapply ok_sublist; [exact Hok| |done].
    rewrite Hi. apply filterb_sublist.
  - unfold janitor_tick. destruct (evict_inbox now s) as (Hi & _ & Hp & _). eapply ok_sublist; [exact Hok| |done].
    rewrite Hi. apply filterb_sublist.
  - by apply load_ok.
  - by eapply ok_same.
  - destruct Hok as [H1 H2 H3]. split; cbn; [done..|]. intros i p.
    rewrite lookup_insert_Some. intros [[<- <-]|[_ ?]]; [done|]. by apply H3.
  - by apply (claim_ok _ _ _ _ Hok Hc).
  - by apply (claim_ok _ _ _ _ Hok Hc).
  - destruct Hok as [H1 H2 H3]. split; cbn; [done..|]. intros i q [_ Hq]%lookup_delete_Some. by apply H3.
  - by apply synthetic_ok.
Qed.
End steps.

(** ** Counting deliveries *)

Definition countb {A} (p : A → bool) (l : list A) : nat := length (filterb p l).
Lemma countb_app {A} (p : A → bool) l k : countb p (l ++ k) = (countb p l + countb p k)%nat.
Proof. unfold countb. by rewrite filterb_app, length_app. Qed.
Lemma countb_cons {A} (p : A → bool) x l : countb p (x :: l) = ((if p x then 1 else 0) + countb p l)%nat.
Proof. unfold countb. cbn. by destruct (p x). Qed.

Lemma countb_nil {A} (p : A → bool) : countb p [] = 0%nat.
Proof. done. Qed.
Arguments countb : simpl never.

(** the user hook announcing the reply to task [id] *)
Definition reply_hook (id : string) (x : spawn) : bool :=
  match x with
  | Hook ev (JObj (("taskId", JStr i) :: _)) => String.eqb ev "on-outgoing-reply" && String.eqb i id
  | _ => false
  end.

Definition pending_count (id : string) (s : Store) : nat :=
  match pendingOutgoing s !! id with Some _ => 1 | None => 0 end.

Lemma deliver_hooks id e s : countb (reply_hook id) (spawned (deliverIncoming e s).2) = countb (reply_hook id) (spawned s) ∧
  pendingOutgoing (deliverIncoming e s).2 = pendingOutgoing s.
Proof.
  pose proof (append_fields e s) as (Hp & _ & _ & _ & _ & Hs). unfold deliverIncoming.
  destruct (appendInboxLocked e s) as [isNew s1]. cbn in *. destruct isNew; cbn; [|by rewrite Hs].
  persist_simpl. destruct (OnIncoming _); cbn; rewrite !countb_app, !countb_cons, !countb_nil, ?Hps, ?Hs, ?Hpe; cbn; split; (done || lia).
Qed.

Lemma synthetic_hooks id now p r st s :
  (countb (reply_hook id) (spawned (appendSyntheticReply now p r st s)) ≤
   countb (reply_hook id) (spawned s) + (if String.eqb (po_TaskID p) id then 1 else 0))%nat ∧
  pendingOutgoing (appendSyntheticReply now p r st s) = pendingOutgoing s.
Proof.
  unfold appendSyntheticReply. destruct (String.eqb _ _); [split; [lia|done]|]. cbv zeta.
  match goal with |- context [appendInboxLocked ?e s] => pose proof (append_fields e s) as (Hp & _ & _ & _ & _ & Hs);
    destruct (appendInboxLocked e s) as [isNew s1] end.
  cbn in Hp, Hs. destruct isNew; cbn; [|rewrite Hs; split; [lia|done]].
  persist_simpl. destruct (OnIncoming _); cbn; rewrite !countb_app, !countb_cons, !countb_nil, ?Hps, ?Hs, ?Hpe; cbn;
    destruct (String.eqb _ _); cbn; split; (done || lia).
Qed.

Lemma load_spawned s : spawned (LoadInbox s) = spawned s ∧ pendingOutgoing (LoadInbox s) = pendingOutgoing s.
Proof.
  assert (Hf : ∀ l s, spawned (foldl (λ s x, (appendInboxLocked (restored x) s).2) s l) = spawned s ∧
    pendingOutgoing (foldl (λ s x, (appendInboxLocked (restored x) s).2) s l) = pendingOutgoing s).
  { induction l as [|x l IH]; intros s'; cbn; [done|].
    destruct (append_fields (restored x) s') as (Hp & _ & _ & _ & _ & Hs).
    destruct (IH (appendInboxLocked (restored x) s').2) as [-> ->]. by rewrite Hp, Hs. }
  unfold LoadInbox. repeat (case_match; try done). cbn. apply Hf.
Qed.

Section exactly_once.
Context `{A2A}.

Definition flight_count (id : string) (f : list (pendingOutgoingTask * string * string)) : nat :=
  countb (λ x, String.eqb (po_TaskID x.1.1) id) f.

(** every registration of [id] is pending, in flight or answered at most once *)
Definition delivered_bound (id : string) (y : system) : Prop :=
  (countb (reply_hook id) (spawned (sy_store y)) + flight_count id (sy_flight y) +
   pending_count id (sy_store y) ≤ countb (String.eqb id) (sy_tracked y))%nat.

Lemma pending_count_delete id i s :
  (pending_count id (set_pending (delete i (pendingOutgoing s)) s) ≤ pending_count id s)%nat.
Proof.
  unfold pending_count. cbn. destruct (decide (i = id)) as [->|Hne].
  - rewrite lookup_delete_eq. lia.
  - by rewrite lookup_delete_ne.
Qed.

Lemma claim_bound id i s p s' (q : pendingOutgoingTask) r st f :
  claim i s = (Some p, s') → po_TaskID q = i →
  (flight_count id ((q, r, st) :: f) + pending_count id s' = flight_count id f + pending_count id s)%nat ∧
  spawned s' = spawned s.
Proof.
  unfold claim. destruct (_ !! i) eqn:E; [|done]. intros [= -> <-] <-. split; [|done].
  unfold flight_count, pending_count. rewrite countb_cons. cbn.
  destruct (String.eqb_spec (po_TaskID q) id) as [He|Hne].
  - rewrite He in *. rewrite lookup_delete_eq, E. lia.
  - rewrite lookup_delete_ne by done. lia.
Qed.

Lemma delivered_bound_step id y y' : store_ok (sy_store y) → delivered_bound id y → sys_step y y' → delivered_bound id y'.
Proof.
  unfold delivered_bound. intros Hok Hb Hst.
  destruct Hst as [e s f t|s f t|s f t|i s f t|now s f t|s f t|s f t|now i url name q s f t
    |tk p s s' f t Ht Hc|p p' tk s s' f t Ht Hc|p s f t|now p r st s f1 f2 t]; cbn [sy_store sy_flight sy_tracked] in *.
  - destruct (deliver_hooks id e s) as [H1 H2]. unfold pending_count in *. by rewrite H1, H2.
  - unfold DrainInbox. cbn. persist_simpl. unfold pending_count in *. by rewrite Hpe, Hps.
  - destruct (peek_inbox s) as (_ & _ & H1 & H2). unfold pending_count in *. by rewrite H1, H2.
  - destruct (drop_inbox i s) as (_ & H1 & H2 & _). unfold pending_count in *. by rewrite H1, H2.
  - unfold janitor_tick. destruct (evict_inbox now s) as (_ & _ & H1 & H2). unfold pending_count in *. by rewrite H1, H2.
  - destruct (load_spawned s) as [H1 H2]. unfold pending_count in *. by rewrite H1, H2.
  - done.
  - rewrite countb_cons. unfold pending_count in *. cbn [TrackOutgoing set_pending pendingOutgoing spawned].
    destruct (String.eqb_spec id i) as [->|Hne]; [rewrite lookup_insert_eq; case_match; lia|].
    by rewrite lookup_insert_ne by done.
  - pose proof (claim_ok _ _ _ _ Hok Hc) as (_ & _ & _ & _ & Hi).
    destruct (claim_bound id _ _ _ _ p (extractReplyText tk) (s_State (t_Status tk)) f Hc Hi) as [H1 H2].
    rewrite H2. lia.
  - destruct (claim_bound id _ _ _ _ p (extractReplyText tk) (s_State (t_Status tk)) f Hc eq_refl) as [H1 H2].
    rewrite H2. lia.
  - pose proof (pending_count_delete id (po_TaskID p) s). cbn [set_pending spawned] in *. lia.
  - destruct (synthetic_hooks id now p r st s) as [H1 H2]. unfold pending_count, flight_count in *. rewrite H2.
    rewrite countb_app, countb_cons in Hb. rewrite countb_app. cbn in Hb. lia.
Qed.
End exactly_once.

(** ** The snapshot read back *)

Definition norm_entry (e : InboxEntry) : InboxEntry :=
  {| ie_MessageID := to_valid_utf8 (ie_MessageID e); ie_TaskID := to_valid_utf8 (ie_TaskID e);
     ie_ContextID := to_valid_utf8 (ie_ContextID e); ie_From := to_valid_utf8 (ie_From e);
     ie_Text := to_valid_utf8 (ie_Text e); ie_Kind := ""; ie_State := ""; ie_TS := to_valid_utf8 (ie_TS e) |}.

Lemma decode_entry_json e :
  restored <$> decode_entry (jnorm (snapshot_json (snapshot_of e))) = Some (norm_entry e).
Proof.
  destruct e as [i t c f b k st ts]. unfold snapshot_json. cbn [snapshot_of sn_TS sn_MessageID sn_TaskID sn_ContextID sn_From sn_Text ie_TS ie_MessageID ie_TaskID ie_ContextID ie_From ie_Text].
  destruct (String.eqb_spec ts "") as [->|Hts]; reflexivity.
Qed.

Lemma snapshot_json_wf x : jwf (snapshot_json x) = true ∧ (jdepth (snapshot_json x) ≤ 1)%N.
Proof. unfold snapshot_json. destruct (String.eqb _ _); split; done. Qed.

Lemma jdepth_list (l : list json) d : Forall (λ v, jdepth v ≤ d)%N l →
  (jdepth (JArr l) ≤ N.succ d)%N.
Proof.
  intros Hl. cbn [jdepth]. apply (proj1 (N.succ_le_mono _ _)). induction Hl as [|v l Hv _ IH]; cbn [map fold_right]; lia.
Qed.

Lemma decode_snapshot_bytes l : map restored <$> decode_snapshot (snapshot_bytes l) = Some (map norm_entry l).
Proof.
  unfold decode_snapshot, snapshot_bytes, marshal. rewrite unmarshal_print.
  - cbn [jnorm mbind option_bind]. rewrite map_map. induction l as [|e l IH]; [done|].
    cbn [map mapM]. pose proof (decode_entry_json e) as He.
    destruct (decode_entry _) as [x|]; [|done]. cbn [fmap option_fmap option_map] in He. apply (inj Some) in He.
    cbn [mbind option_bind]. destruct (mapM _ _) as [xs|]; cbn in *; [|done]. injection IH as <-. by rewrite He.
  - cbn [jwf]. apply forallb_forall. intros v (e & <- & _)%in_map_iff. apply snapshot_json_wf.
  - eapply N.le_trans; [apply (jdepth_list _ 1)|unfold max_depth; lia].
    apply Forall_forall. intros v Hv. apply list_elem_of_In, in_map_iff in Hv as (e & <- & _). apply snapshot_json_wf.
Qed.

Lemma load_fold_fresh l s :
  (length (inbox s) + length l ≤ inboxSoftCap)%nat → NoDup (message_ids (inbox s ++ (restored <$> l))) →
  foldl (λ s x, (appendInboxLocked (restored x) s).2) s l = set_inbox (inbox s ++ (restored <$> l)) s.
Proof.
  revert s. induction l as [|x l IH]; intros s Hl Hn; cbn [foldl].
  { destruct s. unfold set_inbox. cbn. by rewrite app_nil_r. }
  cbn [length] in Hl. rewrite append_spec. rewrite decide_False.
  2:{ intros Hin. rewrite message_ids_app in Hn. apply NoDup_app in Hn as (_ & Hn & _). apply (Hn _ Hin).
      unfold message_ids in *. apply elem_of_filterb in Hin as [Hin _]. apply elem_of_filterb.
      split; [done|]. csimpl. set_solver. }
  cbn [snd]. rewrite lastn_all by (rewrite length_app; cbn; lia).
  rewrite IH; cbn [set_inbox inbox].
  - rewrite <-(assoc_L app). done.
  - rewrite length_app. cbn. lia.
  - rewrite <-(assoc_L app). done.
Qed.

(** * Properties *)

(** C1: In every reachable state of a bridge — any interleaving of deliveries,
    drains, peeks, task completions, janitor rounds, restarts from the snapshot,
    polls and subscriptions — the inbox holds at most [inboxSoftCap] entries, no
    two entries share a non-empty message identifier, and every pending task is
    filed under its own identifier. *)
Theorem store_reachable_ok `{A2A} (w : fs) (m : metrics) (path : string) (cb : bool) (y : system) :
  star sys_step (Sys (MkStore [] path cb ∅ false w m []) [] []) y → store_ok (sy_store y).
Proof.
  intros Hs. apply (star_invariant sys_step (λ y, store_ok (sy_store y)) sys_step_ok _ _ Hs).
  split; cbn; [lia|constructor|done].
Qed.

(** C2: Exactly-once replies: whatever the interleaving of the poll loop and the
    subscription fast path, the reply to a task is announced at most as often as
    the task was registered (once, for a task sent once); replies announced, being
    delivered and still awaited never exceed the registrations. *)
Theorem reply_delivered_once `{A2A} (w : fs) (m : metrics) (path : string) (cb : bool) (y : system) (id : string) :
  star sys_step (Sys (MkStore [] path cb ∅ false w m []) [] []) y → delivered_bound id y.
Proof.
  intros Hs. apply (star_invariant sys_step (λ y, store_ok (sy_store y) ∧ delivered_bound id y)) in Hs as [_ ?]; [done| |].
  - intros y1 y2 [Hok Hb] Hst. eauto using sys_step_ok, delivered_bound_step.
  - split; [split; cbn; [lia|constructor|done]|]. unfold delivered_bound. cbn. done.
Qed.

(** C21: [PollOutgoing] refines the shared system: whatever snapshot of pending
    tasks it walks and whatever the peers answer, its effect is a sequence of the
    system's critical sections, so the invariants above hold across it. *)
Theorem PollOutgoing_refines `{A2A} (maxAge : Z) (env : string → poll_env) (pending : list pendingOutgoingTask)
  (s : Store) f t :
  star sys_step (Sys s f t) (Sys (PollOutgoing maxAge env pending s).2 f t).
Proof.
  revert s. induction pending as [|p pending IH]; intros s; cbn [PollOutgoing]; [constructor|].
  assert (Hone : star sys_step (Sys s f t) (Sys (poll_one maxAge (env (po_TaskID p)) p s).2 f t)).
  { unfold poll_one. destruct (_ <? _); [eapply star_step; [apply step_expire|constructor]|].
    destruct (pe_fetch _) as [[tk|]|]; [|constructor..].
    destruct (Terminal _) eqn:Ht; [|constructor]. cbn [negb].
    destruct (claim _ _) as [[p'|] s'] eqn:Hc; cbn.
    - eapply star_step; [apply (step_poll p p' tk); done|].
      eapply star_step; [eapply (step_reply (pe_deliver (env (po_TaskID p))) p _ _ _ [])|constructor].
    - unfold claim in Hc. case_match; simplify_eq. constructor. }
  destruct (poll_one _ _ _ _) as [b s1]. specialize (IH s1).
  destruct (PollOutgoing _ _ _ _) as [n s2]. cbn in *. by eapply star_trans.
Qed.

(** the two outcomes of a delivery *)
Lemma deliver_cases (e : InboxEntry) (s : Store) :
  if decide (ie_MessageID e ∈ message_ids (inbox s)) then deliverIncoming e s = (false, s)
  else
    let s' := (deliverIncoming e s).2 in
    (deliverIncoming e s).1 = true ∧
    inbox s' = lastn inboxSoftCap (inbox s ++ [e]) ∧
    messagesReceived (meter s') = add1 (messagesReceived (meter s)) ∧
    currentInboxSize (meter s') = Z.of_nat (length (inbox s')) ∧
    spawned s' = spawned s ++ (if OnIncoming s then [Incoming e] else []) ++
      [Hook "on-inbound" (JObj [("taskId", JStr (ie_TaskID e)); ("from", JStr (ie_From e)); ("text", JStr (ie_Text e))])] ∧
    pendingOutgoing s' = pendingOutgoing s.
Proof.
  unfold deliverIncoming. rewrite append_spec. destruct (decide _); [done|].
  set (s1 := set_inbox _ s). assert (Ho : OnIncoming s1 = OnIncoming s) by done.
  pose proof (persist_fields s1) as (H1 & H2 & H3 & H4 & H5 & H6 & H7). rewrite Ho in H3.
  cbn zeta. cbn [fst snd start inbox meter spawned pendingOutgoing set_meter OnIncoming].
  rewrite H3. destruct (OnIncoming s); cbn; rewrite ?H1, ?H4, ?H6, ?H7; cbn; rewrite <-?(assoc_L app); done.
Qed.

(** C14: Effectively-once delivery. A message whose identifier is already queued is
    refused and changes nothing. Any other message becomes the newest entry of the
    inbox (the oldest beyond the cap being dropped), is counted, is handed to the
    callback once and announced to the user hook once, in this order; unless a
    write fails, the snapshot then holds the new inbox. *)
Theorem deliverIncoming_spec (e : InboxEntry) (s : Store) :
  if decide (ie_MessageID e ∈ message_ids (inbox s)) then deliverIncoming e s = (false, s)
  else
    let s' := (deliverIncoming e s).2 in
    let tmp := InboxPath s +:+ ".tmp" in
    (deliverIncoming e s).1 = true ∧
    inbox s' = lastn inboxSoftCap (inbox s ++ [e]) ∧
    messagesReceived (meter s') = add1 (messagesReceived (meter s)) ∧
    currentInboxSize (meter s') = Z.of_nat (length (inbox s')) ∧
    spawned s' = spawned s ++ (if OnIncoming s then [Incoming e] else []) ++
      [Hook "on-inbound" (JObj [("taskId", JStr (ie_TaskID e)); ("from", JStr (ie_From e)); ("text", JStr (ie_Text e))])] ∧
    pendingOutgoing s' = pendingOutgoing s ∧
    (InboxPath s ≠ "" → write_fault (disk s) tmp = None → rename_fault (disk s) tmp = false →
       f_data <$> files (disk s') !! InboxPath s = Some (snapshot_bytes (inbox s'))).
Proof.
  pose proof (deliver_cases e s) as Hd. destruct (decide _) as [|Hn]; [done|].
  destruct Hd as (H1 & H2 & H3 & H4 & H5 & H6). cbv zeta. split_and!; try done.
  intros Hp Hw Hr. rewrite H2. unfold deliverIncoming. rewrite append_spec, decide_False by done.
  set (s1 := set_inbox _ s). pose proof (persist_path s1 Hp) as Hpp. cbv zeta in Hpp.
  rewrite decide_True in Hpp by done. cbv zeta.
  assert (Hdisk : ∀ b : bool, disk (if b then start (Incoming e) (set_meter IncMessagesReceived (persistInboxLocked s1))
    else set_meter IncMessagesReceived (persistInboxLocked s1)) = disk (persistInboxLocked s1)) by (by intros []).
  cbn [fst snd start disk]. rewrite Hdisk. exact Hpp.
Qed.

(** The soft cap keeps the newest entries: after a run of messages with fresh
    identifiers the inbox holds the last [inboxSoftCap] of everything queued. *)
Theorem inbox_keeps_newest (es : list InboxEntry) (s : Store) :
  NoDup (message_ids (inbox s ++ es)) → (length (inbox s) ≤ inboxSoftCap)%nat →
  inbox (foldl (λ s e, (deliverIncoming e s).2) s es) = lastn inboxSoftCap (inbox s ++ es).
Proof.
  assert (Hgen : ∀ es s l, NoDup (message_ids (l ++ es)) → inbox s = lastn inboxSoftCap l →
    inbox (foldl (λ s e, (deliverIncoming e s).2) s es) = lastn inboxSoftCap (l ++ es)).
  { clear. induction es as [|e es IH]; intros s l Hn Hi; cbn [foldl]; [by rewrite app_nil_r|].
    replace (l ++ e :: es) with ((l ++ [e]) ++ es) in * by (by rewrite <-(assoc_L app)).
    apply IH; [done|]. pose proof (deliver_cases e s) as Hd. rewrite decide_False in Hd.
    - destruct Hd as (_ & -> & _). by rewrite Hi, lastn_app_lastn.
    - rewrite Hi. intros Hin. rewrite !message_ids_app in Hn. apply NoDup_app in Hn as (Hn & _).
      apply NoDup_app in Hn as (_ & Hn & _). eapply Hn.
      + eapply elem_of_submseteq; [exact Hin|]. apply sublist_submseteq, message_ids_sublist, lastn_sublist.
      + apply elem_of_filterb. apply elem_of_filterb in Hin as [? _]. split; [done|]. csimpl. set_solver. }
  intros Hn Hl. apply Hgen; [done|]. by rewrite lastn_all.
Qed.

(** C16: The snapshot is replaced atomically. Whatever write or rename fails, the
    file the hook reads holds either what it held before or the complete new
    inbox — the latter exactly when no operation failed — and no file other than
    it and its temporary companion is touched. *)
Theorem persist_atomic (s : Store) :
  let f := disk s in let f' := disk (persistInboxLocked s) in
  (∀ r, r ≠ InboxPath s → r ≠ InboxPath s +:+ ".tmp" → files f' !! r = files f !! r) ∧
  if decide (InboxPath s ≠ "" ∧ write_fault f (InboxPath s +:+ ".tmp") = None ∧ rename_fault f (InboxPath s +:+ ".tmp") = false)
  then f_data <$> files f' !! InboxPath s = Some (snapshot_bytes (inbox s))
  else files f' !! InboxPath s = files f !! InboxPath s.
Proof.
  cbv zeta. split; [intros; by apply persist_files|].
  destruct (String.eqb_spec (InboxPath s) "") as [He|Hne].
  - rewrite decide_False by naive_solver. unfold persistInboxLocked. cbn. by rewrite He.
  - pose proof (persist_path s Hne) as Hp. cbv zeta in Hp.
    destruct (decide (_ ∧ _)) as [[? ?]|Hn] in Hp; [by rewrite decide_True by done|].
    rewrite decide_False by naive_solver. done.
Qed.

Definition entry_utf8 (e : InboxEntry) : bool :=
  valid_utf8 (ie_MessageID e) && valid_utf8 (ie_TaskID e) && valid_utf8 (ie_ContextID e) &&
  valid_utf8 (ie_From e) && valid_utf8 (ie_Text e) && valid_utf8 (ie_TS e).
(** the hook-facing projection of an entry *)
Definition flat (e : InboxEntry) : InboxEntry := restored (snapshot_of e).

Lemma norm_entry_id e : entry_utf8 e = true → norm_entry e = flat e.
Proof.
  unfold entry_utf8, norm_entry, flat, restored, snapshot_of. rewrite !andb_true_iff. cbn.
  intros (((((?&?)&?)&?)&?)&?). by rewrite !to_valid_utf8_id.
Qed.

(** C15: Durability across a restart: an inbox whose snapshot was written without a
    failure comes back, in order and complete, when a fresh store loads it; only
    [Kind] and [State], which the snapshot does not carry, are lost. *)
Theorem persist_load (s s' : Store) :
  store_ok s → Forall (λ e, entry_utf8 e = true) (inbox s) → InboxPath s ≠ "" →
  write_fault (disk s) (InboxPath s +:+ ".tmp") = None → rename_fault (disk s) (InboxPath s +:+ ".tmp") = false →
  inbox s' = [] → InboxPath s' = InboxPath s → files (disk s') = files (disk (persistInboxLocked s)) →
  read_fault (disk s') (InboxPath s) = false →
  inbox (LoadInbox s') = flat <$> inbox s.
Proof.
  intros [Hlen Hnd _] Hu Hne Hw Hr Hi Hp Hd Hrd. unfold LoadInbox. rewrite Hp.
  destruct (String.eqb_spec (InboxPath s) ""); [done|].
  pose proof (persist_path s Hne) as Hpp. cbv zeta in Hpp. rewrite decide_True in Hpp by done.
  unfold ReadFile. rewrite Hrd, Hd. destruct (files _ !! _) as [fl|]; [|done]. apply (inj Some) in Hpp.
  rewrite Hpp, snapshot_bytes_ne.
  pose proof (decode_snapshot_bytes (inbox s)) as Hdec.
  destruct (decode_snapshot _) as [snap|]; [|done]. apply (inj Some) in Hdec.
  assert (Hm : restored <$> snap = flat <$> inbox s).
  { etrans; [exact Hdec|]. clear -Hu. induction Hu as [|e l He _ IH]; [done|]. csimpl.
    by rewrite norm_entry_id, IH. }
  cbn [set_meter inbox]. rewrite load_fold_fresh; cbn [set_inbox inbox]; rewrite Hi; cbn [app length].
  - exact Hm.
  - rewrite <-(length_fmap restored snap), Hm, length_fmap. lia.
  - rewrite Hm. unfold message_ids in *. by rewrite <-list_fmap_compose.
Qed.

(** The reply janitor: it drops exactly the reply entries whose delivery time
    lies more than [replyEntryTTL] back, returns their number, keeps the order of
    the rest and never touches an entry without the reply prefix. *)
Theorem evictExpiredReplies_spec (now : gotime) (s : Store) :
  let r := evictExpiredReplies now s in
  inbox r.2 = filterb (reply_unexpired (tadd now (- replyEntryTTL))) (inbox s) ∧
  r.1 = Z.of_nat (length (inbox s)) - Z.of_nat (length (inbox r.2)) ∧
  filterb not_reply (inbox r.2) = filterb not_reply (inbox s) ∧
  (∀ e t0, e ∈ inbox s → not_reply e = false → printable (to_utc t0) → ie_TS e = format_rfc3339 (to_utc t0) →
     (e ∈ inbox r.2 ↔ wall now - replyEntryTTL ≤ wall t0 / second * second)).
Proof.
  cbv zeta. destruct (evict_inbox now s) as (Hi & Hn & _). rewrite Hn, Hi. split_and!; try done.
  - apply filterb_filterb. intros e. unfold reply_unexpired, not_reply. by destruct (has_prefix _ _).
  - intros e t0 Hin Hr Hp Hts. rewrite elem_of_filterb. unfold reply_unexpired, not_reply in *.
    apply negb_false_iff in Hr. rewrite Hr, Hts. cbn [andb].
    pose proof (parse_format_rfc3339 _ Hp) as Hpf.
    destruct (String.eqb_spec (format_rfc3339 (to_utc t0)) "") as [E|_]; [by rewrite E in Hpf|].
    cbn [negb andb]. rewrite Hpf, before_wall by auto. cbn [wall tadd to_utc].
    rewrite negb_true_iff, Z.ltb_ge. naive_solver lia.
Qed.

(** Reading the inbox: draining returns every entry and empties it; peeking
    returns every entry, keeps exactly those without the reply prefix, and a
    second peek shows only these. *)
Theorem inbox_reads (s : Store) :
  (DrainInbox s).1 = inbox s ∧ inbox (DrainInbox s).2 = [] ∧
  (PeekInbox s).1 = inbox s ∧ inbox (PeekInbox s).2 = filterb not_reply (inbox s) ∧
  (PeekInbox (PeekInbox s).2).1 = filterb not_reply (inbox s) ∧
  inbox (PeekInbox (PeekInbox s).2).2 = inbox (PeekInbox s).2.
Proof.
  destruct (peek_inbox s) as (H1 & H2 & _). destruct (peek_inbox (PeekInbox s).2) as (H3 & H4 & _).
  unfold DrainInbox at 1 2. cbn [fst snd]. rewrite H1, H3, H4, H2, filterb_idem. split_and!; try done.
  persist_simpl. done.
Qed.

(** Completing a task removes from the inbox every entry of the task and
    nothing else, keeps the order of the rest, and reports whether one of the
    removed entries was a reply to this agent's own question. *)
Theorem dropTaskEntries_spec (taskID : string) (s : Store) :
  inbox (dropTaskEntries taskID s).2 = filterb (λ e, negb (String.eqb (ie_TaskID e) taskID)) (inbox s) ∧
  ((dropTaskEntries taskID s).1 = true ↔
     ∃ e, e ∈ inbox s ∧ ie_TaskID e = taskID ∧ isSyntheticReply e = true) ∧
  pendingOutgoing (dropTaskEntries taskID s).2 = pendingOutgoing s.
Proof.
  destruct (drop_inbox taskID s) as (H1 & H2 & _). split_and!; [done| |done].
  unfold dropTaskEntries. destruct (compact_slice _ _) as [arr kept]. cbn [fst].
  rewrite existsb_exists. split.
  - intros (e & He & [Ht Hs]%andb_true_iff). exists e. split_and!; [by apply list_elem_of_In|by apply String.eqb_eq|done].
  - intros (e & He & Ht & Hs). exists e. split; [by apply list_elem_of_In|]. rewrite Hs, andb_true_r. by apply String.eqb_eq.
Qed.

Lemma trimTo_spec s n :
  (rune_count (trimTo s n) ≤ n + 3)%nat ∧ contains_char "010" (trimTo s n) = false ∧
  ((rune_count (replace_char "010" " " s) ≤ n)%nat → trimTo s n = replace_char "010" " " s).
Proof.
  unfold trimTo. set (s' := replace_char "010" " " s).
  assert (Hc : contains_char "010" s' = false) by (by apply replace_char_removes).
  destruct (Nat.leb_spec (length (runes s')) n) as [Hle|Hgt].
  { split_and!; [unfold rune_count; lia|done|done]. }
  split_and!; [| |unfold rune_count; lia].
  - rewrite rune_count_app by apply segs_string_of_runes. rewrite rune_count_runes, length_take.
    change (rune_count "...") with 3%nat. lia.
  - rewrite contains_char_app, contains_char_string_of_runes by done. cbn. rewrite orb_false_r.
    rewrite contains_char_runes in Hc by done. apply not_true_iff_false. apply not_true_iff_false in Hc.
    intros Hx. apply Hc. apply existsb_exists in Hx as (r & Hr & Hr'). apply existsb_exists. exists r. split; [|done].
    apply list_elem_of_In. apply list_elem_of_In in Hr. eapply elem_of_submseteq; [exact Hr|].
    apply sublist_submseteq, sublist_take.
Qed.

(** A reply enters the inbox once and says what it answers. A blank reply, or
    one already queued, changes nothing. Otherwise one entry is queued under
    [reply-<task>], carrying the peer's name, the reply in full and the question
    cut to at most 80 characters without line breaks; then the callback and the
    user hook are started. *)
Theorem appendSyntheticReply_spec (now : gotime) (p : pendingOutgoingTask) (reply state : string) (s : Store) :
  let s' := appendSyntheticReply now p reply state s in
  let id := "reply-" +:+ po_TaskID p in
  let q := trimTo (po_Question p) 80 in
  (rune_count q ≤ 83)%nat ∧ contains_char "010" q = false ∧
  if decide (trim_space reply = "" ∨ id ∈ message_ids (inbox s)) then s' = s
  else
    ∃ e, ie_MessageID e = id ∧ ie_TaskID e = po_TaskID p ∧ ie_From e = po_PeerName p ∧
      isSyntheticReply e = true ∧ ie_State e = state ∧ ie_TS e = format_rfc3339 (to_utc now) ∧
      ie_Text e = reply_text (po_PeerName p) q reply ∧
      inbox s' = lastn inboxSoftCap (inbox s ++ [e]) ∧
      spawned s' = spawned s ++ (if OnIncoming s then [Incoming e] else []) ++
        [Hook "on-outgoing-reply" (JObj [("taskId", JStr (po_TaskID p)); ("from", JStr (po_PeerName p));
          ("text", JStr reply); ("state", JStr state)])].
Proof.
  cbv zeta. destruct (trimTo_spec (po_Question p) 80) as (H1 & H2 & _). split_and!; [done..|].
  unfold appendSyntheticReply. destruct (String.eqb_spec (trim_space reply) "") as [Hb|Hb].
  { by rewrite decide_True by auto. }
  rewrite append_spec. cbn [ie_MessageID]. destruct (decide (_ ∈ _)) as [Hin|Hin].
  { by rewrite decide_True by (right; exact Hin). }
  rewrite decide_False by (intros [?|?]; done).
  eexists {| ie_ContextID := ""; ie_Kind := KindOutgoingReply |}. cbn [ie_MessageID ie_TaskID ie_From ie_State ie_TS ie_Text].
  do 7 (split; [reflexivity|]).
  match goal with |- context [persistInboxLocked ?x] => pose proof (persist_fields x) as (Hi & _ & Ho & _ & _ & Hs & _) end.
  cbn [set_inbox inbox OnIncoming spawned] in Hi, Ho, Hs. cbv zeta. cbn [fst snd].
  rewrite Ho. destruct (OnIncoming s); cbn [start inbox spawned]; rewrite Hi, Hs, <-?(assoc_L app); done.
Qed.

(** A peer that chooses a message identifier starting with [reply-] has its
    message treated as one of this agent's own replies: the first peek consumes
    it although it is an inbound task nobody has answered. *)
Lemma peek_consumes_peer_message :
  let e := {| ie_MessageID := "reply-1"; ie_TaskID := "t"; ie_ContextID := ""; ie_From := "peer"; ie_Text := "hi";
              ie_Kind := ""; ie_State := ""; ie_TS := "" |} in
  let s := (deliverIncoming e (NewStore (FS ∅ (λ _, false) (λ _, None) (λ _, false)) metrics0)).2 in
  inbox s = [e] ∧ inbox (PeekInbox s).2 = [].
Proof. done. Qed.

(** * Witnesses *)

Definition good_disk : fs := FS ∅ (λ _, false) (λ _, None) (λ _, false).
Definition sample_entry (id : string) : InboxEntry :=
  {| ie_MessageID := id; ie_TaskID := "t"; ie_ContextID := "c"; ie_From := "peer"; ie_Text := "hi";
     ie_Kind := ""; ie_State := ""; ie_TS := "" |}.
Definition sample_store : Store := MkStore [sample_entry "m1"] "inbox.json" true ∅ false good_disk metrics0 [].

Lemma sample_store_ok : store_ok sample_store.
Proof. split; [cbn; unfold inboxSoftCap; lia|apply NoDup_singleton|done]. Qed.

Lemma store_reachable_ok_witness :
  ∃ y, star sys_step (Sys (MkStore [] "inbox.json" true ∅ false good_disk metrics0 []) [] []) y ∧
    length (inbox (sy_store y)) = 1%nat ∧ store_ok (sy_store y).
Proof.
  assert (Hs : star sys_step (Sys (MkStore [] "inbox.json" true ∅ false good_disk metrics0 []) [] [])
    (Sys (deliverIncoming (sample_entry "m1") (MkStore [] "inbox.json" true ∅ false good_disk metrics0 [])).2 [] [])).
  { eapply star_step; [apply step_deliver|constructor]. }
  eexists. split_and!; [exact Hs|reflexivity|]. exact (store_reachable_ok _ _ _ _ _ Hs).
Defined.

Definition answered : Task Part :=
  {| t_ID := "t1"; t_ContextID := ""; t_Status := {| s_State := TaskStateCompleted; s_Message := None; s_Timestamp := None |};
     t_Artifacts := [Some {| a_ID := ""; a_Name := "reply"; a_Parts := [Some "yes"] |}]; t_History := []; t_Metadata := [] |}.

Lemma reply_delivered_once_witness :
  ∃ y, star sys_step (Sys (MkStore [] "" false ∅ false good_disk metrics0 []) [] []) y ∧
    countb (reply_hook "t1") (spawned (sy_store y)) = 1%nat ∧ delivered_bound "t1" y.
Proof.
  set (s0 := MkStore [] "" false ∅ false good_disk metrics0 []).
  set (s1 := TrackOutgoing zero_time "t1" "u" "peer" "ok?" s0).
  set (p := {| po_TaskID := "t1"; po_PeerURL := "u"; po_Question := "ok?"; po_PeerName := "peer"; po_SentAt := zero_time |}).
  assert (Hs : star sys_step (Sys s0 [] [])
    (Sys (appendSyntheticReply zero_time p "yes" TaskStateCompleted (claim "t1" s1).2) [] ["t1"])).
  { eapply star_step; [apply (step_track zero_time "t1" "u" "peer" "ok?")|].
    eapply star_step; [apply (step_ingest answered p s1 (claim "t1" s1).2); reflexivity|].
    eapply star_step; [apply (step_reply zero_time p "yes" TaskStateCompleted _ [] [])|]. constructor. }
  eexists. split_and!; [exact Hs|reflexivity|]. exact (reply_delivered_once _ _ _ _ _ "t1" Hs).
Defined.

Lemma inbox_keeps_newest_witness :
  inbox (foldl (λ s e, (deliverIncoming e s).2) sample_store [sample_entry "m2"; sample_entry "m3"]) =
    [sample_entry "m1"; sample_entry "m2"; sample_entry "m3"].
Proof.
  rewrite (inbox_keeps_newest [sample_entry "m2"; sample_entry "m3"] sample_store); [reflexivity| |cbn; unfold inboxSoftCap; lia].
  cbn. repeat constructor; set_solver.
Defined.

Lemma persist_load_witness :
  inbox (LoadInbox (MkStore [] "inbox.json" false ∅ false (disk (persistInboxLocked sample_store)) metrics0 [])) =
    [sample_entry "m1"].
Proof.
  rewrite (persist_load sample_store); [reflexivity|exact sample_store_ok|repeat constructor|done..].
Defined.

Lemma evictExpiredReplies_spec_witness :
  let e := {| ie_MessageID := "reply-t1"; ie_TaskID := "t1"; ie_ContextID := ""; ie_From := "peer"; ie_Text := "hi";
     ie_Kind := ""; ie_State := ""; ie_TS := format_rfc3339 (to_utc zero_time) |} in
  e ∈ inbox (evictExpiredReplies (tadd zero_time minute) (set_inbox [e] sample_store)).2.
Proof.
  cbv zeta. match goal with |- ?e ∈ inbox (evictExpiredReplies ?n ?s).2 =>
    destruct (evictExpiredReplies_spec n s) as (_ & _ & _ & H); apply (H e zero_time) end.
  - apply list_elem_of_singleton. reflexivity.
  - reflexivity.
  - unfold printable. vm_compute. split; split; congruence.
  - reflexivity.
  - vm_compute. congruence.
Defined.
