(* ===== verification/Executor.v ===== *)
(** The task executor (src/internal/agent/executor.go) and the event filter
    around it (src/internal/agent/utc.go). An execution is a state machine that
    yields events to the SDK and blocks until the host answers; executions of
    different tasks and the host's [CompleteTask] interleave. *)
From stdpp Require Import base list sets strings gmap.
From S2P Require Import Prelude GoStrings GoTime Json A2A Metrics GoFS Store.

Open Scope string_scope.
Open Scope Z_scope.
Open Scope list_scope.

Section executor.
Context `{A2A}.

(* src/internal/agent/executor.go (replyArtifactName) *)
Definition replyArtifactName : string := "reply".

(** A waiter is a channel of capacity one: its buffer. *)
(* src/internal/agent/executor.go (Executor) *)
Record Executor := MkExecutor { ex_store : Store; waiters : gmap string (option string) }.

(* src/internal/agent/executor.go (NewExecutor) *)
Definition NewExecutor (s : Store) : Executor := MkExecutor s ∅.

Definition on_store (f : Store → Store) (x : Executor) : Executor := MkExecutor (f (ex_store x)) (waiters x).

(* src/internal/agent/executor.go (registerWaiter) *)
Definition registerWaiter (id : string) (x : Executor) : result goerror Executor :=
  match waiters x !! id with
  | Some _ => Err (sentinel_err errWaiterExists)
  | None => Ok (MkExecutor (ex_store x) (<[id := None]> (waiters x)))
  end.

(* src/internal/agent/executor.go (unregisterWaiter) *)
Definition unregisterWaiter (id : string) (x : Executor) : Executor :=
  MkExecutor (ex_store x) (delete id (waiters x)).


(** the metadata value, when it is a string *)
(* src/internal/agent/executor.go (metadataString) *)
Definition metadataString (meta : list (string * json)) (key : string) : string :=
  match assoc_get key meta with Some (JStr v) => v | _ => "" end.

(** What an iterator yields: [(event, error)]. *)
Inductive yielded :=
| Yield (ev : Event Part)
| YieldErr (e : goerror).

(** Time and identifier drawn by the SDK constructors called in one phase. *)
Record draw := { d_now : gotime; d_uuid : string }.

(** Where an execution stands between two interactions with other goroutines. *)
Inductive phase : Set :=
| PStart
| PDeliver
| PSelect
| PReply (reply : string)
| PEnd.

(* src/internal/agent/executor.go:78-84 (Execute) *)
Definition inbox_entry (ec : ExecutorContext Part) (m : Message Part) : InboxEntry :=
  {| ie_MessageID := m_ID m; ie_TaskID := ec_TaskID ec; ie_ContextID := ec_ContextID ec;
     ie_From := metadataString (m_Metadata m) "from"; ie_Text := messageText m;
     ie_Kind := ""; ie_State := ""; ie_TS := "" |}.

#[export] Instance phase_eq_dec : EqDecision phase.
Proof. solve_decision. Defined.

(** [yield] is the consumer's answer to each item; a phase returns the items it
    yielded and the next phase. [PSelect] blocks ([None]) until a reply is there. *)
(* src/internal/agent/executor.go (Execute) *)
Definition Execute_step (d : draw) (yield : yielded → bool) (ec : ExecutorContext Part) (ph : phase) (x : Executor) :
    option (list yielded * phase * Executor) :=
  match ph with
  | PStart =>
      match ec_Message ec with
      | None => Some ([YieldErr (wrapf ("execute task " +:+ ec_TaskID ec +:+ ": message is required: ")
                        (sentinel_err ErrInvalidParams))], PEnd, x)
      | Some m =>
          let first := match ec_StoredTask ec with None => [Yield (EvTask (NewSubmittedTask (d_now d) ec m))] | Some _ => [] end in
          if negb (forallb yield first) then Some (first, PEnd, x) else
          match registerWaiter (ec_TaskID ec) x with
          | Err e => Some (first ++ [YieldErr (wrapf ("execute task " +:+ ec_TaskID ec +:+ ": ") e)], PEnd, x)
          | Ok x => Some (first, PDeliver, x)
          end
      end
  | PDeliver =>
      match ec_Message ec with
      | None => None
      | Some m =>
          let '(isNew, s) := deliverIncoming (inbox_entry ec m) (ex_store x) in
          let x := MkExecutor s (waiters x) in
          if negb isNew then
            let notice := NewMessageForTask (d_uuid d) MessageRoleAgent ec
              [Some (NewTextPart ("message " +:+ m_ID m +:+ " is already queued for this agent"))] in
            let item := Yield (EvStatus (NewStatusUpdateEvent (d_now d) ec TaskStateRejected (Some notice))) in
            let x := if yield item then on_store (set_meter IncTaskFailed) x else x in
            Some ([item], PEnd, unregisterWaiter (ec_TaskID ec) x)
          else
            let item := Yield (EvStatus (NewStatusUpdateEvent (d_now d) ec TaskStateWorking None)) in
            if yield item then Some ([item], PSelect, x)
            else Some ([item], PEnd, unregisterWaiter (ec_TaskID ec) x)
      end
  | PSelect =>
      match waiters x !! ec_TaskID ec with
      | Some (Some reply) => Some ([], PReply reply, MkExecutor (ex_store x) (<[ec_TaskID ec := None]> (waiters x)))
      | _ => None
      end
  | PReply reply =>
      let a := NewArtifactEvent (d_uuid d) ec [Some (NewTextPart reply)] in
      let artifact := Yield (EvArtifact {| au_TaskID := au_TaskID a; au_ContextID := au_ContextID a;
        au_Artifact := {| a_ID := a_ID (au_Artifact a); a_Name := replyArtifactName; a_Parts := a_Parts (au_Artifact a) |};
        au_LastChunk := true |}) in
      if negb (yield artifact) then Some ([artifact], PEnd, unregisterWaiter (ec_TaskID ec) x) else
      let answer := NewMessageForTask (d_uuid d) MessageRoleAgent ec [Some (NewTextPart reply)] in
      let done := Yield (EvStatus (NewStatusUpdateEvent (d_now d) ec TaskStateCompleted (Some answer))) in
      if negb (yield done) then Some ([artifact; done], PEnd, unregisterWaiter (ec_TaskID ec) x) else
      Some ([artifact; done], PEnd, unregisterWaiter (ec_TaskID ec) (on_store (set_meter IncTaskCompleted) x))
  | PEnd => None
  end.


(** An execution run on its own until it ends or blocks. *)
(* src/internal/agent/executor.go (Execute) *)
Fixpoint Execute (fuel : nat) (d : draw) (yield : yielded → bool) (ec : ExecutorContext Part) (ph : phase) (x : Executor) :
    list yielded * phase * Executor :=
  match fuel with
  | O => ([], ph, x)
  | S fuel =>
      match Execute_step d yield ec ph x with
      | None => ([], ph, x)
      | Some (l, ph, x) => let '(l', ph, x) := Execute fuel d yield ec ph x in (l ++ l', ph, x)
      end
  end.

(* src/internal/agent/executor.go (Cancel) *)
Definition Cancel (d : draw) (yield : yielded → bool) (ec : ExecutorContext Part) (x : Executor) : list yielded * Executor :=
  let item := Yield (EvStatus (NewStatusUpdateEvent (d_now d) ec TaskStateCanceled None)) in
  ([item], if yield item then on_store (set_meter IncTaskFailed) x else x).

(* src/internal/agent/executor.go (CompleteTask) *)
Definition CompleteTask (taskID text : string) (x : Executor) : result goerror unit * Executor :=
  let '(droppedReply, s) := dropTaskEntries taskID (ex_store x) in
  let x := MkExecutor s (waiters x) in
  match waiters x !! taskID with
  | None =>
      if droppedReply then (Ok tt, x)
      else (Err (wrapf ("complete task " +:+ taskID +:+ ": ") (sentinel_err ErrTaskNotFound)), x)
  | Some None => (Ok tt, MkExecutor (ex_store x) (<[taskID := Some text]> (waiters x)))
  | Some (Some _) => (Err (wrapf ("complete task " +:+ taskID +:+ ": ") (sentinel_err ErrReplyPending)), x)
  end.

(** * Timestamps in UTC *)

(* src/internal/agent/utc.go (statusInUTC) *)
Definition statusInUTC (s : TaskStatus Part) : TaskStatus Part :=
  match s_Timestamp s with None => s | Some t => set_status_time s (Some (to_utc t)) end.

(* src/internal/agent/utc.go (eventInUTC) *)
Definition eventInUTC (ev : Event Part) : Event Part :=
  match ev with
  | EvStatus u => EvStatus (set_update_status u (statusInUTC (su_Status u)))
  | EvTask t => EvTask (set_task_status t (statusInUTC (t_Status t)))
  | _ => ev
  end.

(** the items the wrapped iterator lets through, until the consumer stops *)
(* src/internal/agent/utc.go (utcEvents) *)
Fixpoint utcEvents (yield : yielded → bool) (seq : list yielded) : list yielded :=
  match seq with
  | [] => []
  | y :: seq =>
      let y := match y with Yield ev => Yield (eventInUTC ev) | YieldErr e => YieldErr e end in
      y :: if yield y then utcEvents yield seq else []
  end.

(* src/internal/agent/mcp.go (isTerminalEvent) *)
Definition isTerminalEvent (ev : Event Part) : bool :=
  match ev with
  | EvMessage _ => true
  | EvTask t => Terminal (s_State (t_Status t))
  | EvStatus u => Terminal (s_State (su_Status u))
  | EvArtifact _ => false
  end.

(** * Interleaved executions *)



End executor.

(** * Lemmas *)

Lemma option_list_nil {A} (o : option A) : option_list o = [] → o = None.
Proof. by destruct o. Qed.

Section lemmas.
Context `{A2A}.
Implicit Types (x : Executor) (ec : ExecutorContext Part).

Lemma registerWaiter_spec id x : registerWaiter id x =
  match waiters x !! id with
  | Some _ => Err (sentinel_err errWaiterExists)
  | None => Ok (MkExecutor (ex_store x) (<[id := None]> (waiters x)))
  end.
Proof. done. Qed.







End lemmas.

Section interleaving.
Context `{A2A}.




End interleaving.

(** * Properties *)

Section properties.
Context `{A2A}.


(** the outcomes of a completion *)
Lemma complete_cases (id text : string) (x : Executor) :
  let r := CompleteTask id text x in
  ex_store r.2 = (dropTaskEntries id (ex_store x)).2 ∧
  (∀ i, i ≠ id → waiters r.2 !! i = waiters x !! i) ∧
  match waiters x !! id with
  | Some None => r.1 = Ok tt ∧ waiters r.2 !! id = Some (Some text)
  | Some (Some t) => (∃ e, r.1 = Err e ∧ errors_is e ErrReplyPending = true) ∧ waiters r.2 !! id = Some (Some t)
  | None => waiters r.2 !! id = None ∧
      if (dropTaskEntries id (ex_store x)).1 then r.1 = Ok tt
      else ∃ e, r.1 = Err e ∧ errors_is e ErrTaskNotFound = true
  end.
Proof.
  cbv zeta. unfold CompleteTask. destruct (dropTaskEntries id (ex_store x)) as [dr s]. cbn.
  destruct (waiters x !! id) as [[t|]|] eqn:E; cbn.
  - split_and!; try done. eexists. split; [done|]. by rewrite errors_is_wrapf, errors_is_sentinel, bool_decide_true.
  - split_and!; try done; [|by rewrite lookup_insert_eq]. intros. by rewrite lookup_insert_ne.
  - destruct dr; cbn; split_and!; try done.
    eexists. split; [done|]. by rewrite errors_is_wrapf, errors_is_sentinel, bool_decide_true.
Qed.

(** The host's [CompleteTask] on every branch: it drops the task's inbox
    entries first; with a free waiter the reply is handed over, and a second
    completion before the execution takes it is refused; with a reply already
    pending it fails with [ErrReplyPending] and keeps that one; without a waiter it
    succeeds exactly when a reply entry was acknowledged and fails with
    [ErrTaskNotFound] otherwise. Other tasks' waiters are never touched. *)
Theorem CompleteTask_spec (id text : string) (x : Executor) :
  let r := CompleteTask id text x in
  (waiters x !! id = Some None → ∀ text', ∃ e, (CompleteTask id text' r.2).1 = Err e ∧ errors_is e ErrReplyPending = true) ∧
  ex_store r.2 = (dropTaskEntries id (ex_store x)).2 ∧
  (∀ i, i ≠ id → waiters r.2 !! i = waiters x !! i) ∧
  match waiters x !! id with
  | Some None => r.1 = Ok tt ∧ waiters r.2 !! id = Some (Some text)
  | Some (Some t) => (∃ e, r.1 = Err e ∧ errors_is e ErrReplyPending = true) ∧ waiters r.2 !! id = Some (Some t)
  | None => waiters r.2 !! id = None ∧
      if (dropTaskEntries id (ex_store x)).1 then r.1 = Ok tt
      else ∃ e, r.1 = Err e ∧ errors_is e ErrTaskNotFound = true
  end.
Proof.
  cbv zeta. split; [|apply complete_cases]. intros Hw text'.
  pose proof (complete_cases id text x) as (_ & _ & H1). rewrite Hw in H1. destruct H1 as [_ H1].
  pose proof (complete_cases id text' (CompleteTask id text x).2) as (_ & _ & H2). rewrite H1 in H2. apply H2.
Qed.

Definition always (y : yielded) : bool := true.

(** the events of a list of items *)
Definition events (l : list yielded) : list (Event Part) := omap (λ y, match y with Yield ev => Some ev | _ => None end) l.

Lemma step_start d ec m x : ec_Message ec = Some m → ec_StoredTask ec = None → waiters x !! ec_TaskID ec = None →
  Execute_step d always ec PStart x =
    Some ([Yield (EvTask (NewSubmittedTask (d_now d) ec m))], PDeliver,
          MkExecutor (ex_store x) (<[ec_TaskID ec := None]> (waiters x))).
Proof. intros Hm Hs Hw. unfold Execute_step, registerWaiter. by rewrite Hm, Hs, Hw. Qed.

Lemma step_deliver_new d ec m x : ec_Message ec = Some m → m_ID m ∉ message_ids (inbox (ex_store x)) →
  Execute_step d always ec PDeliver x =
    Some ([Yield (EvStatus (NewStatusUpdateEvent (d_now d) ec TaskStateWorking None))], PSelect,
          MkExecutor (deliverIncoming (inbox_entry ec m) (ex_store x)).2 (waiters x)).
Proof.
  intros Hm Hid. unfold Execute_step. rewrite Hm.
  pose proof (deliver_cases (inbox_entry ec m) (ex_store x)) as Hd. rewrite decide_False in Hd by done.
  destruct (deliverIncoming _ _) as [isNew s]. cbn [fst snd] in Hd. by destruct Hd as (-> & _).
Qed.

Lemma step_deliver_dup d yield ec m x : ec_Message ec = Some m → m_ID m ∈ message_ids (inbox (ex_store x)) →
  ∃ v, Execute_step d yield ec PDeliver x =
    Some ([Yield (EvStatus v)], PEnd, unregisterWaiter (ec_TaskID ec)
      (if yield (Yield (EvStatus v)) then on_store (set_meter IncTaskFailed) x else x)) ∧
    ∃ notice, v = NewStatusUpdateEvent (d_now d) ec TaskStateRejected (Some notice).
Proof.
  intros Hm Hid. unfold Execute_step. rewrite Hm.
  pose proof (deliver_cases (inbox_entry ec m) (ex_store x)) as Hd. rewrite decide_True in Hd by done.
  rewrite Hd. cbn [negb]. destruct x as [s w]. by eauto.
Qed.

Lemma step_select d ec t x : waiters x !! ec_TaskID ec = Some (Some t) →
  Execute_step d always ec PSelect x =
    Some ([], PReply t, MkExecutor (ex_store x) (<[ec_TaskID ec := None]> (waiters x))).
Proof. intros Hw. unfold Execute_step. by rewrite Hw. Qed.

Lemma select_blocks d yield ec x : waiters x !! ec_TaskID ec = Some None → Execute_step d yield ec PSelect x = None.
Proof. intros Hw. unfold Execute_step. by rewrite Hw. Qed.

Lemma deliver_completed e s : tasksCompleted (meter (deliverIncoming e s).2) = tasksCompleted (meter s).
Proof.
  pose proof (append_fields e s) as (_ & _ & _ & _ & Hm & _). unfold deliverIncoming.
  destruct (appendInboxLocked e s) as [isNew s1]. cbn in Hm. rewrite <-Hm. destruct isNew; [|done]. cbn.
  pose proof (persist_fields s1) as (_ & _ & _ & _ & _ & _ & H7).
  destruct (OnIncoming _); cbn; by rewrite H7.
Qed.

Lemma drop_completed id s : tasksCompleted (meter (dropTaskEntries id s).2) = tasksCompleted (meter s).
Proof.
  unfold dropTaskEntries. destruct (compact_slice _ _) as [arr kept]. cbn. destruct (existsb _ _); [|done].
  by match goal with |- context [persistInboxLocked ?s] => pose proof (persist_fields s) as (_ & _ & _ & _ & _ & _ & ->) end.
Qed.

(** A conversation from end to end: for a new task with a new message, the
    execution announces the task as submitted and working and blocks; the host's
    reply is then sent as the artifact and as the completing status, which is the
    only terminal event; the artifact's text is the reply, the completion is
    counted once, the waiter is gone and the task has left the inbox. *)
Theorem conversation `{!A2ALaws _} (d d' : draw) (ec : ExecutorContext Part) (m : Message Part) (reply : string) (x : Executor) :
  ec_Message ec = Some m → ec_StoredTask ec = None → waiters x !! ec_TaskID ec = None →
  m_ID m ∉ message_ids (inbox (ex_store x)) → reply ≠ "" →
  let '(l1, ph1, x1) := Execute 4 d always ec PStart x in
  let c := CompleteTask (ec_TaskID ec) reply x1 in
  let '(l2, ph2, x2) := Execute 4 d' always ec PSelect c.2 in
  ph1 = PSelect ∧ c.1 = Ok tt ∧ ph2 = PEnd ∧
  (∃ t u a v, events (l1 ++ l2) = [EvTask t; EvStatus u; EvArtifact a; EvStatus v] ∧
     isTerminalEvent <$> events (l1 ++ l2) = [false; false; false; true] ∧
     s_State (su_Status v) = TaskStateCompleted ∧ foldl write_part "" (a_Parts (au_Artifact a)) = reply) ∧
  waiters x2 = waiters x ∧
  tasksCompleted (meter (ex_store x2)) = add1 (tasksCompleted (meter (ex_store x))) ∧
  Forall (λ e, ie_TaskID e ≠ ec_TaskID ec) (inbox (ex_store x2)).
Proof.
  intros Hm Hst Hw Hid Hr. cbn [Execute]. rewrite (step_start d ec m x) by done.
  set (x1 := MkExecutor _ _). rewrite (step_deliver_new d ec m x1) by done.
  set (s2 := (deliverIncoming _ _).2). cbn [waiters ex_store] in *.
  assert (Hw1 : waiters x1 !! ec_TaskID ec = Some None) by apply lookup_insert_eq.
  rewrite select_blocks by done. cbv beta iota zeta.
  pose proof (complete_cases (ec_TaskID ec) reply (MkExecutor s2 (waiters x1))) as (Hs & Hoth & Hc).
  cbn [waiters ex_store] in Hs, Hoth, Hc. rewrite Hw1 in Hc. destruct Hc as [Hok Hw2].
  set (c := CompleteTask _ _ _) in *. rewrite (step_select d' ec reply) by done.
  unfold Execute_step. cbn [always negb app]. cbv beta iota zeta.
  split_and!; try done.
  - destruct (NewArtifactEvent_Parts (d_uuid d') ec [Some (NewTextPart reply)]) as [_ Hparts].
    eexists _, _, _, _. split; [done|]. cbn.
    destruct (NewStatusUpdateEvent_Status (d_now d) ec TaskStateWorking None) as [_ ->].
    match goal with |- context [NewStatusUpdateEvent (d_now d') ec TaskStateCompleted ?m] =>
      destruct (NewStatusUpdateEvent_Status (d_now d') ec TaskStateCompleted m) as [_ ->] end.
    cbn. rewrite Terminal_Working, Terminal_Completed, NewSubmittedTask_State, Hparts. cbn.
    unfold write_part, partText. rewrite part_Text_new. by destruct (String.eqb_spec reply "").
  - cbn. rewrite delete_insert_eq. apply map_eq. intros i. destruct (decide (i = ec_TaskID ec)) as [->|Hne].
    + by rewrite lookup_delete_eq.
    + rewrite lookup_delete_ne, Hoth by done. cbn. by rewrite lookup_insert_ne.
  - cbn. unfold set_meter. cbn. f_equal. rewrite Hs, drop_completed. apply deliver_completed.
  - cbn. rewrite Hs. destruct (dropTaskEntries_spec (ec_TaskID ec) s2) as (-> & _).
    apply Forall_forall. intros e [He _]%elem_of_filterb. by apply negb_true_iff, String.eqb_neq in He.
Qed.

(** A redelivered message gets nobody to reply: the execution ends at once with
    the rejection as its only terminal event, the failure is counted, and neither
    the inbox nor the waiters change. *)
Theorem duplicate_rejected `{!A2ALaws _} (d : draw) (ec : ExecutorContext Part) (m : Message Part) (x : Executor) :
  ec_Message ec = Some m → ec_StoredTask ec = None → waiters x !! ec_TaskID ec = None →
  m_ID m ∈ message_ids (inbox (ex_store x)) →
  let '(l, ph, x') := Execute 3 d always ec PStart x in
  ph = PEnd ∧ isTerminalEvent <$> events l = [false; true] ∧
  ex_store x' = set_meter IncTaskFailed (ex_store x) ∧ waiters x' = waiters x.
Proof.
  intros Hm Hst Hw Hid. cbn [Execute]. rewrite (step_start d ec m x) by done.
  set (x1 := MkExecutor _ _). destruct (step_deliver_dup d always ec m x1 Hm Hid) as (v & Hv & n & ->).
  rewrite Hv. cbn. split_and!; try done.
  - rewrite NewSubmittedTask_State.
    destruct (NewStatusUpdateEvent_Status (d_now d) ec TaskStateRejected (Some n)) as [_ ->].
    cbn. by rewrite Terminal_Rejected.
  - rewrite delete_insert_eq. by rewrite delete_id.
Qed.

(** the instants an event carries *)
Definition stamp (y : yielded) : option gotime :=
  match y with
  | Yield (EvStatus u) => s_Timestamp (su_Status u)
  | Yield (EvTask t) => s_Timestamp (t_Status t)
  | _ => None
  end.

(** The UTC filter passes the items on in order, stops where the consumer
    stops, denotes the same instants and leaves none in another zone; filtering
    again changes nothing. *)
Theorem utcEvents_spec (yield : yielded → bool) (seq : list yielded) :
  let out := utcEvents yield seq in
  (length out ≤ length seq)%nat ∧ Forall (λ y, yield y = true) (removelast out) ∧
  stamp <$> out = take (length out) (fmap to_utc <$> (stamp <$> seq)) ∧
  Forall (λ y, ∀ t, stamp y = Some t → off t = 0) out ∧
  utcEvents (λ _, true) out = out.
Proof.
  cbv zeta. induction seq as [|y seq IH]; [split_and!; [done|constructor|done|constructor|done]|].
  cbn [utcEvents]. set (y' := match y with Yield ev => Yield (eventInUTC ev) | YieldErr e => YieldErr e end).
  assert (Hst : stamp y' = to_utc <$> stamp y).
  { subst y'. by destruct y as [[[? ? [? ? []]]|m|[? ? [? ? []]]|u]|e]. }
  assert (Hidem : match y' with Yield ev => Yield (eventInUTC ev) | YieldErr e => YieldErr e end = y').
  { subst y'. destruct y as [[[? ? [? ? []]]|m|[? ? [? ? []]]|u]|e]; done. }
  assert (Hoff : ∀ t, stamp y' = Some t → off t = 0).
  { rewrite Hst. intros t Ht. destruct (stamp y); by simplify_eq/=. }
  clearbody y'. destruct IH as (H1 & H2 & H3 & H4 & H5). destruct (yield y') eqn:Ey.
  - csimpl. rewrite Hst, H3. cbn [take]. split_and!; [lia| |done|by constructor|by rewrite Hidem, H5].
    destruct (utcEvents yield seq) eqn:E; [constructor|]. by constructor.
  - csimpl. rewrite Hst, Hidem. split_and!; [lia|constructor|done|by repeat constructor|done].
Qed.

(** A second completion that arrives after the execution took the first reply and
    before it has finished is accepted, and its text is lost. *)
Lemma late_completion_lost (d d' : draw) (ec : ExecutorContext Part) (late t : string) (x : Executor) :
  waiters x !! ec_TaskID ec = Some (Some t) →
  ∃ x1 l x2, Execute_step d always ec PSelect x = Some ([], PReply t, x1) ∧
    (CompleteTask (ec_TaskID ec) late x1).1 = Ok tt ∧
    Execute_step d' always ec (PReply t) (CompleteTask (ec_TaskID ec) late x1).2 = Some (l, PEnd, x2) ∧
    waiters x2 !! ec_TaskID ec = None.
Proof.
  intros Hw. rewrite (step_select d ec t) by done. eexists _, _, _. split; [done|].
  match goal with |- context [CompleteTask ?i ?t ?x] =>
    pose proof (complete_cases i t x) as (_ & _ & Hc) end.
  cbn in Hc. rewrite lookup_insert_eq in Hc. destruct Hc as [-> _]. split; [done|].
  split; [done|]. cbn. apply lookup_delete_eq.
Qed.
End properties.

(** * Witnesses *)

Definition ask (id : string) : Message Part :=
  {| m_ID := id; m_ContextID := ""; m_TaskID := ""; m_Role := ""; m_Parts := [Some "hello"];
     m_Metadata := [("from", JStr "peer")] |}.
Definition ask_ctx (id : string) : ExecutorContext Part :=
  {| ec_TaskID := "t1"; ec_ContextID := "c1"; ec_Message := Some (ask id); ec_StoredTask := None |}.
Definition draw0 : draw := {| d_now := zero_time; d_uuid := "u" |}.
Definition idle : Executor := NewExecutor (NewStore good_disk metrics0).
Definition busy : Executor := on_store (λ s, (deliverIncoming (inbox_entry (ask_ctx "m1") (ask "m1")) s).2) idle.


Lemma conversation_witness :
  let '(l1, ph1, x1) := Execute 4 draw0 always (ask_ctx "m1") PStart idle in
  let c := CompleteTask "t1" "fine" x1 in
  let '(l2, ph2, x2) := Execute 4 draw0 always (ask_ctx "m1") PSelect c.2 in
  ph2 = PEnd ∧ waiters x2 = waiters idle.
Proof.
  assert (Hc := conversation draw0 draw0 (ask_ctx "m1") (ask "m1") "fine" idle eq_refl eq_refl eq_refl).
  assert (Hid : m_ID (ask "m1") ∉ message_ids (inbox (ex_store idle))) by (apply not_elem_of_nil).
  assert (Hr : "fine" ≠ "") by discriminate. specialize (Hc Hid Hr). clear Hid Hr.
  destruct (Execute 4 draw0 always (ask_ctx "m1") PStart idle) as [[l1 ph1] x1]. cbv zeta in *.
  change (ec_TaskID (ask_ctx "m1")) with "t1" in Hc.
  destruct (Execute 4 draw0 always (ask_ctx "m1") PSelect _) as [[l2 ph2] x2].
  destruct Hc as (_ & _ & H1 & _ & H2 & _). exact (conj H1 H2).
Defined.

Lemma duplicate_rejected_witness :
  let '(l, ph, x') := Execute 3 draw0 always (ask_ctx "m1") PStart busy in
  ph = PEnd ∧ isTerminalEvent <$> events l = [false; true] ∧
  ex_store x' = set_meter IncTaskFailed (ex_store busy) ∧ waiters x' = waiters busy.
Proof.
  apply (duplicate_rejected draw0 (ask_ctx "m1") (ask "m1") busy); [reflexivity..|].
  apply list_elem_of_singleton. reflexivity.
Defined.

Lemma CompleteTask_spec_witness : waiters (CompleteTask "t2" "x" idle).2 !! "t1" = None.
Proof. rewrite (proj1 (proj2 (proj2 (CompleteTask_spec "t2" "x" idle))) "t1"); [reflexivity|discriminate]. Defined.
