(* ===== verification/TaskStore.v ===== *)
(** The in-memory task store (src/internal/agent/taskstore.go): optimistic
    concurrency, eviction of finished tasks, paged listing. *)
From Stdlib Require Import Ascii Sorted.
From stdpp Require Import base list sets strings gmap.
From S2P Require Import Prelude GoStrings GoTime Json A2A Metrics GoFS Store Executor GoSort Base64.

Open Scope string_scope.
Open Scope Z_scope.
Open Scope list_scope.

Section taskstore.
Context `{A2A}.

(* src/internal/agent/taskstore.go (terminalTaskTTL) *)
Definition terminalTaskTTL : Z := 30 * minute.
(* src/internal/agent/taskstore.go (defaultListPageSize) *)
Definition defaultListPageSize : Z := 50.
(* src/internal/agent/taskstore.go (maxListPageSize) *)
Definition maxListPageSize : Z := 100.
(* src/internal/agent/taskstore.go (defaultListHistoryLength) *)
Definition defaultListHistoryLength : Z := 100.
(* src/internal/agent/taskstore.go (pageTokenSeparator) *)
Definition pageTokenSeparator : char := "_".

(* src/internal/agent/taskstore.go (ttlEntry) *)
Record ttlEntry := TtlEntry { te_task : Task Part; te_version : Z; te_lastUpdated : gotime }.

(** [pushDeleted] lists the tasks whose push configs were asked to be deleted,
    when a config store is attached. *)
(* src/internal/agent/taskstore.go (TTLStore) *)
Record TTLStore := MkTTL { tasks : gmap string ttlEntry; has_push : bool; pushDeleted : list string }.

(* src/internal/agent/taskstore.go (NewTTLStore) *)
Definition NewTTLStore (push : bool) : TTLStore := MkTTL ∅ push [].

Definition set_tasks (m : gmap string ttlEntry) (s : TTLStore) : TTLStore := MkTTL m (has_push s) (pushDeleted s).

(* src/internal/agent/taskstore.go (cloneTask) *)
Definition cloneTask (t : Task Part) : result goerror (Task Part) :=
  match marshal_task t with
  | None => Err (errors_new ("encode task " +:+ t_ID t))
  | Some b =>
      match unmarshal_task b with
      | None => Err (errors_new ("decode task " +:+ t_ID t))
      | Some cp => Ok cp
      end
  end.

(* src/internal/agent/taskstore.go (Create) *)
Definition Create (now : gotime) (task : option (Task Part)) (s : TTLStore) : result goerror Z * TTLStore :=
  match task with
  | None => (Err (sentinel_err errNilTask), s)
  | Some task =>
      match cloneTask task with
      | Err e => (Err e, s)
      | Ok cp =>
          let cp := set_task_status cp (statusInUTC (t_Status cp)) in
          match tasks s !! t_ID task with
          | Some _ => (Err (sentinel_err ErrTaskAlreadyExists), s)
          | None => (Ok 1, set_tasks (<[t_ID task := TtlEntry cp 1 now]> (tasks s)) s)
          end
      end
  end.

(** [taskstore.UpdateRequest] *)
Record UpdateRequest := { u_Task : option (Task Part); u_PrevVersion : Z }.

(* src/internal/agent/taskstore.go (Update) *)
Definition Update (now : gotime) (req : option UpdateRequest) (s : TTLStore) : result goerror Z * TTLStore :=
  match req with
  | None => (Err (sentinel_err errNilTask), s)
  | Some req =>
      match u_Task req with
      | None => (Err (sentinel_err errNilTask), s)
      | Some task =>
          match cloneTask task with
          | Err e => (Err e, s)
          | Ok cp =>
              let cp := set_task_status cp (statusInUTC (t_Status cp)) in
              match tasks s !! t_ID task with
              | None => (Err (sentinel_err ErrTaskNotFound), s)
              | Some stored =>
                  if negb (u_PrevVersion req =? TaskVersionMissing) && negb (te_version stored =? u_PrevVersion req)
                  then (Err (sentinel_err ErrConcurrentModification), s)
                  else
                    let version := wrap64 (te_version stored + 1) in
                    (Ok version, set_tasks (<[t_ID task := TtlEntry cp version now]> (tasks s)) s)
              end
          end
      end
  end.

(* src/internal/agent/taskstore.go (TTLStore.Get) *)
Definition Get (id : string) (s : TTLStore) : result goerror (Task Part * Z) :=
  match tasks s !! id with
  | None => Err (sentinel_err ErrTaskNotFound)
  | Some stored => cp ← cloneTask (te_task stored); Ok (cp, te_version stored)
  end.

(** [a2a.ListTasksRequest] and [a2a.ListTasksResponse] *)
Record ListTasksRequest := { lr_ContextID : string; lr_Status : string; lr_StatusTimestampAfter : option gotime;
  lr_PageSize : Z; lr_PageToken : string; lr_HistoryLength : option Z; lr_IncludeArtifacts : bool }.
Record ListTasksResponse := { lp_Tasks : list (Task Part); lp_TotalSize : Z; lp_PageSize : Z; lp_NextPageToken : string }.

Definition empty_request : ListTasksRequest :=
  {| lr_ContextID := ""; lr_Status := TaskStateUnspecified; lr_StatusTimestampAfter := None; lr_PageSize := 0;
     lr_PageToken := ""; lr_HistoryLength := None; lr_IncludeArtifacts := false |}.

(* src/internal/agent/taskstore.go (matchesListFilter) *)
Definition matchesListFilter (e : ttlEntry) (req : ListTasksRequest) : bool :=
  if negb (String.eqb (lr_ContextID req) "") && negb (String.eqb (t_ContextID (te_task e)) (lr_ContextID req)) then false
  else if negb (String.eqb (lr_Status req) TaskStateUnspecified) &&
          negb (String.eqb (s_State (t_Status (te_task e))) (lr_Status req)) then false
  else match lr_StatusTimestampAfter req, s_Timestamp (t_Status (te_task e)) with
       | Some after, Some ts => negb (before ts after)
       | _, _ => true
       end.

(* src/internal/agent/taskstore.go (encodePageToken) *)
Definition encodePageToken (updated : gotime) (id : string) : string :=
  b64_encode (format_rfc3339_nano updated +:+ String pageTokenSeparator id).

(* src/internal/agent/taskstore.go (decodePageToken) *)
Definition decodePageToken (token : string) : result goerror (gotime * string) :=
  match b64_decode token with
  | None => Err (wrapf "page token: " (sentinel_err ErrInvalidParams))
  | Some raw =>
      match cut_char pageTokenSeparator raw with
      | None => Err (wrapf "page token: " (sentinel_err ErrInvalidParams))
      | Some (ts, id) =>
          if String.eqb id "" then Err (wrapf "page token: " (sentinel_err ErrInvalidParams)) else
          match parse_rfc3339 ts with
          | None => Err (wrapf "page token time: " (sentinel_err ErrInvalidParams))
          | Some updated => Ok (updated, id)
          end
      end
  end.

(** newest first, the larger identifier first among equals *)
(* src/internal/agent/taskstore.go:172-177 (List) *)
Definition entry_cmp (a b : ttlEntry) : comparison :=
  match tcompare (te_lastUpdated b) (te_lastUpdated a) with
  | Eq => str_compare (t_ID (te_task b)) (t_ID (te_task a))
  | c => c
  end.

(** the entry comes after the cursor *)
(* src/internal/agent/taskstore.go:185-190 (List) *)
Definition after_cursor (t : gotime) (id : string) (e : ttlEntry) : bool :=
  match tcompare (te_lastUpdated e) t with
  | Eq => str_lt (t_ID (te_task e)) id
  | Lt => true
  | Gt => false
  end.

(** a task as it is listed *)
(* src/internal/agent/taskstore.go:206-220 (List) *)
Definition listed (req : ListTasksRequest) (e : ttlEntry) : result goerror (Task Part) :=
  let historyLength := default defaultListHistoryLength (lr_HistoryLength req) in
  cp ← cloneTask (te_task e);
  let h := t_History cp in
  Ok {| t_ID := t_ID cp; t_ContextID := t_ContextID cp; t_Status := t_Status cp;
        t_Artifacts := if lr_IncludeArtifacts req then t_Artifacts cp else [];
        t_History := if historyLength <=? 0 then []
                     else if historyLength <? Z.of_nat (length h) then drop (length h - Z.to_nat historyLength) h else h;
        t_Metadata := t_Metadata cp |}.

Fixpoint listed_all (req : ListTasksRequest) (l : list ttlEntry) : result goerror (list (Task Part)) :=
  match l with
  | [] => Ok []
  | e :: l => t ← listed req e; ts ← listed_all req l; Ok (t :: ts)
  end.

(** the entries a request selects, in listing order *)
(* src/internal/agent/taskstore.go:163-177 (List) *)
Definition selection (req : ListTasksRequest) (s : TTLStore) : list ttlEntry :=
  isort entry_cmp (filterb (λ e, matchesListFilter e req) (map_to_list (tasks s)).*2).

(* src/internal/agent/taskstore.go (TTLStore.List) *)
Definition List (req : option ListTasksRequest) (s : TTLStore) : result goerror ListTasksResponse :=
  let req := default empty_request req in
  let size := lr_PageSize req in
  if negb (size =? 0) && ((size <? 1) || (maxListPageSize <? size)) then
    Err (wrapf ("page size must be between 1 and " +:+ itoa maxListPageSize +:+ " inclusive, got " +:+ itoa size +:+ ": ")
          (sentinel_err ErrInvalidRequest))
  else
    let pageSize := Z.to_nat (if size =? 0 then defaultListPageSize else size) in
    let filtered := selection req s in
    page ← (if String.eqb (lr_PageToken req) "" then Ok filtered else
            '(t, id) ← decodePageToken (lr_PageToken req);
            Ok (drop (search (length filtered) (λ i, match filtered !! i with Some e => after_cursor t id e | None => true end))
                     filtered));
    let next := if (pageSize <? length page)%nat then
                  match page !! (pageSize - 1)%nat with
                  | Some last => encodePageToken (te_lastUpdated last) (t_ID (te_task last))
                  | None => ""
                  end
                else "" in
    let page := if (pageSize <? length page)%nat then take pageSize page else page in
    ts ← listed_all req page;
    Ok {| lp_Tasks := ts; lp_TotalSize := Z.of_nat (length filtered); lp_PageSize := Z.of_nat (length ts);
          lp_NextPageToken := next |}.

(** finished and not updated since the cutoff *)
(* src/internal/agent/taskstore.go:238-238 (EvictTerminal) *)
Definition evictable (cutoff : gotime) (e : ttlEntry) : bool :=
  Terminal (s_State (t_Status (te_task e))) && before (te_lastUpdated e) cutoff.

(* src/internal/agent/taskstore.go (EvictTerminal) *)
Definition EvictTerminal (now : gotime) (s : TTLStore) : Z * TTLStore :=
  let cutoff := tadd now (- terminalTaskTTL) in
  let evicted := (filterb (λ x, evictable cutoff x.2) (map_to_list (tasks s))).*1 in
  (Z.of_nat (length evicted),
   MkTTL (filter (λ x, evictable cutoff x.2 = false) (tasks s)) (has_push s)
     (if has_push s then pushDeleted s ++ evicted else pushDeleted s)).

(** one round of the janitor's loop *)
(* src/internal/agent/taskstore.go (TTLStore.janitor) *)
Definition ttl_janitor (now : gotime) (s : TTLStore) : TTLStore := (EvictTerminal now s).2.
End taskstore.

(** * Lemmas *)

(** ** The listing order *)

(** the order on wall clocks, which the cursor uses *)
Definition wall_cmp `{A2A} (a b : ttlEntry) : comparison :=
  match wall (te_lastUpdated b) ?= wall (te_lastUpdated a) with
  | Eq => str_compare (t_ID (te_task b)) (t_ID (te_task a))
  | c => c
  end.

Lemma str_compare_trans_le s t u : str_compare s t ≠ Gt → str_compare t u ≠ Gt → str_compare s u ≠ Gt.
Proof.
  intros H1 H2. destruct (str_compare s t) eqn:E1; [|destruct (str_compare t u) eqn:E2|done]; [|..|done].
  - apply str_compare_eq in E1 as ->. done.
  - apply str_compare_eq in E2 as <-. by rewrite E1.
  - by rewrite (str_compare_trans _ _ _ E1 E2).
Qed.

Section order.
Context `{A2A}.

Lemma wall_cmp_anti a b : wall_cmp b a = CompOpp (wall_cmp a b).
Proof.
  unfold wall_cmp. rewrite (Z.compare_antisym (wall (te_lastUpdated b))).
  destruct (wall (te_lastUpdated b) ?= _); cbn; [apply str_compare_antisym|done..].
Qed.

Lemma wall_cmp_trans a b c : cmp_le wall_cmp a b → cmp_le wall_cmp b c → cmp_le wall_cmp a c.
Proof.
  unfold cmp_le, wall_cmp.
  destruct (Z.compare_spec (wall (te_lastUpdated b)) (wall (te_lastUpdated a)));
  destruct (Z.compare_spec (wall (te_lastUpdated c)) (wall (te_lastUpdated b)));
  destruct (Z.compare_spec (wall (te_lastUpdated c)) (wall (te_lastUpdated a))); try done; try lia.
  intros. eapply str_compare_trans_le; eauto.
Qed.

Lemma wall_cmp_eq a b : wall_cmp a b = Eq → t_ID (te_task a) = t_ID (te_task b).
Proof. unfold wall_cmp. case_match; [|done..]. by intros ->%str_compare_eq. Qed.

(** a cursor made from [x] selects what comes strictly after [x] *)
Lemma after_cursor_spec x e o : after_cursor (GoTime (wall (te_lastUpdated x)) None o) (t_ID (te_task x)) e =
  match wall_cmp x e with Lt => true | _ => false end.
Proof.
  unfold after_cursor, wall_cmp, tcompare, str_lt. destruct (mono _); cbn;
    by destruct (wall (te_lastUpdated e) ?= _).
Qed.

Lemma after_cursor_position (l : list ttlEntry) i x o :
  NoDup ((λ e, t_ID (te_task e)) <$> l) → StronglySorted (cmp_le wall_cmp) l → l !! i = Some x →
  search (length l) (λ j, match l !! j with
    | Some e => after_cursor (GoTime (wall (te_lastUpdated x)) None o) (t_ID (te_task x)) e | None => true end) = S i.
Proof.
  intros Hn Hs Hi. pose proof (lookup_lt_Some _ _ _ Hi).
  assert (Hle : ∀ j k a b, (j ≤ k)%nat → l !! j = Some a → l !! k = Some b → cmp_le wall_cmp a b).
  { clear -Hs H. induction Hs as [|y l Hl IH Hy]; intros [|j] [|k] a b Hjk Ha Hb; cbn in *; simplify_eq; try lia.
    - unfold cmp_le, wall_cmp. by rewrite Z.compare_refl, str_compare_refl.
    - rewrite Forall_forall in Hy. apply Hy. by eapply list_elem_of_lookup_2.
    - eapply IH; [|done..]. lia. }
  apply search_spec; [lia| |].
  - intros j Hj. destruct (l !! j) as [e|] eqn:Ej; [|apply lookup_ge_None_1 in Ej; lia].
    rewrite after_cursor_spec. assert (Hc : cmp_le wall_cmp e x) by (eapply (Hle j i); [lia|done..]).
    unfold cmp_le in Hc. rewrite wall_cmp_anti in Hc. by destruct (wall_cmp x e).
  - intros j Hj. destruct (l !! j) as [e|] eqn:Ej; [|done].
    rewrite after_cursor_spec. assert (Hc : cmp_le wall_cmp x e) by (eapply (Hle i j); [lia|done..]).
    unfold cmp_le in Hc. destruct (wall_cmp x e) eqn:Ec; [|done..]. exfalso. apply wall_cmp_eq in Ec.
    assert (i = j); [|lia]. eapply NoDup_lookup; [exact Hn| |].
    + rewrite list_lookup_fmap, Hi. cbn. done.
    + rewrite list_lookup_fmap, Ej. cbn. by rewrite Ec.
Qed.

(** ** Well-formed stores *)

(** entries are filed under their task's identifier *)
Definition keyed (s : TTLStore) : Prop := ∀ id e, tasks s !! id = Some e → t_ID (te_task e) = id.

(** What paging relies on: identifiers are not empty, update times have a text,
    and within the store the monotonic and the wall clock order them alike. *)
Record listable (s : TTLStore) : Prop := {
  l_keyed : keyed s;
  l_id : ∀ id e, tasks s !! id = Some e → id ≠ "";
  l_time : ∀ id e, tasks s !! id = Some e → printable (te_lastUpdated e);
  l_steady : ∀ i j a b, tasks s !! i = Some a → tasks s !! j = Some b →
    tcompare (te_lastUpdated a) (te_lastUpdated b) = (wall (te_lastUpdated a) ?= wall (te_lastUpdated b)) }.

Lemma elem_of_selection e req s : e ∈ selection req s ↔
  matchesListFilter e req = true ∧ ∃ id, tasks s !! id = Some e.
Proof.
  unfold selection. rewrite isort_perm, elem_of_filterb, list_elem_of_fmap. split.
  - intros (Hm & [id e'] & -> & Hin%elem_of_map_to_list). eauto.
  - intros (Hm & id & Hin). split; [done|]. exists (id, e). split; [done|]. by apply elem_of_map_to_list.
Qed.

Lemma selection_sorted req s : listable s →
  StronglySorted (cmp_le wall_cmp) (selection req s) ∧ NoDup ((λ e, t_ID (te_task e)) <$> selection req s).
Proof.
  intros Hl. split.
  - unfold selection. rewrite (isort_ext _ wall_cmp); [apply isort_sorted; [apply wall_cmp_anti|apply wall_cmp_trans]|].
    intros x y Hx Hy. apply elem_of_filterb in Hx as [_ ([i x'] & -> & Hx%elem_of_map_to_list)%list_elem_of_fmap].
    apply elem_of_filterb in Hy as [_ ([j y'] & -> & Hy%elem_of_map_to_list)%list_elem_of_fmap].
    cbn. unfold entry_cmp, wall_cmp. by rewrite (l_steady _ Hl j i y' x' Hy Hx).
  - unfold selection. rewrite isort_perm.
    eapply sublist_NoDup; [|apply fmap_sublist, filterb_sublist].
    assert (Hk : (λ e, t_ID (te_task e)) <$> (map_to_list (tasks s)).*2 = (map_to_list (tasks s)).*1).
    { rewrite <-list_fmap_compose. apply list_fmap_ext. intros k [i e] Hk. cbn.
      apply (l_keyed _ Hl), elem_of_map_to_list. by eapply list_elem_of_lookup_2. }
    rewrite Hk. apply NoDup_fst_map_to_list.
Qed.

(** ** Page tokens *)

Lemma decode_encode_token t id : printable t → id ≠ "" →
  decodePageToken (encodePageToken t id) = Ok (GoTime (wall t) None (off t), id).
Proof.
  intros Ht Hid. unfold decodePageToken, encodePageToken. rewrite b64_decode_encode.
  rewrite cut_char_app by (by apply format_rfc3339_nano_no).
  destruct (String.eqb_spec id ""); [done|]. by rewrite parse_format_rfc3339_nano.
Qed.

Lemma encodePageToken_nonempty t id : encodePageToken t id ≠ "".
Proof.
  unfold encodePageToken. intros He. assert (Hd : b64_decode (b64_encode (format_rfc3339_nano t +:+ String pageTokenSeparator id)) = Some "") by (by rewrite He).
  rewrite b64_decode_encode in Hd. injection Hd as Hd. apply (f_equal slen) in Hd.
  rewrite slen_app in Hd. unfold slen in Hd. cbn in Hd. lia.
Qed.
End order.

(** * Properties *)

(** ** Paging *)

Section paging.
Context `{A2A}.

Definition with_token (tok : string) (req : ListTasksRequest) : ListTasksRequest :=
  {| lr_ContextID := lr_ContextID req; lr_Status := lr_Status req; lr_StatusTimestampAfter := lr_StatusTimestampAfter req;
     lr_PageSize := lr_PageSize req; lr_PageToken := tok; lr_HistoryLength := lr_HistoryLength req;
     lr_IncludeArtifacts := lr_IncludeArtifacts req |}.

Definition valid_size (n : Z) : bool := (n =? 0) || ((1 <=? n) && (n <=? maxListPageSize)).
Definition page_of (n : Z) : nat := Z.to_nat (if n =? 0 then defaultListPageSize else n).

Lemma valid_size_guard n : valid_size n = true → negb (n =? 0) && ((n <? 1) || (maxListPageSize <? n)) = false.
Proof. unfold valid_size, maxListPageSize. lia. Qed.
Lemma page_of_pos n : valid_size n = true → (0 < page_of n)%nat.
Proof. unfold valid_size, page_of, defaultListPageSize, maxListPageSize. destruct (n =? 0) eqn:E; lia. Qed.

Lemma selection_token tok req s : selection (with_token tok req) s = selection req s.
Proof. done. Qed.
Lemma listed_all_token tok req l : listed_all (with_token tok req) l = listed_all req l.
Proof. induction l as [|e l IH]; [done|]. cbn [listed_all]. by rewrite IH. Qed.

(** what one call answers when [page] is what follows the cursor *)
Definition answer_page (req : ListTasksRequest) (total : nat) (page : list ttlEntry) : result goerror ListTasksResponse :=
  let k := page_of (lr_PageSize req) in
  ts ← listed_all req (take k page);
  Ok {| lp_Tasks := ts; lp_TotalSize := Z.of_nat total; lp_PageSize := Z.of_nat (length ts);
        lp_NextPageToken := if (k <? length page)%nat then
          match page !! (k - 1)%nat with Some e => encodePageToken (te_lastUpdated e) (t_ID (te_task e)) | None => "" end
          else "" |}.

Lemma List_start req s : valid_size (lr_PageSize req) = true → lr_PageToken req = "" →
  List (Some req) s = answer_page req (length (selection req s)) (selection req s).
Proof.
  intros Hv Ht. unfold List. cbn [from_option Datatypes.id]. cbv zeta.
  rewrite valid_size_guard by done.
  rewrite Ht. cbn [String.eqb mbind result_bind]. unfold answer_page, page_of. cbv zeta.
  destruct (Nat.ltb_spec (Z.to_nat (if lr_PageSize req =? 0 then defaultListPageSize else lr_PageSize req)) (length (selection req s)));
    [done|]. rewrite take_ge by done. done.
Qed.

Lemma List_continue req s i x : listable s → valid_size (lr_PageSize req) = true → selection req s !! i = Some x →
  List (Some (with_token (encodePageToken (te_lastUpdated x) (t_ID (te_task x))) req)) s =
    answer_page req (length (selection req s)) (drop (S i) (selection req s)).
Proof.
  intros Hl Hv Hx. destruct (selection_sorted req s Hl) as [Hs Hn].
  pose proof (list_elem_of_lookup_2 _ _ _ Hx) as Hin. apply elem_of_selection in Hin as (_ & id & Hid).
  unfold List. cbn [from_option Datatypes.id with_token lr_PageSize lr_PageToken]. cbv zeta.
  rewrite valid_size_guard by done.
  destruct (String.eqb_spec (encodePageToken (te_lastUpdated x) (t_ID (te_task x))) "") as [He|_];
    [by apply encodePageToken_nonempty in He|].
  rewrite decode_encode_token; [|by eapply l_time|rewrite (l_keyed _ Hl _ _ Hid); by eapply l_id].
  cbn [mbind result_bind]. rewrite !selection_token, (after_cursor_position _ i x) by done.
  unfold answer_page, page_of. cbv zeta.
  destruct (Nat.ltb_spec (Z.to_nat (if lr_PageSize req =? 0 then defaultListPageSize else lr_PageSize req)) (length (drop (S i) (selection req s)))).
  - by rewrite listed_all_token.
  - rewrite listed_all_token, take_ge by done. done.
Qed.

(** a client that follows the page tokens to the end *)
Fixpoint list_all (fuel : nat) (req : ListTasksRequest) (s : TTLStore) : result goerror (list (Task Part)) :=
  match fuel with
  | O => Err (errors_new "out of fuel")
  | S fuel =>
      r ← List (Some req) s;
      if String.eqb (lp_NextPageToken r) "" then Ok (lp_Tasks r)
      else rest ← list_all fuel (with_token (lp_NextPageToken r) req) s; Ok (lp_Tasks r ++ rest)
  end.

Lemma listed_all_app req l k ts : listed_all req (l ++ k) = Ok ts →
  ∃ t1 t2, listed_all req l = Ok t1 ∧ listed_all req k = Ok t2 ∧ ts = t1 ++ t2.
Proof.
  revert ts. induction l as [|e l IH]; intros ts Hok; [by exists [], ts|]. cbn [app listed_all] in Hok |- *.
  destruct (listed req e) as [t|] eqn:Et; [|done]. cbn [mbind result_bind] in Hok |- *.
  destruct (listed_all req (l ++ k)) as [ts'|] eqn:Ets; [|done]. cbn in Hok. simplify_eq.
  destruct (IH ts' eq_refl) as (t1 & t2 & -> & -> & ->). cbn. by exists (t :: t1), t2.
Qed.

Lemma list_all_from n : ∀ i tok req s ts, (length (selection req s) ≤ i + n)%nat →
  listable s → valid_size (lr_PageSize req) = true →
  List (Some (with_token tok req)) s = answer_page req (length (selection req s)) (drop i (selection req s)) →
  listed_all req (drop i (selection req s)) = Ok ts →
  list_all (S n) (with_token tok req) s = Ok ts.
Proof.
  induction n as [n IH] using lt_wf_ind. intros i tok req s ts Hn Hl Hv Hcall Hts.
  cbn [list_all]. rewrite Hcall. unfold answer_page. set (k := page_of _). set (p := drop i _) in *.
  pose proof (page_of_pos _ Hv) as Hk. fold k in Hk.
  rewrite <-(take_drop k p) in Hts. destruct (listed_all_app _ _ _ _ Hts) as (t1 & t2 & H1 & H2 & ->).
  rewrite H1. cbn [mbind result_bind lp_NextPageToken lp_Tasks].
  destruct (Nat.ltb_spec k (length p)) as [Hlt|Hge].
  - destruct (p !! (k - 1)%nat) as [x|] eqn:Ex; [|apply lookup_ge_None_1 in Ex; lia].
    destruct (String.eqb_spec (encodePageToken (te_lastUpdated x) (t_ID (te_task x))) "") as [He|_];
      [by apply encodePageToken_nonempty in He|].
    subst p. rewrite lookup_drop in Ex. rewrite length_drop in Hlt. rewrite drop_drop in H2.
    destruct n as [|n]; [lia|].
    change (with_token ?a (with_token tok req)) with (with_token a req).
    rewrite (IH n ltac:(lia) (i + k)%nat _ req s t2); [done|lia|done|done| |done].
    replace (i + k)%nat with (S (i + (k - 1)))%nat by lia. by apply List_continue.
  - rewrite drop_ge in H2 by lia. cbn in H2. simplify_eq. by rewrite app_nil_r.
Qed.

(** C10: Paging is complete and terminates: a client that follows the page tokens
    gets, whatever the page size, every selected task exactly once and in listing
    order, after at most one call per task and one more. *)
Theorem List_pages_complete (req : ListTasksRequest) (s : TTLStore) (ts : list (Task Part)) :
  listable s → valid_size (lr_PageSize req) = true → lr_PageToken req = "" →
  listed_all req (selection req s) = Ok ts →
  list_all (S (length (selection req s))) req s = Ok ts.
Proof.
  intros Hl Hv Ht Hts. replace req with (with_token "" req) at 2 by (by destruct req; cbn in Ht; subst).
  apply (list_all_from _ 0); [lia|done|done| |by rewrite drop_0].
  rewrite drop_0. rewrite List_start by done. by unfold answer_page; rewrite listed_all_token.
Qed.

(** A page token comes back as the instant and the identifier it was made of,
    for every instant the format can print and every non-empty identifier. *)
Theorem page_token_roundtrip (t : gotime) (id : string) :
  printable t → id ≠ "" → decodePageToken (encodePageToken t id) = Ok (GoTime (wall t) None (off t), id).
Proof. apply decode_encode_token. Qed.

(** The listing holds exactly the tasks the request selects, newest first, the
    larger identifier first among equal times, and any other correct sort of them
    would be the same list. *)
Theorem selection_spec (req : ListTasksRequest) (s : TTLStore) (l : list ttlEntry) :
  listable s →
  (∀ e, e ∈ selection req s ↔ matchesListFilter e req = true ∧ ∃ id, tasks s !! id = Some e) ∧
  StronglySorted (cmp_le wall_cmp) (selection req s) ∧
  (l ≡ₚ selection req s → StronglySorted (cmp_le wall_cmp) l → l = selection req s).
Proof.
  intros Hl. destruct (selection_sorted req s Hl) as [Hs Hn].
  split_and!; [intros e; apply elem_of_selection|done|]. intros Hp Hls.
  apply (sorted_unique wall_cmp); [apply wall_cmp_anti| |done..].
  intros a b Ha Hb Heq%wall_cmp_eq. rewrite Hp in Ha, Hb.
  apply elem_of_selection in Ha as (_ & i & Ha). apply elem_of_selection in Hb as (_ & j & Hb).
  rewrite (l_keyed _ Hl _ _ Ha), (l_keyed _ Hl _ _ Hb) in Heq. subst. by simplify_eq.
Qed.
End paging.

(** ** Optimistic concurrency *)

Section concurrency.
Context `{A2A}.

Inductive ttl_op :=
| OpCreate (now : gotime) (t : option (Task Part))
| OpUpdate (now : gotime) (r : option UpdateRequest)
| OpEvict (now : gotime).

Definition apply_op (o : ttl_op) (s : TTLStore) : TTLStore :=
  match o with
  | OpCreate now t => (Create now t s).2
  | OpUpdate now r => (Update now r s).2
  | OpEvict now => (EvictTerminal now s).2
  end.
Definition run_ops (ops : list ttl_op) (s : TTLStore) : TTLStore := foldl (λ s o, apply_op o s) s ops.

(** a write leaves an entry alone or raises its version by one *)
Lemma write_version o s id e : (∀ now, o ≠ OpEvict now) → tasks s !! id = Some e →
  ∃ e', tasks (apply_op o s) !! id = Some e' ∧ (e' = e ∨ te_version e' = wrap64 (te_version e + 1)).
Proof.
  intros Ho He. destruct o as [now [t|]|now [r|]|now]; [..|by destruct (Ho now)]; cbn; eauto.
  - destruct (cloneTask t); cbn; eauto. destruct (tasks s !! t_ID t) eqn:E; cbn; eauto.
    exists e. split; [|by left]. rewrite lookup_insert_ne; [done|]. intros Hi. by rewrite Hi, He in E.
  - destruct (u_Task r) as [t|]; cbn; eauto. destruct (cloneTask t); cbn; eauto.
    destruct (tasks s !! t_ID t) as [st|] eqn:E; cbn; eauto. destruct (_ && _); cbn; eauto.
    destruct (decide (t_ID t = id)) as [<-|Hne].
    + rewrite lookup_insert_eq. rewrite He in E. simplify_eq. eexists. split; [done|]. by right.
    + rewrite lookup_insert_ne by done. eauto.
Qed.

Lemma versions_grow ops s id e : Forall (λ o, ∀ now, o ≠ OpEvict now) ops →
  tasks s !! id = Some e → int64_min ≤ te_version e → te_version e + Z.of_nat (length ops) ≤ int64_max →
  ∃ e', tasks (run_ops ops s) !! id = Some e' ∧ (e' = e ∨ te_version e < te_version e').
Proof.
  intros Ho. revert s e. induction Ho as [|o ops Ho _ IH]; intros s e He Hmin Hmax; [by eauto|].
  cbn [length] in Hmax. destruct (write_version o s id e Ho He) as (e1 & He1 & Hv).
  change (run_ops (o :: ops) s) with (run_ops ops (apply_op o s)).
  destruct Hv as [->|Hv].
  - destruct (IH _ _ He1) as (e' & ? & ?); [done|lia|]. eauto.
  - rewrite wrap64_id in Hv by lia. destruct (IH _ _ He1) as (e' & Hf & Hg); [lia|lia|].
    exists e'. split; [done|]. right. destruct Hg as [->|]; lia.
Qed.

(** C7: No lost update: a writer that read a task at some version and updates it
    against that version, after any writes by others short of an eviction, succeeds
    exactly when the stored entry is still the one it read; otherwise it gets
    [ErrConcurrentModification] and nothing changes. *)
Theorem no_lost_update (ops : list ttl_op) (s : TTLStore) (e : ttlEntry) (t cp : Task Part) (now : gotime) :
  Forall (λ o, ∀ now, o ≠ OpEvict now) ops →
  tasks s !! t_ID t = Some e → int64_min ≤ te_version e → te_version e ≠ TaskVersionMissing →
  te_version e + Z.of_nat (length ops) ≤ int64_max → cloneTask t = Ok cp →
  let s1 := run_ops ops s in
  let r := Update now (Some {| u_Task := Some t; u_PrevVersion := te_version e |}) s1 in
  if decide (te_version <$> tasks s1 !! t_ID t = Some (te_version e))
  then tasks s1 !! t_ID t = Some e ∧ r.1 = Ok (wrap64 (te_version e + 1)) ∧
       te_version <$> tasks r.2 !! t_ID t = Some (wrap64 (te_version e + 1))
  else r.1 = Err (sentinel_err ErrConcurrentModification) ∧ r.2 = s1.
Proof.
  intros Ho He Hmin Hmiss Hmax Hcp. cbv zeta. destruct (versions_grow _ _ _ _ Ho He Hmin Hmax) as (e' & He' & Hv).
  unfold Update. cbn [u_Task u_PrevVersion]. rewrite Hcp, He'. cbn [fmap option_fmap option_map].
  rewrite (proj2 (Z.eqb_neq _ _) Hmiss). cbn [negb andb].
  destruct (decide _) as [Hd|Hd].
  - apply (inj Some) in Hd. destruct Hv as [->|Hlt]; [|lia]. rewrite Z.eqb_refl. cbn.
    by rewrite lookup_insert_eq.
  - replace (te_version e' =? te_version e) with false by (symmetry; apply Z.eqb_neq; congruence). done.
Qed.

(** ** Eviction *)

(** The janitor evicts exactly the tasks in a terminal state whose last update
    is before the cutoff, reports their number, asks for their push configs to be
    deleted, one request each, and leaves every other entry as it was. *)
Theorem EvictTerminal_spec (now : gotime) (s : TTLStore) :
  let cutoff := tadd now (- terminalTaskTTL) in
  let gone := filter (λ x, evictable cutoff x.2 = true) (tasks s) in
  (∀ id, tasks (EvictTerminal now s).2 !! id =
     match tasks s !! id with Some e => if evictable cutoff e then None else Some e | None => None end) ∧
  (EvictTerminal now s).1 = Z.of_nat (size gone) ∧
  ∃ l, pushDeleted (EvictTerminal now s).2 = pushDeleted s ++ l ∧
       if has_push s then NoDup l ∧ (∀ id, id ∈ l ↔ is_Some (gone !! id)) else l = [].
Proof.
  cbv zeta. set (cutoff := tadd now _). unfold EvictTerminal. fold cutoff. cbn [fst snd tasks pushDeleted].
  set (l := (filterb _ _).*1).
  assert (Hl : NoDup l ∧ ∀ id, id ∈ l ↔ is_Some (filter (λ x, evictable cutoff x.2 = true) (tasks s) !! id)).
  { split.
    - eapply sublist_NoDup; [|apply fmap_sublist, filterb_sublist]. apply NoDup_fst_map_to_list.
    - intros id. subst l. rewrite list_elem_of_fmap. split.
      + intros ([i e] & -> & [He Hi]%elem_of_filterb). exists e. apply map_lookup_filter_Some.
        split; [by apply elem_of_map_to_list|done].
      + intros [e [Hi He]%map_lookup_filter_Some]. exists (id, e). split; [done|]. apply elem_of_filterb.
        split; [done|by apply elem_of_map_to_list]. }
  split_and!.
  - intros id. rewrite map_lookup_filter. destruct (tasks s !! id) as [e|]; [|done]. cbn.
    by destruct (evictable cutoff e).
  - f_equal. rewrite <-size_dom, <-(size_list_to_set (C:=gset string) l) by apply Hl. f_equal. apply set_eq. intros id.
    rewrite elem_of_list_to_set, elem_of_dom. apply Hl.
  - destruct (has_push s); [by exists l|]. exists []. by rewrite app_nil_r.
Qed.

(** ** Writes *)

(** Creating a task stores a copy at version one, its status in UTC, which
    [Get] returns; an identifier in use is refused and nothing changes. *)
Theorem Create_spec (now : gotime) (t cp : Task Part) (s : TTLStore) :
  cloneTask t = Ok cp →
  let r := Create now (Some t) s in
  let stored := set_task_status cp (statusInUTC (t_Status cp)) in
  match tasks s !! t_ID t with
  | Some _ => r = (Err (sentinel_err ErrTaskAlreadyExists), s)
  | None => r.1 = Ok 1 ∧ (∀ i, i ≠ t_ID t → tasks r.2 !! i = tasks s !! i) ∧
      Get (t_ID t) r.2 = (cp' ← cloneTask stored; Ok (cp', 1))
  end.
Proof.
  intros Hc. cbv zeta. unfold Create. rewrite Hc. destruct (tasks s !! t_ID t) eqn:E; [done|].
  split_and!; [done| |].
  - intros i Hi. cbn. by rewrite lookup_insert_ne.
  - unfold Get. cbn. by rewrite lookup_insert_eq.
Qed.

(** Under the documented wire form entries stay filed under their identifier. *)
Lemma apply_op_keyed `{!A2ALaws _} o s : keyed s → keyed (apply_op o s).
Proof.
  assert (Hid : ∀ t cp, cloneTask t = Ok cp → t_ID cp = t_ID t).
  { intros t cp. unfold cloneTask. destruct (marshal_task t) as [b|] eqn:Em; [|done].
    destruct (unmarshal_task b) as [c|] eqn:Eu; [|done]. intros [= <-]. by apply (wire_task t b c Em Eu). }
  intros Hk. destruct o as [now [t|]|now [r|]|now]; cbn; try done.
  - destruct (cloneTask t) as [cp|] eqn:Ec; cbn; [|done]. destruct (tasks s !! _); cbn; [done|].
    intros i e. cbn. rewrite lookup_insert_Some. intros [[<- <-]|[_ He]]; [exact (Hid _ _ Ec)|by apply Hk].
  - destruct (u_Task r) as [t|]; cbn; [|done]. destruct (cloneTask t) as [cp|] eqn:Ec; cbn; [|done].
    destruct (tasks s !! _); cbn; [|done]. destruct (_ && _); cbn; [done|].
    intros i e. cbn. rewrite lookup_insert_Some. intros [[<- <-]|[_ He]]; [exact (Hid _ _ Ec)|by apply Hk].
  - intros i e [He _]%map_lookup_filter_Some. by apply Hk.
Qed.
End concurrency.

(** * Witnesses *)

Definition at_time (n : Z) : gotime := GoTime (n * second) (Some n) 0.
Definition task_a : Task Part := ref_task "a" "c" "TASK_STATE_WORKING".
Definition task_b : Task Part := ref_task "b" "c" "TASK_STATE_COMPLETED".
Definition two_tasks : TTLStore := MkTTL {["a" := TtlEntry task_a 1 (at_time 1); "b" := TtlEntry task_b 1 (at_time 2)]} true [].
Definition page_one : ListTasksRequest :=
  {| lr_ContextID := ""; lr_Status := TaskStateUnspecified; lr_StatusTimestampAfter := None; lr_PageSize := 1;
     lr_PageToken := ""; lr_HistoryLength := None; lr_IncludeArtifacts := false |}.

Lemma two_tasks_cases id e : tasks two_tasks !! id = Some e →
  (id = "a" ∧ e = TtlEntry task_a 1 (at_time 1)) ∨ (id = "b" ∧ e = TtlEntry task_b 1 (at_time 2)).
Proof. unfold two_tasks. cbn. rewrite lookup_insert_Some, lookup_singleton_Some. naive_solver. Qed.

Lemma two_tasks_listable : listable two_tasks.
Proof.
  split.
  - intros id e [[-> ->]|[-> ->]]%two_tasks_cases; done.
  - intros id e [[-> ->]|[-> ->]]%two_tasks_cases; done.
  - intros id e [[-> ->]|[-> ->]]%two_tasks_cases; unfold printable; vm_compute; split; split; congruence.
  - intros i j a b [[-> ->]|[-> ->]]%two_tasks_cases [[-> ->]|[-> ->]]%two_tasks_cases; done.
Qed.

Lemma List_pages_complete_witness : list_all 3 page_one two_tasks = Ok [task_b; task_a].
Proof. apply (List_pages_complete page_one two_tasks); [exact two_tasks_listable|reflexivity..]. Defined.

Lemma page_token_roundtrip_witness :
  decodePageToken (encodePageToken (at_time 7) "x_y") = Ok (GoTime (7 * second) None 0, "x_y").
Proof.
  apply (page_token_roundtrip (at_time 7) "x_y"); [|discriminate].
  unfold printable; vm_compute; split; split; congruence.
Defined.

Lemma selection_spec_witness :
  TtlEntry task_a 1 (at_time 1) ∈ selection page_one two_tasks.
Proof.
  apply (selection_spec page_one two_tasks [] two_tasks_listable). split; [reflexivity|]. by exists "a".
Defined.

Lemma no_lost_update_witness :
  let s1 := run_ops [OpUpdate zero_time (Some {| u_Task := Some task_a; u_PrevVersion := 1 |})] two_tasks in
  (Update zero_time (Some {| u_Task := Some task_a; u_PrevVersion := 1 |}) s1).1 =
    Err (sentinel_err ErrConcurrentModification).
Proof.
  pose proof (no_lost_update [OpUpdate zero_time (Some {| u_Task := Some task_a; u_PrevVersion := 1 |})] two_tasks
    (TtlEntry task_a 1 (at_time 1)) task_a task_a zero_time) as Hw.
  cbv zeta in Hw. rewrite decide_False in Hw by discriminate. apply Hw; try reflexivity; try discriminate.
  repeat constructor. discriminate.
Defined.

Lemma Create_spec_witness : (Create zero_time (Some task_a) (NewTTLStore true)).1 = Ok 1.
Proof. exact (proj1 (Create_spec zero_time task_a task_a (NewTTLStore true) eq_refl)). Defined.
