(* ===== verification/Registry.v ===== *)
(** The directory of local agents (src/internal/directory/registry.go): entries
    refreshed by heartbeats and dropped once stale, and its HTTP routes. *)
From Stdlib Require Import Ascii.
From stdpp Require Import base list sets strings gmap.
From S2P Require Import Prelude GoStrings GoTime Json Metrics GoUrl GoMux Store.

Open Scope string_scope.
Open Scope Z_scope.
Open Scope list_scope.

(* src/internal/directory/registry.go (Entry) *)
Record Entry := MkEntry { en_URL : string; en_LastSeen : gotime }.

(* src/internal/directory/registry.go (Registry) *)
Record Registry := MkRegistry { entries : gmap string Entry; rg_ttl : Z; rg_metrics : metrics }.

(* src/internal/directory/registry.go (New) *)
Definition New (m : metrics) : Registry := MkRegistry ∅ (90 * second) m.

(** every change sets the peers gauge *)
Definition set_entries (f : gmap string Entry → gmap string Entry) (r : Registry) : Registry :=
  let es := f (entries r) in MkRegistry es (rg_ttl r) (SetPeers (Z.of_nat (size es)) (rg_metrics r)).

(** one round of the loop *)
(* src/internal/directory/registry.go (gc) *)
Definition gc (now : gotime) (r : Registry) : Registry :=
  let cutoff := tadd now (- rg_ttl r) in
  set_entries (filter (λ x, before (en_LastSeen x.2) cutoff = false)) r.

(* src/internal/directory/registry.go (Register) *)
Definition Register (now : gotime) (peerURL : string) (r : Registry) : Registry :=
  set_entries <[peerURL := MkEntry peerURL now]> r.

(* src/internal/directory/registry.go (Unregister) *)
Definition Unregister (peerURL : string) (r : Registry) : Registry := set_entries (delete peerURL) r.

(** the order is that of a map iteration *)
(* src/internal/directory/registry.go (List) *)
Definition List (r : Registry) : list Entry := (map_to_list (entries r)).*2.

(* src/internal/directory/registry.go (validAgentURL) *)
Definition validAgentURL (raw : string) : bool :=
  match parse_url raw with
  | None => false
  | Some u => (String.eqb (u_scheme u) "http" || String.eqb (u_scheme u) "https") && negb (String.eqb (u_host u) "")
  end.

(** the body [struct { URL string }], the first JSON value of the request *)
(* src/internal/directory/registry.go:114-116 (Routes) *)
Definition decode_url (body : string) : option string :=
  '(v, _) ← decode_prefix body;
  match v with
  | JNull => Some ""
  | JObj m => foldl (λ acc kv, u ← acc; if key_matches "url" kv.1 then set_string kv.2 u else Some u) (Some "") m
  | _ => None
  end.

(** an answer, or [ServeMux]'s redirect to another path *)
Inductive response := Resp (status : Z) (body : string) | Redirect (path raw_query : string).

Definition entry_json (e : Entry) : json :=
  JObj [("url", JStr (en_URL e)); ("lastSeen", JStr (format_rfc3339_nano (en_LastSeen e)))].

Definition bad_request : response := Resp 400 ("bad request" +:+ newline).

Inductive endpoint := EHealthz | EMetrics | EAgents | ERegister | EUnregister | EHeartbeat.

(* src/internal/directory/registry.go:101-144 (Routes) *)
Definition route_table : mux endpoint :=
  [("GET /healthz", EHealthz); ("GET /metrics", EMetrics); ("GET /agents", EAgents);
   ("POST /register", ERegister); ("POST /unregister", EUnregister); ("POST /heartbeat", EHeartbeat)].

(** the handlers; [uptime] is the uptime printed by the metrics page *)
(* src/internal/directory/registry.go:103-144 (Routes) *)
Definition handle (now : gotime) (uptime : string) (ep : endpoint) (body : string) (r : Registry) : response * Registry :=
  match ep with
  | EHealthz => (Resp 200 "ok", r)
  | EMetrics => (Resp 200 (emit uptime (rg_metrics r)), r)
  | EAgents => (Resp 200 (marshal (JArr (map entry_json (List r))) +:+ newline), r)
  | ERegister | EHeartbeat =>
      match decode_url body with
      | Some u => if validAgentURL u then (Resp 204 "", Register now u r) else (bad_request, r)
      | None => (bad_request, r)
      end
  | EUnregister =>
      match decode_url body with
      | Some u => if String.eqb u "" then (bad_request, r) else (Resp 204 "", Unregister u r)
      | None => (bad_request, r)
      end
  end.

(** a request with this route and body *)
(* src/internal/directory/registry.go (Routes) *)
Definition Routes (now : gotime) (uptime : string) (q : route) (body : string) (r : Registry) : response * Registry :=
  match mux_route route_table q with
  | Matched ep => handle now uptime ep body r
  | MovedTo path raw_query => (Redirect path raw_query, r)
  | MethodNotAllowed _ => (Resp 405 ("Method Not Allowed" +:+ newline), r)
  | NoSuchPage => (Resp 404 ("404 page not found" +:+ newline), r)
  | BadURI => (Resp 400 "", r)
  end.

(** a request for a path that needs no escapes, without a query *)
Definition plain_request (method path : string) : route := MkRoute method path path path "".

Example Routes_paths :
  mux_route route_table (plain_request "HEAD" "/agents") = Matched EAgents ∧
  mux_route route_table (plain_request "GET" "/register") = MethodNotAllowed ["POST"] ∧
  mux_route route_table (plain_request "POST" "//register") = MovedTo "/register" "" ∧
  mux_route route_table (plain_request "GET" "/") = NoSuchPage.
Proof. by vm_compute. Qed.

(** * Lemmas *)

Inductive reg_op := RegOp (now : gotime) (u : string) | UnregOp (u : string) | GcOp (now : gotime)
  | HttpOp (now : gotime) (uptime : string) (q : route) (body : string).
Definition run_op (o : reg_op) (r : Registry) : Registry :=
  match o with
  | RegOp now u => Register now u r
  | UnregOp u => Unregister u r
  | GcOp now => gc now r
  | HttpOp now up q b => (Routes now up q b r).2
  end.

(** Entries are filed under their URL; those that came in over HTTP have a valid
    one; the gauge shows their number. *)
Record registry_ok (r : Registry) : Prop := {
  ro_key : ∀ u e, entries r !! u = Some e → en_URL e = u ∧ validAgentURL u = true;
  ro_gauge : currentPeers (rg_metrics r) = Z.of_nat (size (entries r)) }.

Lemma Register_ok now u r : validAgentURL u = true → registry_ok r → registry_ok (Register now u r).
Proof.
  intros Hu [Hk Hg]. split; [|done]. intros v e. cbn. rewrite lookup_insert_Some.
  intros [[<- <-]|[_ ?]]; [done|by apply Hk].
Qed.
Lemma Unregister_ok u r : registry_ok r → registry_ok (Unregister u r).
Proof. intros [Hk Hg]. split; [|done]. intros v e. cbn. intros [_ ?]%lookup_delete_Some. by apply Hk. Qed.
Lemma gc_ok now r : registry_ok r → registry_ok (gc now r).
Proof. intros [Hk Hg]. split; [|done]. intros v e. cbn. intros [? _]%map_lookup_filter_Some. by apply Hk. Qed.

Lemma Routes_cases now up q b r :
  (Routes now up q b r).2 = r ∨
  (∃ u, decode_url b = Some u ∧ validAgentURL u = true ∧ (Routes now up q b r).2 = Register now u r) ∨
  (∃ u, decode_url b = Some u ∧ (Routes now up q b r).2 = Unregister u r).
Proof. unfold Routes, handle. repeat case_match; eauto 6. Qed.

(** * Properties *)

(** C39: Whatever requests arrive and whenever the collector runs, the directory
    hands out only absolute http(s) URLs with a host, each filed under itself, and
    the peers gauge equals the number of entries. *)
Theorem registry_invariant (m : metrics) (ops : list reg_op) :
  Forall (λ o, match o with RegOp _ u => validAgentURL u = true | _ => True end) ops → currentPeers m = 0 →
  registry_ok (foldl (λ r o, run_op o r) (New m) ops) ∧
  Forall (λ e, validAgentURL (en_URL e) = true) (List (foldl (λ r o, run_op o r) (New m) ops)).
Proof.
  intros Hops Hm. assert (Hok : registry_ok (foldl (λ r o, run_op o r) (New m) ops)).
  { assert (H0 : registry_ok (New m)) by (split; [done|cbn; by rewrite map_size_empty]).
    revert H0. generalize (New m). induction Hops as [|o ops Ho _ IH]; intros r Hr; [done|]. cbn. apply IH.
    destruct o as [now u|u|now|now up q b]; cbn.
    - by apply Register_ok.
    - by apply Unregister_ok.
    - by apply gc_ok.
    - destruct (Routes_cases now up q b r) as [->|[(u & _ & Hu & ->)|(u & _ & ->)]];
        [done|by apply Register_ok|by apply Unregister_ok]. }
  split; [done|]. apply Forall_forall. intros e (x & -> & Hx)%list_elem_of_fmap.
  destruct x as [u e]. apply elem_of_map_to_list in Hx. destruct (ro_key _ Hok _ _ Hx) as [Hu Hv]. cbn. by rewrite Hu.
Qed.

(** An agent that keeps its heartbeat is never dropped and one that stops is:
    a collector round at [now] removes exactly the entries last seen more than
    [rg_ttl] ago; so an entry registered at [t0] survives every round up to
    [t0 + 90s] and no round after it. *)
Theorem gc_spec (now t0 : gotime) (u : string) (r : Registry) :
  (∀ v, entries (gc now r) !! v =
     match entries r !! v with
     | Some e => if before (en_LastSeen e) (tadd now (- rg_ttl r)) then None else Some e
     | None => None
     end) ∧
  (∀ m0 m, mono t0 = Some m0 → mono now = Some m →
     (is_Some (entries (gc now (Register t0 u r)) !! u) ↔ m ≤ m0 + rg_ttl r)) ∧
  currentPeers (rg_metrics (gc now r)) = Z.of_nat (size (entries (gc now r))).
Proof.
  split_and!.
  - intros v. unfold gc, set_entries. cbn. rewrite map_lookup_filter. destruct (entries r !! v) as [e|]; [|done]. cbn.
    by destruct (before _ _).
  - intros m0 m H0 Hm. unfold gc, Register, set_entries. cbn. rewrite map_lookup_filter, lookup_insert_eq. cbn.
    unfold before, tcompare, tadd. cbn. rewrite H0, Hm. cbn.
    destruct (Z.compare_spec m0 (- rg_ttl r + m)); cbn; (split; [intros [? ?]; done || lia|eauto; lia]).
  - done.
Qed.

(** * Witnesses *)

Lemma registry_invariant_witness :
  registry_ok (foldl (λ r o, run_op o r) (New metrics0) [RegOp zero_time "http://127.0.0.1:8080"]).
Proof.
  apply (registry_invariant metrics0 [RegOp zero_time "http://127.0.0.1:8080"]); [|reflexivity].
  repeat constructor.
Defined.
