(* ===== verification/Peers.v ===== *)
(** Peers and their discovery: the client of [internal/agent/peers.go], the
    listing and the heartbeat of [internal/agent/mcp.go], and how the heartbeat
    keeps an agent in the directory. *)
From Stdlib Require Import Ascii.
From stdpp Require Import base list strings gmap.
From S2P Require Import Prelude GoStrings GoTime Json Metrics GoUrl GoMux A2A Store Registry.

Open Scope string_scope.
Open Scope Z_scope.
Open Scope list_scope.

(** * Clients *)

(** What the network answers to the client of the SDK, by base URL. [an_connect]
    is the error of [NewFromCard]; a stream is the sequence of its items. *)
Record answers `{A2A} := {
  an_resolve : string → result goerror AgentCard;
  an_connect : string → option goerror;
  an_send : string → Message Part → bool → result goerror (Event Part);
  an_stream : string → Message Part → list (result goerror (Event Part));
  an_get : string → string → result goerror (Task Part);
  an_cancel : string → string → result goerror (Task Part);
  an_subscribe : string → string → list (result goerror (Event Part));
  (** the GET request to the directory: its error, or status code, status line and body *)
  an_directory : string → result goerror (Z * string * string);
  (** the error of decoding a body that is no list of entries *)
  an_decode_error : string → goerror;
  (** the stream's own deadline, not the caller's, ended it *)
  an_timed_out : bool }.

Section peers.
Context `{A2A}.

(* src/internal/agent/peers.go (Peers.Resolve) *)
Definition Resolve (an : answers) (baseURL : string) : result goerror AgentCard :=
  match an_resolve an baseURL with
  | Err e => Err (wrapf ("resolve agent card of " +:+ baseURL +:+ ": ") e)
  | Ok card => Ok card
  end.

(** the client is the card it was made from *)
(* src/internal/agent/peers.go (Peers.Client) *)
Definition Client (an : answers) (baseURL : string) : result goerror AgentCard :=
  match Resolve an baseURL with
  | Err e => Err e
  | Ok card =>
      match an_connect an baseURL with
      | Some e => Err (wrapf ("connect to " +:+ baseURL +:+ ": ") e)
      | None => Ok card
      end
  end.

(* src/internal/agent/peers.go (Peers.GetTask) *)
Definition GetTask (an : answers) (baseURL id : string) : result goerror (Task Part) :=
  match Client an baseURL with
  | Err e => Err e
  | Ok _ =>
      match an_get an baseURL id with
      | Err e => Err (wrapf ("get task " +:+ id +:+ " from " +:+ baseURL +:+ ": ") e)
      | Ok t => Ok t
      end
  end.

(** * Discovery *)

(* src/internal/agent/mcp.go (PeerInfo) *)
Record PeerInfo := MkPeerInfo { pi_URL : string; pi_Card : option AgentCard; pi_Err : string }.

(** its JSON form; [card] and [error] are left out when empty *)
(* src/internal/agent/mcp.go (PeerInfo) *)
Definition peer_json (p : PeerInfo) : json :=
  JObj ([("url", JStr (pi_URL p))] ++
        match pi_Card p with Some c => [("card", ac_JSON c)] | None => [] end ++
        (if String.eqb (pi_Err p) "" then [] else [("error", JStr (pi_Err p))])).

(** [strings.TrimRight(s, "/")] *)
Definition trim_slashes (s : string) : string :=
  String.string_of_list_ascii (reverse (drop_while (λ a, Ascii.eqb a "/") (reverse (String.list_ascii_of_string s)))).

(** the [url] members of the entries of the directory *)
(* src/internal/agent/mcp.go:408-413 (listPeers) *)
Definition decode_entries (body : string) : option (list string) :=
  '(v, _) ← decode_prefix body;
  match v with
  | JNull => Some []
  | JArr l => mapM (λ v, match v with
      | JNull => Some ""
      | JObj m => foldl (λ acc kv, u ← acc; if key_matches "url" kv.1 then set_string kv.2 u else Some u) (Some "") m
      | _ => None
      end) l
  | _ => None
  end.

(** what one fetch writes *)
(* src/internal/agent/mcp.go:430-439 (listPeers) *)
Definition peer_info (an : answers) (url : string) : PeerInfo :=
  match Resolve an url with
  | Err e => MkPeerInfo url None (e_text e)
  | Ok card => MkPeerInfo url (Some card) ""
  end.

(** [out\[i\] = info] of the fetches, in the order in which they finish *)
(* src/internal/agent/mcp.go:421-442 (listPeers) *)
Definition fetch_all (an : answers) (urls : list string) (order : list nat) : list PeerInfo :=
  foldl (λ out i, match urls !! i with Some u => <[i := peer_info an u]> out | None => out end)
    (replicate (length urls) (MkPeerInfo "" None "")) order.

(** [finish] is the order in which the concurrent fetches finish. *)
(* src/internal/agent/mcp.go (listPeers) *)
Definition listPeers (an : answers) (finish : list string → list nat) (directoryURL selfURL : string) :
    result goerror (list PeerInfo) :=
  if String.eqb directoryURL "" then Err (errors_new "A2A_DIRECTORY not set") else
  match an_directory an (trim_slashes directoryURL +:+ "/agents") with
  | Err e => Err e
  | Ok (status, line, body) =>
      if negb (status =? 200) then Err (errors_new ("directory returned " +:+ line)) else
      match decode_entries body with
      | None => Err (an_decode_error an body)
      | Some entries =>
          let urls := filterb (λ u, negb (String.eqb u selfURL)) entries in
          Ok (fetch_all an urls (finish urls))
      end
  end.
End peers.

(** * Heartbeat *)

Record request := Request { rq_url : string; rq_body : string; rq_timeout : Z }.
(** what the loop of the heartbeat receives *)
Inductive beat := Tick | Done.
(** what it does: a request is sent, its answer ignored; or the program panics *)
Inductive act := Sent (q : request) | Panicked.

(** The error of [http.NewRequestWithContext] is dropped: on a URL that does not
    parse the request is nil. *)
(* src/internal/agent/mcp.go:450-455 (Heartbeat) *)
Definition beat_request (directoryURL selfURL path : string) (timeout : Z) : option request :=
  let u := trim_slashes directoryURL +:+ path in
  match parse_url u with
  | Some _ => Some (Request u (marshal (JObj [("url", JStr selfURL)])) timeout)
  | None => None
  end.

(** [do]: the header of a nil request panics *)
(* src/internal/agent/mcp.go:451-462 (Heartbeat) *)
Definition do_request (q : option request) (rest : list act) : list act :=
  match q with Some q => Sent q :: rest | None => [Panicked] end.

(* src/internal/agent/mcp.go:466-477 (Heartbeat) *)
Fixpoint heartbeat_loop (directoryURL selfURL : string) (l : list beat) : list act :=
  match l with
  | [] => []
  | Done :: _ => do_request (beat_request directoryURL selfURL "/unregister" (2 * second)) []
  | Tick :: l =>
      do_request (beat_request directoryURL selfURL "/heartbeat" (5 * second)) (heartbeat_loop directoryURL selfURL l)
  end.

(* src/internal/agent/mcp.go (Heartbeat) *)
Definition Heartbeat (directoryURL selfURL : string) (l : list beat) : list act :=
  do_request (beat_request directoryURL selfURL "/register" (5 * second)) (heartbeat_loop directoryURL selfURL l).

(** * Properties *)

Section order.
Context `{A2A}.

Lemma fetch_fold an urls order out i : (∀ j, j ∈ order → (j < length urls)%nat) → length out = length urls →
  foldl (λ out i, match urls !! i with Some u => <[i := peer_info an u]> out | None => out end) out order !! i =
    if decide (i ∈ order) then peer_info an <$> urls !! i else out !! i.
Proof.
  revert out. induction order as [|k order IH]; intros out Hin Hlen; [by rewrite decide_False by apply not_elem_of_nil|].
  cbn [foldl]. assert (Hk : (k < length urls)%nat) by (apply Hin, elem_of_cons; by left).
  destruct (lookup_lt_is_Some_2 urls k Hk) as [u Hu]. rewrite Hu.
  rewrite IH; [|intros j Hj; apply Hin, elem_of_cons; by right|by rewrite length_insert].
  destruct (decide (i ∈ order)) as [Hi|Hi]; [by rewrite decide_True by (apply elem_of_cons; by right)|].
  destruct (decide (i = k)) as [->|Hne].
  - rewrite decide_True by (apply elem_of_cons; by left). rewrite list_lookup_insert_eq by lia. by rewrite Hu.
  - rewrite decide_False by (rewrite elem_of_cons; naive_solver). by rewrite list_lookup_insert_ne.
Qed.

Lemma fetch_all_map an urls order : order ≡ₚ seq 0 (length urls) → fetch_all an urls order = map (peer_info an) urls.
Proof.
  intros Ho. apply list_eq. intros i. unfold fetch_all. rewrite fetch_fold; cycle 1.
  { intros j. rewrite Ho, elem_of_seq. lia. }
  { by rewrite length_replicate. }
  change (map (peer_info an) urls) with (peer_info an <$> urls). rewrite list_lookup_fmap.
  destruct (decide (i ∈ order)) as [Hi|Hi]; [done|]. rewrite Ho, elem_of_seq in Hi.
  rewrite !lookup_ge_None_2; [done|lia|]. rewrite length_replicate. lia.
Qed.
End order.

(** ** The heartbeat and the directory *)

(** a scheme and an authority, where a directory may listen *)
Definition origin (base : string) : bool :=
  match cut_prefix "http://" base, cut_prefix "https://" base with
  | Some auth, _ | None, Some auth => negb (String.eqb auth "") && str_forall (λ a, negb (contains_char a "/?#")) auth
  | None, None => false
  end.

(** A request of the heartbeat handled at [now] by the routes of the directory that
    listens at [base]. *)
Definition serve (base : string) (now : gotime) (q : request) (r : Registry) : Registry :=
  match cut_prefix base (rq_url q) with
  | Some path => (Routes now "" (plain_request "POST" path) (rq_body q) r).2
  | None => r
  end.

Lemma decode_url_body u : valid_utf8 u = true → decode_url (marshal (JObj [("url", JStr u)])) = Some u.
Proof.
  intros Hu. unfold decode_url. set (b := marshal _).
  assert (Hd : unmarshal b = Some (JObj [("url", JStr u)])).
  { unfold b, marshal. rewrite unmarshal_print by done. cbn [jnorm map fst snd].
    by rewrite (to_valid_utf8_id u). }
  unfold unmarshal in Hd. destruct (decode_prefix b) as [[v t]|]; [|done]. cbn in Hd |- *.
  destruct (String.eqb (skip_ws t) ""); [|done]. injection Hd as ->. by vm_compute.
Qed.

(** The directory sees requests of the heartbeat and rounds of its collector. *)
Inductive event := Beat (q : request) | Collect.

Definition see (base : string) (r : Registry) (x : gotime * event) : Registry :=
  match x.2 with Beat q => serve base x.1 q r | Collect => gc x.1 r end.

(** the requests it sees, and those the heartbeat sends *)
Definition beats (l : list (gotime * event)) : list request := omap (λ x, match x.2 with Beat q => Some q | Collect => None end) l.
Definition sent (l : list act) : list request := omap (λ a, match a with Sent q => Some q | Panicked => None end) l.

(** [last] is the time of the last beat served: a beat renews it, and no round
    of the collector comes more than [ttl] after it. *)
Fixpoint timely (ttl last : Z) (l : list (gotime * event)) : Prop :=
  match l with
  | [] => True
  | (t, e) :: l =>
      match mono t with
      | None => False
      | Some m => match e with Beat _ => timely ttl m l | Collect => m - last ≤ ttl ∧ timely ttl last l end
      end
  end.

(** a request that registers the agent *)
Definition renews (directoryURL selfURL : string) (q : request) : Prop :=
  ∃ path, (path = "/register" ∨ path = "/heartbeat") ∧ rq_url q = trim_slashes directoryURL +:+ path ∧
    rq_body q = marshal (JObj [("url", JStr selfURL)]).

Lemma post_renew now path b u r : path = "/register" ∨ path = "/heartbeat" → decode_url b = Some u → validAgentURL u = true →
  (Routes now "" (plain_request "POST" path) b r).2 = Register now u r.
Proof.
  intros Hp Hd Hv. unfold Routes.
  assert (Hm : ∃ ep, mux_route route_table (plain_request "POST" path) = Matched ep ∧ (ep = ERegister ∨ ep = EHeartbeat))
    by (destruct Hp as [-> | ->]; eexists; (split; [by vm_compute|auto])).
  destruct Hm as (ep & -> & [-> | ->]); cbn [handle]; by rewrite Hd, Hv.
Qed.

Lemma post_unregister now b u r : decode_url b = Some u → u ≠ "" →
  (Routes now "" (plain_request "POST" "/unregister") b r).2 = Unregister u r.
Proof.
  intros Hd Hu%String.eqb_neq. unfold Routes.
  assert (Hm : mux_route route_table (plain_request "POST" "/unregister") = Matched EUnregister) by (by vm_compute).
  rewrite Hm. cbn [handle]. by rewrite Hd, Hu.
Qed.

Lemma beat_request_fields directoryURL selfURL path timeout q : beat_request directoryURL selfURL path timeout = Some q →
  rq_url q = trim_slashes directoryURL +:+ path ∧ rq_body q = marshal (JObj [("url", JStr selfURL)]).
Proof. unfold beat_request. cbv zeta. destruct (parse_url _); [|done]. by intros [= <-]. Qed.

Lemma sent_do q l : sent (do_request q l) = match q with Some q => q :: sent l | None => [] end.
Proof. by destruct q. Qed.

(** what is sent before the shutdown registers the agent *)
Lemma ticks_renew directoryURL selfURL n : Forall (renews directoryURL selfURL) (sent (Heartbeat directoryURL selfURL (replicate n Tick))).
Proof.
  assert (Hr : ∀ path timeout q, path = "/register" ∨ path = "/heartbeat" →
    beat_request directoryURL selfURL path timeout = Some q → renews directoryURL selfURL q).
  { intros path timeout q Hp Hq. exists path. split; [done|]. by eapply beat_request_fields. }
  unfold Heartbeat. rewrite sent_do. destruct (beat_request _ _ "/register" _) as [q|] eqn:Eq; [|constructor].
  constructor; [eapply (Hr "/register"); eauto|]. clear q Eq. induction n as [|n IH]; cbn [replicate heartbeat_loop]; [constructor|].
  rewrite sent_do. destruct (beat_request _ _ "/heartbeat" _) as [q|] eqn:Eq; [|constructor].
  constructor; [eapply (Hr "/heartbeat"); eauto|done].
Qed.

Lemma serve_renews directoryURL selfURL q now r : validAgentURL selfURL = true → valid_utf8 selfURL = true →
  renews directoryURL selfURL q → serve (trim_slashes directoryURL) now q r = Register now selfURL r.
Proof.
  intros Hv Hu (path & Hp & Hq & Hb). unfold serve. rewrite Hq.
  assert (Hc : cut_prefix (trim_slashes directoryURL) (trim_slashes directoryURL +:+ path) = Some path) by (by apply cut_prefix_spec).
  rewrite Hc, Hb. apply post_renew; [done|by apply decode_url_body|done].
Qed.

Lemma timely_listed directoryURL selfURL l : validAgentURL selfURL = true → valid_utf8 selfURL = true →
  ∀ last r t0, rg_ttl r = 90 * second → entries r !! selfURL = Some (MkEntry selfURL t0) → mono t0 = Some last →
  Forall (renews directoryURL selfURL) (beats l) → timely (90 * second) last l →
  is_Some (entries (foldl (see (trim_slashes directoryURL)) r l) !! selfURL).
Proof.
  intros Hv Hu. induction l as [|[t e] l IH]; intros last r t0 Httl He Hm Hr Ht; [cbn [foldl]; by rewrite He|].
  cbn [foldl timely snd] in *. destruct (mono t) as [m|] eqn:Emt; [|done].
  destruct e as [q|]; unfold see at 2; cbn [fst snd].
  - change (beats ((t, Beat q) :: l)) with (q :: beats l) in Hr. apply Forall_cons in Hr as [Hr1 Hr]. rewrite (serve_renews _ selfURL) by done. apply (IH m _ t); try done. by apply lookup_insert_eq.
  - destruct Ht as [Hle Ht]. apply (IH last _ t0); try done. unfold gc, set_entries. cbn [entries].
    rewrite map_lookup_filter, He. cbn. unfold before, tcompare, tadd. cbn. rewrite Hm, Emt. cbn. rewrite Httl.
    destruct (Z.compare_spec last (- (90 * second) + m)); cbn; try done. lia.
Qed.

Lemma Heartbeat_done directoryURL selfURL n more bye :
  beat_request directoryURL selfURL "/unregister" (2 * second) = Some bye →
  Forall (λ a, a ≠ Panicked) (Heartbeat directoryURL selfURL (replicate n Tick)) →
  Heartbeat directoryURL selfURL (replicate n Tick ++ Done :: more) =
    Heartbeat directoryURL selfURL (replicate n Tick) ++ [Sent bye].
Proof.
  intros Hbye. unfold Heartbeat. destruct (beat_request _ _ "/register" _) as [q|]; cbn [do_request]; cycle 1.
  { intros Hf. apply Forall_cons in Hf as [[] _]. done. }
  intros [_ Hf]%Forall_cons. cbn [app]. f_equal. induction n as [|n IH]; cbn [replicate app heartbeat_loop] in *.
  - by rewrite Hbye.
  - destruct (beat_request _ _ "/heartbeat" _) as [h|]; cbn [do_request] in *.
    + apply Forall_cons in Hf as [_ Hf]. cbn [app]. f_equal. by apply IH.
    + by apply Forall_cons in Hf as [[] _].
Qed.

(** C18: Presence. Take a directory that listens where [directoryURL] points, and
    any part of the requests the heartbeat sends after any number of ticks that
    reaches it, mixed with rounds of the collector: if no collector round comes
    more than ninety seconds after the last beat served, the agent is in the
    directory from the first beat served on. At shutdown the heartbeat then sends
    one more request and nothing after it; once that is served the agent is gone.
    All of this needs a directory URL from which requests can be built: with one
    that does not parse the heartbeat panics before it has sent anything, because
    the error of the request's construction is dropped. *)
Theorem heartbeat_listed (directoryURL selfURL : string) (r : Registry) (n : nat) (t0 : gotime) (m0 : Z) (q0 : request)
    (l : list (gotime * event)) (Hd : origin (trim_slashes directoryURL) = true)
    (Hp : Forall (λ p, is_Some (parse_url (trim_slashes directoryURL +:+ p))) ["/register"; "/heartbeat"; "/unregister"])
    (Hv : validAgentURL selfURL = true) (Hu : valid_utf8 selfURL = true)
    (Httl : rg_ttl r = 90 * second) (Hm : mono t0 = Some m0) (Ht : timely (90 * second) m0 l)
    (Hl : beats ((t0, Beat q0) :: l) `sublist_of` sent (Heartbeat directoryURL selfURL (replicate n Tick))) :
  let base := trim_slashes directoryURL in
  let r1 := foldl (see base) r ((t0, Beat q0) :: l) in
  is_Some (entries r1 !! selfURL) ∧
  (∃ bye, (∀ more, Heartbeat directoryURL selfURL (replicate n Tick ++ Done :: more) =
       Heartbeat directoryURL selfURL (replicate n Tick) ++ [Sent bye]) ∧
     length (Heartbeat directoryURL selfURL (replicate n Tick)) = S n ∧
     Forall (λ a, a ≠ Panicked) (Heartbeat directoryURL selfURL (replicate n Tick)) ∧
     ∀ now, entries (serve base now bye r1) !! selfURL = None) ∧
  (∀ bad ticks, parse_url (trim_slashes bad +:+ "/register") = None → Heartbeat bad selfURL ticks = [Panicked]).
Proof.
  cbv zeta. assert (Hr : Forall (renews directoryURL selfURL) (beats ((t0, Beat q0) :: l))).
  { apply Forall_forall. intros q Hq. eapply Forall_forall; [apply ticks_renew|]. eapply elem_of_sublist; [exact Hq|exact Hl]. }
  change (beats ((t0, Beat q0) :: l)) with (q0 :: beats l) in *. cbn [foldl]. apply Forall_cons in Hr as [Hq Hr].
  assert (Hb : ∀ p timeout, p ∈ ["/register"; "/heartbeat"; "/unregister"] → is_Some (beat_request directoryURL selfURL p timeout)).
  { intros p timeout Hin. eapply Forall_forall in Hp; [|exact Hin]. destruct Hp as [u Hp].
    unfold beat_request. cbv zeta. rewrite Hp. eauto. }
  assert (Hgo : length (Heartbeat directoryURL selfURL (replicate n Tick)) = S n ∧
    Forall (λ a, a ≠ Panicked) (Heartbeat directoryURL selfURL (replicate n Tick))).
  { unfold Heartbeat. destruct (Hb "/register" (5 * second)) as [q ->]; [set_solver|]. cbn [do_request].
    destruct (Hb "/heartbeat" (5 * second)) as [h Hh]; [set_solver|]. clear Hl.
    assert (Hloop : heartbeat_loop directoryURL selfURL (replicate n Tick) = replicate n (Sent h)).
    { induction n as [|n IH]; [done|]. cbn [replicate heartbeat_loop]. by rewrite Hh, IH. }
    rewrite Hloop. cbn [length]. rewrite length_replicate. split; [done|]. constructor; [done|]. by apply Forall_replicate. }
  split_and!.
  - unfold see at 2. cbn [fst snd]. rewrite (serve_renews _ selfURL) by done.
    apply (timely_listed _ _ l Hv Hu m0 _ t0); try done. by apply lookup_insert_eq.
  - destruct (Hb "/unregister" (2 * second)) as [bye Hbye]; [set_solver|]. exists bye.
    split_and!; [intros more; apply (Heartbeat_done _ _ _ _ _ Hbye); apply Hgo|apply Hgo|apply Hgo|]. intros now.
    apply beat_request_fields in Hbye as [Hurl Hbody]. unfold serve at 1. rewrite Hurl.
    assert (Hc : cut_prefix (trim_slashes directoryURL) (trim_slashes directoryURL +:+ "/unregister") = Some "/unregister")
      by (by apply cut_prefix_spec).
    rewrite Hc, Hbody, (post_unregister _ _ selfURL); [apply lookup_delete_eq|by apply decode_url_body|].
    intros ->. by vm_compute in Hv.
  - intros bad ticks Hbad. unfold Heartbeat, beat_request. cbv zeta. by rewrite Hbad.
Qed.

Definition at_s (s : Z) : gotime := GoTime (s * second) (Some (s * second)) 0.
Definition sample_beat (path : string) : request :=
  Request ("http://127.0.0.1:7777" +:+ path) (marshal (JObj [("url", JStr "http://127.0.0.1:8080")])) (5 * second).

Lemma heartbeat_listed_witness :
  is_Some (entries (foldl (see "http://127.0.0.1:7777") (New metrics0)
    [(at_s 0, Beat (sample_beat "/register")); (at_s 30, Beat (sample_beat "/heartbeat")); (at_s 60, Collect); (at_s 110, Collect)])
    !! "http://127.0.0.1:8080") ∧
  Heartbeat "http://%zz" "http://127.0.0.1:8080" [Tick; Done] = [Panicked].
Proof.
  destruct (heartbeat_listed "http://127.0.0.1:7777/" "http://127.0.0.1:8080" (New metrics0) 2 (at_s 0) 0 (sample_beat "/register")
    [(at_s 30, Beat (sample_beat "/heartbeat")); (at_s 60, Collect); (at_s 110, Collect)]) as (Hl & _ & Hbad);
    [reflexivity|repeat constructor; vm_compute; eauto|reflexivity|reflexivity|reflexivity|reflexivity| | |].
  - cbn. unfold second. lia.
  - vm_compute. repeat constructor.
  - split; [exact Hl|]. apply Hbad. reflexivity.
Defined.

(** The listing has one entry per URL of the directory other than the agent's
    own, in the directory's order and whatever the order in which the concurrent
    fetches finish, each with the card or the error of its fetch. *)
Theorem listPeers_spec `{A2A} (an : answers) (finish : list string → list nat) (directoryURL selfURL : string)
    (Hfinish : ∀ urls, finish urls ≡ₚ seq 0 (length urls)) :
  match listPeers an finish directoryURL selfURL with
  | Ok peers =>
      ∃ status line body entries, an_directory an (trim_slashes directoryURL +:+ "/agents") = Ok (status, line, body) ∧
        status = 200 ∧ decode_entries body = Some entries ∧
        map pi_URL peers = filterb (λ u, negb (String.eqb u selfURL)) entries ∧
        Forall (λ p, pi_URL p ≠ selfURL ∧
          match an_resolve an (pi_URL p) with
          | Ok card => pi_Card p = Some card ∧ pi_Err p = ""
          | Err e => pi_Card p = None ∧ pi_Err p = "resolve agent card of " +:+ pi_URL p +:+ ": " +:+ e_text e
          end) peers
  | Err _ =>
      directoryURL = "" ∨ (∃ e, an_directory an (trim_slashes directoryURL +:+ "/agents") = Err e) ∨
      ∃ status line body, an_directory an (trim_slashes directoryURL +:+ "/agents") = Ok (status, line, body) ∧
        (status ≠ 200 ∨ decode_entries body = None)
  end.
Proof.
  unfold listPeers. destruct (String.eqb_spec directoryURL "") as [->|Hne]; [by left|].
  destruct (an_directory an _) as [[[status line] body]|e] eqn:Ed; [|by right; left; eauto].
  destruct (Z.eqb_spec status 200) as [->|Hs]; cbn [negb]; [|right; right; eauto 6].
  destruct (decode_entries body) as [entries|] eqn:Ee; [|right; right; eauto 6].
  rewrite fetch_all_map by done. exists 200, line, body, entries. split_and!; try done.
  - rewrite map_map. rewrite <-(map_id (filterb _ entries)) at 2. apply map_ext. intros u. unfold peer_info. by destruct (Resolve an u).
  - apply Forall_forall. intros p Hp. apply list_elem_of_In, in_map_iff in Hp as (u & <- & Hu).
    apply list_elem_of_In in Hu. apply elem_of_filterb in Hu as [Hu _].
    assert (Hpu : pi_URL (peer_info an u) = u) by (unfold peer_info; by destruct (Resolve an u)).
    rewrite Hpu. split.
    + intros ->. by rewrite String.eqb_refl in Hu.
    + unfold peer_info, Resolve. destruct (an_resolve an u) as [c|e]; [done|]. split; [done|].
      change ("resolve agent card of " +:+ u +:+ ": " +:+ e_text e) with ("resolve agent card of " +:+ (u +:+ (": " +:+ e_text e))).
      unfold wrapf. cbn [e_text pi_Err]. by rewrite !sapp_assoc.
Qed.

Definition sample_answers : answers (H:=reference_sdk) :=
  {| an_resolve := λ _, Err (errors_new "down"); an_connect := λ _, None; an_send := λ _ _ _, Err (errors_new "x");
     an_stream := λ _ _, []; an_get := λ _ _, Err (errors_new "x"); an_cancel := λ _ _, Err (errors_new "x");
     an_subscribe := λ _ _, [];
     an_directory := λ _, Ok (200, "200 OK", marshal (JArr [JObj [("url", JStr "self")]; JObj [("url", JStr "b")]]));
     an_decode_error := λ _, errors_new "json"; an_timed_out := false |}.

Lemma listPeers_spec_witness :
  listPeers sample_answers (λ urls, reverse (seq 0 (length urls))) "d" "self" =
    Ok [MkPeerInfo "b" None "resolve agent card of b: down"] ∧
  match listPeers sample_answers (λ urls, reverse (seq 0 (length urls))) "d" "self" with
  | Ok peers => ∃ status line body entries, an_directory sample_answers (trim_slashes "d" +:+ "/agents") = Ok (status, line, body) ∧
      map pi_URL peers = filterb (λ u, negb (String.eqb u "self")) entries ∧ decode_entries body = Some entries
  | Err _ => False
  end.
Proof.
  split; [by vm_compute|].
  pose proof (listPeers_spec sample_answers (λ urls, reverse (seq 0 (length urls))) "d" "self" ltac:(intros; apply reverse_Permutation)) as Hs.
  destruct (listPeers _ _ _ _) as [peers|e] eqn:E; [|by vm_compute in E].
  destruct Hs as (status & line & body & es & H1 & _ & H2 & H3 & _). by exists status, line, body, es.
Defined.
