(* ===== verification/EndToEnd.v ===== *)
(** Two bridges in conversation: the host of one sends a message with
    [a2a_send_message], the host of the other answers with [a2a_complete_task], and
    a poll brings the answer back. The SDK between them is given by what its
    server keeps of an execution's events. *)
From Stdlib Require Import Ascii.
From stdpp Require Import base list sets strings gmap.
From S2P Require Import Prelude GoStrings GoTime Json A2A Metrics GoFS Pii Store Executor Peers Mcp.

Open Scope string_scope.
Open Scope Z_scope.
Open Scope list_scope.

Lemma last_lastn {A} n (l : list A) (x : A) : (0 < n)%nat → last (lastn n (l ++ [x])) = Some x.
Proof.
  intros Hn. unfold lastn. rewrite length_app. cbn [length]. rewrite drop_app_le by lia. apply last_snoc.
Qed.

Section conversation.
Context `{A2A} `{!A2ALaws _} `{MCP}.

(** The task the SDK's server keeps after the events of an execution: it has the
    identifier of the task announced, the state of the last status, and the
    artifacts it had, then those of the events. *)
Variable kept : list (Event Part) → Task Part.
Hypothesis kept_status : ∀ t u, t_ID (kept [EvTask t; EvStatus u]) = t_ID t ∧
  s_State (t_Status (kept [EvTask t; EvStatus u])) = s_State (su_Status u).
Hypothesis kept_answer : ∀ t u a v,
  s_State (t_Status (kept [EvTask t; EvStatus u; EvArtifact a; EvStatus v])) = s_State (su_Status v) ∧
  t_Artifacts (kept [EvTask t; EvStatus u; EvArtifact a; EvStatus v]) = t_Artifacts t ++ [Some (au_Artifact a)].

(** the message a call of [a2a_send_message] hands over *)
Definition handed_over (w : wire) (req : Args) (text : string) (d : deps) : Message Part :=
  let msg := outboundMessage w d (Screen text).1 (Screen text).2 in
  set_message msg (GetString "context_id" "" req) (GetString "task_id" "" req) (m_Metadata msg).

Lemma handed_over_text w req text d : messageText (handed_over w req text d) = (Screen text).1.
Proof.
  unfold messageText, handed_over, outboundMessage. cbn. rewrite NewMessage_Parts. cbn. unfold write_part, partText.
  rewrite part_Text_new. by destruct (String.eqb_spec (Screen text).1 "") as [->|].
Qed.
Lemma handed_over_from w req text d : metadataString (m_Metadata (handed_over w req text d)) "from" = ac_Name (d_card d).
Proof. done. Qed.

(** ** The answering side *)

Lemma question_arrives d id ctx m x : waiters x !! id = None → m_ID m ∉ message_ids (inbox (ex_store x)) →
  let ec := {| ec_TaskID := id; ec_ContextID := ctx; ec_Message := Some m; ec_StoredTask := None |} in
  Execute 4 d always ec PStart x =
    ([Yield (EvTask (NewSubmittedTask (d_now d) ec m)); Yield (EvStatus (NewStatusUpdateEvent (d_now d) ec TaskStateWorking None))],
     PSelect, MkExecutor (deliverIncoming (inbox_entry ec m) (ex_store x)).2 (<[id := None]> (waiters x))).
Proof.
  intros Hw Hid ec. cbn [Execute]. rewrite (step_start d ec m x) by done.
  rewrite (step_deliver_new d ec m (MkExecutor _ _)) by done.
  rewrite select_blocks by (apply lookup_insert_eq). done.
Qed.

Lemma answer_leaves d ec reply x : waiters x !! ec_TaskID ec = Some (Some reply) →
  ∃ a v x', Execute 4 d always ec PSelect x = ([Yield (EvArtifact a); Yield (EvStatus v)], PEnd, x') ∧
    a_Parts (au_Artifact a) = [Some (NewTextPart reply)] ∧ s_State (su_Status v) = TaskStateCompleted ∧
    waiters x' !! ec_TaskID ec = None ∧ inbox (ex_store x') = inbox (ex_store x).
Proof.
  intros Hw. cbn [Execute]. rewrite (step_select d ec reply) by done. unfold Execute_step. cbn [always negb app].
  cbv beta iota zeta. eexists _, _, _. split; [reflexivity|]. cbn [au_Artifact a_Parts].
  destruct (NewArtifactEvent_Parts (d_uuid d) ec [Some (NewTextPart reply)]) as [_ ->]. split; [done|].
  match goal with |- context [NewStatusUpdateEvent (d_now d) ec TaskStateCompleted ?m] =>
    destruct (NewStatusUpdateEvent_Status (d_now d) ec TaskStateCompleted m) as [_ ->] end.
  split; [done|]. split; [|done]. cbn. apply lookup_delete_eq.
Qed.

Lemma reply_handed_over req id reply d : RequireString "task_id" req = Ok id → RequireString "text" req = Ok reply →
  waiters (d_ex d) !! id = Some None →
  let r := a2a_complete_task req d in
  (∃ s, r.1 = ToolText s) ∧ waiters (d_ex r.2) !! id = Some (Some (Screen reply).1) ∧
  Forall (λ e, ie_TaskID e ≠ id) (inbox (ex_store (d_ex r.2))).
Proof.
  intros Hid Htext Hw. cbv zeta. unfold a2a_complete_task, screenOutbound. rewrite Hid, Htext. destruct (Screen reply) as [redacted hits].
  pose proof (complete_cases id redacted (d_ex d)) as (Hs & _ & Hc). rewrite Hw in Hc.
  destruct (CompleteTask id redacted (d_ex d)) as [r x]. cbn [fst snd] in *. destruct Hc as [-> Hw'].
  assert (Hf : Forall (λ e, ie_TaskID e ≠ id) (inbox (ex_store x))).
  { rewrite Hs. destruct (drop_inbox id (ex_store (d_ex d))) as (-> & _). apply Forall_forall.
    intros e [He _]%elem_of_filterb. by apply negb_true_iff, String.eqb_neq in He. }
  destruct hits; cbn; eauto.
Qed.

(** ** The asking side *)

Lemma question_tracked an w req url text card t d : RequireString "peer_url" req = Ok url → RequireString "text" req = Ok text →
  Client an url = Ok card →
  an_send an url (handed_over w req text d) (negb (GetBool "blocking" false req)) = Ok (EvTask t) →
  Terminal (s_State (t_Status t)) = false →
  ex_store (d_ex (a2a_send_message an w req d).2) =
    TrackOutgoing (wi_now w) (t_ID t) url (ac_Name card) (Screen text).1 (set_meter IncMessagesSent (ex_store (d_ex d))).
Proof.
  intros Hurl Htext Hcard Hsend Ht. unfold a2a_send_message, screenOutbound. rewrite Hurl, Htext, Hcard.
  unfold handed_over in Hsend. destruct (Screen text) as [redacted hits]. cbn [fst snd] in Hsend. cbv zeta in Hsend |- *.
  rewrite Hsend. unfold track_sent. by rewrite Ht.
Qed.

Lemma reply_arrives maxAge env p t s : tsub (pe_now (env (po_TaskID p))) (po_SentAt p) ≤ maxAge →
  pe_fetch (env (po_TaskID p)) = Ok (Some t) → Terminal (s_State (t_Status t)) = true →
  pendingOutgoing s !! po_TaskID p = Some p → trim_space (extractReplyText t) ≠ "" →
  replyMessageIDPrefix +:+ po_TaskID p ∉ message_ids (inbox s) →
  let r := PollOutgoing maxAge env [p] s in
  r.1 = 1 ∧ pendingOutgoing r.2 !! po_TaskID p = None ∧
  ∃ e, last (inbox r.2) = Some e ∧ ie_MessageID e = replyMessageIDPrefix +:+ po_TaskID p ∧ ie_TaskID e = po_TaskID p ∧
    ie_From e = po_PeerName p ∧ ie_State e = s_State (t_Status t) ∧
    ie_Text e = reply_text (po_PeerName p) (trimTo (po_Question p) 80) (extractReplyText t).
Proof.
  intros Hage Hf Ht Hp Htext Hid. cbn [PollOutgoing]. unfold poll_one. rewrite Hf, Ht. unfold claim. rewrite Hp.
  destruct (Z.ltb_spec maxAge (tsub (pe_now (env (po_TaskID p))) (po_SentAt p))); [lia|]. cbn [negb]. cbv beta iota zeta. cbn [fst snd].
  split; [done|].
  destruct (synthetic_hooks "" (pe_deliver (env (po_TaskID p))) p (extractReplyText t) (s_State (t_Status t))
    (set_pending (delete (po_TaskID p) (pendingOutgoing s)) s)) as [_ ->]. split; [apply lookup_delete_eq|].
  destruct (appendSyntheticReply_spec (pe_deliver (env (po_TaskID p))) p (extractReplyText t) (s_State (t_Status t))
    (set_pending (delete (po_TaskID p) (pendingOutgoing s)) s)) as (_ & _ & Hs).
  rewrite decide_False in Hs by (intros [?|?]; done).
  destruct Hs as (e & E1 & E2 & E3 & _ & E4 & _ & E5 & E6 & _). exists e. split; [|done].
  rewrite E6. apply last_lastn. unfold inboxSoftCap. lia.
Qed.

(** a task that is no longer registered delivers nothing *)
Lemma reply_once maxAge env p s : pendingOutgoing s !! po_TaskID p = None →
  (PollOutgoing maxAge env [p] s).1 = 0 ∧ inbox (PollOutgoing maxAge env [p] s).2 = inbox s.
Proof.
  intros Hp. cbn [PollOutgoing]. unfold poll_one, claim. rewrite Hp.
  destruct (maxAge <? _); [done|]. destruct (pe_fetch _) as [[t|]|]; [|done..]. by destruct (negb _).
Qed.

(** C3: a question and its answer, across two bridges. The screened question
    arrives in the inbox of the peer's host under the sender's name; the peer
    answers once its host completes the task, with the screened reply, and has the
    task neither in its inbox nor among its waiters any more; the next poll brings
    the reply into the sender's inbox, as an answer to that question, and no later
    poll brings it again. *)
Theorem question_and_answer (an : answers) (w : wire) (d d' : draw) (alice bob : deps) (req req' : Args)
    (url text reply id ctx : string) (card : AgentCard) (env : string → poll_env) (maxAge : Z)
    (Hurl : RequireString "peer_url" req = Ok url) (Htext : RequireString "text" req = Ok text) (Hcard : Client an url = Ok card)
    (Hid : RequireString "task_id" req' = Ok id) (Hreply : RequireString "text" req' = Ok reply)
    (Hnew : waiters (d_ex bob) !! id = None) (Hfresh : replyMessageIDPrefix +:+ id ∉ message_ids (inbox (ex_store (d_ex alice))))
    (Hunseen : m_ID (handed_over w req text alice) ∉ message_ids (inbox (ex_store (d_ex bob))))
    (Hspoken : trim_space (Screen reply).1 ≠ "") (Hage : tsub (pe_now (env id)) (wi_now w) ≤ maxAge) :
  let question := (Screen text).1 in
  let ec := {| ec_TaskID := id; ec_ContextID := ctx; ec_Message := Some (handed_over w req text alice); ec_StoredTask := None |} in
  let '(l1, ph1, x1) := Execute 4 d always ec PStart (d_ex bob) in
  let '(res, bob') := a2a_complete_task req' (with_ex (λ _, x1) bob) in
  let '(l2, ph2, x2) := Execute 4 d' always ec PSelect (d_ex bob') in
  let sent := (a2a_send_message an w req alice).2 in
  an_send an url (handed_over w req text alice) (negb (GetBool "blocking" false req)) = Ok (EvTask (kept (events l1))) →
  pe_fetch (env id) = Ok (Some (kept (events (l1 ++ l2)))) →
  (∃ e, last (inbox (ex_store x1)) = Some e ∧ ie_TaskID e = id ∧ ie_Text e = question ∧ ie_From e = ac_Name (d_card alice)) ∧
  (∃ s, res = ToolText s) ∧ ph2 = PEnd ∧ waiters x2 !! id = None ∧ Forall (λ e, ie_TaskID e ≠ id) (inbox (ex_store x2)) ∧
  ∃ p, pendingOutgoing (ex_store (d_ex sent)) !! id = Some p ∧
    let '(n, s) := PollOutgoing maxAge env [p] (ex_store (d_ex sent)) in
    n = 1 ∧
    (∃ e, last (inbox s) = Some e ∧ ie_TaskID e = id ∧ ie_From e = ac_Name card ∧ ie_State e = TaskStateCompleted ∧
       ie_Text e = reply_text (ac_Name card) (trimTo question 80) (Screen reply).1) ∧
    ∀ env', (PollOutgoing maxAge env' [p] s).1 = 0 ∧ inbox (PollOutgoing maxAge env' [p] s).2 = inbox s.
Proof.
  cbv zeta. set (ec := {| ec_TaskID := id |}).
  pose proof (question_arrives d id ctx _ (d_ex bob) Hnew Hunseen) as Hq. cbv zeta in Hq. fold ec in Hq. rewrite Hq. clear Hq.
  set (x1 := MkExecutor _ _).
  assert (Hw1 : waiters x1 !! id = Some None) by apply lookup_insert_eq.
  destruct (reply_handed_over req' id reply (with_ex (λ _, x1) bob) Hid Hreply Hw1) as (Hres & Hw2 & Hgone).
  destruct (a2a_complete_task req' (with_ex (λ _, x1) bob)) as [res bob']. cbn [fst snd] in Hres, Hw2, Hgone.
  destruct (answer_leaves d' ec (Screen reply).1 (d_ex bob') Hw2) as (a & v & x2 & -> & Ha & Hv & Hw3 & Hin).
  set (t0 := NewSubmittedTask (d_now d) ec _). set (u := NewStatusUpdateEvent (d_now d) ec TaskStateWorking None).
  change (events [Yield (EvTask t0); Yield (EvStatus u)]) with [EvTask t0; EvStatus u].
  change (events ([Yield (EvTask t0); Yield (EvStatus u)] ++ [Yield (EvArtifact a); Yield (EvStatus v)])) with
    [EvTask t0; EvStatus u; EvArtifact a; EvStatus v].
  intros Hsend Hfetch. split; [|split; [done|split; [done|split; [done|split; [by rewrite Hin|]]]]].
  - pose proof (deliver_cases (inbox_entry ec (handed_over w req text alice)) (ex_store (d_ex bob))) as Hd.
    rewrite decide_False in Hd by exact Hunseen. cbv zeta in Hd. destruct Hd as (_ & Hi & _).
    exists (inbox_entry ec (handed_over w req text alice)). split; [|split_and!; [done|apply handed_over_text|apply handed_over_from]].
    unfold x1. cbn [ex_store]. rewrite Hi. apply last_lastn. unfold inboxSoftCap. lia.
  - assert (Hopen : Terminal (s_State (t_Status (kept [EvTask t0; EvStatus u]))) = false).
    { rewrite (proj2 (kept_status t0 u)). unfold u. destruct (NewStatusUpdateEvent_Status (d_now d) ec TaskStateWorking None) as [_ ->]. apply Terminal_Working. }
    rewrite (question_tracked an w req url text card _ alice Hurl Htext Hcard Hsend Hopen).
    rewrite (proj1 (kept_status t0 u)). assert (Ht0 : t_ID t0 = id) by (unfold t0; apply NewSubmittedTask_ID). rewrite Ht0.
    set (p := {| po_TaskID := id; po_PeerURL := url; po_PeerName := ac_Name card; po_Question := (Screen text).1; po_SentAt := wi_now w |}).
    set (s0 := TrackOutgoing _ _ _ _ _ _). exists p. split; [apply lookup_insert_eq|].
    destruct (kept_answer t0 u a v) as [Hks Hka].
    set (t := kept [EvTask t0; EvStatus u; EvArtifact a; EvStatus v]) in *.
    assert (Hst : s_State (t_Status t) = TaskStateCompleted) by (by rewrite Hks).
    assert (Htxt : extractReplyText t = (Screen reply).1).
    { unfold extractReplyText. rewrite Hka. unfold t0. rewrite NewSubmittedTask_Artifacts. cbn [app foldl]. rewrite Ha. cbn [foldl]. unfold write_part, partText.
      rewrite part_Text_new. destruct (String.eqb_spec (Screen reply).1 "") as [E|E]; [by rewrite E in Hspoken|].
      change (0 <? slen "")%nat with false. cbv iota. change ("" +:+ (Screen reply).1) with ((Screen reply).1).
      by destruct (Screen reply).1. }
    pose proof (reply_arrives maxAge env p t s0 Hage Hfetch) as Hr. rewrite Hst, Htxt in Hr.
    specialize (Hr Terminal_Completed (lookup_insert_eq _ _ _) Hspoken Hfresh). cbv zeta in Hr.
    destruct (PollOutgoing maxAge env [p] s0) as [n s]. cbn [fst snd] in Hr. destruct Hr as (-> & Hnone & e & E1 & _ & E2 & E3 & E4 & E5).
    split; [done|]. split; [by exists e|]. intros env'. by apply reply_once.
Qed.
End conversation.

(** * Witness *)

Definition keep_event (t : Task string) (ev : Event string) : Task string :=
  match ev with
  | EvTask t => t
  | EvStatus u => {| t_ID := t_ID t; t_ContextID := t_ContextID t; t_Status := su_Status u; t_Artifacts := t_Artifacts t;
                     t_History := t_History t; t_Metadata := t_Metadata t |}
  | EvArtifact a => {| t_ID := t_ID t; t_ContextID := t_ContextID t; t_Status := t_Status t;
                       t_Artifacts := t_Artifacts t ++ [Some (au_Artifact a)]; t_History := t_History t; t_Metadata := t_Metadata t |}
  | EvMessage _ => t
  end.
Definition keep_events (l : list (Event string)) : Task string := foldl keep_event (ref_task "" "" "") l.

Definition asker : Args := [("peer_url", "http://bob"); ("text", "is the build green?")].
Definition answerer : Args := [("task_id", "t1"); ("text", "yes")].
Definition bob : deps (H:=reference_sdk) :=
  Deps idle {| ac_Name := "bob"; ac_Skills := []; ac_JSON := JNull |} "http://bob" "http://d" [] [].
Definition question_ctx : ExecutorContext Part :=
  {| ec_TaskID := "t1"; ec_ContextID := "c1"; ec_Message := Some (handed_over sample_wire asker "is the build green?" sample_deps);
     ec_StoredTask := None |}.
Definition first_events : list (Event string) := events (Execute 4 draw0 always question_ctx PStart (d_ex bob)).1.1.
Definition bob_answered : deps := (a2a_complete_task answerer (with_ex (λ _, (Execute 4 draw0 always question_ctx PStart (d_ex bob)).2) bob)).2.
Definition all_events : list (Event string) := first_events ++ events (Execute 4 draw0 always question_ctx PSelect (d_ex bob_answered)).1.1.
Definition net : answers (H:=reference_sdk) :=
  {| an_resolve := λ _, Ok {| ac_Name := "bob"; ac_Skills := []; ac_JSON := JNull |}; an_connect := λ _, None;
     an_send := λ _ _ _, Ok (EvTask (keep_events first_events)); an_stream := λ _ _, []; an_get := λ _ _, Err (errors_new "x");
     an_cancel := λ _ _, Err (errors_new "x"); an_subscribe := λ _ _, []; an_directory := λ _, Err (errors_new "x");
     an_decode_error := λ _, errors_new "json"; an_timed_out := false |}.
Definition poll_answer (_ : string) : poll_env :=
  {| pe_now := zero_time; pe_fetch := Ok (Some (keep_events all_events)); pe_deliver := zero_time |}.

Lemma question_and_answer_witness :
  ∃ p e, pendingOutgoing (ex_store (d_ex (a2a_send_message net sample_wire asker sample_deps).2)) !! "t1" = Some p ∧
    last (inbox (PollOutgoing (10 * minute) poll_answer [p]
      (ex_store (d_ex (a2a_send_message net sample_wire asker sample_deps).2))).2) = Some e ∧ ie_From e = "bob".
Proof.
  assert (Hq := question_and_answer keep_events (λ t u, conj eq_refl eq_refl) (λ t u a v, conj eq_refl eq_refl)
    net sample_wire draw0 draw0 sample_deps bob asker answerer "http://bob" "is the build green?" "yes" "t1" "c1"
    {| ac_Name := "bob"; ac_Skills := []; ac_JSON := JNull |} poll_answer (10 * minute)
    eq_refl eq_refl eq_refl eq_refl eq_refl eq_refl (not_elem_of_nil _) (not_elem_of_nil _)).
  assert (H1 : trim_space (Screen "yes").1 ≠ "") by (vm_compute; discriminate).
  assert (H2 : tsub (pe_now (poll_answer "t1")) (wi_now sample_wire) ≤ 10 * minute) by (vm_compute; discriminate).
  specialize (Hq H1 H2). cbv zeta in Hq. fold question_ctx in Hq.
  assert (Ebob : bob_answered = (a2a_complete_task answerer (with_ex (λ _, (Execute 4 draw0 always question_ctx PStart (d_ex bob)).2) bob)).2)
    by reflexivity.
  assert (Efirst : first_events = events (Execute 4 draw0 always question_ctx PStart (d_ex bob)).1.1) by reflexivity.
  assert (Eall : all_events = first_events ++ events (Execute 4 draw0 always question_ctx PSelect (d_ex bob_answered)).1.1) by reflexivity.
  assert (Eapp : ∀ l k : list (yielded (H:=reference_sdk)), events (l ++ k) = events l ++ events k) by (intros l k; apply omap_app).
  destruct (Execute 4 draw0 always question_ctx PStart (d_ex bob)) as [[l1 ph1] x1]. cbn [fst snd] in Efirst, Ebob.
  destruct (a2a_complete_task answerer (with_ex (λ _, x1) bob)) as [res b]. cbn [snd] in Ebob. rewrite Ebob in Eall.
  destruct (Execute 4 draw0 always question_ctx PSelect (d_ex b)) as [[l2 ph2] x2]. cbn [fst snd] in Eall.
  assert (Hsend : an_send net "http://bob" (handed_over sample_wire asker "is the build green?" sample_deps) true =
    Ok (EvTask (keep_events (events l1)))) by (rewrite <-Efirst; reflexivity).
  assert (Hfetch : pe_fetch (poll_answer "t1") = Ok (Some (keep_events (events (l1 ++ l2)))))
    by (rewrite (Eapp l1 l2 : _ = _); change (pe_fetch (poll_answer "t1")) with (@Ok goerror _ (Some (keep_events all_events)));
        rewrite Eall, Efirst; reflexivity).
  destruct (Hq Hsend Hfetch) as (_ & _ & _ & _ & _ & p & Hp & Hpoll). exists p.
  destruct (PollOutgoing (10 * minute) poll_answer [p] _) as [n s]. destruct Hpoll as (_ & (e & He & _ & Hfrom & _) & _).
  exists e. exact (conj Hp (conj He Hfrom)).
Defined.
