(* ===== verification/Update.v ===== *)
(** The self-update of [internal/cli/update.go]: the order of versions, the
    verified download and the replacement of the running binary. *)
From Stdlib Require Import Ascii.
From stdpp Require Import base list strings gmap.
From S2P Require Import Prelude GoStrings Json A2A GoUrl GoFS GoExec GoFlag Store.

Open Scope string_scope.
Open Scope Z_scope.
Open Scope list_scope.

(* src/internal/cli/update.go (defaultRepo) *)
Definition defaultRepo : string := "vbcherepanov/a2abridge".
(* src/internal/cli/update.go (maxArchiveBytes) *)
Definition maxArchiveBytes : Z := Z.shiftl 256 20.
(* src/internal/cli/update.go (maxBinaryBytes) *)
Definition maxBinaryBytes : Z := Z.shiftl 512 20.
(* src/internal/cli/update.go (maxChecksumsBytes) *)
Definition maxChecksumsBytes : Z := Z.shiftl 1 20.

(** * The order of versions *)

(* src/internal/cli/update.go (parsedVersion) *)
Record parsedVersion := MkVersion { nums : Z * Z * Z; pre : string }.

(** one numeric component *)
(* src/internal/cli/update.go:394-400 (parseVersion) *)
Definition parse_num (p : string) : option Z :=
  match atoi p with Some n => if n <? 0 then None else Some n | None => None end.

(* src/internal/cli/update.go (parseVersion) *)
Definition parseVersion (s : string) : option parsedVersion :=
  let s := trim_prefix "v" (trim_space s) in
  let s := match cut_char "+" s with Some (a, _) => a | None => s end in
  '(s, p) ← match cut_char "-" s with
            | Some (a, p) => if String.eqb p "" then None else Some (a, p)
            | None => Some (s, "")
            end;
  ns ← (let parts := split_char "." s in if (3 <? length parts)%nat then None else mapM parse_num parts);
  match ns with
  | [a] => Some (MkVersion (a, 0, 0) p)
  | [a; b] => Some (MkVersion (a, b, 0) p)
  | [a; b; c] => Some (MkVersion (a, b, c) p)
  | _ => None
  end.

(** the first component that differs decides *)
(* src/internal/cli/update.go:415-422 (compareVersions) *)
Fixpoint cmp_nums (l : list (Z * Z)) : option Z :=
  match l with
  | [] => None
  | (x, y) :: l => if negb (x =? y) then (if x <? y then Some (-1) else Some 1) else cmp_nums l
  end.

(* src/internal/cli/update.go:423-434 (compareVersions) *)
Definition cmp_pre (a b : string) : Z :=
  if String.eqb a b then 0
  else if String.eqb a "" then 1
  else if String.eqb b "" then -1
  else if str_lt a b then -1
  else 1.

(* src/internal/cli/update.go:409-435 (compareVersions) *)
Definition compareVersions (a b : string) : option Z :=
  match parseVersion a, parseVersion b with
  | Some av, Some bv =>
      let '(a1, a2, a3) := nums av in let '(b1, b2, b3) := nums bv in
      match cmp_nums [(a1, b1); (a2, b2); (a3, b3)] with
      | Some c => Some c
      | None => Some (cmp_pre (pre av) (pre bv))
      end
  | _, _ => None
  end.

Example compare_example :
  map (λ x, compareVersions x.1 x.2)
    [("4.0.1", "v4.0.1"); ("0.3.0-dev", "0.3.0"); ("v1.10.0", "1.9.9"); ("1.2.0+dirty", "1.2"); ("dev", "1.0.0"); ("1.0.0-rc2", "1.0.0-rc10")] =
  [Some 0; Some (-1); Some 1; Some 0; None; Some 1].
Proof. vm_compute. done. Qed.

(** * Downloads *)

(** What a reader yields: its bytes, then the end of the file or an error. *)
Record stream := Stream { s_data : string; s_err : option goerror }.
Record response := Response { r_status : Z; r_body : stream }.
Record zip_file := ZipFile { zf_Name : string; zf_Open : result goerror stream; zf_Close : option goerror }.

(** The platform: the network, the hash, the archive formats, the texts of the
    system's errors and the time stamp of now. *)
Class Host := {
  GOOS : string;
  GOARCH : string;
  http_get : string → result goerror response;
  Sum256 : string → string;
  gzip_error : string → option goerror;
  tar_entries : string → list (result goerror (string * stream));
  zip_files : string → result goerror (list zip_file);
  os_error : io_error → goerror;
  json_error : string → goerror;
  now_stamp : string }.

(** [io.ReadAll(io.LimitReader(r, limit+1))] *)
Definition ReadAllLimit (b : stream) (n : Z) : result goerror string :=
  if Z.of_nat (slen (s_data b)) <? n then
    match s_err b with Some e => Err e | None => Ok (s_data b) end
  else Ok (stake (Z.to_nat n) (s_data b)).

Definition limit_error (what : string) (limit : Z) : goerror :=
  errors_new (what +:+ " larger than " +:+ itoa limit +:+ " bytes").

(* src/internal/cli/update.go (readAllLimited) *)
Definition readAllLimited (r : stream) (limit : Z) : result goerror string :=
  data ← ReadAllLimit r (limit + 1);
  if limit <? Z.of_nat (slen data) then Err (limit_error "decompressed member" limit) else Ok data.

Section update.
Context `{Host}.

(* src/internal/cli/update.go (httpGetLimited) *)
Definition httpGetLimited (url : string) (limit : Z) : result goerror string :=
  resp ← http_get url;
  if negb (r_status resp =? 200) then Err (errors_new ("status " +:+ itoa (r_status resp))) else
  body ← ReadAllLimit (r_body resp) (limit + 1);
  if limit <? Z.of_nat (slen body) then Err (limit_error "response" limit) else Ok body.

(** the members of the release document that carry the tag, the last one counts *)
Definition tag_name (v : json) : option string :=
  match v with
  | JNull => Some ""
  | JObj m => foldl (λ acc kv, u ← acc; if key_matches "tag_name" kv.1 then set_string kv.2 u else Some u) (Some "") m
  | _ => None
  end.

(* src/internal/cli/update.go:151-153 (resolveLatestTag) *)
Definition latest_url (repo : string) : string := "https://api.github.com/repos/" +:+ repo +:+ "/releases/latest".

(* src/internal/cli/update.go:156-174 (resolveLatestTag) *)
Definition read_latest (repo : string) : result goerror string :=
  resp ← http_get (latest_url repo);
  if negb (r_status resp =? 200) then
    let body := match ReadAllLimit (r_body resp) 256 with Ok b => b | Err _ => stake 256 (s_data (r_body resp)) end in
    Err (errors_new ("github api " +:+ itoa (r_status resp) +:+ ": " +:+ trim_space body))
  else
    match decode_prefix (s_data (r_body resp)) with
    | Some (JNull, "") =>
        match s_err (r_body resp) with Some e => Err e | None => Ok "" end
    | Some (v, _) =>
        match tag_name v with Some t => Ok t | None => Err (json_error (s_data (r_body resp))) end
    | None => Err (json_error (s_data (r_body resp)))
    end.

(** [None]: a panic. The error of [http.NewRequestWithContext] is dropped, and
    setting a header of the nil request of a URL that does not parse panics. *)
(* src/internal/cli/update.go (resolveLatestTag) *)
Definition resolveLatestTag (repo : string) : option (result goerror string) :=
  match parse_url (latest_url repo) with
  | None => None
  | Some _ => Some (read_latest repo)
  end.

(* src/internal/cli/update.go (assetName) *)
Definition assetName (tag : string) : result goerror string :=
  let v := trim_prefix "v" tag in
  if String.eqb GOOS "darwin" || String.eqb GOOS "linux" then
    Ok ("a2abridge_" +:+ v +:+ "_" +:+ GOOS +:+ "_" +:+ GOARCH +:+ ".tar.gz")
  else if String.eqb GOOS "windows" then Ok ("a2abridge_" +:+ v +:+ "_windows_" +:+ GOARCH +:+ ".zip")
  else Err (errors_new ("unsupported platform " +:+ GOOS +:+ "/" +:+ GOARCH)).

(* src/internal/cli/update.go:266-275 (findChecksum) *)
Fixpoint find_digest (name : string) (lines : list string) : result goerror string :=
  match lines with
  | [] => Err (errors_new ("no checksum entry for " +:+ name +:+ " in checksums.txt"))
  | line :: lines =>
      match fields line with
      | [digest; file] => if String.eqb (trim_prefix "*" file) name then Ok digest else find_digest name lines
      | _ => find_digest name lines
      end
  end.
(* src/internal/cli/update.go (findChecksum) *)
Definition findChecksum (sums name : string) : result goerror string := find_digest name (split_char nlc sums).

(** [hex.EncodeToString] *)
Definition hex_encode (s : string) : string :=
  fold_right (λ a acc, String (hexdig (bz a / 16)) (String (hexdig (bz a mod 16)) acc)) "" (String.list_ascii_of_string s).

(** The case folding of the characters that fold to ASCII: the capital letters, the
    Kelvin sign and the long s. *)
Fixpoint fold_case (s : string) : string :=
  match s with
  | "" => ""
  | String "226" (String "132" (String "170" t)) => String "k" (fold_case t)
  | String "197" (String "191" t) => String "s" (fold_case t)
  | String a t => String (if in_range 65 90 a then zb (bz a + 32) else a) (fold_case t)
  end.
(** [strings.EqualFold] of two strings of which one is ASCII *)
Definition EqualFold (a b : string) : bool := String.eqb (fold_case a) (fold_case b).

Example EqualFold_example :
  EqualFold "0aF" "0Af" = true ∧ EqualFold "0a" "0b" = false ∧
  EqualFold "k" (String "226" (String "132" (String "170" ""))) = true.
Proof. by vm_compute. Qed.

(* src/internal/cli/update.go (verifyChecksum) *)
Definition verifyChecksum (baseURL asset body : string) : result goerror unit :=
  match httpGetLimited (baseURL +:+ "/checksums.txt") maxChecksumsBytes with
  | Err e => Err (wrapf "download checksums.txt (refusing to install an unverified artefact): " e)
  | Ok sums =>
      want ← findChecksum sums asset;
      let got := hex_encode (Sum256 body) in
      if negb (EqualFold got want) then
        Err (errors_new ("checksum mismatch for " +:+ asset +:+ ": got " +:+ got +:+ ", want " +:+ want))
      else Ok tt
  end.

Definition not_found (name : string) : goerror := errors_new (name +:+ " not found in archive").

(** the first entry of the name *)
(* src/internal/cli/update.go:311-325 (extractTarGzMember) *)
Fixpoint tar_member (name : string) (l : list (result goerror (string * stream))) : result goerror string :=
  match l with
  | [] => Err (not_found name)
  | Err e :: _ => Err e
  | Ok (n, data) :: l =>
      if negb (String.eqb (Base n) name) then tar_member name l else readAllLimited data maxBinaryBytes
  end.

(* src/internal/cli/update.go (extractTarGzMember) *)
Definition extractTarGzMember (blob name : string) : result goerror string :=
  match gzip_error blob with
  | Some e => Err e
  | None => tar_member name (tar_entries blob)
  end.

(* src/internal/cli/update.go (extractZipMember) *)
Definition extractZipMember (blob name : string) : result goerror string :=
  files ← zip_files blob;
  match List.find (λ f, String.eqb (Base (zf_Name f)) name) files with
  | None => Err (not_found name)
  | Some f =>
      rc ← zf_Open f;
      match readAllLimited rc maxBinaryBytes, zf_Close f with
      | Ok data, None => Ok data
      | Ok _, Some cerr => Err cerr
      | Err e, _ => Err e
      end
  end.

(** the new binary: downloaded, verified, extracted *)
(* src/internal/cli/update.go:195-215 (downloadAndReplace) *)
Definition fetch_binary (baseURL asset : string) : result goerror string :=
  match httpGetLimited (baseURL +:+ "/" +:+ asset) maxArchiveBytes with
  | Err e => Err (wrapf ("download " +:+ asset +:+ ": ") e)
  | Ok body =>
      _ ← verifyChecksum baseURL asset body;
      let fresh :=
        if has_suffix ".tar.gz" asset then Some (extractTarGzMember body "a2abridge")
        else if has_suffix ".zip" asset then Some (extractZipMember body "a2abridge.exe")
        else None in
      match fresh with
      | None => Err (errors_new ("unknown archive format for " +:+ asset))
      | Some (Err e) => Err (wrapf "extract: " e)
      | Some (Ok data) => Ok data
      end
  end.

(* src/internal/cli/update.go:221-222 (downloadAndReplace) *)
Definition bak_path (dst : string) : string := dst +:+ ".bak." +:+ now_stamp.
(* src/internal/cli/update.go:226-226 (downloadAndReplace) *)
Definition new_path (dst : string) : string := dst +:+ ".new".

(** the swap, with its rollback; [None]: done *)
(* src/internal/cli/update.go:221-239 (downloadAndReplace) *)
Definition swap (fresh dst : string) : ST fs (option goerror) :=
  let bak := bak_path dst in
  let tmp := new_path dst in
  r ← Rename dst bak;
  match r with
  | Err e => mret (Some (wrapf "backup current: " (os_error e)))
  | Ok _ =>
      r ← WriteFile tmp fresh 493;
      match r with
      | Err e => _ ← Rename bak dst; mret (Some (wrapf "write new binary: " (os_error e)))
      | Ok _ =>
          r ← Rename tmp dst;
          match r with
          | Err e => _ ← Remove tmp; _ ← Rename bak dst; mret (Some (wrapf "activate new binary: " (os_error e)))
          | Ok _ => mret None
          end
      end
  end.

(* src/internal/cli/update.go (downloadAndReplace) *)
Definition downloadAndReplace (baseURL asset dst : string) : ST fs (option goerror) :=
  match fetch_binary baseURL asset with
  | Err e => mret (Some e)
  | Ok fresh => swap fresh dst
  end.

(** * The command *)

(** the file system and what was printed *)
Record console := Console { c_fs : fs; c_out : list string; c_err : list string }.
Definition out (line : string) : ST console unit := modify (λ c, Console (c_fs c) (c_out c ++ [line]) (c_err c)).
Definition err (line : string) : ST console unit := modify (λ c, Console (c_fs c) (c_out c) (c_err c ++ [line])).
Definition on_fs {A} (m : ST fs A) : ST console A := λ c, let '(a, w) := m (c_fs c) in (a, Console w (c_out c) (c_err c)).

Definition fail (line : string) : ST console Z := _ ← err line; mret 1.

(** a newer release, or one that cannot be compared *)
(* src/internal/cli/update.go:121-148 (RunUpdate) *)
Definition install (current repo target : string) (check : bool) (exe : result goerror string) : ST console Z :=
  if check then _ ← out "update available — run `a2abridge update` without --check to install"; mret 1 else
  match assetName target with
  | Err e => fail ("update: " +:+ e_text e)
  | Ok asset =>
      let baseURL := "https://github.com/" +:+ repo +:+ "/releases/download/" +:+ target in
      _ ← out ("downloading " +:+ baseURL +:+ "/" +:+ asset);
      match exe with
      | Err e => fail ("update: locate own binary: " +:+ e_text e)
      | Ok exe =>
          r ← on_fs (downloadAndReplace baseURL asset exe);
          match r with
          | Some e => fail ("update: " +:+ e_text e)
          | None => _ ← out ("updated " +:+ current +:+ " → " +:+ target); mret 0
          end
      end
  end.

(* src/internal/cli/update.go:100-149 (RunUpdate) *)
Definition compare_install (current repo want target : string) (check : bool) (exe : result goerror string) : ST console Z :=
  _ ← out ("current: " +:+ current); _ ← out ("latest:  " +:+ target);
  match compareVersions current target with
  | Some cmp =>
      if cmp =? 0 then _ ← out "already up to date"; mret 0 else
      if 0 <? cmp then
        if negb (String.eqb want "") then
          fail ("update: refusing to downgrade from " +:+ current +:+ " to " +:+ target +:+
                " — install the older release manually if you really need it")
        else
          _ ← out ("current version " +:+ current +:+ " is newer than the latest release " +:+ target +:+ " — nothing to do");
          mret 0
      else install current repo target check exe
  | None => install current repo target check exe
  end.

(* src/internal/cli/update.go:53-55 (RunUpdate) *)
Definition update_flags : flag_decls := [("repo", false); ("version", false); ("check", true)].

Inductive outcome := Exit (code : Z) | Panic.
Definition exits (m : ST console Z) : ST console outcome := code ← m; mret (Exit code).

(** [env] is the value of [A2A_REPO] (empty when unset), [exe] the resolved path
    of the running binary. What package [flag] prints about usage is left out. *)
(* src/internal/cli/update.go (RunUpdate) *)
Definition RunUpdate (env current : string) (exe : result goerror string) (args : list string) : ST console outcome :=
  match Parse update_flags [] args with
  | ErrHelp => mret (Exit 0)
  | BadFlag => mret (Exit 2)
  | Flags values _ =>
      let repo := default (if String.eqb env "" then defaultRepo else env) (assoc_get "repo" values) in
      let want := default "" (assoc_get "version" values) in
      let check := bool_decide (assoc_get "check" values = Some "true") in
      _ ← when (negb (String.eqb env "") && negb (String.eqb env defaultRepo))
        (_ ← err ("WARNING: A2A_REPO=" +:+ env +:+ " overrides the update source (default: " +:+ defaultRepo +:+ ").");
         err "         The downloaded binary will come from that repository — make sure you trust it.");
      if String.eqb want "" then
        match resolveLatestTag repo with
        | None => mret Panic
        | Some (Err e) => exits (fail ("update: resolve latest tag: " +:+ e_text e))
        | Some (Ok latest) =>
            if String.eqb latest "" then exits (fail "update: no release found")
            else exits (compare_install current repo want latest check exe)
        end
      else exits (compare_install current repo want want check exe)
  end.
End update.

(** * The order of versions: theorems *)

Definition rel_nums (a b : Z * Z * Z) : comparison :=
  match a.1.1 ?= b.1.1 with Eq => match a.1.2 ?= b.1.2 with Eq => a.2 ?= b.2 | c => c end | c => c end.
Definition rel_pre (a b : string) : comparison :=
  match a, b with
  | "", "" => Eq
  | "", _ => Gt
  | _, "" => Lt
  | _, _ => str_compare a b
  end.
(** the precedence of semantic versions, a release above its prereleases *)
Definition precedence (a b : parsedVersion) : comparison :=
  match rel_nums (nums a) (nums b) with Eq => rel_pre (pre a) (pre b) | c => c end.
Definition sign (c : comparison) : Z := match c with Lt => -1 | Eq => 0 | Gt => 1 end.

Lemma cmp_pre_sign a b : cmp_pre a b = sign (rel_pre a b).
Proof.
  unfold cmp_pre, rel_pre. destruct (String.eqb_spec a b) as [->|Hne].
  { destruct b as [|x b]; [done|]. by rewrite str_compare_refl. }
  destruct a as [|x a], b as [|y b]; try done. cbn [String.eqb]. unfold str_lt.
  destruct (str_compare _ _) eqn:E; [by apply str_compare_eq in E|done..].
Qed.

Lemma compareVersions_precedence a b : compareVersions a b =
  match parseVersion a, parseVersion b with
  | Some v, Some w => Some (sign (precedence v w))
  | _, _ => None
  end.
Proof.
  unfold compareVersions, precedence, rel_nums. destruct (parseVersion a) as [[[[a1 a2] a3] p]|]; [|done].
  destruct (parseVersion b) as [[[[b1 b2] b3] q]|]; [|done]. cbn [nums pre fst snd cmp_nums].
  destruct (Z.compare_spec a1 b1), (Z.compare_spec a2 b2), (Z.compare_spec a3 b3); subst; rewrite ?Z.eqb_refl; cbn [negb];
    repeat match goal with
    | H : ?x < ?y |- context [?x =? ?y] => rewrite (proj2 (Z.eqb_neq x y)) by lia
    | H : ?y < ?x |- context [?x =? ?y] => rewrite (proj2 (Z.eqb_neq x y)) by lia
    | H : ?x < ?y |- context [?x <? ?y] => rewrite (proj2 (Z.ltb_lt x y)) by lia
    | H : ?y < ?x |- context [?x <? ?y] => rewrite (proj2 (Z.ltb_ge x y)) by lia
    end; cbn [negb]; try done; by rewrite cmp_pre_sign.
Qed.

Lemma rel_pre_refl p : rel_pre p p = Eq.
Proof. destruct p; [done|]. apply str_compare_refl. Qed.
Lemma rel_pre_eq p q : rel_pre p q = Eq → p = q.
Proof. destruct p, q; try done. apply str_compare_eq. Qed.
Lemma rel_pre_antisym p q : rel_pre q p = CompOpp (rel_pre p q).
Proof. destruct p, q; try done. apply str_compare_antisym. Qed.
Lemma rel_pre_trans p q r : rel_pre p q = Lt → rel_pre q r = Lt → rel_pre p r = Lt.
Proof. destruct p, q, r; try done. apply str_compare_trans. Qed.

Lemma precedence_eq v w : precedence v w = Eq ↔ v = w.
Proof.
  split; [|intros ->; destruct w as [[[a b] c] p]; unfold precedence, rel_nums; cbn; by rewrite !Z.compare_refl, rel_pre_refl].
  destruct v as [[[a b] c] p], w as [[[a' b'] c'] p']. unfold precedence, rel_nums. cbn.
  destruct (Z.compare_spec a a'), (Z.compare_spec b b'), (Z.compare_spec c c'); try done. intros ?%rel_pre_eq. congruence.
Qed.
Lemma precedence_antisym v w : precedence w v = CompOpp (precedence v w).
Proof.
  destruct v as [[[a b] c] p], w as [[[a' b'] c'] p']. unfold precedence, rel_nums. cbn.
  rewrite (Z.compare_antisym a a'), (Z.compare_antisym b b'), (Z.compare_antisym c c'), (rel_pre_antisym p p').
  by destruct (a ?= a'), (b ?= b'), (c ?= c').
Qed.
Lemma precedence_trans v w x : precedence v w = Lt → precedence w x = Lt → precedence v x = Lt.
Proof.
  destruct v as [[[a b] c] p], w as [[[a' b'] c'] p'], x as [[[a'' b''] c''] p'']. unfold precedence, rel_nums. cbn.
  destruct (Z.compare_spec a a'), (Z.compare_spec b b'), (Z.compare_spec c c'); try done; subst; intros Hp1;
  destruct (Z.compare_spec a' a''), (Z.compare_spec b' b''), (Z.compare_spec c' c''); try done; subst; intros Hp2;
  rewrite ?Z.compare_refl;
  repeat match goal with |- context [?x ?= ?y] => rewrite (proj2 (Z.compare_lt_iff x y)) by lia end; try done.
  by eapply rel_pre_trans.
Qed.

(** C37: the comparison of version strings is the precedence of the versions they
    parse to, a total preorder on the strings that parse, and fails on the others:
    it is antisymmetric and transitive, two strings are equal exactly when they
    parse to the same version, and a release is above every prerelease of the same
    core. *)
Theorem compareVersions_order :
  (∀ a b, compareVersions a b = match parseVersion a, parseVersion b with
     | Some v, Some w => Some (sign (precedence v w)) | _, _ => None end) ∧
  (∀ a b, is_Some (compareVersions a b) ↔ is_Some (parseVersion a) ∧ is_Some (parseVersion b)) ∧
  (∀ a b c, compareVersions a b = Some c → -1 ≤ c ≤ 1 ∧ compareVersions b a = Some (- c)) ∧
  (∀ a b, compareVersions a b = Some 0 ↔ ∃ v, parseVersion a = Some v ∧ parseVersion b = Some v) ∧
  (∀ a b c x y, compareVersions a b = Some x → compareVersions b c = Some y → x ≤ 0 → y ≤ 0 →
     ∃ z, compareVersions a c = Some z ∧ z ≤ 0 ∧ (z = 0 ↔ x = 0 ∧ y = 0)) ∧
  (∀ a b n p, parseVersion a = Some (MkVersion n "") → parseVersion b = Some (MkVersion n p) → p ≠ "" →
     compareVersions a b = Some 1).
Proof.
  split_and!.
  - apply compareVersions_precedence.
  - intros a b. rewrite compareVersions_precedence. destruct (parseVersion a), (parseVersion b);
      split; try (by intros [? ?]); try (by intros [[? ?] [? ?]]); eauto.
  - intros a b c. rewrite !compareVersions_precedence. destruct (parseVersion a) as [v|], (parseVersion b) as [w|]; try done.
    intros [= <-]. rewrite (precedence_antisym v w). destruct (precedence v w); cbn; split; (done || lia).
  - intros a b. rewrite compareVersions_precedence. destruct (parseVersion a) as [v|]; [|naive_solver].
    destruct (parseVersion b) as [w|]; [|naive_solver]. split.
    + intros [= Hs]. assert (Hp : precedence v w = Eq) by (by destruct (precedence v w)). apply precedence_eq in Hp as ->. eauto.
    + intros (u & [= ->] & [= ->]). by rewrite (proj2 (precedence_eq u u) eq_refl).
  - intros a b c x y. rewrite !compareVersions_precedence.
    destruct (parseVersion a) as [u|], (parseVersion b) as [v|], (parseVersion c) as [w|]; try done.
    intros [= <-] [= <-]. destruct (precedence u v) eqn:E1; cbn [sign]; try lia; destruct (precedence v w) eqn:E2; cbn [sign]; try lia; intros _ _.
    + apply precedence_eq in E1 as ->. apply precedence_eq in E2 as ->. rewrite (proj2 (precedence_eq w w) eq_refl). by exists 0.
    + apply precedence_eq in E1 as ->. rewrite E2. exists (-1). split_and!; (done || lia).
    + apply precedence_eq in E2 as ->. rewrite E1. exists (-1). split_and!; (done || lia).
    + rewrite (precedence_trans _ _ _ E1 E2). exists (-1). split_and!; (done || lia).
  - intros a b [[n1 n2] n3] p Ha Hb Hp. rewrite compareVersions_precedence, Ha, Hb. unfold precedence, rel_nums. cbn.
    rewrite !Z.compare_refl. by destruct p.
Qed.

(** * The verified download: theorems *)

Lemma stake_len n s : (n ≤ slen s)%nat → slen (stake n s) = n.
Proof.
  revert n. induction s as [|a s IH]; intros [|n] Hn; try done; unfold slen in *; cbn in *; [lia|]. rewrite IH by lia. done.
Qed.

Lemma ReadAllLimit_complete b limit data : 0 ≤ limit → ReadAllLimit b (limit + 1) = Ok data →
  Z.of_nat (slen data) ≤ limit → b = Stream data None.
Proof.
  intros Hl. unfold ReadAllLimit. destruct (Z.ltb_spec (Z.of_nat (slen (s_data b))) (limit + 1)) as [Hs|Hs].
  - destruct b as [d [e|]]; cbn; [done|]. by intros [= ->].
  - intros [= <-]. rewrite stake_len by lia. lia.
Qed.
Lemma readAllLimited_complete b limit data : 0 ≤ limit → readAllLimited b limit = Ok data →
  b = Stream data None ∧ Z.of_nat (slen data) ≤ limit.
Proof.
  intros Hl. unfold readAllLimited. cbn. destruct (ReadAllLimit b (limit + 1)) as [d|e] eqn:E; [|done]. cbn.
  destruct (Z.ltb_spec limit (Z.of_nat (slen d))); [done|]. intros [= <-]. split; [|done]. by eapply ReadAllLimit_complete.
Qed.

Section verified.
Context `{Host}.

(** the complete body of an answer with status 200 *)
Definition served (url body : string) (limit : Z) : Prop :=
  http_get url = Ok (Response 200 (Stream body None)) ∧ Z.of_nat (slen body) ≤ limit.
(** the digest of a line of the list of checksums *)
Definition listed (sums name digest : string) : Prop :=
  ∃ line, line ∈ split_char nlc sums ∧ (fields line = [digest; name] ∨ fields line = [digest; String "*" name]).
Definition member (body asset data : string) : Prop :=
  (has_suffix ".tar.gz" asset = true ∧ gzip_error body = None ∧
     ∃ n, Base n = "a2abridge" ∧ Ok (n, Stream data None) ∈ tar_entries body) ∨
  (has_suffix ".zip" asset = true ∧
     ∃ n l, Base n = "a2abridge.exe" ∧ zip_files body = Ok l ∧ ZipFile n (Ok (Stream data None)) None ∈ l).

Lemma httpGetLimited_served url limit body : 0 ≤ limit → httpGetLimited url limit = Ok body → served url body limit.
Proof.
  intros Hl. unfold httpGetLimited, served. cbn. destruct (http_get url) as [[st b]|e]; [|done]. cbn.
  destruct (Z.eqb_spec st 200) as [->|]; [|done]. cbn. destruct (ReadAllLimit b (limit + 1)) as [d|e] eqn:E; [|done]. cbn.
  destruct (Z.ltb_spec limit (Z.of_nat (slen d))); [done|]. intros [= <-]. split; [|done].
  by rewrite (ReadAllLimit_complete _ _ _ Hl E).
Qed.

Lemma findChecksum_listed sums name d : findChecksum sums name = Ok d → listed sums name d.
Proof.
  unfold findChecksum, listed. induction (split_char nlc sums) as [|line lines IH]; [done|]. cbn [find_digest].
  assert (Hnext : find_digest name lines = Ok d → ∃ k, k ∈ line :: lines ∧
    (fields k = [d; name] ∨ fields k = [d; String "*" name])).
  { intros Hd. destruct (IH Hd) as (k & Hk & Hf). exists k. split; [by right|done]. }
  destruct (fields line) as [|x [|f [|y k]]] eqn:Ef; try exact Hnext.
  destruct (String.eqb_spec (trim_prefix "*" f) name) as [Hn|_]; [|exact Hnext].
  intros [= <-]. exists line. split; [by left|]. rewrite Ef. unfold trim_prefix in Hn.
  destruct (cut_prefix "*" f) as [u|] eqn:Ec; cbn in Hn; [|by subst; left]. apply cut_prefix_spec in Ec as ->. subst u. by right.
Qed.

Lemma tar_member_found name l data : tar_member name l = Ok data →
  ∃ n, Base n = name ∧ Ok (n, Stream data None) ∈ l ∧ Z.of_nat (slen data) ≤ maxBinaryBytes.
Proof.
  induction l as [|[[n st]|e] l IH]; cbn [tar_member]; try done. destruct (String.eqb_spec (Base n) name) as [<-|_]; cbn [negb].
  - intros [-> Hl]%readAllLimited_complete; [|done]. exists n. split_and!; [done|by left|done].
  - intros Hm. destruct (IH Hm) as (m & Hn & Hin & Hl). exists m. split_and!; [done|by right|done].
Qed.

(** What is installed was served completely, within the limits, and its digest is
    the one published for it. *)
Lemma fetch_verified baseURL asset fresh : fetch_binary baseURL asset = Ok fresh →
  Z.of_nat (slen fresh) ≤ maxBinaryBytes ∧ ∃ body sums digest,
    served (baseURL +:+ "/" +:+ asset) body maxArchiveBytes ∧
    served (baseURL +:+ "/checksums.txt") sums maxChecksumsBytes ∧
    listed sums asset digest ∧ fold_case (hex_encode (Sum256 body)) = fold_case digest ∧ member body asset fresh.
Proof.
  unfold fetch_binary. destruct (httpGetLimited _ maxArchiveBytes) as [body|e] eqn:Hb; [|done].
  apply httpGetLimited_served in Hb; [|done]. cbn [mbind result_bind]. unfold verifyChecksum.
  destruct (httpGetLimited _ maxChecksumsBytes) as [sums|e] eqn:Hs; [|done]. apply httpGetLimited_served in Hs; [|done].
  cbn [mbind result_bind]. destruct (findChecksum sums asset) as [want|e] eqn:Hc; [|done]. cbn [mbind result_bind]. cbv zeta.
  destruct (EqualFold _ want) eqn:Hf; [|done]. cbn [negb mbind result_bind]. apply String.eqb_eq in Hf.
  apply findChecksum_listed in Hc. intros Hm.
  assert (Hmem : member body asset fresh ∧ Z.of_nat (slen fresh) ≤ maxBinaryBytes).
  { unfold member. destruct (has_suffix ".tar.gz" asset).
    - destruct (extractTarGzMember body "a2abridge") as [d|e] eqn:Et; [|done]. injection Hm as ->.
      unfold extractTarGzMember in Et. destruct (gzip_error body); [done|].
      destruct (tar_member_found _ _ _ Et) as (n & Hn & Hin & Hl). split; [|done]. left. split_and!; eauto.
    - destruct (has_suffix ".zip" asset); [|done].
      destruct (extractZipMember body "a2abridge.exe") as [d|e] eqn:Ez; [|done]. injection Hm as ->.
      unfold extractZipMember in Ez. cbn in Ez. destruct (zip_files body) as [l|e]; [|done]. cbn in Ez.
      destruct (List.find _ l) as [[n o c]|] eqn:Hfind; [|done]. apply List.find_some in Hfind as [Hin Hn%String.eqb_eq].
      cbn in Ez, Hn. destruct o as [st|e]; [|done]. cbn in Ez. destruct (readAllLimited st maxBinaryBytes) as [d|e] eqn:Er; [|done].
      destruct c; [done|]. injection Ez as ->. apply readAllLimited_complete in Er as [-> Hl]; [|done]. split; [|done].
      right. split; [done|]. exists n, l. split_and!; [done..|by apply list_elem_of_In]. }
  destruct Hmem as [Hmem Hl]. split; [done|]. exists body, sums, want. done.
Qed.
End verified.

(** * The swap: theorems *)

Section swap.
Context `{Host}.

Lemma sapp_ne (s t : string) : t ≠ "" → s +:+ t ≠ s.
Proof. intros Ht E. apply Ht. apply (sapp_inj_l s). by rewrite sapp_nil_r. Qed.
Lemma paths_distinct dst : bak_path dst ≠ dst ∧ new_path dst ≠ dst ∧ bak_path dst ≠ new_path dst.
Proof.
  unfold bak_path, new_path. split_and!; [by apply sapp_ne|by apply sapp_ne|]. intros E%sapp_inj_l. done.
Qed.

Lemma swap_spec fresh dst w : let r := swap fresh dst w in
  same_except [dst; bak_path dst; new_path dst] w r.2 ∧
  match r.1 with
  | None => ∃ f, files w !! dst = Some f ∧
      files r.2 !! dst = Some (File (match files w !! new_path dst with Some g => f_mode g | None => 493 end) fresh) ∧
      files r.2 !! bak_path dst = Some f ∧ files r.2 !! new_path dst = None
  | Some _ => files r.2 !! dst = files w !! dst ∨
      rename_fault w (bak_path dst) = true ∧ files r.2 !! bak_path dst = files w !! dst
  end.
Proof.
  destruct (paths_distinct dst) as (Hb & Hn & Hbn). unfold swap, same_except. cbv zeta.
  set (bak := bak_path dst) in *. set (tmp := new_path dst) in *. clearbody bak tmp.
  unfold mbind, ST_bind, mret, ST_ret, Rename, WriteFile, Remove, set_files. cbn [files rename_fault write_fault read_fault].
  destruct (rename_fault w dst); [by split; [|left]|].
  destruct (files w !! dst) as [f|] eqn:Ef; [|by split; [|left]]. cbn [files rename_fault write_fault read_fault].
  rewrite lookup_insert_ne, lookup_delete_ne by done.
  destruct (write_fault w tmp) as [part|]; cbn [files rename_fault write_fault read_fault].
  all: destruct (rename_fault w bak) eqn:Hrb.
  all: rewrite ?(lookup_insert_ne _ tmp bak), ?lookup_insert_eq by done; cbn [files rename_fault write_fault read_fault fst snd].
  all: try destruct (rename_fault w tmp); cbn [files rename_fault write_fault read_fault fst snd].
  all: rewrite ?lookup_insert_eq; cbn [files rename_fault write_fault read_fault fst snd].
  all: rewrite ?Hrb; cbn [files rename_fault write_fault read_fault fst snd].
  all: rewrite ?(lookup_delete_ne _ tmp bak), ?(lookup_insert_ne _ tmp bak), ?lookup_insert_eq by done; cbn [files rename_fault write_fault read_fault fst snd].
  all: split; [intros r Hr; rewrite !not_elem_of_cons in Hr; destruct Hr as (H1 & H2 & H3 & _);
    by rewrite ?lookup_insert_ne, ?lookup_delete_ne, ?lookup_insert_ne, ?lookup_delete_ne, ?lookup_insert_ne, ?lookup_delete_ne by done|].
  all: try (left; by rewrite ?lookup_insert_eq).
  all: try (right; split; [done|]; by rewrite ?(lookup_delete_ne _ tmp bak), ?(lookup_insert_ne _ tmp bak), ?lookup_insert_eq by done).
  all: exists f; split_and!; try done; rewrite ?lookup_insert_eq; try done.
  all: rewrite ?lookup_insert_ne, ?lookup_delete_eq by done; try done.
  all: by rewrite lookup_delete_ne, lookup_insert_ne, lookup_insert_eq by done.
Qed.
End swap.

Section command.
Context `{Host}.

(** C12: the update installs only what was downloaded completely from the release,
    within the limits, with the digest published for it; the old binary stays
    beside it. Whatever fails, the old binary is still in place, or, when even
    renaming it back fails, in its backup. Nothing else is touched but the path
    the new binary is written to. *)
Theorem downloadAndReplace_spec baseURL asset dst w : let r := downloadAndReplace baseURL asset dst w in
  same_except [dst; bak_path dst; new_path dst] w r.2 ∧
  match r.1 with
  | None => ∃ old fresh mode body sums digest,
      files w !! dst = Some old ∧ files r.2 !! dst = Some (File mode fresh) ∧
      files r.2 !! bak_path dst = Some old ∧ files r.2 !! new_path dst = None ∧
      (files w !! new_path dst = None → mode = 493) ∧
      served (baseURL +:+ "/" +:+ asset) body maxArchiveBytes ∧
      served (baseURL +:+ "/checksums.txt") sums maxChecksumsBytes ∧
      listed sums asset digest ∧ fold_case (hex_encode (Sum256 body)) = fold_case digest ∧ member body asset fresh
  | Some e => (is_ok (fetch_binary baseURL asset) = false → r.2 = w) ∧
      (files r.2 !! dst = files w !! dst ∨
       rename_fault w (bak_path dst) = true ∧ files r.2 !! bak_path dst = files w !! dst)
  end.
Proof.
  unfold downloadAndReplace. cbv zeta. destruct (fetch_binary baseURL asset) as [fresh|e] eqn:Hf; cycle 1.
  { cbn. split; [by intros r Hr|]. split; [done|by left]. }
  pose proof (swap_spec fresh dst w) as Hs. cbv zeta in Hs. destruct (swap fresh dst w) as [[e|] w']; cbn [fst snd] in *.
  { destruct Hs as [Hs1 Hs2]. split; [done|]. split; [done|]. exact Hs2. }
  destruct Hs as (Hs & f & H1 & H2 & H3 & H4). split; [done|].
  destruct (fetch_verified _ _ _ Hf) as (_ & body & sums & digest & Hb & Hsu & Hl & Hd & Hm).
  exists f, fresh, (match files w !! new_path dst with Some g => f_mode g | None => 493 end), body, sums, digest.
  split_and!; try done. by intros ->.
Qed.

(** the exit code and the files, without what is printed *)
Definition effect {A} (r : A * console) : A * fs := (r.1, c_fs r.2).

Lemma install_effect current repo target check exe c :
  effect (install current repo target check exe c) =
    if check then (1, c_fs c) else
    match assetName target, exe with
    | Ok asset, Ok p =>
        let r := downloadAndReplace ("https://github.com/" +:+ repo +:+ "/releases/download/" +:+ target) asset p (c_fs c) in
        (match r.1 with None => 0 | Some _ => 1 end, r.2)
    | _, _ => (1, c_fs c)
    end.
Proof.
  unfold install. destruct check; [done|]. destruct (assetName target) as [asset|e]; [|done]. cbv zeta.
  rewrite ST_bind_run. destruct exe as [p|e]; [|done]. rewrite ST_bind_run. unfold eval, exec, out, modify, on_fs. cbn [fst snd c_fs].
  by destruct (downloadAndReplace _ asset p (c_fs c)) as [[e|] w].
Qed.

Lemma compare_install_effect current repo want target check exe c :
  effect (compare_install current repo want target check exe c) =
    match compareVersions current target with
    | Some 0 => (0, c_fs c)
    | Some (Zpos _) => (if String.eqb want "" then 0 else 1, c_fs c)
    | _ => effect (install current repo target check exe c)
    end.
Proof.
  unfold compare_install. rewrite !ST_bind_run.
  assert (Hi : ∀ c', c_fs c' = c_fs c → effect (install current repo target check exe c') = effect (install current repo target check exe c)).
  { intros c' Hc. by rewrite !install_effect, Hc. }
  destruct (compareVersions current target) as [[|k|k]|]; [done| |by apply Hi..].
  cbn [Z.eqb Z.ltb Z.compare]. by destruct (String.eqb want "").
Qed.

Lemma exits_effect m c : effect (exits m c) = (Exit (effect (m c)).1, (effect (m c)).2).
Proof. unfold exits. rewrite ST_bind_run. unfold effect, eval, exec. by destruct (m c). Qed.

(** what an update to [target] does *)
Definition updated (current repo target : string) (exe : result goerror string) (w : fs) : Z * fs :=
  match assetName target, exe with
  | Ok asset, Ok p =>
      let r := downloadAndReplace ("https://github.com/" +:+ repo +:+ "/releases/download/" +:+ target) asset p w in
      (match r.1 with None => 0 | Some _ => 1 end, r.2)
  | _, _ => (1, w)
  end.

(** C38: an update never goes back. With [--check] no file changes, the exit code
    is 0 when the running version is the target or newer than the latest release
    and 1 when the target is newer or cannot be compared with it. Without, the
    files change only when the target is newer than the running version or cannot
    be compared with it, and then only as [downloadAndReplace] changes them; an
    older release named explicitly is refused; the exit code is 0 when the new
    binary is in place or there is nothing to do and 1 otherwise. A usage error
    exits 2. A repository name that gives no URL makes the lookup of the latest
    tag panic, because the error of the request's construction is dropped. *)
Theorem RunUpdate_spec env current exe args c : let r := effect (RunUpdate env current exe args c) in
  match Parse update_flags [] args with
  | ErrHelp => r = (Exit 0, c_fs c)
  | BadFlag => r = (Exit 2, c_fs c)
  | Flags values _ =>
      let repo := default (if String.eqb env "" then defaultRepo else env) (assoc_get "repo" values) in
      let want := default "" (assoc_get "version" values) in
      let check := bool_decide (assoc_get "check" values = Some "true") in
      (check = true → r.2 = c_fs c) ∧
      (want = "" → parse_url (latest_url repo) = None → r = (Panic, c_fs c)) ∧
      match (if String.eqb want "" then resolveLatestTag repo else Some (Ok want)) with
      | None => r.1 = Panic
      | Some (Err _) | Some (Ok "") => r.2 = c_fs c ∧ (check = false → r.1 = Exit 1)
      | Some (Ok target) =>
          match compareVersions current target with
          | Some 0 => r = (Exit 0, c_fs c)
          | Some (Zpos _) => r.2 = c_fs c ∧ (want = "" → r.1 = Exit 0) ∧ (check = false → want ≠ "" → r.1 = Exit 1)
          | _ => if check then r = (Exit 1, c_fs c)
                 else r = (Exit (updated current repo target exe (c_fs c)).1, (updated current repo target exe (c_fs c)).2)
          end
      end
  end.
Proof.
  unfold RunUpdate. cbv zeta. destruct (Parse update_flags [] args) as [values rest| |]; [|done..].
  set (repo := default (if String.eqb env "" then defaultRepo else env) _). set (want := default "" _). set (check := bool_decide _).
  set (warn := when _ _). assert (Hw : c_fs (exec warn c) = c_fs c) by (unfold warn; by destruct (_ && _)).
  clearbody warn check repo want. rewrite ST_bind_run. rewrite <-Hw. generalize (exec warn c). intros c'. clear c Hw warn.
  assert (Hc : ∀ target, let r := effect (exits (compare_install current repo want target check exe) c') in
    (check = true → r.2 = c_fs c') ∧
    match compareVersions current target with
    | Some 0 => r = (Exit 0, c_fs c')
    | Some (Zpos _) => r.2 = c_fs c' ∧ (want = "" → r.1 = Exit 0) ∧ (check = false → want ≠ "" → r.1 = Exit 1)
    | _ => if check then r = (Exit 1, c_fs c')
           else r = (Exit (updated current repo target exe (c_fs c')).1, (updated current repo target exe (c_fs c')).2)
    end).
  { intros target. cbv zeta. rewrite exits_effect, compare_install_effect, install_effect. cbv zeta. unfold updated.
    destruct (compareVersions current target) as [[|k|k]|]; [done| |by destruct check..].
    destruct (String.eqb_spec want ""); split_and!; done. }
  destruct (String.eqb_spec want "") as [Hwant|Hwant].
  - unfold resolveLatestTag. destruct (parse_url (latest_url repo)); [|split_and!; done].
    destruct (read_latest repo) as [latest|e]; [|split_and!; done]. destruct latest as [|x latest]; [split_and!; done|].
    cbn [String.eqb]. split_and!; [apply Hc|done|apply Hc].
  - destruct want as [|x want']; [done|]. split_and!; [apply Hc|done|apply Hc].
Qed.

(** Beside the usage text: with --check a lookup that fails exits with 1 as well,
    the code for an update that is available. *)
Lemma check_lookup_failed current exe e c : resolveLatestTag defaultRepo = Some (Err e) →
  effect (RunUpdate "" current exe ["--check"] c) = (Exit 1, c_fs c).
Proof.
  intros He. unfold RunUpdate. change (Parse update_flags [] ["--check"]) with (Flags [("check", "true")] []).
  cbn [assoc_get String.eqb default from_option id negb andb when].
  rewrite ST_bind_run. change (assoc_get "repo" [("check", "true")]) with (@None string). cbn. by rewrite He.
Qed.
End command.
