(* ===== verification/Federation.v ===== *)
(** Mutual TLS between machines ([internal/security/tls.go]) and the part of the
    bridge's start that depends on it ([internal/cli/bridge.go]). *)
From Stdlib Require Import Ascii.
From stdpp Require Import base list sets strings.
From S2P Require Import Prelude GoStrings A2A GoFS.

Open Scope string_scope.
Open Scope Z_scope.
Open Scope list_scope.

(** The fields of a certificate that the program reads; the addresses as printed. *)
Record certificate := Certificate { CommonName : string; DNSNames : list string; IPAddresses : list string }.

(** Packages [crypto/tls] and [crypto/x509]: reading a key pair and a bundle, the
    verification of a chain against a pool ([None]: the roots of the system), and
    the texts of errors; [strings.ToLower]. *)
Class TLS := {
  keypair : Type;
  LoadX509KeyPair : string → string → fs → result goerror keypair;
  pem_certs : string → list certificate;
  verified : option (list certificate) → list certificate → bool;
  os_text : io_error → goerror;
  ToLower : string → string }.

(* src/internal/security/tls.go (FederationConfig) *)
Record FederationConfig := Federation { CertFile : string; KeyFile : string; TrustRoots : list string; PeerAllowCN : list string }.

Definition nonempty (s : string) : bool := negb (String.eqb s "").

(** [strings.FieldsFunc] at the two separators, each part trimmed, empty ones dropped *)
(* src/internal/security/tls.go (splitPaths) *)
Definition splitPaths (s : string) : list string :=
  List.filter nonempty (map trim_space (List.filter nonempty (flat_map (split_char ";") (split_char ":" s)))).

(** [env] is [os.Getenv]. *)
(* src/internal/security/tls.go (FromEnv) *)
Definition FromEnv (env : string → string) : FederationConfig :=
  Federation (env "A2A_TLS_CERT") (env "A2A_TLS_KEY")
    (let roots := env "A2A_TRUST_ROOTS" in if nonempty roots then splitPaths roots else [])
    (let allow := env "A2A_PEER_ALLOW" in
     if nonempty allow then List.filter nonempty (map trim_space (split_char "," allow)) else []).

(* src/internal/security/tls.go (FederationConfig.Enabled) *)
Definition Enabled (c : FederationConfig) : bool := nonempty (CertFile c) && nonempty (KeyFile c).

Section tls.
Context `{TLS}.

(** [tls.ClientAuthType] *)
Inductive client_auth :=
| NoClientCert | RequestClientCert | RequireAnyClientCert | VerifyClientCertIfGiven | RequireAndVerifyClientCert.

(** What the program sets in a [tls.Config]; a client's leaves [ClientAuth] at its
    zero value. *)
Record config := Config {
  Certificates : list keypair;
  ClientCAs : option (list certificate);
  ClientAuth : client_auth;
  RootCAs : option (list certificate);
  MinTLS13 : bool;
  VerifyConnection : option (list certificate → result goerror unit) }.

(** [pool.AppendCertsFromPEM] fails when the file holds no certificate. *)
(* src/internal/security/tls.go:161-169 (loadTrustPool) *)
Fixpoint load_bundles (paths : list string) (pool : list certificate) (w : fs) : result goerror (list certificate) :=
  match paths with
  | [] => Ok pool
  | p :: paths =>
      match ReadFile p w with
      | Err e => Err (wrapf ("read " +:+ p +:+ ": ") (os_text e))
      | Ok raw =>
          match pem_certs raw with
          | [] => Err (errors_new ("no PEM certs in " +:+ p))
          | certs => load_bundles paths (pool ++ certs) w
          end
      end
  end.

(* src/internal/security/tls.go (loadTrustPool) *)
Definition loadTrustPool (paths : list string) (w : fs) : result goerror (option (list certificate)) :=
  match paths with
  | [] => Ok None
  | _ => pool ← load_bundles paths [] w; Ok (Some pool)
  end.

(** the names a peer's certificate is known by *)
(* src/internal/security/tls.go:107-114 (ServerTLSConfig) *)
Definition candidates (c : certificate) : list string :=
  ToLower (CommonName c) :: DNSNames c ++ IPAddresses c.

(* src/internal/security/tls.go:95-121 (ServerTLSConfig) *)
Definition verify_peer (allowed : list string) (peers : list certificate) : result goerror unit :=
  match peers with
  | [] => Err (errors_new "peer presented no certificate")
  | cert :: _ =>
      let allow := map ToLower allowed in
      if existsb (λ cand, bool_decide (ToLower cand ∈ allow)) (candidates cert) then Ok tt
      else Err (errors_new ("peer CN/SAN [" +:+ join " " (candidates cert) +:+ "] not in allow-list [" +:+ join " " allowed +:+ "]"))
  end.

(* src/internal/security/tls.go (FederationConfig.ServerTLSConfig) *)
Definition ServerTLSConfig (c : FederationConfig) (w : fs) : result goerror config :=
  if negb (Enabled c) then Err (errors_new "federation not enabled (A2A_TLS_CERT/A2A_TLS_KEY unset)") else
  if (length (TrustRoots c) =? 0)%nat then
    Err (errors_new "mTLS enabled but A2A_TRUST_ROOTS is empty; refusing to fall back to the system root pool for client-cert verification")
  else
    match LoadX509KeyPair (CertFile c) (KeyFile c) w with
    | Err e => Err (wrapf "load cert/key: " e)
    | Ok cert =>
        match loadTrustPool (TrustRoots c) w with
        | Err e => Err (wrapf "load trust roots: " e)
        | Ok pool =>
            Ok (Config [cert] pool RequireAndVerifyClientCert None true
              (if (0 <? length (PeerAllowCN c))%nat then Some (verify_peer (PeerAllowCN c)) else None))
        end
    end.

(* src/internal/security/tls.go (FederationConfig.ClientTLSConfig) *)
Definition ClientTLSConfig (c : FederationConfig) (w : fs) : result goerror (option config) :=
  if negb (Enabled c) then Ok None else
  if (length (TrustRoots c) =? 0)%nat then
    Err (errors_new "mTLS enabled but A2A_TRUST_ROOTS is empty; refusing to fall back to the system root pool for server-cert verification")
  else
    match LoadX509KeyPair (CertFile c) (KeyFile c) w with
    | Err e => Err (wrapf "load cert/key: " e)
    | Ok cert =>
        match loadTrustPool (TrustRoots c) w with
        | Err e => Err (wrapf "load trust roots: " e)
        | Ok pool => Ok (Some (Config [cert] None NoClientCert pool true None))
        end
    end.

(** ** How the bridge uses it *)

(** the scheme it advertises, and the settings of its server and of its calls to
    peers; an error stops the start. *)
Record transport := Transport { scheme : string; server_tls : option config; client_tls : option config; allowPrivatePush : bool }.

(* src/internal/cli/bridge.go:119-123 (RunBridge) *)
Definition advertised_scheme (fed : FederationConfig) : string := if Enabled fed then "https" else "http".

(* src/internal/cli/bridge.go:223-251 (RunBridge) *)
Definition bridge_transport (fed : FederationConfig) (env : string → string) (w : fs) : result goerror transport :=
  client ← ClientTLSConfig fed w;
  let private := negb (Enabled fed) || String.eqb (env "A2A_PUSH_ALLOW_PRIVATE") "1" in
  if Enabled fed then
    server ← ServerTLSConfig fed w;
    Ok (Transport (advertised_scheme fed) (Some server) client private)
  else Ok (Transport (advertised_scheme fed) None client private).

(** The server's side of a handshake with a peer that presents [peers] when asked:
    [ClientAuth] says whether a chain is asked for, whether there must be one and
    whether it must verify against the pool; then [VerifyConnection] decides. *)
Definition accepts (c : config) (peers : list certificate) : bool :=
  let presented := match ClientAuth c with NoClientCert => [] | _ => peers end in
  let some := negb (length presented =? 0)%nat in
  match ClientAuth c with
  | NoClientCert | RequestClientCert => true
  | RequireAnyClientCert => some
  | VerifyClientCertIfGiven => negb some || verified (ClientCAs c) presented
  | RequireAndVerifyClientCert => some && verified (ClientCAs c) presented
  end &&
  match VerifyConnection c with Some f => is_ok (f presented) | None => true end.
End tls.

(** * Theorems *)

Section theorems.
Context `{TLS}.

Lemma load_bundles_spec paths pool w pool' : load_bundles paths pool w = Ok pool' →
  ∀ c, c ∈ pool' ↔ c ∈ pool ∨ ∃ p raw, p ∈ paths ∧ ReadFile p w = Ok raw ∧ c ∈ pem_certs raw.
Proof.
  revert pool. induction paths as [|p paths IH]; intros pool; cbn [load_bundles]; [intros [= ->] c; set_solver|].
  destruct (ReadFile p w) as [raw|e] eqn:Hr; [|done]. destruct (pem_certs raw) as [|x certs] eqn:Hp; [done|].
  intros Hl c. rewrite (IH _ Hl c), elem_of_app. split.
  - intros [[Hc|Hc]|(q & raw' & Hq & Hrq & Hc)]; [by left| |].
    + right. exists p, raw. rewrite Hp. split_and!; [by left|done..].
    + right. exists q, raw'. split_and!; [by right|done..].
  - intros [Hc|(q & raw' & Hq & Hrq & Hc)]; [by left; left|]. apply elem_of_cons in Hq as [->|Hq].
    + left. right. rewrite Hr in Hrq. injection Hrq as <-. by rewrite <-Hp.
    + right. eauto.
Qed.

Lemma verify_peer_spec allowed peers : is_ok (verify_peer allowed peers) = true ↔
  ∃ leaf rest cand n, peers = leaf :: rest ∧ cand ∈ candidates leaf ∧ n ∈ allowed ∧ ToLower cand = ToLower n.
Proof.
  unfold verify_peer. destruct peers as [|leaf rest]; [split; [done|intros (? & ? & ? & ? & ? & _); done]|].
  destruct (existsb _ _) eqn:E.
  - split; [intros _|done]. apply existsb_exists in E as (cand & Hc%list_elem_of_In & Hn%bool_decide_eq_true).
    apply list_elem_of_fmap in Hn as (n & Hl & Hn). exists leaf, rest, cand, n. done.
  - split; [done|]. intros (l & r & cand & n & [= <- <-] & Hc & Hn & Hl). exfalso.
    rewrite <-not_true_iff_false in E. apply E. apply existsb_exists. exists cand. split; [by apply list_elem_of_In|].
    apply bool_decide_eq_true. rewrite Hl. by apply list_elem_of_fmap_2.
Qed.

(** C13: with a certificate and a key configured the bridge either does not start or
    accepts exactly the connections of peers whose chain verifies against the
    configured roots (never against those of the system) and, when there is an
    allow-list, whose certificate carries a listed name, whatever its case; its
    own calls verify peers against the same roots. Without both it is plain HTTP. *)
Theorem federation_gate fed env w :
  match bridge_transport fed env w with
  | Err _ => Enabled fed = true
  | Ok t =>
      if Enabled fed then scheme t = "https" ∧ ∃ srv cli roots,
        server_tls t = Some srv ∧ client_tls t = Some cli ∧ TrustRoots fed ≠ [] ∧
        ClientCAs srv = Some roots ∧ RootCAs cli = Some roots ∧ MinTLS13 srv = true ∧ MinTLS13 cli = true ∧
        (∀ c, c ∈ roots ↔ ∃ p raw, p ∈ TrustRoots fed ∧ ReadFile p w = Ok raw ∧ c ∈ pem_certs raw) ∧
        (∀ peers, accepts srv peers = true ↔ peers ≠ [] ∧ verified (Some roots) peers = true ∧
          (PeerAllowCN fed = [] ∨ ∃ leaf rest cand n, peers = leaf :: rest ∧ cand ∈ candidates leaf ∧
             n ∈ PeerAllowCN fed ∧ ToLower cand = ToLower n))
      else t = Transport "http" None None true
  end.
Proof.
  unfold bridge_transport, ClientTLSConfig, ServerTLSConfig, advertised_scheme. destruct (Enabled fed) eqn:He; [|done]. cbn [negb].
  destruct (TrustRoots fed) as [|p paths] eqn:Hr; [done|]. cbn [length Nat.eqb].
  destruct (LoadX509KeyPair _ _ w) as [kp|e]; [|done].
  unfold loadTrustPool. cbn [mbind result_bind].
  destruct (load_bundles (p :: paths) [] w) as [roots|e] eqn:Hl; [|done]. cbn [mbind result_bind].
  split; [done|]. eexists _, _, roots. split_and!; [done..| |].
  - intros c. rewrite (load_bundles_spec _ _ _ _ Hl c). set_solver.
  - intros peers. unfold accepts. cbn [ClientCAs ClientAuth VerifyConnection]. cbv zeta. rewrite !andb_true_iff, negb_true_iff, Nat.eqb_neq.
    assert (Hne : length peers ≠ 0%nat ↔ peers ≠ []) by (destruct peers; naive_solver). rewrite Hne.
    destruct (PeerAllowCN fed) as [|a allow] eqn:Ha; cbn [length Nat.ltb Nat.leb]; [naive_solver|].
    rewrite verify_peer_spec. naive_solver.
Qed.
End theorems.

Lemma split_char_join c (l : list string) : l ≠ [] → Forall (λ p, contains_char c p = false) l →
  split_char c (join (String c "") l) = l.
Proof.
  intros Hne Hl. induction Hl as [|p l Hp Hl IH]; [done|]. destruct l as [|q l].
  - cbn [join]. by apply split_char_single.
  - change (join (String c "") (p :: q :: l)) with (p +:+ String c (join (String c "") (q :: l))).
    rewrite split_char_cons by done. f_equal. by apply IH.
Qed.
Lemma contains_char_join c d (l : list string) : c ≠ d → Forall (λ p, contains_char c p = false) l →
  contains_char c (join (String d "") l) = false.
Proof.
  intros Hcd Hl. assert (Happ : ∀ s t, contains_char c s = false → contains_char c t = false → contains_char c (s +:+ t) = false).
  { unfold contains_char. induction s as [|a s IH]; cbn; [done|]. intros t [-> Hs]%orb_false_iff Ht. cbn. by apply IH. }
  induction Hl as [|p l Hp Hl IH]; [done|]. destruct l as [|q l]; [done|].
  change (join (String d "") (p :: q :: l)) with (p +:+ String d (join (String d "") (q :: l))). apply Happ; [done|].
  unfold contains_char in *. cbn [String.list_ascii_of_string existsb]. rewrite IH, orb_false_r.
  apply Ascii.eqb_neq. congruence.
Qed.
Lemma filter_nonempty (l : list string) : Forall (λ p, p ≠ "") l → List.filter nonempty l = l.
Proof.
  induction 1 as [|p l Hp Hl IH]; [done|]. cbn. unfold nonempty. rewrite (proj2 (String.eqb_neq p "") Hp). cbn. by f_equal.
Qed.

(** The paths of a list joined with colons or with semicolons come back. On
    Windows the colon of a drive is a separator too. *)
Lemma splitPaths_join sep (l : list string) : sep = ":"%char ∨ sep = ";"%char →
  Forall (λ p, p ≠ "" ∧ trim_space p = p ∧ contains_char ":" p = false ∧ contains_char ";" p = false) l →
  splitPaths (join (String sep "") l) = l.
Proof.
  intros Hsep Hl. apply Forall_and in Hl as [Hne Hl]. apply Forall_and in Hl as [Htrim Hl]. apply Forall_and in Hl as [Hcol Hsemi].
  destruct l as [|p l]; [by vm_compute|].
  assert (Hflat : flat_map (split_char ";") (split_char ":" (join (String sep "") (p :: l))) = p :: l).
  { destruct Hsep as [-> | ->].
    - rewrite split_char_join by done. clear -Hsemi. induction Hsemi as [|q k Hq Hk IH]; [done|]. cbn [flat_map].
      rewrite split_char_single by done. cbn. by f_equal.
    - rewrite (split_char_single ":") by (by apply contains_char_join). cbn [flat_map]. rewrite app_nil_r.
      by apply split_char_join. }
  unfold splitPaths. rewrite Hflat, (filter_nonempty (p :: l)) by done.
  assert (Hmap : map trim_space (p :: l) = p :: l).
  { clear -Htrim. induction Htrim as [|q k Hq Hk IH]; [done|]. cbn. by rewrite Hq, IH. }
  by rewrite Hmap, (filter_nonempty (p :: l)).
Qed.

Example splitPaths_drive : splitPaths "C:\certs\ca.pem" = ["C"; "\certs\ca.pem"].
Proof. vm_compute. reflexivity. Qed.
