(* ===== verification/Mdns.v ===== *)
(** Discovery on the local network ([internal/mdns/mdns.go]): the record a bridge
    publishes and the addresses a sweep collects. *)
From Stdlib Require Import Ascii.
From stdpp Require Import base list sets strings.
From S2P Require Import Prelude GoStrings Json A2A GoUrl.

Open Scope string_scope.
Open Scope Z_scope.
Open Scope list_scope.

(** What the program sees of a [zeroconf.ServiceEntry]. *)
Record ServiceEntry := MkEntry { HostName : string; Port : Z; Text : list string }.

(** [u.Port()]: what follows the last colon of the host when it is a port *)
Definition url_port (host : string) : string :=
  match cut_last ":" host with
  | Some (_, port) => if valid_port (String ":" port) then port else ""
  | None => ""
  end.

(* src/internal/mdns/mdns.go (portFromURL) *)
Definition portFromURL (u : url) : string :=
  let p := url_port (u_host u) in
  if String.eqb p "" then
    if String.eqb (u_scheme u) "http" then "80" else if String.eqb (u_scheme u) "https" then "443" else ""
  else p.

(* src/internal/mdns/mdns.go:119-129 (urlFromEntry) *)
Fixpoint txt_url (l : list string) : option string :=
  match l with
  | [] => None
  | t :: l =>
      match cut_prefix "url=" t with
      | None => txt_url l
      | Some raw =>
          match parse_url raw with
          | Some u =>
              if (negb (String.eqb (u_scheme u) "http") && negb (String.eqb (u_scheme u) "https")) || String.eqb (u_host u) ""
              then txt_url l else Some raw
          | None => txt_url l
          end
      end
  end.

(* src/internal/mdns/mdns.go (urlFromEntry) *)
Definition urlFromEntry (e : ServiceEntry) : string :=
  match txt_url (Text e) with
  | Some raw => raw
  | None =>
      if String.eqb (HostName e) "" || (Port e =? 0) then ""
      else "http://" +:+ trim_suffix "." (HostName e) +:+ ":" +:+ itoa (Port e)
  end.

(** What one round of the [select] sees: an entry, the channel closed, or the end
    of the sweep; both ends return what was found. *)
Inductive event := Entry (e : ServiceEntry) | Closed | Done.

(* src/internal/mdns/mdns.go:97-110 (Browse) *)
Fixpoint Browse_loop (urls : list string) (seen : list string) (l : list event) : list string :=
  match l with
  | [] | Closed :: _ | Done :: _ => urls
  | Entry e :: l =>
      let u := urlFromEntry e in
      if negb (String.eqb u "") && negb (bool_decide (u ∈ seen)) then Browse_loop (urls ++ [u]) (u :: seen) l
      else Browse_loop urls seen l
  end.

(** [init]: creating the resolver and starting the query, which can fail *)
(* src/internal/mdns/mdns.go (Browse) *)
Definition Browse (init : option goerror) (l : list event) : result goerror (list string) :=
  match init with Some e => Err e | None => Ok (Browse_loop [] [] l) end.

(** What [zeroconf.Register] is called with: the name, the port and the text. *)
(* src/internal/mdns/mdns.go:37-55 (Publish) *)
Definition publish_args (instanceName peerURL : string) : option (string * Z * list string) :=
  u ← parse_url peerURL;
  port ← atoi (portFromURL u);
  Some (if String.eqb instanceName "" then "a2abridge-peer" else instanceName, port,
        ["a2a-version=1.0"; "url=" +:+ peerURL]).

(** ** The publisher *)

(** The library's server by a number, and the servers shut down so far. *)
(* src/internal/mdns/mdns.go:27-32 (Publisher) *)
Record Publisher := MkPublisher { pb_server : option nat }.

(** [register]: what [zeroconf.Register] gives for the arguments. [url.Parse] and
    [strconv.Atoi] are asked first; their error is passed on. *)
(* src/internal/mdns/mdns.go (Publish) *)
Definition Publish (bad : goerror) (register : string * Z * list string → result goerror nat) (instanceName peerURL : string) :
    result goerror Publisher :=
  match publish_args instanceName peerURL with
  | None => Err bad
  | Some args => match register args with Err e => Err e | Ok server => Ok (MkPublisher (Some server)) end
  end.

(** [Close] under the publisher's lock; [None] is a nil publisher *)
(* src/internal/mdns/mdns.go:65-76 (Close) *)
Definition Close (p : option Publisher) (shut : list nat) : option Publisher * list nat :=
  match p with
  | None => (None, shut)
  | Some p => match pb_server p with
              | None => (Some p, shut)
              | Some s => (Some (MkPublisher None), shut ++ [s])
              end
  end.

(** * Theorems *)

(** Closing is harmless on a nil publisher and any number of times: the
    advertisement is retracted exactly once. *)
Lemma close_once (p : option Publisher) (shut : list nat) :
  let '(p1, shut1) := Close p shut in
  Close p1 shut1 = (p1, shut1) ∧
  shut1 = shut ++ match p with Some (MkPublisher (Some s)) => [s] | _ => [] end.
Proof. destruct p as [[[s|]]|]; cbn; rewrite ?app_nil_r; done. Qed.

Definition agent_url (raw : string) : Prop :=
  ∃ u, parse_url raw = Some u ∧ (u_scheme u = "http" ∨ u_scheme u = "https") ∧ u_host u ≠ "".

Lemma txt_url_spec l : match txt_url l with
  | Some raw => agent_url raw ∧ ∃ l1 l2, l = l1 ++ ("url=" +:+ raw) :: l2 ∧ ∀ r, "url=" +:+ r ∈ l1 → ¬ agent_url r
  | None => ∀ r, "url=" +:+ r ∈ l → ¬ agent_url r
  end.
Proof.
  induction l as [|t l IH]; [cbn; set_solver|]. cbn [txt_url].
  assert (Hskip : (∀ r, t = "url=" +:+ r → ¬ agent_url r) → match txt_url l with
    | Some raw => agent_url raw ∧ ∃ l1 l2, t :: l = l1 ++ ("url=" +:+ raw) :: l2 ∧ ∀ r, "url=" +:+ r ∈ l1 → ¬ agent_url r
    | None => ∀ r, "url=" +:+ r ∈ t :: l → ¬ agent_url r
    end).
  { intros Ht. destruct (txt_url l) as [raw|].
    - destruct IH as (Ha & l1 & l2 & -> & Hl). split; [done|]. exists (t :: l1), l2. split; [done|].
      intros r [Hr|Hr]%elem_of_cons; [by apply Ht|by apply Hl].
    - intros r [Hr|Hr]%elem_of_cons; [by apply Ht|by apply IH]. }
  destruct (cut_prefix "url=" t) as [raw|] eqn:Hc; cycle 1.
  { apply Hskip. intros r ->. unfold cut_prefix in Hc. by rewrite has_prefix_app in Hc. }
  apply cut_prefix_spec in Hc as ->. unfold agent_url in *. destruct (parse_url raw) as [u|] eqn:Hp; cycle 1.
  { apply Hskip. intros r <-%sapp_inj_l (u & Hu & _). congruence. }
  destruct (String.eqb_spec (u_scheme u) "http") as [Hs|Hs], (String.eqb_spec (u_scheme u) "https") as [Hs'|Hs'],
    (String.eqb_spec (u_host u) "") as [Hh|Hh]; cbn [negb andb orb];
    try (apply Hskip; intros r <-%sapp_inj_l (u' & Hu & Hsc & Hho); rewrite Hp in Hu; injection Hu as <-; naive_solver);
    (split; [naive_solver|]; exists [], l; split; [done|]; set_solver).
Qed.

(** the entries a sweep sees before it ends *)
Fixpoint arrived (l : list event) : list ServiceEntry :=
  match l with Entry e :: l => e :: arrived l | _ => [] end.

Lemma Browse_loop_spec l urls seen : (∀ u, u ∈ seen ↔ u ∈ urls) → NoDup urls →
  let r := Browse_loop urls seen l in
  NoDup r ∧ (∃ k, r = urls ++ k) ∧
  ∀ u, u ∈ r ↔ u ∈ urls ∨ u ≠ "" ∧ ∃ e, e ∈ arrived l ∧ urlFromEntry e = u.
Proof.
  revert urls seen. induction l as [|[e| |] l IH]; intros urls seen Hs Hn; cbn [Browse_loop arrived].
  1,3,4: split_and!; [done|exists []; by rewrite app_nil_r|set_solver].
  cbv zeta. destruct (String.eqb_spec (urlFromEntry e) "") as [He|He]; cbn [negb andb].
  - destruct (IH urls seen Hs Hn) as (H1 & H2 & H3). split_and!; [done..|]. intros u. rewrite H3.
    split; [set_solver|]. intros [?|(Hu & e' & [->|Hin]%elem_of_cons & <-)]; [by left|done|]. right. eauto.
  - case_bool_decide as Hin; cbn [negb].
    + destruct (IH urls seen Hs Hn) as (H1 & H2 & H3). split_and!; [done..|]. intros u. rewrite H3.
      split; [set_solver|]. intros [?|(Hu & e' & [->|Hin']%elem_of_cons & <-)]; [by left|left; by apply Hs|]. right. eauto.
    + destruct (IH (urls ++ [urlFromEntry e]) (urlFromEntry e :: seen)) as (H1 & (k & H2) & H3).
      { intros u. rewrite elem_of_cons, elem_of_app, list_elem_of_singleton, Hs. tauto. }
      { apply NoDup_app. split_and!; [done| |apply NoDup_singleton]. intros u Hu ->%list_elem_of_singleton. by apply Hin, Hs. }
      split_and!; [done|exists ([urlFromEntry e] ++ k); by rewrite (assoc_L app)|].
      intros u. rewrite H3, elem_of_app, list_elem_of_singleton. split.
      * intros [[?| ->]|(Hu & e' & Hin' & <-)]; [by left| |].
        { right. split; [done|]. exists e. split; [by left|done]. }
        right. split; [done|]. exists e'. split; [by right|done].
      * intros [?|(Hu & e' & [->|Hin']%elem_of_cons & <-)]; [by left; left|by left; right|]. right. eauto.
Qed.

(** C40: a sweep returns each address once, exactly those of the entries seen before
    it ended. An entry's address is its first [url=] text that is an absolute
    http(s) address with a host; only when it has none, the host name and port.
    What [Publish] announces is read back as the published address. *)
Theorem Browse_spec :
  (∀ init l, match Browse init l with
    | Err e => init = Some e
    | Ok urls => init = None ∧ NoDup urls ∧ ∀ u, u ∈ urls ↔ u ≠ "" ∧ ∃ e, e ∈ arrived l ∧ urlFromEntry e = u
    end) ∧
  (∀ e, (∃ raw l1 l2, urlFromEntry e = raw ∧ agent_url raw ∧ Text e = l1 ++ ("url=" +:+ raw) :: l2 ∧
          ∀ r, "url=" +:+ r ∈ l1 → ¬ agent_url r) ∨
        (∀ r, "url=" +:+ r ∈ Text e → ¬ agent_url r) ∧
        urlFromEntry e = (if String.eqb (HostName e) "" || (Port e =? 0) then ""
          else "http://" +:+ trim_suffix "." (HostName e) +:+ ":" +:+ itoa (Port e))) ∧
  (∀ name peerURL n port txt host, agent_url peerURL → publish_args name peerURL = Some (n, port, txt) →
     urlFromEntry (MkEntry host port txt) = peerURL).
Proof.
  split_and!.
  - intros [e|] l; cbn [Browse]; [done|]. destruct (Browse_loop_spec l [] []) as (H1 & _ & H3); [done|constructor|].
    split_and!; [done..|]. intros u. rewrite (H3 u). set_solver.
  - intros e. unfold urlFromEntry. pose proof (txt_url_spec (Text e)) as Ht. destruct (txt_url (Text e)) as [raw|].
    + destruct Ht as (Ha & l1 & l2 & Hl & Hno). left. exists raw, l1, l2. done.
    + right. done.
  - intros name peerURL n port txt host Ha. unfold publish_args. destruct (parse_url peerURL) as [u|]; [|done]. cbn [mbind option_bind].
    destruct (atoi (portFromURL u)) as [p|]; [|done]. cbn [mbind option_bind]. intros [= <- <- <-].
    unfold urlFromEntry. cbn [Text]. pose proof (txt_url_spec ["a2a-version=1.0"; "url=" +:+ peerURL]) as Ht.
    destruct (txt_url _) as [raw|]; cycle 1.
    { exfalso. apply (Ht peerURL); [by right; left|done]. }
    destruct Ht as (_ & l1 & l2 & Hl & _). destruct l1 as [|x [|y l1]]; cbn in Hl; [done|by simplify_eq|]. destruct l1; by simplify_eq.
Qed.

Example publish_example : publish_args "" "http://192.168.1.4:8080" =
    Some ("a2abridge-peer", 8080, ["a2a-version=1.0"; "url=http://192.168.1.4:8080"]) ∧
  publish_args "x" "https://host/" = Some ("x", 443, ["a2a-version=1.0"; "url=https://host/"]) ∧
  publish_args "x" "ftp://host/" = None.
Proof. vm_compute. done. Qed.
Example browse_example : Browse None [Entry (MkEntry "a.local." 7777 []); Entry (MkEntry "b" 1 ["url=javascript:1"; "url=http://b:1"]);
    Entry (MkEntry "a.local" 7777 ["x"]); Entry (MkEntry "" 1 []); Done; Entry (MkEntry "c" 1 [])] =
  Ok ["http://a.local:7777"; "http://b:1"].
Proof. vm_compute. done. Qed.
