(* ===== verification/Bridge.v ===== *)
(** The bridge process ([internal/cli/bridge.go]): its name, its state directory,
    the port that doubles as its lock, the order in which it starts and stops the
    other components, and its exit codes. *)
From Stdlib Require Import Ascii.
From stdpp Require Import base list sets strings gmap.
From S2P Require Import Prelude GoStrings GoTime Json A2A GoFS GoExec GoFlag Nudger Federation Mdns.

Open Scope string_scope.
Open Scope Z_scope.
Open Scope list_scope.

(* src/internal/cli/bridge.go (outgoingPollInterval) *)
Definition outgoingPollInterval : Z := 5 * second.
(* src/internal/cli/bridge.go (outgoingPollRequestTimeout) *)
Definition outgoingPollRequestTimeout : Z := 4 * second.
(* src/internal/cli/bridge.go (outgoingMaxAge) *)
Definition outgoingMaxAge : Z := 10 * minute.
(* src/internal/cli/bridge.go (shutdownTimeout) *)
Definition shutdownTimeout : Z := 3 * second.
(* src/internal/cli/bridge.go (providerURL) *)
Definition providerURL : string := "https://github.com/vbcherepanov/a2abridge".

(* src/internal/cli/directory.go (envOr) *)
Definition envOr (env : string → string) (k dflt : string) : string :=
  let v := env k in if String.eqb v "" then dflt else v.

(* src/internal/cli/bridge.go (splitCSV) *)
Definition splitCSV (s : string) : list string :=
  if String.eqb s "" then [] else List.filter nonempty (map trim_space (split_char "," s)).

(** * The name *)

(** [strings.Contains] *)
Fixpoint contains_str (p s : string) : bool :=
  has_prefix p s || match s with "" => false | String _ s => contains_str p s end.

Section name.
Variable answer : list action → command → outcome.

(** [ps_found]: [ps] is on the path. *)
(* src/internal/cli/bridge.go (parentCommand) *)
Definition parentCommand (ps_found : bool) (ppid : Z) : IO string :=
  if negb ps_found then mret "" else
  o ← run answer (Command "ps" ["-o"; "comm="; "-p"; itoa ppid] "" None);
  mret (match o_err o with Some _ => "" | None => last_elem slash (trim_space (o_stdout o)) end).

(* src/internal/cli/bridge.go (parentTTY) *)
Definition parentTTY (ps_found : bool) (ppid : Z) : IO string :=
  if negb ps_found then mret "" else
  o ← run answer (Command "ps" ["-o"; "tty="; "-p"; itoa ppid] "" None);
  mret (match o_err o with Some _ => "" | None => trim_space (o_stdout o) end).

(* src/internal/cli/bridge.go:405-427 (autoName) *)
Definition name_of (parent tty : string) (ppid : Z) : string :=
  let base :=
    if contains_str "claude" parent then "claude"
    else if contains_str "codex" parent then "codex"
    else if contains_str "cursor" parent then "cursor"
    else if contains_str "code" parent then "vscode"
    else if negb (String.eqb parent "") then parent
    else "agent" in
  let suffix :=
    if String.eqb tty "" || String.eqb tty "??" then "pid" +:+ itoa ppid
    else trim_prefix "/dev/" tty in
  base +:+ "-" +:+ suffix.

(* src/internal/cli/bridge.go (autoName) *)
Definition autoName (ps_found : bool) (ppid : Z) : IO string :=
  parent ← parentCommand ps_found ppid;
  tty ← parentTTY ps_found ppid;
  mret (name_of parent tty ppid).
End name.

Example name_example : name_of "claude" "ttys003" 7 = "claude-ttys003" ∧ name_of "/x/codex-tui" "??" 41547 = "codex-pid41547" ∧
  name_of "" "" 12 = "agent-pid12" ∧ name_of "Code Helper" "/dev/ttys1" 1 = "Code Helper-ttys1".
Proof. vm_compute. done. Qed.
(** On Linux, [ps] prints a single question mark for a process without a
    terminal: the name then has no process number, so such bridges share it. *)
Lemma name_without_tty_linux parent p q : name_of parent "?" p = name_of parent "?" q.
Proof. done. Qed.

(** * The state directory *)

(** What the file system answers: creating a directory and its parents, whether a
    directory can be written to, and the texts of its errors. *)
Record place := Place {
  cwd : result goerror string;
  home : result goerror string;
  getppid : Z;
  mkdir : string → option goerror;
  writable : string → bool;
  fs_error : io_error → goerror }.

(* src/internal/cli/bridge.go (ensureStateGitignore) *)
Definition ensureStateGitignore (pl : place) (dir : string) : ST fs (option goerror) := λ w,
  let p := Join [dir; ".gitignore"] in
  match files w !! p with
  | Some _ => (None, w)
  | None =>
      match WriteFile p ("*" +:+ String nlc "") 384 w with
      | (Ok _, w) => (None, w)
      | (Err e, w) => (Some (fs_error pl e), w)
      end
  end.

Definition with_gitignore (pl : place) (dir : string) : ST fs (result goerror string) :=
  e ← ensureStateGitignore pl dir;
  mret (match e with Some e => Err e | None => Ok dir end).

(* src/internal/cli/bridge.go (resolveStateDir) *)
Definition resolveStateDir (pl : place) (explicit : string) : ST fs (result goerror string) :=
  if negb (String.eqb explicit "") then
    match mkdir pl explicit with Some e => mret (Err e) | None => with_gitignore pl explicit end
  else
    let fallback :=
      match home pl with
      | Err e => mret (Err (wrapf "user home: " e))
      | Ok home =>
          let dir := Join [home; ".a2abridge"; "state"; itoa (getppid pl)] in
          match mkdir pl dir with Some e => mret (Err e) | None => with_gitignore pl dir end
      end in
    match cwd pl with
    | Ok cwd =>
        let candidate := Join [cwd; ".a2a"] in
        if writable pl cwd then
          match mkdir pl candidate with None => with_gitignore pl candidate | Some _ => fallback end
        else fallback
    | Err _ => fallback
    end.

(** * The port *)

Inductive listened := Bound (port : Z) | InUse | Refused (e : goerror).

(** the system's error numbers in an error's chain *)
Inductive errno : Set := EADDRINUSE | WSAEADDRINUSE | other_errno.
#[export] Instance errno_eq_dec : EqDecision errno.
Proof. solve_decision. Defined.

(** [errors.Is] against the number of the system the program was built for *)
(* src/internal/cli/addrinuse_other.go (isAddrInUse) *)
Definition isAddrInUse_other (chain : list errno) : bool := bool_decide (EADDRINUSE ∈ chain).
(* src/internal/cli/addrinuse_windows.go (isAddrInUse) *)
Definition isAddrInUse_windows (chain : list errno) : bool :=
  bool_decide (WSAEADDRINUSE ∈ chain) || bool_decide (EADDRINUSE ∈ chain).
Definition isAddrInUse (goos : string) : list errno → bool :=
  if String.eqb goos "windows" then isAddrInUse_windows else isAddrInUse_other.

(** one attempt, from what [net.Listen] gives *)
(* src/internal/cli/bridge.go:102-109 (RunBridge) *)
Definition listened_of (goos : string) (r : result (list errno * goerror) Z) : listened :=
  match r with
  | Ok port => Bound port
  | Err (chain, e) => if isAddrInUse goos chain then InUse else Refused e
  end.

(** ** The parent's death *)

(** What the watching thread of a Linux process does: [prctl] is the answer of
    the kernel, [ppid] the parent's number after it. *)
Inductive watching : Set := LockThread | Warned | Terminate | UnlockThread | HoldForever.
(* src/internal/cli/pdeathsig_linux.go (setParentDeathSignal) *)
Definition setParentDeathSignal (prctl : option goerror) (ppid : Z) : list watching :=
  LockThread ::
  match prctl with
  | Some _ => [Warned; UnlockThread]
  | None => if ppid =? 1 then [Terminate; UnlockThread] else [HoldForever]
  end.

(** the thread that carries the setting is given back exactly when the setting
    is of no use, and an orphan ends itself *)
Lemma parent_death prctl ppid :
  let l := setParentDeathSignal prctl ppid in
  (HoldForever ∈ l ↔ prctl = None ∧ ppid ≠ 1) ∧ (UnlockThread ∈ l ↔ ¬ HoldForever ∈ l) ∧
  (Terminate ∈ l ↔ prctl = None ∧ ppid = 1).
Proof.
  unfold setParentDeathSignal. destruct prctl as [e|]; cbn; [set_solver|]. destruct (Z.eqb_spec ppid 1) as [->|]; set_solver.
Qed.

(** What the process does, in order. The deferred calls are [Closed_]. *)
Inductive resource := RStore | RTasks | RSignals | RResponder | RMdns.
Inductive effect :=
| Listen (attempt : nat)
| Wait (d : Z)
| Open (r : resource)
| Close (r : resource)
| LoadInbox (path : string)
| OnIncomingResponder (mode : string)
| OnIncomingNudger (n : Nudger)
| Serve (tls : bool) (url : string) (private_push : bool)
| StartHeartbeat (directory url : string)
| StartPolling (interval maxAge : Z)
| StartMCP
| WatchParent
| AwaitStop
| ShutdownHTTP (d : Z)
| DrainPush (d : Z).

(** [listen n]: the outcome of attempt [n]. *)
(* src/internal/cli/bridge.go:101-116 (RunBridge) *)
Fixpoint listen_loop (listen : nat → listened) (fuel attempt : nat) : listened * list effect :=
  match listen attempt with
  | Bound p => (Bound p, [Listen attempt])
  | Refused e => (Refused e, [Listen attempt])
  | InUse =>
      match fuel with
      | O => (InUse, [Listen attempt])
      | S fuel =>
          let '(r, l) := listen_loop listen fuel (S attempt) in
          (r, Listen attempt :: Wait (300 * millisecond) :: l)
      end
  end.
(** attempts 0 to 10 *)
Definition bind_port (listen : nat → listened) : listened * list effect := listen_loop listen 10 0.

(** * The agent card *)

Record card := Card { cd_Name : string; cd_Description : string; cd_Interfaces : list (string * string); cd_Version : string;
  cd_Streaming : bool; cd_Push : bool; cd_Modes : list string * list string; cd_Skills : list (string * string);
  cd_Provider : string * string }.

(** [jsonrpc] and [httpjson] are the SDK's names of the two bindings. *)
(* src/internal/cli/bridge.go:143-169 (RunBridge) *)
Definition agent_card (jsonrpc httpjson version name model skills cwd selfURL : string) : card :=
  let d := "a2abridge agent (" +:+ name +:+ ") at " +:+ cwd in
  Card name (if String.eqb model "" then d else d +:+ " | model=" +:+ model)
    [(selfURL, jsonrpc); (selfURL, httpjson)] version true true (["text/plain"], ["text/plain"])
    (map (λ sk, (sk, "agent skill: " +:+ sk)) (splitCSV skills)) ("a2abridge", providerURL).

(** * The process *)

Section bridge.
Context `{TLS}.

(** What the process finds around it. [w_responder], [w_handler] and [w_publish]
    are the errors of the calls of those names, [w_name] the derived name. *)
Record world := World {
  w_env : string → string;
  w_environ : list string;
  w_goos : string;
  w_disk : fs;
  w_place : place;
  w_name : string;
  w_tty : string;
  w_listen : nat → listened;
  w_responder : option goerror;
  w_handler : option goerror;
  w_publish : option goerror }.

(** The effects so far and the deferred calls, the last one first. *)
Definition run_state : Type := list effect * list effect.
Definition does (e : effect) : ST run_state unit := modify (λ s, (s.1 ++ [e], s.2)).
Definition all_done (l : list effect) : ST run_state unit := modify (λ s, (s.1 ++ l, s.2)).
(** a resource taken, with [defer x.Close()] *)
Definition acquire (r : resource) : ST run_state unit := modify (λ s, (s.1 ++ [Open r], Close r :: s.2)).

(* src/internal/cli/bridge.go:183-219 (RunBridge) *)
Definition set_incoming (w : world) (name : string) : ST run_state unit :=
  let responderMode := w_env w "A2A_RESPONDER" in
  let nudgeMode := w_env w "A2A_NUDGE" in
  if negb (String.eqb responderMode "") then
    match w_responder w with
    | Some _ => mret tt
    | None => _ ← does (OnIncomingResponder responderMode); acquire RResponder
    end
  else if negb (String.eqb nudgeMode "") then
    let mode := if String.eqb nudgeMode "auto" then DetectNudgeMode (w_environ w) (w_goos w) else nudgeMode in
    if String.eqb mode "" then mret tt
    else if String.eqb mode "dtach" then
      let socket := w_env w "A2A_NUDGE_SOCKET" in
      let socket := if String.eqb socket "" then Join [w_env w "HOME"; ".dtach"; name] else socket in
      does (OnIncomingNudger (NewDtachNudger socket))
    else if String.eqb (w_tty w) "" then mret tt
    else does (OnIncomingNudger (NewNudger mode (w_tty w)))
  else mret tt.

(* src/internal/cli/bridge.go:253-339 (RunBridge) *)
Definition serve (w : world) (t : transport) (directoryURL name selfURL : string) : ST run_state Z :=
  _ ← does (Serve (match server_tls t with Some _ => true | None => false end) selfURL (allowPrivatePush t));
  _ ← does (StartHeartbeat directoryURL selfURL);
  _ ← when (String.eqb (w_env w "A2A_MDNS") "1" && match w_publish w with Some _ => false | None => true end)
        (acquire RMdns);
  _ ← does (StartPolling outgoingPollInterval outgoingMaxAge);
  _ ← does StartMCP;
  _ ← does AwaitStop;
  _ ← does (ShutdownHTTP shutdownTimeout);
  _ ← does (DrainPush shutdownTimeout);
  mret 0.

(* src/internal/cli/bridge.go:117-251 (RunBridge) *)
Definition start (w : world) (disk : fs) (port : Z) (stateDir directoryURL advertiseHost name : string) : ST run_state Z :=
  let fed := FromEnv (w_env w) in
  let selfURL := advertised_scheme fed +:+ "://" +:+ advertiseHost +:+ ":" +:+ itoa port in
  _ ← acquire RStore;
  _ ← does (LoadInbox (Join [stateDir; "inbox.json"]));
  _ ← acquire RTasks;
  _ ← acquire RSignals;
  _ ← does WatchParent;
  _ ← set_incoming w name;
  match ClientTLSConfig fed disk, w_handler w with
  | Err _, _ => mret 1
  | Ok _, Some _ => mret 1
  | Ok _, None =>
      match bridge_transport fed (w_env w) disk with
      | Err _ => mret 1
      | Ok t => serve w t directoryURL name selfURL
      end
  end.

(* src/internal/cli/bridge.go:53-60 (RunBridge) *)
Definition bridge_flags : flag_decls :=
  [("directory", false); ("bind", false); ("advertise-host", false); ("name", false); ("model", false); ("skills", false);
   ("id", false); ("state-dir", false)].

(** a flag that was given, else the environment's value, else the default *)
Definition flag_value (w : world) (values : list (string * string)) (name env dflt : string) : string :=
  default (envOr (w_env w) env dflt) (assoc_get name values).

(* src/internal/cli/bridge.go (RunBridge) *)
Definition RunBridge (w : world) (args : list string) : Z * list effect :=
  match Parse bridge_flags [] args with
  | ErrHelp => (0, [])
  | BadFlag => (2, [])
  | Flags values _ =>
      let directoryURL := flag_value w values "directory" "A2A_DIRECTORY" "http://127.0.0.1:7777" in
      let advertiseHost := flag_value w values "advertise-host" "A2A_ADVERTISE_HOST" "127.0.0.1" in
      let name := flag_value w values "name" "A2A_NAME" (w_name w) in
      match resolveStateDir (w_place w) (flag_value w values "state-dir" "A2A_STATE_DIR" "") (w_disk w) with
      | (Err _, _) => (1, [])
      | (Ok stateDir, disk) =>
          match bind_port (w_listen w) with
          | (Refused _, l) => (1, l)
          | (InUse, l) => (0, l)
          | (Bound port, l) =>
              let '(code, (trace, deferred)) := start w disk port stateDir directoryURL advertiseHost name (l, []) in
              (code, trace ++ deferred)
          end
      end
  end.
End bridge.

(** * Theorems *)

(** The attempts on the port up to number [n], with the pauses between them. *)
Definition attempts (a n : nat) : list effect :=
  flat_map (λ i, [Listen i; Wait (300 * millisecond)]) (seq a n) ++ [Listen (a + n)].

Lemma listen_loop_spec listen fuel a r l : listen_loop listen fuel a = (r, l) → ∃ n, (n ≤ fuel)%nat ∧
  (∀ m, (m < n)%nat → listen (a + m)%nat = InUse) ∧ listen (a + n)%nat = r ∧ l = attempts a n ∧ (r = InUse → n = fuel).
Proof.
  revert a r l. induction fuel as [|fuel IH]; intros a r l; cbn [listen_loop].
  - destruct (listen a) eqn:E; intros [= <- <-]; exists 0%nat; unfold attempts; rewrite Nat.add_0_r; split_and!; (done || lia).
  - destruct (listen a) as [p| |e] eqn:E.
    + intros [= <- <-]. exists 0%nat. unfold attempts. rewrite Nat.add_0_r. split_and!; (done || lia).
    + destruct (listen_loop listen fuel (S a)) as [r' l'] eqn:El. intros [= <- <-].
      destruct (IH _ _ _ El) as (n & Hn & Hm & Hr & -> & Hi). exists (S n). split_and!.
      * lia.
      * intros [|m] Hlt; [by rewrite Nat.add_0_r|]. rewrite <-Nat.add_succ_comm. apply Hm. lia.
      * by rewrite <-Nat.add_succ_comm.
      * unfold attempts. cbn. by rewrite <-Nat.add_succ_comm.
      * intros Hu. by rewrite Hi.
    + intros [= <- <-]. exists 0%nat. unfold attempts. rewrite Nat.add_0_r. split_and!; (done || lia).
Qed.

Definition opened (e : effect) : option resource := match e with Open r => Some r | _ => None end.
Definition opens (l : list effect) : list resource := omap opened l.
Lemma opens_attempts a n : opens (attempts a n) = [].
Proof.
  unfold opens, attempts. rewrite omap_app. cbn. rewrite app_nil_r. revert a. induction n as [|n IH]; intros a; [done|].
  cbn [seq flat_map app omap list_omap opened]. apply IH.
Qed.

Section lifecycle.
Context `{TLS}.

(** what the choice of the handler of arrivals adds, and takes *)
Inductive incoming_effects (w : world) : list effect → Prop :=
| inc_none : incoming_effects w []
| inc_responder : w_responder w = None →
    incoming_effects w [OnIncomingResponder (w_env w "A2A_RESPONDER"); Open RResponder]
| inc_nudger n : w_env w "A2A_RESPONDER" = "" → w_env w "A2A_NUDGE" ≠ "" → incoming_effects w [OnIncomingNudger n].

Lemma set_incoming_shape w name s : ∃ es, incoming_effects w es ∧
  set_incoming w name s = (tt, (s.1 ++ es, map Close (reverse (opens es)) ++ s.2)).
Proof.
  assert (Hnone : ∀ s : run_state, (tt, s) = (tt, (s.1 ++ [], map Close (reverse (opens [])) ++ s.2)))
    by (intros [s1 s2]; cbn; by rewrite app_nil_r).
  unfold set_incoming. destruct (String.eqb_spec (w_env w "A2A_RESPONDER") "") as [Hr|Hr]; cbn [negb].
  - destruct (String.eqb_spec (w_env w "A2A_NUDGE") "") as [Hn|Hn]; cbn [negb]; [exists []; split; [constructor|apply Hnone]|].
    set (mode := if String.eqb _ "auto" then _ else _). cbv zeta. clearbody mode.
    destruct (String.eqb mode ""); [exists []; split; [constructor|apply Hnone]|]. destruct (String.eqb mode "dtach").
    + eexists [OnIncomingNudger _]. split; [by constructor|]. reflexivity.
    + destruct (String.eqb (w_tty w) ""); [exists []; split; [constructor|apply Hnone]|].
      eexists [OnIncomingNudger _]. split; [by constructor|]. reflexivity.
  - destruct (w_responder w) eqn:Hw; [exists []; split; [constructor|apply Hnone]|].
    eexists. split; [by apply inc_responder|]. rewrite ST_bind_run. unfold does, acquire, exec, eval, modify. cbn.
    by rewrite <-(assoc_L app).
Qed.

Definition opening (stateDir : string) : list effect :=
  [Open RStore; LoadInbox (Join [stateDir; "inbox.json"]); Open RTasks; Open RSignals; WatchParent].
Definition mdns_effects (w : world) : list effect :=
  if String.eqb (w_env w "A2A_MDNS") "1" && match w_publish w with Some _ => false | None => true end then [Open RMdns] else [].
Definition serving (w : world) (t : transport) (directoryURL url : string) : list effect :=
  [Serve (match server_tls t with Some _ => true | None => false end) url (allowPrivatePush t); StartHeartbeat directoryURL url] ++
  mdns_effects w ++
  [StartPolling outgoingPollInterval outgoingMaxAge; StartMCP; AwaitStop; ShutdownHTTP shutdownTimeout; DrainPush shutdownTimeout].

Lemma opens_app l k : opens (l ++ k) = opens l ++ opens k.
Proof. apply omap_app. Qed.

Lemma serve_shape w t directoryURL name url s : serve w t directoryURL name url s =
  (0, (s.1 ++ serving w t directoryURL url, map Close (reverse (opens (serving w t directoryURL url))) ++ s.2)).
Proof.
  destruct s as [l k]. unfold serve, when, mbind, ST_bind, does, modify, acquire, skip, mret, ST_ret, serving, mdns_effects.
  destruct (_ && _); cbn -[shutdownTimeout outgoingPollInterval outgoingMaxAge]; by rewrite <-!(assoc_L app).
Qed.

Lemma start_shape w disk port stateDir directoryURL advertiseHost name l : opens l = [] → ∃ inc, incoming_effects w inc ∧
  let r := start w disk port stateDir directoryURL advertiseHost name (l, []) in
  let fed := FromEnv (w_env w) in
  let url := advertised_scheme fed +:+ "://" +:+ advertiseHost +:+ ":" +:+ itoa port in
  r.2.2 = map Close (reverse (opens r.2.1)) ∧
  match bridge_transport fed (w_env w) disk, w_handler w with
  | Ok t, None => r.1 = 0 ∧ r.2.1 = l ++ opening stateDir ++ inc ++ serving w t directoryURL url
  | _, _ => r.1 = 1 ∧ r.2.1 = l ++ opening stateDir ++ inc
  end.
Proof.
  intros Hl. destruct (set_incoming_shape w name (l ++ opening stateDir, [Close RSignals; Close RTasks; Close RStore]))
    as (inc & Hinc & Hset). exists inc. split; [done|]. cbv zeta.
  set (fed := FromEnv (w_env w)). set (url := advertised_scheme fed +:+ "://" +:+ _).
  assert (Hrun : start w disk port stateDir directoryURL advertiseHost name (l, []) =
    match ClientTLSConfig fed disk, w_handler w with
    | Err _, _ => mret 1
    | Ok _, Some _ => mret 1
    | Ok _, None => match bridge_transport fed (w_env w) disk with Err _ => mret 1 | Ok t => serve w t directoryURL name url end
    end (set_incoming w name (l ++ opening stateDir, [Close RSignals; Close RTasks; Close RStore])).2).
  { unfold start, mbind, ST_bind, acquire, does, modify, opening. cbn [fst snd]. rewrite <-!(assoc_L app). cbn [app].
    destruct (set_incoming w name _) as [[] s]. reflexivity. }
  rewrite Hrun, Hset. cbn [fst snd]. clear Hrun Hset.
  assert (Hshort : ∀ tr, tr = (l ++ opening stateDir) ++ inc → map Close (reverse (opens inc)) ++ [Close RSignals; Close RTasks; Close RStore] =
    map Close (reverse (opens tr))).
  { intros tr ->. rewrite !opens_app, Hl. change (opens (opening stateDir)) with [RStore; RTasks; RSignals].
    by rewrite app_nil_l, reverse_app, map_app. }
  unfold bridge_transport at 2 4. unfold bridge_transport. destruct (ClientTLSConfig fed disk) as [cli|e]; cbn [mbind result_bind].
  2:{ cbn. split; [by apply Hshort|]. by rewrite <-(assoc_L app). }
  destruct (w_handler w) as [e|].
  { cbn. split; [by apply Hshort|]. destruct (if Enabled fed then _ else _); by rewrite <-(assoc_L app). }
  destruct (if Enabled fed then _ else _) as [t|e]; cycle 1.
  { cbn. split; [by apply Hshort|]. by rewrite <-(assoc_L app). }
  rewrite serve_shape. cbn [fst snd]. split; [|by rewrite <-!(assoc_L app)].
  rewrite (Hshort _ eq_refl), (opens_app (_ ++ inc)), reverse_app, map_app. done.
Qed.

Definition is_serve (e : effect) : bool := match e with Serve _ _ _ => true | _ => false end.

Lemma attempts_not_served a n : Forall (λ e, is_serve e = false) (attempts a n).
Proof.
  unfold attempts. apply Forall_app. split; [|by repeat constructor]. revert a. induction n as [|n IH]; intros a; [constructor|].
  cbn [seq flat_map]. apply Forall_app. split; [by repeat constructor|apply IH].
Qed.
Lemma inc_not_served w inc : incoming_effects w inc → Forall (λ e, is_serve e = false) inc.
Proof. intros []; by repeat constructor. Qed.

Lemma never_serves tr pre tls url priv post : Forall (λ e, is_serve e = false) tr → tr = pre ++ Serve tls url priv :: post → False.
Proof. intros Hf ->. apply Forall_app in Hf as [_ Hf]. by apply Forall_cons in Hf as [? _]. Qed.
Lemma closes_not_served rs : Forall (λ e, is_serve e = false) (map Close rs).
Proof. induction rs; by constructor. Qed.

(** the only occurrence of a kind of element splits a list in one way *)
Lemma only_split {A} (p : A → bool) (x y : A) l1 l2 pre post : Forall (λ e, p e = false) l1 → Forall (λ e, p e = false) l2 →
  p y = true → l1 ++ x :: l2 = pre ++ y :: post → pre = l1 ∧ y = x ∧ post = l2.
Proof.
  intros H1 H2 Hy. revert pre. induction H1 as [|z l1 Hz H1 IH]; intros [|u pre]; cbn [app]; intros [= E1 E2].
  - done.
  - rewrite E2 in H2. apply Forall_app in H2 as [_ H2]. apply Forall_cons in H2 as [H2 _]. congruence.
  - congruence.
  - destruct (IH pre E2) as (-> & -> & ->). by rewrite E1.
Qed.
Lemma no_serve_in l : Forall (λ e, is_serve e = false) l → ∀ t u p, Serve t u p ∉ l.
Proof. intros Hl t u p Hin. rewrite Forall_forall in Hl. by specialize (Hl _ Hin). Qed.

Lemma bridge_transport_tls fed env w t : bridge_transport fed env w = Ok t →
  (match server_tls t with Some _ => true | None => false end) = Enabled fed.
Proof.
  unfold bridge_transport. destruct (ClientTLSConfig fed w); [|done]. cbn [mbind result_bind]. destruct (Enabled fed).
  - destruct (ServerTLSConfig fed w); [|done]. cbn [mbind result_bind]. by intros [= <-].
  - by intros [= <-].
Qed.

(** what surrounds the one start of serving *)
Lemma served_once w t disk n port host dir stateDir inc :
  (n ≤ 10)%nat → w_listen w n = Bound port → (∀ m, (m < n)%nat → w_listen w m = InUse) →
  incoming_effects w inc → bridge_transport (FromEnv (w_env w)) (w_env w) disk = Ok t →
  let tr := attempts 0 n ++ opening stateDir ++ inc ++
    serving w t dir (advertised_scheme (FromEnv (w_env w)) +:+ "://" +:+ host +:+ ":" +:+ itoa port) in
  ∀ pre tls url priv post, tr ++ map Close (reverse (opens tr)) = pre ++ Serve tls url priv :: post →
  (∀ t' u' p', Serve t' u' p' ∉ pre) ∧ (∃ path, LoadInbox path ∈ pre) ∧
  (∃ n port host, (n ≤ 10)%nat ∧ w_listen w n = Bound port ∧ (∀ m, (m < n)%nat → w_listen w m = InUse) ∧ Listen n ∈ pre ∧
     url = (if tls then "https" else "http") +:+ "://" +:+ host +:+ ":" +:+ itoa port) ∧
  tls = Enabled (FromEnv (w_env w)) ∧
  (∃ mid, post = mid ++ [ShutdownHTTP shutdownTimeout; DrainPush shutdownTimeout] ++ map Close (reverse (opens (pre ++ mid)))).
Proof.
  intros Hn Hr Hm Hinc Ht tr pre tls url priv post Heq. pose proof (attempts_not_served 0 n) as Hatt. apply inc_not_served in Hinc.
  set (A := attempts 0 n ++ opening stateDir ++ inc) in *.
  assert (Hbase : Forall (λ e, is_serve e = false) A).
  { apply Forall_app. split; [done|]. apply Forall_app. split; [by repeat constructor|done]. }
  set (mid := StartHeartbeat dir (advertised_scheme (FromEnv (w_env w)) +:+ "://" +:+ host +:+ ":" +:+ itoa port) ::
    mdns_effects w ++ [StartPolling outgoingPollInterval outgoingMaxAge; StartMCP; AwaitStop]).
  assert (Hmid : Forall (λ e, is_serve e = false) mid).
  { constructor; [done|]. apply Forall_app. split; [|by repeat constructor]. unfold mdns_effects.
    destruct (_ && _); by repeat constructor. }
  assert (Hopens : opens tr = opens (A ++ mid)).
  { unfold tr, A, mid, serving. rewrite !opens_app. rewrite <-!(assoc_L app). do 3 f_equal.
    change (opens (?x :: ?l)) with (opens l). rewrite !opens_app. done. }
  assert (Htr : tr = A ++ Serve (Enabled (FromEnv (w_env w))) (advertised_scheme (FromEnv (w_env w)) +:+ "://" +:+ host +:+ ":" +:+ itoa port)
    (allowPrivatePush t) :: mid ++ [ShutdownHTTP shutdownTimeout; DrainPush shutdownTimeout]).
  { unfold tr, A, mid, serving. rewrite (bridge_transport_tls _ _ _ _ Ht). cbn [app]. rewrite <-!(assoc_L app). cbn [app]. by rewrite <-?(assoc_L app). }
  rewrite Hopens in *. rewrite Htr, <-(assoc_L app) in Heq. cbn [app] in Heq. rewrite <-(assoc_L app) in Heq.
  apply (only_split is_serve) in Heq as (-> & [= -> -> ->] & ->); [|done| |done]; cycle 1.
  { apply Forall_app. split; [done|]. apply Forall_app. split; [by repeat constructor|apply closes_not_served]. }
  split_and!; [by apply no_serve_in| | |done|by eexists].
  - exists (Join [stateDir; "inbox.json"]). unfold A, opening. set_solver.
  - exists n, port, host. split_and!; [done..| |done]. unfold A, attempts. set_solver.
Qed.

(** C19: what the bridge does on every branch. It tries its port at most eleven
    times, 300 ms apart, and steps back with code 0 when the port stays in use;
    bad flags give 2, any other failure 1. It serves, once, only after the inbox
    was restored and the port bound, over TLS exactly when a certificate and a key
    are configured, under an address with the scheme that goes with it; it stops
    serving before it drains the webhooks. Whatever it took is released, in the
    opposite order. *)
Theorem RunBridge_lifecycle w args : let '(code, tr) := RunBridge w args in
  (∃ body, tr = body ++ map Close (reverse (opens body))) ∧
  (∀ pre tls url priv post, tr = pre ++ Serve tls url priv :: post →
    code = 0 ∧ (∀ t' u' p', Serve t' u' p' ∉ pre) ∧ (∃ path, LoadInbox path ∈ pre) ∧
    (∃ n port host, (n ≤ 10)%nat ∧ w_listen w n = Bound port ∧ (∀ m, (m < n)%nat → w_listen w m = InUse) ∧ Listen n ∈ pre ∧
       url = (if tls then "https" else "http") +:+ "://" +:+ host +:+ ":" +:+ itoa port) ∧
    tls = Enabled (FromEnv (w_env w)) ∧
    (∃ mid, post = mid ++ [ShutdownHTTP shutdownTimeout; DrainPush shutdownTimeout] ++ map Close (reverse (opens (pre ++ mid))))) ∧
  match Parse bridge_flags [] args with
  | ErrHelp => code = 0 ∧ tr = []
  | BadFlag => code = 2 ∧ tr = []
  | Flags _ _ => code = 0 ∨ code = 1
  end ∧
  ((∀ n, (n ≤ 10)%nat → w_listen w n = InUse) → code ≠ 2 → tr ≠ [] → code = 0 ∧ tr = attempts 0 10).
Proof.
  unfold RunBridge. destruct (Parse bridge_flags [] args) as [values rest| |]; cycle 1.
  1,2: split_and!; [by exists []|by intros [] ? ? ? ?|done..|done].
  set (dir := flag_value _ _ "directory" _ _). set (host := flag_value _ _ "advertise-host" _ _). cbv zeta.
  destruct (resolveStateDir _ _ (w_disk w)) as [[stateDir|e] disk]; cycle 1.
  { split_and!; [by exists []|by intros [] ? ? ? ?|by right|done]. }
  destruct (bind_port (w_listen w)) as [r l] eqn:Hb. apply listen_loop_spec in Hb as (n & Hn & Hm & Hr & -> & Hi). cbn [Nat.add] in *.
  assert (Hquiet : ∀ tr, tr = attempts 0 n → (∃ body, tr = body ++ map Close (reverse (opens body)))).
  { intros tr ->. exists (attempts 0 n). by rewrite opens_attempts, app_nil_r. }
  pose proof (attempts_not_served 0 n) as Hatt.
  destruct r as [port| |e]; cycle 1.
  { split_and!; [by apply Hquiet|by intros ? ? ? ? ? ?%never_serves|by left|]. intros _ _ _. by rewrite Hi. }
  { split_and!; [by apply Hquiet|by intros ? ? ? ? ? ?%never_serves|by right|]. intros Hall. rewrite Hall in Hr by lia. done. }
  destruct (start_shape w disk port stateDir dir host (flag_value w values "name" "A2A_NAME" (w_name w)) (attempts 0 n) (opens_attempts 0 n))
    as (inc & Hinc & Hstart). cbv zeta in Hstart.
  destruct (start w disk port stateDir dir host _ (attempts 0 n, [])) as [code [tr df]]. cbn [fst snd] in Hstart.
  destruct Hstart as [-> Hcase]. pose proof (inc_not_served _ _ Hinc) as Hinc'.
  assert (Hlast : (∀ k, (k ≤ 10)%nat → w_listen w k = InUse) → code ≠ 2 → tr ++ map Close (reverse (opens tr)) ≠ [] →
    code = 0 ∧ tr ++ map Close (reverse (opens tr)) = attempts 0 10).
  { intros Hall. rewrite Hall in Hr by lia. done. }
  assert (Hbase : Forall (λ e, is_serve e = false) (attempts 0 n ++ opening stateDir ++ inc)).
  { apply Forall_app. split; [done|]. apply Forall_app. split; [by repeat constructor|done]. }
  assert (Hstop : code = 1 ∧ tr = attempts 0 n ++ opening stateDir ++ inc →
    (∃ body, tr ++ map Close (reverse (opens tr)) = body ++ map Close (reverse (opens body))) ∧
    (∀ pre tls url priv post, tr ++ map Close (reverse (opens tr)) = pre ++ Serve tls url priv :: post → False) ∧ (code = 0 ∨ code = 1)).
  { intros [-> ->]. split_and!; [by eexists| |by right]. intros pre tls url priv post. apply never_serves.
    apply Forall_app. split; [done|apply closes_not_served]. }
  destruct (bridge_transport _ _ disk) as [t|e] eqn:Ht; cycle 1.
  { destruct (Hstop Hcase) as (H1 & H2 & H3). split_and!; [done|by intros ? ? ? ? ? ?%H2|done|done]. }
  destruct (w_handler w) as [e|].
  { destruct (Hstop Hcase) as (H1 & H2 & H3). split_and!; [done|by intros ? ? ? ? ? ?%H2|done|done]. }
  clear Hstop. destruct Hcase as [-> ->]. split_and!; [by eexists| |by left|exact Hlast].
  intros pre tls url priv post Heq. split; [done|]. by eapply served_once.
Qed.
End lifecycle.
