(* ===== verification/Guard.v ===== *)
(** The protocol guard in front of the SDK's HTTP bindings
    (src/internal/agent/guard.go) and the Agent Card handler
    (src/internal/agent/cardcache.go). *)
From Stdlib Require Import Ascii.
From stdpp Require Import base list sets strings gmap.
From S2P Require Import Prelude GoStrings GoTime Json A2A Metrics GoFS Store Executor TaskStore.

Open Scope string_scope.
Open Scope Z_scope.
Open Scope list_scope.

(** * Requests *)

(** Why a body could not be read: the size limit, or anything else. *)
Inductive body_error : Set := TooLarge (limit : Z) | ReadFailed.

(** A request as the guard sees it: headers under their canonical names, the
    parsed query, the body (or the error reading it gives). *)
Record request := MkRequest { rq_method : string; rq_path : string; rq_header : gmap string string;
  rq_query : gmap string (list string); rq_body : result body_error string }.

Definition set_header (h : gmap string string) (r : request) : request :=
  MkRequest (rq_method r) (rq_path r) h (rq_query r) (rq_body r).
Definition set_query (q : gmap string (list string)) (r : request) : request :=
  MkRequest (rq_method r) (rq_path r) (rq_header r) q (rq_body r).

(** [Header.Get], [Values.Get] and [Values.Has] *)
Definition header_get (k : string) (r : request) : string := default "" (rq_header r !! k).
Definition query_get (k : string) (r : request) : string := default "" (rq_query r !! k ≫= head).
Definition query_has (k : string) (r : request) : bool := match rq_query r !! k with Some _ => true | None => false end.

(* src/internal/agent/guard.go (jsonrpcVersion) *)
Definition jsonrpcVersion : string := "2.0".
(* src/internal/agent/guard.go (methodSubscribeToTask) *)
Definition methodSubscribeToTask : string := "SubscribeToTask".
(* src/internal/agent/guard.go (restTasksPrefix) *)
Definition restTasksPrefix : string := "/tasks/".
(* src/internal/agent/guard.go (subscribeActionSuffix) *)
Definition subscribeActionSuffix : string := ":subscribe".
(* src/internal/agent/guard.go (impliedProtocolVersion) *)
Definition impliedProtocolVersion : string := "0.3".

(** * JSON-RPC envelopes *)

(* src/internal/agent/guard.go (rpcEnvelope) *)
Record rpcEnvelope := MkEnv { env_JSONRPC : string; env_ID : string; env_Method : string; env_Params : string }.

(** the members of an object after its brace, each with its value and its text *)
Fixpoint raw_members (n : nat) (s : string) : option (list (string * (json * string)) * string) :=
  match n with
  | O => None
  | S n' =>
      t ← eat dq (skip_ws s);
      '(k, t) ← p_string (S (slen t)) t;
      t ← eat ":" (skip_ws t);
      let t := skip_ws t in
      '(v, u) ← p_value n' 1 t;
      let raw := stake (slen t - slen u) t in
      match eat "," (skip_ws u) with
      | Some u => '(m, u) ← raw_members n' u; Some ((k, (v, raw)) :: m, u)
      | None => u ← eat "}" (skip_ws u); Some ([(k, (v, raw))], u)
      end
  end.

Definition set_env (e : rpcEnvelope) (kv : string * (json * string)) : option rpcEnvelope :=
  let '(k, (v, raw)) := kv in
  if key_matches "jsonrpc" k then x ← set_string v (env_JSONRPC e); Some (MkEnv x (env_ID e) (env_Method e) (env_Params e))
  else if key_matches "id" k then Some (MkEnv (env_JSONRPC e) raw (env_Method e) (env_Params e))
  else if key_matches "method" k then x ← set_string v (env_Method e); Some (MkEnv (env_JSONRPC e) (env_ID e) x (env_Params e))
  else if key_matches "params" k then Some (MkEnv (env_JSONRPC e) (env_ID e) (env_Method e) raw)
  else Some e.

Fixpoint set_envs (e : rpcEnvelope) (m : list (string * (json * string))) : option rpcEnvelope :=
  match m with [] => Some e | kv :: m => e ← set_env e kv; set_envs e m end.

(** [json.Unmarshal(body, &env)], the raw members keeping their text *)
Definition decode_envelope (body : string) : option rpcEnvelope :=
  _ ← unmarshal body;
  match eat "{" (skip_ws body) with
  | Some t =>
      match eat "}" (skip_ws t) with
      | Some _ => Some (MkEnv "" "" "" "")
      | None => '(m, _) ← raw_members (slen body) t; set_envs (MkEnv "" "" "" "") m
      end
  | None => if has_prefix "null" (skip_ws body) then Some (MkEnv "" "" "" "") else None
  end.

(* src/internal/agent/guard.go (isRPCID) *)
Definition isRPCID (raw : string) : bool :=
  match trim_space raw with
  | "" => false
  | String c _ => Ascii.eqb c dq || Ascii.eqb c "-" || is_digit c
  end.

(** * Versions *)

(* src/internal/agent/guard.go (majorMinor) *)
Definition majorMinor (v : string) : option string :=
  match splitn_char "." 2 v with
  | a :: b :: _ =>
      match atoi a with
      | None => None
      | Some major =>
          if major <? 0 then None else
          match atoi b with
          | None => None
          | Some minor => if minor <? 0 then None else Some (itoa major +:+ "." +:+ itoa minor)
          end
      end
  | _ => None
  end.

(* src/internal/agent/guard.go (subscribeTaskID) *)
Definition subscribeTaskID (path : string) : option string :=
  match cut_prefix restTasksPrefix path with
  | None => None
  | Some rest =>
      if contains_char "/" rest then None else
      match cut_suffix subscribeActionSuffix rest with
      | None => None
      | Some id => if String.eqb id "" then None else Some id
      end
  end.

Section guard.
Context `{A2A}.
(** [strconv.Quote], as the [%q] verb uses it *)
Context (quote : string → string).
(** [a2a.SubscribeToTaskRequest] read from the request's params: its task id *)
Context (subscribe_id : string → option string).
(** the task store, by the one method the guard calls: [taskstore.Store.Get] *)
Context (tasks_get : string → result goerror (Task Part)).

(** ** Error codes *)

(* src/internal/agent/guard.go (protocolErrorCodes) *)
Record protocolErrorCodes := Codes { c_rpcCode : Z; c_httpStatus : Z; c_grpcStatus : string; c_reason : string }.

(* src/internal/agent/guard.go:38-48 (protocolErrors) *)
Definition protocolErrors : list (sentinel * (Z * Z * string)) :=
  [(ErrInvalidRequest, (-32600, 400, "INVALID_ARGUMENT"));
   (ErrTaskNotFound, (-32001, 404, "NOT_FOUND"));
   (ErrUnsupportedOperation, (-32004, 400, "FAILED_PRECONDITION"));
   (ErrVersionNotSupported, (-32009, 400, "FAILED_PRECONDITION"))].

(* src/internal/agent/guard.go (codesFor) *)
Definition codesFor (e : goerror) : protocolErrorCodes :=
  match filterb (λ m, errors_is e m.1) protocolErrors with
  | (x, (rpc, http, grpc)) :: _ => Codes rpc http grpc (ErrorReason x)
  | [] => Codes (-32603) 500 "INTERNAL" (ErrorReason ErrInternalError)
  end.

(** the [ErrorInfo] detail: its reason and its metadata *)
(* src/internal/agent/guard.go (errorDetails) *)
Definition errorDetails (now : gotime) (reason taskID : string) : string * list (string * string) :=
  (reason, ("timestamp", format_rfc3339 (to_utc now)) :: if String.eqb taskID "" then [] else [("taskId", taskID)]).

(** What the guard does with a request: answer it, or hand it on. The JSON-RPC
    id is the text it came with, [None] standing for [null]. *)
Inductive outcome :=
| RPCError (status : Z) (id : option string) (code : Z) (message : string) (details : string * list (string * string))
| RESTError (status : Z) (grpc : string) (message : string) (details : string * list (string * string))
| Next (r : request).

(* src/internal/agent/guard.go (writeJSONRPCError) *)
Definition writeJSONRPCError (now : gotime) (status : Z) (id : option string) (e : goerror) : outcome :=
  let codes := codesFor e in
  RPCError status id (c_rpcCode codes) (e_text e) (errorDetails now (c_reason codes) "").

(* src/internal/agent/guard.go (writeRESTError) *)
Definition writeRESTError (now : gotime) (status : Z) (e : goerror) (taskID : string) : outcome :=
  let codes := codesFor e in
  let status := if status =? 0 then c_httpStatus codes else status in
  RESTError status (c_grpcStatus codes) (e_text e) (errorDetails now (c_reason codes) taskID).

(* src/internal/agent/guard.go (bodyReadError) *)
Definition bodyReadError (e : body_error) : Z * goerror :=
  match e with
  | TooLarge limit => (413, wrapf ("request body exceeds " +:+ itoa limit +:+ " bytes: ") (sentinel_err ErrInvalidRequest))
  | ReadFailed => (400, wrapf "read request body: " (sentinel_err ErrInvalidRequest))
  end.

(** ** Version *)

(* src/internal/agent/guard.go (checkProtocolVersion) *)
Definition checkProtocolVersion (r : request) : option goerror :=
  let v := trim_space (header_get SvcParamVersion r) in
  let v := if String.eqb v "" then trim_space (query_get SvcParamVersion r) else v in
  if String.eqb v "" then
    Some (wrapf ("A2A-Version not sent, so " +:+ impliedProtocolVersion +:+ " is assumed; this agent speaks " +:+ Version +:+ ": ")
      (sentinel_err ErrVersionNotSupported))
  else
    let want := default "" (majorMinor Version) in
    match majorMinor v with
    | Some got =>
        if String.eqb got want then None else
        Some (wrapf ("A2A-Version " +:+ quote v +:+ " is not supported, this agent speaks " +:+ Version +:+ ": ")
          (sentinel_err ErrVersionNotSupported))
    | None => Some (wrapf ("A2A-Version " +:+ quote v +:+ " is not supported, this agent speaks " +:+ Version +:+ ": ")
          (sentinel_err ErrVersionNotSupported))
    end.

(* src/internal/agent/guard.go (pinProtocolVersion) *)
Definition pinProtocolVersion (r : request) : request :=
  let r := if String.eqb (header_get SvcParamVersion r) "" then r
           else set_header (<[SvcParamVersion := Version]> (rq_header r)) r in
  if query_has SvcParamVersion r then set_query (<[SvcParamVersion := [Version]]> (rq_query r)) r else r.

(** ** Subscriptions *)

(* src/internal/agent/guard.go (checkSubscribable) *)
Definition checkSubscribable (id : string) : option goerror :=
  match tasks_get id with
  | Err e =>
      if errors_is e ErrTaskNotFound then Some (wrapf ("subscribe to task " +:+ id +:+ ": ") (sentinel_err ErrTaskNotFound))
      else None
  | Ok t =>
      if Terminal (s_State (t_Status t)) then
        Some (wrapf ("task " +:+ id +:+ " is in terminal state " +:+ s_State (t_Status t) +:+ ": ") (sentinel_err ErrUnsupportedOperation))
      else None
  end.

(** ** The two bindings *)

(* src/internal/agent/guard.go (jsonrpc) *)
Definition jsonrpc (now : gotime) (streaming : bool) (r : request) : outcome :=
  match rq_body r with
  | Err e => let '(status, readErr) := bodyReadError e in writeJSONRPCError now status None readErr
  | Ok body =>
      let env := decode_envelope body in
      let id := match env with
                | Some env => if String.eqb (env_JSONRPC env) jsonrpcVersion && isRPCID (env_ID env) then Some (env_ID env) else None
                | None => None
                end in
      match checkProtocolVersion r with
      | Some versionErr => writeJSONRPCError now 200 id versionErr
      | None =>
          let r := pinProtocolVersion r in
          match id, env with
          | Some id, Some env =>
              if negb streaming || negb (String.eqb (env_Method env) methodSubscribeToTask) then Next r else
              match subscribe_id (env_Params env) with
              | Some tid =>
                  if String.eqb tid "" then Next r else
                  match checkSubscribable tid with
                  | Some e => writeJSONRPCError now 200 (Some id) e
                  | None => Next r
                  end
              | None => Next r
              end
          | _, _ => Next r
          end
      end
  end.

(* src/internal/agent/guard.go (rest) *)
Definition rest (now : gotime) (streaming : bool) (r : request) : outcome :=
  match rq_body r with
  | Err e => let '(status, readErr) := bodyReadError e in writeRESTError now status readErr ""
  | Ok _ =>
      match checkProtocolVersion r with
      | Some e => writeRESTError now 0 e ""
      | None =>
          let r := pinProtocolVersion r in
          if streaming && (String.eqb (rq_method r) "GET" || String.eqb (rq_method r) "POST") then
            match subscribeTaskID (rq_path r) with
            | Some id =>
                match checkSubscribable id with
                | Some e => writeRESTError now 0 e id
                | None => Next r
                end
            | None => Next r
            end
          else Next r
      end
  end.
End guard.

(** * Error bodies *)

(** [json.Encoder] writes a raw message compacted: blanks between tokens are
    dropped, and the characters that are special in HTML are escaped, the two
    separators U+2028 and U+2029 among them. [instr] and [esc] say whether a
    string is open and whether a backslash precedes. *)
Definition html (c : char) : bool := contains_char c "<>&".
Fixpoint compact_raw (instr esc : bool) (s : string) : string :=
  match s with
  | "" => ""
  | String c t =>
      let instr' := if Ascii.eqb c dq && negb esc then negb instr else instr in
      let esc' := instr && Ascii.eqb c bs && negb esc in
      let one := if html c then u4 (bz c) +:+ compact_raw instr' esc' t
                 else if negb instr && is_ws c then compact_raw instr' esc' t
                 else String c (compact_raw instr' esc' t) in
      match t with
      | String c1 (String c2 u) =>
          if (bz c =? 0xE2) && (bz c1 =? 0x80) && ((bz c2 =? 0xA8) || (bz c2 =? 0xA9))
          then u4 (0x2028 + (bz c2 - 0xA8)) +:+ compact_raw instr' esc' u
          else one
      | _ => one
      end
  end.

(** [typed]: the text of the SDK's [ErrorInfo] detail *)
Section bodies.
Context (typed : string * list (string * string) → string).

Definition member (k v : string) : string := quoted k +:+ ":" +:+ v.
Definition object (l : list string) : string := "{" +:+ join "," l +:+ "}".

(* src/internal/agent/guard.go:81-91 (rpcErrorResponse) *)
Definition rpcErrorResponse (id : option string) (code : Z) (message : string) (details : string * list (string * string)) : string :=
  object [member "jsonrpc" (quoted jsonrpcVersion);
          member "id" (match id with Some raw => compact_raw false false raw | None => "null" end);
          member "error" (object [member "code" (itoa code); member "message" (json_string message);
            member "data" ("[" +:+ typed details +:+ "]")])] +:+ String nlc "".

(* src/internal/agent/guard.go:93-102 (restErrorResponse) *)
Definition restErrorResponse (status : Z) (grpc message : string) (details : string * list (string * string)) : string :=
  object [member "error" (object [member "code" (itoa status); member "status" (json_string grpc);
    member "message" (json_string message); member "details" ("[" +:+ typed details +:+ "]")])] +:+ String nlc "".

(** the status and the bytes written for an answer of the guard's own *)
(* src/internal/agent/guard.go:225-257 (writeJSONRPCError) *)
Definition written (o : outcome) : option (Z * string) :=
  match o with
  | RPCError status id code message details => Some (status, rpcErrorResponse id code message details)
  | RESTError status grpc message details => Some (status, restErrorResponse status grpc message details)
  | Next _ => None
  end.
End bodies.

(** * The Agent Card *)

(* src/internal/agent/cardcache.go (etagMatches) *)
Definition etagMatches (header etag : string) : bool :=
  if String.eqb header "" then false
  else existsb (λ c, let c := trim_space c in String.eqb c "*" || String.eqb (trim_prefix "W/" c) etag) (split_char "," header).

(** What the card handler answers: the cache headers it sets, and either 304 or
    the method under which the SDK's static handler is called. *)
Inductive card_answer :=
| Static (method : string)
| NotModified (headers : list (string * string))
| Cached (headers : list (string * string)) (method : string).

(** [etag] and [lastModified] are computed once from the encoded card *)
(* src/internal/agent/cardcache.go (newAgentCardHandler) *)
Definition agentCardHandler (etag lastModified : string) (method ifNoneMatch : string) : card_answer :=
  if negb (String.eqb method "GET") && negb (String.eqb method "HEAD") then Static method else
  let h := [("Cache-Control", "public, max-age=" +:+ itoa (5 * minute / second)); ("ETag", etag); ("Last-Modified", lastModified)] in
  if etagMatches ifNoneMatch etag then NotModified h
  else if String.eqb method "HEAD" then Cached h "GET" else Cached h method.

(** * Lemmas *)

Lemma majorMinor_eq v : majorMinor v =
  match cut_char "." v with
  | Some (a, y) =>
      let b := match cut_char "." y with Some (b, _) => b | None => y end in
      match atoi a, atoi b with
      | Some major, Some minor =>
          if (major <? 0) || (minor <? 0) then None else Some (itoa major +:+ "." +:+ itoa minor)
      | _, _ => None
      end
  | None => None
  end.
Proof.
  unfold majorMinor. cbn [splitn_char]. destruct (cut_char "." v) as [[a y]|]; [|done].
  destruct (cut_char "." y) as [[b z]|]; destruct (atoi a) as [ma|]; try done;
    match goal with |- context [atoi ?b] => destruct (atoi b) as [mi|] end; by destruct (ma <? 0).
Qed.

Lemma atoi_range s z : atoi s = Some z → int64_min ≤ z ≤ int64_max.
Proof. unfold atoi. repeat case_match; intros; simplify_eq; try lia. Qed.

(** Every accepted version reads [major.minor] of two non-negative numbers. *)
Lemma majorMinor_Some v w : majorMinor v = Some w →
  ∃ a b, 0 ≤ a ≤ int64_max ∧ 0 ≤ b ≤ int64_max ∧ w = itoa a +:+ "." +:+ itoa b.
Proof.
  rewrite majorMinor_eq. destruct (cut_char "." v) as [[x y]|]; [|done]. cbv zeta.
  set (b := match cut_char "." y with Some (b, _) => b | None => y end).
  destruct (atoi x) as [ma|] eqn:Ea; [|done]. destruct (atoi b) as [mi|] eqn:Eb; [|done].
  apply atoi_range in Ea, Eb. destruct (_ || _) eqn:E; [done|]. intros [= <-]. exists ma, mi. split_and!; (done || lia).
Qed.

Lemma itoa_no_dot z : 0 ≤ z → contains_char "." (itoa z) = false.
Proof. intros. by apply itoa_no_sep. Qed.

Lemma majorMinor_print a b : 0 ≤ a ≤ int64_max → 0 ≤ b ≤ int64_max →
  majorMinor (itoa a +:+ "." +:+ itoa b) = Some (itoa a +:+ "." +:+ itoa b).
Proof.
  intros Ha Hb. rewrite majorMinor_eq. change ("." +:+ itoa b) with (String "." (itoa b)).
  rewrite cut_char_app by (apply itoa_no_dot; lia). cbv zeta.
  assert (Hc : cut_char "." (itoa b) = None).
  { destruct (cut_char "." (itoa b)) as [[x y]|] eqn:E; [|done]. exfalso.
    pose proof (itoa_no_dot b ltac:(lia)) as Hn. apply cut_char_spec in E as [E _]. rewrite E in Hn.
    rewrite contains_char_app, contains_char_cons, Ascii.eqb_refl, orb_true_r in Hn. done. }
  rewrite Hc, !atoi_itoa by done. by replace ((a <? 0) || (b <? 0)) with false by lia.
Qed.

Lemma majorMinor_patch a b p : 0 ≤ a ≤ int64_max → 0 ≤ b ≤ int64_max →
  majorMinor (itoa a +:+ String "." (itoa b +:+ String "." p)) = Some (itoa a +:+ "." +:+ itoa b).
Proof.
  intros Ha Hb. rewrite majorMinor_eq, cut_char_app by (apply itoa_no_dot; lia). cbv zeta.
  rewrite cut_char_app by (apply itoa_no_dot; lia). rewrite !atoi_itoa by done.
  by replace ((a <? 0) || (b <? 0)) with false by lia.
Qed.

Section lemmas.
Context `{A2A} (quote : string → string).

(** the version the check reads: the header unless blank, else the parameter *)
Definition sent_version (r : request) : string :=
  let v := trim_space (header_get SvcParamVersion r) in
  if String.eqb v "" then trim_space (query_get SvcParamVersion r) else v.

Lemma check_None r : checkProtocolVersion quote r = None ↔
  ∃ w, majorMinor (sent_version r) = Some w ∧ w = default "" (majorMinor Version).
Proof.
  unfold checkProtocolVersion, sent_version. cbv zeta.
  set (v := if String.eqb (trim_space _) "" then trim_space _ else trim_space _). destruct (String.eqb_spec v "") as [->|_].
  { split; [done|]. intros (w & Hw & _). done. }
  destruct (majorMinor v) as [got|].
  - destruct (String.eqb_spec got (default "" (majorMinor Version))) as [->|Hne]; [naive_solver|].
    split; [done|]. intros (w & [= <-] & Hw). done.
  - split; [done|]. by intros (w & ? & _).
Qed.

Lemma check_Some r e : checkProtocolVersion quote r = Some e → errors_is e ErrVersionNotSupported = true ∧
  e_is e = [ErrVersionNotSupported].
Proof.
  unfold checkProtocolVersion. repeat case_match; intros; simplify_eq; (split; [|done]);
    by rewrite errors_is_wrapf, errors_is_sentinel, bool_decide_true.
Qed.

(** what the SDK's exact comparison needs *)
Definition pinned (r : request) : Prop :=
  (header_get SvcParamVersion r = "" ∨ header_get SvcParamVersion r = Version) ∧
  (query_has SvcParamVersion r = true → rq_query r !! SvcParamVersion = Some [Version]) ∧
  (header_get SvcParamVersion r = Version ∨ query_get SvcParamVersion r = Version).

Lemma pin_pinned r : checkProtocolVersion quote r = None → pinned (pinProtocolVersion r).
Proof.
  intros (w & Hw & _)%check_None. assert (Hne : sent_version r ≠ "") by (by intros He; rewrite He in Hw).
  unfold pinned, pinProtocolVersion.
  set (r1 := if String.eqb _ "" then r else _).
  assert (Hh : header_get SvcParamVersion r1 = "" ∧ header_get SvcParamVersion r = "" ∨ header_get SvcParamVersion r1 = Version).
  { subst r1. destruct (String.eqb_spec (header_get SvcParamVersion r) "") as [He|Hn]; [by left|]. right.
    unfold header_get. cbn. by rewrite lookup_insert_eq. }
  assert (Hq : rq_query r1 = rq_query r) by (subst r1; by destruct (String.eqb _ _)).
  clearbody r1. destruct (query_has SvcParamVersion r1) eqn:E.
  - split_and!.
    + destruct Hh as [[Hh _]|Hh]; [left; exact Hh|right; exact Hh].
    + intros _. cbn. apply lookup_insert_eq.
    + right. unfold query_get. cbn. by rewrite lookup_insert_eq.
  - split_and!; [naive_solver|congruence|]. destruct Hh as [[_ Hh]|Hh]; [|by left]. exfalso. apply Hne.
    unfold sent_version. rewrite Hh. cbn. unfold query_get, query_has in *. rewrite Hq in E.
    destruct (rq_query r !! SvcParamVersion); done.
Qed.
End lemmas.

(** ** Identifiers in error bodies *)

(** An identifier without blanks, HTML characters and characters that start with
    the byte of the separators is written as it came. *)
Lemma compact_id s : ∀ instr esc, (∀ c, contains_char c s = true → html c = false ∧ is_ws c = false ∧ bz c ≠ 0xE2) →
  compact_raw instr esc s = s.
Proof.
  induction s as [|c t IH]; [done|]. intros instr esc Hs.
  destruct (Hs c) as (Hh & Hw & He); [rewrite contains_char_cons, Ascii.eqb_refl; done|].
  assert (Ht : ∀ i e, compact_raw i e t = t).
  { intros i e. apply IH. intros c' Hc'. apply Hs. by rewrite contains_char_cons, Hc', orb_true_r. }
  cbn [compact_raw]. rewrite Hh, Hw, andb_false_r, Ht. apply Z.eqb_neq in He. rewrite He. by destruct t as [|? [|]].
Qed.

(** Others are not: the answer carries the same identifier in other bytes. *)
Example id_escaped : compact_raw false false (quoted "a<b") = quoted ("a" +:+ String bs "u003cb").
Proof. reflexivity. Qed.

(** * Properties *)

Section properties.
Context `{A2A} (quote : string → string) (subscribe_id : string → option string) (tasks_get : string → result goerror (Task Part)).

(** what either binding hands on *)
Lemma gate_next (now : gotime) (streaming : bool) (r : request) (body : string) (r' : request) :
  rq_body r = Ok body →
  jsonrpc quote subscribe_id tasks_get now streaming r = Next r' ∨ rest quote tasks_get now streaming r = Next r' →
  (∃ w, majorMinor (sent_version r) = Some w ∧ w = default "" (majorMinor Version)) ∧ r' = pinProtocolVersion r ∧ pinned r'.
Proof.
  intros Hb Hn. destruct (checkProtocolVersion quote r) as [e|] eqn:Ec.
  - exfalso. revert Hn. unfold jsonrpc, rest. rewrite Hb, Ec. by intros [|].
  - pose proof (proj1 (check_None quote r) Ec) as Ha. pose proof (pin_pinned quote r Ec) as Hp.
    assert (r' = pinProtocolVersion r) as ->; [|done]. revert Hn. unfold jsonrpc, rest. rewrite Hb, Ec. cbv zeta.
    unfold writeJSONRPCError, writeRESTError. intros [Hn|Hn]; revert Hn; repeat case_match; intros; by simplify_eq.
Qed.

(** C11: The version gate of both bindings: a request with a readable body goes on
    only if it names a version whose major and minor numbers are those served, and
    then it carries exactly the served version wherever it carries one, which is
    what the SDK compares with; every other request is refused with the
    version-not-supported error. *)
Theorem version_gate (now : gotime) (streaming : bool) (r : request) (body : string) :
  rq_body r = Ok body →
  let accepted := ∃ w, majorMinor (sent_version r) = Some w ∧ w = default "" (majorMinor Version) in
  (∀ r', jsonrpc quote subscribe_id tasks_get now streaming r = Next r' → accepted ∧ r' = pinProtocolVersion r ∧ pinned r') ∧
  (∀ r', rest quote tasks_get now streaming r = Next r' → accepted ∧ r' = pinProtocolVersion r ∧ pinned r') ∧
  (¬ accepted →
     (∃ id msg d, jsonrpc quote subscribe_id tasks_get now streaming r = RPCError 200 id (-32009) msg d) ∧
     (∃ msg d, rest quote tasks_get now streaming r = RESTError 400 "FAILED_PRECONDITION" msg d)).
Proof.
  intros Hb. cbv zeta. split_and!; [intros r' Hn; apply (gate_next now streaming r body r' Hb); auto..|].
  intros Hna. destruct (checkProtocolVersion quote r) as [e|] eqn:Ec.
  - assert (He : codesFor e = Codes (-32009) 400 "FAILED_PRECONDITION" (ErrorReason ErrVersionNotSupported)).
    { destruct (check_Some quote r e Ec) as [_ Hi]. unfold codesFor, errors_is. by rewrite Hi. }
    unfold jsonrpc, rest. rewrite Hb, Ec. unfold writeJSONRPCError, writeRESTError. rewrite He. cbn. split; repeat eexists.
  - destruct Hna. by apply (proj1 (check_None quote r)).
Qed.

(** An accepted version is two non-negative numbers; normalising is idempotent,
    and any patch level of an accepted version is accepted as the same one. *)
Theorem majorMinor_normal (v w : string) :
  majorMinor v = Some w →
  majorMinor w = Some w ∧ ∀ p, majorMinor (w +:+ String "." p) = Some w.
Proof.
  intros (a & b & Ha & Hb & ->)%majorMinor_Some. split; [by apply majorMinor_print|].
  intros p. rewrite <-sapp_assoc. change ("." +:+ itoa b) with (String "." (itoa b)). cbn [String.append].
  by apply majorMinor_patch.
Qed.

(** A REST path names a task to subscribe to exactly when it is [/tasks/],
    a non-empty identifier without a slash, and [:subscribe]. *)
Theorem subscribeTaskID_spec (path id : string) :
  subscribeTaskID path = Some id ↔
  path = "/tasks/" +:+ id +:+ ":subscribe" ∧ id ≠ "" ∧ contains_char "/" id = false.
Proof.
  unfold subscribeTaskID, restTasksPrefix, subscribeActionSuffix. split.
  - destruct (cut_prefix _ path) as [rst|] eqn:Ep; [|done]. apply cut_prefix_spec in Ep as ->.
    destruct (contains_char "/" rst) eqn:Ec; [done|].
    destruct (cut_suffix _ rst) as [i|] eqn:Es; [|done]. apply cut_suffix_spec in Es as ->.
    destruct (String.eqb_spec i ""); [done|]. intros [= <-].
    rewrite contains_char_app in Ec. by apply orb_false_iff in Ec as [Ec _].
  - intros (-> & Hid & Hc).
    rewrite (proj2 (cut_prefix_spec "/tasks/" _ (id +:+ ":subscribe"))) by done.
    rewrite contains_char_app, Hc. change (contains_char "/" ":subscribe") with false. cbn [orb].
    rewrite (proj2 (cut_suffix_spec ":subscribe" _ id)) by done. by destruct (String.eqb_spec id "").
Qed.

(** what both bindings answer about a subscription, by the task's fate *)
Definition subscription (id : string) (nothing notfound terminal : outcome) : outcome :=
  match tasks_get id with
  | Err e => if errors_is e ErrTaskNotFound then notfound else nothing
  | Ok t => if Terminal (s_State (t_Status t)) then terminal else nothing
  end.

Lemma codes_wrap pre x : codesFor (wrapf pre (sentinel_err x)) = codesFor (sentinel_err x).
Proof. done. Qed.

(** Subscribing over REST: with a served version, a subscription to an unknown
    task is answered 404, to a finished task 400, and a subscription to a live task
    — or one whose lookup failed for another reason — is left to the SDK. *)
Theorem rest_subscription (now : gotime) (r : request) (body id : string) :
  rq_body r = Ok body → checkProtocolVersion quote r = None →
  rq_method r = "GET" ∨ rq_method r = "POST" → subscribeTaskID (rq_path r) = Some id →
  ∃ m1 m2, rest quote tasks_get now true r =
    subscription id (Next (pinProtocolVersion r))
      (RESTError 404 "NOT_FOUND" m1 (errorDetails now (ErrorReason ErrTaskNotFound) id))
      (RESTError 400 "FAILED_PRECONDITION" m2 (errorDetails now (ErrorReason ErrUnsupportedOperation) id)).
Proof.
  intros Hb Hc Hm Hid. unfold rest, subscription, checkSubscribable. rewrite Hb, Hc. cbv zeta.
  assert (Hp : rq_method (pinProtocolVersion r) = rq_method r ∧ rq_path (pinProtocolVersion r) = rq_path r).
  { unfold pinProtocolVersion. destruct (String.eqb _ _), (query_has _ _); done. }
  destruct Hp as [-> ->]. rewrite Hid.
  assert (Hmm : String.eqb (rq_method r) "GET" || String.eqb (rq_method r) "POST" = true) by (by destruct Hm as [-> | ->]).
  rewrite Hmm. cbn [andb]. destruct (tasks_get id) as [t|e].
  - destruct (Terminal _); [|by exists "", ""]. exists "". eexists. unfold writeRESTError. by rewrite codes_wrap.
  - destruct (errors_is e _); [|by exists "", ""]. eexists. exists "". unfold writeRESTError. by rewrite codes_wrap.
Qed.

(** Subscribing over JSON-RPC: the same three answers, as errors -32001 and
    -32004 under the id the request came with. *)
Theorem jsonrpc_subscription (now : gotime) (r : request) (body id : string) (env : rpcEnvelope) :
  rq_body r = Ok body → checkProtocolVersion quote r = None → decode_envelope body = Some env →
  env_JSONRPC env = "2.0" → isRPCID (env_ID env) = true → env_Method env = "SubscribeToTask" →
  subscribe_id (env_Params env) = Some id → id ≠ "" →
  ∃ m1 m2, jsonrpc quote subscribe_id tasks_get now true r =
    subscription id (Next (pinProtocolVersion r))
      (RPCError 200 (Some (env_ID env)) (-32001) m1 (errorDetails now (ErrorReason ErrTaskNotFound) ""))
      (RPCError 200 (Some (env_ID env)) (-32004) m2 (errorDetails now (ErrorReason ErrUnsupportedOperation) "")).
Proof.
  intros Hb Hc Hd Hv Hid Hm Hs Hne. unfold jsonrpc, subscription. rewrite Hb, Hc, Hd, Hv, Hid, Hm. cbv zeta.
  cbn [String.eqb Ascii.eqb Bool.eqb andb negb orb]. change (String.eqb "2.0" jsonrpcVersion) with true.
  change (String.eqb "SubscribeToTask" methodSubscribeToTask) with true. cbn [andb negb orb]. rewrite Hs.
  destruct (String.eqb_spec id ""); [done|]. unfold checkSubscribable. destruct (tasks_get id) as [t|e].
  - destruct (Terminal _); [|by exists "", ""]. exists "". eexists. unfold writeJSONRPCError. by rewrite codes_wrap.
  - destruct (errors_is e _); [|by exists "", ""]. eexists. exists "". unfold writeJSONRPCError. by rewrite codes_wrap.
Qed.

(** Any other request of a served version is handed to the SDK unanswered: the
    guard adds no error of its own. *)
Theorem guard_passes (now : gotime) (streaming : bool) (r : request) (body : string) :
  rq_body r = Ok body → checkProtocolVersion quote r = None →
  (subscribeTaskID (rq_path r) = None ∨ streaming = false → rest quote tasks_get now streaming r = Next (pinProtocolVersion r)) ∧
  (streaming = false ∨ (∀ env, decode_envelope body = Some env → env_Method env ≠ "SubscribeToTask") →
     jsonrpc quote subscribe_id tasks_get now streaming r = Next (pinProtocolVersion r)).
Proof.
  intros Hb Hc. unfold rest, jsonrpc. rewrite Hb, Hc. cbv zeta.
  assert (Hp : rq_path (pinProtocolVersion r) = rq_path r).
  { unfold pinProtocolVersion. destruct (String.eqb _ _), (query_has _ _); done. }
  rewrite Hp. split.
  - intros [-> | ->]; [|done]. by destruct (streaming && _).
  - intros Hs. destruct (decode_envelope body) as [env|]; [|done]. destruct (_ && isRPCID _); [|done].
    destruct Hs as [-> |Hs]; [done|]. destruct (String.eqb_spec (env_Method env) methodSubscribeToTask) as [He|];
      [by destruct (Hs env eq_refl)|]. by rewrite orb_true_r.
Qed.

(** A body over the size limit is refused by both bindings with 413 before
    anything is decoded, any other read failure with 400. *)
Theorem body_errors (now : gotime) (streaming : bool) (r : request) (e : body_error) :
  rq_body r = Err e →
  let status := match e with TooLarge _ => 413 | ReadFailed => 400 end in
  (∃ msg d, jsonrpc quote subscribe_id tasks_get now streaming r = RPCError status None (-32600) msg d) ∧
  (∃ msg d, rest quote tasks_get now streaming r = RESTError status "INVALID_ARGUMENT" msg d).
Proof.
  intros Hb. cbv zeta. unfold jsonrpc, rest. rewrite Hb.
  destruct e; cbn; unfold writeJSONRPCError, writeRESTError; rewrite codes_wrap; split; repeat eexists.
Qed.
End properties.

(** Revalidating the Agent Card: whoever sends back the entity tag the card was
    served with, alone, as a weak tag or among others, gets 304 with the cache
    headers; without a matching tag GET and HEAD get the card under GET; other
    methods reach the SDK's handler untouched. *)
Theorem card_revalidation (etag lastModified method header after : string) :
  contains_char "," etag = false → trim_space etag = etag → trim_space ("W/" +:+ etag) = "W/" +:+ etag →
  has_prefix "W/" etag = false →
  method = "GET" ∨ method = "HEAD" →
  (header = etag ∨ header = "W/" +:+ etag ∨ header = etag +:+ "," +:+ after) → header ≠ "" →
  (∃ h, agentCardHandler etag lastModified method header = NotModified h ∧ h !! 1%nat = Some ("ETag", etag)) ∧
  (∃ h, agentCardHandler etag lastModified method "" = Cached h "GET").
Proof.
  intros Hc Ht Hw Hnp Hm Hh Hne.
  assert (Hmm : negb (String.eqb method "GET") && negb (String.eqb method "HEAD") = false) by (by destruct Hm as [-> | ->]).
  assert (Hcut : trim_prefix "W/" etag = etag).
  { unfold trim_prefix. destruct (cut_prefix "W/" etag) as [t|] eqn:E; [|done].
    apply cut_prefix_spec in E. rewrite E, has_prefix_app in Hnp. done. }
  assert (Hcut2 : trim_prefix "W/" ("W/" +:+ etag) = etag).
  { unfold trim_prefix. by rewrite (proj2 (cut_prefix_spec "W/" _ etag)). }
  assert (Hmatch : etagMatches header etag = true).
  { unfold etagMatches. destruct (String.eqb_spec header ""); [done|].
    destruct Hh as [->|[->|Hh]].
    - rewrite split_char_single by done. cbn [existsb]. cbv zeta. rewrite Ht, Hcut, String.eqb_refl. by rewrite orb_true_r.
    - rewrite split_char_single by (by rewrite contains_char_app, Hc). cbn [existsb]. cbv zeta.
      by rewrite Hw, Hcut2, String.eqb_refl, orb_true_r.
    - subst header. change ("," +:+ after) with (String "," after). rewrite split_char_cons by done.
      cbn [existsb]. cbv zeta. by rewrite Ht, Hcut, String.eqb_refl, orb_true_r. }
  unfold agentCardHandler. rewrite Hmm, Hmatch. cbv zeta. split; [by eexists|].
  change (etagMatches "" etag) with false. cbv iota. destruct Hm as [-> | ->]; by eexists.
Qed.

(** * Witnesses *)

Definition rpc_body : string :=
  quoted "jsonrpc" +:+ ":" +:+ quoted "2.0" +:+ "," +:+ quoted "id" +:+ ":7," +:+ quoted "method" +:+ ":" +:+
  quoted "SubscribeToTask" +:+ "," +:+ quoted "params" +:+ ":{}".
Definition versioned (v path body : string) : request :=
  MkRequest "POST" path {["A2A-Version" := v]} ∅ (Ok body).
Definition no_tasks : string → result goerror (Task Part) := λ _, Err (sentinel_err ErrTaskNotFound).
Definition plain_quote (s : string) : string := quoted s.

Lemma version_gate_witness :
  ∃ id msg d, jsonrpc plain_quote (λ _, None) no_tasks zero_time true (versioned "0.3" "/" "") = RPCError 200 id (-32009) msg d.
Proof.
  destruct (version_gate plain_quote (λ _, None) no_tasks zero_time true (versioned "0.3" "/" "") "" eq_refl) as (_ & _ & Hr).
  apply Hr. intros (w & Hw & He). vm_compute in Hw. vm_compute in He. congruence.
Defined.

Lemma majorMinor_normal_witness : majorMinor "1.0.3" = Some "1.0".
Proof. exact (proj2 (majorMinor_normal "1.0" "1.0" eq_refl) "3"). Defined.

Lemma rest_subscription_witness :
  ∃ m d, rest plain_quote no_tasks zero_time true (versioned "1.0.3" "/tasks/t1:subscribe" "") = RESTError 404 "NOT_FOUND" m d.
Proof.
  destruct (rest_subscription plain_quote no_tasks zero_time (versioned "1.0.3" "/tasks/t1:subscribe" "") "" "t1"
    eq_refl eq_refl (or_intror eq_refl) eq_refl) as (m1 & m2 & ->). repeat eexists.
Defined.

Lemma jsonrpc_subscription_witness :
  ∃ m d, jsonrpc plain_quote (λ _, Some "t1") no_tasks zero_time true (versioned "1.0" "/" ("{" +:+ rpc_body +:+ "}")) =
    RPCError 200 (Some "7") (-32001) m d.
Proof.
  destruct (jsonrpc_subscription plain_quote (λ _, Some "t1") no_tasks zero_time (versioned "1.0" "/" ("{" +:+ rpc_body +:+ "}"))
    ("{" +:+ rpc_body +:+ "}") "t1" (MkEnv "2.0" "7" "SubscribeToTask" "{}")) as (m1 & m2 & ->);
    [reflexivity|reflexivity|vm_compute; reflexivity|reflexivity|reflexivity|reflexivity|reflexivity|discriminate|].
  repeat eexists.
Defined.

Lemma guard_passes_witness :
  rest plain_quote no_tasks zero_time true (versioned "1.0" "/tasks/t1" "") = Next (pinProtocolVersion (versioned "1.0" "/tasks/t1" "")).
Proof.
  apply (proj1 (guard_passes plain_quote (λ _, None) no_tasks zero_time true (versioned "1.0" "/tasks/t1" "") "" eq_refl eq_refl)).
  left. reflexivity.
Defined.

Lemma body_errors_witness :
  ∃ m d, rest plain_quote no_tasks zero_time true (MkRequest "POST" "/tasks" ∅ ∅ (Err (TooLarge 10))) = RESTError 413 "INVALID_ARGUMENT" m d.
Proof.
  apply (body_errors plain_quote (λ _, None) no_tasks zero_time true (MkRequest "POST" "/tasks" ∅ ∅ (Err (TooLarge 10))) (TooLarge 10)).
  reflexivity.
Defined.

Lemma card_revalidation_witness :
  ∃ h, agentCardHandler (quoted "ab12") "now" "HEAD" (quoted "ab12") = NotModified h ∧ h !! 1%nat = Some ("ETag", quoted "ab12").
Proof.
  apply (card_revalidation (quoted "ab12") "now" "HEAD" (quoted "ab12") "");
    [reflexivity|reflexivity|reflexivity|reflexivity|by right|by left|discriminate].
Defined.
