(* ===== verification/Server.v ===== *)
(** The agent's HTTP surface as it is assembled (src/internal/agent/server.go):
    the size limit on bodies, the routes, the Agent Card with its cache headers,
    the guard in front of the SDK's two bindings, and the UTC wrapper around the
    executor the SDK drives. *)
From Stdlib Require Import Ascii.
From stdpp Require Import base list sets strings gmap.
From S2P Require Import Prelude GoStrings GoTime Json A2A Metrics GoExec GoMux Iter Store Executor TaskStore Update Guard.

Open Scope string_scope.
Open Scope Z_scope.
Open Scope list_scope.

(* src/internal/agent/server.go:17-18 (TextMediaType) *)
Definition TextMediaType : string := "text/plain".
(* src/internal/agent/server.go:20-22 (maxRequestBodyBytes) *)
Definition maxRequestBodyBytes : Z := Z.shiftl 10 20.

(** * Requests *)

(** a body as it arrives: none, or the bytes and whether they end properly *)
Inductive wire_body : Set := NoBody | Sent (content : string) (complete : bool).

(** [http.MaxBytesReader] read to its end *)
Definition read_limited (limit : Z) (b : wire_body) : result body_error string :=
  match b with
  | NoBody => Ok ""
  | Sent s complete =>
      if limit <? Z.of_nat (slen s) then Err (TooLarge limit) else if complete then Ok s else Err ReadFailed
  end.

Record http_request := MkHttp { h_route : route; h_header : gmap string string;
  h_query : gmap string (list string); h_body : wire_body }.

(** the request the guard reads, its body behind the limit *)
(* src/internal/agent/server.go:82-87 (NewA2AHTTPHandler) *)
Definition guarded_request (r : http_request) : request :=
  MkRequest (ro_method (h_route r)) (ro_path (h_route r)) (h_header r) (h_query r)
    (read_limited maxRequestBodyBytes (h_body r)).

(** * Executors *)

Section executors.
Context `{A2A}.

(** [a2asrv.AgentExecutor] *)
Record AgentExecutor := MkAgentExecutor {
  ae_Execute : ExecutorContext Part → Seq yielded;
  ae_Cancel : ExecutorContext Part → Seq yielded }.

Definition is_err (y : yielded) : bool := match y with YieldErr _ => true | Yield _ => false end.
Definition utc_item (y : yielded) : yielded :=
  match y with Yield ev => Yield (eventInUTC ev) | YieldErr e => YieldErr e end.

(** the loop of [utcEvents] over any iterator *)
(* src/internal/agent/utc.go:30-38 (utcEvents) *)
Definition utc_seq (seq : Seq yielded) : Seq yielded :=
  λ S c s, seq S (Consumer (λ y, yield c (utc_item y)) (ctx_over c) (wait c)) s.

(* src/internal/agent/utc.go:14-28 (utcExecutor) *)
Definition utcExecutor (next : AgentExecutor) : AgentExecutor :=
  MkAgentExecutor (λ ec, utc_seq (ae_Execute next ec)) (λ ec, utc_seq (ae_Cancel next ec)).

Lemma utc_seq_obeys q l : obeys is_err q l → obeys is_err (utc_seq q) (map utc_item l).
Proof. apply obeys_map. by intros []. Qed.

(** the two readings of [utcEvents] agree: over the iterator of a list, a consumer
    receives what the function on lists gives *)
Lemma utc_seq_list (p : yielded → bool) (l : list yielded) (s : list yielded) :
  utc_seq (of_list l) _ (keeping p) s = s ++ utcEvents p l.
Proof.
  unfold utc_seq. revert s. induction l as [|y l IH]; intros s; [by rewrite app_nil_r|].
  cbn [of_list utcEvents keeping yield]. change (match y with Yield ev => Yield (eventInUTC ev) | YieldErr e => YieldErr e end) with (utc_item y).
  destruct (p (utc_item y)); [|done]. specialize (IH (s ++ [utc_item y])). cbn [keeping yield ctx_over wait] in IH |- *.
  rewrite IH. by rewrite <-app_assoc.
Qed.
End executors.

(** * The handler *)

Inductive endpoint : Set := EpCard | EpHealthz | EpMetrics | EpRPC | EpREST.

(** what the assembly fixes: the card's validators, its streaming capability,
    and the executor handed to the SDK *)
Record server `{A2A} := MkServer { sv_etag : string; sv_lastModified : string; sv_streaming : bool; sv_executor : AgentExecutor }.

(** Answers: the card handler's, a text, the guard's about one of the bindings
    (a [Next] is what reaches the SDK), or the router's own. *)
Inductive answer `{A2A} :=
| CardAnswer (a : card_answer)
| TextAnswer (content_type : option string) (body : string)
| RPCAnswer (o : outcome)
| RESTAnswer (o : outcome)
| RouterAnswer (r : routed endpoint).

Section server.
Context `{A2A}.
(** [a2asrv.WellKnownAgentCardPath] *)
Context (WellKnownAgentCardPath : string).
(** [a2a.AgentCapabilities], of a card; [json.Marshal] of the card, SHA-256,
    [http.TimeFormat], and [a2asrv.NewAgentCardEnforcer] of a card that has the
    capabilities only *)
Context {Capabilities : Type} (ac_Capabilities : AgentCard → Capabilities) (Streaming : Capabilities → bool)
  (marshal_card : AgentCard → result goerror string) (sha256 : string → string)
  (http_time : gotime → string) (NewAgentCardEnforcer : Capabilities → option goerror).
(** [strconv.Quote], and the SDK's request type for subscriptions *)
Context (quote : string → string) (subscribe_id : string → option string).

(* src/internal/agent/cardcache.go:24-33 (newAgentCardHandler) *)
Definition newAgentCardHandler (card : AgentCard) (builtAt : gotime) : result goerror (string * string) :=
  match marshal_card card with
  | Err e => Err (wrapf "encode agent card: " e)
  | Ok body => Ok (String dq (hex_encode (sha256 body)) +:+ String dq "", http_time (to_utc builtAt))
  end.

(* src/internal/agent/server.go:65-81 (NewA2AHTTPHandler) *)
Definition patterns : mux endpoint :=
  [(WellKnownAgentCardPath, EpCard); ("GET /healthz", EpHealthz); ("GET /metrics", EpMetrics); ("POST /{$}", EpRPC)] ++
  map (λ p, (p, EpREST)) ["/message:send"; "/message:stream"; "/tasks"; "/tasks/"; "/extendedAgentCard"].

(* src/internal/agent/server.go:36-63 (NewA2AHTTPHandler) *)
Definition NewA2AHTTPHandler (card : AgentCard) (executor : AgentExecutor) (now : gotime) :
    result goerror server :=
  match newAgentCardHandler card now with
  | Err e => Err e
  | Ok (etag, lastModified) =>
      match NewAgentCardEnforcer (ac_Capabilities card) with
      | Some e => Err (wrapf "agent card enforcer: " e)
      | None => Ok (MkServer _ etag lastModified (Streaming (ac_Capabilities card)) (utcExecutor executor))
      end
  end.

(** one request, at a time, with the counters and the task store as they are *)
(* src/internal/agent/server.go:65-88 (NewA2AHTTPHandler) *)
Definition ServeHTTP (sv : server) (tasks_get : string → result goerror (Task Part)) (m : metrics) (uptime : string)
    (now : gotime) (r : http_request) : answer :=
  match mux_route patterns (h_route r) with
  | Matched EpCard =>
      CardAnswer (agentCardHandler (sv_etag sv) (sv_lastModified sv) (ro_method (h_route r))
        (default "" (h_header r !! "If-None-Match")))
  | Matched EpHealthz => TextAnswer None "ok"
  | Matched EpMetrics => TextAnswer (Some "text/plain; version=0.0.4; charset=utf-8") (emit uptime m)
  | Matched EpRPC => RPCAnswer (jsonrpc quote subscribe_id tasks_get now (sv_streaming sv) (guarded_request r))
  | Matched EpREST => RESTAnswer (rest quote tasks_get now (sv_streaming sv) (guarded_request r))
  | MovedTo p q => RouterAnswer (MovedTo p q)
  | MethodNotAllowed l => RouterAnswer (MethodNotAllowed l)
  | NoSuchPage => RouterAnswer NoSuchPage
  | BadURI => RouterAnswer BadURI
  end.

End server.

(** * Routing *)

(** a path the router takes as it was sent: clean, and no escapes in it *)
Record plain_route (r : route) : Prop := {
  pr_uri : ro_uri r ≠ "*";
  pr_method : ro_method r ≠ "CONNECT";
  pr_escaped : ro_escaped r = ro_path r;
  pr_percent : contains_char "%" (ro_path r) = false;
  pr_clean : cleanPath (ro_path r) = ro_path r }.

Definition rest_paths : list string := ["/message:send"; "/message:stream"; "/tasks"; "/extendedAgentCard"].
Definition card_path : string := "/.well-known/agent-card.json".

(** the routes of the agent, method by method and path by path *)
Definition routing_table (method path : string) : routed endpoint :=
  let only (methods : list string) (e : endpoint) :=
    if bool_decide (method ∈ methods) then Matched e else MethodNotAllowed methods in
  if String.eqb path card_path then Matched EpCard
  else if String.eqb path "/healthz" then only ["GET"; "HEAD"] EpHealthz
  else if String.eqb path "/metrics" then only ["GET"; "HEAD"] EpMetrics
  else if String.eqb path "/" then only ["POST"] EpRPC
  else if bool_decide (path ∈ rest_paths) || has_prefix "/tasks/" path then Matched EpREST
  else NoSuchPage.


(** ** The one pattern a path falls under *)

Definition nd (method : string) (l : list segment) (e : endpoint) : node := (MkPattern method l, e).
Definition n_subtree : node := nd "" [Lit "tasks"; Multi] EpREST.

Definition agent_nodes : list (@node endpoint) :=
  [nd "" [Lit ".well-known"; Lit "agent-card.json"] EpCard; nd "GET" [Lit "healthz"] EpHealthz; nd "GET" [Lit "metrics"] EpMetrics;
   nd "POST" [Lit "/"] EpRPC; nd "" [Lit "message:send"] EpREST; nd "" [Lit "message:stream"] EpREST; nd "" [Lit "tasks"] EpREST;
   n_subtree; nd "" [Lit "extendedAgentCard"] EpREST].

Lemma nodes_eq : nodes (patterns card_path) = agent_nodes.
Proof. reflexivity. Qed.

Definition pattern_of (path : string) : option (@node endpoint) :=
  if String.eqb path "/.well-known/agent-card.json" then Some (nd "" [Lit ".well-known"; Lit "agent-card.json"] EpCard)
  else if String.eqb path "/healthz" then Some (nd "GET" [Lit "healthz"] EpHealthz)
  else if String.eqb path "/metrics" then Some (nd "GET" [Lit "metrics"] EpMetrics)
  else if String.eqb path "/" then Some (nd "POST" [Lit "/"] EpRPC)
  else if String.eqb path "/message:send" then Some (nd "" [Lit "message:send"] EpREST)
  else if String.eqb path "/message:stream" then Some (nd "" [Lit "message:stream"] EpREST)
  else if String.eqb path "/tasks" then Some (nd "" [Lit "tasks"] EpREST)
  else if has_prefix "/tasks/" path then Some n_subtree
  else if String.eqb path "/extendedAgentCard" then Some (nd "" [Lit "extendedAgentCard"] EpREST)
  else None.

Section paths.
Context (path : string) (Hr : has_prefix "/" path = true) (Hp : contains_char "%" path = false).

Lemma matched_nodes : filterb (λ n, match_segments (pt_segments n.1) path) agent_nodes =
  match pattern_of path with Some n => [n] | None => [] end.
Proof.
  unfold agent_nodes, n_subtree, nd. cbn [filterb List.filter fst pt_segments].
  rewrite (match_two ".well-known" "agent-card.json"), (match_root path), (match_subtree "tasks"), !match_one by done.
  cbn [String.append]. unfold pattern_of.
  repeat match goal with |- context [String.eqb path ?c] => destruct (String.eqb_spec path c) as [->|]; [reflexivity|] end.
  destruct (has_prefix "/tasks/" path) eqn:E; [|done]. apply has_prefix_spec in E as [t ->]. reflexivity.
Qed.

Lemma find_one method : find_method method path agent_nodes =
  match pattern_of path with Some n => if String.eqb (pt_method n.1) method then Some n else None | None => None end.
Proof.
  unfold find_method. rewrite filterb_and, matched_nodes. destruct (pattern_of path) as [n|]; [|done].
  cbn [filterb]. by destruct (String.eqb _ _).
Qed.

Lemma tree_one method : tree_match method path (patterns card_path) =
  match pattern_of path with
  | Some n =>
      let m := pt_method n.1 in
      if String.eqb m method || (String.eqb method "HEAD" && String.eqb m "GET") || String.eqb m "" then Some n else None
  | None => None
  end.
Proof.
  unfold tree_match. rewrite nodes_eq, !find_one. destruct (pattern_of path) as [n|].
  - cbv zeta. destruct (String.eqb (pt_method n.1) method); [done|]. destruct (String.eqb method "HEAD"); cbn [andb orb].
    + by destruct (String.eqb (pt_method n.1) "GET").
    + done.
  - by destruct (String.eqb method "HEAD").
Qed.

Lemma methods_one : methods_of path (patterns card_path) =
  match pattern_of path with Some n => if String.eqb (pt_method n.1) "" then [] else [pt_method n.1] | None => [] end.
Proof.
  unfold methods_of. rewrite nodes_eq.
  transitivity (omap (λ n : @node endpoint, if negb (String.eqb (pt_method n.1) "") then Some (pt_method n.1) else None)
    (filterb (λ n, match_segments (pt_segments n.1) path) agent_nodes)).
  - induction agent_nodes as [|n l IH]; [done|]. cbn [omap list_omap filterb].
    destruct (match_segments (pt_segments n.1) path); [|rewrite andb_false_r; exact IH].
    rewrite andb_true_r. cbn [omap list_omap]. by destruct (negb _); rewrite <-IH.
  - rewrite matched_nodes. destruct (pattern_of path) as [n|]; [|done]. cbn. by destruct (String.eqb (pt_method n.1) "").
Qed.
End paths.

(** with a slash added only the subtree's pattern can apply *)
Lemma ends_with_slash_app p : ends_with_slash (p +:+ "/") = true.
Proof.
  unfold ends_with_slash, has_suffix. rewrite slen_app, Nat.add_sub, sdrop_app. cbn [slen String.length].
  rewrite (proj2 (Nat.leb_le _ _)) by (cbn; lia). done.
Qed.

Lemma pattern_of_slash path : has_prefix "/" path = true →
  pattern_of (path +:+ "/") = if has_prefix "/tasks/" (path +:+ "/") then Some n_subtree else None.
Proof.
  intros Hr. unfold pattern_of. pose proof (ends_with_slash_app path) as He.
  repeat match goal with |- context [String.eqb (path +:+ "/") ?c] =>
    destruct (String.eqb_spec (path +:+ "/") c) as [Heq|]; [exfalso; rewrite Heq in He; vm_compute in He; first [discriminate He|
      apply (f_equal slen) in Heq; rewrite slen_app in Heq; destruct path; [discriminate Hr|cbn in Heq; lia]]|] end.
  done.
Qed.

Lemma tasks_prefix path t : path +:+ "/" = "/tasks/" +:+ t → path ≠ "/tasks" → ∃ u, path = "/tasks/" +:+ u.
Proof.
  intros Ht Hne. do 7 (destruct path as [|? path]; cbn in Ht; [exfalso; congruence|injection Ht as -> Ht]).
  by exists path.
Qed.

Lemma count_char_app c s t : count_char c (s +:+ t) = (count_char c s + count_char c t)%nat.
Proof. induction s as [|a s IH]; [done|]. cbn [String.append count_char]. rewrite IH. by destruct (Ascii.eqb a c). Qed.

Lemma no_redirect method path url_path : has_prefix "/" path = true → contains_char "%" path = false →
  match_or_redirect method path url_path (patterns card_path) = inr (tree_match method path (patterns card_path)).
Proof.
  intros Hr Hp. unfold match_or_redirect.
  destruct (negb (exact_match _ path) && negb (ends_with_slash path) && exact_match _ (path +:+ "/")) eqn:E; [|done].
  apply andb_true_iff in E as [[Hn He]%andb_true_iff Hx]. exfalso.
  assert (Hr' : has_prefix "/" (path +:+ "/") = true) by (by destruct path).
  assert (Hp' : contains_char "%" (path +:+ "/") = false) by (by rewrite contains_char_app, Hp).
  rewrite (tree_one (path +:+ "/") Hr' Hp') in Hx.
  rewrite pattern_of_slash in Hx by done. destruct (has_prefix "/tasks/" (path +:+ "/")) eqn:Et; [|done].
  cbn in Hx. rewrite orb_true_r in Hx. cbn in Hx. rewrite ends_with_slash_app in Hx. cbn in Hx.
  apply has_prefix_spec in Et as [t Ht]. destruct (String.eqb_spec path "/tasks") as [->|Hne].
  - rewrite tree_one in Hn by done. cbn in Hn. by rewrite orb_true_r in Hn.
  - assert (Hc : (3 ≤ count_char slash (path +:+ "/"))%nat).
    { destruct (tasks_prefix path t Ht Hne) as [u ->]. rewrite <-sapp_assoc.
      change (count_char slash ("/tasks/" +:+ (u +:+ "/"))) with (S (S (count_char slash (u +:+ "/")))).
      rewrite count_char_app. cbn. lia. }
    by destruct (count_char slash (path +:+ "/")) as [|[|[|]]]; [lia..|].
Qed.

Lemma other_methods path : has_prefix "/" path = true → contains_char "%" path = false →
  no_match path (patterns card_path) =
  match pattern_of path with
  | Some n => match pt_method n.1 with
              | "" => NoSuchPage
              | m => MethodNotAllowed (if String.eqb m "GET" then ["GET"; "HEAD"] else [m])
              end
  | None => NoSuchPage
  end.
Proof.
  intros Hr Hp. unfold no_match, matchingMethods. rewrite methods_one by done.
  assert (Hs : (if ends_with_slash path then [] else methods_of (path +:+ "/") (patterns card_path)) = []).
  { destruct (ends_with_slash path); [done|]. assert (Hr' : has_prefix "/" (path +:+ "/") = true) by (by destruct path).
    rewrite methods_one by (rewrite ?contains_char_app, ?Hp; done). rewrite pattern_of_slash by done.
    by destruct (has_prefix "/tasks/" _). }
  rewrite Hs, app_nil_r. unfold pattern_of.
  repeat match goal with |- context [if ?b then Some _ else _] => destruct b; [reflexivity|] end. reflexivity.
Qed.

(** membership in a list written out, as the tests the router makes *)
Lemma in_two m a b : bool_decide (m ∈ [a; b]) = String.eqb a m || String.eqb m b.
Proof. destruct (String.eqb_spec a m), (String.eqb_spec m b); case_bool_decide; set_solver. Qed.
Lemma in_one m a : bool_decide (m ∈ [a]) = String.eqb a m.
Proof. destruct (String.eqb_spec a m); case_bool_decide; set_solver. Qed.

(** * Properties *)

(** C32: The routes, exactly: whatever the method, a clean path gets the endpoint
    of its place in the table, an answer that names the methods it does have, or
    no page; the JSON-RPC endpoint is only ever [POST /], and every path that is
    not the agent's gets no page. *)
Theorem routing (r : route) : plain_route r → mux_route (patterns card_path) r = routing_table (ro_method r) (ro_path r).
Proof.
  intros [Hu Hm He Hp Hc]. assert (Hr : has_prefix "/" (ro_path r) = true) by (rewrite <-Hc; apply cleanPath_rooted).
  unfold mux_route. destruct (String.eqb_spec (ro_uri r) "*"); [done|]. destruct (String.eqb_spec (ro_method r) "CONNECT"); [done|].
  cbv zeta. rewrite He, Hc, no_redirect, String.eqb_refl, tree_one, other_methods by done. cbn [negb andb].
  unfold routing_table, pattern_of. set (m := ro_method r). set (p := ro_path r). clearbody m p. clear -m.
  change card_path with "/.well-known/agent-card.json".
  assert (Hrest : bool_decide (p ∈ rest_paths) = String.eqb p "/message:send" || String.eqb p "/message:stream" || String.eqb p "/tasks" || String.eqb p "/extendedAgentCard").
  { apply eq_bool_prop_intro. rewrite bool_decide_spec. unfold rest_paths. rewrite !elem_of_cons, elem_of_nil, !Is_true_true.
    rewrite !orb_true_iff, !String.eqb_eq. tauto. }
  assert (Hget : bool_decide (m ∈ ["GET"; "HEAD"]) = String.eqb "GET" m || String.eqb m "HEAD") by apply in_two.
  assert (Hpost : bool_decide (m ∈ ["POST"]) = String.eqb "POST" m) by by apply in_one.
  rewrite Hrest, Hget, Hpost. cbv zeta. clear.
  repeat match goal with |- context [String.eqb p ?c] => destruct (String.eqb_spec p c) as [->|_]; cbn [nd n_subtree fst snd pt_method andb orb];
    [try change (has_prefix "/tasks/" "/extendedAgentCard") with false; cbn [nd n_subtree fst snd pt_method andb orb];
     change (String.eqb "GET" "") with false; change (String.eqb "POST" "") with false; change (String.eqb "GET" "GET") with true;
     change (String.eqb "POST" "GET") with false; rewrite ?andb_true_r, ?andb_false_r, ?orb_false_r, ?orb_true_r;
     first [reflexivity | by destruct (_ || _) | by destruct (String.eqb "POST" m)]|] end.
  cbn [orb]. destruct (has_prefix "/tasks/" p); cbn [nd n_subtree fst snd pt_method]; [|done]. by rewrite orb_true_r.
Qed.

Section safety.
Context `{A2A} (quote : string → string) (subscribe_id : string → option string).

(** the request the SDK's handlers are called with, if any *)
Definition to_sdk (a : answer) : option request :=
  match a with RPCAnswer (Next r) | RESTAnswer (Next r) => Some r | _ => None end.

Lemma read_limited_Ok limit b s : read_limited limit b = Ok s →
  Z.of_nat (slen s) ≤ Z.max 0 limit ∧ (b = NoBody ∧ s = "" ∨ b = Sent s true).
Proof.
  destruct b as [|c complete]; cbn [read_limited].
  - intros [= <-]. cbn. split; [lia|by left].
  - destruct (limit <? Z.of_nat (slen c)) eqn:E; [done|]. destruct complete; [|done]. intros [= <-].
    apply Z.ltb_ge in E. split; [lia|by right].
Qed.

(** C22: What reaches the SDK: through whichever route, only a request whose body
    arrived in full within ten mebibytes, that names a served version, pinned to
    the exact one, and nothing else of it changed; a longer body is answered
    413 wherever it is sent to a binding. *)
Theorem only_checked_requests (wk : string) (sv : server) (tasks_get : string → result goerror (Task Part)) (m : metrics)
    (uptime : string) (now : gotime) (r : http_request) :
  let a := ServeHTTP wk quote subscribe_id sv tasks_get m uptime now r in
  (∀ r', to_sdk a = Some r' →
     (h_body r = NoBody ∨ ∃ s, h_body r = Sent s true ∧ Z.of_nat (slen s) ≤ 10485760) ∧
     (∃ w, majorMinor (sent_version (guarded_request r)) = Some w ∧ w = default "" (majorMinor Version)) ∧
     r' = pinProtocolVersion (guarded_request r) ∧ pinned r') ∧
  (∀ s complete, h_body r = Sent s complete → 10485760 < Z.of_nat (slen s) → to_sdk a = None ∧
     match a with
     | RPCAnswer o => ∃ msg d, o = RPCError 413 None (-32600) msg d
     | RESTAnswer o => ∃ msg d, o = RESTError 413 "INVALID_ARGUMENT" msg d
     | _ => True
     end).
Proof.
  cbv zeta. set (g := guarded_request r).
  assert (Hg : rq_body g = read_limited maxRequestBodyBytes (h_body r)) by done.
  split.
  - intros r' Ha. destruct (rq_body g) as [body|e] eqn:Eb.
    + symmetry in Hg. destruct (read_limited_Ok _ _ _ Hg) as [Hl Hb].
      assert (Hn : jsonrpc quote subscribe_id tasks_get now (sv_streaming sv) g = Next r' ∨ rest quote tasks_get now (sv_streaming sv) g = Next r').
      { revert Ha. unfold ServeHTTP. repeat case_match; cbn; try done; repeat case_match; intros; simplify_eq; auto. }
      pose proof (gate_next quote subscribe_id tasks_get now (sv_streaming sv) g body r' Eb Hn) as (Hv & Hr & Hp).
      split_and!; [|done..]. destruct Hb as [[-> _]| ->]; [by left|]. right. exists body. split; [done|exact Hl].
    + exfalso. destruct (body_errors quote subscribe_id tasks_get now (sv_streaming sv) g e Eb) as [(x & d & H1) (x' & d' & H2)].
      revert Ha. unfold ServeHTTP. fold g. rewrite H1, H2. by repeat case_match.
  - intros s complete Hs Hl. rewrite Hs in Hg. cbn [read_limited] in Hg.
    rewrite (proj2 (Z.ltb_lt maxRequestBodyBytes _)) in Hg by exact Hl.
    destruct (body_errors quote subscribe_id tasks_get now (sv_streaming sv) g _ Hg) as [Hj Hre].
    destruct Hj as (x & d & Hj), Hre as (x' & d' & Hre). unfold ServeHTTP. fold g. rewrite Hj, Hre.
    repeat case_match; split; try done; by repeat eexists.
Qed.
End safety.

(** The assembly fails only where the card cannot be encoded or its capabilities
    are refused; otherwise the card's entity tag is a quoted digest of the bytes
    served, and the SDK drives the executor through the UTC wrapper. *)
Theorem assembly `{A2A} {Capabilities : Type} (caps : AgentCard → Capabilities) (streaming : Capabilities → bool)
    (marshal_card : AgentCard → result goerror string) (sha256 : string → string) (http_time : gotime → string)
    (enforcer : Capabilities → option goerror) (card : AgentCard) (executor : AgentExecutor) (now : gotime) :
  match NewA2AHTTPHandler caps streaming marshal_card sha256 http_time enforcer card executor now with
  | Ok sv =>
      ∃ body, marshal_card card = Ok body ∧ enforcer (caps card) = None ∧
        sv_etag sv = quoted (hex_encode (sha256 body)) ∧ sv_streaming sv = streaming (caps card) ∧
        ∀ ec l, obeys is_err (ae_Execute executor ec) l → obeys is_err (ae_Execute (sv_executor sv) ec) (map utc_item l)
  | Err e => ∃ e', e_is e = e_is e' ∧ (marshal_card card = Err e' ∨ enforcer (caps card) = Some e')
  end.
Proof.
  unfold NewA2AHTTPHandler, newAgentCardHandler. destruct (marshal_card card) as [body|e]; [|exists e; by auto].
  destruct (enforcer (caps card)) as [e|]; [exists e; by auto|]. exists body. split_and!; try done.
  intros ec l. apply utc_seq_obeys.
Qed.

(** * Witnesses *)

Definition post (uri path : string) (b : wire_body) : http_request :=
  MkHttp (MkRoute "POST" uri uri path "") {["A2A-Version" := "1.0.2"]} ∅ b.

Lemma routing_witness :
  mux_route (patterns card_path) (MkRoute "GET" "/" "/" "/" "") = MethodNotAllowed ["POST"] ∧
  mux_route (patterns card_path) (MkRoute "PUT" "/tasks/a/b" "/tasks/a/b" "/tasks/a/b" "") = Matched EpREST.
Proof. split; rewrite routing; try reflexivity; by split. Defined.

Definition sv : server := MkServer _ "" "" true (MkAgentExecutor (λ _ S c s, s) (λ _ S c s, s)).

Lemma only_checked_requests_witness :
  ∃ r', to_sdk (ServeHTTP card_path plain_quote (λ _, None) sv no_tasks metrics0 "0" zero_time (post "/" "/" (Sent "{}" true))) = Some r' ∧
    rq_header r' !! "A2A-Version" = Some "1.0".
Proof.
  destruct (only_checked_requests plain_quote (λ _, None) card_path sv no_tasks metrics0 "0" zero_time (post "/" "/" (Sent "{}" true)))
    as [Hn _].
  destruct (Hn _ eq_refl) as (_ & _ & _ & _). eexists. split; reflexivity.
Defined.

(** a doubled slash is answered with the clean path, an unknown path with no page *)
Example other_routes :
  mux_route (patterns card_path) (MkRoute "POST" "//tasks" "//tasks" "//tasks" "a=b") = MovedTo "/tasks" "a=b" ∧
  mux_route (patterns card_path) (MkRoute "POST" "/rpc" "/rpc" "/rpc" "") = NoSuchPage.
Proof. vm_compute. done. Qed.
