(* ===== verification/Tck.v ===== *)
(** The conformance test server (src/cmd/a2abridge-tck/main.go): the same HTTP
    surface, task store and push sender as the bridge, around an executor that
    plays one scenario per message identifier. *)
From Stdlib Require Import Ascii SpecFloat.
From stdpp Require Import base list sets strings.
From S2P Require Import Prelude GoStrings GoTime Json A2A GoFlag Iter Executor Server Bridge.

Open Scope string_scope.
Open Scope Z_scope.
Open Scope list_scope.

(* src/cmd/a2abridge-tck/main.go:36-43 (defaultAddr) *)
Definition defaultAddr : string := "127.0.0.1:9999".
(* src/cmd/a2abridge-tck/main.go:36-43 (shutdownTimeout) *)
Definition tck_shutdownTimeout : Z := 3 * second.

(** * The hold of the resubscription scenario *)

Section hold.
(** [strconv.ParseFloat(raw, 64)], [strconv.Quote], and what the conversion of a
    float64 outside the range of a duration gives, which Go leaves open *)
Context (ParseFloat : string → option spec_float) (quote : string → string) (out_of_range : spec_float → Z).

Definition float (z : Z) : spec_float := binary_normalize 53 1024 z 0 false.
Definition fmul : spec_float → spec_float → spec_float := SFmul 53 1024.

(** [time.Duration(f)]: the integral part, when it is one of 64 bits *)
Definition Duration (f : spec_float) : Z :=
  match f with
  | S754_zero _ => 0
  | S754_finite s m e =>
      let z := (if s then Z.opp else id) (Z.shiftl (Zpos m) e) in
      if (int64_min <=? z) && (z <=? int64_max) then z else out_of_range f
  | _ => out_of_range f
  end.

(* src/cmd/a2abridge-tck/main.go (resubscribeHold) *)
Definition resubscribeHold (raw : string) : result goerror Z :=
  let bad := Err (errors_new ("want positive seconds, got " +:+ quote raw)) in
  let hold seconds := Ok (Duration (fmul (fmul seconds (float 2)) (float 1000000000))) in
  if String.eqb raw "" then hold (float 2) else
  match ParseFloat raw with
  | None => bad
  | Some v => if SFleb v (float 0) then bad else hold v
  end.
End hold.

(** * Scenarios *)

(** The SDK's functions only this command uses. The literal of a file part is
    [a2a.Part{Content: a2a.Raw(..), Filename: .., MediaType: ..}]. *)
Class TckSDK `(A2A) := {
  TaskStateInputRequired : string;
  RawPart : string → string → string → Part;
  NewFileURLPart : string → string → Part;
  set_Filename : string → Part → Part;
  NewDataPart : json → Part;
  NewArtifactUpdateEvent : ExecutorContext Part → string → list (option Part) → TaskArtifactUpdateEvent Part }.

Section scenarios.
Context `{TckSDK}.
(** the times and identifiers the SDK's constructors draw in one execution *)
Context (d : draw).

(* src/cmd/a2abridge-tck/main.go (step) *)
Definition step : Type := ExecutorContext Part → Seq yielded.

(* src/cmd/a2abridge-tck/main.go (scenario) *)
Record scenario := Scenario { sc_prefix : string; sc_messageOnly : bool; sc_run : step }.

(** an event, its acceptance not looked at *)
Definition emit_event (ev : Event Part) : Seq yielded := λ S c s, (yield c (Yield ev) s).2.

(* src/cmd/a2abridge-tck/main.go (status) *)
Definition status (state : string) : step := λ ec, emit_event (EvStatus (NewStatusUpdateEvent (d_now d) ec state None)).

(* src/cmd/a2abridge-tck/main.go (completeWithMessage) *)
Definition completeWithMessage (text : string) : step := λ ec,
  let msg := NewMessageForTask (d_uuid d) MessageRoleAgent ec [Some (NewTextPart text)] in
  emit_event (EvStatus (NewStatusUpdateEvent (d_now d) ec TaskStateCompleted (Some msg))).

(* src/cmd/a2abridge-tck/main.go (artifact) *)
Definition artifact (part : Part) : step := λ ec, emit_event (EvArtifact (NewArtifactEvent (d_uuid d) ec [Some part])).

Definition set_LastChunk {P} (u : TaskArtifactUpdateEvent P) (b : bool) : TaskArtifactUpdateEvent P :=
  {| au_TaskID := au_TaskID u; au_ContextID := au_ContextID u; au_Artifact := au_Artifact u; au_LastChunk := b |}.
Definition set_ContextID {P} (m : Message P) (c : string) : Message P :=
  {| m_ID := m_ID m; m_ContextID := c; m_TaskID := m_TaskID m; m_Role := m_Role m; m_Parts := m_Parts m; m_Metadata := m_Metadata m |}.

(* src/cmd/a2abridge-tck/main.go (chunkedArtifact) *)
Definition chunkedArtifact (first last : string) : step := λ ec S c s,
  let head := NewArtifactEvent (d_uuid d) ec [Some (NewTextPart first)] in
  let '(ok, s) := yield c (Yield (EvArtifact head)) s in
  if (ok : bool) then
    let tail := NewArtifactUpdateEvent ec (a_ID (au_Artifact head)) [Some (NewTextPart last)] in
    (yield c (Yield (EvArtifact (set_LastChunk tail true))) s).2
  else s.

(* src/cmd/a2abridge-tck/main.go (messageResponse) *)
Definition messageResponse (text : string) : step := λ ec,
  let msg := NewMessage (d_uuid d) MessageRoleAgent [Some (NewTextPart text)] in
  emit_event (EvMessage (set_ContextID msg (ec_ContextID ec))).

(* src/cmd/a2abridge-tck/main.go (fail) *)
Definition fail (reason : string) : step := λ ec S c s, (yield c (YieldErr (errors_new reason)) s).2.

(* src/cmd/a2abridge-tck/main.go (hold) *)
Definition hold (for_ : Z) : step := λ ec S c s, wait c for_ s.

(** the consumer a step of a sequence is given: it notes in a flag of its own
    that the outer one declined, or that it was told of an error *)
Definition noting {S} (c : consumer yielded S) : consumer yielded (S * bool) :=
  Consumer
    (λ y x, let '(ok, s) := yield c y x.1 in if negb ok || is_err y then (false, (s, true)) else (true, (s, x.2)))
    (λ x, ctx_over c x.1) (λ t x, (wait c t x.1, x.2)).

(* src/cmd/a2abridge-tck/main.go (sequence) *)
Fixpoint sequence (steps : list step) : step :=
  match steps with
  | [] => λ ec S c s, s
  | st :: steps => λ ec S c s,
      let '(s, stopped) := st ec (S * bool)%type (noting c) (s, false) in
      if (stopped : bool) || ctx_over c s then s else sequence steps ec S c s
  end.

(* src/cmd/a2abridge-tck/main.go (workingArtifactCompleted) *)
Definition workingArtifactCompleted (text : string) : step :=
  sequence [status TaskStateWorking; artifact (NewTextPart text); status TaskStateCompleted].

(* src/cmd/a2abridge-tck/main.go (filePart) *)
Definition filePart : Part := RawPart "tck" "output.txt" TextMediaType.
(* src/cmd/a2abridge-tck/main.go (fileURLPart) *)
Definition fileURLPart : Part := set_Filename "output.txt" (NewFileURLPart "https://example.com/output.txt" TextMediaType).
(* src/cmd/a2abridge-tck/main.go (dataPart) *)
Definition dataPart : Part := NewDataPart (JObj [("count", JNum "42"); ("key", JStr "value")]).

(* src/cmd/a2abridge-tck/main.go (scenarios) *)
Definition scenarios (holdFor : Z) : list scenario :=
  [Scenario "tck-complete-task" false (completeWithMessage "Hello from TCK");
   Scenario "tck-artifact-text" false (sequence [artifact (NewTextPart "Generated text content"); status TaskStateCompleted]);
   Scenario "tck-artifact-file-url" false (sequence [artifact fileURLPart; status TaskStateCompleted]);
   Scenario "tck-artifact-file" false (sequence [artifact filePart; status TaskStateCompleted]);
   Scenario "tck-artifact-data" false (sequence [artifact dataPart; status TaskStateCompleted]);
   Scenario "tck-message-response" true (messageResponse "Direct message response");
   Scenario "tck-input-required" false (status TaskStateInputRequired);
   Scenario "tck-reject-task" false (fail "rejected");
   Scenario "tck-stream-001" false (workingArtifactCompleted "Stream hello from TCK");
   Scenario "tck-stream-002" false (status TaskStateCompleted);
   Scenario "tck-stream-003" false (workingArtifactCompleted "Stream task lifecycle");
   Scenario "tck-stream-ordering-001" false (workingArtifactCompleted "Ordered output");
   Scenario "tck-stream-artifact-text" false (workingArtifactCompleted "Streamed text content");
   Scenario "tck-stream-artifact-file" false (sequence [status TaskStateWorking; artifact filePart; status TaskStateCompleted]);
   Scenario "tck-stream-artifact-chunked" false
     (sequence [status TaskStateWorking; chunkedArtifact "chunk-1 " "chunk-2"; status TaskStateCompleted]);
   Scenario "test-resubscribe-message-id" false (sequence [status TaskStateWorking; hold holdFor; status TaskStateCompleted])].

(* src/cmd/a2abridge-tck/main.go (match) *)
Definition match_ (holdFor : Z) (messageID : string) : scenario :=
  match filterb (λ sc, has_prefix (sc_prefix sc) messageID) (scenarios holdFor) with
  | sc :: _ => sc
  | [] => Scenario "" false (completeWithMessage ("Unhandled messageId prefix: " +:+ messageID))
  end.

(* src/cmd/a2abridge-tck/main.go (Execute) *)
Definition tck_Execute (holdFor : Z) : step := λ ec S c s,
  match ec_Message ec with
  | None => (yield c (YieldErr (wrapf "message is required: " (sentinel_err ErrInvalidParams))) s).2
  | Some m =>
      let sc := match_ holdFor (m_ID m) in
      if negb (sc_messageOnly sc) && match ec_StoredTask ec with None => true | Some _ => false end then
        let '(ok, s) := yield c (Yield (EvTask (NewSubmittedTask (d_now d) ec m))) s in
        if (ok : bool) then sc_run sc ec S c s else s
      else sc_run sc ec S c s
  end.

(* src/cmd/a2abridge-tck/main.go (Cancel) *)
Definition tck_Cancel : step := status TaskStateCanceled.

(* src/cmd/a2abridge-tck/main.go (scenarioExecutor) *)
Definition scenarioExecutor (holdFor : Z) : AgentExecutor := MkAgentExecutor (tck_Execute holdFor) tck_Cancel.
End scenarios.

(** * What the scenarios yield *)

Section lemmas.
Context `{TckSDK} (d : draw).

Lemma obeys_step ev : obeys is_err (emit_event ev) [Yield ev].
Proof. apply obeys_one. Qed.

(** a sequence yields what its steps yield, one after the other *)
Lemma noting_tracks {S} (c : consumer yielded S) R : tracks is_err c R →
  tracks is_err (noting c) (λ k x, R k x.1 ∧ x.2 = stopped k).
Proof.
  intros [Hy Hw]. split.
  - intros k y [s st] [Hk Hs]. cbn [fst snd] in *. specialize (Hy k y s Hk). subst st. unfold noting; cbn [yield fst].
    destruct (yield c y s) as [ok s1]. cbn [fst snd] in Hy. unfold may_go_on in *.
    destruct ok, (is_err y); cbn [fst snd negb andb orb] in *; (split; [exact Hy|]);
      rewrite stopped_app; cbn; [by rewrite orb_true_r|by rewrite !orb_false_r|by rewrite orb_true_r..].
  - intros k t [s st] [Hk Hs]. split; [by apply Hw|done].
Qed.

Lemma sequence_cons st steps ec l1 l2 : obeys is_err (st ec) l1 → obeys is_err (sequence steps ec) l2 →
  obeys is_err (sequence (st :: steps) ec) (l1 ++ l2).
Proof.
  intros H1 H2 S c R s Ht Hs. cbn [sequence].
  destruct (H1 _ (noting c) _ (s, false) (noting_tracks c R Ht)) as (k1 & Hk1 & Hp1 & Hl1 & Hc1); [done|].
  destruct (st ec (S * bool)%type (noting c) (s, false)) as [s1 f] eqn:E. cbn [fst snd] in Hk1. destruct Hk1 as [Hk1 ->].
  destruct (stopped k1 || ctx_over c s1) eqn:Eo.
  - exists k1. split_and!; [done| |done|].
    + destruct Hp1 as [u ->]. rewrite <-app_assoc. by eexists.
    + apply orb_true_iff in Eo as [Eo|Eo]; [by left|by right; right].
  - apply orb_false_iff in Eo as [Eo1 Eo2]. destruct Hc1 as [Hc1|[Hc1|Hc1]]; [congruence| |cbn in Hc1; congruence].
    destruct (H2 S c (λ h s, R (k1 ++ h) s) s1 (tracks_after is_err c R k1 Ht)) as (k2 & Hk2 & Hp2 & Hl2 & Hc2);
      [by rewrite app_nil_r|].
    assert (Hm : map fst (k1 ++ k2) = l1 ++ map fst k2) by (rewrite <-Hc1; apply map_app).
    exists (k1 ++ k2). rewrite Hm, stopped_app. split_and!; [done|by apply prefix_app|by apply live_app|].
    rewrite Eo1. cbn [orb]. destruct Hc2 as [Hc2|[Hc2|Hc2]]; [by left|right; left; congruence|by right; right].
Qed.

Lemma sequence_obeys steps ls ec : Forall2 (λ st l, obeys is_err (st ec) l) steps ls →
  obeys is_err (sequence steps ec) (concat ls).
Proof.
  induction 1 as [|st l steps ls H1 _ IH]; [apply obeys_nothing|]. by apply sequence_cons.
Qed.

(** ** How an execution ends *)

(** what ends the task's turn: an error, a message, a final state or a request
    for input *)
Definition concluding (y : yielded) : bool :=
  match y with
  | YieldErr _ => true
  | Yield (EvMessage _) => true
  | Yield (EvStatus u) => Terminal (s_State (su_Status u)) || String.eqb (s_State (su_Status u)) TaskStateInputRequired
  | Yield _ => false
  end.
Definition is_message (y : yielded) : bool := match y with Yield (EvMessage _) => true | _ => false end.

(** the last value ends the turn, none before it does *)
Fixpoint concludes (l : list yielded) : bool :=
  match l with
  | [] => false
  | [y] => concluding y
  | y :: l => negb (concluding y) && concludes l
  end.

Context `{!A2ALaws _} (input_required : TaskStateInputRequired ≠ TaskStateWorking).

Lemma concluding_status ec st m : concluding (Yield (EvStatus (NewStatusUpdateEvent (d_now d) ec st m))) =
  Terminal st || String.eqb st TaskStateInputRequired.
Proof. unfold concluding. by destruct (NewStatusUpdateEvent_Status (d_now d) ec st m) as [_ ->]. Qed.

Lemma concluding_working ec : concluding (Yield (EvStatus (NewStatusUpdateEvent (d_now d) ec TaskStateWorking None))) = false.
Proof. rewrite concluding_status, Terminal_Working. by destruct (String.eqb_spec TaskStateWorking TaskStateInputRequired); [congruence|]. Qed.
Lemma concluding_completed ec m : concluding (Yield (EvStatus (NewStatusUpdateEvent (d_now d) ec TaskStateCompleted m))) = true.
Proof. by rewrite concluding_status, Terminal_Completed. Qed.
Lemma concluding_input ec : concluding (Yield (EvStatus (NewStatusUpdateEvent (d_now d) ec TaskStateInputRequired None))) = true.
Proof. rewrite concluding_status, String.eqb_refl. apply orb_true_r. Qed.

(** a scenario yields one message, or the events of a task's turn *)
Definition plays (sc : scenario) (ec : ExecutorContext Part) : Prop :=
  ∃ l, obeys is_err (sc_run sc ec) l ∧ concludes l = true ∧
    if sc_messageOnly sc then ∃ a, l = [Yield (EvMessage a)] ∧ m_ContextID a = ec_ContextID ec
    else existsb is_message l = false.

Ltac yields := repeat first
  [ apply obeys_nothing | apply obeys_one | apply obeys_wait | apply sequence_cons
  | apply obeys_then; [reflexivity|] ].

Lemma chunked_obeys first last ec : ∃ u v, obeys is_err (chunkedArtifact d first last ec) [Yield (EvArtifact u); Yield (EvArtifact v)].
Proof. eexists _, _. apply obeys_then; [done|]. apply obeys_one. Qed.

Lemma scenarios_play holdFor ec : Forall (λ sc, plays sc ec) (scenarios d holdFor).
Proof.
  unfold scenarios, workingArtifactCompleted. repeat constructor; unfold plays, sc_run, sc_messageOnly.
  all: eexists; split; [yields|]. all: cbn [app concludes is_message existsb negb andb orb].
  all: rewrite ?concluding_working, ?concluding_completed, ?concluding_input.
  all: split; [reflexivity|first [reflexivity|by eexists]].
Qed.

(** ** The scenario of a message *)

(** no prefix in the table is a prefix of a later one *)
Fixpoint longer_first (l : list scenario) : bool :=
  match l with
  | [] => true
  | x :: l => forallb (λ y, negb (has_prefix (sc_prefix x) (sc_prefix y))) l && longer_first l
  end.

Lemma prefixes_comparable p q s : has_prefix p s = true → has_prefix q s = true → has_prefix p q = true ∨ has_prefix q p = true.
Proof.
  revert q s. induction p as [|a p IH]; intros q s Hp Hq; [by left|]. destruct q as [|b q]; [by right|].
  destruct s as [|c s]; [done|]. cbn in *. apply andb_true_iff in Hp as [Ha Hp], Hq as [Hb Hq].
  apply Ascii.eqb_eq in Ha, Hb. subst. rewrite Ascii.eqb_refl. cbn. by apply (IH q s).
Qed.

Lemma first_is_longest l id sc rest : longer_first l = true →
  filterb (λ sc, has_prefix (sc_prefix sc) id) l = sc :: rest →
  ∀ sc', sc' ∈ l → has_prefix (sc_prefix sc') id = true → has_prefix (sc_prefix sc') (sc_prefix sc) = true.
Proof.
  induction l as [|x l IH]; [done|]. cbn [longer_first filterb]. intros [Hx Hl]%andb_true_iff Hf sc' Hin Hp.
  destruct (has_prefix (sc_prefix x) id) eqn:Ex.
  - injection Hf as -> _. apply elem_of_cons in Hin as [->|Hin]; [apply has_prefix_spec; exists ""; by rewrite sapp_nil_r|].
    rewrite forallb_forall in Hx. specialize (Hx sc' (proj1 (list_elem_of_In _ _) Hin)). apply negb_true_iff in Hx.
    destruct (prefixes_comparable _ _ _ Ex Hp); [congruence|done].
  - apply elem_of_cons in Hin as [->|Hin]; [congruence|]. by apply IH.
Qed.

Lemma scenarios_longer_first holdFor : longer_first (scenarios d holdFor) = true.
Proof. reflexivity. Qed.

Lemma match_spec holdFor id :
  (match_ d holdFor id ∈ scenarios d holdFor ∧ has_prefix (sc_prefix (match_ d holdFor id)) id = true ∧
   ∀ sc, sc ∈ scenarios d holdFor → has_prefix (sc_prefix sc) id = true → has_prefix (sc_prefix sc) (sc_prefix (match_ d holdFor id)) = true) ∨
  (match_ d holdFor id = Scenario "" false (completeWithMessage d ("Unhandled messageId prefix: " +:+ id)) ∧
   ∀ sc, sc ∈ scenarios d holdFor → has_prefix (sc_prefix sc) id = false).
Proof.
  unfold match_. destruct (filterb _ _) as [|sc rest] eqn:E.
  - right. split; [done|]. intros sc Hin. destruct (has_prefix _ id) eqn:Ep; [|done].
    assert (Hn : sc ∈ filterb (λ sc, has_prefix (sc_prefix sc) id) (scenarios d holdFor)) by by apply elem_of_filterb.
    rewrite E in Hn. by apply elem_of_nil in Hn.
  - left. assert (Hin : sc ∈ filterb (λ sc, has_prefix (sc_prefix sc) id) (scenarios d holdFor)) by (rewrite E; apply list_elem_of_here).
    apply elem_of_filterb in Hin as [Hp Hin]. split_and!; [done|done|]. intros sc' Hi Hp'.
    by eapply first_is_longest; [apply scenarios_longer_first|exact E|..].
Qed.

Lemma match_plays holdFor id ec : plays (match_ d holdFor id) ec.
Proof.
  destruct (match_spec holdFor id) as [[Hin _]|[-> _]].
  - pose proof (scenarios_play holdFor ec) as Hf. rewrite Forall_forall in Hf. by apply Hf.
  - eexists; split; [yields|]. cbn [concludes existsb is_message sc_messageOnly]. by rewrite concluding_completed.
Qed.
End lemmas.

(** * Properties *)

Section properties.
Context `{TckSDK} `{!A2ALaws _} (d : draw).

(** C31: Every execution of the conformance server, for every message and every
    consumer. The scenario is the one with the longest prefix of the message's
    identifier, or, when none matches, one that completes the task with a text
    naming the identifier. The execution yields exactly what that scenario yields,
    after the submitted task when none is stored and the scenario does not answer
    with a message; what it yields is a message alone, or events of a task whose
    last, and no earlier one, ends the turn; and it never yields again after the
    consumer declined or an error. *)
Theorem execution_protocol (holdFor : Z) (ec : ExecutorContext Part) (m : Message Part) :
  TaskStateInputRequired ≠ TaskStateWorking → ec_Message ec = Some m →
  let sc := match_ d holdFor (m_ID m) in
  (if existsb (λ sc', has_prefix (sc_prefix sc') (m_ID m)) (scenarios d holdFor)
   then sc ∈ scenarios d holdFor ∧ has_prefix (sc_prefix sc) (m_ID m) = true
   else sc = Scenario "" false (completeWithMessage d ("Unhandled messageId prefix: " +:+ m_ID m))) ∧
  (∀ sc', sc' ∈ scenarios d holdFor → has_prefix (sc_prefix sc') (m_ID m) = true → has_prefix (sc_prefix sc') (sc_prefix sc) = true) ∧
  ∃ l, obeys is_err (sc_run sc ec) l ∧
    let first := if sc_messageOnly sc then [] else
      match ec_StoredTask ec with None => [Yield (EvTask (NewSubmittedTask (d_now d) ec m))] | Some _ => [] end in
    obeys is_err (tck_Execute d holdFor ec) (first ++ l) ∧ concludes (first ++ l) = true ∧
    if sc_messageOnly sc then ∃ a, l = [Yield (EvMessage a)] ∧ m_ContextID a = ec_ContextID ec
    else existsb is_message (first ++ l) = false.
Proof.
  intros Hi Hm. cbv zeta. split_and!.
  { destruct (match_spec d holdFor (m_ID m)) as [(Hin & Hp & _)|[Hsc Hn]].
    - rewrite (proj2 (existsb_exists _ _)); [by split|]. exists (match_ d holdFor (m_ID m)). split; [by apply list_elem_of_In|done].
    - destruct (existsb _ _) eqn:Ex; [|done]. apply existsb_exists in Ex as (sc' & Hin%list_elem_of_In & Hp). by rewrite Hn in Hp. }
  { destruct (match_spec d holdFor (m_ID m)) as [(_ & _ & Hl)|[_ Hn]]; [exact Hl|]. intros sc' Hin. by rewrite Hn. }
  destruct (match_plays d Hi holdFor (m_ID m) ec) as (l & Ho & Hc & Hk). exists l. split; [exact Ho|]. unfold tck_Execute.
  rewrite Hm. cbv zeta. set (sc := match_ d holdFor (m_ID m)) in *. clearbody sc. destruct (sc_messageOnly sc); cbn [negb andb app]; [done|].
  destruct (ec_StoredTask ec); cbn [app]; [done|]. split_and!; [by apply obeys_then|by destruct l|done].
Qed.
End properties.

(** * The command *)

(** What the command finds around it: its environment, the outcome of the bind
    (the address it listens on), of the assembly of the handler, what ends the
    wait, and of the two drains. *)
Inductive ending := Signalled | ServeEnded (closed : bool) (e : goerror).
Record tck_world := TckWorld {
  tw_env : string → string;
  tw_listen : string → result goerror string;
  tw_handler : option goerror;
  tw_ending : ending;
  tw_shutdown : option goerror;
  tw_drain : option goerror }.

Inductive tck_effect :=
| TUsage
| TLog (msg err : string)
| TListen (addr : string)
| TOpenTasks | TCloseTasks
| TSignals | TStopSignals
| TServe (url : string) (hold : Z)
| TShutdown (d : Z)
| TDrain (d : Z).

Record skill := Skill { sk_ID : string; sk_Name : string; sk_Description : string; sk_Tags : list string }.
Record tck_card := TckCard { tc_Name : string; tc_Description : string; tc_Interfaces : list (string * string); tc_Version : string;
  tc_Streaming : bool; tc_Push : bool; tc_Modes : list string * list string; tc_Skills : list skill; tc_Provider : string * string }.

Section run.
Context (ParseFloat : string → option spec_float) (quote : string → string) (out_of_range : spec_float → Z).

(** [jsonrpc] and [httpjson] are the SDK's names of the two bindings. *)
(* src/cmd/a2abridge-tck/main.go:73-91 (run) *)
Definition tck_agent_card (jsonrpc httpjson version baseURL : string) : tck_card :=
  TckCard "a2abridge TCK System Under Test" "a2abridge HTTP stack with the A2A TCK scenario executor"
    [(baseURL, jsonrpc); (baseURL, httpjson)] version true true ([TextMediaType], [TextMediaType])
    [Skill "tck" "TCK Conformance" "Handles TCK conformance test messages" ["tck"]]
    ("a2abridge", "https://github.com/vbcherepanov/a2abridge").

Definition warned (msg : string) (e : option goerror) : list tck_effect :=
  match e with Some e => [TLog msg (e_text e)] | None => [] end.

(** serving and what follows: the exit code and the effects before the deferred calls *)
(* src/cmd/a2abridge-tck/main.go:112-138 (run) *)
Definition tck_serve (w : tck_world) (url : string) (hold : Z) : Z * list tck_effect :=
  let drained := [TShutdown tck_shutdownTimeout] ++ warned "shutdown" (tw_shutdown w) ++
    [TDrain tck_shutdownTimeout] ++ warned "push drain" (tw_drain w) in
  match tw_ending w with
  | Signalled => (0, TServe url hold :: drained)
  | ServeEnded true _ => (0, TServe url hold :: drained)
  | ServeEnded false e => (1, [TServe url hold; TLog "serve" (e_text e)])
  end.

(* src/cmd/a2abridge-tck/main.go:49-138 (run) *)
Definition tck_run (w : tck_world) (args : list string) : Z * list tck_effect :=
  match Parse [("addr", false)] [] args with
  | ErrHelp => (0, [TUsage])
  | BadFlag => (2, [TUsage])
  | Flags values _ =>
      let addr := default (envOr (tw_env w) "SUT_HOST" defaultAddr) (assoc_get "addr" values) in
      match resubscribeHold ParseFloat quote out_of_range (tw_env w "TCK_STREAMING_TIMEOUT") with
      | Err e => (2, [TLog "TCK_STREAMING_TIMEOUT" (e_text e)])
      | Ok holdFor =>
          match tw_listen w addr with
          | Err e => (1, [TListen addr; TLog "listen" (e_text e)])
          | Ok bound =>
              let baseURL := "http://" +:+ bound in
              match tw_handler w with
              | Some e => (1, [TListen addr; TOpenTasks; TLog "a2a handler" (e_text e); TCloseTasks])
              | None =>
                  let '(code, l) := tck_serve w baseURL holdFor in
                  (code, [TListen addr; TOpenTasks; TSignals] ++ l ++ [TStopSignals; TCloseTasks])
              end
          end
      end
  end.

(** without the variable the scenario stays open for two timeouts of two seconds *)
Lemma hold_default : resubscribeHold ParseFloat quote out_of_range "" = Ok (4 * second).
Proof. reflexivity. Qed.

(** a number that compares with nothing is taken for a positive one *)
Lemma hold_nan raw : raw ≠ "" → ParseFloat raw = Some S754_nan →
  resubscribeHold ParseFloat quote out_of_range raw = Ok (out_of_range S754_nan).
Proof. intros Hr Hp. unfold resubscribeHold. destruct (String.eqb_spec raw ""); [done|]. by rewrite Hp. Qed.

(** The command serves only after it bound an address and assembled the handler,
    and whenever it opened the task store it closes it last; it exits with zero
    exactly after a request for help or an orderly end. *)
Theorem tck_run_spec (w : tck_world) (args : list string) :
  let r := tck_run w args in
  (∀ url hold, TServe url hold ∈ r.2 → tw_handler w = None ∧ TOpenTasks ∈ r.2 ∧
     ∃ addr bound, TListen addr ∈ r.2 ∧ tw_listen w addr = Ok bound ∧ url = "http://" +:+ bound) ∧
  (TOpenTasks ∈ r.2 → last r.2 = Some TCloseTasks) ∧
  (r.1 = 0 ↔ r.2 = [TUsage] ∧ Parse [("addr", false)] [] args = ErrHelp ∨ TDrain tck_shutdownTimeout ∈ r.2).
Proof.
  cbv zeta. unfold tck_run. destruct (Parse _ _ args) as [values rest| |] eqn:Ep.
  2: { cbn. split_and!; [set_solver|set_solver|]. split; [by left|done]. }
  2: { cbn. split_and!; [set_solver|set_solver|]. split; [done|]. intros [[_ ?]|?]; [done|set_solver]. }
  set (addr := default _ (assoc_get "addr" values)). clearbody addr. cbv zeta.
  destruct (resubscribeHold _ _ _ _) as [hold|e].
  2: { cbn. split_and!; [set_solver|set_solver|]. split; [done|]. intros [[? _]|?]; [done|set_solver]. }
  destruct (tw_listen w addr) as [bound|e] eqn:El.
  2: { cbn. split_and!; [set_solver|set_solver|]. split; [done|]. intros [[? _]|?]; [done|set_solver]. }
  destruct (tw_handler w) as [e|] eqn:Eh.
  { cbn. split_and!; [set_solver|done|]. split; [done|]. intros [[? _]|?]; [done|set_solver]. }
  destruct (tck_serve w ("http://" +:+ bound) hold) as [code l] eqn:Es. cbn [fst snd].
  assert (Hl : (∀ url h, TServe url h ∈ l → url = "http://" +:+ bound) ∧ (code = 0 ↔ TDrain tck_shutdownTimeout ∈ l)).
  { revert Es. unfold tck_serve, warned. destruct (tw_ending w) as [|[] e], (tw_shutdown w), (tw_drain w); cbn; intros [= <- <-]; set_solver. }
  destruct Hl as [Hs Hd]. split_and!.
  - intros url h Hin. split_and!; [done|set_solver|]. exists addr, bound. split_and!; [set_solver|done|].
    apply (Hs url h). set_solver.
  - intros _. change [TStopSignals; TCloseTasks] with ([TStopSignals] ++ [TCloseTasks]).
    rewrite !app_assoc. apply last_snoc.
  - rewrite Hd. split; [right; set_solver|]. intros [[? _]|?]; [done|set_solver].
Qed.
End run.

(** * Witnesses *)

#[export] Instance reference_tck : TckSDK reference_sdk := {|
  TaskStateInputRequired := "TASK_STATE_INPUT_REQUIRED";
  RawPart content name media := content;
  NewFileURLPart u media := u;
  set_Filename name p := p;
  NewDataPart v := marshal v;
  NewArtifactUpdateEvent ec i ps := {| au_TaskID := ec_TaskID ec; au_ContextID := ec_ContextID ec;
    au_Artifact := {| a_ID := i; a_Name := ""; a_Parts := ps |}; au_LastChunk := false |};
|}.

Lemma execution_protocol_witness :
  let sc := match_ draw0 0 "tck-artifact-file-url-7" in
  sc_prefix sc = "tck-artifact-file-url" ∧
  ∃ l, obeys is_err (sc_run sc (ask_ctx "tck-artifact-file-url-7")) l ∧
    obeys is_err (tck_Execute draw0 0 (ask_ctx "tck-artifact-file-url-7"))
      (Yield (EvTask (NewSubmittedTask (d_now draw0) (ask_ctx "tck-artifact-file-url-7") (ask "tck-artifact-file-url-7"))) :: l).
Proof.
  destruct (execution_protocol draw0 0 (ask_ctx "tck-artifact-file-url-7") (ask "tck-artifact-file-url-7"))
    as (_ & _ & l & Ho & Ho2 & _); [discriminate|reflexivity|]. split; [reflexivity|]. exists l. split; [exact Ho|exact Ho2].
Defined.

(** the longer prefix wins, and a declined event ends a sequence *)
Example plays_url :
  sc_prefix (match_ draw0 0 "tck-artifact-file-url-7") = "tck-artifact-file-url" ∧
  length (collect (tck_Execute draw0 0 (ask_ctx "tck-stream-artifact-chunked"))) = 5%nat ∧
  (tck_Execute draw0 0 (ask_ctx "tck-stream-artifact-chunked") nat
     (Consumer (λ y n, (Nat.ltb n 2, S n)) (λ _, false) (λ _ n, n)) 0%nat) = 3%nat.
Proof. vm_compute. done. Qed.
