(* ===== verification/Push.v ===== *)
(** Webhook delivery (src/internal/agent/push.go): one POST and its retries, the
    per-config queues and workers, the redirect and address guards. *)
From Stdlib Require Import Ascii.
From stdpp Require Import base list sets strings gmap.
From S2P Require Import Prelude GoStrings GoTime Json A2A Metrics GoFS GoUrl GoFmt Store Executor.

Open Scope string_scope.
Open Scope Z_scope.
Open Scope list_scope.

(** * Policy *)

(* src/internal/agent/push.go (pushMaxAttempts) *)
Definition pushMaxAttempts : Z := 5.
(* src/internal/agent/push.go (pushBaseDelay) *)
Definition pushBaseDelay : Z := 200 * millisecond.
(* src/internal/agent/push.go (pushMaxDelay) *)
Definition pushMaxDelay : Z := 3200 * millisecond.
(* src/internal/agent/push.go (pushAttemptTimeout) *)
Definition pushAttemptTimeout : Z := 5 * second.
(* src/internal/agent/push.go (pushMaxRedirects) *)
Definition pushMaxRedirects : nat := 10.
(* src/internal/agent/push.go (pushTokenHeader) *)
Definition pushTokenHeader : string := "A2A-Notification-Token".
(* src/internal/agent/push.go (pushQueueSize) *)
Definition pushQueueSize : nat := 64.

(* src/internal/agent/push.go (retryPolicy) *)
Record retryPolicy := Policy { maxAttempts : Z; baseDelay : Z; maxDelay : Z; perAttempt : Z }.
(* src/internal/agent/push.go (defaultRetryPolicy) *)
Definition defaultRetryPolicy : retryPolicy := Policy pushMaxAttempts pushBaseDelay pushMaxDelay pushAttemptTimeout.

(** [a2a.PushConfig] *)
Record PushAuth := { pa_Scheme : string; pa_Credentials : string }.
Record PushConfig := { pc_ID : string; pc_TaskID : string; pc_URL : string; pc_Token : string; pc_Auth : option PushAuth }.

(** the copy owns its [Auth] *)
(* src/internal/agent/push.go (copyPushConfig) *)
Definition copyPushConfig (c : PushConfig) : PushConfig :=
  {| pc_ID := pc_ID c; pc_TaskID := pc_TaskID c; pc_URL := pc_URL c; pc_Token := pc_Token c;
     pc_Auth := match pc_Auth c with Some a => Some {| pa_Scheme := pa_Scheme a; pa_Credentials := pa_Credentials a |} | None => None end |}.

(** * One delivery *)

(** What [client.Do] comes back with: a response, a dial refused by the address
    guard, or another failure; [ctx_done] says whether the sender's context is
    over by then. *)
Inductive http_result :=
| HResp (code : Z) (status : string)
| HBlocked (text : string)
| HFail (text : string) (ctx_done : bool).

Section posting.
Context `{Unicode} `{UrlErrors}.

(** the headers of the POST *)
(* src/internal/agent/push.go:314-327 (postOnce) *)
Definition post_headers (c : PushConfig) : gmap string string :=
  let h := {["Content-Type" := "application/json"]} : gmap string string in
  let h := if String.eqb (pc_Token c) "" then h else <[pushTokenHeader := pc_Token c]> h in
  match pc_Auth c with
  | Some a =>
      if String.eqb (pa_Credentials a) "" then h else
      let scheme := ToLower (pa_Scheme a) in
      if String.eqb scheme "bearer" then <["Authorization" := "Bearer " +:+ pa_Credentials a]> h
      else if String.eqb scheme "basic" then <["Authorization" := "Basic " +:+ pa_Credentials a]> h
      else h
  | None => h
  end.

(** [do] is the client: it gets the headers that are sent *)
(* src/internal/agent/push.go (postOnce) *)
Definition postOnce (do : gmap string string → http_result) (c : PushConfig) : bool * option goerror :=
  match parse_url (pc_URL c) with
  | None => (false, Some (wrapf "build request: " (errors_new (parse_error (pc_URL c)))))
  | Some _ =>
      match do (post_headers c) with
      | HBlocked t => (false, Some (GoError t [errBlockedPushTarget]))
      | HFail t ctx_done => (negb ctx_done, Some (errors_new t))
      | HResp code status =>
          if (200 <=? code) && (code <? 300) then (false, None)
          else if 500 <=? code then (true, Some (errors_new ("webhook returned " +:+ status)))
          else (false, Some (errors_new ("webhook returned " +:+ status)))
      end
  end.

(** What happened: the error, the number of attempts and the delays waited for. *)
Record delivery := Delivery { dl_err : option goerror; dl_attempts : nat; dl_delays : list Z }.

(** [do n] is the client at attempt [n]; [aborted n] says whether the context ends
    while waiting after it. *)
(* src/internal/agent/push.go (deliver) *)
Fixpoint deliver_loop (fuel : nat) (p : retryPolicy) (do : Z → gmap string string → http_result) (aborted : Z → bool)
    (c : PushConfig) (attempt delay : Z) : delivery :=
  match fuel with
  | O => Delivery None 0 []
  | S fuel =>
      match postOnce (do attempt) c with
      | (_, None) => Delivery None 1 []
      | (retryable, Some e) =>
          if negb retryable || (maxAttempts p <=? attempt) then
            Delivery (Some (wrapf ("attempt " +:+ itoa attempt +:+ ": ") e)) 1 []
          else if aborted attempt then
            Delivery (Some (GoError ("attempt " +:+ itoa attempt +:+ ": " +:+ e_text e +:+ " (retry aborted: context canceled)")
                            (e_is e ++ [CtxCanceled]))) 1 []
          else
            let r := deliver_loop fuel p do aborted c (attempt + 1) (Z.min (wrap64 (delay * 2)) (maxDelay p)) in
            Delivery (dl_err r) (S (dl_attempts r)) (delay :: dl_delays r)
      end
  end.

(** the loop ends by itself after [maxAttempts] rounds *)
(* src/internal/agent/push.go (deliver) *)
Definition deliver (p : retryPolicy) (do : Z → gmap string string → http_result) (aborted : Z → bool) (c : PushConfig) : delivery :=
  deliver_loop (Z.to_nat (Z.max 1 (maxAttempts p))) p do aborted c 1 (baseDelay p).
End posting.

(* src/internal/agent/push.go (deliverJob) *)
Definition deliverJob (d : delivery) (m : metrics) : metrics :=
  match dl_err d with None => IncPushDelivered m | Some _ => IncPushFailed m end.

(** * Guards *)

(** An address of 4 or 16 bytes; [to4] is [IP.To4]. *)
Definition ip : Type := list Z.
Definition to4 (a : ip) : option ip :=
  if (length a =? 4)%nat then Some a
  else if (length a =? 16)%nat && bool_decide (take 12 a = [0;0;0;0;0;0;0;0;0;0;255;255]) then Some (drop 12 a)
  else None.
Definition byte (a : ip) (i : nat) : Z := default 0 (a !! i).

Definition IsLoopback (a : ip) : bool :=
  match to4 a with Some b => byte b 0 =? 127 | None => bool_decide (a = [0;0;0;0;0;0;0;0;0;0;0;0;0;0;0;1]) end.
Definition IsPrivate (a : ip) : bool :=
  match to4 a with
  | Some b => (byte b 0 =? 10) || ((byte b 0 =? 172) && (Z.land (byte b 1) 0xf0 =? 16)) || ((byte b 0 =? 192) && (byte b 1 =? 168))
  | None => (length a =? 16)%nat && (Z.land (byte a 0) 0xfe =? 0xfc)
  end.
Definition IsLinkLocalUnicast (a : ip) : bool :=
  match to4 a with
  | Some b => (byte b 0 =? 169) && (byte b 1 =? 254)
  | None => (length a =? 16)%nat && (byte a 0 =? 0xfe) && (Z.land (byte a 1) 0xc0 =? 0x80)
  end.
Definition IsLinkLocalMulticast (a : ip) : bool :=
  match to4 a with
  | Some b => (byte b 0 =? 224) && (byte b 1 =? 0) && (byte b 2 =? 0)
  | None => (length a =? 16)%nat && (byte a 0 =? 0xff) && (Z.land (byte a 1) 0x0f =? 2)
  end.
Definition IsUnspecified (a : ip) : bool :=
  match to4 a with Some b => bool_decide (b = [0;0;0;0]) | None => bool_decide (a = [0;0;0;0;0;0;0;0;0;0;0;0;0;0;0;0]) end.
Definition IsMulticast (a : ip) : bool :=
  match to4 a with Some b => Z.land (byte b 0) 0xf0 =? 0xe0 | None => (length a =? 16)%nat && (byte a 0 =? 0xff) end.

(* src/internal/agent/push.go (isBlockedIP) *)
Definition isBlockedIP (a : ip) : bool :=
  IsLoopback a || IsPrivate a || IsLinkLocalUnicast a || IsLinkLocalMulticast a || IsUnspecified a || IsMulticast a.

(** The dialled address as [net.SplitHostPort] and [net.ParseIP] read it: not of
    the form host and port, with that error; no IP address; an address and its text. *)
Inductive dial_address :=
| BadAddress (address : string) (err : goerror)
| UnresolvedHost (host : string)
| ResolvedIP (a : ip) (text : string).

(* src/internal/agent/push.go (guardPushDial) *)
Definition guardPushDial `{Unicode} (d : dial_address) : option goerror :=
  match d with
  | BadAddress address e => Some (wrapf ("invalid dial address " +:+ Quote address +:+ ": ") e)
  | UnresolvedHost h =>
      Some (GoError ("push notification target resolves to a blocked address range: unresolved host " +:+ Quote h) [errBlockedPushTarget])
  | ResolvedIP a t =>
      if isBlockedIP a then Some (GoError ("push notification target resolves to a blocked address range: " +:+ t) [errBlockedPushTarget])
      else None
  end.

(** the redirect check: the hosts requested so far, the host of the next request
    and its headers, which the check may edit *)
(* src/internal/agent/push.go (limitPushRedirects) *)
Definition limitPushRedirects (via : list string) (host : string) (h : gmap string string) : result goerror (gmap string string) :=
  if (pushMaxRedirects <=? length via)%nat then Err (errors_new ("stopped after " +:+ itoa (Z.of_nat pushMaxRedirects) +:+ " redirects"))
  else match last via with
  | Some prev => if String.eqb host prev then Ok h else Ok (delete pushTokenHeader h)
  | None => Ok h
  end.

(* src/internal/agent/push.go (webhookHost) *)
Definition webhookHost (raw : string) : string := match parse_url raw with Some u => u_host u | None => "" end.

(** [net/http] starts every redirected request from the headers of the initial
    one. The headers sent to each host of a redirect chain: *)
Fixpoint redirect_chain (init : gmap string string) (via hosts : list string) : list (string * gmap string string) :=
  match hosts with
  | [] => []
  | h :: hosts =>
      match limitPushRedirects via h init with
      | Err _ => []
      | Ok hdr => (h, hdr) :: redirect_chain init (via ++ [h]) hosts
      end
  end.

(** * Queues and workers *)

(* src/internal/agent/push.go (pushJob) *)
Record pushJob := Job { j_config : PushConfig; j_body : string; j_terminal : bool }.
(* src/internal/agent/push.go (pushWorkerKey) *)
Definition pushWorkerKey : Type := string * string.

(** Where a worker stands: in its select, delivering, or about to take the lock in
    [retire] — for good when its queue was closed and is drained. *)
Inductive wphase := WIdle | WDeliver (j : pushJob) | WRetire (drained : bool).

(* src/internal/agent/push.go (pushWorker) *)
Record pushWorker := Worker { wk_key : pushWorkerKey; wk_queue : list pushJob; wk_closed : bool; wk_phase : wphase }.

(** [sn_workers] is the map, its values standing for the workers' addresses;
    [sn_live] the running goroutines. The last three fields record, in order, the
    jobs accepted, taken from a queue and finished. *)
(* src/internal/agent/push.go (PushSender) *)
Record PushSender := Sender { sn_closed : bool; sn_workers : gmap pushWorkerKey nat; sn_live : gmap nat pushWorker;
  sn_next : nat; sn_meter : metrics;
  sn_accepted : list (pushWorkerKey * pushJob); sn_taken : list (pushWorkerKey * pushJob);
  sn_finished : list (pushWorkerKey * pushJob) }.

(* src/internal/agent/push.go (NewPushSender) *)
Definition NewPushSender (m : metrics) : PushSender := Sender false ∅ ∅ 0 m [] [] [].

(* src/internal/agent/push.go (activeWorkers) *)
Definition activeWorkers (s : PushSender) : nat := size (sn_workers s).

Definition set_live (f : gmap nat pushWorker → gmap nat pushWorker) (s : PushSender) : PushSender :=
  Sender (sn_closed s) (sn_workers s) (f (sn_live s)) (sn_next s) (sn_meter s) (sn_accepted s) (sn_taken s) (sn_finished s).
Definition set_smeter (f : metrics → metrics) (s : PushSender) : PushSender :=
  Sender (sn_closed s) (sn_workers s) (sn_live s) (sn_next s) (f (sn_meter s)) (sn_accepted s) (sn_taken s) (sn_finished s).

(** the worker registered for a key, created when there is none *)
(* src/internal/agent/push.go:174-180 (SendPush) *)
Definition ensure_worker (key : pushWorkerKey) (s : PushSender) : nat * PushSender :=
  match sn_workers s !! key with
  | Some w => (w, s)
  | None =>
      (sn_next s, Sender (sn_closed s) (<[key := sn_next s]> (sn_workers s))
        (<[sn_next s := Worker key [] false WIdle]> (sn_live s)) (S (sn_next s)) (sn_meter s)
        (sn_accepted s) (sn_taken s) (sn_finished s))
  end.

(** the critical section of [SendPush] *)
(* src/internal/agent/push.go:165-188 (SendPush) *)
Definition enqueue (key : pushWorkerKey) (j : pushJob) (s : PushSender) : PushSender :=
  if sn_closed s then set_smeter IncPushFailed s else
  let '(w, s) := ensure_worker key s in
  match sn_live s !! w with
  | None => s
  | Some wk =>
      if (length (wk_queue wk) <? pushQueueSize)%nat then
        Sender (sn_closed s) (sn_workers s) (<[w := Worker (wk_key wk) (wk_queue wk ++ [j]) (wk_closed wk) (wk_phase wk)]> (sn_live s))
          (sn_next s) (sn_meter s) (sn_accepted s ++ [(key, j)]) (sn_taken s) (sn_finished s)
      else set_smeter IncPushFailed s
  end.

(* src/internal/agent/push.go (SendPush) *)
Definition SendPush `{A2A} (config : option PushConfig) (ev : Event Part) (s : PushSender) : PushSender :=
  match config with
  | None => s
  | Some c =>
      match marshal_event ev with
      | None => set_smeter IncPushFailed s
      | Some body => enqueue (pc_TaskID c, pc_ID c) (Job (copyPushConfig c) body (isTerminalEvent ev)) s
      end
  end.

(** stop accepting and close every registered worker's queue *)
(* src/internal/agent/push.go:195-202 (Close) *)
Definition close_sender (s : PushSender) : PushSender :=
  if sn_closed s then s else
  Sender true (sn_workers s)
    (map_imap (λ w wk, Some (if decide (sn_workers s !! wk_key wk = Some w)
       then Worker (wk_key wk) (wk_queue wk) true (wk_phase wk) else wk)) (sn_live s))
    (sn_next s) (sn_meter s) (sn_accepted s) (sn_taken s) (sn_finished s).

(** what [Close] returns: the workers ended in time, or the context was over with
    this error; it was then over for their deliveries too, and [Close] waited on *)
(* src/internal/agent/push.go:203-218 (Close) *)
Definition close_wait (over : option goerror) : option goerror :=
  match over with None => None | Some e => Some (wrapf "push sender drain: " e) end.

Definition set_phase (ph : wphase) (wk : pushWorker) : pushWorker := Worker (wk_key wk) (wk_queue wk) (wk_closed wk) ph.

(** the worker takes a job, or finds its closed queue drained *)
(* src/internal/agent/push.go:228-233 (run) *)
Definition worker_recv (w : nat) (s : PushSender) : PushSender :=
  match sn_live s !! w with
  | Some wk =>
      match wk_phase wk, wk_queue wk with
      | WIdle, j :: q =>
          Sender (sn_closed s) (sn_workers s) (<[w := Worker (wk_key wk) q (wk_closed wk) (WDeliver j)]> (sn_live s))
            (sn_next s) (sn_meter s) (sn_accepted s) (sn_taken s ++ [(wk_key wk, j)]) (sn_finished s)
      | WIdle, [] => if wk_closed wk then set_live <[w := set_phase (WRetire true) wk]> s else s
      | _, _ => s
      end
  | None => s
  end.

(** the delivery [d] of the current job ends *)
(* src/internal/agent/push.go:234-237 (run) *)
Definition worker_delivered (w : nat) (d : delivery) (s : PushSender) : PushSender :=
  match sn_live s !! w with
  | Some wk =>
      match wk_phase wk with
      | WDeliver j =>
          Sender (sn_closed s) (sn_workers s)
            (<[w := set_phase (if j_terminal j then WRetire false else WIdle) wk]> (sn_live s))
            (sn_next s) (deliverJob d (sn_meter s)) (sn_accepted s) (sn_taken s) (sn_finished s ++ [(wk_key wk, j)])
      | _ => s
      end
  | None => s
  end.

(** the idle timer fires; the select may prefer it to a waiting job *)
(* src/internal/agent/push.go:238-241 (run) *)
Definition worker_idle (w : nat) (s : PushSender) : PushSender :=
  match sn_live s !! w with
  | Some wk => match wk_phase wk with WIdle => set_live <[w := set_phase (WRetire false) wk]> s | _ => s end
  | None => s
  end.

(** the worker unregisters and ends unless something is queued for it; after a
    drained close it ends in any case *)
(* src/internal/agent/push.go (retire) *)
Definition retire (w : nat) (s : PushSender) : PushSender :=
  match sn_live s !! w with
  | Some wk =>
      match wk_phase wk with
      | WRetire drained =>
          if (0 <? length (wk_queue wk))%nat then
            (if drained then set_live (delete w) s else set_live <[w := set_phase WIdle wk]> s)
          else
            Sender (sn_closed s)
              (if decide (sn_workers s !! wk_key wk = Some w) then delete (wk_key wk) (sn_workers s) else sn_workers s)
              (delete w (sn_live s)) (sn_next s) (sn_meter s) (sn_accepted s) (sn_taken s) (sn_finished s)
      | _ => s
      end
  | None => s
  end.

(** One step of the sender's goroutines. *)
(* src/internal/agent/push.go (PushSender.run) *)
Inductive push_step : PushSender → PushSender → Prop :=
| p_send key j s : push_step s (enqueue key j s)
| p_close s : push_step s (close_sender s)
| p_recv w s : push_step s (worker_recv w s)
| p_delivered w d s : push_step s (worker_delivered w d s)
| p_idle w s : push_step s (worker_idle w s)
| p_retire w s : push_step s (retire w s).

(** * Lemmas *)

(** ** Retries *)

(** the delays of an exponential backoff *)
Fixpoint backoff (n : nat) (delay cap : Z) : list Z :=
  match n with O => [] | S n => delay :: backoff n (Z.min (wrap64 (delay * 2)) cap) cap end.

(** the answers that accept an event, and the failures that may pass *)
Definition accepted (r : http_result) : Prop := ∃ code st, r = HResp code st ∧ 200 ≤ code < 300.
Definition transient (r : http_result) : Prop :=
  (∃ code st, r = HResp code st ∧ 500 ≤ code) ∨ (∃ t, r = HFail t false).

Section posting_lemmas.
Context `{Unicode} `{UrlErrors}.

Lemma postOnce_answer (do : gmap string string → http_result) (c : PushConfig) (u : url) : parse_url (pc_URL c) = Some u →
  let r := postOnce do c in
  (r.2 = None ↔ accepted (do (post_headers c))) ∧
  (r.1 = true ↔ transient (do (post_headers c))).
Proof.
  intros Hu. cbv zeta. unfold postOnce, accepted, transient. rewrite Hu.
  destruct (do _) as [code st|t|t cd]; [|cbn; naive_solver|destruct cd; cbn; naive_solver].
  destruct ((200 <=? code) && (code <? 300)) eqn:E; [|destruct (Z.leb_spec 500 code)]; cbn; split; split;
    try done; try (intros [(? & ? & [= <- <-] & ?)|(? & ?)]; [lia|done]); try (intros (? & ? & [= <- <-] & ?); lia).
  - intros _. exists code, st. split; [done|lia].
  - intros _. left. by exists code, st.
Qed.

Lemma deliver_loop_spec p do aborted c fuel : ∀ attempt delay,
  (Z.max attempt (maxAttempts p) - attempt < Z.of_nat fuel) →
  let r := deliver_loop fuel p do aborted c attempt delay in
  let last := attempt + Z.of_nat (dl_attempts r) - 1 in
  (1 ≤ dl_attempts r)%nat ∧ Z.of_nat (dl_attempts r) ≤ Z.max 1 (maxAttempts p - attempt + 1) ∧
  dl_delays r = backoff (dl_attempts r - 1) delay (maxDelay p) ∧
  (∀ k, attempt ≤ k < last → (postOnce (do k) c).1 = true ∧ aborted k = false) ∧
  (dl_err r = None ↔ (postOnce (do last) c).2 = None) ∧
  ((postOnce (do last) c).1 = true → (postOnce (do last) c).2 = None ∨ maxAttempts p ≤ last ∨ aborted last = true).
Proof.
  induction fuel as [|fuel IH]; intros attempt delay Hf; cbv zeta; [lia|]. cbn [deliver_loop].
  destruct (postOnce (do attempt) c) as [retryable e] eqn:Ep.
  assert (Hlast : ∀ o, (o = None ↔ e = None) →
    (retryable = true → e = None ∨ maxAttempts p ≤ attempt ∨ aborted attempt = true) →
    let r := Delivery o 1 [] in let last := attempt + Z.of_nat (dl_attempts r) - 1 in
    (1 ≤ dl_attempts r)%nat ∧ Z.of_nat (dl_attempts r) ≤ Z.max 1 (maxAttempts p - attempt + 1) ∧
    dl_delays r = backoff (dl_attempts r - 1) delay (maxDelay p) ∧
    (∀ k, attempt ≤ k < last → (postOnce (do k) c).1 = true ∧ aborted k = false) ∧
    (dl_err r = None ↔ (postOnce (do last) c).2 = None) ∧
    ((postOnce (do last) c).1 = true → (postOnce (do last) c).2 = None ∨ maxAttempts p ≤ last ∨ aborted last = true)).
  { intros o Ho Hr. cbv zeta. cbn [dl_err dl_attempts dl_delays].
    replace (attempt + Z.of_nat 1 - 1) with attempt by lia. rewrite Ep. split_and!; (done || lia || intros; lia). }
  destruct e as [e|]; [|apply Hlast; auto].
  destruct (negb retryable || _) eqn:Er.
  { apply Hlast; [done|]. intros ->. cbn in Er. right. left. lia. }
  destruct (aborted attempt) eqn:Ea; [by apply Hlast; auto|].
  apply orb_false_iff in Er as [Er Ha]. assert (Hlt : attempt < maxAttempts p) by lia. clear Hlast.
  specialize (IH (attempt + 1) (Z.min (wrap64 (delay * 2)) (maxDelay p)) ltac:(lia)).
  set (r := deliver_loop fuel p do aborted c (attempt + 1) (Z.min (wrap64 (delay * 2)) (maxDelay p))) in *. cbv zeta in IH.
  cbn [dl_err dl_attempts dl_delays].
  replace (attempt + Z.of_nat (S (dl_attempts r)) - 1) with (attempt + 1 + Z.of_nat (dl_attempts r) - 1) by lia.
  destruct IH as (H1 & H2 & H3 & H4 & H5). split_and!; [lia|lia| | |apply H5..].
  - rewrite H3. replace (S (dl_attempts r) - 1)%nat with (S (dl_attempts r - 1)) by lia. done.
  - intros k Hk. destruct (decide (k = attempt)) as [->|]; [|apply H4; lia]. rewrite Ep, Ea. by destruct retryable.
Qed.
End posting_lemmas.

Lemma backoff_bound n : ∀ delay cap, 0 ≤ delay ≤ cap → cap ≤ 2 ^ 62 - 1 →
  Forall (λ d, 0 ≤ d ≤ cap) (backoff n delay cap) ∧ length (backoff n delay cap) = n.
Proof.
  induction n as [|n IH]; intros delay cap Hd Hc; cbn; [by split|].
  rewrite wrap64_id by (unfold int64_min, int64_max; lia).
  destruct (IH (Z.min (delay * 2) cap) cap) as [H1 H2]; [lia|lia|]. split; [by constructor|by rewrite H2].
Qed.

(** ** The sender's state *)

Definition jobs (k : pushWorkerKey) (l : list (pushWorkerKey * pushJob)) : list pushJob :=
  (filterb (λ x, bool_decide (x.1 = k)) l).*2.
Arguments jobs : simpl never.
Definition worker_of (k : pushWorkerKey) (s : PushSender) : option pushWorker := w ← sn_workers s !! k; sn_live s !! w.
Definition queued (o : option pushWorker) : list pushJob := match o with Some wk => wk_queue wk | None => [] end.
Definition current (o : option pushWorker) : list pushJob :=
  match o with Some wk => match wk_phase wk with WDeliver j => [j] | _ => [] end | None => [] end.

Lemma jobs_app k l1 l2 : jobs k (l1 ++ l2) = jobs k l1 ++ jobs k l2.
Proof. unfold jobs. by rewrite filterb_app, fmap_app. Qed.
Lemma jobs_same k (l : list pushJob) : jobs k (pair k <$> l) = l.
Proof.
  unfold jobs. rewrite filterb_all; [rewrite <-list_fmap_compose; apply list_fmap_id|].
  apply Forall_forall. intros x (j & -> & _)%list_elem_of_fmap. by apply bool_decide_eq_true.
Qed.
Lemma jobs_other k k' (l : list pushJob) : k ≠ k' → jobs k' (pair k <$> l) = [].
Proof.
  intros Hne. unfold jobs. rewrite filterb_none; [done|].
  apply Forall_forall. intros x (j & -> & _)%list_elem_of_fmap. by apply bool_decide_eq_false.
Qed.

(** Each registered key has its own running worker and each running worker is
    registered; queues are bounded; closed queues are exactly those of a closed
    sender. Per key, the jobs accepted are those taken and those queued, and the
    jobs taken are those finished and the one being delivered. *)
Record push_ok (s : PushSender) : Prop := {
  po_reg : ∀ k w, sn_workers s !! k = Some w → ∃ wk, sn_live s !! w = Some wk ∧ wk_key wk = k;
  po_live : ∀ w wk, sn_live s !! w = Some wk → sn_workers s !! wk_key wk = Some w ∧ (w < sn_next s)%nat ∧
    (length (wk_queue wk) ≤ pushQueueSize)%nat ∧ wk_closed wk = sn_closed s ∧
    (wk_phase wk = WRetire true → wk_queue wk = [] ∧ sn_closed s = true);
  po_fifo : ∀ k, jobs k (sn_accepted s) = jobs k (sn_taken s) ++ queued (worker_of k s);
  po_done : ∀ k, jobs k (sn_taken s) = jobs k (sn_finished s) ++ current (worker_of k s) }.

Lemma worker_of_update s s' w wk wk' k : push_ok s → sn_live s !! w = Some wk → wk_key wk' = wk_key wk →
  sn_workers s' = sn_workers s → sn_live s' = <[w := wk']> (sn_live s) →
  worker_of k s' = if decide (k = wk_key wk) then Some wk' else worker_of k s.
Proof.
  intros Hok Hw Hk Hws Hl. unfold worker_of. rewrite Hws, Hl. destruct (po_live _ Hok _ _ Hw) as (Hreg & _).
  destruct (decide _) as [->|Hne]; [rewrite Hreg; cbn; by rewrite lookup_insert_eq|].
  destruct (sn_workers s !! k) as [w2|] eqn:E; [|done]. cbn. rewrite lookup_insert_ne; [done|].
  intros <-. destruct (po_reg _ Hok _ _ E) as (wk2 & H2 & Hk2). rewrite Hw in H2. injection H2 as <-. by apply Hne.
Qed.

(** A step of one worker: it may have been handed [a], have taken [t] and have
    finished [f]. *)
Lemma push_ok_update s s' w wk wk' (a t f : list pushJob) : push_ok s → sn_live s !! w = Some wk → wk_key wk' = wk_key wk →
  sn_workers s' = sn_workers s → sn_live s' = <[w := wk']> (sn_live s) → sn_next s' = sn_next s → sn_closed s' = sn_closed s →
  sn_accepted s' = sn_accepted s ++ (pair (wk_key wk) <$> a) → sn_taken s' = sn_taken s ++ (pair (wk_key wk) <$> t) →
  sn_finished s' = sn_finished s ++ (pair (wk_key wk) <$> f) →
  wk_queue wk ++ a = t ++ wk_queue wk' → current (Some wk) ++ t = f ++ current (Some wk') →
  (length (wk_queue wk') ≤ pushQueueSize)%nat → wk_closed wk' = wk_closed wk →
  (wk_phase wk' = WRetire true → wk_queue wk' = [] ∧ sn_closed s = true) → push_ok s'.
Proof.
  intros Hok Hw Hk Hws Hl Hn Hc Ha Ht Hf Hq Hcur Hlen Hclo Hret.
  pose proof (λ k, worker_of_update s s' w wk wk' k Hok Hw Hk Hws Hl) as Hwo.
  assert (Hwk : worker_of (wk_key wk) s = Some wk).
  { unfold worker_of. destruct (po_live _ Hok _ _ Hw) as (-> & _). cbn. done. }
  split.
  - intros k w2. rewrite Hws, Hl. intros Hk2. destruct (po_reg _ Hok _ _ Hk2) as (wk2 & H2 & <-).
    destruct (decide (w2 = w)) as [->|]; [rewrite lookup_insert_eq; naive_solver|]. rewrite lookup_insert_ne by done. eauto.
  - intros w2 wk2. rewrite Hl, Hws, Hn, Hc, lookup_insert_Some. intros [[<- <-]|[Hne H2]].
    + destruct (po_live _ Hok _ _ Hw) as (H1 & H2 & H3 & H4 & H5). rewrite Hk, Hclo. done.
    + by apply (po_live _ Hok).
  - intros k. rewrite Hwo, Ha, Ht, !jobs_app, (po_fifo _ Hok k). destruct (decide _) as [->|Hne].
    + rewrite !jobs_same, Hwk. cbn [queued]. by rewrite <-!(assoc_L app), Hq.
    + rewrite !jobs_other by done. by rewrite !app_nil_r.
  - intros k. rewrite Hwo, Ht, Hf, !jobs_app, (po_done _ Hok k). destruct (decide _) as [->|Hne].
    + rewrite !jobs_same, Hwk. by rewrite <-!(assoc_L app), Hcur.
    + rewrite !jobs_other by done. by rewrite !app_nil_r.
Qed.

Lemma push_ok_meter f s : push_ok s → push_ok (set_smeter f s).
Proof. intros [H1 H2 H3 H4]. by split. Qed.

Lemma ensure_worker_ok key s : push_ok s → sn_closed s = false →
  let '(w, s') := ensure_worker key s in
  push_ok s' ∧ sn_closed s' = false ∧ sn_accepted s' = sn_accepted s ∧
  ∃ wk, sn_live s' !! w = Some wk ∧ wk_key wk = key.
Proof.
  intros Hok Hc. unfold ensure_worker. destruct (sn_workers s !! key) as [w|] eqn:E.
  { split_and!; [done..|]. by apply (po_reg _ Hok). }
  assert (Hfresh : ∀ w wk, sn_live s !! w = Some wk → w ≠ sn_next s ∧ wk_key wk ≠ key).
  { intros w wk Hw. destruct (po_live _ Hok _ _ Hw) as (H1 & H2 & _). split; [lia|]. intros <-. congruence. }
  assert (Hwo : ∀ k s', sn_workers s' = <[key := sn_next s]> (sn_workers s) →
    sn_live s' = <[sn_next s := Worker key [] false WIdle]> (sn_live s) →
    worker_of k s' = if decide (k = key) then Some (Worker key [] false WIdle) else worker_of k s).
  { intros k s' E1 E2. unfold worker_of at 1. rewrite E1, E2. destruct (decide (k = key)) as [->|Hne].
    - rewrite lookup_insert_eq. cbn. by rewrite lookup_insert_eq.
    - rewrite lookup_insert_ne by done. destruct (sn_workers s !! k) as [w|] eqn:Ek; [|unfold worker_of; by rewrite Ek].
      unfold worker_of. rewrite Ek. cbn. destruct (po_reg _ Hok _ _ Ek) as (wk & Hw & _).
      rewrite lookup_insert_ne; [done|]. by destruct (Hfresh _ _ Hw). }
  assert (Hnone : worker_of key s = None) by (unfold worker_of; by rewrite E).
  split_and!; [|done|done|eexists; cbn; by rewrite lookup_insert_eq].
  split; cbn [sn_workers sn_live sn_next sn_closed sn_accepted sn_taken sn_finished].
  - intros k w. rewrite lookup_insert_Some. intros [[<- <-]|[Hne Hk]]; [eexists; by rewrite lookup_insert_eq|].
    destruct (po_reg _ Hok _ _ Hk) as (wk & Hw & <-). exists wk. split; [|done]. rewrite lookup_insert_ne; [done|].
    by destruct (Hfresh _ _ Hw).
  - intros w wk. rewrite lookup_insert_Some. intros [[<- <-]|[Hne Hw]].
    + cbn. rewrite lookup_insert_eq. split_and!; [done|lia|unfold pushQueueSize; lia|done|done].
    + destruct (po_live _ Hok _ _ Hw) as (H1 & H2 & H3 & H4 & H5). destruct (Hfresh _ _ Hw) as [_ Hk].
      rewrite lookup_insert_ne by done. by split_and!; [done|lia|..].
  - intros k. rewrite (Hwo k) by done. rewrite (po_fifo _ Hok k). destruct (decide _) as [->|]; [by rewrite Hnone|done].
  - intros k. rewrite (Hwo k) by done. rewrite (po_done _ Hok k). destruct (decide _) as [->|]; [by rewrite Hnone|done].
Qed.

Lemma enqueue_ok key j s : push_ok s → push_ok (enqueue key j s).
Proof.
  intros Hok. unfold enqueue. destruct (sn_closed s) eqn:Hc; [by apply push_ok_meter|].
  pose proof (ensure_worker_ok key s Hok Hc) as He. destruct (ensure_worker key s) as [w s1].
  destruct He as (Hok1 & Hc1 & Ha & wk & Hw & Hk). rewrite Hw.
  destruct (Nat.ltb_spec (length (wk_queue wk)) pushQueueSize) as [Hlt|]; [|by apply push_ok_meter].
  eapply (push_ok_update s1 _ w wk (Worker (wk_key wk) (wk_queue wk ++ [j]) (wk_closed wk) (wk_phase wk)) [j] [] []); try done; cbn.
  - by rewrite Hk.
  - by rewrite app_nil_r.
  - by rewrite app_nil_r.
  - by rewrite app_nil_r.
  - rewrite length_app. cbn. lia.
  - intros Hr. destruct (po_live _ Hok1 _ _ Hw) as (_ & _ & _ & _ & H5). destruct (H5 Hr) as [_ ?]. congruence.
Qed.

Lemma recv_ok w s : push_ok s → push_ok (worker_recv w s).
Proof.
  intros Hok. unfold worker_recv. destruct (sn_live s !! w) as [wk|] eqn:Hw; [|done].
  destruct (po_live _ Hok _ _ Hw) as (_ & _ & Hlen & Hcl & Hret).
  destruct (wk_phase wk) eqn:Hph; [|done..]. destruct (wk_queue wk) as [|j q] eqn:Hq.
  - destruct (wk_closed wk) eqn:Hc; [|done].
    eapply (push_ok_update s _ w wk (set_phase (WRetire true) wk) [] [] []); try done; cbn; rewrite ?app_nil_r, ?Hq, ?Hph; try done.
  - eapply (push_ok_update s _ w wk (Worker (wk_key wk) q (wk_closed wk) (WDeliver j)) [] [j] []); try done; cbn;
      rewrite ?app_nil_r, ?Hq, ?Hph; try done. cbn in Hlen. lia.
Qed.

Lemma delivered_ok w d s : push_ok s → push_ok (worker_delivered w d s).
Proof.
  intros Hok. unfold worker_delivered. destruct (sn_live s !! w) as [wk|] eqn:Hw; [|done].
  destruct (po_live _ Hok _ _ Hw) as (_ & _ & Hlen & Hcl & Hret).
  destruct (wk_phase wk) as [|j|] eqn:Hph; [done| |done].
  eapply (push_ok_update s _ w wk (set_phase (if j_terminal j then WRetire false else WIdle) wk) [] [] [j]); try done; cbn;
    rewrite ?app_nil_r, ?Hph; try done; by destruct (j_terminal j).
Qed.

Lemma idle_ok w s : push_ok s → push_ok (worker_idle w s).
Proof.
  intros Hok. unfold worker_idle. destruct (sn_live s !! w) as [wk|] eqn:Hw; [|done].
  destruct (po_live _ Hok _ _ Hw) as (_ & _ & Hlen & _).
  destruct (wk_phase wk) eqn:Hph; [|done..].
  eapply (push_ok_update s _ w wk (set_phase (WRetire false) wk) [] [] []); try done; cbn; by rewrite ?app_nil_r, ?Hph.
Qed.

(** an idle worker with nothing queued leaves *)
Lemma remove_ok w wk s : push_ok s → sn_live s !! w = Some wk → wk_queue wk = [] → current (Some wk) = [] →
  push_ok (Sender (sn_closed s) (delete (wk_key wk) (sn_workers s)) (delete w (sn_live s)) (sn_next s) (sn_meter s)
    (sn_accepted s) (sn_taken s) (sn_finished s)).
Proof.
  intros Hok Hw Hq Hcur. destruct (po_live _ Hok _ _ Hw) as (Hreg & _).
  set (s' := Sender _ _ _ _ _ _ _ _).
  assert (Hwo : ∀ k, queued (worker_of k s') = queued (worker_of k s) ∧ current (worker_of k s') = current (worker_of k s)).
  { intros k. unfold worker_of. cbn. destruct (decide (k = wk_key wk)) as [->|Hne].
    - rewrite lookup_delete_eq, Hreg. cbn [mbind option_bind]. rewrite Hw. cbn [queued]. by rewrite Hq, Hcur.
    - rewrite lookup_delete_ne by done. destruct (sn_workers s !! k) as [w2|] eqn:E; [|done]. cbn.
      rewrite lookup_delete_ne; [done|]. intros <-. destruct (po_reg _ Hok _ _ E) as (wk2 & H2 & Hk2). simplify_eq. }
  split; cbn.
  - intros k w2 [Hne Hk]%lookup_delete_Some. destruct (po_reg _ Hok _ _ Hk) as (wk2 & H2 & <-). exists wk2. split; [|done].
    rewrite lookup_delete_ne; [done|]. intros <-. simplify_eq.
  - intros w2 wk2 [Hne H2]%lookup_delete_Some. destruct (po_live _ Hok _ _ H2) as (H1 & H3). split; [|done].
    rewrite lookup_delete_ne; [done|]. intros He. rewrite He in Hreg. simplify_eq.
  - intros k. by rewrite (proj1 (Hwo k)), (po_fifo _ Hok k).
  - intros k. by rewrite (proj2 (Hwo k)), (po_done _ Hok k).
Qed.

Lemma retire_ok w s : push_ok s → push_ok (retire w s).
Proof.
  intros Hok. unfold retire. destruct (sn_live s !! w) as [wk|] eqn:Hw; [|done].
  destruct (po_live _ Hok _ _ Hw) as (Hreg & _ & Hlen & _ & Hret).
  destruct (wk_phase wk) as [| |drained] eqn:Hph; [done..|].
  destruct (Nat.ltb_spec 0 (length (wk_queue wk))) as [Hlt|Hge].
  - destruct drained.
    { destruct (Hret eq_refl) as [Hnil _]. rewrite Hnil in Hlt. cbn in Hlt. lia. }
    eapply (push_ok_update s _ w wk (set_phase WIdle wk) [] [] []); try done; cbn; by rewrite ?app_nil_r, ?Hph.
  - rewrite decide_True by done. apply remove_ok; [done..| |]; [apply nil_length_inv; lia|cbn; by rewrite Hph].
Qed.

Lemma close_ok s : push_ok s → push_ok (close_sender s).
Proof.
  intros Hok. unfold close_sender. destruct (sn_closed s) eqn:Hc; [done|]. set (s' := Sender _ _ _ _ _ _ _ _).
  assert (Hl : ∀ w, sn_live s' !! w = (λ wk, Worker (wk_key wk) (wk_queue wk) true (wk_phase wk)) <$> sn_live s !! w).
  { intros w. cbn. rewrite map_lookup_imap. destruct (sn_live s !! w) as [wk|] eqn:Hw; [|done]. cbn.
    by rewrite decide_True by (by apply (po_live _ Hok)). }
  assert (Hwo : ∀ k, queued (worker_of k s') = queued (worker_of k s) ∧ current (worker_of k s') = current (worker_of k s)).
  { intros k. unfold worker_of. change (sn_workers s') with (sn_workers s). destruct (sn_workers s !! k); [|done].
    cbn [mbind option_bind]. rewrite Hl. by destruct (sn_live s !! _). }
  split.
  - intros k w Hk. destruct (po_reg _ Hok _ _ Hk) as (wk & Hw & <-). rewrite Hl, Hw. by eexists.
  - intros w wk'. rewrite Hl. intros (wk & Hw & ->)%fmap_Some. destruct (po_live _ Hok _ _ Hw) as (H1 & H2 & H3 & H4 & H5).
    split_and!; try done. intros Hr. destruct (H5 Hr). congruence.
  - intros k. rewrite (proj1 (Hwo k)). apply (po_fifo _ Hok k).
  - intros k. rewrite (proj2 (Hwo k)). apply (po_done _ Hok k).
Qed.

Lemma push_step_ok s s' : push_ok s → push_step s s' → push_ok s'.
Proof.
  intros Hok Hst. destruct Hst;
    auto using enqueue_ok, close_ok, recv_ok, delivered_ok, idle_ok, retire_ok.
Qed.

Lemma new_sender_ok m : push_ok (NewPushSender m).
Proof. split; done. Qed.

(** ** Draining *)

(** how far a worker of a closed sender is from its end *)
Definition distance (wk : pushWorker) : nat :=
  3 * length (wk_queue wk) + match wk_phase wk with WRetire true => 0 | WIdle => 1 | WRetire false => 2 | WDeliver _ => 3 end.

Lemma drain_step w wk s : push_ok s → sn_closed s = true → sn_live s !! w = Some wk →
  ∃ s', push_step s s' ∧ sn_closed s' = true ∧ sn_accepted s' = sn_accepted s ∧
    (sn_live s' = delete w (sn_live s) ∨
     ∃ wk', sn_live s' = <[w := wk']> (sn_live s) ∧ (distance wk' < distance wk)%nat).
Proof.
  intros Hok Hc Hw. destruct (po_live _ Hok _ _ Hw) as (Hreg & _ & _ & Hcl & Hret). unfold distance.
  destruct (wk_phase wk) as [|j|drained] eqn:Hph.
  - exists (worker_recv w s). split; [constructor|]. unfold worker_recv. rewrite Hw, Hph.
    destruct (wk_queue wk) as [|j q] eqn:Hq; [rewrite Hcl, Hc|]; cbn; (split_and!; [done..|]); right; eexists; (split; [done|]); cbn; rewrite ?Hq; cbn; lia.
  - exists (worker_delivered w (Delivery None 1 []) s). split; [constructor|]. unfold worker_delivered. rewrite Hw, Hph. cbn.
    split_and!; [done..|]. right. eexists. split; [done|]. cbn. destruct (j_terminal j); lia.
  - exists (retire w s). split; [constructor|]. unfold retire. rewrite Hw, Hph.
    destruct (Nat.ltb_spec 0 (length (wk_queue wk))); [|by cbn; split_and!; [done..|left]].
    destruct drained; [by cbn; split_and!; [done..|left]|]. cbn. split_and!; [done..|]. right. eexists. split; [done|]. cbn. lia.
Qed.

Lemma drain_worker w : ∀ n s wk, (distance wk < n)%nat → push_ok s → sn_closed s = true → sn_live s !! w = Some wk →
  ∃ s', star push_step s s' ∧ push_ok s' ∧ sn_closed s' = true ∧ sn_accepted s' = sn_accepted s ∧
    sn_live s' = delete w (sn_live s).
Proof.
  induction n as [|n IH]; intros s wk Hn Hok Hc Hw; [lia|].
  destruct (drain_step w wk s Hok Hc Hw) as (s1 & Hs & H1 & H2 & Hcase).
  pose proof (push_step_ok _ _ Hok Hs) as Hok1.
  destruct Hcase as [Hl|(wk' & Hl & Hlt)].
  - exists s1. split_and!; try done. by eapply star_step; [exact Hs|constructor].
  - destruct (IH s1 wk') as (s' & Hs' & H3 & H4 & H5 & H6); [lia|done|done|by rewrite Hl, lookup_insert_eq|].
    exists s'. split_and!; try done; [by eapply star_step|by rewrite H5|by rewrite H6, Hl, delete_insert_eq].
Qed.

Lemma drain_all : ∀ n s, size (sn_live s) = n → push_ok s → sn_closed s = true →
  ∃ s', star push_step s s' ∧ push_ok s' ∧ sn_closed s' = true ∧ sn_accepted s' = sn_accepted s ∧ sn_live s' = ∅.
Proof.
  induction n as [|n IH]; intros s Hn Hok Hc.
  { exists s. split_and!; try done; [constructor|]. by apply map_size_empty_inv. }
  destruct (decide (sn_live s = ∅)) as [He|Hne]; [rewrite He, map_size_empty in Hn; done|].
  apply map_choose in Hne as (w & wk & Hw).
  destruct (drain_worker w _ s wk (Nat.lt_succ_diag_r _) Hok Hc Hw) as (s1 & Hs & H1 & H2 & H3 & H4).
  destruct (IH s1) as (s2 & Hs2 & H5 & H6 & H7 & H8); [|done|done|].
  - rewrite H4, map_size_delete_Some by done. lia.
  - exists s2. split_and!; try done; [by eapply star_trans|by rewrite H7].
Qed.

(** * Properties *)

Section delivering.
Context `{Unicode} `{UrlErrors}.

Lemma deliver_facts (p : retryPolicy) (do : Z → gmap string string → http_result) (aborted : Z → bool) (c : PushConfig) :
  0 ≤ baseDelay p ≤ maxDelay p → maxDelay p ≤ 2 ^ 62 - 1 →
  let r := deliver p do aborted c in
  let last := Z.of_nat (dl_attempts r) in
  1 ≤ last ≤ Z.max 1 (maxAttempts p) ∧
  dl_delays r = backoff (dl_attempts r - 1) (baseDelay p) (maxDelay p) ∧
  Forall (λ d, 0 ≤ d ≤ maxDelay p) (dl_delays r) ∧
  (∀ k, 1 ≤ k < last → (postOnce (do k) c).1 = true ∧ aborted k = false) ∧
  (dl_err r = None ↔ (postOnce (do last) c).2 = None) ∧
  ((postOnce (do last) c).1 = true → (postOnce (do last) c).2 = None ∨ maxAttempts p ≤ last ∨ aborted last = true).
Proof.
  intros Hb Hm. cbv zeta. unfold deliver.
  destruct (deliver_loop_spec p do aborted c (Z.to_nat (Z.max 1 (maxAttempts p))) 1 (baseDelay p)) as (H1 & H2 & H3 & H4); [lia|].
  set (r := deliver_loop _ _ _ _ _ _ _) in *.
  replace (1 + Z.of_nat (dl_attempts r) - 1) with (Z.of_nat (dl_attempts r)) in H4 by lia.
  split_and!; [lia|lia|done| |apply H4..]. rewrite H3. by apply backoff_bound.
Qed.

(** Under the default policy the waiting and the time limits of all attempts at an
    event add up to at most 28 s. *)
Lemma default_worst_case (do : Z → gmap string string → http_result) (aborted : Z → bool) (c : PushConfig) :
  let r := deliver defaultRetryPolicy do aborted c in
  foldr Z.add 0 (dl_delays r) + Z.of_nat (dl_attempts r) * perAttempt defaultRetryPolicy ≤ 28 * second.
Proof.
  cbv zeta. destruct (deliver_facts defaultRetryPolicy do aborted c) as (H1 & H2 & _); [done|done|].
  rewrite H2. change (maxAttempts defaultRetryPolicy) with 5 in H1. set (n := dl_attempts _) in *.
  assert (Hn : n = 1%nat ∨ n = 2%nat ∨ n = 3%nat ∨ n = 4%nat ∨ n = 5%nat) by lia. clearbody n.
  by destruct Hn as [->|[->|[->|[->| ->]]]].
Qed.

(** C20: Retries of one delivery. A webhook URL that does not parse is given up at
    once and nothing is posted. Otherwise the delivery posts at most
    [maxAttempts] times (once, if that is less than one); it posts again exactly
    after a transient failure — a 5xx answer or a network error with the sender
    still running, never a success, a 3xx or 4xx answer or a blocked address —
    unless the attempts are used up or the sender is stopped while it waits; it
    waits the exponential backoff capped at [maxDelay] between posts, and succeeds
    exactly when the last post is answered 2xx. With the default policy all the
    waiting and the time limits of an event add up to at most 28 s, the worst case
    the knobs' comment states. *)
Theorem deliver_spec (p : retryPolicy) (do : Z → gmap string string → http_result) (aborted : Z → bool) (c : PushConfig) :
  0 ≤ baseDelay p ≤ maxDelay p → maxDelay p ≤ 2 ^ 62 - 1 →
  let r := deliver p do aborted c in
  let last := Z.of_nat (dl_attempts r) in
  1 ≤ last ≤ Z.max 1 (maxAttempts p) ∧
  dl_delays r = backoff (dl_attempts r - 1) (baseDelay p) (maxDelay p) ∧
  Forall (λ d, 0 ≤ d ≤ maxDelay p) (dl_delays r) ∧
  (p = defaultRetryPolicy → foldr Z.add 0 (dl_delays r) + last * perAttempt p ≤ 28 * second) ∧
  match parse_url (pc_URL c) with
  | None => last = 1 ∧ dl_err r = Some (wrapf "attempt 1: " (wrapf "build request: " (errors_new (parse_error (pc_URL c)))))
  | Some _ =>
      let answer k := do k (post_headers c) in
      (∀ k, 1 ≤ k < last → transient (answer k) ∧ aborted k = false) ∧
      (transient (answer last) → last = Z.max 1 (maxAttempts p) ∨ aborted last = true) ∧
      (dl_err r = None ↔ accepted (answer last))
  end.
Proof.
  intros Hb Hm. cbv zeta. destruct (deliver_facts p do aborted c Hb Hm) as (H1 & H2 & H3 & H4 & H5 & H6).
  split_and!; try done; [lia..|intros ->; apply default_worst_case|]. destruct (parse_url (pc_URL c)) as [u|] eqn:Eu.
  - assert (Hp : ∀ k, _) by (exact (λ k, postOnce_answer (do k) c u Eu)). cbv zeta in Hp. split_and!.
    + intros k Hk. rewrite <-(proj2 (Hp k)). by apply H4.
    + intros Ht. destruct H6 as [Hn|[?|?]]; [by apply Hp| |lia|by right].
      apply Hp in Hn as (code & st & Hr & ?). destruct Ht as [(? & ? & Ht & ?)|(? & Ht)]; rewrite Hr in Ht; simplify_eq. lia.
    + rewrite H5. apply Hp.
  - unfold deliver. destruct (Z.to_nat _) as [|n] eqn:En; [lia|]. cbn [deliver_loop]. unfold postOnce. rewrite Eu. done.
Qed.
End delivering.

(** C6: In-order, loss-free queues: at any moment, for every push config, the events
    accepted are those delivered, the one being delivered and those queued, in the
    order they were accepted — whatever workers retired and were replaced on the
    way; a queue never exceeds its size, and an event is queued only where a running
    worker of its config will find it. *)
Theorem push_in_order (m : metrics) (s : PushSender) (k : pushWorkerKey) :
  star push_step (NewPushSender m) s →
  jobs k (sn_accepted s) = jobs k (sn_finished s) ++ current (worker_of k s) ++ queued (worker_of k s) ∧
  (length (queued (worker_of k s)) ≤ pushQueueSize)%nat ∧
  (∀ w wk, sn_live s !! w = Some wk → sn_workers s !! wk_key wk = Some w).
Proof.
  intros Hs. pose proof (star_invariant _ _ push_step_ok _ _ Hs (new_sender_ok m)) as Hok. split_and!.
  - by rewrite (po_fifo _ Hok k), (po_done _ Hok k), <-(assoc_L app).
  - unfold worker_of. destruct (sn_workers s !! k) as [w|] eqn:E; [|cbn; lia]. cbn.
    destruct (po_reg _ Hok _ _ E) as (wk & Hw & _). rewrite Hw. by apply (po_live _ Hok _ _ Hw).
  - intros w wk Hw. by apply (po_live _ Hok _ _ Hw).
Qed.

(** C17: Closing drains: a closed sender accepts nothing more, and from every
    reachable closed state the workers can all run to their end; then every event
    ever accepted has been delivered and no worker is registered. *)
Theorem close_drains (m : metrics) (s : PushSender) :
  star push_step (NewPushSender m) s → sn_closed s = true →
  (∀ k j, sn_accepted (enqueue k j s) = sn_accepted s) ∧
  ∃ s', star push_step s s' ∧ sn_live s' = ∅ ∧ activeWorkers s' = 0%nat ∧
    ∀ k, jobs k (sn_finished s') = jobs k (sn_accepted s).
Proof.
  intros Hs Hc. pose proof (star_invariant _ _ push_step_ok _ _ Hs (new_sender_ok m)) as Hok. split.
  - intros k j. unfold enqueue. by rewrite Hc.
  - destruct (drain_all _ s eq_refl Hok Hc) as (s' & Hs' & Hok' & _ & Ha & Hl). exists s'.
    assert (Hnone : ∀ k, sn_workers s' !! k = None).
    { intros k. destruct (sn_workers s' !! k) as [w|] eqn:E; [|done].
      destruct (po_reg _ Hok' _ _ E) as (wk & Hw & _). by rewrite Hl in Hw. }
    split_and!; [done|done| |].
    + unfold activeWorkers. apply map_size_empty_iff, map_empty. exact Hnone.
    + intros k. rewrite <-Ha, (po_fifo _ Hok' k), (po_done _ Hok' k). unfold worker_of. rewrite Hnone.
      cbn. by rewrite !app_nil_r.
Qed.

(** ** Address and redirect guards *)

Lemma land_ranges b : 0 ≤ b < 256 →
  (Z.land b 0xf0 =? 0xe0) = ((224 <=? b) && (b <=? 239)) ∧ (Z.land b 0xf0 =? 16) = ((16 <=? b) && (b <=? 31)) ∧
  (Z.land b 0xfe =? 0xfc) = ((252 <=? b) && (b <=? 253)).
Proof.
  intros Hb. assert (Hall : forallb (λ b, Bool.eqb (Z.land b 0xf0 =? 0xe0) ((224 <=? b) && (b <=? 239)) &&
    Bool.eqb (Z.land b 0xf0 =? 16) ((16 <=? b) && (b <=? 31)) &&
    Bool.eqb (Z.land b 0xfe =? 0xfc) ((252 <=? b) && (b <=? 253))) (seqZ 0 256) = true) by reflexivity.
  rewrite forallb_forall in Hall. specialize (Hall b).
  rewrite !andb_true_iff, !Bool.eqb_true_iff in Hall. destruct Hall as [[? ?] ?]; [|done].
  apply list_elem_of_In, elem_of_seqZ. lia.
Qed.

(** The address guard: an IPv4 webhook address is refused exactly when it is
    loopback, private, link-local, multicast or unspecified, and writing it as an
    IPv4-mapped IPv6 address does not get around the guard. *)
Theorem isBlockedIP_v4 (a b c d : Z) :
  0 ≤ a < 256 → 0 ≤ b < 256 → 0 ≤ c < 256 → 0 ≤ d < 256 →
  (isBlockedIP [a; b; c; d] = true ↔
     a = 127 ∨ a = 10 ∨ (a = 172 ∧ 16 ≤ b ≤ 31) ∨ (a = 192 ∧ b = 168) ∨ (a = 169 ∧ b = 254) ∨
     224 ≤ a ≤ 239 ∨ (a = 0 ∧ b = 0 ∧ c = 0 ∧ d = 0)) ∧
  isBlockedIP [0;0;0;0;0;0;0;0;0;0;255;255;a;b;c;d] = isBlockedIP [a; b; c; d].
Proof.
  intros Ha Hb Hc Hd. split; [|done]. destruct (land_ranges a Ha) as (La & _). destruct (land_ranges b Hb) as (_ & Lb & _).
  unfold isBlockedIP, IsLoopback, IsPrivate, IsLinkLocalUnicast, IsLinkLocalMulticast, IsUnspecified, IsMulticast.
  change (to4 [a; b; c; d]) with (Some [a; b; c; d]). cbv beta iota.
  change (byte [a;b;c;d] 0) with a. change (byte [a;b;c;d] 1) with b. change (byte [a;b;c;d] 2) with c.
  rewrite La, Lb. rewrite !orb_true_iff, !andb_true_iff, bool_decide_eq_true, !Z.eqb_eq, !Z.leb_le.
  split.
  - intros [[[[[?|?]|?]|?]|?]|?]; simplify_eq; lia.
  - intros [?|[?|[?|[?|[?|[?|(-> & -> & -> & ->)]]]]]]; tauto || (auto 20 with lia).
Qed.

(** Redirects: a chain makes at most [pushMaxRedirects] requests in all; a hop
    carries the notification token exactly when its host is that of the request
    before it. So the token is withheld from a hop to another host — but a host
    that redirects once more to itself is sent it. *)
Theorem redirect_token (init : gmap string string) (tok first : string) (hosts : list string) :
  init !! pushTokenHeader = Some tok →
  (length (redirect_chain init [first] hosts) < pushMaxRedirects)%nat ∧
  (∀ i h hdr, redirect_chain init [first] hosts !! i = Some (h, hdr) →
     ∃ prev, (first :: hosts) !! i = Some prev ∧ hosts !! i = Some h ∧
       (hdr !! pushTokenHeader = Some tok ↔ h = prev)) ∧
  (∀ other, other ≠ first → ∃ h1 h2, redirect_chain init [first] [other; other] = [(other, h1); (other, h2)] ∧
     h1 !! pushTokenHeader = None ∧ h2 !! pushTokenHeader = Some tok).
Proof.
  intros Htok.
  assert (Hgen : ∀ hosts via prev, last via = Some prev →
    (length (redirect_chain init via hosts) + length via ≤ Nat.max (length via) pushMaxRedirects)%nat ∧
    ∀ i h hdr, redirect_chain init via hosts !! i = Some (h, hdr) →
     ∃ p, (prev :: hosts) !! i = Some p ∧ hosts !! i = Some h ∧ (hdr !! pushTokenHeader = Some tok ↔ h = p)).
  { clear first hosts. induction hosts as [|h hosts IH]; intros via prev Hl; cbn [redirect_chain]; [cbn; split; [lia|done]|].
    unfold limitPushRedirects. destruct (Nat.leb_spec pushMaxRedirects (length via)); [cbn; split; [lia|done]|]. rewrite Hl.
    destruct (IH (via ++ [h]) h) as [Hlen Hi]; [apply last_snoc|]. rewrite length_app in Hlen. cbn [length] in Hlen.
    destruct (String.eqb_spec h prev) as [->|Hne]; cbn [length]; (split; [lia|]);
      intros [|i] h' hdr Hlk; cbn in Hlk; simplify_eq; [|by apply Hi| |by apply Hi].
    - eexists. split; [done|]. split; [done|]. by rewrite Htok.
    - eexists. split; [done|]. split; [done|]. rewrite lookup_delete_eq. naive_solver. }
  split_and!.
  - destruct (Hgen hosts [first] first eq_refl) as [Hlen _]. cbn in Hlen. unfold pushMaxRedirects in *. lia.
  - apply (Hgen hosts [first] first eq_refl).
  - intros other Hne. cbn. unfold limitPushRedirects. cbn. rewrite (proj2 (String.eqb_neq other first)) by done.
    cbn. rewrite String.eqb_refl. do 2 eexists. split; [done|]. by rewrite lookup_delete_eq.
Qed.

(** The POST itself: it carries the token when there is one and credentials only
    for the two schemes it knows; a 2xx answer succeeds, only a network failure
    with the context alive or a 5xx answer may be tried again. *)
Theorem postOnce_spec `{Unicode} `{UrlErrors} (do : gmap string string → http_result) (c : PushConfig) (u : url) :
  parse_url (pc_URL c) = Some u →
  (post_headers c !! pushTokenHeader = if String.eqb (pc_Token c) "" then None else Some (pc_Token c)) ∧
  (∀ v, post_headers c !! "Authorization" = Some v → ∃ a, pc_Auth c = Some a ∧ pa_Credentials a ≠ "" ∧
     (v = "Bearer " +:+ pa_Credentials a ∧ ToLower (pa_Scheme a) = "bearer" ∨
      v = "Basic " +:+ pa_Credentials a ∧ ToLower (pa_Scheme a) = "basic")) ∧
  ((postOnce do c).2 = None ↔ accepted (do (post_headers c))) ∧
  ((postOnce do c).1 = true ↔ transient (do (post_headers c))).
Proof.
  intros Hu. split_and!; [| |by eapply postOnce_answer..].
  - unfold post_headers. destruct (String.eqb (pc_Token c) ""), (pc_Auth c) as [a|]; cbv zeta; repeat case_match; done.
  - unfold post_headers. intros v. destruct (pc_Auth c) as [a|].
    + destruct (String.eqb_spec (pa_Credentials a) ""); cbv zeta; [by destruct (String.eqb (pc_Token c) "")|].
      destruct (String.eqb_spec (ToLower (pa_Scheme a)) "bearer") as [Hs|_].
      { rewrite lookup_insert_eq. intros [= <-]. exists a. auto. }
      destruct (String.eqb_spec (ToLower (pa_Scheme a)) "basic") as [Hs|_].
      { rewrite lookup_insert_eq. intros [= <-]. exists a. auto. }
      by destruct (String.eqb (pc_Token c) "").
    + by destruct (String.eqb (pc_Token c) "").
Qed.

(** * Witnesses *)

Definition hook_config : PushConfig :=
  {| pc_ID := "c"; pc_TaskID := "t"; pc_URL := "https://example.org/hook"; pc_Token := "tok"; pc_Auth := None |}.
Definition hook_job : pushJob := Job hook_config "{}" true.

(** a webhook that answers 503 twice, then 404 *)
Definition flaky_hook (k : Z) (_ : gmap string string) : http_result :=
  if k <=? 2 then HResp 503 "503 Service Unavailable" else HResp 404 "404 Not Found".

Lemma deliver_spec_witness :
  let r := @deliver ascii_tables id defaultRetryPolicy flaky_hook (λ _, false) hook_config in
  dl_attempts r = 3%nat ∧ dl_delays r = [200 * millisecond; 400 * millisecond] ∧
  (e_text <$> dl_err r) = Some "attempt 3: webhook returned 404 Not Found" ∧
  (∀ k, 1 ≤ k < 3 → transient (flaky_hook k (@post_headers ascii_tables hook_config))).
Proof.
  split_and!; [reflexivity..|].
  destruct (@deliver_spec ascii_tables id defaultRetryPolicy flaky_hook (λ _, false) hook_config)
    as (_ & _ & _ & _ & Hr & _); [done|done|].
  intros k Hk. by apply Hr.
Defined.

Lemma push_in_order_witness :
  ∃ s, star push_step (NewPushSender metrics0) s ∧ jobs ("t", "c") (sn_accepted s) = [hook_job] ∧
    (length (queued (worker_of ("t", "c") s)) ≤ pushQueueSize)%nat.
Proof.
  assert (Hs : star push_step (NewPushSender metrics0) (enqueue ("t", "c") hook_job (NewPushSender metrics0))).
  { eapply star_step; [apply p_send|constructor]. }
  eexists. split_and!; [exact Hs|reflexivity|]. exact (proj1 (proj2 (push_in_order _ _ ("t", "c") Hs))).
Defined.

Lemma close_drains_witness :
  ∃ s', sn_live s' = ∅ ∧ jobs ("t", "c") (sn_finished s') = [hook_job].
Proof.
  assert (Hs : star push_step (NewPushSender metrics0) (close_sender (enqueue ("t", "c") hook_job (NewPushSender metrics0)))).
  { eapply star_step; [apply p_send|]. eapply star_step; [apply p_close|constructor]. }
  destruct (close_drains _ _ Hs eq_refl) as (_ & s' & _ & Hl & _ & Hf). exists s'. split; [exact Hl|].
  rewrite Hf. reflexivity.
Defined.

Lemma isBlockedIP_v4_witness : isBlockedIP [0;0;0;0;0;0;0;0;0;0;255;255;169;254;169;254] = true.
Proof. rewrite (proj2 (isBlockedIP_v4 169 254 169 254 ltac:(lia) ltac:(lia) ltac:(lia) ltac:(lia))). reflexivity. Defined.

Lemma redirect_token_witness :
  ∃ h1 h2, redirect_chain {[pushTokenHeader := "tok"]} ["a.example"] ["b.example"; "b.example"] = [("b.example", h1); ("b.example", h2)] ∧
    h1 !! pushTokenHeader = None ∧ h2 !! pushTokenHeader = Some "tok".
Proof.
  apply (redirect_token {[pushTokenHeader := "tok"]} "tok" "a.example" ["b.example"; "b.example"]); [reflexivity|discriminate].
Defined.

Lemma postOnce_spec_witness : (@postOnce ascii_tables id (λ _, HResp 404 "404") hook_config).1 = false.
Proof.
  apply not_true_iff_false. intros Ht.
  apply (@postOnce_spec ascii_tables id (λ _, HResp 404 "404") hook_config (Url "https" "example.org") eq_refl) in Ht as [(? & ? & He & Hl)|(? & He)].
  - injection He as <- _. apply Hl. reflexivity.
  - discriminate.
Defined.
