(* ===== verification/Install.v ===== *)
(** The command install ([internal/cli/install.go]). *)
From Stdlib Require Import Ascii.
From stdpp Require Import base list strings gmap sets.
From S2P Require Import Prelude GoStrings Json GoSort A2A GoFS GoTree GoExec Jsonc IdeConfig GoFlag GoFmt Console Assets Writers.

Open Scope string_scope.
Open Scope Z_scope.
Open Scope list_scope.

(** [os.Rename] with the error as the program sees it *)
Definition rename `{System} (p q : string) : ST tree (option goerror) := λ t,
  match RenameAt p q t with
  | (Ok _, t) => (None, t)
  | (Err _, t) => (Some (path_error p), t)
  end.

Section install.
Context `{TOML} `{Embedded} `{System}.

(** * Which writers *)

(** [None]: every writer *)
(* src/internal/cli/install.go (parseIDEFilter) *)
Definition parseIDEFilter (s : string) : option (gset string) :=
  let s := trim_space (ToLower s) in
  if String.eqb s "" || String.eqb s "auto" || String.eqb s "all" then None else
  Some (list_to_set (List.filter (λ p, negb (String.eqb p "")) (map trim_space (split_char "," s)))).

(* src/internal/cli/install.go (writerSlug) *)
Definition writerSlug (x : Writer) : string :=
  let s := ToLower (Name x) in
  let s := match cut_char "(" s with
           | Some (a, _) => if String.eqb a "" then s else trim_space a
           | None => s
           end in
  let s := trim_suffix " cli" s in
  replace_char " " "-" s.

(* src/internal/cli/install.go (filterWriters) *)
Definition filterWriters (all : list Writer) (wanted : option (gset string)) : list Writer :=
  match wanted with
  | None => isort (λ x y, str_compare (Name x) (Name y)) all
  | Some wanted => filterb (λ x, bool_decide (writerSlug x ∈ wanted)) all
  end.

(* src/internal/cli/install.go (shouldInstallExtras) *)
Definition shouldInstallExtras (ideFlag : string) : bool :=
  let s := ToLower (trim_space ideFlag) in
  if String.eqb s "" || String.eqb s "auto" || String.eqb s "all" then true
  else existsb (λ p, String.eqb (trim_space p) "claude-code") (split_char "," s).

(** * The skill and the hook *)

Definition bak (p : string) (t : tree) : string := p +:+ ".bak." +:+ now_stamp t.

(** both branches for something that is there rename it *)
(* src/internal/cli/install.go (backupTreeOnce) *)
Definition backupTreeOnce (target : string) : ST tree (option goerror) := λ t,
  match Stat target t with
  | Err NotExist => (None, t)
  | Err IOError => (Some (path_error target), t)
  | Ok _ => rename target (bak target t) t
  end.

Definition skill_dir (home : string) : string := Join [home; ".claude"; "skills"; "a2a-bridge"].
Definition hook_path (home : string) : string := Join [home; ".claude"; "hooks"; "a2a-inbox-hook.sh"].

(** an error with what was being done *)
Definition wrapped (pre : string) (m : ST tree (option goerror)) : ST tree (option goerror) := λ t,
  match m t with (Some e, t) => (Some (wrapf pre e), t) | (None, t) => (None, t) end.

(** a change of the files, then a line when it went well *)
Definition reported (m : ST tree (option goerror)) (line : string) : IOW (option goerror) :=
  e ← on_tree m;
  match e with
  | Some e => mret (Some e)
  | None => _ ← out line; mret None
  end.

(* src/internal/cli/install.go (installSkill) *)
Definition installSkill (apply : bool) : IOW (option goerror) :=
  match UserHomeDir with
  | Err e => mret (Some (wrapf "home dir: " e))
  | Ok home =>
      let target := skill_dir home in
      match SkillFS with
      | Err e => mret (Some (wrapf "embed skill fs: " e))
      | Ok src =>
          if negb apply then _ ← out ("  [plan]   skill            " +:+ target); mret None else
          reported (orelse (wrapped "backup skill tree: " (backupTreeOnce target)) (wrapped "copy skill: " (CopyTree src target)))
            ("  [write]  skill            " +:+ target)
      end
  end.

(** the former hook is renamed when the system shows it *)
(* src/internal/cli/install.go:247-252 (installHook) *)
Definition backup_hook (target : string) : ST tree (option goerror) := λ t,
  if is_ok (Stat target t) then wrapped "backup existing hook: " (rename target (bak target t)) t else (None, t).

(* src/internal/cli/install.go (installHook) *)
Definition installHook (apply : bool) : IOW (option goerror) :=
  match UserHomeDir with
  | Err e => mret (Some (wrapf "home dir: " e))
  | Ok home =>
      let target := hook_path home in
      if negb apply then _ ← out ("  [plan]   hook             " +:+ target); mret None else
      reported (orelse (make_dirs (Dir target)) (orelse (backup_hook target) (write_file target HookScript 493)))
        ("  [write]  hook             " +:+ target)
  end.

(** * The command *)

(* src/internal/cli/install.go:39-43 (RunInstall) *)
Definition install_flags : flag_decls :=
  [("apply", true); ("dry-run", true); ("ide", false); ("binary", false); ("directory", false)].
(* src/internal/cli/install.go:44-52 (RunInstall) *)
Definition install_usage : list string :=
  ["Usage: a2abridge install [flags]"; "";
   "Detects supported IDEs on this machine and writes the a2a MCP block";
   "into each one's config, with a timestamped .bak backup. Default mode is";
   "dry-run (no files modified) — pass --apply to actually write."; ""] ++ PrintDefaults "install".

(** the absolute path of the binary the configurations will name, or what is
    printed when it cannot be found *)
(* src/internal/cli/install.go:64-85 (RunInstall) *)
Definition resolve_binary (binary : string) : result string string :=
  let exe :=
    if negb (String.eqb binary "") then Ok binary else
    match Executable with
    | Err e => Err ("install: locate own binary: " +:+ e_text e)
    | Ok me => Ok (match EvalSymlinks me with Ok resolved => resolved | Err _ => me end)
    end in
  match exe with
  | Err e => Err e
  | Ok exe =>
      match Abs exe with
      | Ok abs => Ok abs
      | Err e => Err ("install: resolve binary path " +:+ Quote exe +:+ ": " +:+ e_text e)
      end
  end.

(* src/internal/cli/install.go:87-95 (RunInstall) *)
Definition install_spec (exe directory : string) : Spec :=
  let spec := DefaultSpec exe in
  MkSpec (sp_Key spec) (sp_BinaryPath spec) (assoc_set "A2A_DIRECTORY" directory (sp_Env spec))
    (match UserHomeDir with Ok home => hook_path home | Err _ => sp_HookCommand spec end).

(** the line for the result of a writer; nothing for one that changed nothing and
    is not up to date *)
(* src/internal/cli/install.go:126-140 (RunInstall) *)
Definition result_line (apply : bool) (res : Result) : option string :=
  match rs_Error res with
  | Some e => Some ("  [FAIL]   " +:+ pad 15 (rs_IDE res) +:+ "  " +:+ rs_Path res +:+ " — " +:+ e_text e)
  | None =>
      if rs_Skipped res then Some ("  [skip]   " +:+ pad 15 (rs_IDE res) +:+ "  " +:+ rs_Path res +:+ " — already up to date")
      else if rs_Updated res then
        if negb apply then Some ("  [plan]   " +:+ pad 15 (rs_IDE res) +:+ "  " +:+ rs_Path res +:+ " — would write a2a MCP block")
        else if negb (String.eqb (rs_Backup res) "")
        then Some ("  [write]  " +:+ pad 15 (rs_IDE res) +:+ "  " +:+ rs_Path res +:+ "  (backup → " +:+ Base (rs_Backup res) +:+ ")")
        else Some ("  [write]  " +:+ pad 15 (rs_IDE res) +:+ "  " +:+ rs_Path res +:+ "  (created)")
      else None
  end.

(* src/internal/cli/install.go:115-141 (RunInstall) *)
Definition install_one (ideFlag : string) (spec : Spec) (apply : bool) (x : Writer) : IOW (option Result) :=
  found ← look (WriterFound x);
  if String.eqb ideFlag "auto" && negb found then
    _ ← out ("  [skip]   " +:+ pad 15 (Name x) +:+ " — not detected"); mret None
  else
    res ← on_files (Write x spec (negb apply));
    _ ← match result_line apply res with Some line => out line | None => skip end;
    mret (Some res).

(* src/internal/cli/install.go:113-141 (RunInstall) *)
Fixpoint install_all (ideFlag : string) (spec : Spec) (apply : bool) (selected : list Writer) : IOW (list Result) :=
  match selected with
  | [] => mret []
  | x :: selected =>
      r ← install_one ideFlag spec apply x;
      rs ← install_all ideFlag spec apply selected;
      mret (match r with Some r => r :: rs | None => rs end)
  end.

(** written, planned, up to date, failed *)
Inductive tally := Written | Planned | UpToDate | Failed | NoChange.
#[export] Instance tally_eq_dec : EqDecision tally.
Proof. solve_decision. Defined.
(* src/internal/cli/install.go:157-169 (RunInstall) *)
Definition tally_of (r : Result) : tally :=
  match rs_Error r with
  | Some _ => Failed
  | None => if rs_Skipped r then UpToDate else if rs_Updated r && rs_DryRun r then Planned else if rs_Updated r then Written else NoChange
  end.
Definition count (k : tally) (l : list Result) : Z := Z.of_nat (length (filterb (λ r, bool_decide (tally_of r = k)) l)).

(* src/internal/cli/install.go:143-155 (RunInstall) *)
Definition install_extras (ideFlag : string) (apply : bool) : IOW bool :=
  if negb (shouldInstallExtras ideFlag) then mret false else
  e1 ← installSkill apply;
  _ ← match e1 with Some e => out ("  [FAIL]   skill            " +:+ e_text e) | None => skip end;
  e2 ← installHook apply;
  _ ← match e2 with Some e => out ("  [FAIL]   hook             " +:+ e_text e) | None => skip end;
  mret (bool_decide (is_Some e1) || bool_decide (is_Some e2)).

Definition failed_one (r : Result) : bool := match rs_Error r with Some _ => true | None => false end.

(* src/internal/cli/install.go:60-182 (RunInstall) *)
Definition install_with (values : list (string * string)) : IOW Z :=
  let apply := switch values "apply" && negb (switch values "dry-run") in
  let ideFlag := flag values "ide" "auto" in
  let directory := flag values "directory" "http://127.0.0.1:7777" in
  match resolve_binary (flag values "binary" "") with
  | Err line => _ ← err line; mret 1
  | Ok exe =>
      let spec := install_spec exe directory in
      match filterWriters AllWriters (parseIDEFilter ideFlag) with
      | [] => _ ← err ("install: no matching IDEs (filter=" +:+ Quote ideFlag +:+ ")"); mret 1
      | selected =>
          _ ← out ("a2abridge install (" +:+ (if apply then "apply" else "dry-run") +:+ ")");
          _ ← out ("  binary:    " +:+ exe);
          _ ← out ("  directory: " +:+ directory);
          _ ← out "";
          results ← install_all ideFlag spec apply selected;
          extrasFailed ← install_extras ideFlag apply;
          _ ← out "";
          _ ← out ("Summary: " +:+ itoa (count Written results) +:+ " written, " +:+ itoa (count Planned results) +:+ " planned, " +:+
                   itoa (count UpToDate results) +:+ " up to date, " +:+ itoa (count Failed results) +:+ " failed.");
          _ ← out (if negb apply then "Dry-run complete. Re-run with --apply to actually write."
                   else "Install complete. Restart the listed IDEs to pick up the new MCP server.");
          mret (if existsb failed_one results || extrasFailed then 1 else 0)
      end
  end.

(* src/internal/cli/install.go (RunInstall) *)
Definition RunInstall (args : list string) : IOW Z :=
  with_flags "install" install_usage install_flags args (λ values _, install_with values).
End install.

(** * What an installation touches *)

Section footprint.
Context `{TOML} `{Embedded} `{System}.

(** the machine without files *)
Definition bare : tree := Tree (FS ∅ (λ _, false) (λ _, None) (λ _, false)) ∅ (λ _, false) (λ _, None).
(** every configuration file a writer may put in place *)
Definition all_targets : list string := flat_map (λ x, targets x (host_at bare)) AllWriters.

(** a path, or something under it, or under a copy of it with a time stamp *)
Definition copies (p q : string) : Prop := within p q = true ∨ ∃ s, within (p +:+ ".bak." +:+ s) q = true.

Definition install_touches (q : string) : Prop :=
  (∃ p, p ∈ all_targets ∧ copies p q) ∨
  ∃ home, UserHomeDir = Ok home ∧
    (copies (skill_dir home) q ∨ copies (hook_path home) q ∨ ∃ src, SkillFS = Ok src ∧ q ∈ places src (skill_dir home)).

(** A new temporary file never has the name of a file that is there, of a
    configuration file or of a copy of one. *)
Definition fresh_names_law : Prop := ∀ t, fresh_names (host_at t) (t_fs t) all_targets.

Definition file_at (q : string) (w : world) : option file := files (t_fs (w_tree w)) !! q.

Lemma bak_other p t q : ¬ copies p q → files (t_fs (rename p (bak p t) t).2) !! q = files (t_fs t) !! q.
Proof.
  intros Hq. assert (Hp : within p q = false) by (apply not_true_iff_false; intros Hw; apply Hq; by left).
  assert (Hb : within (bak p t) q = false) by (apply not_true_iff_false; intros Hw; apply Hq; right; by exists (now_stamp t)).
  unfold rename. rewrite <-(rename_other p (bak p t) t q) by (done || by apply apart_suffix).
  by destruct (RenameAt p (bak p t) t) as [[[]|e] t1].
Qed.

Lemma all_targets_elem x p : p ∈ targets x (host_at bare) → p ∈ all_targets.
Proof.
  intros Hp. unfold all_targets. apply list_elem_of_In, in_flat_map. exists x. split; [|by apply list_elem_of_In].
  destruct x; cbn; tauto.
Qed.
Lemma targets_host x t : targets x (host_at t) = targets x (host_at bare).
Proof. by destruct x. Qed.

Lemma Write_other x spec dryRun t q : fresh_names_law → ¬ install_touches q →
  files (Write x spec dryRun (host_at t) (t_fs t)).2 !! q = files (t_fs t) !! q.
Proof.
  intros Hfresh Hq. assert (Hf : fresh_names (host_at t) (t_fs t) (targets x (host_at t))).
  { rewrite targets_host. intros p n Hp Hn. destruct (Hfresh t p n (all_targets_elem _ _ Hp) Hn) as [Hn1 Hn2]. split; [done|].
    intros p' Hp'. by apply Hn2, (all_targets_elem x). }
  destruct (Write_wrote x spec dryRun (host_at t) (t_fs t) Hf) as [_ _ _ _ Hsame]. apply Hsame. intros Hin. apply Hq. left.
  unfold footprint in Hin. apply list_elem_of_In, in_flat_map in Hin as (p & Hp & Hin). apply list_elem_of_In in Hp.
  rewrite targets_host in Hp. exists p. split; [by apply (all_targets_elem x)|].
  destruct Hin as [<-|[<-|[]]]; [left; apply within_self|right]. exists (now_stamp t). apply within_self.
Qed.

Section one_file.
Variable q : string.
Hypothesis Hfresh : fresh_names_law.
Hypothesis Hq : ¬ install_touches q.

#[local] Instance keeps_out s x : Keeps (file_at q) (fprintln s x).
Proof. done. Qed.

Lemma install_one_other ideFlag spec apply x : Keeps (file_at q) (install_one ideFlag spec apply x).
Proof.
  unfold install_one. apply keeps_bind; [apply _|]. intros found. apply keeps_if; [apply _|]. apply keeps_bind.
  - apply (keeps_on_tree (λ t, files (t_fs t) !! q)). intros t. pose proof (Write_other x spec (negb apply) t q Hfresh Hq) as Hw.
    by destruct (Write x spec (negb apply) (host_at t) (t_fs t)).
  - intros res. apply keeps_bind; [by destruct (result_line apply res)|done].
Qed.

Lemma install_all_other ideFlag spec apply l : Keeps (file_at q) (install_all ideFlag spec apply l).
Proof.
  induction l as [|x l IH]; [done|]. cbn [install_all]. apply keeps_bind; [apply install_one_other|]. intros r.
  apply keeps_bind; [exact IH|done].
Qed.

(** a sequence of changes of the files that all leave [q] alone *)
Definition leaves (m : ST tree (option goerror)) : Prop := ∀ t, files (t_fs (m t).2) !! q = files (t_fs t) !! q.
Lemma leaves_orelse m n : leaves m → leaves n → leaves (orelse m n).
Proof. intros Hm Hn t. unfold orelse. specialize (Hm t). destruct (m t) as [[e|] t1]; [done|]. cbn in Hm. by rewrite Hn. Qed.
Lemma leaves_wrapped pre m : leaves m → leaves (wrapped pre m).
Proof. intros Hm t. unfold wrapped. specialize (Hm t). by destruct (m t) as [[e|] t1]. Qed.
Lemma leaves_reported m line : leaves m → Keeps (file_at q) (reported m line).
Proof.
  intros Hm. unfold reported. apply keeps_bind; [by apply (keeps_on_tree (λ t, files (t_fs t) !! q))|].
  intros [e|]; [done|]. apply keeps_bind; done.
Qed.

Lemma copy_leaves src dst : q ∉ places src dst → leaves (CopyTree src dst).
Proof.
  induction src as [|x src IH]; intros Hin; [done|]. cbn [CopyTree].
  assert (Hpl : places (x :: src) dst = places [x] dst ++ places src dst) by (unfold places; cbn; by destruct x as [p [d|]]).
  rewrite Hpl in Hin. apply leaves_orelse; [intros t; apply copy_entry_other; set_solver|apply IH; set_solver].
Qed.

Lemma extras_other ideFlag apply : Keeps (file_at q) (install_extras ideFlag apply).
Proof.
  unfold install_extras. apply keeps_if; [done|]. apply keeps_bind.
  { unfold installSkill. destruct UserHomeDir as [home|e] eqn:Eh; [|done]. cbv zeta. destruct SkillFS as [src|e] eqn:Es; [|done].
    apply keeps_if; [by apply keeps_bind|]. apply leaves_reported, leaves_orelse; apply leaves_wrapped.
    - intros t. unfold backupTreeOnce. destruct (Stat _ t) as [d|[]]; [|done|done]. apply bak_other. intros Hc. apply Hq. right. exists home. auto.
    - apply copy_leaves. intros Hin. apply Hq. right. exists home. split; [done|]. right. right. by exists src. }
  intros e1. apply keeps_bind; [by destruct e1|]. intros []. apply keeps_bind.
  { unfold installHook. destruct UserHomeDir as [home|e] eqn:Eh; [|done]. cbv zeta.
    apply keeps_if; [by apply keeps_bind|].
    assert (Hnc : ¬ copies (hook_path home) q) by (intros Hc; apply Hq; right; exists home; auto).
    apply leaves_reported, leaves_orelse; [intros t; by rewrite make_dirs_files|]. apply leaves_orelse.
    - intros t. unfold backup_hook. destruct (is_ok _); [|done]. apply (leaves_wrapped _ (λ t, rename _ (bak _ t) t)). intros t'. by apply bak_other.
    - intros t. apply write_file_other. intros ->. apply Hnc. left. apply within_self. }
  intros e2. apply keeps_bind; [by destruct e2|done].
Qed.

Lemma RunInstall_other args : Keeps (file_at q) (RunInstall args).
Proof.
  unfold RunInstall. apply keeps_flags; [apply _|]. intros values _. unfold install_with. destruct (resolve_binary _); [|by apply keeps_bind].
  destruct (filterWriters _ _) as [|x l]; [by apply keeps_bind|]. cbv zeta.
  repeat (apply keeps_bind; [done || apply install_all_other || apply extras_other|intros ?]). done.
Qed.
End one_file.
End footprint.

(** * The promises of the command *)

Section promises.
Context `{TOML} `{Embedded} `{System}.

(** ** A dry run *)

#[local] Instance dry_write x spec : Keeps w_tree (on_files (Write x spec true)).
Proof.
  apply (keeps_on_tree id). intros t. pose proof (Write_dry x spec (host_at t) (t_fs t)) as Hw.
  destruct (Write x spec true (host_at t) (t_fs t)) as [r w]. cbn in *. subst w. by destruct t.
Qed.

Lemma install_all_dry ideFlag spec l : Keeps w_tree (install_all ideFlag spec false l).
Proof.
  induction l as [|x l IH]; [done|]. cbn [install_all]. apply keeps_bind; [|intros r; by apply keeps_bind; [exact IH|]].
  unfold install_one. apply keeps_bind; [apply _|]. intros found. apply keeps_if; [by apply keeps_bind|].
  apply keeps_bind; [apply dry_write|]. intros res. apply keeps_bind; [by destruct (result_line false res)|done].
Qed.

Lemma install_extras_dry ideFlag : Keeps w_tree (install_extras ideFlag false).
Proof.
  unfold install_extras. apply keeps_if; [done|]. apply keeps_bind; [|intros e1; apply keeps_bind; [by destruct e1|intros []]].
  - unfold installSkill. destruct UserHomeDir; [|done]. cbv zeta. destruct SkillFS; [by apply keeps_bind|done].
  - apply keeps_bind; [|intros e2; by apply keeps_bind; [destruct e2|]].
    unfold installHook. destruct UserHomeDir; [by apply keeps_bind|done].
Qed.

(** whether a command line asks for changes *)
Definition applies (args : list string) : bool :=
  match Parse install_flags [] args with
  | Flags values _ => switch values "apply" && negb (switch values "dry-run")
  | _ => false
  end.

Lemma install_dry args : applies args = false → Keeps w_tree (RunInstall args).
Proof.
  unfold applies, RunInstall, with_flags. destruct (Parse install_flags [] args) as [values rest| |]; [|intros _; apply _..].
  intros Ha. unfold install_with. rewrite Ha. destruct (resolve_binary _); [|by apply keeps_bind].
  destruct (filterWriters _ _) as [|x l]; [by apply keeps_bind|]. cbv zeta.
  repeat (apply keeps_bind; [done || apply install_all_dry || apply install_extras_dry|intros ?]). done.
Qed.

(** ** The exit code *)

Lemma line_of apply res : match result_line apply res with
  | Some line => fail_line (Stdout, line) = failed_one res
  | None => failed_one res = false
  end.
Proof.
  unfold result_line, failed_one. destruct (rs_Error res); [done|]. destruct (rs_Skipped res); [done|].
  destruct (rs_Updated res); [|done]. destruct (negb apply); [done|]. by destruct (negb (String.eqb (rs_Backup res) "")).
Qed.

Lemma tells_result (o : option string) (b : bool) :
  match o with Some line => fail_line (Stdout, line) = b | None => b = false end →
  Tells (match o with Some line => out line | None => skip end) (λ _ b', b' = b).
Proof. destruct o as [line|]; [intros <-; by apply tells_print|intros ->; by apply tells_ret]. Qed.

Definition failed_maybe (o : option Result) : bool := match o with Some r => failed_one r | None => false end.

Lemma install_one_tells ideFlag spec apply x : Tells (install_one ideFlag spec apply x) (λ r b, b = failed_maybe r).
Proof.
  unfold install_one. apply (tells_bind _ _ (λ _ b, b = false)); [by apply tells_look|]. intros found b1 ->. cbn [orb].
  destruct (String.eqb ideFlag "auto" && _); [apply tells_out; [done|by apply tells_ret]|].
  apply (tells_bind _ _ (λ _ b, b = false)); [by apply tells_on_tree|]. intros res b2 ->. cbn [orb].
  apply (tells_bind _ _ (λ _ b, b = failed_one res)).
  - apply tells_result. apply line_of.
  - intros [] b3 ->. apply tells_ret. by rewrite orb_false_r.
Qed.

Lemma install_all_tells ideFlag spec apply l : Tells (install_all ideFlag spec apply l) (λ rs b, b = existsb failed_one rs).
Proof.
  induction l as [|x l IH]; [by apply tells_ret|]. cbn [install_all].
  apply (tells_bind _ _ _ _ (install_one_tells ideFlag spec apply x)). intros r b1 ->.
  apply (tells_bind _ _ _ _ IH). intros rs b2 ->. apply tells_ret. rewrite orb_false_r. by destruct r.
Qed.

Lemma extras_tells ideFlag apply : Tells (install_extras ideFlag apply) (λ r b, b = r).
Proof.
  assert (Hrep : ∀ m line, fail_line (Stdout, line) = false → Tells (reported m line) (λ _ b, b = false)).
  { intros m line Hl. unfold reported. apply (tells_bind _ _ (λ _ b, b = false)); [by apply tells_on_tree|].
    intros [e|] b ->; [by apply tells_ret|]. apply tells_out; [done|by apply tells_ret]. }
  assert (Hend : ∀ (e : option goerror) pre, (∀ s, fail_line (Stdout, pre +:+ s) = true) →
    Tells (match e with Some e => out (pre +:+ e_text e) | None => skip end) (λ _ b, b = bool_decide (is_Some e))).
  { intros [e|] pre Hpre; [apply tells_print; by rewrite Hpre|by apply tells_ret]. }
  unfold install_extras. destruct (negb _); [by apply tells_ret|].
  apply (tells_bind _ _ (λ _ b, b = false)).
  { unfold installSkill. destruct UserHomeDir; [|by apply tells_ret]. cbv zeta. destruct SkillFS; [|by apply tells_ret].
    destruct (negb apply); [apply tells_out; [done|by apply tells_ret]|by apply Hrep]. }
  intros e1 b ->. cbn [orb]. apply (tells_bind _ _ _ _ (Hend e1 "  [FAIL]   skill            " (λ s, eq_refl))). intros [] b ->.
  apply (tells_bind _ _ (λ _ b, b = false)).
  { unfold installHook. destruct UserHomeDir; [|by apply tells_ret]. cbv zeta.
    destruct (negb apply); [apply tells_out; [done|by apply tells_ret]|by apply Hrep]. }
  intros e2 b ->. cbn [orb]. apply (tells_bind _ _ _ _ (Hend e2 "  [FAIL]   hook             " (λ s, eq_refl))). intros [] b ->.
  apply tells_ret. by rewrite orb_false_r.
Qed.

(** after the flags: 1 with a reported failure, 0 without *)
Lemma install_with_tells values : Tells (install_with values) (λ code b, code = if b then 1 else 0).
Proof.
  unfold install_with. destruct (resolve_binary _) as [exe|line].
  2: { apply (tells_bind _ _ (λ _ b, b = true)); [by apply tells_print|]. intros [] b ->. by apply tells_ret. }
  destruct (filterWriters _ _) as [|x l].
  { apply (tells_bind _ _ (λ _ b, b = true)); [by apply tells_print|]. intros [] b ->. by apply tells_ret. }
  cbv zeta. do 4 (apply tells_out; [done|]). set (apply := switch values "apply" && _).
  apply (tells_bind _ _ _ _ (install_all_tells _ _ apply (x :: l))). intros rs b ->.
  apply (tells_bind _ _ _ _ (extras_tells _ apply)). intros extras b ->.
  do 2 (apply tells_out; [done|]). apply tells_out; [by destruct (negb apply)|]. apply tells_ret. by rewrite orb_false_r.
Qed.

(** ** The summary *)

Definition counts (rs : list Result) : Z := count Written rs + count Planned rs + count UpToDate rs + count Failed rs.

Lemma count_cons k r rs : count k (r :: rs) = (if bool_decide (tally_of r = k) then 1 else 0) + count k rs.
Proof. unfold count. cbn [filterb]. destruct (bool_decide _); cbn [length]; lia. Qed.

Lemma counts_length rs : Forall (λ r, rs_Error r = None → rs_Updated r = negb (rs_Skipped r)) rs → counts rs = Z.of_nat (length rs).
Proof.
  unfold counts. induction 1 as [|r rs Hr _ IH]; [done|]. rewrite !count_cons. cbn [length].
  assert (Ht : tally_of r ≠ NoChange).
  { unfold tally_of. destruct (rs_Error r); [done|]. specialize (Hr eq_refl). rewrite Hr. destruct (rs_Skipped r); [done|]. by destruct (rs_DryRun r). }
  destruct (tally_of r); try done; repeat (rewrite bool_decide_true by done) || rewrite bool_decide_false by done; lia.
Qed.
End promises.

(** ** The whole command *)

Section theorem.
Context `{TOML} `{Embedded} `{System}.

Lemma install_all_counts ideFlag spec apply l w : fresh_names_law →
  let rs := eval (install_all ideFlag spec apply l) w in
  Forall (λ r, (rs_Error r = None → rs_Updated r = negb (rs_Skipped r)) ∧ rs_DryRun r = negb apply ∧ ∃ x, x ∈ l ∧ rs_IDE r = Name x) rs.
Proof.
  intros Hfresh. cbv zeta. revert w. induction l as [|x l IH]; intros w; [constructor|]. cbn [install_all].
  do 2 (rewrite eval_bind; cbv beta). specialize (IH (exec (install_one ideFlag spec apply x) w)).
  assert (Hl : ∀ rs : list Result, Forall (λ r, (rs_Error r = None → rs_Updated r = negb (rs_Skipped r)) ∧ rs_DryRun r = negb apply ∧
    ∃ x0, x0 ∈ l ∧ rs_IDE r = Name x0) rs → Forall (λ r, (rs_Error r = None → rs_Updated r = negb (rs_Skipped r)) ∧ rs_DryRun r = negb apply ∧
    ∃ x0, x0 ∈ x :: l ∧ rs_IDE r = Name x0) rs).
  { intros rs Hrs. eapply Forall_impl; [exact Hrs|]. intros r (H2 & H3 & y & Hy & H4). split_and!; [done|done|]. exists y. split; [by right|done]. }
  assert (Hone : match eval (install_one ideFlag spec apply x) w with
    | Some r => (rs_Error r = None → rs_Updated r = negb (rs_Skipped r)) ∧ rs_DryRun r = negb apply ∧ rs_IDE r = Name x
    | None => True end).
  { unfold install_one. rewrite eval_bind. cbv beta. destruct (_ && _); [done|]. do 2 (rewrite eval_bind; cbv beta). unfold on_files at 1. rewrite eval_on_tree.
    set (t := w_tree _). assert (Hf : fresh_names (host_at t) (t_fs t) (targets x (host_at t))).
    { rewrite targets_host. intros p n Hp Hn. destruct (Hfresh t p n (all_targets_elem _ _ Hp) Hn) as [Hn1 Hn2]. split; [done|].
      intros p' Hp'. by apply Hn2, (all_targets_elem x). }
    destruct (Write_wrote x spec (negb apply) (host_at t) (t_fs t) Hf) as [W1 W2 W3 _ _].
    by destruct (Write x spec (negb apply) (host_at t) (t_fs t)) as [r w1]. }
  destruct (eval (install_one ideFlag spec apply x) w) as [r|]; [|by apply Hl]. constructor; [|by apply Hl].
  destruct Hone as (H2 & H3 & H4). split_and!; [done|done|]. exists x. split; [by left|done].
Qed.

(** C23: Without --apply, or with --dry-run, an installation changes no file. With it
    no file is touched but the IDE configurations, the skill and the hook, and
    copies of these beside them; no command is run and no service called. The
    command returns 1 exactly when it printed a [FAIL] line or an error, and the
    four numbers of its summary add up to the IDEs it handled, none of them written
    in a dry run. *)
Theorem install_safe (Hfresh : fresh_names_law) (args : list string) (w : world) :
  let r := RunInstall args w in
  (applies args = false → w_tree r.2 = w_tree w) ∧
  (∀ q, ¬ install_touches q → files (t_fs (w_tree r.2)) !! q = files (t_fs (w_tree w)) !! q) ∧
  (∀ values rest, Parse install_flags [] args = Flags values rest →
     ∃ l, w_log r.2 = w_log w ++ l ∧ r.1 = if existsb fail_line l then 1 else 0) ∧
  (∀ ideFlag spec apply l w', let rs := eval (install_all ideFlag spec apply l) w' in
     counts rs = Z.of_nat (length rs) ∧ (apply = false → count Written rs = 0)).
Proof.
  cbv zeta. split_and!.
  - intros Ha. apply (install_dry args Ha w).
  - intros q Hq. apply (RunInstall_other q Hfresh Hq args w).
  - intros values rest Hp. unfold RunInstall, with_flags. rewrite Hp. destruct (install_with_tells values w) as (l & Hl & Hc). by exists l.
  - intros ideFlag spec apply l w'. pose proof (install_all_counts ideFlag spec apply l w' Hfresh) as Hall. cbv zeta in Hall. split.
    + apply counts_length. eapply Forall_impl; [exact Hall|]. by intros r [Hr _].
    + intros ->. induction Hall as [|r rs (_ & Hd & _) _ IH]; [done|]. rewrite count_cons, IH.
      rewrite bool_decide_false; [done|]. unfold tally_of. rewrite Hd. cbn [negb]. rewrite andb_true_r.
      destruct (rs_Error r); [done|]. destruct (rs_Skipped r); [done|]. by destruct (rs_Updated r).
Qed.
End theorem.

Definition sample_assets : Embedded := {| skill_md := "# skill"; protocol_md := "# protocol"; inbox_hook_sh := "#!/bin/sh" |}.

Lemma sample_fresh : @fresh_names_law sample_system.
Proof.
  intros t p n Hp [= <-]. pose proof (infinite_is_fresh (taken t)) as Hf. set (x := fresh (taken t)) in *. clearbody x.
  assert (Ht : @all_targets sample_system = sample_targets) by (vm_compute; reflexivity). rewrite Ht.
  unfold taken in Hf. rewrite elem_of_app in Hf. split.
  - destruct (files (t_fs t) !! x) eqn:E; [|done]. exfalso. apply Hf. left. apply file_names_elem. by eexists.
  - intros q Hq. split; intros ->; apply Hf; right; apply list_elem_of_In, in_flat_map; exists q; (split; [by apply list_elem_of_In|]); cbn; auto.
Qed.

Lemma copies_prefix p q : copies p q → has_prefix p q = true.
Proof. intros [(r & -> & _)%within_spec|[s (r & -> & _)%within_spec]]; rewrite <-?sapp_assoc; apply has_prefix_app. Qed.

Definition sample_tree : tree :=
  Tree (FS {[ "/h/.cursor/mcp.json" := File 420 (bq "{ // mine
 `theme`: `dark`, }"); "/h/notes.txt" := File 420 "keep" ]} (λ _, false) (λ _, None) (λ _, false)) ∅ (λ _, false) (λ _, None).

Lemma install_safe_witness :
  let r := @RunInstall json_toml sample_assets sample_system ["--apply"] (World sample_tree [] [] []) in
  files (t_fs (w_tree r.2)) !! "/h/notes.txt" = Some (File 420 "keep").
Proof.
  cbv zeta. destruct (@install_safe json_toml sample_assets sample_system sample_fresh ["--apply"] (World sample_tree [] [] [])) as (_ & Ho & _).
  rewrite Ho; [by vm_compute|]. intros [(p & Hp & Hc%copies_prefix)|(home & Hh & Hc)].
  - assert (Ht : @all_targets sample_system = sample_targets) by (vm_compute; reflexivity). rewrite Ht in Hp.
    repeat (apply elem_of_cons in Hp as [->|Hp]; [by vm_compute in Hc|]). by apply elem_of_nil in Hp.
  - injection Hh as <-. destruct Hc as [Hc%copies_prefix|[Hc%copies_prefix|(src & Hs & Hc)]]; [by vm_compute in Hc|by vm_compute in Hc|].
    injection Hs as <-. change (places _ _) with ["/h/.claude/skills/a2a-bridge/SKILL.md"; "/h/.claude/skills/a2a-bridge/references/protocol.md"] in Hc.
    repeat (apply elem_of_cons in Hc as [Hc|Hc]; [done|]). by apply elem_of_nil in Hc.
Defined.
