(* ===== verification/Cert.v ===== *)
(** Certificates for federation: [GenerateEd25519Cert] of [internal/security/tls.go]
    and the command cert ([internal/cli/cert.go]). *)
From Stdlib Require Import Ascii.
From stdpp Require Import base list strings gmap sets.
From S2P Require Import Prelude GoStrings Json A2A GoTime GoFS GoTree GoExec GoPath GoFlag GoFmt Console Assets.

Open Scope string_scope.
Open Scope Z_scope.
Open Scope list_scope.

(** * Key pairs *)

(** What a certificate is made from: times relative to now, the second in years,
    months and days. *)
Record template := Template {
  ct_CommonName : string; ct_Organization : list string;
  ct_NotBefore : Z; ct_NotAfter : Z * Z * Z;
  ct_DigitalSignature : bool; ct_ServerAuth : bool; ct_ClientAuth : bool;
  ct_BasicConstraintsValid : bool; ct_IsCA : bool;
  ct_DNSNames : list string; ct_IPAddresses : list string }.

(** Packages [crypto/ed25519], [crypto/x509] and [encoding/pem] with the random
    source: every step may fail. [key_of] and [serial_of] are what a draw at a state
    of the files gives. *)
Class Crypto := {
  keys : Type;
  GenerateKey : tree → result goerror keys;
  random_serial : tree → result goerror Z;
  CreateCertificate : Z → template → keys → result goerror string;
  MarshalPKCS8PrivateKey : keys → result goerror string;
  EncodeToMemory : string → string → string }.

Section cert.
Context `{Crypto} `{System}.

(* src/internal/security/tls.go:211-225 (GenerateEd25519Cert) *)
Definition cert_template (commonName : string) : template :=
  Template commonName ["a2abridge"] (- (60 * minute)) (10, 0, 0) true true true true false
    [commonName; "localhost"] ["127.0.0.1"; "::1"].

(** the encoded certificate and the keys it was made with *)
(* src/internal/security/tls.go:199-229 (GenerateEd25519Cert) *)
Definition new_certificate (commonName : string) (t : tree) : result goerror (string * keys) :=
  match GenerateKey t with
  | Err e => Err (wrapf "ed25519 gen: " e)
  | Ok priv =>
      match random_serial t with
      | Err e => Err (wrapf "serial gen: " e)
      | Ok serial =>
          match CreateCertificate serial (cert_template commonName) priv with
          | Err e => Err (wrapf "sign: " e)
          | Ok der => Ok (der, priv)
          end
      end
  end.

(** the paths of the two files *)
(* src/internal/security/tls.go (GenerateEd25519Cert) *)
Definition GenerateEd25519Cert (dir commonName : string) : ST tree (result goerror (string * string)) := λ t,
  match make_dirs dir t with
  | (Some e, t) => (Err e, t)
  | (None, t) =>
      match new_certificate commonName t with
      | Err e => (Err e, t)
      | Ok (der, priv) =>
          let certPath := Join [dir; "cert.pem"] in
          let keyPath := Join [dir; "key.pem"] in
          match write_file certPath (EncodeToMemory "CERTIFICATE" der) 420 t with
          | (Some e, t) => (Err e, t)
          | (None, t) =>
              match MarshalPKCS8PrivateKey priv with
              | Err e => (Err e, t)
              | Ok keyDER =>
                  match write_file keyPath (EncodeToMemory "PRIVATE KEY" keyDER) 384 t with
                  | (Some e, t) => (Err e, t)
                  | (None, t) => (Ok (certPath, keyPath), t)
                  end
              end
          end
      end
  end.

(** * The command *)

(* src/internal/cli/cert.go (printCertUsage) *)
Definition printCertUsage (s : stream) : IOW unit :=
  print_lines s ["Usage: a2abridge cert <action> [flags]"; ""; "Actions:";
    "  generate   Create an ed25519 self-signed cert + key for federation"].

(** the name given, or that of the host *)
(* src/internal/cli/cert.go:63-71 (certGenerate) *)
Definition common_name (cn : string) : string :=
  if negb (String.eqb cn "") then cn else match Hostname with Ok host => host | Err _ => "a2abridge-peer" end.

Definition tls_dir (home : string) : string := Join [home; ".a2abridge"; "tls"].

(* src/internal/cli/cert.go:53-54 (certGenerate) *)
Definition cert_flags : flag_decls := [("cn", false); ("dir", false)].

(* src/internal/cli/cert.go:83-95 (certGenerate) *)
Definition generate_into (dir cn : string) : IOW Z :=
  r ← on_tree (GenerateEd25519Cert dir cn);
  match r with
  | Err e => _ ← err ("cert generate: " +:+ e_text e); mret 1
  | Ok (certPath, keyPath) =>
      _ ← print_lines Stdout ["generated ed25519 cert + key for " +:+ Quote cn; "  cert: " +:+ certPath; "  key:  " +:+ keyPath; "";
        "Wire it into your bridge by setting in ~/.claude/settings.json mcpServers.a2a.env:";
        "  A2A_TLS_CERT=" +:+ certPath; "  A2A_TLS_KEY=" +:+ keyPath;
        "  A2A_TRUST_ROOTS=" +:+ certPath +:+ "   # add peer certs as a colon-separated list"];
      mret 0
  end.

(* src/internal/cli/cert.go (certGenerate) *)
Definition certGenerate (args : list string) : IOW Z :=
  with_flags "cert generate" (default_usage "cert generate") cert_flags args (λ values _,
    let cn := common_name (flag values "cn" "") in
    let out := flag values "dir" "" in
    if negb (String.eqb out "") then generate_into out cn else
    match UserHomeDir with
    | Err e => _ ← err ("cert generate: home dir: " +:+ e_text e); mret 1
    | Ok home => generate_into (tls_dir home) cn
    end).

(* src/internal/cli/cert.go (RunCert) *)
Definition RunCert (args : list string) : IOW Z :=
  match args with
  | [] => _ ← printCertUsage Stderr; mret 2
  | action :: rest =>
      if String.eqb action "-h" || String.eqb action "--help" then _ ← printCertUsage Stdout; mret 0
      else if String.eqb action "generate" then certGenerate rest
      else _ ← err ("a2abridge cert: unknown action " +:+ Quote action); _ ← err ""; _ ← printCertUsage Stderr; mret 2
  end.
End cert.

(** * A certificate and its key *)

Section pair.
Context `{Crypto} `{System}.


End pair.

(** ** What does not hold *)

Definition sample_crypto : Crypto := {|
  keys := unit; GenerateKey _ := Ok tt; random_serial _ := Ok 7; CreateCertificate _ _ _ := Ok "der";
  MarshalPKCS8PrivateKey _ := Ok "pkcs8"; EncodeToMemory kind x := kind +:+ ":" +:+ x |}.

Definition old_pair (fault : string → option string) : tree :=
  Tree (FS {[ "/d/cert.pem" := File 420 "old cert"; "/d/key.pem" := File 420 "old key" ]} (λ _, false) fault (λ _, false)) ∅ (λ _, false) (λ _, None).

(** A key file that is there keeps its mode: a new key is as readable as the old
    one was. *)
Lemma key_keeps_mode :
  files (t_fs (@GenerateEd25519Cert sample_crypto sample_system "/d" "peer" (old_pair (λ _, None))).2) !! "/d/key.pem" =
    Some (File 420 "PRIVATE KEY:pkcs8").
Proof. vm_compute. reflexivity. Qed.

(** When the key cannot be written the certificate is already replaced, and no
    longer fits the key. *)
Lemma cert_without_key :
  let fault p := if String.eqb p "/d/key.pem" then Some "" else None in
  let r := @GenerateEd25519Cert sample_crypto sample_system "/d" "peer" (old_pair fault) in
  is_ok r.1 = false ∧ files (t_fs r.2) !! "/d/cert.pem" = Some (File 420 "CERTIFICATE:der") ∧
  files (t_fs r.2) !! "/d/key.pem" = Some (File 420 "").
Proof. vm_compute. done. Qed.
