(* ===== verification/Service.v ===== *)
(** The directory daemon ([internal/cli/directory.go]) and its service
    ([internal/cli/service.go]). *)
From Stdlib Require Import Ascii.
From stdpp Require Import base list strings gmap sets.
From S2P Require Import BuildInfo Bridge.
From S2P Require Import Prelude GoStrings GoTime Json GoUrl A2A GoFS GoTree GoExec GoFlag GoFmt Console Assets Cert.

Open Scope string_scope.
Open Scope Z_scope.
Open Scope list_scope.

(** * The daemon *)

(** What ends the wait: the context, or the listener, with its error if it is not
    the one of a closed server. *)
Inductive daemon_event := CtxDone | Listener (e : option goerror).
(** what the daemon does, in order *)
Inductive daemon_step := ListenAndServe (addr : string) | LogListen (e : goerror) | Shutdown (timeout : Z).

(* src/internal/cli/directory.go (serveDirectory) *)
Definition serveDirectory (ev : daemon_event) (addr : string) : Z * list daemon_step :=
  let shutdown := (0, [ListenAndServe addr; Shutdown (3 * second)]) in
  match ev with
  | CtxDone => shutdown
  | Listener (Some e) => (1, [ListenAndServe addr; LogListen e])
  | Listener None => shutdown
  end.

(** ** The service wrapper *)

(* src/internal/cli/service.go (serviceStopTimeout) *)
Definition serviceStopTimeout : Z := 5 * second.

(** [ds_running]: Start was called, so there is a function that cancels and a
    channel that closes at the end *)
(* src/internal/cli/service.go (directoryService) *)
Record directoryService := DirectoryService { ds_addr : string; ds_running : bool; ds_cancelled : bool }.

(* src/internal/cli/service.go (directoryService.Start) *)
Definition service_Start (s : directoryService) : option goerror * directoryService :=
  (None, DirectoryService (ds_addr s) true false).

(** [drain]: how long the daemon takes to end after it was cancelled, [None] for
    never; [tie]: what the select takes when both are ready *)
(* src/internal/cli/service.go (directoryService.Stop) *)
Definition service_Stop (drain : option Z) (tie : bool) (s : directoryService) : option goerror * directoryService :=
  let s' := DirectoryService (ds_addr s) (ds_running s) (ds_running s || ds_cancelled s) in
  if negb (ds_running s) then (None, s') else
  let in_time := match drain with
    | Some d => (d <? serviceStopTimeout) || ((d =? serviceStopTimeout) && tie)
    | None => false
    end in
  (if in_time then None else Some (errors_new "directory did not shut down within 5s"), s').

(** * The unit *)

(* src/internal/cli/service.go (defaultDirectoryAddr) *)
Definition defaultDirectoryAddr : string := "127.0.0.1:7777".
(* src/internal/cli/service.go (serviceName) *)
Definition serviceName : string := "a2abridge-directory".
(* src/internal/cli/service.go (serviceDisplay) *)
Definition serviceDisplay : string := "a2abridge directory".
(* src/internal/cli/service.go (serviceDescription) *)
Definition serviceDescription : string := "Local A2A 1.0 discovery service for AI coding agents.".

Section service.
Context `{Crypto} `{System}.

(* src/internal/cli/directory.go (RunDirectory) *)
Definition RunDirectory (ev : daemon_event) (args : list string) : IOW (Z * list daemon_step) := λ w,
  let usage := ["Usage: a2abridge directory [flags]"; ""; "Run the local discovery service that bridges register with."] ++ PrintDefaults "directory" in
  let addr values := flag values "addr" (envOr Getenv "A2A_DIRECTORY_ADDR" "127.0.0.1:7777") in
  match Parse [("addr", false)] [] args with
  | Flags values _ => (serveDirectory ev (addr values), w)
  | _ => let '(code, w) := with_flags "directory" usage [("addr", false)] args (λ _ _, mret 0) w in ((code, []), w)
  end.

(* src/internal/cli/service.go (platformOptions) *)
Definition platformOptions : list (string * (bool + string)) :=
  if String.eqb goos "darwin" then [("UserService", inl true); ("RunAtLoad", inl true); ("KeepAlive", inl true)]
  else if String.eqb goos "linux" then [("UserService", inl true); ("Restart", inr "on-failure"); ("LogOutput", inl true)]
  else if String.eqb goos "windows" then [("DelayedAutoStart", inl true); ("StartType", inr "automatic")]
  else [].

(** the unit for an address; the executable is the program with links resolved *)
(* src/internal/cli/service.go (buildService) *)
Definition buildService (addr : string) : IOW (result goerror service_config) :=
  match Executable with
  | Err e => mret (Err (wrapf "locate own executable: " e))
  | Ok exe =>
      let exe := match EvalSymlinks exe with Ok resolved => resolved | Err _ => exe end in
      let cfg := ServiceConfig serviceName serviceDisplay serviceDescription exe ["service"; "run"; "--addr"; addr] platformOptions in
      e ← service cfg SvcNew;
      match e with
      | Some e => mret (Err (wrapf "build service: " e))
      | None => _ ← service cfg SvcLogger; mret (Ok cfg)
      end
  end.

(* src/internal/cli/service.go (statusString) *)
Definition statusString (s : service_status) : string :=
  match s with StatusRunning => "running" | StatusStopped => "stopped" | StatusUnknown => "unknown" end.

(* src/internal/cli/service.go (supervisorName) *)
Definition supervisorName : string :=
  if String.eqb goos "darwin" then "launchd (user)"
  else if String.eqb goos "linux" then "systemd --user"
  else if String.eqb goos "windows" then "Windows Service Manager"
  else goos.

(* src/internal/cli/service.go (executablePath) *)
Definition executablePath : string := match Executable with Ok exe => exe | Err _ => "" end.

(* src/internal/cli/service.go (isAlreadyInstalled) *)
Definition isAlreadyInstalled (e : option goerror) : bool :=
  match e with
  | None => false
  | Some e =>
      let msg := ToLower (e_text e) in
      contains_str "already exists" msg || contains_str "already installed" msg || contains_str "init already exists" msg
  end.

(* src/internal/cli/service.go (provisionFederation) *)
Definition provisionFederation (cn : string) : IOW (option goerror) :=
  let cn := common_name cn in
  match UserHomeDir with
  | Err e => mret (Some (wrapf "home dir: " e))
  | Ok home =>
      r ← on_tree (GenerateEd25519Cert (tls_dir home) cn);
      match r with
      | Err e => mret (Some (wrapf "generate cert: " e))
      | Ok (cert, key) =>
          _ ← print_lines Stdout ["federation cert generated for " +:+ Quote cn; "  cert: " +:+ cert; "  key:  " +:+ key; "";
            "Add to your IDE's mcpServers.a2a.env so bridges pick up TLS:";
            "  A2A_TLS_CERT=" +:+ cert; "  A2A_TLS_KEY=" +:+ key;
            "  A2A_TRUST_ROOTS=" +:+ cert +:+ "   # extend with peer certs (':' separated)";
            "  A2A_PEER_ALLOW=" +:+ cn +:+ "    # optional CN/SAN allow-list"; ""];
          mret None
      end
  end.

(* src/internal/cli/service.go:200-204 (svcInstall) *)
Definition service_install_flags : flag_decls := [("addr", false); ("federation", true); ("cn", false)].

(** [None]: the unit is there *)
(* src/internal/cli/service.go:225-240 (svcInstall) *)
Definition install_unit (cfg : service_config) : IOW (option string) :=
  e ← service cfg SvcInstall;
  match e with
  | None => mret None
  | Some e =>
      if isAlreadyInstalled (Some e) then
        _ ← out "service already installed; reinstalling";
        _ ← service cfg SvcStop;
        _ ← service cfg SvcUninstall;
        e ← service cfg SvcInstall;
        match e with
        | Some e => mret (Some ("reinstall failed: " +:+ e_text e))
        | None => mret None
        end
      else mret (Some ("install failed: " +:+ e_text e))
  end.

(* src/internal/cli/service.go:219-250 (svcInstall) *)
Definition install_service (addr : string) : IOW Z :=
  svc ← buildService addr;
  match svc with
  | Err e => _ ← err ("a2abridge service install: " +:+ e_text e); mret 1
  | Ok cfg =>
      failed ← install_unit cfg;
      match failed with
      | Some line => _ ← err line; mret 1
      | None =>
          e ← service cfg SvcStart;
          match e with
          | Some e => _ ← err ("start failed: " +:+ e_text e); mret 1
          | None =>
              _ ← out ("service " +:+ Quote serviceName +:+ " installed and started on " +:+ addr +:+ " (" +:+ supervisorName +:+ ", user-level)");
              _ ← when (String.eqb goos "linux") (out "Tip: enable auto-start at boot with: sudo loginctl enable-linger $USER");
              mret 0
          end
      end
  end.

(* src/internal/cli/service.go (svcInstall) *)
Definition svcInstall (args : list string) : IOW Z :=
  with_flags "service install" (default_usage "service install") service_install_flags args (λ values _,
    let addr := flag values "addr" defaultDirectoryAddr in
    if switch values "federation" then
      e ← provisionFederation (flag values "cn" "");
      match e with
      | Some e => _ ← err ("a2abridge service install --federation: " +:+ e_text e); mret 1
      | None => install_service addr
      end
    else install_service addr).

(* src/internal/cli/service.go (svcAction) *)
Definition svcAction (action : string) (args : list string) : IOW Z :=
  match args with
  | _ :: _ => _ ← err ("a2abridge service " +:+ action +:+ ": unexpected arguments: " +:+ join " " args); mret 2
  | [] =>
      svc ← buildService defaultDirectoryAddr;
      match svc with
      | Err e => _ ← err ("a2abridge service " +:+ action +:+ ": " +:+ e_text e); mret 1
      | Ok cfg =>
          e ← service cfg (SvcControl action);
          match e with
          | Some e => _ ← err (action +:+ " failed: " +:+ e_text e); mret 1
          | None => _ ← out (action +:+ " ok"); mret 0
          end
      end
  end.

(* src/internal/cli/service.go (svcStatus) *)
Definition svcStatus (args : list string) : IOW Z :=
  match args with
  | _ :: _ => _ ← err ("a2abridge service status: unexpected arguments: " +:+ join " " args); mret 2
  | [] =>
      svc ← buildService defaultDirectoryAddr;
      match svc with
      | Err e => _ ← err ("a2abridge service status: " +:+ e_text e); mret 1
      | Ok cfg =>
          st ← service_Status cfg;
          match st with
          | (_, Some e) => _ ← err ("status: " +:+ e_text e); mret 1
          | (st, None) =>
              _ ← print_lines Stdout ["service: " +:+ serviceName; "supervisor: " +:+ supervisorName; "status: " +:+ statusString st;
                "binary: " +:+ executablePath; "version: " +:+ BuildInfo.Version build_info];
              mret 0
          end
      end
  end.

(** The log line of a failed run is left out. *)
(* src/internal/cli/service.go (svcRun) *)
Definition svcRun (args : list string) : IOW Z :=
  with_flags "service run" (default_usage "service run") [("addr", false)] args (λ values _,
    svc ← buildService (flag values "addr" defaultDirectoryAddr);
    match svc with
    | Err e => _ ← err ("service run: " +:+ e_text e); mret 1
    | Ok cfg =>
        e ← service cfg SvcRun;
        mret (match e with Some _ => 1 | None => 0 end)
    end).

(* src/internal/cli/service.go (printServiceUsage) *)
Definition printServiceUsage (s : stream) : IOW unit :=
  print_lines s ["Usage: a2abridge service <action> [flags]"; ""; "Actions:";
    "  install     Register the directory daemon with the OS supervisor and start it";
    "  uninstall   Unregister the daemon (alias: remove)";
    "  start       Start the daemon";
    "  stop        Stop the daemon";
    "  restart     Restart the daemon";
    "  status      Print supervisor-reported status"; "";
    "Supervisor: launchd on macOS, systemd-user on Linux/WSL2, Windows Service Manager on Windows."].

(* src/internal/cli/service.go (RunService) *)
Definition RunService (args : list string) : IOW Z :=
  match args with
  | [] => _ ← printServiceUsage Stderr; mret 2
  | action :: rest =>
      if String.eqb action "-h" || String.eqb action "--help" then _ ← printServiceUsage Stdout; mret 0
      else if String.eqb action "install" then svcInstall rest
      else if String.eqb action "uninstall" || String.eqb action "remove" then svcAction "uninstall" rest
      else if String.eqb action "start" then svcAction "start" rest
      else if String.eqb action "stop" then svcAction "stop" rest
      else if String.eqb action "restart" then svcAction "restart" rest
      else if String.eqb action "status" then svcStatus rest
      else if String.eqb action "run" then svcRun rest
      else _ ← err ("a2abridge service: unknown action " +:+ Quote action); _ ← err ""; _ ← printServiceUsage Stderr; mret 2
  end.
End service.

(** * Installing the unit *)

Section install_facts.
Context `{Crypto} `{System}.

(** the unit of an address, built from nothing but the executable and the platform *)
Definition unit_for (exe addr : string) : service_config :=
  ServiceConfig serviceName serviceDisplay serviceDescription
    (match EvalSymlinks exe with Ok resolved => resolved | Err _ => exe end) ["service"; "run"; "--addr"; addr] platformOptions.

(** [calls] were made from [w] on, all about the unit [cfg]. *)
Definition calls_to (cfg : service_config) (ops : list service_op) (w w' : world) : Prop :=
  w_svc w' = w_svc w ++ map (B:=service_call) (λ op, (cfg, op)) ops.

(** the system's answer to [op] after [ops] *)
Definition answer (h : list service_call) (cfg : service_config) (ops : list service_op) (op : service_op) : option goerror :=
  service_answer (h ++ map (B:=service_call) (λ op, (cfg, op)) ops) (cfg, op).

(** Every way an installation can go: the operations asked for, in order, and the
    exit code. *)
Inductive install_run (h : list service_call) (cfg : service_config) : list service_op → Z → Prop :=
| run_no_unit e : answer h cfg [] SvcNew = Some e → install_run h cfg [SvcNew] 1
| run_refused e : answer h cfg [] SvcNew = None →
    answer h cfg [SvcNew; SvcLogger] SvcInstall = Some e → isAlreadyInstalled (Some e) = false →
    install_run h cfg [SvcNew; SvcLogger; SvcInstall] 1
| run_installed code : answer h cfg [] SvcNew = None →
    answer h cfg [SvcNew; SvcLogger] SvcInstall = None →
    code = (match answer h cfg [SvcNew; SvcLogger; SvcInstall] SvcStart with Some _ => 1 | None => 0 end) →
    install_run h cfg [SvcNew; SvcLogger; SvcInstall; SvcStart] code
| run_not_replaced e e' : answer h cfg [] SvcNew = None →
    answer h cfg [SvcNew; SvcLogger] SvcInstall = Some e → isAlreadyInstalled (Some e) = true →
    answer h cfg [SvcNew; SvcLogger; SvcInstall; SvcStop; SvcUninstall] SvcInstall = Some e' →
    install_run h cfg [SvcNew; SvcLogger; SvcInstall; SvcStop; SvcUninstall; SvcInstall] 1
| run_replaced e code : answer h cfg [] SvcNew = None →
    answer h cfg [SvcNew; SvcLogger] SvcInstall = Some e → isAlreadyInstalled (Some e) = true →
    answer h cfg [SvcNew; SvcLogger; SvcInstall; SvcStop; SvcUninstall] SvcInstall = None →
    code = (match answer h cfg [SvcNew; SvcLogger; SvcInstall; SvcStop; SvcUninstall; SvcInstall] SvcStart with Some _ => 1 | None => 0 end) →
    install_run h cfg [SvcNew; SvcLogger; SvcInstall; SvcStop; SvcUninstall; SvcInstall; SvcStart] code.

(** the next answer of the service manager, as one given after [ops] *)
Ltac ask h0 cfg ops op :=
  rewrite <-?(assoc_L app);
  match goal with |- context [match service_answer ?h (cfg, op) with _ => _ end] =>
    replace (service_answer h (cfg, op)) with (answer h0 cfg ops op) by (unfold answer; cbn [map]; by rewrite ?app_nil_r)
  end;
  let Ha := fresh "Ha" in destruct (answer h0 cfg ops op) as [?|] eqn:Ha.

Lemma install_service_run exe addr w : Executable = Ok exe →
  let r := install_service addr w in
  ∃ ops, calls_to (unit_for exe addr) ops w r.2 ∧ install_run (w_svc w) (unit_for exe addr) ops r.1.
Proof.
  intros He. cbv zeta. unfold install_service, buildService. rewrite He. cbv zeta. fold (unit_for exe addr).
  set (cfg := unit_for exe addr).
  unfold install_unit, mbind, ST_bind, service, out, err, fprintln, modify, when, skip.
  cbn -[isAlreadyInstalled]. ask (w_svc w) cfg (@nil service_op) SvcNew; cbn -[isAlreadyInstalled].
  { exists [SvcNew]. split; [done|by eapply run_no_unit]. }
  ask (w_svc w) cfg [SvcNew; SvcLogger] SvcInstall; cbn -[isAlreadyInstalled].
  - match goal with |- context [isAlreadyInstalled ?e] => destruct (isAlreadyInstalled e) eqn:Ei end; cbn -[isAlreadyInstalled].
    + ask (w_svc w) cfg [SvcNew; SvcLogger; SvcInstall; SvcStop; SvcUninstall] SvcInstall; cbn -[isAlreadyInstalled].
      * exists [SvcNew; SvcLogger; SvcInstall; SvcStop; SvcUninstall; SvcInstall]. split; [by unfold calls_to; cbn; rewrite <-?(assoc_L app)|by eapply run_not_replaced].
      * ask (w_svc w) cfg [SvcNew; SvcLogger; SvcInstall; SvcStop; SvcUninstall; SvcInstall] SvcStart; [|destruct (String.eqb goos "linux")];
          exists [SvcNew; SvcLogger; SvcInstall; SvcStop; SvcUninstall; SvcInstall; SvcStart];
          (split; [by unfold calls_to; cbn; rewrite <-?(assoc_L app)|eapply run_replaced; try done; by rewrite Ha2]).
    + exists [SvcNew; SvcLogger; SvcInstall]. split; [by unfold calls_to; cbn; rewrite <-?(assoc_L app)|by eapply run_refused].
  - ask (w_svc w) cfg [SvcNew; SvcLogger; SvcInstall] SvcStart; [|destruct (String.eqb goos "linux")];
      exists [SvcNew; SvcLogger; SvcInstall; SvcStart];
      (split; [by unfold calls_to; cbn; rewrite <-?(assoc_L app)|eapply run_installed; try done; by rewrite Ha1]).
Qed.

Lemma provision_quiet cn : Keeps w_svc (provisionFederation cn).
Proof.
  unfold provisionFederation. destruct UserHomeDir; [|done]. apply keeps_bind; [apply _|]. intros [[cert key]|e]; [|done].
  apply keeps_bind; [apply _|done].
Qed.

(** the command went through one of the orders of operations with this unit, and
    succeeded only if the last installation and the start did *)
Definition installs (cfg : service_config) (w : world) (r : Z * world) : Prop :=
  ∃ ops, calls_to cfg ops w r.2 ∧ install_run (w_svc w) cfg ops r.1 ∧
    (r.1 = 0 → ∃ pre, ops = pre ++ [SvcInstall; SvcStart] ∧ answer (w_svc w) cfg pre SvcInstall = None ∧
       answer (w_svc w) cfg (pre ++ [SvcInstall]) SvcStart = None).

Lemma install_service_installs addr exe w : Executable = Ok exe → installs (unit_for exe addr) w (install_service addr w).
Proof.
  intros Hexe. destruct (install_service_run exe addr w Hexe) as (ops & Ho & Hr). exists ops. split_and!; [done|done|]. intros Hc.
  destruct Hr as [?|?|? E0 E1 Hcode|?|? ? E0 E1 Ei E2 Hcode]; try congruence; rewrite Hc in Hcode.
  - exists [SvcNew; SvcLogger]. cbn [app]. by destruct (answer _ _ [SvcNew; SvcLogger; SvcInstall] SvcStart).
  - exists [SvcNew; SvcLogger; SvcInstall; SvcStop; SvcUninstall]. cbn [app]. by destruct (answer _ _ [_; _; _; _; _; _] SvcStart).
Qed.

Lemma svcInstall_cases args values rest w : Parse service_install_flags [] args = Flags values rest →
  svcInstall args w =
    if switch values "federation" then
      match eval (provisionFederation (flag values "cn" "")) w with
      | Some e => (1, (svcInstall args w).2)
      | None => install_service (flag values "addr" defaultDirectoryAddr) (exec (provisionFederation (flag values "cn" "")) w)
      end
    else install_service (flag values "addr" defaultDirectoryAddr) w.
Proof.
  intros Hargs. unfold svcInstall, with_flags. rewrite Hargs. cbv zeta. destruct (switch values "federation"); [|done].
  rewrite ST_bind_run. cbv beta. by destruct (eval (provisionFederation (flag values "cn" "")) w).
Qed.

(** Beside the documentation: --federation makes certificates, and the unit it
    installs is the one without the flag. *)
Lemma federation_same_unit (args : list string) (values : list (string * string)) (rest : list string) (exe : string) (w : world)
    (Hargs : Parse service_install_flags [] args = Flags values rest) (Hexe : Executable = Ok exe)
    (Hcert : eval (provisionFederation (flag values "cn" "")) w = None) :
  ∃ ops, calls_to (unit_for exe (flag values "addr" defaultDirectoryAddr)) ops w (svcInstall args w).2.
Proof.
  rewrite (svcInstall_cases args values rest w Hargs), Hcert. destruct (switch values "federation").
  - destruct (install_service_installs (flag values "addr" defaultDirectoryAddr) exe (exec (provisionFederation (flag values "cn" "")) w) Hexe)
      as (ops & Ho & _). exists ops. unfold calls_to in *. by rewrite (provision_quiet (flag values "cn" "") w) in Ho.
  - destruct (install_service_installs (flag values "addr" defaultDirectoryAddr) exe w Hexe) as (ops & Ho & _). by exists ops.
Qed.

(** C26: Installing the service goes through the operations of the service manager
    in one of five orders: in particular a unit that is there already is stopped,
    removed and installed again, any other refusal ends the command, and the exit
    code 0 means that the last two operations were an installation and a start that
    both succeeded. The unit is the user's directory service for the given address;
    with --federation the certificate is made first, and when that fails the
    command ends with 1 and the service manager is not called. *)
Theorem svcInstall_spec (args : list string) (values : list (string * string)) (rest : list string) (exe : string) (w : world)
    (Hargs : Parse service_install_flags [] args = Flags values rest) (Hexe : Executable = Ok exe) :
  let r := svcInstall args w in
  (switch values "federation" = false → installs (unit_for exe (flag values "addr" defaultDirectoryAddr)) w r) ∧
  (switch values "federation" = true →
     match eval (provisionFederation (flag values "cn" "")) w with
     | Some _ => r.1 = 1 ∧ w_svc r.2 = w_svc w
     | None => ∃ cfg, installs cfg w r
     end).
Proof.
  cbv zeta. pose proof (svcInstall_cases args values rest w Hargs) as Hr. split; intros Hf; rewrite Hf in Hr.
  - rewrite Hr. by apply install_service_installs.
  - pose proof (provision_quiet (flag values "cn" "") w) as Hq.
    destruct (eval (provisionFederation (flag values "cn" "")) w) as [e|] eqn:Ee.
    + rewrite Hr. split; [done|]. cbn [snd]. unfold svcInstall, with_flags. rewrite Hargs. cbv zeta. rewrite Hf, ST_bind_run. cbv beta.
      rewrite Ee. exact Hq.
    + rewrite Hr. exists (unit_for exe (flag values "addr" defaultDirectoryAddr)).
      destruct (install_service_installs (flag values "addr" defaultDirectoryAddr) exe (exec (provisionFederation (flag values "cn" "")) w) Hexe)
        as (ops & H1 & H2 & H3). exists ops. unfold calls_to in *. rewrite Hq in H1, H2, H3. done.
Qed.
End install_facts.

(** a manager that has the unit already *)
Definition occupied : list service_call → service_call → option goerror := λ h c,
  match c.2 with
  | SvcInstall => if existsb (λ x, match x.2 with SvcUninstall => true | _ => false end) h then None else Some (errors_new "Init already exists: x.plist")
  | _ => None
  end.
Definition occupied_system : System := {|
  goos := "darwin"; goarch := "arm64"; go_version := "go1.24"; module_path := "a2abridge"; linked_info := MkInfo "4.0.0" "" "";
  read_build_info := None; UserHomeDir := Ok "/h"; appdata := ""; Getenv _ := ""; Executable := Ok "/bin/a2abridge"; EvalSymlinks p := Ok p;
  Abs p := Ok p; Hostname := Ok "host"; LookPath _ := true; now_stamp _ := sample_stamp; mkdir_fault _ _ := false; temp_name _ _ := None;
  chmod_fault _ := false; close_fault _ := false; path_error p := errors_new p; json_error _ := errors_new "json";
  run_answer _ _ := quiet_outcome; service_answer := occupied; service_state _ _ := StatusRunning;
  PrintDefaults _ := []; flag_error _ _ := "bad flag"; system_tables := ascii_tables |}.

Definition empty_world : world := World (Tree (FS ∅ (λ _, false) (λ _, None) (λ _, false)) ∅ (λ _, false) (λ _, None)) [] [] [].

Lemma svcInstall_spec_witness :
  let r := @svcInstall sample_crypto occupied_system ["--addr"; "127.0.0.1:9000"] empty_world in
  r.1 = 0 ∧ (w_svc r.2).*2 = [SvcNew; SvcLogger; SvcInstall; SvcStop; SvcUninstall; SvcInstall; SvcStart] ∧
  installs (H0:=occupied_system) (@unit_for occupied_system "/bin/a2abridge" "127.0.0.1:9000") empty_world r.
Proof.
  cbv zeta. split; [vm_compute; reflexivity|]. split; [vm_compute; reflexivity|].
  destruct (@svcInstall_spec sample_crypto occupied_system ["--addr"; "127.0.0.1:9000"] [("addr", "127.0.0.1:9000")] [] "/bin/a2abridge"
    empty_world ltac:(vm_compute; reflexivity) eq_refl) as [Hi _]. apply Hi. vm_compute. reflexivity.
Defined.
