(* ===== verification/Uninstall.v ===== *)
(** The command uninstall ([internal/cli/uninstall.go]). *)
From Stdlib Require Import Ascii.
From stdpp Require Import base list strings gmap sets.
From S2P Require Import Prelude GoStrings Json A2A GoFS GoTree GoExec GoPath Jsonc IdeConfig Settings GoFlag GoFmt Console Assets Writers Install Cert Service.

Open Scope string_scope.
Open Scope Z_scope.
Open Scope list_scope.

Section uninstall.
Context `{TOML} `{System}.

(** Errors are printed and not returned. *)
(* src/internal/cli/uninstall.go (uninstallService) *)
Definition uninstallService (dryRun : bool) : IOW (option goerror) :=
  if dryRun then _ ← out "  [plan]   service          stop + uninstall"; mret None else
  svc ← buildService defaultDirectoryAddr;
  match svc with
  | Err e => _ ← err ("  [WARN]  service          " +:+ e_text e); mret None
  | Ok cfg =>
      st ← service_Status cfg;
      _ ← match st.1 with StatusRunning => (_ ← service cfg SvcStop; skip) | _ => skip end;
      e ← service cfg SvcUninstall;
      match e with
      | Some e => _ ← out ("  [WARN]  service          uninstall: " +:+ e_text e); mret None
      | None => _ ← out "  [remove] service          stopped and uninstalled"; mret None
      end
  end.

(** whether it failed *)
(* src/internal/cli/uninstall.go (removeMCPBlock) *)
Definition removeMCPBlock (x : Writer) (path : string) (dryRun : bool) : IOW bool :=
  if dryRun then _ ← out ("  [plan]   " +:+ pad 15 (Name x) +:+ "  " +:+ path +:+ " — would strip a2a MCP block"); mret false else
  e ← on_files (RemoveMCPEntry x path);
  match e with
  | Some e => _ ← out ("  [FAIL]   " +:+ pad 15 (Name x) +:+ "  " +:+ path +:+ " — " +:+ e_text e); mret true
  | None => _ ← out ("  [remove] " +:+ pad 15 (Name x) +:+ "  " +:+ path); mret false
  end.

(** [os.RemoveAll] of a directory, [os.Remove] of a file, the error ignored *)
(* src/internal/cli/uninstall.go:154-158 (removePath) *)
Definition purge_path (path : string) (dir : bool) : ST tree unit := λ t,
  (tt, if dir then (RemoveAll path t).2 else (RemoveAt path t).2).

(* src/internal/cli/uninstall.go (removePath) *)
Definition removePath (path label : string) (dryRun purge : bool) : IOW unit :=
  st ← look (Stat path);
  match st with
  | Err NotExist => skip
  | Err IOError => err ("  [WARN]  " +:+ pad 15 label +:+ "  " +:+ e_text (path_error path))
  | Ok dir =>
      if dryRun then
        out ("  [plan]   " +:+ pad 15 label +:+ "  " +:+ path +:+ " — " +:+ (if purge then "delete" else "rename to .bak"))
      else if purge then
        _ ← on_tree (purge_path path dir);
        out ("  [purge]  " +:+ pad 15 label +:+ "  " +:+ path)
      else
        to ← look (bak path);
        e ← on_tree (rename path to);
        match e with
        | Some e => err ("  [WARN]  " +:+ pad 15 label +:+ "  rename: " +:+ e_text e)
        | None => out ("  [backup] " +:+ pad 15 label +:+ "  " +:+ path +:+ " → " +:+ Base to)
        end
  end.

(** the writers whose IDE is found, one after the other; whether one failed *)
(* src/internal/cli/uninstall.go:61-69 (RunUninstall) *)
Fixpoint remove_blocks (l : list Writer) (dryRun : bool) : IOW bool :=
  match l with
  | [] => mret false
  | x :: l =>
      path ← look (λ t, Detect x (host_at t) (t_fs t));
      found ← look (WriterFound x);
      failed ← (if negb found then mret false else removeMCPBlock x path dryRun);
      rest ← remove_blocks l dryRun;
      mret (failed || rest)
  end.

(* src/internal/cli/uninstall.go:71-82 (RunUninstall) *)
Definition remove_extras (dryRun purge : bool) : IOW bool :=
  match UserHomeDir with
  | Err e => _ ← err ("uninstall: home dir: " +:+ e_text e); mret true
  | Ok home =>
      _ ← removePath (skill_dir home) "skill" dryRun purge;
      _ ← removePath (hook_path home) "hook" dryRun purge;
      _ ← when purge (removePath (Join [home; ".a2abridge"]) "state dir" dryRun true);
      mret false
  end.

(* src/internal/cli/uninstall.go:32-34 (RunUninstall) *)
Definition uninstall_flags : flag_decls := [("purge", true); ("keep-service", true); ("dry-run", true)].
(* src/internal/cli/uninstall.go:35-43 (RunUninstall) *)
Definition uninstall_usage : list string :=
  ["Usage: a2abridge uninstall [flags]"; "";
   "Removes the a2a MCP block from every IDE config, deletes the skill and";
   "UserPromptSubmit hook, and stops + uninstalls the directory service.";
   "Each removed file is backed up to <name>.bak.<timestamp> unless --purge."; ""] ++ PrintDefaults "uninstall".

(* src/internal/cli/uninstall.go (RunUninstall) *)
Definition RunUninstall (args : list string) : IOW Z :=
  with_flags "uninstall" uninstall_usage uninstall_flags args (λ values _,
    let purge := switch values "purge" in
    let dryRun := switch values "dry-run" in
    e ← (if negb (switch values "keep-service") then uninstallService dryRun else mret None);
    f ← remove_blocks AllWriters dryRun;
    g ← remove_extras dryRun purge;
    _ ← out "";
    _ ← out (if dryRun then "Dry-run complete. Re-run without --dry-run to apply." else "Uninstall complete.");
    mret (if bool_decide (is_Some e) || f || g then 1 else 0)).
End uninstall.

(** * What the command touches *)

Section touches.
Context `{TOML} `{System}.

Definition uninstall_touches (q : string) : Prop :=
  (∃ p, p ∈ all_targets ∧ copies p q) ∨
  ∃ home, UserHomeDir = Ok home ∧
    (copies (skill_dir home) q ∨ copies (hook_path home) q ∨ within (Join [home; ".a2abridge"]) q = true).

Lemma build_keeps {A} (view : world → A) addr : (∀ cfg op, Keeps view (service cfg op)) → Keeps view (buildService addr).
Proof.
  intros Hs. unfold buildService. destruct Executable; [|done]. cbv zeta. apply keeps_bind; [apply Hs|]. intros [e|]; [done|].
  apply keeps_bind; [apply Hs|done].
Qed.

Lemma uninstall_service_tree dryRun : Keeps w_tree (uninstallService dryRun).
Proof.
  unfold uninstallService. destruct dryRun; [by apply keeps_bind|]. apply keeps_bind; [apply build_keeps, _|].
  intros [cfg|e]; [|by apply keeps_bind]. apply keeps_bind; [apply _|]. intros [st e]. apply keeps_bind.
  - destruct st; [done| |done]. apply keeps_bind; [apply _|done].
  - intros _. apply keeps_bind; [apply _|]. intros [e'|]; by apply keeps_bind.
Qed.

(** ** A dry run *)

Lemma remove_blocks_dry l : Keeps w_tree (remove_blocks l true) ∧ Keeps w_svc (remove_blocks l true).
Proof.
  induction l as [|x l [IH1 IH2]]; [done|]. cbn [remove_blocks].
  split; repeat (apply keeps_bind; [done || (by apply keeps_if; [|apply keeps_bind])|intros ?]); done.
Qed.

Lemma removePath_dry path label purge : Keeps w_tree (removePath path label true purge) ∧ Keeps w_svc (removePath path label true purge).
Proof. unfold removePath. split; (apply keeps_bind; [done|]); by intros [d|[]]. Qed.

Lemma remove_extras_dry purge : Keeps w_tree (remove_extras true purge) ∧ Keeps w_svc (remove_extras true purge).
Proof.
  unfold remove_extras. destruct UserHomeDir as [home|e]; [|split; by apply keeps_bind].
  split; repeat (apply keeps_bind; [first [done | apply removePath_dry | apply keeps_when, removePath_dry]|intros ?]); done.
Qed.

(** ** Everything else *)

Section one_file.
Variable q : string.
Hypothesis Hfresh : fresh_names_law.
Hypothesis Hq : ¬ uninstall_touches q.

#[local] Instance keeps_line s x : Keeps (file_at q) (fprintln s x).
Proof. done. Qed.

Lemma remove_blocks_other l dryRun : Keeps (file_at q) (remove_blocks l dryRun).
Proof.
  induction l as [|x l IH]; [done|]. cbn [remove_blocks]. intros w.
  change (file_at q (exec (found ← look (WriterFound x);
    failed ← (if negb found then mret false else removeMCPBlock x (Detect x (host_at (w_tree w)) (t_fs (w_tree w))) dryRun);
    rest ← remove_blocks l dryRun; mret (failed || rest)) w) = file_at q w).
  change (file_at q (exec (
    failed ← (if negb (WriterFound x (w_tree w)) then mret false else removeMCPBlock x (Detect x (host_at (w_tree w)) (t_fs (w_tree w))) dryRun);
    rest ← remove_blocks l dryRun; mret (failed || rest)) w) = file_at q w).
  rewrite exec_bind. cbv beta. assert (Hrest : ∀ b, Keeps (file_at q) (rest ← remove_blocks l dryRun; mret (b || rest))) by (intros b; by apply keeps_bind).
  rewrite Hrest. destruct (negb _); [done|]. unfold removeMCPBlock. destruct dryRun; [done|]. rewrite exec_bind.
  assert (Hline : ∀ e, Keeps (file_at q) (match e with
    | Some e => _ ← out ("  [FAIL]   " +:+ pad 15 (Name x) +:+ "  " +:+ Detect x (host_at (w_tree w)) (t_fs (w_tree w)) +:+ " — " +:+ e_text e); mret true
    | None => _ ← out ("  [remove] " +:+ pad 15 (Name x) +:+ "  " +:+ Detect x (host_at (w_tree w)) (t_fs (w_tree w))); mret false end))
    by (intros [e|]; by apply keeps_bind).
  rewrite Hline. unfold on_files, on_tree, exec, file_at. set (t := w_tree w).
  assert (Hf : fresh_names (host_at t) (t_fs t) (targets x (host_at t))).
  { rewrite targets_host. intros p n Hp Hn. destruct (Hfresh t p n (all_targets_elem _ _ Hp) Hn) as [Hn1 Hn2]. split; [done|].
    intros p' Hp'. by apply Hn2, (all_targets_elem x). }
  pose proof (RemoveMCPEntry_other x (Detect x (host_at t) (t_fs t)) (host_at t) (t_fs t) q Hf (or_intror eq_refl)) as Hr.
  destruct (RemoveMCPEntry x _ (host_at t) (t_fs t)) as [e w']. cbn. apply Hr. intros Hin. apply Hq. left.
  unfold footprint in Hin. apply list_elem_of_In, in_flat_map in Hin as (p & Hp & Hin). apply list_elem_of_In in Hp.
  rewrite targets_host in Hp. exists p. split; [by apply (all_targets_elem x)|].
  destruct Hin as [<-|[<-|[]]]; [left; apply within_self|right]. exists (now_stamp t). apply within_self.
Qed.

Lemma removePath_other path label dryRun purge : ¬ copies path q ∨ (within path q = false ∧ (dryRun = true ∨ purge = true)) →
  Keeps (file_at q) (removePath path label dryRun purge).
Proof.
  intros Hc. assert (Hw : within path q = false).
  { destruct Hc as [Hc|[Hc _]]; [|done]. apply not_true_iff_false. intros Hw. apply Hc. by left. }
  intros w. unfold removePath. change (file_at q (exec (match Stat path (w_tree w) with
    | Err NotExist => skip
    | Err IOError => err ("  [WARN]  " +:+ pad 15 label +:+ "  " +:+ e_text (path_error path))
    | Ok dir => if dryRun then out ("  [plan]   " +:+ pad 15 label +:+ "  " +:+ path +:+ " — " +:+ (if purge then "delete" else "rename to .bak"))
      else if purge then _ ← on_tree (purge_path path dir); out ("  [purge]  " +:+ pad 15 label +:+ "  " +:+ path)
      else to ← look (bak path); e ← on_tree (rename path to); match e with
        | Some e => err ("  [WARN]  " +:+ pad 15 label +:+ "  rename: " +:+ e_text e)
        | None => out ("  [backup] " +:+ pad 15 label +:+ "  " +:+ path +:+ " → " +:+ Base to) end end) w) = file_at q w).
  destruct (Stat path (w_tree w)) as [d|[]]; try done. destruct dryRun; [done|]. destruct purge.
  - apply (keeps_bind (file_at q)); [|done]. apply (keeps_on_tree (λ t, files (t_fs t) !! q)). intros t. cbn.
    destruct d; [by apply RemoveAll_other|]. apply RemoveAt_other. intros ->. by rewrite within_self in Hw.
  - destruct Hc as [Hc|[_ [?|?]]]; try done. set (t := w_tree w).
    change (file_at q (exec (e ← on_tree (rename path (bak path t)); match e with
        | Some e => err ("  [WARN]  " +:+ pad 15 label +:+ "  rename: " +:+ e_text e)
        | None => out ("  [backup] " +:+ pad 15 label +:+ "  " +:+ path +:+ " → " +:+ Base (bak path t)) end) w) = file_at q w).
    rewrite exec_bind. destruct (eval (on_tree _) w); unfold exec, on_tree, file_at; fold t;
      pose proof (bak_other path t q Hc) as Hb; destruct (rename path (bak path t) t) as [e t1]; exact Hb.
Qed.

Lemma RunUninstall_other args : Keeps (file_at q) (RunUninstall args).
Proof.
  unfold RunUninstall. apply keeps_flags; [done|]. intros values _. cbv zeta.
  apply keeps_bind; [apply keeps_if; [|done]; apply (keeps_view (λ t, files (t_fs t) !! q)), uninstall_service_tree|]. intros e.
  apply keeps_bind; [apply remove_blocks_other|]. intros f. apply keeps_bind.
  - unfold remove_extras. destruct UserHomeDir as [home|e'] eqn:Eh; [|by apply keeps_bind].
    assert (Hc : ∀ p, (copies p q → copies (skill_dir home) q ∨ copies (hook_path home) q ∨ within (Join [home; ".a2abridge"]) q = true) → ¬ copies p q)
      by (intros p Hp Hc; apply Hq; right; exists home; auto).
    apply keeps_bind; [apply removePath_other; left; apply Hc; auto|]. intros _.
    apply keeps_bind; [apply removePath_other; left; apply Hc; auto|]. intros _.
    apply keeps_bind; [|done]. apply keeps_when, removePath_other. right. split; [|by right].
    apply not_true_iff_false. intros Hw. apply Hq. right. exists home. auto.
  - intros g. repeat (apply keeps_bind; [done|intros ?]). done.
Qed.
End one_file.

(** whether a command line asks for changes, and of the service too *)
Definition removes (args : list string) : bool :=
  match Parse uninstall_flags [] args with Flags values _ => negb (switch values "dry-run") | _ => false end.
Definition removes_service (args : list string) : bool :=
  removes args && match Parse uninstall_flags [] args with Flags values _ => negb (switch values "keep-service") | _ => false end.

Lemma uninstall_dry args : removes args = false → Keeps w_tree (RunUninstall args).
Proof.
  unfold removes, RunUninstall, with_flags. destruct (Parse uninstall_flags [] args) as [values rest| |]; [|intros _; apply _..].
  intros Hd%negb_false_iff. cbv zeta. rewrite Hd. apply keeps_bind; [apply keeps_if; [apply uninstall_service_tree|done]|]. intros e.
  apply keeps_bind; [apply remove_blocks_dry|]. intros f. apply keeps_bind; [apply remove_extras_dry|]. intros g.
  repeat (apply keeps_bind; [done|intros ?]). done.
Qed.

#[local] Instance svc_on_files {A} (m : host → fs → A * fs) : Keeps w_svc (on_files m).
Proof. apply svc_on_tree. Qed.

Lemma removePath_svc path label dryRun purge : Keeps w_svc (removePath path label dryRun purge).
Proof.
  unfold removePath. apply keeps_bind; [done|]. intros [d|[]]; [|done|done]. destruct dryRun; [done|]. destruct purge.
  - apply keeps_bind; [apply _|done].
  - apply keeps_bind; [done|]. intros to. apply keeps_bind; [apply _|]. by intros [e|].
Qed.

Lemma uninstall_svc args : removes_service args = false → Keeps w_svc (RunUninstall args).
Proof.
  unfold removes_service, removes, RunUninstall, with_flags. destruct (Parse uninstall_flags [] args) as [values rest| |]; [|intros _; apply _..].
  intros Hd. cbv zeta. apply keeps_bind.
  { by destruct (switch values "dry-run"), (switch values "keep-service"). }
  intros e. apply keeps_bind.
  { generalize AllWriters (switch values "dry-run"). intros l dryRun. induction l as [|x l IH]; [done|]. cbn [remove_blocks].
    apply keeps_bind; [done|]. intros path. apply keeps_bind; [done|]. intros found. apply keeps_bind; [|intros b; by apply keeps_bind].
    destruct (negb found); [done|]. unfold removeMCPBlock. destruct dryRun; [by apply keeps_bind|]. apply keeps_bind; [apply _|].
    intros [e'|]; by apply keeps_bind. }
  intros f. apply keeps_bind; [|intros g; repeat (apply keeps_bind; [done|intros ?]); done].
  unfold remove_extras. destruct UserHomeDir as [home|e']; [|by apply keeps_bind].
  repeat (apply keeps_bind; [first [apply removePath_svc | apply keeps_when, removePath_svc]|intros ?]). done.
Qed.

(** C29: With --dry-run, and on a wrong command line, uninstalling changes no file and
    asks nothing of the service manager, with --keep-service nothing of the service
    manager either. No file is ever touched but the IDE configurations, the skill,
    the hook and copies of these beside them, and the state directory. *)
Theorem uninstall_safe (Hfresh : fresh_names_law) (args : list string) (w : world) :
  let w' := (RunUninstall args w).2 in
  (removes args = false → w_tree w' = w_tree w) ∧
  (removes_service args = false → w_svc w' = w_svc w) ∧
  (∀ q, ¬ uninstall_touches q → files (t_fs (w_tree w')) !! q = files (t_fs (w_tree w)) !! q).
Proof.
  cbv zeta. split_and!.
  - intros Hr. apply (uninstall_dry args Hr w).
  - intros Hr. apply (uninstall_svc args Hr w).
  - intros q Hq. apply (RunUninstall_other q Hfresh Hq args w).
Qed.
End touches.

Lemma uninstall_safe_witness :
  let r := @RunUninstall json_toml sample_system ["--purge"] (World sample_tree [] [] []) in
  files (t_fs (w_tree r.2)) !! "/h/notes.txt" = Some (File 420 "keep").
Proof.
  cbv zeta. destruct (@uninstall_safe json_toml sample_system sample_fresh ["--purge"] (World sample_tree [] [] [])) as (_ & _ & Ho).
  rewrite Ho; [by vm_compute|]. intros [(p & Hp & Hc%copies_prefix)|(home & Hh & Hc)].
  - assert (Ht : @all_targets sample_system = sample_targets) by (vm_compute; reflexivity). rewrite Ht in Hp.
    repeat (apply elem_of_cons in Hp as [->|Hp]; [by vm_compute in Hc|]). by apply elem_of_nil in Hp.
  - injection Hh as <-. destruct Hc as [Hc%copies_prefix|[Hc%copies_prefix|Hc]]; by vm_compute in Hc.
Defined.

(** * Uninstalling what was installed *)

(** ** Equality of values up to the order of members *)

Definition same (v w : json) : Prop := distinct v ∧ distinct w ∧ canon v = canon w.

Lemma same_refl v : distinct v → same v v.
Proof. intros Hv. split; [done|by split]. Qed.

Lemma same_shape v w : same v w →
  match v, w with
  | JObj _, JObj _ | JArr _, JArr _ => True
  | JObj _, _ | _, JObj _ | JArr _, _ | _, JArr _ => False
  | _, _ => v = w
  end.
Proof. intros (_ & _ & H). destruct v, w; cbn [canon] in H; try exact I; congruence. Qed.

Lemma same_arr l k : same (JArr l) (JArr k) ↔ Forall2 same l k.
Proof.
  unfold same. cbn [distinct canon]. rewrite !conj_forall. split.
  - intros (Hl & Hk & [= He]). revert k Hk He. induction Hl as [|x l Hx _ IH]; intros [|y k] Hk He; try done.
    apply Forall_cons in Hk as [Hy Hk]. injection He as He1 He2. constructor; [done|by apply IH].
  - induction 1 as [|x y l k (Hx & Hy & Hxy) _ (H1 & H2 & [= H3])]; [by repeat constructor|].
    split_and!; [by constructor|by constructor|]. cbn [map]. by rewrite Hxy, H3.
Qed.

Lemma distinct_get k m v : distinct (JObj m) → assoc_get k m = Some v → distinct v.
Proof.
  intros [Hn Hd] Hg. apply conj_forall in Hd. rewrite Forall_forall in Hd. apply assoc_get_elem in Hg; [|done]. apply (Hd _ Hg).
Qed.

Lemma same_get k a b : same (JObj a) (JObj b) → option_Forall2 same (assoc_get k a) (assoc_get k b).
Proof.
  intros (Ha & Hb & He). destruct (canon (JObj a)) as [| | | | |c] eqn:Ec; try done.
  pose proof (assoc_get_canon k a c (proj1 Ha) (eq_sym Ec)) as H1. pose proof (assoc_get_canon k b c (proj1 Hb) He) as H2. rewrite H1 in H2.
  destruct (assoc_get k a) as [v|] eqn:Ea, (assoc_get k b) as [w|] eqn:Eb; try done; constructor.
  injection H2 as H2. unfold same. split_and!; [by apply (distinct_get k a)|by apply (distinct_get k b)|done].
Qed.

Lemma canon_member k v m : NoDup m.*1 → (k, v) ∈ map (λ x, (x.1, canon x.2)) m ↔ canon <$> assoc_get k m = Some v.
Proof.
  intros Hn. rewrite list_elem_of_In, in_map_iff, fmap_Some. split.
  - intros ([k' x] & [= <- <-] & Hx). exists x. split; [|done]. apply assoc_get_elem; [done|by apply list_elem_of_In].
  - intros (x & Hx & ->). exists (k, x). split; [done|]. apply assoc_get_elem in Hx; [|done]. by apply list_elem_of_In.
Qed.

Lemma str_compare_le_trans a b c : str_compare a b ≠ Gt → str_compare b c ≠ Gt → str_compare a c ≠ Gt.
Proof.
  destruct (str_compare a b) eqn:E1; [apply str_compare_eq in E1 as ->; done| |done]. intros _.
  destruct (str_compare b c) eqn:E2; [apply str_compare_eq in E2 as ->; by rewrite E1| |done]. intros _.
  by rewrite (str_compare_trans _ _ _ E1 E2).
Qed.

Lemma same_obj a b : NoDup a.*1 → NoDup b.*1 → (∀ k, option_Forall2 same (assoc_get k a) (assoc_get k b)) → same (JObj a) (JObj b).
Proof.
  intros Ha Hb Hg. unfold same. split_and!.
  - split; [done|]. apply conj_forall, Forall_forall. intros [k v] Hv. apply assoc_get_elem in Hv; [|done].
    specialize (Hg k). rewrite Hv in Hg. inversion Hg as [? ? (? & _)|]. done.
  - split; [done|]. apply conj_forall, Forall_forall. intros [k v] Hv. apply assoc_get_elem in Hv; [|done].
    specialize (Hg k). rewrite Hv in Hg. inversion Hg as [? ? (_ & ? & _)|]. done.
  - cbn [canon]. f_equal. apply (GoSort.sorted_unique member_cmp).
    + intros x y. apply str_compare_antisym.
    + intros [k v] [k' w] Hv Hw Hk%str_compare_eq. cbn in Hk. subst k'. rewrite GoSort.isort_perm in Hv, Hw.
      apply canon_member in Hv, Hw; [|done..]. congruence.
    + rewrite !GoSort.isort_perm. apply NoDup_Permutation.
      * apply (NoDup_fmap_1 fst). change (map ?f a) with (f <$> a). by rewrite <-list_fmap_compose.
      * apply (NoDup_fmap_1 fst). change (map ?f b) with (f <$> b). by rewrite <-list_fmap_compose.
      * intros [k v]. rewrite !canon_member by done. specialize (Hg k). destruct Hg as [x y (_ & _ & He)|]; [|done].
        cbn [fmap option_fmap option_map]. by rewrite He.
    + apply GoSort.isort_sorted; [intros x y; apply str_compare_antisym|]. intros x y z. apply str_compare_le_trans.
    + apply GoSort.isort_sorted; [intros x y; apply str_compare_antisym|]. intros x y z. apply str_compare_le_trans.
Qed.

Lemma same_set k v w a b : same (JObj a) (JObj b) → same v w → same (JObj (assoc_set k v a)) (JObj (assoc_set k w b)).
Proof.
  intros Hab Hvw. pose proof Hab as ([Ha _] & [Hb _] & _). apply same_obj; [by apply assoc_set_NoDup..|].
  intros k'. rewrite !assoc_get_set. destruct (String.eqb k k'); [by constructor|by apply same_get].
Qed.

Lemma assoc_del_NoDup k (m : gomap) : NoDup m.*1 → NoDup (assoc_del k m).*1.
Proof.
  induction m as [|[k' v] m IH]; [done|]. cbn [fmap list_fmap fst assoc_del]. intros [Hn Hd]%NoDup_cons.
  destruct (String.eqb k' k); [by apply IH|]. cbn [fmap list_fmap fst]. constructor; [|by apply IH].
  intros Hin. apply Hn. clear -Hin. induction m as [|[k2 v2] m IH]; [done|]. cbn [assoc_del] in Hin.
  destruct (String.eqb k2 k); cbn in *; set_solver.
Qed.

Lemma same_del k a b : same (JObj a) (JObj b) → same (JObj (assoc_del k a)) (JObj (assoc_del k b)).
Proof.
  intros Hab. pose proof Hab as ([Ha _] & [Hb _] & _). apply same_obj; [by apply assoc_del_NoDup..|].
  intros k'. rewrite !assoc_get_del. destruct (String.eqb k k'); [constructor|by apply same_get].
Qed.

Lemma same_nil a b : same (JObj a) (JObj b) → (a = [] ↔ b = []).
Proof.
  intros (_ & _ & [= He]). apply (f_equal length) in He. rewrite !GoSort.isort_perm, !length_map in He.
  destruct a, b; done.
Qed.

(** a map that is kept under [k], or dropped when it is empty *)
Definition put_back (k : string) (m root : gomap) : gomap :=
  match m with [] => assoc_del k root | _ => assoc_set k (JObj m) root end.

Lemma same_put k m n a b : same (JObj m) (JObj n) → same (JObj a) (JObj b) → same (JObj (put_back k m a)) (JObj (put_back k n b)).
Proof.
  intros Hmn Hab. pose proof (same_nil m n Hmn) as Hnil. unfold put_back. destruct m as [|x m], n as [|y n]; [by apply same_del|naive_solver..|by apply same_set].
Qed.

(** ** The removal respects it *)

Lemma same_list o o' : option_Forall2 same o o' → Forall2 same (as_list o) (as_list o').
Proof.
  intros [v w H|]; [|constructor]. pose proof (same_shape v w H). destruct v, w; try done; try constructor. by apply same_arr.
Qed.

Lemma is_ours_canon x : distinct x → is_ours (canon x) = is_ours x.
Proof.
  intros Hd. destruct x as [| | | | |e]; try done. unfold is_ours, hook_command.
  set (c := GoSort.isort member_cmp (map (λ x, (x.1, canon x.2)) e)). change (as_map (canon (JObj e))) with (Some c). cbv beta iota.
  change (as_map (JObj e)) with (Some e). rewrite (assoc_get_canon "command" e c (proj1 Hd) eq_refl). by destruct (assoc_get "command" e) as [[]|].
Qed.
Lemma same_ours x y : same x y → is_ours x = is_ours y.
Proof. intros (Hx & Hy & He). by rewrite <-(is_ours_canon x), <-(is_ours_canon y), He. Qed.

Lemma same_hooks l k : Forall2 same l k →
  Forall2 same (filterb (λ h, negb (is_ours h)) l) (filterb (λ h, negb (is_ours h)) k) ∧ existsb is_ours l = existsb is_ours k.
Proof.
  induction 1 as [|x y l k Hxy _ [IH1 IH2]]; [by split|]. cbn [filterb existsb]. rewrite (same_ours x y Hxy), IH2.
  destruct (is_ours y); cbn [negb]; split; try done. by constructor.
Qed.

Lemma same_prune ms ns : Forall2 same ms ns → (prune_groups ms).1 = (prune_groups ns).1 ∧ Forall2 same (prune_groups ms).2 (prune_groups ns).2.
Proof.
  induction 1 as [|m n ms ns Hmn _ IH]; [by split|]. cbn [prune_groups].
  destruct (prune_groups ms) as [c out], (prune_groups ns) as [c' out']. cbn [fst snd] in IH. destruct IH as [-> IH].
  pose proof (same_shape m n Hmn) as Hs. destruct m as [| | | | |e], n as [| | | | |e']; try done;
    try (cbn [as_map fst snd]; split; [done|by constructor]).
  cbn [as_map]. pose proof (same_list _ _ (same_get "hooks" e e' Hmn)) as Hl. destruct (same_hooks _ _ Hl) as [Hf ->].
  destruct Hf as [|x y l k Hxy Hlk]; cbn [fst snd]; (split; [done|]); [done|].
  constructor; [|done]. apply same_set; [done|]. apply same_arr. by constructor.
Qed.

Lemma same_prune_hook a b : same (JObj a) (JObj b) →
  (pruneUserPromptSubmitHook a).1 = (pruneUserPromptSubmitHook b).1 ∧
  same (JObj (pruneUserPromptSubmitHook a).2) (JObj (pruneUserPromptSubmitHook b).2).
Proof.
  intros Hab. unfold pruneUserPromptSubmitHook. pose proof (same_get "UserPromptSubmit" a b Hab) as Hg.
  destruct Hg as [v w Hvw|]; [|by split]. pose proof (same_shape v w Hvw) as Hs.
  destruct v as [| | | |ms|], w as [| | | |ns|]; try done. apply same_arr in Hvw. destruct (same_prune _ _ Hvw) as [H1 H2].
  destruct (prune_groups ms) as [c out], (prune_groups ns) as [c' out']. cbn [fst snd] in *. subst c'.
  destruct c; cbn [negb]; [|by split]. destruct H2 as [|x y out out' Hxy Ho]; cbn [fst snd]; (split; [done|]); [by apply same_del|].
  apply same_set; [done|]. apply same_arr. by constructor.
Qed.

(** the two steps of the removal *)
Definition strip_hooks (root : gomap) : bool * gomap :=
  match assoc_get "hooks" root with
  | Some (JObj hooks) => let '(pruned, hooks) := pruneUserPromptSubmitHook hooks in (pruned, put_back "hooks" hooks root)
  | _ => (false, root)
  end.

Lemma strip_entries_steps root : strip_entries root =
  ((strip_server root).1 || (strip_hooks (strip_server root).2).1, (strip_hooks (strip_server root).2).2).
Proof.
  unfold strip_entries, strip_hooks. destruct (strip_server root) as [c r]. cbn [fst snd].
  destruct (assoc_get "hooks" r) as [[| | | | |h]|]; try (by rewrite orb_false_r). by destruct (pruneUserPromptSubmitHook h) as [p h'].
Qed.

Lemma same_strip a b : same (JObj a) (JObj b) →
  (strip_entries a).1 = (strip_entries b).1 ∧ same (JObj (strip_entries a).2) (JObj (strip_entries b).2).
Proof.
  intros Hab. rewrite !strip_entries_steps. cbn [fst snd].
  assert (Hs : (strip_server a).1 = (strip_server b).1 ∧ same (JObj (strip_server a).2) (JObj (strip_server b).2)).
  { unfold strip_server. pose proof (same_get "mcpServers" a b Hab) as Hg. destruct Hg as [v w Hvw|]; [|by split].
    pose proof (same_shape v w Hvw). destruct v as [| | | | |m], w as [| | | | |n]; try done. cbn [fst snd].
    pose proof (same_get "a2a" m n Hvw) as Ha. split; [by destruct Ha|]. apply same_put; [|done].
    destruct Ha; [by apply same_del|done]. }
  destruct Hs as [-> Hs]. revert Hs. generalize (strip_server a).2 (strip_server b).2 (strip_server b).1. clear a b Hab. intros a b c Hab.
  assert (Hh : (strip_hooks a).1 = (strip_hooks b).1 ∧ same (JObj (strip_hooks a).2) (JObj (strip_hooks b).2)).
  { unfold strip_hooks. pose proof (same_get "hooks" a b Hab) as Hg. destruct Hg as [v w Hvw|]; [|by split].
    pose proof (same_shape v w Hvw). destruct v as [| | | | |m], w as [| | | | |n]; try done.
    destruct (same_prune_hook m n Hvw) as [H1 H2]. destruct (pruneUserPromptSubmitHook m), (pruneUserPromptSubmitHook n).
    cbn [fst snd] in *. split; [done|by apply same_put]. }
  destruct Hh as [-> Hh]. done.
Qed.

(** ** Registering and removing again *)

(** an object without entries of the program *)
Definition foreign (root : gomap) : Prop :=
  assoc_get "a2a" (read_nested ["mcpServers"] root) = None ∧ existsb is_ours (prompt_hooks root) = false.

(** the value of [k], if there is one, is an object that is not empty *)
Definition kept (k : string) (root : gomap) : bool :=
  match assoc_get k root with None => true | Some (JObj (_ :: _)) => true | _ => false end.
Definition tidy_group (m : json) : bool :=
  match m with JObj _ => match entry_hooks m with [] => false | _ => true end | _ => true end.
(** An object that holds nothing the removal would discard besides the program's
    entries: an [mcpServers] or [hooks] that is no object or empty, a
    [UserPromptSubmit] that is no list or empty, a hook group without hooks. *)
Definition tidy (root : gomap) : bool :=
  kept "mcpServers" root && kept "hooks" root &&
  match assoc_get "UserPromptSubmit" (read_nested ["hooks"] root) with
  | None => true
  | Some (JArr (x :: ms)) => forallb tidy_group (x :: ms)
  | _ => false
  end.

Lemma assoc_set_set k (v w : json) m : assoc_set k v (assoc_set k w m) = assoc_set k v m.
Proof. induction m as [|[k' x] m IH]; cbn [assoc_set]; [by rewrite String.eqb_refl|]. destruct (String.eqb k' k) eqn:E; cbn [assoc_set]; by rewrite ?String.eqb_refl, ?E, ?IH. Qed.
Lemma assoc_del_set k (v : json) m : assoc_get k m = None → assoc_del k (assoc_set k v m) = m.
Proof.
  induction m as [|[k' x] m IH]; cbn [assoc_get assoc_set]; [cbn; by rewrite String.eqb_refl|].
  destruct (String.eqb k' k) eqn:E; [done|]. intros Hm. cbn [assoc_del]. by rewrite E, IH.
Qed.

Lemma put_nested k m root : kept k root = true → put_back k (read_nested [k] root) (assoc_set k m root) = root.
Proof.
  unfold kept. cbn [read_nested]. destruct (assoc_get k root) as [[| | | | |[|x l]]|] eqn:E; try done; intros _; cbn [put_back].
  - by rewrite assoc_set_set, assoc_set_id.
  - by apply assoc_del_set.
Qed.
Lemma put_same k m root : kept k root = true → assoc_get k root = Some (JObj m) → put_back k m root = root.
Proof. unfold kept. intros Hk E. rewrite E in Hk. destruct m; [done|]. by apply assoc_set_id. Qed.

Lemma tidy_list m e : m = JObj e → tidy_group m = true → as_list (assoc_get "hooks" e) ≠ [] ∧ assoc_get "hooks" e = Some (JArr (as_list (assoc_get "hooks" e))).
Proof. intros ->. unfold tidy_group, entry_hooks. cbn [as_map]. by destruct (assoc_get "hooks" e) as [[| | | |[|x l]|]|]. Qed.

(** a group that keeps all its hooks *)
Lemma prune_cons m rest changed out : tidy_group m = true → existsb is_ours (entry_hooks m) = false →
  prune_groups rest = (changed, out) → prune_groups (m :: rest) = (changed, m :: out).
Proof.
  intros Ht Ho Hp. cbn [prune_groups]. rewrite Hp. destruct m as [| | | | |e]; try done. cbn [as_map].
  destruct (tidy_list _ e eq_refl Ht) as [Hne Hg]. change (entry_hooks (JObj e)) with (as_list (assoc_get "hooks" e)) in Ho.
  rewrite (existsb_filterb is_ours _ Ho), Ho, orb_false_r. set (l := as_list (assoc_get "hooks" e)) in *. clearbody l.
  destruct l as [|x l]; [done|]. by rewrite assoc_set_id.
Qed.

Lemma prune_tidy ms : forallb tidy_group ms = true → existsb is_ours (flat_map entry_hooks ms) = false → prune_groups ms = (false, ms).
Proof.
  induction ms as [|m ms IH]; [done|]. cbn [forallb flat_map]. rewrite existsb_app.
  intros [H1 H2]%andb_true_iff [H3 H4]%orb_false_iff. apply prune_cons; [done..|]. by apply IH.
Qed.

Lemma prune_extended command ms ms' : Base command = hook_script → forallb tidy_group ms = true →
  existsb is_ours (flat_map entry_hooks ms) = false → extend_group command ms = Some ms' → prune_groups ms' = (true, ms).
Proof.
  intros Hb. revert ms'. induction ms as [|m ms IH]; [done|]. intros ms'. cbn [forallb flat_map extend_group]. rewrite existsb_app.
  intros [H1 H2]%andb_true_iff [H3 H4]%orb_false_iff.
  assert (Hrest : cons m <$> extend_group command ms = Some ms' → prune_groups ms' = (true, m :: ms)).
  { destruct (extend_group command ms) as [ms2|]; [|done]. intros [= <-]. apply prune_cons; [done..|]. by apply IH. }
  destruct m as [| | | | |e]; try exact Hrest. cbn [as_map]. destruct (negb _); [exact Hrest|]. clear Hrest.
  destruct (tidy_list _ e eq_refl H1) as [Hne Hg]. change (entry_hooks (JObj e)) with (as_list (assoc_get "hooks" e)) in H3.
  set (l := as_list (assoc_get "hooks" e)) in *. clearbody l.
  match goal with |- context [if existsb ?p l then _ else _] => destruct (existsb p l) eqn:Ex end.
  { exfalso. apply existsb_exists in Ex as (x & Hx & Hc). assert (Ho : existsb is_ours l = true); [|congruence].
    apply existsb_exists. exists x. split; [done|]. unfold is_ours, hook_command. destruct (as_map x); [|done].
    apply String.eqb_eq in Hc as ->. by rewrite Hb. }
  intros [= <-]. cbn [prune_groups]. rewrite (prune_tidy ms H2 H4). cbn [as_map]. rewrite assoc_get_set, String.eqb_refl. cbn [as_list].
  assert (Hour : is_ours (our_hook command) = true) by (unfold is_ours; change (hook_command (our_hook command)) with command; by rewrite Hb).
  rewrite filterb_app, existsb_app, (existsb_filterb is_ours l H3). cbn [filterb existsb]. rewrite Hour. cbn [negb]. rewrite app_nil_r, orb_true_r.
  destruct l as [|x l]; [done|]. by rewrite assoc_set_set, assoc_set_id.
Qed.

Lemma prune_appended command ms : Base command = hook_script → forallb tidy_group ms = true →
  existsb is_ours (flat_map entry_hooks ms) = false →
  prune_groups (ms ++ [JObj [("matcher", JStr "*"); ("hooks", JArr [our_hook command])]]) = (true, ms).
Proof.
  intros Hb. induction ms as [|m ms IH].
  - intros _ _. cbn [app prune_groups as_map]. change (as_list (assoc_get "hooks" [("matcher", JStr "*"); ("hooks", JArr [our_hook command])])) with [our_hook command].
    cbn [filterb]. unfold is_ours. change (hook_command (our_hook command)) with command. by rewrite Hb.
  - cbn [forallb flat_map app]. rewrite existsb_app. intros [H1 H2]%andb_true_iff [H3 H4]%orb_false_iff.
    apply prune_cons; [done..|]. by apply IH.
Qed.

(** the removal of nothing *)
Lemma strip_hooks_foreign root : tidy root = true → foreign root → strip_hooks root = (false, root).
Proof.
  intros [[Ht1 Ht2]%andb_true_iff Ht3]%andb_true_iff [_ Ho]. rewrite prompt_hooks_nested in Ho. unfold strip_hooks.
  cbn [read_nested] in *. destruct (assoc_get "hooks" root) as [[| | | | |h]|] eqn:E; try done.
  assert (Hp : pruneUserPromptSubmitHook h = (false, h)).
  { unfold pruneUserPromptSubmitHook. destruct (assoc_get "UserPromptSubmit" h) as [[| | | |[|x ms]|]|]; try done.
    cbn [as_list] in Ho. by rewrite (prune_tidy (x :: ms) Ht3 Ho). }
  rewrite Hp. by rewrite (put_same "hooks" h root Ht2 E).
Qed.

Lemma strip_server_foreign root : tidy root = true → foreign root → strip_server root = (false, root).
Proof.
  intros [[Ht1 Ht2]%andb_true_iff Ht3]%andb_true_iff [Ha _]. unfold strip_server. cbn [read_nested] in Ha.
  destruct (assoc_get "mcpServers" root) as [[| | | | |s]|] eqn:E; try done. rewrite Ha. f_equal. by apply put_same.
Qed.

Lemma null_object m : equalJSON JNull (JObj m) = false.
Proof. unfold equalJSON. cbn [canon]. by destruct (GoSort.isort member_cmp _). Qed.

Lemma strip_set_entry spec root : sp_Key spec = "a2a" → tidy root = true → foreign root →
  (setMCPServerEntry spec root).1 = true ∧ strip_entries (setMCPServerEntry spec root).2 = (true, root).
Proof.
  intros Hk Ht Hf. pose proof Hf as [Ha _]. unfold setMCPServerEntry. rewrite Hk, Ha. cbn [default from_option id].
  unfold mcpEntryJSON at 1 3. rewrite !null_object. split; [done|]. cbn [snd update_nested].
  pose proof Ht as [[Ht1 _]%andb_true_iff _]%andb_true_iff.
  change (match assoc_get "mcpServers" root with Some (JObj m) => m | _ => [] end) with (read_nested ["mcpServers"] root).
  set (entry := mcpEntryJSON spec). clearbody entry. set (servers := read_nested ["mcpServers"] root) in *.
  assert (Hs : strip_server (assoc_set "mcpServers" (JObj (assoc_set "a2a" entry servers)) root) = (true, root)).
  { unfold strip_server. rewrite (assoc_get_set "mcpServers"), String.eqb_refl. cbv zeta.
    rewrite (assoc_get_set "a2a"), String.eqb_refl, (assoc_del_set "a2a" entry servers Ha). f_equal. by apply put_nested. }
  rewrite strip_entries_steps, Hs. cbn [fst snd]. by rewrite (strip_hooks_foreign root Ht Hf).
Qed.

Lemma strip_merge command root : Base command = hook_script → tidy root = true → foreign root →
  needsHookUpdate root command = true ∧ strip_entries (mergeUserPromptSubmitHook command root) = (true, root).
Proof.
  intros Hb Ht Hf. pose proof Hf as [_ Ho]. assert (Hc : command ≠ "") by (intros ->; done). split.
  { rewrite needs_hook by done. apply negb_true_iff. clear -Hb Ho. induction (prompt_hooks root) as [|x l IH]; [done|]. cbn [existsb] in *.
    apply orb_false_iff in Ho as [Hx Ho]. rewrite IH by done. rewrite orb_false_r. apply String.eqb_neq. intros He.
    unfold is_ours in Hx. by rewrite He, Hb in Hx. }
  pose proof Ht as [[Ht1 Ht2]%andb_true_iff Ht3]%andb_true_iff. rewrite prompt_hooks_nested in Ho.
  set (hooks := read_nested ["hooks"] root) in *. unfold mergeUserPromptSubmitHook. cbn [update_nested].
  change (match assoc_get "hooks" root with Some (JObj m) => m | _ => [] end) with hooks.
  set (ms := as_list (assoc_get "UserPromptSubmit" hooks)) in *.
  assert (Hms : forallb tidy_group ms = true) by (subst ms; by destruct (assoc_get "UserPromptSubmit" hooks) as [[| | | |[|x l]|]|]).
  set (ms' := match extend_group command ms with Some l => l | None => _ end).
  assert (Hp : prune_groups ms' = (true, ms)).
  { subst ms'. destruct (extend_group command ms) as [l|] eqn:E; [by eapply prune_extended|by apply prune_appended]. }
  clearbody ms'. rewrite strip_entries_steps.
  assert (Hs : strip_server (assoc_set "hooks" (JObj (assoc_set "UserPromptSubmit" (JArr ms') hooks)) root) =
    (false, assoc_set "hooks" (JObj (assoc_set "UserPromptSubmit" (JArr ms') hooks)) root)).
  { set (root' := assoc_set "hooks" _ root).
    assert (Hg : assoc_get "mcpServers" root' = assoc_get "mcpServers" root) by (subst root'; by rewrite assoc_get_set).
    unfold strip_server. rewrite Hg. destruct Hf as [Ha _]. cbn [read_nested] in Ha. unfold kept in Ht1.
    destruct (assoc_get "mcpServers" root) as [[| | | | |[|x s]]|] eqn:E; try done. rewrite Ha. f_equal. by apply assoc_set_id. }
  rewrite Hs. cbn [fst snd]. unfold strip_hooks. rewrite assoc_get_set, String.eqb_refl.
  assert (Hh : pruneUserPromptSubmitHook (assoc_set "UserPromptSubmit" (JArr ms') hooks) = (true, hooks)).
  { unfold pruneUserPromptSubmitHook. rewrite assoc_get_set, String.eqb_refl, Hp. cbn [negb]. subst ms.
    destruct (assoc_get "UserPromptSubmit" hooks) as [[| | | |[|x l]|]|] eqn:E; try done; cbn [as_list].
    - by rewrite assoc_set_set, assoc_set_id.
    - by rewrite assoc_del_set. }
  rewrite Hh. cbn [fst snd orb]. f_equal. by apply put_nested.
Qed.

(** A file that holds [o] holds what the removal leaves of it afterwards. *)
Lemma remove_restores h path w mode root o : path ≠ "" → h_dir h path = false → read_fault w path = false →
  files w !! path = Some (File mode (render_object o)) → storable (JObj o) → strip_entries o = (true, root) →
  fresh_temp h path (backupFile h path w).2 →
  let '(e, w') := removeJSONMCPEntry h path w in
  e = None → ∃ m, readJSONObject h path w' = Ok m ∧ JObj m = canon (JObj root).
Proof.
  intros Hpath Hdir Hrf Hfile Hst Hstrip Htemp. unfold removeJSONMCPEntry, writeJSONObject.
  assert (Hex : fileExists h path w = true) by (unfold fileExists; by rewrite (proj2 (String.eqb_neq _ _) Hpath), Hdir, Hfile).
  rewrite Hex. cbn [negb]. destruct (read_written h path o w mode Hst Hrf Hfile) as (m & Hm & Hc). rewrite Hm.
  pose proof (read_storable h path w m Hm) as Hstm.
  assert (Hst2 : storable (JObj (strip_entries m).2)) by (by apply storable_fits, fits_strip, storable_fits).
  assert (Hsame : same (JObj m) (JObj o)) by (unfold same; split_and!; [apply Hstm|apply Hst|by rewrite Hc, canon_idem]).
  destruct (same_strip m o Hsame) as [H1 (_ & _ & H2)]. rewrite Hstrip in H1, H2. cbn [fst snd] in H1, H2.
  destruct (strip_entries m) as [changed o2] eqn:Es. cbn [fst snd] in *. subst changed. cbn [negb].
  destruct (backupFile_cases h path w) as (B1 & B2 & _). destruct (backupFile h path w) as [[b|e] w1]; [|done]. cbn [snd] in *.
  destruct (writeFileAtomic_cases h path (render_object o2) newConfigMode w1 Htemp) as [W1 W2].
  destruct (writeFileAtomic h path _ newConfigMode w1) as [[[]|e] w2]; [|done]. cbn [snd] in *. intros _.
  destruct (read_written h path o2 w2 (mode_of path w1 newConfigMode) Hst2) as (m2 & Hm2 & Hc2); [congruence|rewrite W1; by rewrite lookup_insert_eq|].
  exists m2. split; [done|]. by rewrite Hc2.
Qed.

(** the changes of an object that an installation makes ([claude_Write] makes both) *)
Definition register_hook (spec : Spec) (root : gomap) : bool * gomap :=
  if negb (needsHookUpdate root (sp_HookCommand spec)) then (false, root)
  else (true, mergeUserPromptSubmitHook (sp_HookCommand spec) root).
Inductive registration (spec : Spec) : (gomap → bool * gomap) → Prop :=
| reg_server : registration spec (setMCPServerEntry spec)
| reg_hook : registration spec (register_hook spec).

Lemma registration_strips spec mutate root : registration spec mutate → sp_Key spec = "a2a" → spec_ok spec →
  Base (sp_HookCommand spec) = hook_script → valid_utf8 (sp_HookCommand spec) = true → tidy root = true → foreign root → storable (JObj root) →
  ∃ o, mutate root = (true, o) ∧ strip_entries o = (true, root) ∧ storable (JObj o).
Proof.
  intros Hr Hk Hs Hb Hv Ht Hf Hst. destruct Hr.
  - destruct (strip_set_entry spec root Hk Ht Hf) as [Hc He]. pose proof (storable_set_entry spec root Hs Hst) as Ho.
    destruct (setMCPServerEntry spec root) as [c o]. cbn [fst snd] in *. subst c. by exists o.
  - destruct (strip_merge _ root Hb Ht Hf) as [Hn He]. unfold register_hook. rewrite Hn. cbn [negb]. eexists. split_and!; [done|done|].
    apply storable_fits, fits_merge; [by vm_compute|done|by apply storable_fits].
Qed.

(** C24: Uninstalling undoes installing: when a registration of the server or of the
    prompt hook was written to a configuration file that held nothing of the
    program, the removal either fails or leaves a file that reads back as exactly
    the object the user had before, up to the order of members in which it is
    written. The object must be [tidy]: what the removal also discards (an empty
    [mcpServers], [hooks] or [UserPromptSubmit], one that has another type, a hook
    group without hooks) does not come back. *)
Theorem uninstall_restores (h h2 : host) (name path : string) (spec : Spec) mutate (w : fs) (root : list (string * json))
    (Hreg : registration spec mutate) (Hkey : sp_Key spec = "a2a") (Hspec : spec_ok spec)
    (Hhook : Base (sp_HookCommand spec) = hook_script ∧ valid_utf8 (sp_HookCommand spec) = true)
    (Hpath : path ≠ "") (Hread : readJSONObject h path w = Ok root) (Htidy : tidy root = true) (Hfor : foreign root)
    (Hfault : read_fault w path = false)
    (Hdir : h_dir h2 path = false) (Htemp : fresh_temp h path w ∧ fresh_temp h path (backupFile h path w).2) :
  let '(r, w1) := writeJSONConfig h name path false mutate w in
  let '(e, w2) := removeJSONMCPEntry h2 path w1 in
  fresh_temp h2 path (backupFile h2 path w1).2 → rs_Error r = None → e = None →
  ∃ m, readJSONObject h2 path w2 = Ok m ∧ JObj m = canon (JObj root).
Proof.
  destruct Htemp as [Ht1 Ht2]. destruct Hhook as [Hb Hv]. pose proof (read_storable h path w root Hread) as Hst.
  destruct (registration_strips spec mutate root Hreg Hkey Hspec Hb Hv Htidy Hfor Hst) as (o & Hmut & Hstrip & Hsto).
  unfold writeJSONConfig. rewrite (proj2 (String.eqb_neq _ _) Hpath), Hread, Hmut. cbn [negb].
  set (res := with_path path (fileExists h path w) (result0 name false)).
  pose proof (commit_cases h path (render_object o) false res w eq_refl eq_refl eq_refl Ht1 Ht2) as Hc.
  destruct (commit h path (render_object o) false res w) as [r w1]. destruct Hc as (_ & _ & C3 & _ & C5).
  pose proof (λ Hfile, remove_restores h2 path w1 (mode_of path w newConfigMode) root o Hpath Hdir (eq_trans (f_equal (λ f, f path) C3) Hfault) Hfile Hsto Hstrip) as Hrem.
  destruct (removeJSONMCPEntry h2 path w1) as [e w2]. intros Ht He He2. rewrite He in C5. destruct C5 as [_ [Hfile _]]. by apply Hrem.
Qed.

(** a user's file with a server and a prompt hook of their own *)
Definition users_settings : fs :=
  FS {[ "/h/.claude/settings.json" := File 420 (bq "{ // mine
 `theme`: `dark`, `mcpServers`: {`db`: {`command`: `/bin/db`}},
 `hooks`: {`UserPromptSubmit`: [{`matcher`: `*`, `hooks`: [{`type`: `command`, `command`: `/h/mine.sh`}]}]}, }") ]}
    (λ _, false) (λ _, None) (λ _, false).
Definition users_object : list (string * json) :=
  [("theme", JStr "dark"); ("mcpServers", JObj [("db", JObj [("command", JStr "/bin/db")])]);
   ("hooks", JObj [("UserPromptSubmit", JArr [JObj [("matcher", JStr "*");
      ("hooks", JArr [JObj [("type", JStr "command"); ("command", JStr "/h/mine.sh")]])]])])].

Lemma uninstall_restores_witness :
  let spec := MkSpec "a2a" "/bin/a2abridge" [("A2A_BIND", "127.0.0.1:0")] "/h/.claude/hooks/a2a-inbox-hook.sh" in
  let out := writeJSONConfig sample_host "Claude Code" "/h/.claude/settings.json" false (register_hook spec) users_settings in
  readJSONObject sample_host "/h/.claude/settings.json" out.2 ≠ Ok users_object ∧
  ∃ m, readJSONObject sample_host "/h/.claude/settings.json" (removeJSONMCPEntry sample_host "/h/.claude/settings.json" out.2).2 = Ok m ∧
    JObj m = canon (JObj users_object).
Proof.
  cbv zeta. split; [by vm_compute|]. set (spec := MkSpec _ _ _ _).
  assert (Hspec : spec_ok spec).
  { split_and!; [by vm_compute|by vm_compute|apply (bool_decide_unpack _); vm_compute; exact I|repeat constructor; by vm_compute]. }
  assert (Ht : fresh_temp sample_host "/h/.claude/settings.json" users_settings ∧
    fresh_temp sample_host "/h/.claude/settings.json" (backupFile sample_host "/h/.claude/settings.json" users_settings).2).
  { split; intros t [= <-]; (split; [by vm_compute|done]). }
  pose proof (uninstall_restores sample_host sample_host "Claude Code" "/h/.claude/settings.json" spec (register_hook spec) users_settings users_object
    (reg_hook spec) eq_refl Hspec ltac:(split; vm_compute; reflexivity) ltac:(done) ltac:(vm_compute; reflexivity)
    ltac:(vm_compute; reflexivity) ltac:(split; vm_compute; reflexivity) eq_refl eq_refl Ht) as Hu.
  assert (Hok : rs_Error (writeJSONConfig sample_host "Claude Code" "/h/.claude/settings.json" false (register_hook spec) users_settings).1 = None)
    by (vm_compute; reflexivity).
  assert (Hok2 : (removeJSONMCPEntry sample_host "/h/.claude/settings.json"
    (writeJSONConfig sample_host "Claude Code" "/h/.claude/settings.json" false (register_hook spec) users_settings).2).1 = None) by (vm_compute; reflexivity).
  assert (Hf2 : fresh_temp sample_host "/h/.claude/settings.json" (backupFile sample_host "/h/.claude/settings.json"
    (writeJSONConfig sample_host "Claude Code" "/h/.claude/settings.json" false (register_hook spec) users_settings).2).2).
  { intros t [= <-]; (split; [by vm_compute|done]). }
  destruct (writeJSONConfig sample_host "Claude Code" "/h/.claude/settings.json" false (register_hook spec) users_settings) as [r w1]. cbn [fst snd] in *.
  destruct (removeJSONMCPEntry sample_host "/h/.claude/settings.json" w1) as [e w2]. cbn [fst snd] in *. by apply Hu.
Defined.
