(* ===== verification/Doctor.v ===== *)
(** The command doctor ([internal/cli/doctor.go]). *)
From Stdlib Require Import Ascii.
From stdpp Require Import base list strings gmap sets.
From S2P Require Import BuildInfo Peers.
From S2P Require Import Prelude GoStrings Json A2A GoFS GoTree GoExec Jsonc IdeConfig GoFlag GoFmt Console Assets Writers Install.

Open Scope string_scope.
Open Scope Z_scope.
Open Scope list_scope.

Inductive level := PASS | WARN | FAIL.
#[export] Instance level_eq_dec : EqDecision level.
Proof. solve_decision. Defined.
Definition level_text (l : level) : string := match l with PASS => "PASS" | WARN => "WARN" | FAIL => "FAIL" end.

(* src/internal/cli/doctor.go (checkResult) *)
Record checkResult := CheckResult { cr_Name : string; cr_Status : level; cr_Detail : string; cr_Hint : string }.

(** What a request to the directory comes to: it cannot be made, it gets no answer
    in time, or the status and what the body yields. *)
Inductive ping := BadRequest (e : goerror) | Unreachable (e : goerror) | Answered (status : Z) (body : string).
Class Network := {
  http_ping : string → ping;
  decode_error : string → goerror }.

Section doctor.
Context `{TOML} `{Network} `{System}.

(* src/internal/cli/doctor.go (checkBinary) *)
Definition checkBinary : checkResult :=
  match Executable with
  | Err e => CheckResult "binary" WARN ("cannot resolve own path: " +:+ e_text e) ""
  | Ok exe => CheckResult "binary" PASS exe ""
  end.

(** [json.NewDecoder(body).Decode(&peers)] into a list of maps; how many *)
(* src/internal/cli/doctor.go:107-110 (checkDirectoryReachable) *)
Definition decode_peers (body : string) : option nat :=
  match decode_prefix body with
  | Some (JNull, _) => Some O
  | Some (JArr l, _) =>
      if forallb (λ v, match v with JObj _ | JNull => true | _ => false end) l then Some (length l) else None
  | _ => None
  end.

(* src/internal/cli/doctor.go (checkDirectoryReachable) *)
Definition checkDirectoryReachable (url : string) : checkResult :=
  match http_ping (Peers.trim_slashes url +:+ "/agents") with
  | BadRequest e => CheckResult "directory" FAIL (e_text e) ""
  | Unreachable e =>
      CheckResult "directory" FAIL (url +:+ " unreachable (" +:+ e_text e +:+ ")") "a2abridge service install && a2abridge service start"
  | Answered status body =>
      if negb (Z.quot status 100 =? 2) then CheckResult "directory" FAIL (url +:+ " returned " +:+ itoa status) "" else
      match decode_peers body with
      | None => CheckResult "directory" WARN ("invalid JSON response: " +:+ e_text (decode_error body)) ""
      | Some n => CheckResult "directory" PASS (url +:+ " reachable, " +:+ itoa (Z.of_nat n) +:+ " peer(s) registered") ""
      end
  end.

(* src/internal/cli/doctor.go (currentExe) *)
Definition currentExe : string := match Executable with Ok e => e | Err _ => "a2abridge" end.

(* src/internal/cli/doctor.go:123-165 (checkIDEs) *)
Definition checkIDE (x : Writer) (t : tree) : checkResult :=
  let name := "ide:" +:+ Name x in
  let path := Detect x (host_at t) (t_fs t) in
  if String.eqb path "" then CheckResult name WARN "not detected on this machine" "" else
  let res := (Write x (DefaultSpec currentExe) true (host_at t) (t_fs t)).1 in
  let path := if negb (String.eqb (rs_Path res) "") then rs_Path res else path in
  let fix_it := "a2abridge install --apply --ide " +:+ writerSlug x in
  match rs_Error res with
  | Some e =>
      if errors_is e ErrIDENotInstalled then CheckResult name WARN (e_text e) ""
      else CheckResult name FAIL (e_text e) fix_it
  | None =>
      if rs_Skipped res then CheckResult name PASS ("MCP block present at " +:+ path) ""
      else CheckResult name WARN ("config exists at " +:+ path +:+ " but a2a MCP block is missing or stale") fix_it
  end.

(** every writer in turn; each leaves the files as they are ([Write_dry]) *)
(* src/internal/cli/doctor.go (checkIDEs) *)
Fixpoint check_writers (l : list Writer) : ST tree (list checkResult) := λ t,
  match l with
  | [] => ([], t)
  | x :: l =>
      let r := checkIDE x t in
      let t := if String.eqb (Detect x (host_at t) (t_fs t)) "" then t
               else set_fs (Write x (DefaultSpec currentExe) true (host_at t) (t_fs t)).2 t in
      let '(rs, t) := check_writers l t in (r :: rs, t)
  end.
Definition checkIDEs : ST tree (list checkResult) := check_writers AllWriters.

(* src/internal/cli/doctor.go (homeDirOnce) *)
Definition homeDirOnce : result goerror string := UserHomeDir.

(* src/internal/cli/doctor.go (fileExistsAt) *)
Definition fileExistsAt (p : string) (t : tree) : bool :=
  if String.eqb p "" then false else match Stat p t with Ok dir => negb dir | Err _ => false end.

(* src/internal/cli/doctor.go (checkSkill) *)
Definition checkSkill (t : tree) : checkResult :=
  match homeDirOnce with
  | Err e => CheckResult "skill" WARN (e_text e) ""
  | Ok h =>
      let skill := Join [h; ".claude"; "skills"; "a2a-bridge"; "SKILL.md"] in
      if negb (fileExistsAt skill t) then
        CheckResult "skill" WARN ("skill not installed at " +:+ skill) "a2abridge install --apply  (drops the skill alongside MCP configs)"
      else CheckResult "skill" PASS skill ""
  end.

(** the permission bits of a path the system shows *)
(* src/internal/cli/doctor.go:200-201 (checkHook) *)
Definition perm (p : string) (t : tree) : option Z :=
  if is_ok (Stat p t) then f_mode <$> files (t_fs t) !! p else None.

(* src/internal/cli/doctor.go (checkHook) *)
Definition checkHook (t : tree) : checkResult :=
  match homeDirOnce with
  | Err e => CheckResult "hook" WARN (e_text e) ""
  | Ok h =>
      let hook := Join [h; ".claude"; "hooks"; "a2a-inbox-hook.sh"] in
      if negb (fileExistsAt hook t) then
        CheckResult "hook" WARN ("UserPromptSubmit hook not installed at " +:+ hook) "a2abridge install --apply  (writes the hook)"
      else
        let not_executable := match perm hook t with Some mode => Z.land mode 73 =? 0 | None => false end in
        if negb (String.eqb goos "windows") && not_executable then
          CheckResult "hook" WARN (hook +:+ " is present but not executable") ("chmod +x " +:+ hook)
        else CheckResult "hook" PASS hook ""
  end.

(** the worse of the two *)
(* src/internal/cli/doctor.go:215-222 (printResults) *)
Definition worsen (worst : level) (r : checkResult) : level :=
  match cr_Status r with
  | FAIL => FAIL
  | WARN => match worst with FAIL => FAIL | _ => WARN end
  | PASS => worst
  end.

(* src/internal/cli/doctor.go (printResults) *)
Fixpoint printResults (worst : level) (results : list checkResult) : IOW level :=
  match results with
  | [] => mret worst
  | r :: results =>
      _ ← out ("  [" +:+ level_text (cr_Status r) +:+ "] " +:+ pad 22 (cr_Name r) +:+ " " +:+ cr_Detail r);
      _ ← when (negb (String.eqb (cr_Hint r) "")) (out ("         " +:+ pad 22 "" +:+ "   ↳ fix: " +:+ cr_Hint r));
      printResults (worsen worst r) results
  end.

(* src/internal/cli/doctor.go:43-50 (RunDoctor) *)
Definition doctor_usage : list string :=
  ["Usage: a2abridge doctor [flags]"; "";
   "Runs a battery of health checks: directory daemon liveness, IDE";
   "configs, skill and hooks installation. Exits non-zero on FAIL."; ""] ++ PrintDefaults "doctor".

(** all the checks, in the order they are printed *)
(* src/internal/cli/doctor.go:58-63 (RunDoctor) *)
Definition run_checks (directoryURL : string) : ST tree (list checkResult) :=
  ides ← checkIDEs;
  t ← Prelude.get;
  mret ([checkBinary; checkDirectoryReachable directoryURL] ++ ides ++ [checkSkill t; checkHook t]).

(* src/internal/cli/doctor.go (RunDoctor) *)
Definition RunDoctor (args : list string) : IOW Z :=
  with_flags "doctor" doctor_usage [("directory", false)] args (λ values _,
    results ← on_tree (run_checks (flag values "directory" "http://127.0.0.1:7777"));
    worst ← printResults PASS results;
    _ ← out "";
    _ ← out ("platform: " +:+ goos +:+ "/" +:+ goarch +:+ ", go: " +:+ go_version +:+ ", a2abridge: " +:+ BuildInfo.Version build_info);
    mret (match worst with FAIL => 1 | _ => 0 end)).

(** * What the command promises *)

Lemma check_writers_tree l t : (check_writers l t).2 = t.
Proof.
  revert t. induction l as [|x l IH]; intros t; [done|]. cbn [check_writers].
  set (t1 := if String.eqb _ "" then t else _). assert (Ht : t1 = t).
  { unfold t1. destruct (String.eqb _ ""); [done|]. rewrite Write_dry. by destruct t. }
  specialize (IH t1). destruct (check_writers l t1) as [rs t2]. cbn in *. congruence.
Qed.

Lemma check_writers_results l t : (check_writers l t).1 = map (λ x, checkIDE x t) l.
Proof.
  revert t. induction l as [|x l IH]; intros t; [done|]. cbn [check_writers map].
  set (t1 := if String.eqb _ "" then t else _). assert (Ht : t1 = t).
  { unfold t1. destruct (String.eqb _ ""); [done|]. rewrite Write_dry. by destruct t. }
  specialize (IH t1). destruct (check_writers l t1) as [rs t2]. cbn in *. by rewrite IH, Ht.
Qed.

Definition all_checks (url : string) (t : tree) : list checkResult :=
  [checkBinary; checkDirectoryReachable url] ++ map (λ x, checkIDE x t) AllWriters ++ [checkSkill t; checkHook t].

Lemma run_checks_spec url t : run_checks url t = (all_checks url t, t).
Proof.
  unfold run_checks, checkIDEs. rewrite ST_bind_run. unfold eval, exec. rewrite check_writers_tree, check_writers_results. done.
Qed.

(** the worst level of the checks *)
Definition any (l : level) (rs : list checkResult) : bool := existsb (λ r, bool_decide (cr_Status r = l)) rs.

Lemma printResults_spec worst rs w : let r := printResults worst rs w in
  (r.1 = FAIL ↔ worst = FAIL ∨ any FAIL rs = true) ∧ w_tree r.2 = w_tree w ∧ w_acts r.2 = w_acts w ∧ w_svc r.2 = w_svc w.
Proof.
  revert worst w. induction rs as [|r rs IH]; intros worst w; [cbn; split_and!; [|done..]; split; [by left|by intros [?|?]]|].
  cbn [printResults]. rewrite !ST_bind_run. cbv zeta. set (w1 := exec (when _ _) _).
  assert (Hw : w_tree w1 = w_tree w ∧ w_acts w1 = w_acts w ∧ w_svc w1 = w_svc w) by (unfold w1; by destruct (negb _)).
  destruct (IH (worsen worst r) w1) as (P1 & P2 & P3 & P4). destruct Hw as (E1 & E2 & E3). rewrite <-E1, <-E2, <-E3. split_and!; [|done..].
  change (_ ↔ _) with ((printResults (worsen worst r) rs w1).1 = FAIL ↔ worst = FAIL ∨ any FAIL (r :: rs) = true). rewrite P1.
  unfold any. cbn [existsb]. rewrite orb_true_iff, bool_decide_eq_true. unfold worsen. destruct (cr_Status r), worst; naive_solver.
Qed.

Lemma any_app l rs rs' : any l (rs ++ rs') = any l rs || any l rs'.
Proof. apply existsb_app. Qed.

Lemma checkSkill_no_FAIL t : cr_Status (checkSkill t) ≠ FAIL.
Proof. unfold checkSkill. destruct homeDirOnce; [|done]. cbv zeta. by destruct (negb _). Qed.
Lemma checkHook_no_FAIL t : cr_Status (checkHook t) ≠ FAIL.
Proof. unfold checkHook. destruct homeDirOnce; [|done]. cbv zeta. destruct (negb _); [done|]. by destruct (_ && _). Qed.

(** a directory that answers with success *)
Definition directory_answers (url : string) : bool :=
  match http_ping (trim_slashes url +:+ "/agents") with Answered status _ => Z.quot status 100 =? 2 | _ => false end.
(** a detected IDE whose configuration the program cannot handle *)
Definition broken_config (x : Writer) (t : tree) : bool :=
  negb (String.eqb (Detect x (host_at t) (t_fs t)) "") &&
  match rs_Error (Write x (DefaultSpec currentExe) true (host_at t) (t_fs t)).1 with
  | Some e => negb (errors_is e ErrIDENotInstalled)
  | None => false
  end.

Lemma checkIDE_FAIL x t : cr_Status (checkIDE x t) = FAIL ↔ broken_config x t = true.
Proof.
  unfold checkIDE, broken_config. cbv zeta. destruct (String.eqb _ ""); [done|]. cbn [negb andb].
  destruct (rs_Error _) as [e|]; [|by destruct (rs_Skipped _)]. by destruct (errors_is e _).
Qed.

Lemma checkDirectory_FAIL url : cr_Status (checkDirectoryReachable url) = FAIL ↔ directory_answers url = false.
Proof.
  unfold checkDirectoryReachable, directory_answers. destruct (http_ping _) as [e|e|status body]; try done.
  destruct (Z.quot status 100 =? 2); cbn [negb]; [|done]. by destruct (decode_peers body).
Qed.

(** the exit code in every case *)
Lemma doctor_code (args : list string) (w : world) :
  let r := RunDoctor args w in
  w_tree r.2 = w_tree w ∧ w_acts r.2 = w_acts w ∧ w_svc r.2 = w_svc w ∧
  ∀ values rest, Parse [("directory", false)] [] args = Flags values rest →
    let url := flag values "directory" "http://127.0.0.1:7777" in
    r.1 = if directory_answers url && negb (existsb (λ x, broken_config x (w_tree w)) AllWriters) then 0 else 1.
Proof.
  cbv zeta. assert (Hbody : ∀ values, let url := flag values "directory" "http://127.0.0.1:7777" in
    let r := (results ← on_tree (run_checks url); worst ← printResults PASS results; _ ← out "";
      _ ← out ("platform: " +:+ goos +:+ "/" +:+ goarch +:+ ", go: " +:+ go_version +:+ ", a2abridge: " +:+ BuildInfo.Version build_info);
      mret (match worst with FAIL => 1 | _ => 0 end) : IOW Z) w in
    w_tree r.2 = w_tree w ∧ w_acts r.2 = w_acts w ∧ w_svc r.2 = w_svc w ∧
    r.1 = if directory_answers url && negb (existsb (λ x, broken_config x (w_tree w)) AllWriters) then 0 else 1).
  { intros values. cbv zeta. set (url := flag values _ _). rewrite ST_bind_run. cbv beta. unfold eval, exec, on_tree. rewrite run_checks_spec.
    set (w1 := World _ _ _ _). assert (Hw : w_tree w1 = w_tree w ∧ w_acts w1 = w_acts w ∧ w_svc w1 = w_svc w) by done. clearbody w1.
    destruct (printResults_spec PASS (all_checks url (w_tree w)) w1) as (P1 & P2 & P3 & P4). rewrite ST_bind_run. cbv beta. unfold eval, exec.
    cbn [fst snd]. destruct (printResults PASS _ w1) as [worst w2]. cbn [fst snd] in *. destruct Hw as (E1 & E2 & E3).
    split_and!; [change (w_tree w2 = w_tree w); congruence|change (w_acts w2 = w_acts w); congruence|change (w_svc w2 = w_svc w); congruence|].
    match goal with |- _ = ?b => change ((match worst with FAIL => 1 | _ => 0 end) = b) end.
    assert (Hany : any FAIL (all_checks url (w_tree w)) = negb (directory_answers url && negb (existsb (λ x, broken_config x (w_tree w)) AllWriters))).
    { unfold all_checks. rewrite !any_app. unfold any at 1. cbn [existsb].
      assert (Hb : bool_decide (cr_Status checkBinary = FAIL) = false) by (unfold checkBinary; by destruct Executable).
      assert (Hd : bool_decide (cr_Status (checkDirectoryReachable url) = FAIL) = negb (directory_answers url)).
      { pose proof (checkDirectory_FAIL url). destruct (directory_answers url); [apply bool_decide_eq_false|apply bool_decide_eq_true]; naive_solver. }
      assert (Hl : any FAIL [checkSkill (w_tree w); checkHook (w_tree w)] = false).
      { unfold any. cbn [existsb]. rewrite (bool_decide_false _ (checkSkill_no_FAIL _)), (bool_decide_false _ (checkHook_no_FAIL _)). done. }
      assert (Hi : any FAIL (map (λ x, checkIDE x (w_tree w)) AllWriters) = existsb (λ x, broken_config x (w_tree w)) AllWriters).
      { unfold any. induction AllWriters as [|x l IH]; [done|]. cbn [map existsb]. rewrite IH. f_equal. pose proof (checkIDE_FAIL x (w_tree w)).
        destruct (broken_config x (w_tree w)); [apply bool_decide_eq_true|apply bool_decide_eq_false]; naive_solver. }
      rewrite Hb, Hd, Hl, Hi. cbn [orb]. rewrite !orb_false_r. by rewrite negb_andb, negb_involutive. }
    rewrite Hany in P1. destruct (directory_answers url && _); cbn [negb] in P1.
    - destruct worst; try done. exfalso. by destruct (proj1 P1 eq_refl).
    - by rewrite (proj2 P1) by auto. }
  unfold RunDoctor, with_flags. destruct (Parse _ [] args) as [values rest| |].
  - destruct (Hbody values) as (B1 & B2 & B3 & B4). split_and!; [exact B1|exact B2|exact B3|]. intros v r [= <- <-]. exact B4.
  - split_and!; try done; apply (keeps_bind _ (print_lines Stderr doctor_usage)); try done; apply _.
  - split_and!; try done; (apply (keeps_bind _ (err _)); [done|]; intros []; apply keeps_bind; [apply _|done]).
Qed.

(** Beside the comment of [checkDirectoryReachable]: a directory that answers with
    an error, or not in time, is a FAIL and the command exits with 1. *)
Lemma directory_error_fails (args : list string) (values : list (string * string)) (rest : list string) (w : world) :
  Parse [("directory", false)] [] args = Flags values rest →
  directory_answers (flag values "directory" "http://127.0.0.1:7777") = false → (RunDoctor args w).1 = 1.
Proof. intros Ha Hd. destruct (doctor_code args w) as (_ & _ & _ & Hc). rewrite (Hc values rest Ha). by rewrite Hd. Qed.

(** C30: The health check changes no file, runs no command and calls no service.
    When the directory answers with success, its body decides between PASS (a list
    of peers) and WARN (anything else), and the command returns 1 exactly when the
    configuration of a detected IDE cannot be read; everything else, a missing
    registration, skill or hook included, is at most a warning. A configuration
    that cannot be read makes it return 1 whatever the directory does. *)
Theorem RunDoctor_spec (args : list string) (w : world) :
  let r := RunDoctor args w in
  w_tree r.2 = w_tree w ∧ w_acts r.2 = w_acts w ∧ w_svc r.2 = w_svc w ∧
  cr_Status (checkSkill (w_tree w)) ≠ FAIL ∧ cr_Status (checkHook (w_tree w)) ≠ FAIL ∧
  (∀ x, cr_Status (checkIDE x (w_tree w)) = FAIL ↔ broken_config x (w_tree w) = true) ∧
  ∀ values rest, Parse [("directory", false)] [] args = Flags values rest →
    let url := flag values "directory" "http://127.0.0.1:7777" in
    let broken := existsb (λ x, broken_config x (w_tree w)) AllWriters in
    (broken = true → r.1 = 1) ∧
    match http_ping (trim_slashes url +:+ "/agents") with
    | Answered status body =>
        Z.quot status 100 = 2 →
          cr_Status (checkDirectoryReachable url) = match decode_peers body with Some _ => PASS | None => WARN end ∧
          r.1 = if broken then 1 else 0
    | _ => True
    end.
Proof.
  cbv zeta. destruct (doctor_code args w) as (Ht & Ha & Hs & Hc).
  split_and!; [done..|apply checkSkill_no_FAIL|apply checkHook_no_FAIL|intros x; apply checkIDE_FAIL|].
  intros values rest Hargs. specialize (Hc values rest Hargs). cbv zeta in Hc. rewrite Hc. clear Hc.
  set (broken := existsb _ _). clearbody broken. set (url := flag values _ _). split.
  - intros ->. by rewrite andb_false_r.
  - unfold checkDirectoryReachable, directory_answers. destruct (http_ping _) as [e|e|status body]; [done..|].
    intros ->. cbn [Z.eqb Pos.eqb negb]. split; [by destruct (decode_peers body)|by destruct broken].
Qed.
End doctor.

(** ** What does not hold *)

Definition sample_network : Network := {| http_ping _ := Answered 200 "[]"; decode_error _ := errors_new "json" |}.

(** a machine on which the program is started through a link *)
Definition linked_system : System := {|
  goos := "darwin"; goarch := "arm64"; go_version := "go1.24"; module_path := "a2abridge"; linked_info := MkInfo "4.0.0" "" "";
  read_build_info := None; UserHomeDir := Ok "/h"; appdata := ""; Getenv _ := ""; Executable := Ok "/usr/local/bin/a2abridge";
  EvalSymlinks _ := Ok "/opt/a2abridge/a2abridge"; Abs p := Ok p; Hostname := Ok "host"; LookPath _ := true; now_stamp _ := sample_stamp;
  mkdir_fault _ _ := false; temp_name _ _ := Some "/h/.cursor/tmp"; chmod_fault _ := false; close_fault _ := false;
  path_error p := errors_new p; json_error _ := errors_new "json"; run_answer _ _ := quiet_outcome; service_answer _ _ := None;
  service_state _ _ := StatusRunning; PrintDefaults _ := []; flag_error _ _ := "bad flag"; system_tables := ascii_tables |}.

(** The status of an IDE after an installation that succeeded. *)
Definition status_after (s : System) (args : list string) : Z * level :=
  let r := @RunInstall json_toml sample_assets s args (World sample_tree [] [] []) in
  (r.1, cr_Status (@checkIDE json_toml s cursorWriter (w_tree r.2))).

Lemma doctor_after_install : status_after sample_system ["--apply"; "--ide"; "cursor"] = (0, PASS).
Proof. vm_compute. reflexivity. Qed.

(** The check compares with the path the program was started by and with the default
    directory, the installation writes the resolved path and the directory given:
    what was just installed counts as missing or stale. *)
Lemma doctor_stale :
  status_after linked_system ["--apply"; "--ide"; "cursor"] = (0, WARN) ∧
  status_after sample_system ["--apply"; "--ide"; "cursor"; "--directory"; "http://10.0.0.1:7777"] = (0, WARN).
Proof. vm_compute. done. Qed.

Lemma RunDoctor_spec_witness :
  let r := @RunDoctor json_toml sample_network sample_system ["--directory"; "http://127.0.0.1:7777/"] (World sample_tree [] [] []) in
  r.1 = 0 ∧ w_tree r.2 = sample_tree.
Proof.
  cbv zeta. destruct (@RunDoctor_spec json_toml sample_network sample_system ["--directory"; "http://127.0.0.1:7777/"] (World sample_tree [] [] []))
    as (Ht & _ & _ & _ & _ & _ & Hc).
  split; [|exact Ht]. destruct (Hc [("directory", "http://127.0.0.1:7777/")] [] ltac:(vm_compute; reflexivity)) as [_ Hr].
  destruct (Hr ltac:(vm_compute; reflexivity)) as [_ He]. rewrite He. vm_compute. reflexivity.
Defined.
