(* ===== verification/Worker.v ===== *)
(** The command worker ([internal/cli/worker.go]): an agent in a tmux session. *)
From Stdlib Require Import Ascii.
From stdpp Require Import base list strings gmap sets.
From S2P Require Import BuildInfo.
From S2P Require Import Prelude GoStrings GoTime Json A2A GoFS GoTree GoExec GoFlag GoFmt Console.

Open Scope string_scope.
Open Scope Z_scope.
Open Scope list_scope.

(* src/internal/cli/worker.go (defaultWorkerSession) *)
Definition defaultWorkerSession : string := "a2abridge-worker".
(* src/internal/cli/worker.go (defaultWorkerCmd) *)
Definition defaultWorkerCmd : string := "claude".
(* src/internal/cli/worker.go (workerPaneTimeout) *)
Definition workerPaneTimeout : Z := 2 * second.
(* src/internal/cli/worker.go (workerPanePoll) *)
Definition workerPanePoll : Z := 100 * millisecond.
(* src/internal/cli/worker.go (workerSplashDelay) *)
Definition workerSplashDelay : Z := 1500 * millisecond.

Section worker.
Context `{System}.
(** The time on the clock after what was done so far. *)
Variable clock : list action → Z.

Definition tmux (args : list string) : command := Command "tmux" args "" None.
Definition now : IOW Z := λ w, (clock (w_acts w), w).

(** [c.CombinedOutput] *)
Definition combined (o : outcome) : string := o_stdout o +:+ o_stderr o.

(** whether the session is there, and a line about it *)
(* src/internal/cli/worker.go (tmuxHasSession) *)
Definition tmuxHasSession (name : string) : IOW (bool * string) :=
  r ← run_command (tmux ["has-session"; "-t"; name]);
  match o_err r with
  | Some _ => mret (false, "")
  | None =>
      o ← run_command (tmux ["display-message"; "-p"; "-t"; name;
        "#{session_name}: created #{session_created_string}, attached=#{session_attached}, windows=#{session_windows}"]);
      mret (true, o_stdout o)
  end.

(** the polls until a deadline; [false]: the fuel did not suffice *)
(* src/internal/cli/worker.go:206-212 (waitForWorkerPane) *)
Fixpoint poll_pane (fuel : nat) (deadline : Z) (session : string) : IOW bool :=
  t ← now;
  if negb (t <? deadline) then mret true else
  match fuel with
  | O => mret false
  | S fuel =>
      r ← run_command (tmux ["list-panes"; "-t"; session]);
      match o_err r with
      | None => mret true
      | Some _ => _ ← pause workerPanePoll; poll_pane fuel deadline session
      end
  end.

Definition poll_fuel : nat := Z.to_nat (workerPaneTimeout / workerPanePoll).

(* src/internal/cli/worker.go (waitForWorkerPane) *)
Definition waitForWorkerPane (session : string) : IOW bool :=
  t ← now;
  done ← poll_pane poll_fuel (t + workerPaneTimeout) session;
  _ ← pause workerSplashDelay;
  mret done.

(** a command that must succeed; its output is shown when it does not *)
Definition must (c : command) (what : string) : IOW bool :=
  r ← run_command c;
  match o_err r with
  | Some e => _ ← err (what +:+ " failed: " +:+ e_text e); _ ← err (combined r); mret false
  | None => mret true
  end.

(* src/internal/cli/worker.go:112-130 (workerStart) *)
Definition seed_prompt (session prompt : string) : IOW bool :=
  if String.eqb prompt "" then mret true else
  _ ← waitForWorkerPane session;
  ok ← must (tmux ["send-keys"; "-t"; session; "-l"; "--"; prompt]) "tmux send-keys";
  if negb ok then mret false else
  must (tmux ["send-keys"; "-t"; session; "Enter"]) "tmux send-keys (Enter)".

(* src/internal/cli/worker.go (workerStart) *)
Definition workerStart (args : list string) : IOW Z :=
  with_flags "worker start" (default_usage "worker start") [("session", false); ("cmd", false); ("prompt", false)] args (λ values _,
    let session := flag values "session" defaultWorkerSession in
    let cmdName := flag values "cmd" defaultWorkerCmd in
    let prompt := flag values "prompt" "" in
    '(running, info) ← tmuxHasSession session;
    if (running : bool) then _ ← out ("worker already running in tmux session " +:+ Quote session); mret 0 else
    ok ← must (tmux ["new-session"; "-d"; "-s"; session; cmdName]) "tmux new-session";
    if negb ok then mret 1 else
    ok ← seed_prompt session prompt;
    if negb ok then mret 1 else
    _ ← print_lines Stdout ["worker started:"; "  session: " +:+ session; "  cmd:     " +:+ cmdName;
      "  attach:  tmux attach -t " +:+ session; "  stop:    a2abridge worker stop"];
    mret 0).

Definition session_flag : flag_decls := [("session", false)].

(* src/internal/cli/worker.go (workerStop) *)
Definition workerStop (args : list string) : IOW Z :=
  with_flags "worker stop" (default_usage "worker stop") session_flag args (λ values _,
    let session := flag values "session" defaultWorkerSession in
    '(running, info) ← tmuxHasSession session;
    if negb running then _ ← out ("worker not running (no tmux session " +:+ Quote session +:+ ")"); mret 0 else
    ok ← must (tmux ["kill-session"; "-t"; session]) "tmux kill-session";
    if negb ok then mret 1 else
    _ ← out ("worker stopped (session " +:+ Quote session +:+ ")"); mret 0).

(* src/internal/cli/worker.go (workerStatus) *)
Definition workerStatus (args : list string) : IOW Z :=
  with_flags "worker status" (default_usage "worker status") session_flag args (λ values _,
    let session := flag values "session" defaultWorkerSession in
    '(running, info) ← tmuxHasSession session;
    if (running : bool) then
      _ ← print_lines Stdout ["worker:  RUNNING"; "session: " +:+ session; "detail:  " +:+ trim_space info]; mret 0
    else _ ← print_lines Stdout ["worker:  NOT RUNNING"; "session: " +:+ session]; mret 1).

(* src/internal/cli/worker.go (workerAttach) *)
Definition workerAttach (args : list string) : IOW Z :=
  with_flags "worker attach" (default_usage "worker attach") session_flag args (λ values _,
    let session := flag values "session" defaultWorkerSession in
    '(running, info) ← tmuxHasSession session;
    if negb running then _ ← err ("worker not running (no tmux session " +:+ Quote session +:+ ")"); mret 1 else
    _ ← out ("Run: tmux attach -t " +:+ session); mret 0).

(* src/internal/cli/worker.go (printWorkerUsage) *)
Definition printWorkerUsage (s : stream) : IOW unit :=
  print_lines s ["Usage: a2abridge worker <action> [flags]"; ""; "Actions:";
    "  start    Start an always-online Claude worker in a detached tmux session";
    "  stop     Stop the worker (kills the tmux session)";
    "  status   Report whether the worker is running";
    "  attach   Attach the current terminal to the worker tmux session"; "";
    "Useful when you want a peer that survives every IDE restart so other";
    "agents can dispatch tasks to it 24/7. Requires tmux on PATH."].

(* src/internal/cli/worker.go (RunWorker) *)
Definition RunWorker (args : list string) : IOW Z :=
  match args with
  | [] => _ ← printWorkerUsage Stderr; mret 2
  | action :: rest =>
      if String.eqb action "-h" || String.eqb action "--help" then _ ← printWorkerUsage Stdout; mret 0
      else if negb (LookPath "tmux") then
        _ ← err "a2abridge worker: tmux is required (brew install tmux / apt install tmux)"; mret 1
      else if String.eqb action "start" then workerStart rest
      else if String.eqb action "stop" then workerStop rest
      else if String.eqb action "status" then workerStatus rest
      else if String.eqb action "attach" then workerAttach rest
      else _ ← err ("a2abridge worker: unknown action " +:+ Quote action); _ ← err ""; _ ← printWorkerUsage Stderr; mret 2
  end.
End worker.

(** * Starting a worker *)

(** A clock that runs: a pause takes at least its time, a command does not turn it
    back. *)
Record clock_law (clock : list action → Z) : Prop := {
  clock_sleep : ∀ h d, clock h + d ≤ clock (h ++ [Sleep d]);
  clock_exec : ∀ h c, clock h ≤ clock (h ++ [Exec c]) }.

Section start.
Context `{System}.
Variable clock : list action → Z.
Hypothesis Hclock : clock_law clock.

(** the polls for a pane: a command and a pause each, the last one without when it
    found the pane *)
Inductive polls (session : string) : nat → list action → Prop :=
| polls_none : polls session 0 []
| polls_found : polls session 1 [Exec (tmux ["list-panes"; "-t"; session])]
| polls_again n l : polls session n l → polls session (S n) (Exec (tmux ["list-panes"; "-t"; session]) :: Sleep workerPanePoll :: l).

Lemma poll_pane_spec fuel deadline session w : deadline - clock (w_acts w) ≤ Z.of_nat fuel * workerPanePoll →
  let r := poll_pane clock fuel deadline session w in
  r.1 = true ∧ w_tree r.2 = w_tree w ∧ w_log r.2 = w_log w ∧ ∃ n l, (n ≤ fuel)%nat ∧ polls session n l ∧ w_acts r.2 = w_acts w ++ l.
Proof.
  revert w. induction fuel as [|fuel IH]; intros w Hd; cbn [poll_pane]; unfold now; rewrite ST_bind_run; unfold eval, exec; cbn [fst snd].
  - rewrite (proj2 (Z.ltb_ge _ _)) by lia. cbn. split_and!; try done. exists 0%nat, []. split_and!; [lia|constructor|by rewrite app_nil_r].
  - destruct (clock (w_acts w) <? deadline) eqn:Ec; cbn [negb].
    2: { cbn. split_and!; try done. exists 0%nat, []. split_and!; [lia|constructor|by rewrite app_nil_r]. }
    rewrite ST_bind_run. unfold eval, exec, run_command. cbn [fst snd]. set (c := tmux _). destruct (o_err (run_answer (w_acts w) c)) as [e|].
    + rewrite ST_bind_run. cbv beta. set (w1 := exec (pause workerPanePoll) _).
      assert (Ha : w_acts w1 = (w_acts w ++ [Exec c]) ++ [Sleep workerPanePoll]) by done.
      assert (Hw : w_tree w1 = w_tree w ∧ w_log w1 = w_log w) by done. clearbody w1.
      pose proof (clock_exec _ Hclock (w_acts w) c) as C1. pose proof (clock_sleep _ Hclock (w_acts w ++ [Exec c]) workerPanePoll) as C2.
      destruct (IH w1) as (I1 & I2 & I3 & n & l & In & Il & Ia); [rewrite Ha; lia|]. destruct Hw as [Ht Hl]. split_and!; [done|congruence..|].
      exists (S n), (Exec c :: Sleep workerPanePoll :: l). split_and!; [lia|by constructor|]. rewrite Ia, Ha, <-!(assoc_L app). done.
    + cbn. split_and!; try done. exists 1%nat, [Exec c]. split_and!; [lia|constructor|done].
Qed.

(** Waiting for the pane ends: after at most twenty polls, a tenth of a second
    apart, it pauses for the splash screen and returns, whatever tmux answers. *)
Lemma waitForWorkerPane_ends (session : string) (w : world) :
  let r := waitForWorkerPane clock session w in
  r.1 = true ∧ w_tree r.2 = w_tree w ∧ w_log r.2 = w_log w ∧
  ∃ n l, (n ≤ 20)%nat ∧ polls session n l ∧ w_acts r.2 = w_acts w ++ l ++ [Sleep workerSplashDelay].
Proof.
  cbv zeta. unfold waitForWorkerPane, now. rewrite ST_bind_run. unfold eval, exec. cbn [fst snd].
  assert (Hf : poll_fuel = 20%nat) by done. rewrite ST_bind_run. cbv beta. unfold eval, exec.
  destruct (poll_pane_spec poll_fuel (clock (w_acts w) + workerPaneTimeout) session w) as (I1 & I2 & I3 & n & l & In & Il & Ia).
  { rewrite Hf. unfold workerPaneTimeout, workerPanePoll, second, millisecond. lia. }
  destruct (poll_pane _ _ _ _ w) as [b w1]. cbn in I1, I2, I3, Ia. subst b. cbn. split_and!; try done.
  exists n, l. rewrite Hf in In. split_and!; [done|done|].
  change (w_acts w1 ++ [Sleep workerSplashDelay] = w_acts w ++ l ++ [Sleep workerSplashDelay]). by rewrite Ia, <-(assoc_L app).
Qed.

Definition fails (h : list action) (c : command) : bool := match o_err (run_answer h c) with Some _ => true | None => false end.

Lemma must_spec c what w : let r := must c what w in
  r.1 = negb (fails (w_acts w) c) ∧ w_tree r.2 = w_tree w ∧ w_acts r.2 = w_acts w ++ [Exec c].
Proof. cbv zeta. unfold must, fails. rewrite ST_bind_run. unfold eval, exec, run_command. cbn [fst snd]. by destruct (o_err _). Qed.

(** the commands that type a prompt *)
Definition type_cmd (session prompt : string) : command := tmux ["send-keys"; "-t"; session; "-l"; "--"; prompt].
Definition enter_cmd (session : string) : command := tmux ["send-keys"; "-t"; session; "Enter"].

(** what is done after the session was created, and whether it went well *)
Inductive seeded (h : list action) (session prompt : string) : list action → bool → Prop :=
| seeded_nothing : prompt = "" → seeded h session prompt [] true
| seeded_failed n l : prompt ≠ "" → (n ≤ 20)%nat → polls session n l →
    fails (h ++ l ++ [Sleep workerSplashDelay]) (type_cmd session prompt) = true →
    seeded h session prompt (l ++ [Sleep workerSplashDelay; Exec (type_cmd session prompt)]) false
| seeded_typed n l b : prompt ≠ "" → (n ≤ 20)%nat → polls session n l →
    fails (h ++ l ++ [Sleep workerSplashDelay]) (type_cmd session prompt) = false →
    b = negb (fails (h ++ l ++ [Sleep workerSplashDelay; Exec (type_cmd session prompt)]) (enter_cmd session)) →
    seeded h session prompt (l ++ [Sleep workerSplashDelay; Exec (type_cmd session prompt); Exec (enter_cmd session)]) b.

Lemma seed_prompt_spec session prompt w : let r := seed_prompt clock session prompt w in
  w_tree r.2 = w_tree w ∧ ∃ l, w_acts r.2 = w_acts w ++ l ∧ seeded (w_acts w) session prompt l r.1.
Proof.
  cbv zeta. unfold seed_prompt. destruct (String.eqb_spec prompt "") as [Hp|Hp].
  { split; [done|]. exists []. split; [by rewrite app_nil_r|by constructor]. }
  rewrite ST_bind_run. cbv beta. unfold eval, exec. destruct (waitForWorkerPane_ends session w) as (_ & W2 & _ & n & l & Wn & Wl & Wa).
  destruct (waitForWorkerPane clock session w) as [b w1]. cbn [fst snd] in *. rewrite ST_bind_run. cbv beta. unfold eval, exec.
  destruct (must_spec (type_cmd session prompt) "tmux send-keys" w1) as (M1 & M2 & M3). fold (type_cmd session prompt).
  destruct (must (type_cmd session prompt) _ w1) as [ok w2]. cbn [fst snd] in *. rewrite Wa in M1, M3. subst ok.
  destruct (fails _ (type_cmd session prompt)) eqn:E1; cbn [negb].
  - cbn. split; [congruence|]. eexists. split; [|by eapply seeded_failed]. by rewrite M3, <-!(assoc_L app).
  - destruct (must_spec (enter_cmd session) "tmux send-keys (Enter)" w2) as (N1 & N2 & N3). fold (enter_cmd session).
    destruct (must (enter_cmd session) _ w2) as [ok w3]. cbn [fst snd] in *. split; [congruence|].
    assert (Ha : w_acts w2 = w_acts w ++ l ++ [Sleep workerSplashDelay; Exec (type_cmd session prompt)]) by (by rewrite M3, <-!(assoc_L app)).
    rewrite Ha in N1, N3. eexists. split; [|by eapply seeded_typed]. by rewrite N3, <-!(assoc_L app).
Qed.

Definition has_cmd (session : string) : command := tmux ["has-session"; "-t"; session].
Definition new_cmd (session cmdName : string) : command := tmux ["new-session"; "-d"; "-s"; session; cmdName].
Definition display_cmd (session : string) : command := tmux ["display-message"; "-p"; "-t"; session;
  "#{session_name}: created #{session_created_string}, attached=#{session_attached}, windows=#{session_windows}"].

(** everything a start can do, with its exit code *)
Inductive start_run (h : list action) (session cmdName prompt : string) : list action → Z → Prop :=
| start_running : fails h (has_cmd session) = false →
    start_run h session cmdName prompt [Exec (has_cmd session); Exec (display_cmd session)] 0
| start_refused : fails h (has_cmd session) = true → fails (h ++ [Exec (has_cmd session)]) (new_cmd session cmdName) = true →
    start_run h session cmdName prompt [Exec (has_cmd session); Exec (new_cmd session cmdName)] 1
| start_created l ok : fails h (has_cmd session) = true → fails (h ++ [Exec (has_cmd session)]) (new_cmd session cmdName) = false →
    seeded (h ++ [Exec (has_cmd session); Exec (new_cmd session cmdName)]) session prompt l ok →
    start_run h session cmdName prompt (Exec (has_cmd session) :: Exec (new_cmd session cmdName) :: l) (if ok then 0 else 1).

(** C27: Starting a worker never creates a second session; the session is created by
    one command that names the program as a single argument; a prompt is typed at
    most once, after at most twenty polls for the pane and the pause for the splash
    screen, as one literal argument that is neither an option nor a key, and Enter
    is pressed after it by a command of its own. The exit code tells whether every
    command succeeded, and no file is touched. *)
Theorem workerStart_spec (args : list string) (values : list (string * string)) (rest : list string) (w : world)
    (Hargs : Parse [("session", false); ("cmd", false); ("prompt", false)] [] args = Flags values rest) :
  let r := workerStart clock args w in
  w_tree r.2 = w_tree w ∧
  ∃ l, w_acts r.2 = w_acts w ++ l ∧
    start_run (w_acts w) (flag values "session" defaultWorkerSession) (flag values "cmd" defaultWorkerCmd) (flag values "prompt" "") l r.1.
Proof.
  cbv zeta. unfold workerStart, with_flags. rewrite Hargs. set (session := flag values "session" _). set (cmdName := flag values "cmd" _).
  set (prompt := flag values "prompt" ""). rewrite ST_bind_run. cbv beta. unfold eval, exec. unfold tmuxHasSession. rewrite ST_bind_run.
  unfold eval, exec, run_command. cbn [fst snd]. fold (has_cmd session). pose proof (eq_refl (fails (w_acts w) (has_cmd session))) as Ef.
  unfold fails at 2 in Ef. destruct (o_err (run_answer (w_acts w) (has_cmd session))) as [e|].
  - cbn [fst snd mret ST_ret]. set (w1 := World _ _ _ _). assert (Hw : w_tree w1 = w_tree w ∧ w_acts w1 = w_acts w ++ [Exec (has_cmd session)]) by done.
    clearbody w1. destruct Hw as [Ht Ha]. rewrite ST_bind_run. cbv beta. unfold eval, exec. fold (new_cmd session cmdName).
    destruct (must_spec (new_cmd session cmdName) "tmux new-session" w1) as (M1 & M2 & M3).
    destruct (must (new_cmd session cmdName) _ w1) as [ok w2]. cbn [fst snd] in *. rewrite Ha in M1, M3. subst ok.
    destruct (fails _ (new_cmd session cmdName)) eqn:E1; cbn [negb].
    + cbn. split; [congruence|]. eexists. split; [by rewrite M3, <-(assoc_L app)|by apply start_refused].
    + rewrite ST_bind_run. cbv beta. unfold eval, exec. destruct (seed_prompt_spec session prompt w2) as (S1 & l & S2 & S3).
      destruct (seed_prompt clock session prompt w2) as [ok w3]. cbn [fst snd] in *. rewrite <-(assoc_L app) in M3. rewrite M3 in S2, S3.
      assert (Hrun : start_run (w_acts w) session cmdName prompt (Exec (has_cmd session) :: Exec (new_cmd session cmdName) :: l) (if ok then 0 else 1))
        by (by apply start_created).
      rewrite <-(assoc_L app) in S2. destruct ok; cbn [negb].
      * split; [change (w_tree w3 = w_tree w); congruence|]. eexists. split; [exact S2|exact Hrun].
      * cbn. split; [congruence|]. eexists. split; [exact S2|exact Hrun].
  - split; [done|]. exists [Exec (has_cmd session); Exec (display_cmd session)]. split; [|by apply start_running].
    change ((w_acts w ++ [Exec (has_cmd session)]) ++ [Exec (display_cmd session)] = w_acts w ++ [Exec (has_cmd session); Exec (display_cmd session)]).
    by rewrite <-(assoc_L app).
Qed.
End start.

(** a tmux that knows no session until one was created, and needs two polls; its
    clock counts the pauses *)
Definition count_execs (name : string) (h : list action) : nat :=
  length (List.filter (λ a, match a with Exec c => bool_decide (nth 0 (c_args c) "" = name) | _ => false end) h).
Definition sample_tmux (h : list action) (c : command) : outcome :=
  let bad := Outcome "" "" (Some (errors_new "exit status 1")) in
  match nth 0 (c_args c) "" with
  | "has-session" => if (count_execs "new-session" h =? 0)%nat then bad else quiet_outcome
  | "list-panes" => if (count_execs "list-panes" h <? 2)%nat then bad else quiet_outcome
  | _ => quiet_outcome
  end.
Definition sleep_clock (h : list action) : Z := fold_right (λ a t, match a with Sleep d => Z.max 0 d + t | _ => t end) 0 h.
Lemma sleep_clock_law : clock_law sleep_clock.
Proof.
  assert (Happ : ∀ h k, sleep_clock (h ++ k) = sleep_clock h + sleep_clock k).
  { intros h k. unfold sleep_clock. induction h as [|a h IH]; [done|]. cbn [app fold_right]. destruct a; lia. }
  split; intros; rewrite Happ; cbn; lia.
Qed.

Definition tmux_system : System := {|
  goos := "linux"; goarch := "amd64"; go_version := "go1.24"; module_path := "a2abridge"; linked_info := MkInfo "4.0.0" "" "";
  read_build_info := None; UserHomeDir := Ok "/h"; appdata := ""; Getenv _ := ""; Executable := Ok "/bin/a2abridge"; EvalSymlinks p := Ok p;
  Abs p := Ok p; Hostname := Ok "host"; LookPath _ := true; now_stamp _ := sample_stamp; mkdir_fault _ _ := false; temp_name _ _ := None;
  chmod_fault _ := false; close_fault _ := false; path_error p := errors_new p; json_error _ := errors_new "json";
  run_answer := sample_tmux; service_answer _ _ := None; service_state _ _ := StatusRunning;
  PrintDefaults _ := []; flag_error _ _ := "bad flag"; system_tables := ascii_tables |}.

Lemma workerStart_spec_witness :
  let w := World (Tree (FS ∅ (λ _, false) (λ _, None) (λ _, false)) ∅ (λ _, false) (λ _, None)) [] [] [] in
  let r := @workerStart tmux_system sleep_clock ["--prompt"; "-R Enter"; "--session=s"] w in
  r.1 = 0 ∧ length (w_acts r.2) = 10%nat ∧ ∃ l, w_acts r.2 = l ∧ @start_run tmux_system [] "s" "claude" "-R Enter" l 0.
Proof.
  cbv zeta. split; [vm_compute; reflexivity|]. split; [vm_compute; reflexivity|].
  set (w := World _ _ _ _).
  destruct (@workerStart_spec tmux_system sleep_clock sleep_clock_law ["--prompt"; "-R Enter"; "--session=s"]
    [("prompt", "-R Enter"); ("session", "s")] [] w ltac:(vm_compute; reflexivity)) as (_ & l & Hl & Hr).
  exists l. split; [exact Hl|]. assert (Hc : (@workerStart tmux_system sleep_clock ["--prompt"; "-R Enter"; "--session=s"] w).1 = 0) by (vm_compute; reflexivity).
  rewrite Hc in Hr. exact Hr.
Defined.
