(* ===== verification/Cli.v ===== *)
(** The command line ([internal/cli/cli.go], [version.go], [completion.go]): the
    registered commands, their dispatch and their help. *)
From Stdlib Require Import Ascii.
From stdpp Require Import base list strings gmap sets.
From S2P Require Import BuildInfo.
From S2P Require Import Prelude GoStrings GoSort Json A2A GoFS GoTree GoExec GoFlag GoFmt IdeConfig Console Assets Writers Install Cert Service Uninstall Doctor Worker.

Open Scope string_scope.
Open Scope Z_scope.
Open Scope list_scope.

(* src/internal/cli/cli.go (Command) *)
Record Command := MkCommand { cmd_Name : string; cmd_Summary : string; cmd_Run : list string → IOW Z }.

(** one value of a map per key, in the order of registration; [None]: the program
    panics on a name that is taken *)
(* src/internal/cli/cli.go (registerCommand) *)
Definition registerCommand (c : Command) (commands : list Command) : option (list Command) :=
  if existsb (λ x, String.eqb (cmd_Name x) (cmd_Name c)) commands then None else Some (commands ++ [c]).

Fixpoint register_all (l : list Command) (commands : list Command) : option (list Command) :=
  match l with
  | [] => Some commands
  | c :: l => match registerCommand c commands with Some commands => register_all l commands | None => None end
  end.

Definition lookup (name : string) (commands : list Command) : option Command :=
  find (λ c, String.eqb (cmd_Name c) name) commands.
Definition sorted_names (commands : list Command) : list string := isort str_compare (map cmd_Name commands).

(** * Completion *)

(* src/internal/cli/completion.go (subcommandList) *)
Definition subcommandList (names : list string) : list string := isort str_compare names.

Definition lines (l : list string) : string := join "" (map (λ x, x +:+ String nlc "") l).

(* src/internal/cli/completion.go (bashScript) *)
Definition bashScript (cmds : list string) : string :=
  lines ["# a2abridge bash completion"; "_a2abridge_complete() {"; "  local cur"; "  COMPREPLY=()";
    bq "  cur=`${COMP_WORDS[COMP_CWORD]}`"; bq "  if [ `$COMP_CWORD` -eq 1 ]; then";
    bq "    COMPREPLY=( $(compgen -W `" +:+ join " " cmds +:+ bq "` -- `$cur`) )"; "  fi"; "}";
    "complete -F _a2abridge_complete a2abridge"].

(* src/internal/cli/completion.go (zshScript) *)
Definition zshScript (cmds : list string) : string :=
  lines ["#compdef a2abridge"; "# a2abridge zsh completion"; "_a2abridge() {"; "  local -a subcommands";
    "  subcommands=(" +:+ join " " cmds +:+ ")"; "  if (( CURRENT == 2 )); then"; "    _describe 'subcommand' subcommands"; "  fi"; "}";
    "compdef _a2abridge a2abridge"].

(* src/internal/cli/completion.go (fishScript) *)
Definition fishScript (cmds : list string) : string :=
  lines ("# a2abridge fish completion" :: map (λ c, "complete -c a2abridge -f -n '__fish_use_subcommand' -a '" +:+ c +:+ "'") cmds).

(* src/internal/cli/completion.go (powershellScript) *)
Definition powershellScript (cmds : list string) : string :=
  lines ["# a2abridge PowerShell completion"; "Register-ArgumentCompleter -CommandName a2abridge -ScriptBlock {";
    "  param($wordToComplete, $commandAst, $cursorPosition)"; "  $subs = @('" +:+ join "' '" cmds +:+ "')";
    bq "  $subs | Where-Object { $_ -like `$wordToComplete*` } |";
    "    ForEach-Object { [System.Management.Automation.CompletionResult]::new($_, $_, 'ParameterValue', $_) }"; "}"].

Section cli.
Context `{TOML} `{Embedded} `{Crypto} `{Network} `{System}.

(** a whole script on the stream *)
(* src/internal/cli/completion.go (RunCompletion) *)
Definition RunCompletion (names : list string) (args : list string) : IOW Z :=
  match args with
  | [] => _ ← err "Usage: a2abridge completion <bash|zsh|fish|powershell>"; mret 2
  | shell :: _ =>
      let shell := ToLower shell in
      let cmds := isort str_compare (subcommandList names ++ ["help"]) in
      if String.eqb shell "bash" then _ ← out (bashScript cmds); mret 0
      else if String.eqb shell "zsh" then _ ← out (zshScript cmds); mret 0
      else if String.eqb shell "fish" then _ ← out (fishScript cmds); mret 0
      else if String.eqb shell "powershell" || String.eqb shell "pwsh" then _ ← out (powershellScript cmds); mret 0
      else _ ← err ("completion: unsupported shell " +:+ Quote shell +:+ " (want: bash|zsh|fish|powershell)"); mret 2
  end.

(** * Version *)

(* src/internal/cli/version.go (RunVersion) *)
Definition RunVersion (args : list string) : IOW Z :=
  let help := match args with a :: _ => String.eqb a "-h" || String.eqb a "--help" | [] => false end in
  if help then
    _ ← print_lines Stdout ["Usage: a2abridge version"; ""; "Print version, commit, build date, Go runtime and target platform."]; mret 0
  else
    _ ← print_lines Stdout ["a2abridge " +:+ BuildInfo.Version build_info; "commit:    " +:+ Commit build_info;
      "built:     " +:+ BuildDate build_info; "go:        " +:+ go_version; "platform:  " +:+ goos +:+ "/" +:+ goarch];
    mret 0.

(** * Dispatch *)

(* src/internal/cli/cli.go (printUsage) *)
Definition printUsage (commands : list Command) (s : stream) : IOW unit :=
  print_lines s (["a2abridge " +:+ BuildInfo.Version build_info +:+ " — A2A 1.0 protocol bridge for AI coding agents"; "";
    "Usage:"; "  a2abridge <command> [flags]"; ""; "Commands:"] ++
    map (λ n, "  " +:+ pad 12 n +:+ "  " +:+ match lookup n commands with Some c => cmd_Summary c | None => "" end) (sorted_names commands) ++
    [""; bq "Use `a2abridge help <command>` for command-specific flags."]).

(** a command whose two streams are both the standard output *)
Definition merged {A} (m : IOW A) : IOW A := λ w,
  let '(a, w') := m (World (w_tree w) [] (w_acts w) (w_svc w)) in
  (a, World (w_tree w') (w_log w ++ map (λ x, (Stdout, x.2)) (w_log w')) (w_acts w') (w_svc w')).

(* src/internal/cli/cli.go (printSubcommandHelp) *)
Definition printSubcommandHelp (commands : list Command) (name : string) : IOW Z :=
  match lookup name commands with
  | None => _ ← err ("a2abridge: unknown subcommand " +:+ Quote name); mret 2
  | Some cmd => merged (cmd_Run cmd ["-h"])
  end.

(* src/internal/cli/cli.go (run) *)
Definition run (commands : list Command) (args : list string) : IOW Z :=
  match args with
  | [] => _ ← printUsage commands Stderr; mret 2
  | a :: rest =>
      if String.eqb a "-h" || String.eqb a "--help" || String.eqb a "help" then
        match rest with
        | name :: _ => printSubcommandHelp commands name
        | [] => _ ← printUsage commands Stdout; mret 0
        end
      else if String.eqb a "-v" || String.eqb a "--version" then RunVersion []
      else
        match lookup a commands with
        | None =>
            _ ← err ("a2abridge: unknown subcommand " +:+ Quote a); _ ← err ""; _ ← printUsage commands Stderr; mret 2
        | Some cmd => cmd_Run cmd rest
        end
  end.

(** * The commands of the binary *)

(** The clock of the worker, what ends the daemon, and the two commands whose model
    has a world of its own. *)
Variable clock : list action → Z.
Variable daemon : daemon_event.
Variables RunBridge RunUpdate : list string → IOW Z.

Definition names : list string :=
  ["cert"; "directory"; "bridge"; "version"; "completion"; "doctor"; "install"; "service"; "uninstall"; "update"; "worker"].

(* src/internal/cli/cert.go:14-20 (init) *)
Definition init_cert : list Command := [MkCommand "cert" "Generate ed25519 cert+key for cross-machine federation (Phase 2)" RunCert].
(* src/internal/cli/completion.go:10-16 (init) *)
Definition init_completion : list Command := [MkCommand "completion" "Print a shell completion script (bash|zsh|fish|powershell)" (RunCompletion names)].
(* src/internal/cli/doctor.go:21-27 (init) *)
Definition init_doctor : list Command := [MkCommand "doctor" "Health-check the directory daemon, IDE configs, skill and hooks" RunDoctor].
(* src/internal/cli/install.go:18-24 (init) *)
Definition init_install : list Command := [MkCommand "install" "Auto-detect IDEs and register the a2abridge MCP server in each one" RunInstall].
(* src/internal/cli/service.go:32-38 (init) *)
Definition init_service : list Command := [MkCommand "service" "Manage the directory daemon (launchd / systemd-user / Windows Service)" RunService].
(* src/internal/cli/uninstall.go:17-23 (init) *)
Definition init_uninstall : list Command := [MkCommand "uninstall" "Remove the MCP block from every IDE config, the skill, the hook and the service" RunUninstall].
(* src/internal/cli/update.go:38-44 (init) *)
Definition init_update : list Command := [MkCommand "update" "Self-update to the latest GitHub release" RunUpdate].
(* src/internal/cli/worker.go:13-19 (init) *)
Definition init_worker : list Command := [MkCommand "worker" "Run an always-online Claude worker in a detached tmux session" (RunWorker clock)].
(* src/internal/cli/cli.go:37-41 (init) *)
Definition init_cli : list Command := [
  MkCommand "directory" "Run the local A2A discovery service" (λ args, r ← RunDirectory daemon args; mret r.1);
  MkCommand "bridge" "Run as MCP stdio server (used by IDEs)" RunBridge;
  MkCommand "version" "Print version and build info" RunVersion ].

(** the init functions run in the order of the files *)
Definition registrations : list Command :=
  init_cert ++ init_cli ++ init_completion ++ init_doctor ++ init_install ++ init_service ++ init_uninstall ++ init_update ++ init_worker.

(* src/internal/cli/cli.go (registry) *)
Definition registry : list Command := default [] (register_all registrations []).

(* src/internal/cli/cli.go (Run) *)
Definition Run (args : list string) : IOW Z := run registry args.

(** ** What the command line promises *)

Lemma registry_complete : register_all registrations [] = Some registrations ∧ registry = registrations ∧ map cmd_Name registrations = names.
Proof.
  assert (Hr : register_all registrations [] = Some registrations) by reflexivity.
  split; [exact Hr|]. split; [unfold registry; by rewrite Hr|reflexivity].
Qed.

Lemma lookup_Some name l c : lookup name l = Some c → c ∈ l ∧ cmd_Name c = name.
Proof.
  induction l as [|x l IH]; [done|]. unfold lookup. cbn [find]. destruct (String.eqb_spec (cmd_Name x) name) as [<-|Hne].
  - intros [= <-]. split; [by left|done].
  - intros Hf. destruct (IH Hf). split; [by right|done].
Qed.
Lemma lookup_None name l : lookup name l = None ↔ name ∉ map cmd_Name l.
Proof.
  unfold lookup. induction l as [|x l IH]; cbn [find map]; [by split; [intros _ ?%elem_of_nil|]|].
  destruct (String.eqb_spec (cmd_Name x) name) as [<-|Hne]; [split; [done|intros Hn; exfalso; apply Hn; by left]|].
  rewrite IH. split; intros Hn; [intros [->|Hin]%elem_of_cons; auto|]. intros Hin. apply Hn. by right.
Qed.

Lemma printed {A} s (l : list string) (k : unit → IOW A) w :
  (print_lines s l ≫= k) w = k tt (World (w_tree w) (w_log w ++ map (λ x, (s, x)) l) (w_acts w) (w_svc w)).
Proof.
  revert w. induction l as [|x l IH]; intros w; [cbn; rewrite app_nil_r; by destruct w|]. cbn [print_lines map].
  unfold mbind, ST_bind in *. unfold fprintln, modify. cbn. specialize (IH (World (w_tree w) (w_log w ++ [(s, x)]) (w_acts w) (w_svc w))).
  cbn in IH. destruct (print_lines s l _) as [[] w1] eqn:E; rewrite ?E in *. rewrite IH. by rewrite <-(assoc_L app).
Qed.

(** the lines of the usage text *)
Definition usage_lines (commands : list Command) : list string :=
  ["a2abridge " +:+ BuildInfo.Version build_info +:+ " — A2A 1.0 protocol bridge for AI coding agents"; "";
    "Usage:"; "  a2abridge <command> [flags]"; ""; "Commands:"] ++
    map (λ n, "  " +:+ pad 12 n +:+ "  " +:+ match lookup n commands with Some c => cmd_Summary c | None => "" end) (sorted_names commands) ++
    [""; bq "Use `a2abridge help <command>` for command-specific flags."].

(** a world in which lines were printed and nothing else happened *)
Definition wrote_only (s : stream) (l : list string) (w w' : world) : Prop :=
  w' = World (w_tree w) (w_log w ++ map (λ x, (s, x)) l) (w_acts w) (w_svc w).

(** the spellings of help and version *)
Definition help_words : list string := ["-h"; "--help"; "help"].
Definition version_words : list string := ["-v"; "--version"].

Section dispatch.
Variable commands : list Command.

Lemma usage_run s code w : ((_ ← printUsage commands s; mret code) : IOW Z) w =
  (code, World (w_tree w) (w_log w ++ map (λ x, (s, x)) (usage_lines commands)) (w_acts w) (w_svc w)).
Proof. unfold printUsage. rewrite printed. reflexivity. Qed.

Lemma run_help a w : a ∈ help_words → run commands [a] w = ((_ ← printUsage commands Stdout; mret 0) : IOW Z) w.
Proof. intros Ha. repeat (apply elem_of_cons in Ha as [->|Ha]; [reflexivity|]). by apply elem_of_nil in Ha. Qed.

Lemma run_help_of a name rest w : a ∈ help_words → run commands (a :: name :: rest) w = printSubcommandHelp commands name w.
Proof. intros Ha. repeat (apply elem_of_cons in Ha as [->|Ha]; [reflexivity|]). by apply elem_of_nil in Ha. Qed.

Lemma run_other a rest w : a ∉ help_words → a ∉ version_words → run commands (a :: rest) w =
  match lookup a commands with
  | None => (_ ← err ("a2abridge: unknown subcommand " +:+ Quote a); _ ← err ""; _ ← printUsage commands Stderr; mret 2) w
  | Some cmd => cmd_Run cmd rest w
  end.
Proof.
  intros Ha1 Ha2. unfold run.
  assert (Hh : String.eqb a "-h" || String.eqb a "--help" || String.eqb a "help" = false) by (rewrite !orb_false_iff, !String.eqb_neq; set_solver).
  assert (Hv : String.eqb a "-v" || String.eqb a "--version" = false) by (rewrite !orb_false_iff, !String.eqb_neq; set_solver).
  rewrite Hh, Hv. by destruct (lookup a commands).
Qed.

Lemma run_unknown a rest w : a ∉ help_words → a ∉ version_words → a ∉ map cmd_Name commands →
  (run commands (a :: rest) w).1 = 2 ∧
  wrote_only Stderr (("a2abridge: unknown subcommand " +:+ Quote a) :: "" :: usage_lines commands) w (run commands (a :: rest) w).2.
Proof.
  intros Ha1 Ha2 Hn. rewrite run_other by done. apply lookup_None in Hn. rewrite Hn.
  change ((_ ← err ("a2abridge: unknown subcommand " +:+ Quote a); _ ← err ""; _ ← printUsage commands Stderr; mret 2) w) with
    (((_ ← printUsage commands Stderr; mret 2) : IOW Z)
      (World (w_tree w) ((w_log w ++ [(Stderr, "a2abridge: unknown subcommand " +:+ Quote a)]) ++ [(Stderr, "")]) (w_acts w) (w_svc w))).
  rewrite usage_run. split; [done|]. unfold wrote_only. cbn [fst snd w_tree w_log w_acts w_svc map]. by rewrite <-!(assoc_L app).
Qed.

Lemma help_streams name w : name ∈ map cmd_Name commands →
  ∃ l, w_log (printSubcommandHelp commands name w).2 = w_log w ++ l ∧ Forall (λ x, x.1 = Stdout) l.
Proof.
  intros Hn. unfold printSubcommandHelp. destruct (lookup name commands) as [c|] eqn:El; [|by apply lookup_None in El].
  unfold merged. destruct (cmd_Run c ["-h"] _) as [code w']. cbn [snd w_log]. eexists. split; [done|]. apply Forall_fmap, Forall_forall. by intros [].
Qed.
End dispatch.

Lemma names_plain name : name ∈ names → name ∉ help_words ∧ name ∉ version_words.
Proof.
  intros Hn. split; apply (bool_decide_unpack _); repeat (apply elem_of_cons in Hn as [->|Hn]; [vm_compute; exact I|]); by apply elem_of_nil in Hn.
Qed.

(** ** What a completion script offers *)

Fixpoint cut_text (sep s : string) : option (string * string) :=
  match cut_prefix sep s with
  | Some t => Some ("", t)
  | None => match s with "" => None | String a t => '(x, y) ← cut_text sep t; Some (String a x, y) end
  end.
(** the text between the first [a] and the next [b] *)
Definition between (a b s : string) : string :=
  match cut_text a s with
  | Some (_, t) => match cut_text b t with Some (x, _) => x | None => "" end
  | None => ""
  end.

(** The words each script passes to its shell's completion: of [compgen -W], of the
    array, of every [complete -a], of the array's quoted elements. *)
Definition listed (shell : string) : option (string → list string) :=
  if String.eqb shell "bash" then Some (λ s, fields (between (bq "compgen -W `") (bq "`") s))
  else if String.eqb shell "zsh" then Some (λ s, fields (between "subcommands=(" ")" s))
  else if String.eqb shell "fish" then Some (λ s, filterb (λ x, negb (String.eqb x "")) (map (between " -a '" "'") (split_char nlc s)))
  else if String.eqb shell "powershell" || String.eqb shell "pwsh" then
    Some (λ s, map (between "'" "'") (fields (between "@(" ")" s)))
  else None.

(** the commands and help, sorted *)
Definition completions : list string :=
  ["bridge"; "cert"; "completion"; "directory"; "doctor"; "help"; "install"; "service"; "uninstall"; "update"; "version"; "worker"].

Lemma completion_lists (arg : string) (rest : list string) (w : world) :
  let r := RunCompletion names (arg :: rest) w in
  match listed (ToLower arg) with
  | Some read => r.1 = 0 ∧ ∃ script, wrote_only Stdout [script] w r.2 ∧ read script = completions
  | None => r.1 = 2 ∧
      wrote_only Stderr ["completion: unsupported shell " +:+ Quote (ToLower arg) +:+ " (want: bash|zsh|fish|powershell)"] w r.2
  end.
Proof.
  cbv zeta. unfold RunCompletion, listed. set (shell := ToLower arg). clearbody shell. set (cmds := isort str_compare _).
  destruct (String.eqb shell "bash"); [split; [done|]; exists (bashScript cmds); by vm_compute|].
  destruct (String.eqb shell "zsh"); [split; [done|]; exists (zshScript cmds); by vm_compute|].
  destruct (String.eqb shell "fish"); [split; [done|]; exists (fishScript cmds); by vm_compute|].
  destruct (_ || _); [split; [done|]; exists (powershellScript cmds); by vm_compute|]. done.
Qed.

(** C28: The command line. The eleven names are registered once each, none of them a
    spelling of help or version, and a registered command gets the arguments after
    its name and decides the exit code. Without a command and for an unknown one the
    usage goes to standard error with code 2 and nothing else happens; asked for
    help it goes to standard output with code 0. Help for a command never writes to
    standard error. The usage has a line with the name and the summary of every
    command, and the completion script of every supported shell lists the eleven
    commands and help, sorted, and is all that is printed; for another shell the
    code is 2. *)
Theorem Run_spec :
  map cmd_Name registry = names ∧ NoDup names ∧
  (∀ w, (Run [] w).1 = 2 ∧ wrote_only Stderr (usage_lines registry) w (Run [] w).2) ∧
  (∀ a w, a ∈ help_words → (Run [a] w).1 = 0 ∧ wrote_only Stdout (usage_lines registry) w (Run [a] w).2) ∧
  (∀ name rest w, name ∈ names → ∃ c, c ∈ registrations ∧ cmd_Name c = name ∧ Run (name :: rest) w = cmd_Run c rest w) ∧
  (∀ a rest w, a ∉ names → a ∉ help_words → a ∉ version_words →
     (Run (a :: rest) w).1 = 2 ∧
     wrote_only Stderr (("a2abridge: unknown subcommand " +:+ Quote a) :: "" :: usage_lines registry) w (Run (a :: rest) w).2) ∧
  (∀ a name rest w, a ∈ help_words → name ∈ names →
     ∃ l, w_log (Run (a :: name :: rest) w).2 = w_log w ++ l ∧ Forall (λ x, x.1 = Stdout) l) ∧
  (∀ n, n ∈ names → ∃ c, c ∈ registrations ∧ cmd_Name c = n ∧ "  " +:+ pad 12 n +:+ "  " +:+ cmd_Summary c ∈ usage_lines registry) ∧
  completions ≡ₚ "help" :: names ∧
  (∀ arg rest w, let r := Run ("completion" :: arg :: rest) w in
     match listed (ToLower arg) with
     | Some read => r.1 = 0 ∧ ∃ script, wrote_only Stdout [script] w r.2 ∧ read script = completions
     | None => r.1 = 2 ∧
         wrote_only Stderr ["completion: unsupported shell " +:+ Quote (ToLower arg) +:+ " (want: bash|zsh|fish|powershell)"] w r.2
     end) ∧
  (∀ shell, shell ∈ ["bash"; "zsh"; "fish"; "powershell"; "pwsh"] → is_Some (listed (ToLower shell))).
Proof.
  assert (Hcompl : ∀ args w, Run ("completion" :: args) w = RunCompletion names args w) by reflexivity.
  assert (Hlist : ∀ arg rest w, let r := Run ("completion" :: arg :: rest) w in
     match listed (ToLower arg) with
     | Some read => r.1 = 0 ∧ ∃ script, wrote_only Stdout [script] w r.2 ∧ read script = completions
     | None => r.1 = 2 ∧
         wrote_only Stderr ["completion: unsupported shell " +:+ Quote (ToLower arg) +:+ " (want: bash|zsh|fish|powershell)"] w r.2
     end) by (intros arg rest w; rewrite Hcompl; apply completion_lists).
  revert Hlist. clear Hcompl.
  destruct registry_complete as (_ & Hreg & Hnames). rewrite <-Hreg in Hnames.
  assert (Hin : ∀ c, c ∈ registry → c ∈ registrations) by (intros c; by rewrite Hreg).
  clear Hreg. unfold Run. revert Hnames Hin. generalize registry registrations. intros commands regs Hnames Hin Hlist. split_and!.
  - done.
  - apply (bool_decide_unpack _). vm_compute. exact I.
  - intros w. change (run commands [] w) with (((_ ← printUsage commands Stderr; mret 2) : IOW Z) w). by rewrite usage_run.
  - intros a w Ha. by rewrite run_help, usage_run.
  - intros name rest w Hn. destruct (names_plain name Hn) as [N1 N2]. rewrite run_other by done.
    destruct (lookup name commands) as [c|] eqn:El.
    + apply lookup_Some in El as [Hc Hm]. exists c. auto.
    + apply lookup_None in El. by rewrite Hnames in El.
  - intros a rest w Hn Hs Hv. apply run_unknown; [done|done|by rewrite Hnames].
  - intros a name rest w Ha Hn. rewrite run_help_of by done. apply help_streams. by rewrite Hnames.
  - intros n Hn. destruct (lookup n commands) as [c|] eqn:El; [|apply lookup_None in El; by rewrite Hnames in El].
    pose proof El as [Hc Hm]%lookup_Some. exists c. split_and!; [by apply Hin|done|]. unfold usage_lines.
    apply elem_of_app. right. apply elem_of_app. left. apply list_elem_of_In, in_map_iff. exists n. rewrite El. split; [done|].
    apply list_elem_of_In. unfold sorted_names. by rewrite isort_perm, Hnames.
  - assert (Hc : completions = isort str_compare ("help" :: names)) by (vm_compute; reflexivity). rewrite Hc. apply isort_perm.
  - exact Hlist.
  - clear. intros shell Hs.
    repeat (apply elem_of_cons in Hs as [->|Hs]; [match goal with |- is_Some (listed (ToLower ?s)) =>
      replace (ToLower s) with s by (vm_compute; reflexivity) end; eexists; reflexivity|]).
    by apply elem_of_nil in Hs.
Qed.
End cli.

(** ** What does not hold *)

(** The command completion has no help: asking for it is an error. *)
Lemma completion_help w : @eval world Z (@RunCompletion sample_system names ["-h"]) w = 2.
Proof. vm_compute. reflexivity. Qed.

(** The names in the script for PowerShell are not separated by commas. *)
Lemma powershell_array : powershellScript ["bridge"; "cert"] = 
  lines ["# a2abridge PowerShell completion"; "Register-ArgumentCompleter -CommandName a2abridge -ScriptBlock {";
    "  param($wordToComplete, $commandAst, $cursorPosition)"; "  $subs = @('bridge' 'cert')";
    bq "  $subs | Where-Object { $_ -like `$wordToComplete*` } |";
    "    ForEach-Object { [System.Management.Automation.CompletionResult]::new($_, $_, 'ParameterValue', $_) }"; "}"].
Proof. vm_compute. reflexivity. Qed.
